(* ===== verification/_CoqProject ===== *)
-Q . S2P
Prelude.v
Csum.v
Wire.v
Subopt.v
Event.v
Prefix.v
Text.v
State.v
Iface.v
Build.v
Dag.v
Filters.v
DagFacts.v
Safety.v
Handlers.v
Routes.v
Neighbour.v
World.v
Join.v
Eui.v
Netlink.v
Frames.v
MainLoop.v
Rtnl.v
Devid.v
Sunshine.v
Worlds.v
Timers.v
Links.v
Sound.v
Solicit.v
Total.v
Serving.v
Announce.v
Loop.v
Start.v
Devices.v
Tools.v
Widths.v
Log.v
Hexdump.v
Setup.v
Grasp.v
