(* ===== verification/Prelude.v ===== *)
(** * Unstrung: a verification development

    Unstrung is a daemon that routes IPv6 in a low-power mesh with RPL (RFC
    6550).  It listens on its interfaces for the four RPL messages (DIO, DIS,
    DAO, DAO-ACK) and for neighbour discovery, keeps a [dag_network] for every
    DODAG it takes part in, chooses a parent, numbers itself from the prefix the
    DODAG announces, announces itself upwards, and gives the kernel its routes
    through [ip] commands.  A node without a certificate joins through a
    neighbour, which asks a registrar over GRASP.

    The development is a model of that daemon as Rocq functions, and theorems
    about the functions.  An execution is a value of [outcome]: a result, or the
    [fault] that ends the meaning of a C++ program (an access outside an object,
    a null pointer, a pointer to a deleted object, a failed [assert]).  Stateful
    methods are computations [comp S], state passing over [outcome].

    ** How the parts fit together

    - A packet is read by [rcv_icmp6] and dispatched on its type and code
      ([World.receive_packet]); an RPL message goes to the DAG its instance and
      DODAG id name, which is made when there is none ([World.receive_dio] ...).
    - The handler of the DAG ([Dag.dag_receive_dio] ...) walks the options of the
      message with the scanner of [Subopt], changes the members, the prefixes,
      the parent and the rank in [Dag], and arms timers in [Event].
    - A timer that fires ([World.doit]) builds a message ([Build]) and sends it
      over every interface ([Iface], [Dag]).
    - The main loop ([MainLoop.loop_turn]) runs the timers that are due, waits,
      and hands over what has arrived: packets, the kernel's announcements of
      links and addresses ([Netlink]), answers of the registrar ([Neighbour]).

    ** The files

    - [Prelude]: faults, [outcome], the state monad [comp] with its notations, C
      integers and their wrap-around, memory accesses, the lemmas and tactics all
      the files share.
    - [Csum]: the Internet checksum of [lib/libndmgmt/iface.cpp].
    - [Wire]: the structs of [include/rpl.h] and [include/neighbour.h]: a record
      each, its image in memory and what a cast reads, with the round trip.
    - [Subopt]: [rpl_msg] of [lib/libndmgmt/rplmsg.cpp], the scanner of options.
    - [Event]: [rpl_event] and [rpl_event_queue] ([event.cpp], [include/event.h]).
    - [Prefix]: [ip_address], [ip_subnet], [rpl_node], [prefix_node] and
      [prefix_map] ([node.cpp], [prefix.cpp], [lib/libosw]).
    - [Text]: numbers, addresses and subnets as text ([lib/libosw]); [Filters]:
      the interface filters of an operator ([dag.cpp]); [Eui]: EUI text
      ([ifacefuncs.cpp]) and the node name of a certificate
      ([lib/libidevid/rfc8994acp.cpp]).
    - [State]: the records [dag_network] and [network_interface], the static
      members of the classes, and the log of what went to the system.
    - [Iface]: the interface object ([iface.cpp]) and the commands to the kernel
      ([netlink.cpp]).
    - [Build]: [build_dio], [build_dao], [build_daoack], [build_dis]
      ([dio.cpp], [dao.cpp], [daoack.cpp], [dis.cpp]).
    - [Dag]: [dag_network] ([dag.cpp], [prefix.cpp]); [DagFacts], [Handlers] and
      [Routes]: theorems about it; [Safety]: its invariant.
    - [Neighbour]: neighbour discovery, the join assistant and the GRASP client
      ([neighboursolicit.cpp], [neighbouradvert.cpp], [node.cpp],
      [lib/libgrasp/client.cpp]); [Join]: theorems about it.
    - [World]: the list of DAGs, the reception of packets and the timers;
      [Worlds]: the invariant of the whole program.
    - [Netlink]: announcements of links and addresses ([netlink.cpp]); [Links]:
      theorems about them.
    - [Frames]: the interface over recorded packets
      ([lib/libfakeiface/pcap_iface.cpp]).
    - [MainLoop]: [network_interface::main_loop]; [Timers]: theorems about its
      timers; [Sound]: the invariant of what is stored; [Total]: methods of a DAG
      that keep it and return; [Solicit]: the same for neighbour discovery;
      [Serving] and [Announce]: the program while it serves, and what the kernel
      announces to it; [Loop]: every turn of the loop keeps that state.
    - [Rtnl]: netlink messages and attributes as bytes, and the functions over the
      socket ([lib/libnetlink/libnetlink.c]); [Devices]: the heads of the
      callbacks of [netlink.cpp], which take a message apart, and the request for
      a 6LoWPAN link.
    - [Devid]: [device_identity] of [lib/libidevid/eui64.cpp], the certificate of a
      node, over the functions of mbedtls.
    - [Sunshine]: [main] of [programs/sunshine/main.cpp], from the options to the
      main loop; [Start]: theorems about it.
    - [Tools]: the programs [senddio], [senddao], [sendnd] and [peck], which send
      one message.
    - [Widths]: the widths of the integers of every DAG, kept by the whole program.
    - [Log]: the log ([debug.cpp], [include/debug.h]) and the line buffer it
      implements; [Hexdump]: the dump of bytes ([include/hexdump.c]).
    - [Grasp]: the connection to the registrar in descriptors and bytes
      ([lib/libgrasp/client.cpp]).
    - [Setup]: the switch for IPv6, the hardware address ([netlink.cpp]) and the
      files of recorded packets ([pcap_iface.cpp]).

    A definition has the name of the function it models.  An object of the
    program is an index into a store of the model; a [std::map] or list that the
    code shares is one component of the state; a buffer is a list of bytes of the
    size the code gives it.  Two constructs of C++ have classes in place of
    definitions, because they are not code of the program: [EventHeap] (the
    binomial heap of boost: [top] is a least element of the order it is given)
    and [PrefixMapSem] (what a [std::map] does with a comparison that is not an
    order); both have instances.  [Mbedtls] is the library of that name, with what
    it documents of its reader of tags in [MbedtlsLaws]; [Libcbor] and [LibcborLaws]
    are the same for libcbor, with a codec as their instance.  [fnmatch] and the lookups
    of names are parameters, and so is the clock.

    ** What the theorems show

    - Safety: a daemon that is started with a sound command line, whatever links
      and addresses the kernel lists, reaches its main loop ([Start]) and serves:
      every turn of the loop, with timers that fire, packets that arrive (RPL,
      neighbour solicitations and all others), links and addresses that appear,
      registrars that answer and the signal that asks for a scan, ends without a
      fault in a state of which the same is true ([Loop]).  Below that: a well-formed packet takes a well-formed
      world to a well-formed world ([Worlds]); the timers that fire do not fault,
      the loop over them ends and leaves nothing that is due ([Timers]).
    - Types: from the command line on, whatever arrives, the integers of every DAG
      stay in the types the code declares them with ([Widths]).
    - Refinement: the handlers of a DIO and of a DAO, which scan bytes, do what
      [dio_spec] and [dao_spec] say of the decoded message ([Handlers]); a
      message one DAG builds has on the DAG that receives it the effect of its
      content ([Routes]).  The bytes the kernel sends over netlink have the effect
      of the announcements they encode ([Devices]), those of the registrar the effect
      of the item they encode ([Grasp]).  The log is a buffer of one line ([Log]), the
      dump of bytes a list of rows ([Hexdump]).
    - Programs: the message a command line of [senddio] sends; the hexadecimal
      files the tools read ([Tools]); the EUI-64 of a certificate ([Devid]).
    - Function: the parent, the rank and the prefix after a DIO, the routes after
      an acknowledgement and for a child, the order of the timers, the state of
      an interface the kernel announces, the query and the verdict of a join.
    - Round trips: structs, messages, text of addresses and of identifiers,
      frames with their checksum.
    - Bounds and errors: what the code does on inputs that it
      does not check (a truncated option, a prefix longer than an address, an
      option of length zero, a rank or a counter at the end of its range).

    ** Bounds and fuel

    Every loop of the code that is not structural has fuel, and a theorem says
    that the fuel is enough, or that the loop of the code does not end: the scan
    of options (2049, one more than the bytes of the array; [search_subopt_total]),
    the options of a neighbour solicitation (one more than its length;
    [find_aro_first], and [zero_length_option_hangs] for the length that does not
    end), the carry of microseconds (one more than the seconds they make), the
    digits of a number (21 after the first in base 8, the most that 64 bits
    have), the datagrams of a netlink socket (one more than are waiting; 1025 for
      the messages of an answer of 16384 bytes), the characters of a hexadecimal
      file (one more than it has; [stray_character_hangs] when the loop of the code
      does not end), the events that are due (one more than the queue;
    [run_due_terminates], and [zero_interval_spins] for the period that does not
    end).  Integers have the width of the code where they are stored or
    compared: the 16-bit rank and DAO counter, the 8-bit sequence number, the
    32-bit rank of the DAG.

    ** What is not modelled

    - In [lib/libnetlink], which is vendored, the opening of sockets, the tables of
      names of [rt_names.c] and the parsers of [utils.c], which the daemon does not
      use.
    - mbedtls, which reads an X.509 certificate: [Devid] starts from the places of
      the names in its bytes.
    - libcbor, which turns values into bytes and back: [Neighbour] exchanges CBOR
      values, and [Grasp] says when bytes are such a value.
    - The contents of pcap files, which libpcap reads and writes.
    - The texts of the log: [Log] takes what [vsnprintf] makes of a call; the names of
      DAGs and the statistics are only printed.
    - [getopt_long]: [Sunshine] and [Tools] start from the options it finds.
    - The calls of [libpcap] and of sockets have their answers as arguments; a random
      session id, whose code is compiled out; the tests under [testing/].

    ** What the model shows of the code

    The theorems on errors state faults the code has: among them
    an option that claims more than the message holds is read past its end
    ([truncated_option_overread]), [prefix_less] is not an order
    ([prefix_less_both_ways]), so that a target that is announced again gets a new
    route every time ([repeated_target_grows]), no acknowledgement is
    accepted once the DAO counter passes 255 ([daoack_lost_after_255]), the
    log writes past its buffer when a line is too long ([long_piece_overruns]), the
    end of an interface deletes timers that the DAGs hold
    ([unplug_breaks_dio]), and text that is not an address is taken for one
    without a value ([name_taken_for_address]); without a DAG the program goes
    through a null pointer ([no_instance_never_starts]).

    ** Plan

    Every part of the program that keeps state is modelled.  What could still be added:
    the names of DODAGs and the statistics in the log, and the sockets of netlink. *)

From Stdlib Require Import ZArith Lia.
From stdpp Require Import base list gmap numbers.

Declare Scope unstrung_scope.
Delimit Scope unstrung_scope with unstrung.
#[global] Open Scope unstrung_scope.
#[local] Open Scope Z_scope.

(** * Results that can go wrong

    A C++ execution either returns or does something the language gives no
    meaning to; [Fault] records which.  [OutOfFuel] is only an artefact of the
    bounded loops of the model: every bounded loop comes with a theorem that it
    is not reached, or with one that says the loop of the code does not end. *)
Inductive fault :=
| OutOfBounds      (** an access outside the object it is made through *)
| NullDeref        (** a dereference of a null pointer *)
| UseAfterFree     (** an access through a pointer to a deleted object *)
| AssertFailed     (** an [assert] that does not hold *)
| OutOfFuel.

#[global] Instance fault_eq_dec : EqDecision fault.
Proof. solve_decision. Defined.

Inductive outcome (A : Type) :=
| Ok (a : A)
| Fault (f : fault).
Arguments Ok {A} a.
Arguments Fault {A} f.

#[global] Instance outcome_ret : MRet outcome := fun A a => Ok a.
#[global] Instance outcome_bind : MBind outcome := fun A B k m =>
  match m with Ok a => k a | Fault f => Fault f end.
#[global] Instance outcome_fmap : FMap outcome := fun A B k m =>
  match m with Ok a => Ok (k a) | Fault f => Fault f end.

Definition is_ok {A} (m : outcome A) : bool :=
  match m with Ok _ => true | Fault _ => false end.

(** * Stateful code: a state monad over [outcome] *)
Definition M (S A : Type) : Type := S -> outcome (A * S).

#[global] Instance M_ret {S} : MRet (M S) := fun A a s => Ok (a, s).
#[global] Instance M_bind {S} : MBind (M S) := fun A B k m s =>
  match m s with Ok (a, s') => k a s' | Fault f => Fault f end.

Definition get {S} : M S S := fun s => Ok (s, s).
Definition gets {S A} (f : S -> A) : M S A := fun s => Ok (f s, s).
Definition modify {S} (f : S -> S) : M S unit := fun s => Ok (tt, f s).
Definition fail {S A} (f : fault) : M S A := fun _ => Fault f.
Definition lift {S A} (m : outcome A) : M S A := fun s =>
  match m with Ok a => Ok (a, s) | Fault f => Fault f end.
Definition when {S} (b : bool) (m : M S unit) : M S unit :=
  if b then m else mret tt.

(** Run a computation on a component of the state. *)
Definition zoom {S T A} (gt : S -> T) (st : T -> S -> S) (m : M T A) : M S A := fun s =>
  match m (gt s) with Ok (a, t) => Ok (a, st t s) | Fault f => Fault f end.

Lemma bind_ok {S A B} (m : M S A) (k : A -> M S B) s a s' :
  m s = Ok (a, s') -> (m ≫= k) s = k a s'.
Proof. intros E. unfold mbind, M_bind. by rewrite E. Qed.
Lemma bind_fault {S A B} (m : M S A) (k : A -> M S B) s f :
  m s = Fault f -> (m ≫= k) s = Fault f.
Proof. intros E. unfold mbind, M_bind. by rewrite E. Qed.

Lemma bind_inv {S A B} (m : M S A) (k : A -> M S B) s b s' :
  (m ≫= k) s = Ok (b, s') -> exists a s1, m s = Ok (a, s1) /\ k a s1 = Ok (b, s').
Proof. unfold mbind, M_bind. destruct (m s) as [[a s1]|]; [|done]. by exists a, s1. Qed.

Lemma out_bind_inv {A B} (o : outcome A) (k : A -> outcome B) b :
  (o ≫= k) = Ok b -> exists a, o = Ok a /\ k a = Ok b.
Proof. destruct o as [a|]; [|done]. by exists a. Qed.

(** Two computations that start alike and go on alike. *)
Lemma bind_cong {S A B} (m : M S A) (k k' : A -> M S B) s :
  (forall a s', m s = Ok (a, s') -> k a s' = k' a s') -> (m ≫= k) s = (m ≫= k') s.
Proof. intros Hk. unfold mbind, M_bind. destruct (m s) as [[a s']|] eqn:E; [by apply Hk|done]. Qed.

(** Equations of chains, from one state. *)
Lemma bind_out_cong {S A B} (p q : M S A) (k : A -> M S B) s : p s = q s -> (p ≫= k) s = (q ≫= k) s.
Proof. intros E. unfold mbind, M_bind. by rewrite E. Qed.
Lemma then_assoc {S A B} (p : M S unit) (a : A) (k : A -> M S B) s : ((p ;; mret a) ≫= k) s = (p ;; k a) s.
Proof. unfold mbind, M_bind. destruct (p s) as [[[] s']|]; done. Qed.
Lemma chain_assoc {S A B C} (p : M S A) (q : A -> M S B) (k : B -> M S C) s : ((p ≫= q) ≫= k) s = (p ≫= (fun x => q x ≫= k)) s.
Proof. unfold mbind, M_bind. by destruct (p s) as [[x s']|]. Qed.
Lemma then_cong {S A} (p : M S unit) (k k' : M S A) s : (forall s', k s' = k' s') -> (p ;; k) s = (p ;; k') s.
Proof. intros E. apply bind_cong. intros [] s' _. apply E. Qed.
Lemma bind_then {S A B} (p : M S unit) (q : M S A) (k : A -> M S B) s : ((p ;; q) ≫= k) s = (p ;; (q ≫= k)) s.
Proof. apply chain_assoc. Qed.

(** A loop over the elements of a list, in order. *)
Fixpoint for_each {S A} (l : list A) (body : A -> M S unit) : M S unit :=
  match l with
  | [] => mret tt
  | a :: l' => body a ;; for_each l' body
  end.

(** ** What a computation leaves alone

    [keeps R m]: whenever [m] returns, the states before and after are related
    by [R].  The tactic [keep] walks through a computation, calling the hints of
    the database [keep] at the calls. *)
Definition keeps {S A} (R : S -> S -> Prop) (m : M S A) : Prop :=
  forall s a s', m s = Ok (a, s') -> R s s'.

Section keeps.
Context {S : Type} (R : S -> S -> Prop) `{!PreOrder R}.

Lemma keeps_ret {A} (a : A) : keeps R (mret a).
Proof. intros s a' s' [= _ <-]. reflexivity. Qed.
Lemma keeps_bind {A B} (m : M S A) (k : A -> M S B) :
  keeps R m -> (forall a, keeps R (k a)) -> keeps R (m ≫= k).
Proof.
  intros Hm Hk s b s'. unfold mbind, M_bind. destruct (m s) as [[a s1]|] eqn:E; [|done].
  intros Hb. etransitivity; [by eapply Hm|by eapply Hk].
Qed.
Lemma keeps_get : keeps R get.
Proof. intros s a s' [= _ <-]. reflexivity. Qed.
Lemma keeps_gets {A} (f : S -> A) : keeps R (gets f).
Proof. intros s a s' [= _ <-]. reflexivity. Qed.
Lemma keeps_fail {A} f : keeps R (@fail S A f).
Proof. by intros s a s'. Qed.
Lemma keeps_lift {A} (m : outcome A) : keeps R (lift m).
Proof. intros s a s'. unfold lift. destruct m; [|done]. intros [= _ <-]. reflexivity. Qed.
Lemma keeps_lift_bind {A B} (m : outcome A) (k : A -> M S B) :
  (forall a, m = Ok a -> keeps R (k a)) -> keeps R (lift m ≫= k).
Proof. intros Hk s b s'. unfold mbind, M_bind, lift. destruct m as [a|]; [|done]. by apply Hk. Qed.
Lemma keeps_modify f : (forall s, R s (f s)) -> keeps R (modify f).
Proof. intros Hf s a s' [= _ <-]. apply Hf. Qed.
Lemma keeps_when b (m : M S unit) : keeps R m -> keeps R (when b m).
Proof. intros. unfold when. destruct b; [done|]. apply keeps_ret. Qed.
Lemma keeps_for_each {A} (l : list A) body : (forall a, keeps R (body a)) -> keeps R (for_each l body).
Proof.
  intros Hb. induction l as [|a l IH]; cbn [for_each]; [apply keeps_ret|].
  apply keeps_bind; [apply Hb|by intros _].
Qed.
End keeps.

(** Total correctness: from a state with [P], [m] returns, in a state with [Q]. *)
Definition safe {S A} (P : S -> Prop) (m : M S A) (Q : A -> S -> Prop) : Prop :=
  forall s, P s -> exists a s', m s = Ok (a, s') /\ Q a s'.

Section safe.
Context {S : Type}.
Lemma safe_ret {A} (P : S -> Prop) (a : A) : safe P (mret a) (fun b s => b = a /\ P s).
Proof. intros s Hs. by exists a, s. Qed.
Lemma safe_bind {A B} P (m : M S A) Q (k : A -> M S B) R :
  safe P m Q -> (forall a, safe (Q a) (k a) R) -> safe P (m ≫= k) R.
Proof.
  intros Hm Hk s Hs. destruct (Hm s Hs) as (a & s1 & E & Ha).
  destruct (Hk a s1 Ha) as (b & s2 & E' & Hb). exists b, s2. split; [|done].
  by rewrite (bind_ok _ _ _ a s1).
Qed.
Lemma safe_weaken {A} (P P' : S -> Prop) (m : M S A) (Q Q' : A -> S -> Prop) :
  safe P' m Q' -> (forall s, P s -> P' s) -> (forall a s, Q' a s -> Q a s) -> safe P m Q.
Proof. intros Hm HP HQ s Hs. destruct (Hm s (HP s Hs)) as (a & s' & E & Ha). exists a, s'. auto. Qed.
Lemma safe_modify (P Q : S -> Prop) f : (forall s, P s -> Q (f s)) -> safe P (modify f) (fun _ => Q).
Proof. intros Hf s Hs. exists tt, (f s). split; [done|auto]. Qed.
(** Reading the state: the rest may assume it. *)
Lemma safe_gets {A B} P (f : S -> A) (k : A -> M S B) R :
  (forall s0, P s0 -> safe (fun s => s = s0) (k (f s0)) R) -> safe P (gets f ≫= k) R.
Proof.
  intros Hk s Hs. destruct (Hk s Hs s eq_refl) as (b & s' & E & Hb). exists b, s'. split; [|done].
  by rewrite (bind_ok _ _ _ (f s) s).
Qed.
Lemma safe_frame {A} P (m : M S A) Q (R : S -> S -> Prop) (F : S -> Prop) :
  safe P m Q -> keeps R m -> (forall s s', R s s' -> F s -> F s') ->
  safe (fun s => P s /\ F s) m (fun a s => Q a s /\ F s).
Proof.
  intros Hm Hk HF s [Hs Hf]. destruct (Hm s Hs) as (a & s' & E & Ha).
  exists a, s'. split; [done|]. split; [done|]. eapply HF; [by eapply Hk|done].
Qed.
Lemma safe_when P b (m : M S unit) : safe P m (fun _ => P) -> safe P (when b m) (fun _ => P).
Proof. intros Hm. destruct b; [done|]. intros s Hs. by exists tt, s. Qed.
Lemma safe_for_each {A} (P : S -> Prop) (l : list A) (body : A -> M S unit) :
  (forall a, a ∈ l -> safe P (body a) (fun _ => P)) -> safe P (for_each l body) (fun _ => P).
Proof.
  induction l as [|a l IH]; intros Hb; cbn [for_each].
  - intros s Hs. by exists tt, s.
  - eapply safe_bind; [apply Hb; by left|]. intros u. apply IH. intros x Hx. apply Hb. by right.
Qed.
End safe.

(** Partial correctness with an invariant: when [m] returns from a state with
    [I], the state it leaves has [I] and the answer has [Q].  The tactic [holding]
    walks through a computation, calling the hints of the database [holds]. *)
Definition holds {S A} (I : S -> Prop) (m : M S A) (Q : A -> Prop) : Prop :=
  forall s a s', I s -> m s = Ok (a, s') -> I s' /\ Q a.
Abbreviation holds_ I m := (holds I m (fun _ => True)).

Section holds.
Context {S : Type} (I : S -> Prop).

Lemma holds_ret {A} (a : A) (Q : A -> Prop) : Q a -> holds I (mret a) Q.
Proof. by intros Ha s x s' Hs [= <- <-]. Qed.
Lemma holds_bind {A B} (m : M S A) (k : A -> M S B) P Q :
  holds I m P -> (forall a, P a -> holds I (k a) Q) -> holds I (m ≫= k) Q.
Proof.
  intros Hm Hk s b s' Hs E. apply bind_inv in E as (a & s1 & E1 & E2).
  destruct (Hm _ _ _ Hs E1). by eapply Hk.
Qed.
Lemma holds_weaken {A} (m : M S A) (P Q : A -> Prop) : holds I m P -> (forall a, P a -> Q a) -> holds I m Q.
Proof. intros Hm HPQ s a s' Hs E. destruct (Hm _ _ _ Hs E). auto. Qed.
Lemma holds_gets {A} (f : S -> A) : holds I (gets f) (fun a => exists s, I s /\ a = f s).
Proof. intros s a s' Hs [= <- <-]. eauto. Qed.
Lemma holds_get : holds I get I.
Proof. by intros s a s' Hs [= <- <-]. Qed.
Lemma holds_modify f : (forall s, I s -> I (f s)) -> holds_ I (modify f).
Proof. intros Hf s a s' Hs [= _ <-]. auto. Qed.
Lemma holds_fail {A} f (Q : A -> Prop) : holds I (fail f) Q.
Proof. by intros s a s'. Qed.
Lemma holds_lift {A} (m : outcome A) : holds I (lift m) (fun a => m = Ok a).
Proof. intros s a s' Hs. unfold lift. destruct m; [|done]. by intros [= <- <-]. Qed.
Lemma holds_when b (m : M S unit) : holds_ I m -> holds_ I (when b m).
Proof. intros. destruct b; [done|]. by apply holds_ret. Qed.
Lemma holds_for_each {A} (l : list A) body :
  (forall a, a ∈ l -> holds_ I (body a)) -> holds_ I (for_each l body).
Proof.
  induction l as [|a l IH]; intros Hb; cbn [for_each]; [by apply holds_ret|].
  eapply holds_bind; [apply Hb; by left|]. intros _ _. apply IH. intros x Hx. apply Hb. by right.
Qed.
End holds.

Create HintDb holds.
#[export] Hint Resolve holds_get holds_gets holds_lift : holds.
Ltac holds_step :=
  lazymatch goal with
  | |- holds _ (mbind _ _) _ =>
      first [ eapply holds_bind; [solve [eauto 4 with holds]|intros ? ?]
            | apply (holds_bind _ _ _ (fun _ => True)); [|intros ? ?] ]
  | |- holds _ (mret _) _ => apply holds_ret
  | |- holds _ (fail _) _ => apply holds_fail
  | |- holds _ (when _ _) _ => apply holds_when
  | |- holds _ (for_each _ _) _ => apply holds_for_each; intros ? ?
  | |- holds _ (match ?x with _ => _ end) _ => destruct x eqn:?
  | |- holds _ (let '_ := ?x in _) _ => destruct x eqn:?
  end.
Ltac holding :=
  repeat first [ solve [eauto 4 with holds] | holds_step
               | eapply holds_weaken; [solve [eauto 4 with holds]|done] ]; try done.

Create HintDb keep.
#[export] Hint Extern 1 (keeps _ get) => (apply keeps_get; apply _) : keep.
Ltac keep_step :=
  lazymatch goal with
  | |- keeps _ (mbind _ _) => apply keeps_bind; [apply _| |intros ?]
  | |- keeps _ (mret _) => apply keeps_ret; apply _
  | |- keeps _ get => apply keeps_get; apply _
  | |- keeps _ (gets _) => apply keeps_gets; apply _
  | |- keeps _ (fail _) => apply keeps_fail
  | |- keeps _ (lift _) => apply keeps_lift; apply _
  | |- keeps _ (when _ _) => apply keeps_when; [apply _|]
  | |- keeps _ (for_each _ _) => apply keeps_for_each; [apply _|intros ?]
  | |- keeps _ (match ?x with _ => _ end) => destruct x
  | |- keeps _ (let '_ := ?x in _) => destruct x
  end.
Ltac keep := repeat first [ progress (eauto 4 with keep) | keep_step ].

(** * Field update of records

    [Eta R] rebuilds a record from its projections; from it the tactic below
    reads off, for any projection, the function that updates that field. *)
Class Eta (R : Type) := eta : R -> R.
Class Setter {R T : Type} (proj : R -> T) := upd : (T -> T) -> R -> R.
Arguments upd {R T} proj {_} f r.

Ltac derive_setter :=
  lazymatch goal with
  | |- @Setter ?R ?T ?proj =>
      let body := constr:(fun (f : T -> T) (r : R) => ltac:(
        let e := eval hnf in (@eta R _ r) in
        let e := eval pattern (proj r) in e in
        lazymatch e with ?g _ =>
          let res := eval cbv beta in (g (f (proj r))) in exact res end)) in
      exact body
  end.

(** One instance serves every field: it runs the tactic where it is used. *)
#[global] Hint Extern 1 (Setter _) => derive_setter : typeclass_instances.

#[warnings="-postfix-notation-not-level-1"]
Notation "r <| f := v |>" := (upd f (fun _ => v) r)
  (at level 12, left associativity, format "r  <| f  :=  v |>") : unstrung_scope.
#[warnings="-postfix-notation-not-level-1"]
Notation "r <| f ::= g |>" := (upd f g r)
  (at level 12, left associativity, format "r  <| f  ::=  g |>") : unstrung_scope.

(** * Machine integers

    A w-bit unsigned value is the [Z] in [0, 2^w); arithmetic wraps by these
    reductions, and conversion to a signed type is two's complement. *)
Definition u8  (x : Z) : Z := x mod 256.
Definition u16 (x : Z) : Z := x mod 65536.
Definition u32 (x : Z) : Z := x mod 4294967296.
Definition u64 (x : Z) : Z := x mod 18446744073709551616.
Definition s16 (x : Z) : Z := (x + 32768) mod 65536 - 32768.
Definition s32 (x : Z) : Z := (x + 2147483648) mod 4294967296 - 2147483648.

Definition byte_ok (b : Z) : Prop := 0 <= b < 256.
Definition bytes_ok (l : list Z) : Prop := Forall byte_ok l.

#[global] Instance byte_ok_dec b : Decision (byte_ok b).
Proof. unfold byte_ok. apply _. Defined.
#[global] Instance bytes_ok_dec l : Decision (bytes_ok l).
Proof. unfold bytes_ok. apply _. Defined.

(** Linear goals about wrapped values: expose the reductions and let [lia]
    (which knows [mod] and [/] by constants) finish. *)
Ltac word_lia :=
  unfold u8, u16, u32, u64, s16, s32, byte_ok in *;
  Z.to_euclidean_division_equations; lia.

Create HintDb words.
Create Rewrite HintDb words.

Lemma u8_range x : 0 <= u8 x < 256.     Proof. word_lia. Qed.
Lemma u16_range x : 0 <= u16 x < 65536. Proof. word_lia. Qed.
Lemma u32_range x : 0 <= u32 x < 4294967296. Proof. word_lia. Qed.
Lemma u8_small x : 0 <= x < 256 -> u8 x = x.     Proof. word_lia. Qed.
Lemma u16_small x : 0 <= x < 65536 -> u16 x = x. Proof. word_lia. Qed.
Lemma u32_small x : 0 <= x < 4294967296 -> u32 x = x. Proof. word_lia. Qed.
Lemma s32_small x : -2147483648 <= x < 2147483648 -> s32 x = x. Proof. word_lia. Qed.
Lemma s16_small x : -32768 <= x < 32768 -> s16 x = x. Proof. word_lia. Qed.
Lemma s32_u32 x : -2147483648 <= x < 2147483648 -> s32 (u32 x) = x. Proof. word_lia. Qed.
Lemma u8_ok x : byte_ok (u8 x). Proof. apply u8_range. Qed.

#[export] Hint Resolve u8_range u16_range u32_range u8_ok : words.
#[export] Hint Rewrite u8_small u16_small u32_small s32_small s16_small
  using solve [lia | auto with words] : words.

(** Big-endian fields, as [htons]/[htonl] and their inverses see them. *)
Definition be16 (x : Z) : list Z := [u8 (x / 256); u8 x].
Definition be16_val (hi lo : Z) : Z := hi * 256 + lo.
Definition be32 (x : Z) : list Z :=
  [u8 (x / 16777216); u8 (x / 65536); u8 (x / 256); u8 x].
Definition be32_val (a b c d : Z) : Z := ((a * 256 + b) * 256 + c) * 256 + d.

Lemma be16_val_be16 x : 0 <= x < 65536 -> be16_val (u8 (x / 256)) (u8 x) = x.
Proof. unfold be16_val. word_lia. Qed.
Lemma be32_val_be32 x : 0 <= x < 4294967296 ->
  be32_val (u8 (x / 16777216)) (u8 (x / 65536)) (u8 (x / 256)) (u8 x) = x.
Proof. unfold be32_val. word_lia. Qed.
Lemma be16_be16_val hi lo : byte_ok hi -> byte_ok lo -> be16 (be16_val hi lo) = [hi; lo].
Proof. intros. unfold be16, be16_val. f_equal; [|f_equal]; word_lia. Qed.
Lemma be32_be32_val a b c d : byte_ok a -> byte_ok b -> byte_ok c -> byte_ok d ->
  be32 (be32_val a b c d) = [a; b; c; d].
Proof. intros. unfold be32, be32_val. repeat f_equal; word_lia. Qed.

(** * Memory: a C object is the list of its bytes *)
Definition zlen {A} (l : list A) : Z := Z.of_nat (length l).

Definition rd (m : list Z) (i : Z) : outcome Z :=
  if i <? 0 then Fault OutOfBounds
  else match m !! Z.to_nat i with Some b => Ok b | None => Fault OutOfBounds end.

(** [memcpy] out of and into an object. *)
Definition rd_range (m : list Z) (off len : Z) : outcome (list Z) :=
  if (0 <=? off) && (0 <=? len) && (off + len <=? zlen m)
  then Ok (take (Z.to_nat len) (drop (Z.to_nat off) m)) else Fault OutOfBounds.

Definition wr_range (m : list Z) (off : Z) (bs : list Z) : outcome (list Z) :=
  if (0 <=? off) && (off + zlen bs <=? zlen m)
  then Ok (take (Z.to_nat off) m ++ bs ++ drop (Z.to_nat off + length bs) m)
  else Fault OutOfBounds.

Definition zeros (n : nat) : list Z := replicate n 0.

Section memory.
Implicit Types (m p q bs : list Z) (i off len : Z).

Lemma zlen_nonneg {A} (l : list A) : 0 <= zlen l.
Proof. unfold zlen. lia. Qed.
Lemma zlen_app {A} (l k : list A) : zlen (l ++ k) = zlen l + zlen k.
Proof. unfold zlen. rewrite length_app. lia. Qed.
Lemma zlen_cons {A} (a : A) l : zlen (a :: l) = 1 + zlen l.
Proof. unfold zlen. cbn [length]. lia. Qed.
Lemma zlen_zeros n : zlen (zeros n) = Z.of_nat n.
Proof. unfold zlen, zeros. by rewrite length_replicate. Qed.

Lemma length_zeros n : length (zeros n) = n.
Proof. apply length_replicate. Qed.
Lemma drop_zeros k n : drop k (zeros n) = zeros (n - k).
Proof. apply drop_replicate. Qed.

Lemma rd_ok m i b : 0 <= i -> m !! Z.to_nat i = Some b -> rd m i = Ok b.
Proof. intros ? Hb. unfold rd. rewrite (proj2 (Z.ltb_ge _ _)) by lia. by rewrite Hb. Qed.

Lemma rd_inv m i b : rd m i = Ok b -> 0 <= i < zlen m /\ m !! Z.to_nat i = Some b.
Proof.
  unfold rd. destruct (Z.ltb_spec i 0); [done|].
  destruct (m !! Z.to_nat i) eqn:E; [|done]. intros [= ->]. split; [|done].
  apply lookup_lt_Some in E. unfold zlen. lia.
Qed.

Lemma rd_in m i : 0 <= i < zlen m -> exists b, rd m i = Ok b /\ m !! Z.to_nat i = Some b.
Proof.
  intros Hi. destruct (lookup_lt_is_Some_2 m (Z.to_nat i)) as [b Hb]; [unfold zlen in *; lia|].
  exists b. split; [|done]. apply rd_ok; [lia|done].
Qed.

Lemma rd_out m i : zlen m <= i -> rd m i = Fault OutOfBounds.
Proof.
  intros Hi. unfold rd. pose proof (zlen_nonneg m).
  rewrite (proj2 (Z.ltb_ge _ _)) by lia.
  by rewrite lookup_ge_None_2 by (unfold zlen in *; lia).
Qed.

Lemma rd_no_fuel m i : rd m i <> Fault OutOfFuel.
Proof. unfold rd. by repeat case_match. Qed.

Lemma rd_byte_ok m i b : bytes_ok m -> rd m i = Ok b -> byte_ok b.
Proof. intros Hm [_ Hb]%rd_inv. eapply Forall_lookup_1; eauto. Qed.

(** Reads of a concatenation, at the junction. *)
Lemma rd_app_r p q i : 0 <= i -> rd (p ++ q) (zlen p + i) = rd q i.
Proof.
  intros. unfold rd, zlen.
  rewrite !(proj2 (Z.ltb_ge _ _)) by lia.
  replace (Z.to_nat (Z.of_nat (length p) + i)) with (length p + Z.to_nat i)%nat by lia.
  rewrite lookup_app_r by lia. by replace (length p + Z.to_nat i - length p)%nat with (Z.to_nat i) by lia.
Qed.
Lemma rd_app_r0 p q : rd (p ++ q) (zlen p) = rd q 0.
Proof. rewrite <-(Z.add_0_r (zlen p)). by apply rd_app_r. Qed.
Lemma rd_cons0 b q : rd (b :: q) 0 = Ok b.
Proof. done. Qed.
Lemma rd_cons b q i : 0 < i -> rd (b :: q) i = rd q (i - 1).
Proof.
  intros. unfold rd. rewrite !(proj2 (Z.ltb_ge _ _)) by lia.
  by replace (Z.to_nat i) with (S (Z.to_nat (i - 1))) by lia.
Qed.
Lemma rd_app_l p q i : i < zlen p -> rd (p ++ q) i = rd p i.
Proof.
  intros. unfold rd, zlen in *. destruct (Z.ltb_spec i 0); [done|].
  by rewrite lookup_app_l by lia.
Qed.

Lemma rd_range_app p bs q : rd_range (p ++ bs ++ q) (zlen p) (zlen bs) = Ok bs.
Proof.
  unfold rd_range. rewrite !zlen_app.
  pose proof (zlen_nonneg p). pose proof (zlen_nonneg bs). pose proof (zlen_nonneg q).
  rewrite !(proj2 (Z.leb_le _ _)) by lia. cbn [andb]. unfold zlen. rewrite !Nat2Z.id.
  rewrite drop_app_length. by rewrite take_app_length.
Qed.

Lemma rd_range_inv m off len bs : rd_range m off len = Ok bs ->
  0 <= off /\ 0 <= len /\ off + len <= zlen m /\ zlen bs = len /\
  bs = take (Z.to_nat len) (drop (Z.to_nat off) m).
Proof.
  unfold rd_range. destruct (Z.leb_spec 0 off), (Z.leb_spec 0 len),
    (Z.leb_spec (off + len) (zlen m)); try done. cbn. intros [= <-].
  unfold zlen in *. rewrite length_take, length_drop. repeat split; lia.
Qed.

Lemma rd_range_mid p bs q k n : 0 <= k -> 0 <= n -> k + n <= zlen bs ->
  rd_range (p ++ bs ++ q) (zlen p + k) n = Ok (take (Z.to_nat n) (drop (Z.to_nat k) bs)).
Proof.
  intros. unfold rd_range. rewrite !zlen_app.
  pose proof (zlen_nonneg p). pose proof (zlen_nonneg q).
  rewrite !(proj2 (Z.leb_le _ _)) by lia. cbn [andb]. f_equal. unfold zlen in *.
  replace (Z.to_nat (Z.of_nat (length p) + k)) with (length p + Z.to_nat k)%nat by lia.
  rewrite drop_app_add. rewrite drop_app_le by lia. rewrite take_app_le; [done|].
  rewrite length_drop. lia.
Qed.
Lemma rd_mid p bs q k : 0 <= k < zlen bs ->
  rd (p ++ bs ++ q) (zlen p + k) = Ok (bs !!! Z.to_nat k).
Proof.
  intros. rewrite rd_app_r by lia. rewrite rd_app_l by lia.
  destruct (rd_in bs k) as (b & -> & Hb); [done|]. f_equal.
  symmetry. by apply list_lookup_total_correct.
Qed.

Lemma wr_range_fill p n bs : (length bs <= n)%nat ->
  wr_range (p ++ zeros n) (zlen p) bs = Ok ((p ++ bs) ++ zeros (n - length bs)).
Proof.
  intros. unfold wr_range. rewrite !zlen_app, zlen_zeros.
  pose proof (zlen_nonneg p). rewrite !(proj2 (Z.leb_le _ _)) by (unfold zlen in *; lia).
  cbn [andb]. unfold zlen. rewrite Nat2Z.id, take_app_length, <-app_assoc. do 3 f_equal.
  rewrite drop_app_ge by lia. unfold zeros. rewrite drop_replicate. f_equal; lia.
Qed.

Lemma wr_range_length m off bs m' : wr_range m off bs = Ok m' -> length m' = length m.
Proof.
  unfold wr_range. destruct (Z.leb_spec 0 off), (Z.leb_spec (off + zlen bs) (zlen m)); try done.
  cbn. intros [= <-]. unfold zlen in *. rewrite !length_app, length_take, length_drop. lia.
Qed.
Lemma wr_range_in m off bs : 0 <= off -> off + zlen bs <= zlen m ->
  exists m', wr_range m off bs = Ok m' /\ length m' = length m.
Proof.
  intros. assert (exists m', wr_range m off bs = Ok m') as [m' E]
    by (unfold wr_range; rewrite !(proj2 (Z.leb_le _ _)) by lia; by eexists).
  exists m'. split; [done|]. by eapply wr_range_length.
Qed.

Lemma bytes_ok_app p q : bytes_ok (p ++ q) <-> bytes_ok p /\ bytes_ok q.
Proof. apply Forall_app. Qed.
Lemma bytes_ok_zeros n : bytes_ok (zeros n).
Proof. apply Forall_replicate. word_lia. Qed.
End memory.

Create HintDb bytes.
Create Rewrite HintDb bytes.
#[export] Hint Resolve bytes_ok_zeros zlen_nonneg : bytes.
#[export] Hint Rewrite @zlen_app @zlen_cons zlen_zeros : bytes.

(** * [memcmp] on objects of the same size; only its sign means anything. *)
Fixpoint memcmp (x y : list Z) : Z :=
  match x, y with
  | a :: x', b :: y' => if a =? b then memcmp x' y' else a - b
  | _, _ => 0
  end.

Section memcmp.
Lemma memcmp_refl x : memcmp x x = 0.
Proof. induction x; cbn; [done|]. by rewrite Z.eqb_refl. Qed.

Lemma memcmp_eq x y : length x = length y -> memcmp x y = 0 <-> x = y.
Proof.
  revert y. induction x as [|a x IH]; intros [|b y]; cbn; try done.
  intros [= Hl]. destruct (Z.eqb_spec a b) as [->|Hab].
  - rewrite IH by done. split; [by intros ->|by intros [=]].
  - split; [lia|by intros [=]].
Qed.

Lemma memcmp_antisym x y : length x = length y -> memcmp y x = - memcmp x y.
Proof.
  revert y. induction x as [|a x IH]; intros [|b y]; cbn; try done.
  intros [= Hl]. rewrite (Z.eqb_sym b a). destruct (Z.eqb_spec a b); [by apply IH|lia].
Qed.

Lemma memcmp_lt_trans x y z : length x = length y -> length y = length z ->
  memcmp x y < 0 -> memcmp y z < 0 -> memcmp x z < 0.
Proof.
  revert y z. induction x as [|a x IH]; intros [|b y] [|c z]; cbn; try done.
  intros [= ?] [= ?].
  destruct (Z.eqb_spec a b), (Z.eqb_spec b c), (Z.eqb_spec a c); subst; try lia; eauto.
Qed.
End memcmp.

(** * Counters *)
Definition bump (i : nat) (st : list Z) : list Z := alter (fun x => u32 (x + 1)) i st.

Section bump.
Lemma bump_length i st : length (bump i st) = length st.
Proof. apply length_alter. Qed.
Lemma bump_eq i st x : st !! i = Some x -> bump i st !! i = Some (u32 (x + 1)).
Proof. intros H. unfold bump. by rewrite list_lookup_alter_eq, H. Qed.
Lemma bump_ne i j st : i <> j -> bump i st !! j = st !! j.
Proof. intros. unfold bump. by rewrite list_lookup_alter_ne. Qed.
End bump.
#[export] Hint Rewrite bump_length : bytes.

(** Case analysis on the condition the goal or a hypothesis branches on. *)
Ltac case_bool :=
  match goal with
  | |- context [if ?b then _ else _] => let E := fresh "E" in destruct b eqn:E
  | H : context [if ?b then _ else _] |- _ => let E := fresh "E" in destruct b eqn:E
  end.
(** Boolean comparisons of [Z] become the inequalities they decide. *)
Ltac zbool :=
  repeat match goal with
  | H : (_ <? _) = true |- _ => apply Z.ltb_lt in H
  | H : (_ <? _) = false |- _ => apply Z.ltb_ge in H
  | H : (_ <=? _) = true |- _ => apply Z.leb_le in H
  | H : (_ <=? _) = false |- _ => apply Z.leb_gt in H
  | H : (_ >? _) = true |- _ => rewrite Z.gtb_ltb in H; apply Z.ltb_lt in H
  | H : (_ >? _) = false |- _ => rewrite Z.gtb_ltb in H; apply Z.ltb_ge in H
  | H : (_ >=? _) = true |- _ => rewrite Z.geb_leb in H; apply Z.leb_le in H
  | H : (_ >=? _) = false |- _ => rewrite Z.geb_leb in H; apply Z.leb_gt in H
  | H : (_ =? _) = true |- _ => apply Z.eqb_eq in H
  | H : (_ =? _) = false |- _ => apply Z.eqb_neq in H
  | H : (_ && _) = true |- _ => apply andb_true_iff in H; destruct H
  | H : (_ && _) = false |- _ => apply andb_false_iff in H
  | H : (_ || _) = true |- _ => apply orb_true_iff in H
  | H : (_ || _) = false |- _ => apply orb_false_iff in H; destruct H
  | H : negb _ = true |- _ => apply negb_true_iff in H
  | H : negb _ = false |- _ => apply negb_false_iff in H
  end.

(** Evaluate the comparisons of the goal that the context decides. *)
Lemma gtb_true a b : b < a -> (a >? b) = true.   Proof. apply Z.gtb_lt. Qed.
Lemma gtb_false a b : a <= b -> (a >? b) = false. Proof. rewrite Z.gtb_ltb. apply Z.ltb_ge. Qed.
Ltac zcmp :=
  repeat match goal with
  | |- context [?a <? ?b] =>
      first [ rewrite (proj2 (Z.ltb_lt a b)) by lia | rewrite (proj2 (Z.ltb_ge a b)) by lia ]
  | |- context [?a <=? ?b] =>
      first [ rewrite (proj2 (Z.leb_le a b)) by lia | rewrite (proj2 (Z.leb_gt a b)) by lia ]
  | |- context [?a >? ?b] =>
      first [ rewrite (gtb_true a b) by lia | rewrite (gtb_false a b) by lia ]
  | |- context [?a =? ?b] =>
      first [ rewrite (proj2 (Z.eqb_eq a b)) by lia | rewrite (proj2 (Z.eqb_neq a b)) by lia ]
  end.
