(* ===== verification/Csum.v ===== *)
(** The Internet checksum: [csum_partial] and [csum_ipv6_magic] of
    [lib/libndmgmt/iface.cpp], and the arithmetic of one's complement sums. *)

From Stdlib Require Import ZArith Lia.
From stdpp Require Import base list numbers.
From S2P Require Import Prelude.
#[local] Open Scope Z_scope.

(** The loop: [*data] is a 16-bit word of a little-endian machine, read whole even
    when one byte is left; the sum is unsigned. *)
Fixpoint csum_words (buff : list Z) (len sum : Z) : outcome Z :=
  if len <=? 0 then Ok sum
  else match buff with
       | lo :: hi :: buff' => csum_words buff' (len - 2) (u32 (sum + (lo + Z.shiftl hi 8)))
       | _ => Fault OutOfBounds
       end.
Definition fold16 (sum : Z) : Z := Z.land sum 65535 + Z.shiftr sum 16.
Definition csum_partial (buff : list Z) (len sum : Z) : outcome Z :=
  sum ← csum_words buff len sum;
  Ok (u16 (fold16 (fold16 sum))).

(** The pseudo-header, 40 bytes. *)
Definition pseudo_header (saddr daddr : list Z) (len proto : Z) : list Z :=
  saddr ++ daddr ++ be32 (u32 len) ++ zeros 3 ++ [u8 proto].
Definition csum_ipv6_magic (saddr daddr : list Z) (len proto sum : Z) : outcome Z :=
  csum_partial (pseudo_header saddr daddr len proto) 40 sum.

(** * One's complement sums *)

(** The 16-bit representative of a sum modulo 65535: 0 only for 0. *)
Definition ones (s : Z) : Z := if s =? 0 then 0 else (s - 1) mod 65535 + 1.

(** The sum of the words of a buffer, a byte that is left over being low. *)
Fixpoint word_sum (buff : list Z) : Z :=
  match buff with
  | lo :: hi :: buff' => lo + 256 * hi + word_sum buff'
  | [lo] => lo
  | [] => 0
  end.

Lemma fold16_spec s : 0 <= s -> fold16 s = s mod 65536 + s / 65536.
Proof.
  intros Hs. unfold fold16. change 65535 with (Z.ones 16).
  rewrite Z.land_ones, Z.shiftr_div_pow2 by lia. done.
Qed.
Lemma fold_ones s : 0 <= s < 4294967296 -> u16 (fold16 (fold16 s)) = ones s.
Proof.
  intros Hs. rewrite (fold16_spec s) by lia. rewrite fold16_spec by (Z.div_mod_to_equations; lia).
  unfold u16, ones. destruct (Z.eqb_spec s 0) as [-> | Hnz]; [done|]. Z.div_mod_to_equations. lia.
Qed.

Lemma ones_range s : 0 <= s -> 0 <= ones s <= 65535.
Proof. intros Hs. unfold ones. destruct (Z.eqb_spec s 0); [lia|]. Z.div_mod_to_equations. lia. Qed.
Lemma ones_add a b : 0 <= a -> 0 <= b -> ones (ones a + b) = ones (a + b).
Proof.
  intros Ha Hb. unfold ones.
  destruct (Z.eqb_spec a 0) as [-> | Hnz]; [done|].
  destruct (Z.eqb_spec ((a - 1) mod 65535 + 1 + b) 0), (Z.eqb_spec (a + b) 0);
    Z.div_mod_to_equations; lia.
Qed.

Lemma word_sum_range buff : bytes_ok buff -> 0 <= word_sum buff <= 32896 * zlen buff.
Proof.
  enough (H : forall n buff, (length buff <= n)%nat -> bytes_ok buff -> 0 <= word_sum buff <= 32896 * zlen buff)
    by (by apply (H (length buff))).
  induction n as [|n IH]; intros l Hn Hl; [destruct l; [done | simpl in Hn; lia]|].
  destruct l as [|lo [|hi l]]; [done | |].
  - pose proof (Forall_inv Hl) as Hlo. unfold byte_ok in Hlo. change (zlen [lo]) with 1. simpl. lia.
  - apply Forall_cons_1 in Hl as [Hlo Hl]. apply Forall_cons_1 in Hl as [Hhi Hl]. unfold byte_ok in *.
    pose proof (IH l ltac:(simpl in Hn; lia) Hl). rewrite !zlen_cons. cbn [word_sum]. lia.
Qed.

Lemma word_sum_app n : forall a b, length a = (2 * n)%nat -> word_sum (a ++ b) = word_sum a + word_sum b.
Proof.
  induction n as [|n IH]; intros a b Ha; [by destruct a|].
  destruct a as [|lo [|hi a]]; [simpl in Ha; lia.. |]. cbn [app word_sum]. rewrite IH by (simpl in Ha; lia). lia.
Qed.

(** The loop adds up the words; a buffer of odd length is read with the byte
    behind it, which has to be there. *)
Lemma csum_words_spec n : forall buff post sum, length buff = (2 * n)%nat -> bytes_ok buff -> 0 <= sum ->
  sum + word_sum buff < 4294967296 ->
  csum_words (buff ++ post) (zlen buff) sum = Ok (sum + word_sum buff).
Proof.
  induction n as [|n IH]; intros buff post sum Hlen Hb Hs Hw.
  - destruct buff; [|done]. destruct post; simpl; by rewrite Z.add_0_r.
  - destruct buff as [|lo [|hi buff]]; [simpl in Hlen; lia.. |].
    apply Forall_cons_1 in Hb as [Hlo Hb]. apply Forall_cons_1 in Hb as [Hhi Hb]. unfold byte_ok in *.
    pose proof (word_sum_range buff Hb). pose proof (zlen_nonneg buff). cbn [app csum_words word_sum] in *.
    rewrite !zlen_cons, (proj2 (Z.leb_gt _ 0)), Z.shiftl_mul_pow2 by lia. change (2 ^ 8) with 256.
    replace (1 + (1 + zlen buff) - 2) with (zlen buff) by lia.
    rewrite u32_small by lia. rewrite IH by (done || (simpl in Hlen; lia) || lia). f_equal. lia.
Qed.

Lemma csum_partial_spec n buff post sum : length buff = (2 * n)%nat -> bytes_ok buff -> 0 <= sum ->
  sum + word_sum buff < 4294967296 ->
  csum_partial (buff ++ post) (zlen buff) sum = Ok (ones (sum + word_sum buff)).
Proof.
  intros Hlen Hb Hs Hw. unfold csum_partial. rewrite (csum_words_spec n) by done.
  cbn [mbind outcome_bind]. rewrite fold_ones; [done|]. pose proof (word_sum_range buff Hb).
  pose proof (zlen_nonneg buff). lia.
Qed.

(** The same for a buffer of any length with a zero behind it. *)
Lemma word_sum_pad n : forall buff, length buff = S (2 * n) -> word_sum (buff ++ [0]) = word_sum buff.
Proof.
  induction n as [|n IH]; intros buff Hlen.
  - destruct buff as [|x [|y buff]]; [done | simpl; lia | done].
  - destruct buff as [|lo [|hi buff]]; [done | simpl in Hlen; lia |].
    cbn [app word_sum]. rewrite IH by (simpl in Hlen; lia). done.
Qed.
Lemma csum_words_odd n : forall buff post sum, length buff = S (2 * n) ->
  csum_words (buff ++ post) (zlen buff) sum = csum_words (buff ++ post) (zlen buff + 1) sum.
Proof.
  induction n as [|n IH]; intros buff post sum Hlen.
  - destruct buff as [|x [|y buff]]; [done | | done]. destruct post as [|z post]; [done|]. simpl.
    by destruct post.
  - destruct buff as [|lo [|hi buff]]; [done | simpl in Hlen; lia |]. pose proof (zlen_nonneg buff).
    cbn [app csum_words]. rewrite !zlen_cons, !(proj2 (Z.leb_gt _ 0)) by lia.
    replace (1 + (1 + zlen buff) - 2) with (zlen buff) by lia.
    replace (1 + (1 + zlen buff) + 1 - 2) with (zlen buff + 1) by lia. apply IH. simpl in Hlen. lia.
Qed.

Lemma csum_partial_any buff post sum : bytes_ok buff -> 0 <= sum -> sum + word_sum buff < 4294967296 ->
  csum_partial (buff ++ 0 :: post) (zlen buff) sum = Ok (ones (sum + word_sum buff)).
Proof.
  intros Hb Hs Hw. destruct (Nat.Even_or_Odd (length buff)) as [[n Hn] | [n Hn]].
  - by apply (csum_partial_spec n).
  - unfold csum_partial. rewrite (csum_words_odd n) by lia. fold (csum_partial (buff ++ 0 :: post) (zlen buff + 1) sum).
    replace (buff ++ 0 :: post) with ((buff ++ [0]) ++ post) by (by rewrite <- app_assoc).
    replace (zlen buff + 1) with (zlen (buff ++ [0])) by (by rewrite zlen_app).
    rewrite <- (word_sum_pad n buff) in * by lia. apply (csum_partial_spec (S n)); [| |done..].
    + rewrite length_app. simpl. lia.
    + apply Forall_app. split; [done|]. constructor; [unfold byte_ok; lia | constructor].
Qed.

(** The complement of a sum makes it the sum of no error. *)
Lemma ones_complement s : 0 <= s -> ones (s + (65535 - ones s)) = 65535.
Proof.
  intros Hs. pose proof (ones_range s Hs). unfold ones in *. destruct (Z.eqb_spec s 0) as [-> | Hnz]; [done|].
  destruct (Z.eqb_spec (s + (65535 - ((s - 1) mod 65535 + 1))) 0); Z.div_mod_to_equations; lia.
Qed.

(** * The sum of RFC 1071

    Said apart from the program: the 16-bit numbers of the bytes, in network order,
    an odd byte being the high one, are added up with the carry put back in at the
    low end. *)
Definition carry_add (a b : Z) : Z := if a + b >? 65535 then a + b - 65535 else a + b.
Fixpoint rfc1071_sum (bytes : list Z) : Z :=
  match bytes with
  | hi :: lo :: bytes' => carry_add (256 * hi + lo) (rfc1071_sum bytes')
  | [hi] => 256 * hi
  | [] => 0
  end.
(** The pseudo-header of RFC 8200 for ICMPv6, which is protocol 58. *)
Definition icmpv6_pseudo_header (src dst : list Z) (len : Z) : list Z :=
  src ++ dst ++ [len / 16777216 mod 256; len / 65536 mod 256; len / 256 mod 256; len mod 256] ++ [0; 0; 0; 58].

Section rfc1071.
(** The sum without carries. *)
Fixpoint network_sum (bytes : list Z) : Z :=
  match bytes with
  | hi :: lo :: bytes' => 256 * hi + lo + network_sum bytes'
  | [hi] => 256 * hi
  | [] => 0
  end.
Lemma bytes_pairs (P : list Z -> Prop) : P [] -> (forall x, byte_ok x -> P [x]) ->
  (forall x y l, byte_ok x -> byte_ok y -> bytes_ok l -> P l -> P (x :: y :: l)) -> forall l, bytes_ok l -> P l.
Proof.
  intros H0 H1 H2. enough (forall n l, (length l <= n)%nat -> bytes_ok l -> P l) as H by (intros l; by apply (H (length l))).
  induction n as [|n IH]; intros l Hn Hl; [destruct l; [done|cbn in Hn; lia]|].
  destruct l as [|x [|y l]]; [done|by apply H1, (Forall_inv Hl)|].
  apply Forall_cons_1 in Hl as [Hx Hl]. apply Forall_cons_1 in Hl as [Hy Hl]. apply H2; try done. apply IH; [cbn in Hn; lia|done].
Qed.
Lemma carry_add_ones x s : 0 <= x <= 65535 -> 0 <= s -> carry_add x (ones s) = ones (x + s).
Proof.
  intros Hx Hs. unfold carry_add, ones. destruct (Z.eqb_spec s 0) as [->|].
  - rewrite Z.add_0_r, gtb_false by lia. case_bool; zbool; [lia|]. rewrite Z.mod_small by lia. lia.
  - rewrite (proj2 (Z.eqb_neq _ _)) by lia. case_bool; zbool; Z.to_euclidean_division_equations; lia.
Qed.
Lemma rfc1071_ones bytes : bytes_ok bytes -> rfc1071_sum bytes = ones (network_sum bytes) /\ 0 <= network_sum bytes.
Proof.
  intros Hb. induction Hb as [|x Hx|x y l Hx Hy _ [IH Hn]] using bytes_pairs; [done|..]; unfold byte_ok in *; cbn [rfc1071_sum network_sum].
  - split; [|lia]. unfold ones. case_bool; zbool; [lia|]. rewrite Z.mod_small by lia. lia.
  - rewrite IH, carry_add_ones by lia. split; [done|lia].
Qed.
(** Exchanging the bytes of every word is multiplying by 256, modulo 65535. *)
Lemma network_word_sum bytes : bytes_ok bytes ->
  (network_sum bytes - 256 * word_sum bytes) mod 65535 = 0 /\ word_sum bytes <= 256 * network_sum bytes.
Proof.
  intros Hb. induction Hb as [|x Hx|x y l Hx Hy _ [IH Hn]] using bytes_pairs; [done|..]; unfold byte_ok in *; cbn [word_sum network_sum].
  - split; [|lia]. by rewrite Z.sub_diag.
  - split; [|lia]. Z.to_euclidean_division_equations. lia.
Qed.
Lemma rfc1071_all_ones bytes : bytes_ok bytes -> ones (word_sum bytes) = 65535 -> rfc1071_sum bytes = 65535.
Proof.
  intros Hb Ho. destruct (rfc1071_ones bytes Hb) as [-> Hn]. destruct (network_word_sum bytes Hb) as [Hm Hle].
  pose proof (word_sum_range bytes Hb) as [Hw _]. revert Ho. unfold ones. case_bool; zbool; [done|]. intros Ho.
  case_bool; zbool; [lia|]. Z.to_euclidean_division_equations. lia.
Qed.
Lemma pseudo_header_icmpv6 src dst len : 0 <= len < 4294967296 -> pseudo_header src dst len 58 = icmpv6_pseudo_header src dst len.
Proof.
  intros Hl. unfold pseudo_header, icmpv6_pseudo_header, be32. rewrite u32_small by lia.
  change (zeros 3 ++ [u8 58]) with [0; 0; 0; 58]. reflexivity.
Qed.
End rfc1071.
