(* ===== verification/Wire.v ===== *)
(** Wire formats of RPL (RFC 6550) as [include/rpl.h] lays them out, and the
    neighbour-discovery structures of [include/neighbour.h].

    Each packed C struct is a record with the header's field names; [encode] is
    its memory image and [overlay] what a pointer of that struct type reads when
    it is cast onto memory.  Multi-byte fields hold the host value, the byte
    order conversion (htons, ntohl, ...) being part of the image.  The round
    trip of every struct is proved once, and the message builders and parsers
    of the other files use it. *)

From Stdlib Require Import ZArith Lia String.
From stdpp Require Import base list gmap numbers.
From S2P Require Import Prelude.
#[local] Open Scope Z_scope.

(** * Constants of [rpl.h] *)
Definition ND_RPL_MESSAGE : Z := 155.

(** [enum ND_RPL_CODE], the four codes the program dispatches on. *)
Definition ND_RPL_DAG_IS  : Z := 0.
Definition ND_RPL_DAG_IO  : Z := 1.
Definition ND_RPL_DAO     : Z := 2.
Definition ND_RPL_DAO_ACK : Z := 3.

Definition DAGID_LEN : Z := 16.

(** [enum RPL_SUBOPT] *)
Definition RPL_OPT_PAD0 : Z := 0.
Definition RPL_OPT_PADN : Z := 1.
Definition RPL_DIO_METRICS : Z := 2.
Definition RPL_DIO_ROUTINGINFO : Z := 3.
Definition RPL_DIO_CONFIG : Z := 4.
Definition RPL_DAO_RPLTARGET : Z := 5.
Definition RPL_DAO_TRANSITINFO : Z := 6.
Definition RPL_DIS_SOLICITEDINFO : Z := 7.
Definition RPL_DIO_DESTPREFIX : Z := 8.
Definition RPL_DAO_RPLTARGET_DESC : Z := 9.

(** [enum RPL_DIO_MOP]: the enum is a C++ int, and the DIO field it is read
    from has three bits, so all eight values occur. *)
Definition RPL_DIO_NO_DOWNWARD_ROUTES_MAINT : Z := 0.
Definition RPL_DIO_NONSTORING : Z := 1.
Definition RPL_DIO_STORING_NO_MULTICAST : Z := 2.
Definition RPL_DIO_STORING_MULTICAST : Z := 3.

Definition RPL_DIO_GROUND_FLAG : Z := 128.
Definition RPL_DIO_MOP_SHIFT : Z := 3.
Definition RPL_DIO_MOP_MASK : Z := Z.shiftl 7 RPL_DIO_MOP_SHIFT.
Definition RPL_DIO_PRF_SHIFT : Z := 0.
Definition RPL_DIO_PRF_MASK : Z := Z.shiftl 7 RPL_DIO_PRF_SHIFT.
Definition RPL_DIO_GROUNDED (x : Z) : Z := Z.land x RPL_DIO_GROUND_FLAG.
Definition RPL_DIO_MOP (x : Z) : Z := Z.shiftr (Z.land x RPL_DIO_MOP_MASK) RPL_DIO_MOP_SHIFT.
Definition RPL_DIO_PRF (x : Z) : Z := Z.shiftr (Z.land x RPL_DIO_PRF_MASK) RPL_DIO_PRF_SHIFT.

Definition RPL_DAO_K_SHIFT : Z := 7.
Definition RPL_DAO_K_MASK : Z := Z.shiftl 1 RPL_DAO_K_SHIFT.
Definition RPL_DAO_K (x : Z) : Z := Z.shiftr (Z.land x RPL_DAO_K_MASK) RPL_DAO_K_SHIFT.
Definition RPL_DAO_D_SHIFT : Z := 6.
Definition RPL_DAO_D_MASK : Z := Z.shiftl 1 RPL_DAO_D_SHIFT.
Definition RPL_DAO_D (x : Z) : Z := Z.shiftr (Z.land x RPL_DAO_D_MASK) RPL_DAO_D_SHIFT.
Definition RPL_DAOACK_D_SHIFT : Z := 7.
Definition RPL_DAOACK_D_MASK : Z := Z.shiftl 1 RPL_DAOACK_D_SHIFT.
Definition RPL_DAOACK_D (x : Z) : Z := Z.shiftr (Z.land x RPL_DAOACK_D_MASK) RPL_DAOACK_D_SHIFT.

Definition RPL_DIS_SI_V : Z := Z.shiftl 1 7.
Definition RPL_DIS_SI_I : Z := Z.shiftl 1 6.
Definition RPL_DIS_SI_D : Z := Z.shiftl 1 5.

Definition RPL_DIO_PREFIX_AUTONOMOUS_ADDR_CONFIG_FLAG : Z := 64.

(** [dag_network::mop_decode] and [mop_extract] (dag.h). *)
Definition mop_decode (mop : Z) : string :=
  match Z.land mop 7 with
  | 0 => "no-downward-route-maint"
  | 1 => "non-storing"
  | 2 => "storing-no-mcase"
  | 3 => "storing-mcast"
  | 4 => "unknown-mop4"
  | 5 => "unknown-mop5"
  | 6 => "unknown-mop6"
  | 7 => "unknown-mop7"
  | _ => "unknown"
  end%string.

(** * Structures

    [sizeof] of each is the length of its image. *)
Module Dio.
(** [struct nd_rpl_dio] *)
Record nd_rpl_dio := mk {
  rpl_instanceid : Z;
  rpl_version : Z;
  rpl_dagrank : Z;       (** host order *)
  rpl_mopprf : Z;
  rpl_dtsn : Z;
  rpl_flags : Z;
  rpl_resv1 : Z;
  rpl_dagid : list Z
}.
Definition size : Z := 24.

Definition encode (d : nd_rpl_dio) : list Z :=
  [rpl_instanceid d; rpl_version d] ++ be16 (rpl_dagrank d) ++
  [rpl_mopprf d; rpl_dtsn d; rpl_flags d; rpl_resv1 d] ++ rpl_dagid d.

Definition overlay (m : list Z) (off : Z) : outcome nd_rpl_dio :=
  b ← rd_range m off size;
  Ok (mk (b !!! 0%nat) (b !!! 1%nat) (be16_val (b !!! 2%nat) (b !!! 3%nat)) (b !!! 4%nat)
         (b !!! 5%nat) (b !!! 6%nat) (b !!! 7%nat) (drop 8 b)).

Definition wf (d : nd_rpl_dio) : Prop :=
  byte_ok (rpl_instanceid d) /\ byte_ok (rpl_version d) /\ 0 <= rpl_dagrank d < 65536 /\
  byte_ok (rpl_mopprf d) /\ byte_ok (rpl_dtsn d) /\ byte_ok (rpl_flags d) /\
  byte_ok (rpl_resv1 d) /\ bytes_ok (rpl_dagid d) /\ length (rpl_dagid d) = 16%nat.

Definition mop_extract (d : nd_rpl_dio) : Z := RPL_DIO_MOP (rpl_mopprf d).

Lemma encode_len d : wf d -> zlen (encode d) = size.
Proof.
  intros (_&_&_&_&_&_&_&_&Hl). unfold encode, zlen. cbn [app be16 length].
  by rewrite Hl.
Qed.
End Dio.

Module Dao.
(** [struct nd_rpl_dao] *)
Record nd_rpl_dao := mk { rpl_instanceid : Z; rpl_flags : Z; rpl_resv : Z; rpl_daoseq : Z }.
Definition size : Z := 4.
Definition encode (d : nd_rpl_dao) : list Z :=
  [rpl_instanceid d; rpl_flags d; rpl_resv d; rpl_daoseq d].
Definition overlay (m : list Z) (off : Z) : outcome nd_rpl_dao :=
  b ← rd_range m off size;
  Ok (mk (b !!! 0%nat) (b !!! 1%nat) (b !!! 2%nat) (b !!! 3%nat)).
End Dao.

Module DaoAck.
(** [struct nd_rpl_daoack] *)
Record nd_rpl_daoack := mk { rpl_instanceid : Z; rpl_flags : Z; rpl_daoseq : Z; rpl_status : Z }.
Definition size : Z := 4.
Definition encode (d : nd_rpl_daoack) : list Z :=
  [rpl_instanceid d; rpl_flags d; rpl_daoseq d; rpl_status d].
Definition overlay (m : list Z) (off : Z) : outcome nd_rpl_daoack :=
  b ← rd_range m off size;
  Ok (mk (b !!! 0%nat) (b !!! 1%nat) (b !!! 2%nat) (b !!! 3%nat)).
End DaoAck.

Module Dis.
(** [struct nd_rpl_dis] *)
Definition size : Z := 2.
(** [struct rpl_dis_solicitedinfo] *)
Record rpl_dis_solicitedinfo := mk_si {
  rpl_dis_type : Z; rpl_dis_len : Z; rpl_dis_instanceid : Z; rpl_dis_flags : Z;
  rpl_dis_dagid : list Z; rpl_dis_versionnum : Z }.
Definition si_size : Z := 21.
Definition si_encode (s : rpl_dis_solicitedinfo) : list Z :=
  [rpl_dis_type s; rpl_dis_len s; rpl_dis_instanceid s; rpl_dis_flags s] ++
  rpl_dis_dagid s ++ [rpl_dis_versionnum s].
End Dis.

Module Opt.
(** [struct rpl_dio_genoption]: type, length of what follows, data. *)
Definition genoption_size : Z := 2.

(** [struct rpl_dio_destprefix] *)
Record rpl_dio_destprefix := mk_dp {
  rpl_dio_type : Z; rpl_dio_len : Z; rpl_dio_prefixlen : Z; rpl_dio_prf : Z;
  rpl_dio_valid_lifetime : Z; rpl_dio_preferred_lifetime : Z; reserved2 : Z;
  rpl_dio_prefix : list Z }.
Definition destprefix_size : Z := 32.
Definition destprefix_encode (p : rpl_dio_destprefix) : list Z :=
  [rpl_dio_type p; rpl_dio_len p; rpl_dio_prefixlen p; rpl_dio_prf p] ++
  be32 (rpl_dio_valid_lifetime p) ++ be32 (rpl_dio_preferred_lifetime p) ++
  be32 (reserved2 p) ++ rpl_dio_prefix p.

(** [struct rpl_dao_target], without its trailing prefix. *)
Definition target_size : Z := 4.
End Opt.

Module Nd.
(** [neighbour.h] and the kernel structures of neighbour discovery. *)
Definition ND_ROUTER_SOLICIT : Z := 133.
Definition ND_ROUTER_ADVERT : Z := 134.
Definition ND_NEIGHBOR_SOLICIT : Z := 135.
Definition ND_NEIGHBOR_ADVERT : Z := 136.
Definition ND_OPT_PREFIX_INFORMATION : Z := 3.
Definition ND_OPT_ARO : Z := 33.
Definition ND_NA_FLAG_OVERRIDE : Z := 32.    (** first byte of the flags word *)
Definition ND_NA_FLAG_SOLICITED : Z := 64.
Definition ND_ARO_DEFAULT_LIFETIME : Z := 5.
Definition ND_NS_JOIN_DECLINED : Z := 253.
Definition ns_size : Z := 24.                (** nd_neighbor_solicit / _advert *)
Definition rs_size : Z := 8.
Definition ra_size : Z := 16.
Definition opt_hdr_size : Z := 2.
Definition prefix_info_size : Z := 32.

(** [struct nd_opt_aro] *)
Record nd_opt_aro := mk_aro {
  nd_aro_type : Z; nd_aro_len : Z; nd_aro_status : Z; nd_aro_res1 : Z;
  nd_aro_res2 : Z; nd_aro_lifetime : Z; nd_aro_eui64 : list Z }.
Definition aro_size : Z := 16.
Definition aro_encode (a : nd_opt_aro) : list Z :=
  [nd_aro_type a; nd_aro_len a; nd_aro_status a; nd_aro_res1 a] ++
  be16 (nd_aro_res2 a) ++ be16 (nd_aro_lifetime a) ++ nd_aro_eui64 a.
End Nd.

(** * Round trips *)
Section roundtrip.
(** Reading a struct-sized block out of memory that holds its image. *)
Lemma overlay_block {A} (size : Z) (f : list Z -> A) p bs q :
  zlen bs = size ->
  (b ← rd_range (p ++ bs ++ q) (zlen p) size; Ok (f b)) = Ok (f bs).
Proof. intros <-. by rewrite rd_range_app. Qed.

(** A DIO base object that is written to memory by one node and read back
    through the struct overlay by another keeps every field, the 16-bit rank
    included (network byte order on the wire). *)
Lemma dio_overlay_encode p d q :
  Dio.wf d -> Dio.overlay (p ++ Dio.encode d ++ q) (zlen p) = Ok d.
Proof.
  intros Hwf. unfold Dio.overlay. rewrite overlay_block by by apply Dio.encode_len.
  destruct Hwf as (?&?&Hr&?&?&?&?&?&?), d. cbn -[be16_val] in *.
  unfold lookup_total. cbn -[be16_val]. by rewrite be16_val_be16.
Qed.

Definition dio_overlay_encode_witness_input : Dio.nd_rpl_dio :=
  Dio.mk 42 1 2 152 10 0 0 (replicate 16 32).

Lemma dio_overlay_encode_witness :
  Dio.wf dio_overlay_encode_witness_input /\
  Dio.overlay ([1; 2] ++ Dio.encode dio_overlay_encode_witness_input ++ [3]) 2
    = Ok dio_overlay_encode_witness_input.
Proof.
  assert (H : Dio.wf dio_overlay_encode_witness_input).
  { unfold Dio.wf, byte_ok. repeat split; try (cbn; lia).
    apply Forall_replicate. unfold byte_ok. lia. }
  split; [exact H|]. exact (dio_overlay_encode [1; 2] _ [3] H).
Defined.

Lemma dao_overlay_encode p d q : Dao.overlay (p ++ Dao.encode d ++ q) (zlen p) = Ok d.
Proof. unfold Dao.overlay. rewrite overlay_block by done. by destruct d. Qed.

Lemma daoack_overlay_encode p d q :
  DaoAck.overlay (p ++ DaoAck.encode d ++ q) (zlen p) = Ok d.
Proof. unfold DaoAck.overlay. rewrite overlay_block by done. by destruct d. Qed.
End roundtrip.

(** * Bit fields

    The flag byte of a DIO packs G, MOP and PRF; the builders set it with [|=]
    and shifts and the receivers take it apart with the macros. *)
Section bits.
Definition mopprf_of (grounded : bool) (mop : Z) : Z :=
  Z.lor (if grounded then RPL_DIO_GROUND_FLAG else 0) (Z.shiftl mop RPL_DIO_MOP_SHIFT).

(** Finite case analysis over the values of a small field. *)
Lemma small_cases (P : Z -> Prop) (n : nat) :
  Forall P (Z.of_nat <$> seq 0 n) -> forall x, 0 <= x < Z.of_nat n -> P x.
Proof.
  intros HP x Hx. rewrite Forall_fmap, Forall_seq in HP.
  specialize (HP (Z.to_nat x)). cbn in HP. rewrite Z2Nat.id in HP by lia. apply HP. lia.
Qed.

Lemma mopprf_mop g mop : 0 <= mop < 8 -> RPL_DIO_MOP (mopprf_of g mop) = mop.
Proof.
  revert mop. apply (small_cases _ 8). destruct g; repeat constructor; reflexivity.
Qed.
Lemma mopprf_grounded g mop : 0 <= mop < 8 ->
  RPL_DIO_GROUNDED (mopprf_of g mop) = if g then 128 else 0.
Proof.
  revert mop. apply (small_cases _ 8). destruct g; repeat constructor; reflexivity.
Qed.
Lemma mopprf_byte g mop : 0 <= mop < 8 -> byte_ok (mopprf_of g mop).
Proof.
  revert mop. apply (small_cases _ 8).
  destruct g; apply (bool_decide_eq_true_1 _); vm_compute; reflexivity.
Qed.
Lemma RPL_DIO_MOP_range x : byte_ok x -> 0 <= RPL_DIO_MOP x < 8.
Proof.
  intros _. unfold RPL_DIO_MOP, RPL_DIO_MOP_MASK, RPL_DIO_MOP_SHIFT.
  change (Z.shiftl 7 3) with (Z.shiftl (Z.ones 3) 3).
  rewrite Z.shiftr_land, Z.shiftr_shiftl_l, Z.sub_diag, Z.shiftl_0_r, Z.land_ones by lia.
  apply Z.mod_pos_bound. lia.
Qed.
(** Every MOP value has a name. *)
Lemma mop_decode_known mop : mop_decode mop <> "unknown"%string.
Proof.
  unfold mop_decode. assert (H : 0 <= Z.land mop 7 < 8).
  { change 7 with (Z.ones 3). rewrite Z.land_ones by lia. apply Z.mod_pos_bound. lia. }
  revert H. generalize (Z.land mop 7). apply (small_cases _ 8). by repeat constructor.
Qed.
End bits.
