(* ===== verification/Subopt.v ===== *)
(** The suboption scanner of [lib/libndmgmt/rplmsg.cpp] ([class rpl_msg] and its
    subclasses [rpl_dio], [rpl_dao], [rpl_dis]).

    A message object copies the suboptions into the fixed array [mBytes] and
    keeps in [mOptions], for every option type, the offset the next search for
    that type starts at.  The array is not cleared before the copy: [junk] is
    what the memory held. *)

From Stdlib Require Import ZArith Lia.
From stdpp Require Import base list gmap numbers.
From S2P Require Import Prelude Wire.
#[local] Open Scope Z_scope.

(** * The code *)

Record rpl_msg := mk_msg {
  mBytes : list Z;      (** [u_int8_t mBytes[2048]] *)
  mLen : Z;
  mOptions : list Z     (** [int16_t mOptions[256]] *)
}.

Definition mBytes_size : Z := 2048.

Definition reset_options : list Z := replicate 256 0.

(** The constructor.  [subopt_len] is an int compared with a [size_t], so a
    negative length is a huge one and is clamped to the size of the array. *)
Definition rpl_msg_init (junk src : list Z) (off subopt_len : Z) : outcome rpl_msg :=
  let n := if u64 subopt_len >? mBytes_size then mBytes_size else subopt_len in
  bs ← rd_range src off n;
  mb ← wr_range junk 0 bs;
  Ok (mk_msg mb n reset_options).

Definition opt_at (opts : list Z) (ty : Z) : Z := opts !!! Z.to_nat ty.
Definition opt_set (opts : list Z) (ty v : Z) : list Z := <[Z.to_nat ty := s16 v]> opts.

(** The loop of [search_subopt].  [opt_left_len > sizeof(...)] again compares an
    int with a [size_t]. *)
Fixpoint scan (fuel : nat) (mb : list Z) (optnum opt_left_len offset : Z) (opts : list Z)
  : outcome (list Z * option (Z * Z)) :=
  match fuel with
  | O => Fault OutOfFuel
  | S fuel' =>
    if u64 opt_left_len >? Opt.genoption_size then
      ty ← rd mb offset;
      ln ← rd mb (offset + 1);
      if negb (ty =? RPL_OPT_PAD0) && (ln =? 0) then Ok (opts, None)
      else
        let skip_len := if ty =? RPL_OPT_PAD0 then 1 else ln + 2 in
        let opts := if opt_at opts ty =? 0 then opt_set opts ty offset else opts in
        if ty =? optnum
        then Ok (opt_set opts ty (offset + skip_len), Some (offset, skip_len))
        else scan fuel' mb optnum (opt_left_len - skip_len) (offset + skip_len) opts
    else Ok (opts, None)
  end.

Definition scan_fuel : nat := 2049.

(** The pointer that is returned is the offset into [mBytes]; [*p_opt_len] is
    the second component, and is 0 when no option is found. *)
Definition search_subopt (m : rpl_msg) (optnum : Z) : outcome (rpl_msg * option (Z * Z)) :=
  if opt_at (mOptions m) optnum =? -1 then Ok (m, None)
  else
    let o := opt_at (mOptions m) optnum in
    '(opts, r) ← scan scan_fuel (mBytes m) optnum (mLen m - o) o (mOptions m);
    Ok (mk_msg (mBytes m) (mLen m) opts, r).

(** [rpl_dio::destprefix]; the counter is the [PS_SUBOPTION_UNDERRUN] slot of the
    statistics the message was made with. *)
Definition destprefix (m : rpl_msg) : outcome (rpl_msg * option Z * bool) :=
  '(m, r) ← search_subopt m RPL_DIO_DESTPREFIX;
  match r with
  | None => Ok (m, None, false)
  | Some (dp, optlen) =>
      if optlen <? Opt.destprefix_size then Ok (m, None, true) else Ok (m, Some dp, false)
  end.

(** [rpl_dao::rpltarget] *)
Definition rpltarget (m : rpl_msg) : outcome (rpl_msg * option Z) :=
  '(m, r) ← search_subopt m RPL_DAO_RPLTARGET;
  match r with
  | None => Ok (m, None)
  | Some (t, optlen) =>
      prefixlen ← rd (mBytes m) (t + 3);
      let prefixbytes := (prefixlen + 7) / 8 in
      if optlen <? prefixbytes + Opt.target_size then Ok (m, None) else Ok (m, Some t)
  end.

(** [rpl_dis::rplsolicitedinfo] *)
Definition rplsolicitedinfo (m : rpl_msg) : outcome (rpl_msg * option Z) :=
  '(m, r) ← search_subopt m RPL_DIS_SOLICITEDINFO;
  Ok (m, option_map fst r).

(** * Specification: the options of a well-formed message

    RFC 6550 section 6.7: a Pad0 is one zero byte, any other option is its type,
    the length of its data, and the data.  The scanner takes a zero length as
    the end of the options, so a well-formed option has data. *)
Inductive tlv :=
| Pad0
| Tlv (ty : Z) (data : list Z).

Definition tlv_wf (o : tlv) : Prop :=
  match o with
  | Pad0 => True
  | Tlv ty data => 0 < ty < 256 /\ 0 < zlen data < 256
  end.

Definition tlv_enc (o : tlv) : list Z :=
  match o with Pad0 => [0] | Tlv ty data => ty :: zlen data :: data end.

Definition enc (os : list tlv) : list Z := mjoin (tlv_enc <$> os).

(** Where the options of a type are: offset and size, in order. *)
Fixpoint locate (optnum base : Z) (os : list tlv) : list (Z * Z) :=
  match os with
  | [] => []
  | Pad0 :: os' => locate optnum (base + 1) os'
  | Tlv ty data :: os' =>
      let rest := locate optnum (base + (zlen data + 2)) os' in
      if ty =? optnum then (base, zlen data + 2) :: rest else rest
  end.

(** The callers' loops: search until the scanner answers NULL. *)
Fixpoint search_all (fuel : nat) (m : rpl_msg) (optnum : Z) : outcome (list (Z * Z)) :=
  match fuel with
  | O => Fault OutOfFuel
  | S fuel' =>
      '(m, r) ← search_subopt m optnum;
      match r with
      | None => Ok []
      | Some p => ps ← search_all fuel' m optnum; Ok (p :: ps)
      end
  end.

(** * Lemmas *)
Section lemmas.
Implicit Types (opts mb : list Z) (os : list tlv).

Lemma enc_cons o os : enc (o :: os) = tlv_enc o ++ enc os.
Proof. done. Qed.
Lemma enc_app os os' : enc (os ++ os') = enc os ++ enc os'.
Proof. unfold enc. by rewrite fmap_app, join_app. Qed.

Lemma tlv_enc_len ty data : zlen (tlv_enc (Tlv ty data)) = zlen data + 2.
Proof. cbn [tlv_enc]. rewrite !zlen_cons. lia. Qed.

Lemma locate_app optnum base os os' :
  locate optnum base (os ++ os') =
  locate optnum base os ++ locate optnum (base + zlen (enc os)) os'.
Proof.
  revert base. induction os as [|[|ty data] os IH]; intros base; cbn [locate app].
  - by rewrite Z.add_0_r.
  - rewrite IH, enc_cons, zlen_app. cbn [tlv_enc]. by rewrite zlen_cons, <-!Z.add_assoc.
  - rewrite IH, enc_cons, zlen_app, tlv_enc_len, <-!Z.add_assoc. by case_bool.
Qed.

Lemma u64_small x : 0 <= x < 18446744073709551616 -> u64 x = x.
Proof. word_lia. Qed.
Lemma opt_set_length opts ty v : length (opt_set opts ty v) = length opts.
Proof. apply length_insert. Qed.
Lemma opt_at_set opts ty v : 0 <= ty < 256 -> length opts = 256%nat ->
  opt_at (opt_set opts ty v) ty = s16 v.
Proof.
  intros. unfold opt_at, opt_set. apply list_lookup_total_insert_eq. lia.
Qed.
Lemma opt_at_set_ne opts ty ty' v : 0 <= ty -> 0 <= ty' -> ty <> ty' ->
  opt_at (opt_set opts ty v) ty' = opt_at opts ty'.
Proof.
  intros. unfold opt_at, opt_set. apply list_lookup_total_insert_ne. lia.
Qed.
Lemma opt_at_reset ty : 0 <= ty < 256 -> opt_at reset_options ty = 0.
Proof.
  intros. unfold opt_at, reset_options. apply list_lookup_total_correct.
  apply lookup_replicate_2. lia.
Qed.

(** One turn of the loop at the start of an option. *)
Lemma scan_pad0 fuel p rest q optnum opts :
  optnum <> 0 -> 2 <= zlen rest < 65536 ->
  scan (S fuel) (p ++ (0 :: rest) ++ q) optnum (zlen (0 :: rest)) (zlen p) opts =
  scan fuel (p ++ (0 :: rest) ++ q) optnum (zlen rest) (zlen p + 1)
    (if opt_at opts 0 =? 0 then opt_set opts 0 (zlen p) else opts).
Proof.
  intros Hne Hlen. cbn [scan]. unfold Opt.genoption_size, RPL_OPT_PAD0.
  destruct rest as [|b rest]; [unfold zlen in Hlen; cbn in Hlen; lia|].
  rewrite (zlen_cons 0), u64_small by lia. zcmp.
  rewrite rd_app_r0, rd_app_r by lia. cbn [app].
  rewrite rd_cons0, (rd_cons 0), rd_cons0 by lia.
  cbn -[scan opt_set opt_at zlen]. zcmp.
  replace (match optnum with 0 => true | _ => false end) with false by (by destruct optnum).
  by replace (1 + zlen (b :: rest) - 1) with (zlen (b :: rest)) by lia.
Qed.

Lemma scan_tlv fuel p ty data rest q optnum opts :
  tlv_wf (Tlv ty data) -> zlen rest < 65536 ->
  scan (S fuel) (p ++ (tlv_enc (Tlv ty data) ++ rest) ++ q) optnum
    (zlen (tlv_enc (Tlv ty data) ++ rest)) (zlen p) opts =
  let opts := if opt_at opts ty =? 0 then opt_set opts ty (zlen p) else opts in
  if ty =? optnum
  then Ok (opt_set opts ty (zlen p + (zlen data + 2)), Some (zlen p, zlen data + 2))
  else scan fuel (p ++ (tlv_enc (Tlv ty data) ++ rest) ++ q) optnum (zlen rest)
         (zlen p + (zlen data + 2)) opts.
Proof.
  intros [Hty Hd] Hrest. cbn [scan]. unfold Opt.genoption_size, RPL_OPT_PAD0.
  pose proof (zlen_nonneg rest). rewrite zlen_app, tlv_enc_len, u64_small by lia.
  zcmp. rewrite rd_app_r0, rd_app_r by lia. cbn [app tlv_enc].
  rewrite rd_cons0, (rd_cons ty), rd_cons0 by lia.
  cbn -[scan opt_set opt_at zlen]. zcmp. cbn -[scan opt_set opt_at zlen].
  by replace (zlen data + 2 + zlen rest - (zlen data + 2)) with (zlen rest) by lia.
Qed.

Lemma scan_short fuel mb optnum left offset opts :
  0 <= left <= 2 -> scan (S fuel) mb optnum left offset opts = Ok (opts, None).
Proof. intros. cbn [scan]. unfold Opt.genoption_size. rewrite u64_small by lia. by zcmp. Qed.

Lemma locate_short optnum base os :
  Forall tlv_wf os -> zlen (enc os) <= 2 -> locate optnum base os = [].
Proof.
  intros Hwf. revert base. induction Hwf as [|[|ty data] os Ho _ IH]; intros base Hl;
    rewrite ?enc_cons, ?zlen_app in Hl; cbn [locate]; [done|apply IH|].
  - change (zlen (tlv_enc Pad0)) with 1 in Hl. lia.
  - rewrite tlv_enc_len in Hl. cbn in Ho. pose proof (zlen_nonneg (enc os)). lia.
Qed.

(** What a search that starts at an option boundary leaves behind. *)
Definition scan_post optnum os1 os2
    (r : outcome (list Z * option (Z * Z))) : Prop :=
  exists opts', length opts' = 256%nat /\
  match locate optnum (zlen (enc os1)) os2 with
  | [] => r = Ok (opts', None)
  | (b, l) :: rest =>
      r = Ok (opts', Some (b, l)) /\ opt_at opts' optnum = b + l /\
      exists os1' os2', os1 ++ os2 = os1' ++ os2' /\ Forall tlv_wf os2' /\
        b + l = zlen (enc os1') /\ locate optnum (b + l) os2' = rest
  end.

Lemma scan_post_skip optnum os1 o os2 r :
  locate optnum 0 [o] = [] ->
  scan_post optnum (os1 ++ [o]) os2 r -> scan_post optnum os1 (o :: os2) r.
Proof.
  intros Ho (opts' & Hl & H). exists opts'. split; [done|].
  replace (locate optnum (zlen (enc os1)) (o :: os2))
    with (locate optnum (zlen (enc (os1 ++ [o]))) os2).
  - destruct (locate _ _ os2) as [|[b l] rest]; [done|].
    destruct H as (? & ? & os1' & os2' & E & ?). split_and!; [done..|].
    exists os1', os2'. by rewrite <-E, <-app_assoc.
  - change (o :: os2) with ([o] ++ os2). rewrite locate_app, enc_app, zlen_app.
    destruct o as [|ty data]; cbn in *; [done|]. by destruct (ty =? optnum).
Qed.

Lemma scan_spec optnum os2 : 0 < optnum < 256 -> forall os1 fuel opts q,
  Forall tlv_wf os2 -> (length os2 < fuel)%nat -> length opts = 256%nat ->
  zlen (enc os1) + zlen (enc os2) <= 2048 ->
  scan_post optnum os1 os2
    (scan fuel (enc os1 ++ enc os2 ++ q) optnum (zlen (enc os2)) (zlen (enc os1)) opts).
Proof.
  intros Hopt. induction os2 as [|o os2 IH]; intros os1 [|fuel] opts q Hwf Hfuel Hl Hlen;
    try (cbn in Hfuel; lia).
  { exists opts. split; [done|]. apply scan_short. by compute. }
  apply Forall_cons_1 in Hwf as [Ho Hwf]. cbn [length] in Hfuel.
  pose proof (zlen_nonneg (enc os1)). pose proof (zlen_nonneg (enc os2)).
  destruct o as [|ty data]; rewrite enc_cons in *; rewrite zlen_app in Hlen.
  - change (tlv_enc Pad0 ++ enc os2) with (0 :: enc os2).
    change (zlen (tlv_enc Pad0)) with 1 in Hlen.
    destruct (decide (2 <= zlen (enc os2))).
    + rewrite (scan_pad0 fuel (enc os1) (enc os2) q) by lia.
      apply scan_post_skip; [done|].
      specialize (IH (os1 ++ [Pad0]) fuel
        (if opt_at opts 0 =? 0 then opt_set opts 0 (zlen (enc os1)) else opts) q Hwf).
      rewrite enc_app, zlen_app, <-!app_assoc in IH. change (zlen (enc [Pad0])) with 1 in IH.
      apply IH; [lia|by case_bool; rewrite ?opt_set_length|lia].
    + exists opts. split; [done|]. cbn [locate].
      rewrite locate_short by (done || lia). apply scan_short. rewrite zlen_cons. lia.
  - rewrite tlv_enc_len in Hlen. cbn in Ho. rewrite (scan_tlv fuel (enc os1) ty data (enc os2) q) by (done || lia).
    cbn zeta.
    set (opts1 := if opt_at opts ty =? 0 then _ else _).
    assert (length opts1 = 256%nat) by (subst opts1; case_bool; by rewrite ?opt_set_length).
    destruct (Z.eqb_spec ty optnum) as [->|Hne].
    + exists (opt_set opts1 optnum (zlen (enc os1) + (zlen data + 2))).
      cbn [locate]. rewrite Z.eqb_refl, opt_set_length, opt_at_set, s16_small by lia.
      split_and!; [done..|]. exists (os1 ++ [Tlv optnum data]), os2.
      rewrite enc_app, zlen_app, <-app_assoc.
      change (enc [Tlv optnum data]) with (tlv_enc (Tlv optnum data) ++ []).
      by rewrite app_nil_r, tlv_enc_len.
    + apply scan_post_skip; [cbn; by zcmp|].
      specialize (IH (os1 ++ [Tlv ty data]) fuel opts1 q Hwf).
      rewrite enc_app, zlen_app, <-!app_assoc in IH.
      change (enc [Tlv ty data]) with (tlv_enc (Tlv ty data) ++ []) in IH.
      rewrite app_nil_r, tlv_enc_len in IH.
      rewrite <-app_assoc. apply IH; [lia|done|lia].
Qed.
End lemmas.

(** * Theorems *)
Section theorems.

(** The state of a message between two searches for [optnum]: the options
  before the recorded offset have been seen, the others have not. *)
Definition searching (m : rpl_msg) (optnum : Z) (os1 os2 : list tlv) : Prop :=
Forall tlv_wf os2 /\ length (mOptions m) = 256%nat /\
(exists q, mBytes m = enc (os1 ++ os2) ++ q) /\
mLen m = zlen (enc (os1 ++ os2)) /\ mLen m <= 2048 /\
opt_at (mOptions m) optnum = zlen (enc os1).

Lemma tlv_count os : Forall tlv_wf os -> (length os <= length (enc os))%nat.
Proof.
induction 1 as [|[|ty data] os Ho _ IH]; [done|..]; rewrite enc_cons; cbn; [lia|].
rewrite length_app. lia.
Qed.

Lemma locate_count optnum base os : (length (locate optnum base os) <= length os)%nat.
Proof.
revert base. induction os as [|[|ty data] os IH]; intros base; cbn; [lia|..].
- specialize (IH (base + 1)). lia.
- case_bool; cbn; specialize (IH (base + (zlen data + 2))); lia.
Qed.

Lemma search_subopt_step m optnum os1 os2 :
0 < optnum < 256 -> searching m optnum os1 os2 ->
match locate optnum (zlen (enc os1)) os2 with
| [] => exists m', search_subopt m optnum = Ok (m', None)
| p :: rest => exists m' os1' os2', search_subopt m optnum = Ok (m', Some p) /\
    searching m' optnum os1' os2' /\ locate optnum (zlen (enc os1')) os2' = rest /\
    mBytes m' = mBytes m /\ mLen m' = mLen m /\ zlen (enc os1') = p.1 + p.2
end.
Proof.
intros Hn (Hwf & Hl & [q Hb] & HL & HLb & Ho). unfold search_subopt.
pose proof (zlen_nonneg (enc os1)). pose proof (tlv_count os2 Hwf).
rewrite Ho, Hb, HL. rewrite enc_app, zlen_app in *.
pose proof (zlen_nonneg (enc os1)). rewrite (proj2 (Z.eqb_neq _ _)) by lia.
replace (zlen (enc os1) + zlen (enc os2) - zlen (enc os1)) with (zlen (enc os2)) by lia.
destruct (scan_spec optnum os2 Hn os1 scan_fuel (mOptions m) q) as (opts' & Hl' & HS);
  [done|unfold scan_fuel, zlen in *; lia|done|lia|].
rewrite <-app_assoc. destruct (locate _ _ os2) as [|[b l] rest].
- rewrite HS. by eexists.
- destruct HS as (-> & Hopt & os1' & os2' & E & Hwf' & Hbl & Hrest).
  eexists _, os1', os2'. split; [done|]. split; [|rewrite <-Hbl; split_and!; cbn; congruence].
  assert (enc os1 ++ enc os2 = enc os1' ++ enc os2') as E' by by rewrite <-!enc_app, E.
  split_and!; cbn -[opt_at]; [done..| | | |congruence].
  + exists q. by rewrite enc_app, app_assoc, E'.
  + by rewrite <-E, enc_app, zlen_app.
  + lia.
Qed.

Lemma search_all_spec fuel m optnum os1 os2 :
0 < optnum < 256 -> searching m optnum os1 os2 -> (length (locate optnum (zlen (enc os1)) os2) < fuel)%nat ->
search_all fuel m optnum = Ok (locate optnum (zlen (enc os1)) os2).
Proof.
revert m os1 os2. induction fuel as [|fuel IH]; intros m os1 os2 Hn Hs Hf; [lia|].
pose proof (search_subopt_step m optnum os1 os2 Hn Hs) as HS. cbn [search_all].
destruct (locate _ _ os2) as [|p rest].
- by destruct HS as [m' ->].
- destruct HS as (m' & os1' & os2' & -> & Hs' & <- & _). cbn in Hf |- *.
  by rewrite (IH _ _ _ Hn Hs') by lia.
Qed.

Lemma rpl_msg_init_searching junk pre os post optnum :
length junk = 2048%nat -> Forall tlv_wf os -> zlen (enc os) <= 2048 -> 0 < optnum < 256 ->
exists m, rpl_msg_init junk (pre ++ enc os ++ post) (zlen pre) (zlen (enc os)) = Ok m /\
  searching m optnum [] os.
Proof.
intros Hj Hwf Hlen Hn. unfold rpl_msg_init, mBytes_size. pose proof (zlen_nonneg (enc os)).
rewrite u64_small by lia. zcmp. rewrite rd_range_app. cbn [mbind outcome_bind].
unfold wr_range. cbn [Z.leb Z.compare andb]. rewrite Z.add_0_l.
rewrite (proj2 (Z.leb_le _ _)) by (unfold zlen in *; lia). cbn [mbind outcome_bind].
eexists. split; [done|]. split_and!; cbn [mOptions mBytes mLen app]; [done|done| |done|lia|].
- cbn. by eexists.
- rewrite opt_at_reset by lia. done.
Qed.

Lemma search_all_enc junk pre os post optnum :
length junk = 2048%nat -> Forall tlv_wf os -> zlen (enc os) <= 2048 -> 0 < optnum < 256 ->
exists m, rpl_msg_init junk (pre ++ enc os ++ post) (zlen pre) (zlen (enc os)) = Ok m /\
  search_all scan_fuel m optnum = Ok (locate optnum 0 os) /\ searching m optnum [] os.
Proof.
intros Hj Hwf Hlen Hn.
destruct (rpl_msg_init_searching junk pre os post optnum Hj Hwf Hlen Hn) as (m & -> & Hm).
exists m. split; [done|]. split; [|done]. apply (search_all_spec _ _ _ [] os Hn Hm).
pose proof (tlv_count os Hwf). pose proof (locate_count optnum 0 os).
change (zlen (enc [])) with 0. unfold scan_fuel, zlen in *. lia.
Qed.

(** The options of a type, with what comes before and after the first. *)
Definition select (optnum : Z) (os : list tlv) : list (list Z) :=
omap (fun o => match o with Tlv ty data => if ty =? optnum then Some data else None | Pad0 => None end) os.

Lemma select_app optnum os os' : select optnum (os ++ os') = select optnum os ++ select optnum os'.
Proof. unfold select. by rewrite omap_app. Qed.
Lemma select_hit optnum data os : select optnum (Tlv optnum data :: os) = data :: select optnum os.
Proof. unfold select. cbn. by rewrite Z.eqb_refl. Qed.

Lemma locate_none optnum base os : locate optnum base os = [] -> select optnum os = [].
Proof.
revert base. induction os as [|[|ty data] os IH]; intros base; cbn; [done|apply IH|].
destruct (ty =? optnum); [done|]. cbn. apply IH.
Qed.

Lemma locate_first optnum base os b l rest : locate optnum base os = (b, l) :: rest ->
exists pre data post, os = pre ++ Tlv optnum data :: post /\ select optnum pre = [] /\
  b = base + zlen (enc pre) /\ l = zlen data + 2.
Proof.
revert base. induction os as [|[|ty data] os IH]; intros base; cbn; [done|..].
- intros (pre & data & post & -> & ? & -> & ->)%IH.
  exists (Pad0 :: pre), data, post. split_and!; try done.
  rewrite enc_cons, zlen_app. change (zlen (tlv_enc Pad0)) with 1. lia.
- destruct (Z.eqb_spec ty optnum) as [->|Hne].
  + intros [= <- <- _]. exists [], data, os. split_and!; try done. rewrite Z.add_0_r. done.
  + intros (pre & data' & post & -> & ? & -> & ->)%IH.
    exists (Tlv ty data :: pre), data', post. split_and!; try done.
    * cbn. by rewrite (proj2 (Z.eqb_neq _ _)).
    * rewrite enc_cons, zlen_app, tlv_enc_len. lia.
Qed.

(** One search: NULL when no option of the type is left, else the next one,
  which is found at its place in the array. *)
Lemma search_next m optnum os1 os2 :
0 < optnum < 256 -> searching m optnum os1 os2 ->
(select optnum os2 = [] /\ exists m', search_subopt m optnum = Ok (m', None)) \/
exists pre data post m', os2 = pre ++ Tlv optnum data :: post /\ select optnum pre = [] /\
  search_subopt m optnum = Ok (m', Some (zlen (enc (os1 ++ pre)), zlen data + 2)) /\
  searching m' optnum (os1 ++ pre ++ [Tlv optnum data]) post /\ mBytes m' = mBytes m /\
  exists q, mBytes m = enc (os1 ++ pre) ++ (optnum :: zlen data :: data) ++ q.
Proof.
intros Hn Hs. pose proof (search_subopt_step m optnum os1 os2 Hn Hs) as HS.
destruct (locate _ _ os2) as [|[b l] rest] eqn:Hloc.
{ left. split; [by eapply locate_none|done]. }
right. destruct HS as (m' & os1' & os2' & Hrun & Hs' & _ & Hb & Hl & Hz).
destruct (locate_first _ _ _ _ _ _ Hloc) as (pre & data & post & -> & Hpre & -> & ->).
destruct Hs as (Hwf & Hlo & [q Hq] & HL & HLb & Ho). destruct Hs' as (_ & Hlo' & _ & _ & _ & Ho').
exists pre, data, post, m'. split; [done|]. split; [done|].
rewrite enc_app, zlen_app. split; [done|].
assert (os1 ++ pre ++ Tlv optnum data :: post = (os1 ++ pre ++ [Tlv optnum data]) ++ post) as Eos
  by by rewrite <-!app_assoc.
split; [|split; [done|]].
- apply Forall_app in Hwf as [_ Hwf]. apply Forall_cons_1 in Hwf as [_ Hwf].
  split_and!; [done|done| | |lia|].
  + exists q. by rewrite Hb, <-Eos.
  + by rewrite Hl, <-Eos.
  + rewrite Ho', Hz. cbn [fst snd]. rewrite !enc_app, !zlen_app.
    change (enc [Tlv optnum data]) with (tlv_enc (Tlv optnum data) ++ []).
    rewrite app_nil_r, tlv_enc_len. lia.
- exists (enc post ++ q). rewrite Hq, app_assoc, enc_app, enc_cons, <-enc_app. cbn [tlv_enc].
  by rewrite <-!app_assoc.
Qed.

(** C18: The callers' loop over the options of a received message finds exactly
  the options of the type asked for, each at its offset and with its size and
  in the order they were sent, whatever the packet holds around the options
  and whatever the message's array held before. *)
Theorem search_all_locate junk pre os post optnum :
length junk = 2048%nat -> Forall tlv_wf os -> zlen (enc os) <= 2048 -> 0 < optnum < 256 ->
exists m, rpl_msg_init junk (pre ++ enc os ++ post) (zlen pre) (zlen (enc os)) = Ok m /\
  search_all scan_fuel m optnum = Ok (locate optnum 0 os).
Proof.
intros Hj Hwf Hlen Hn.
destruct (search_all_enc junk pre os post optnum Hj Hwf Hlen Hn) as (m & ? & ? & _). by exists m.
Qed.

Lemma search_all_locate_witness :
let os := [Tlv 3 [1; 2; 3]; Pad0; Tlv 5 [9]; Tlv 3 [4]] in
locate 3 0 os = [(0, 5); (9, 3)] /\
exists m, rpl_msg_init (replicate 2048 7) ([1; 2] ++ enc os ++ [8]) 2 12 = Ok m /\
  search_all scan_fuel m 3 = Ok [(0, 5); (9, 3)].
Proof.
split; [reflexivity|].
apply (search_all_locate (replicate 2048 7) [1; 2] [Tlv 3 [1; 2; 3]; Pad0; Tlv 5 [9]; Tlv 3 [4]] [8] 3).
- reflexivity.
- repeat constructor.
- by compute.
- lia.
Defined.

(** Every turn of the loop moves at least one byte forward, and a read beyond
  the array is a fault: the bound on the loop is never what ends it. *)
Lemma scan_fuel_enough fuel mb optnum left offset opts :
0 <= offset -> bytes_ok mb -> zlen mb - offset < Z.of_nat fuel -> 0 < Z.of_nat fuel ->
scan fuel mb optnum left offset opts <> Fault OutOfFuel.
Proof.
revert left offset opts. induction fuel as [|fuel IH]; intros left offset opts Ho Hb Hf Hp; [lia|].
cbn [scan]. case_bool; [|done].
destruct (rd mb offset) as [ty|] eqn:Ety; cbn [mbind outcome_bind]; [|by intros [= ->]; apply rd_no_fuel in Ety].
destruct (rd mb (offset + 1)) as [ln|] eqn:Eln; cbn [mbind outcome_bind]; [|by intros [= ->]; apply rd_no_fuel in Eln].
pose proof (rd_byte_ok _ _ _ Hb Eln). apply rd_inv in Ety as [? _].
unfold byte_ok in *. cbv zeta. case_bool; [done|].
destruct (Z.eqb_spec ty RPL_OPT_PAD0), (Z.eqb_spec ty optnum); try done;
  apply IH; try done; lia.
Qed.

(** A search always ends: with an option, with none, or with a read outside
  the array; never by running for ever. *)
Lemma search_subopt_total m optnum :
zlen (mBytes m) = mBytes_size -> bytes_ok (mBytes m) -> Forall (fun o => -1 <= o) (mOptions m) ->
search_subopt m optnum <> Fault OutOfFuel.
Proof.
intros Hl Hb Ho. unfold search_subopt. case_bool; [done|]. zbool.
assert (0 <= opt_at (mOptions m) optnum) as H0.
{ unfold opt_at in *. rewrite list_lookup_total_alt in *.
  destruct (mOptions m !! Z.to_nat optnum) eqn:Hlo; cbn in *; [|lia].
  pose proof (Forall_lookup_1 _ _ _ _ Ho Hlo). cbn in *. lia. }
pose proof (scan_fuel_enough scan_fuel (mBytes m) optnum (mLen m - opt_at (mOptions m) optnum)
  (opt_at (mOptions m) optnum) (mOptions m)) as HS.
destruct (scan _ _ _ _ _ _) as [[]|[]]; try done.
exfalso; apply HS; try done; unfold mBytes_size, scan_fuel in *; lia.
Qed.

Lemma search_subopt_total_witness :
search_subopt (mk_msg (replicate 2048 5) 2048 reset_options) 3 <> Fault OutOfFuel.
Proof.
apply (search_subopt_total (mk_msg (replicate 2048 5) 2048 reset_options) 3);
  [done|by apply (bool_decide_unpack _); vm_compute|by apply (bool_decide_unpack _); vm_compute].
Defined.

(** The scanner does not compare the size an option claims with what is left
  of the message: an option that claims [ln] bytes, of which the message holds
  only [data], is returned with its claimed size, so the callers read what the
  array held after the end of the message. *)
Lemma truncated_option_overread junk ty ln data :
length junk = 2048%nat -> 0 < ty < 256 -> 0 < ln < 256 -> 0 < zlen data < ln ->
exists m m', rpl_msg_init junk (ty :: ln :: data) 0 (2 + zlen data) = Ok m /\
  search_subopt m ty = Ok (m', Some (0, ln + 2)) /\ mLen m' < 0 + (ln + 2).
Proof.
intros Hj Hty Hln Hd. unfold rpl_msg_init, mBytes_size. rewrite u64_small by lia. zcmp.
pose proof (rd_range_app [] (ty :: ln :: data) []) as Hr.
rewrite app_nil_r, !zlen_cons in Hr. change (zlen []) with 0 in Hr.
replace (1 + (1 + zlen data)) with (2 + zlen data) in Hr by lia. cbn [app] in Hr.
rewrite Hr. cbn [mbind outcome_bind]. unfold wr_range. rewrite !zlen_cons.
cbn [Z.leb Z.compare andb]. rewrite (proj2 (Z.leb_le _ _)) by (unfold zlen in *; lia).
cbn [mbind outcome_bind]. change (Z.to_nat 0) with 0%nat. rewrite take_0. cbn [app].
eexists _, _. split; [done|]. unfold search_subopt. cbn [mOptions mLen mBytes].
rewrite opt_at_reset by lia. cbn [Z.eqb]. rewrite Z.sub_0_r.
assert (exists n, scan_fuel = S n) as [n ->] by by eexists. cbn [scan].
unfold Opt.genoption_size, RPL_OPT_PAD0. rewrite u64_small by lia. zcmp.
cbn [app]. rewrite rd_cons0. cbn [mbind outcome_bind].
rewrite rd_cons, rd_cons0 by lia. cbn [mbind outcome_bind].
rewrite (proj2 (Z.eqb_neq ty 0)), (proj2 (Z.eqb_neq ln 0)) by lia.
rewrite opt_at_reset, Z.eqb_refl by lia. cbn [andb negb mbind outcome_bind Z.eqb].
split; [done|]. cbn [mLen]. lia.
Qed.

Lemma truncated_option_overread_witness :
exists m m', rpl_msg_init (replicate 2048 238) [3; 30; 1; 2; 3; 4] 0 6 = Ok m /\
  search_subopt m 3 = Ok (m', Some (0, 32)) /\ mLen m' < 0 + 32.
Proof.
apply (truncated_option_overread (replicate 2048 238) 3 30 [1; 2; 3; 4]); by compute.
Defined.

(** The message the constructor builds for a negative length: the length becomes
  a huge [size_t] and the whole array is filled from the packet. *)
Lemma negative_length_copies_2048 junk src off len :
length junk = 2048%nat -> -2147483648 <= len < 0 ->
rpl_msg_init junk src off len =
(bs ← rd_range src off 2048; Ok (mk_msg bs 2048 reset_options)).
Proof.
intros Hj Hlen. unfold rpl_msg_init, mBytes_size.
rewrite (gtb_true (u64 len)) by word_lia.
destruct (rd_range src off 2048) as [bs|] eqn:E; [|done]. cbn [mbind outcome_bind].
apply rd_range_inv in E as (_ & _ & _ & Hl & _).
unfold wr_range. zcmp. cbn [andb mbind outcome_bind].
change (Z.to_nat 0) with 0%nat. rewrite take_0, drop_ge by (unfold zlen in *; lia).
rewrite app_nil_r, (proj2 (Z.leb_le _ _)) by (unfold zlen in *; lia). done.
Qed.

Lemma negative_length_copies_2048_witness :
rpl_msg_init (replicate 2048 7) (replicate 2060 1) 12 (-16) =
Ok (mk_msg (replicate 2048 1) 2048 reset_options).
Proof.
rewrite (negative_length_copies_2048 (replicate 2048 7) (replicate 2060 1) 12 (-16));
  [by vm_compute|done|lia].
Defined.
End theorems.
