(* ===== verification/Event.v ===== *)
(** Timers: [rpl_event] and [rpl_event_queue] of [include/event.h] and
    [lib/libndmgmt/event.cpp].

    Events are objects the queue and the DAGs hold pointers to: a pointer is an
    index into the list [events], the objects ever allocated.  The queue is a
    boost binomial heap, which is not part of the program: the model keeps the
    pointers that are in it, and the class [EventHeap] states what [top()] of a
    heap built with the comparison [rpl_eventless] promises. *)

From Stdlib Require Import ZArith Lia Sorted.
From stdpp Require Import base list gmap numbers.
From S2P Require Import Prelude.
#[local] Open Scope Z_scope.

(** * Data *)

Record timeval := mk_timeval { tv_sec : Z; tv_usec : Z }.

#[global] Instance timeval_eq_dec : EqDecision timeval.
Proof. solve_decision. Defined.

(** The instant, in microseconds. *)
Definition tv_total (t : timeval) : Z := tv_sec t * 1000000 + tv_usec t.
(** A time of day the clock may show: before the seconds leave an int, in 2038. *)
Definition tv_normal (t : timeval) : Prop := 0 <= tv_usec t < 1000000 /\ 0 <= tv_sec t < 2147000000.

Inductive event_types := rpl_send_dio | rpl_send_dao | rpl_event_max.

#[global] Instance event_types_eq_dec : EqDecision event_types.
Proof. solve_decision. Defined.

Record rpl_event := mk_event {
  event_type : event_types;
  event_number : Z;
  alarm_time : timeval;
  last_time : timeval;
  repeat_sec : Z;
  repeat_msec : Z;
  event_mDag : option nat;   (** [mDag], the index of the DAG *)
  inQueue : bool;
  deleted : bool
}.
#[global] Instance eta_event : Eta rpl_event := fun r =>
  mk_event (event_type r) (event_number r) (alarm_time r) (last_time r) (repeat_sec r)
    (repeat_msec r) (event_mDag r) (inQueue r) (deleted r).

(** The static members the timers use: [things_to_do], [event_counter],
    [faked_time], [fake_time], and the clock [gettimeofday] reads. *)
Record timers := mk_timers {
  events : list rpl_event;
  queue : list nat;
  event_counter : Z;
  faked_time : bool;
  fake_time : timeval;
  clock : timeval
}.
#[global] Instance eta_timers : Eta timers := fun r =>
  mk_timers (events r) (queue r) (event_counter r) (faked_time r) (fake_time r) (clock r).

(** * One event *)

(** The [while] of [set_alarm]. *)
Fixpoint carry (fuel : nat) (sec usec : Z) : Z * Z :=
  match fuel with
  | O => (sec, usec)
  | S fuel' => if usec >? 1000000 then carry fuel' (sec + 1) (usec - 1000000) else (sec, usec)
  end.
Definition carry_fuel (usec : Z) : nat := S (Z.to_nat (usec / 1000000)).

(** [msec*1000] is an unsigned int. *)
Definition set_alarm (t : timers) (relative : timeval) (sec msec : Z) (e : rpl_event) : rpl_event :=
  let rel := if faked_time t then fake_time t else relative in
  let usec := tv_usec rel + u32 (msec * 1000) in
  let '(s, us) := carry (carry_fuel usec) (tv_sec rel + sec) usec in
  e <| last_time := rel |> <| alarm_time := mk_timeval s us |>.

Definition reset_alarm (t : timers) (relative : timeval) (sec msec : Z) (e : rpl_event) : rpl_event :=
  (set_alarm t relative sec msec e) <| repeat_sec := sec |> <| repeat_msec := msec |>.

(** The constructors end in [init_event]; [set_alarm] overwrites both times. *)
Definition init_event (t : timers) (relative : timeval) (sec msec : Z) (ty : event_types) : rpl_event :=
  set_alarm t relative sec msec
    (mk_event ty (event_counter t) relative relative sec msec None false false).

Definition passed (e : rpl_event) (now : timeval) : bool :=
  (tv_sec (alarm_time e) <? tv_sec now) ||
  ((tv_sec (alarm_time e) =? tv_sec now) && (tv_usec (alarm_time e) <=? tv_usec now)).

Definition occurs_in (e : rpl_event) (now : timeval) : timeval :=
  let usec_interval := s32 (tv_usec (alarm_time e) - tv_usec now) in
  let '(us, borrow) :=
    if usec_interval <? 0 then (usec_interval + 1000000, 1) else (usec_interval, 0) in
  mk_timeval (tv_sec (alarm_time e) - tv_sec now - borrow) us.

(** [sec*1000 + usec/1000] is computed in unsigned ints and returned as an int. *)
Definition miliseconds_util (e : rpl_event) (now : timeval) : Z :=
  let sec := u32 (tv_sec (alarm_time e) - tv_sec now) in
  let usec := s32 (tv_usec (alarm_time e) - tv_usec now) in
  s32 (u32 (sec * 1000 + Z.quot usec 1000)).

(** [rpl_eventless]: the heap's "[a] is less urgent than [b]".  The differences
    are truncated to an int. *)
Definition rpl_eventless (a b : rpl_event) : bool :=
  let match_s := s32 (tv_sec (alarm_time b) - tv_sec (alarm_time a)) in
  if match_s >? 0 then false
  else if match_s <? 0 then true
  else
    let match_u := s32 (tv_usec (alarm_time b) - tv_usec (alarm_time a)) in
    if match_u >? 0 then false else true.

(** * The queue *)

(** [top] of a heap of events: which event that is depends on the shape of the
    heap when several have the same alarm. *)
Class EventHeap := heap_top : list rpl_event -> list nat -> option nat.

Definition ev_alarm (evs : list rpl_event) (i : nat) : Z :=
  match evs !! i with Some e => tv_total (alarm_time e) | None => 0 end.

(** The comparison on the pointers that are in the heap. *)
Definition less_urgent (evs : list rpl_event) (i j : nat) : bool :=
  match evs !! i, evs !! j with Some a, Some b => rpl_eventless a b | _, _ => false end.

(** The comparison orders the events of the heap: it is total and transitive. *)
Definition compares (evs : list rpl_event) (q : list nat) : Prop :=
  (forall i j, i ∈ q -> j ∈ q -> less_urgent evs i j = true \/ less_urgent evs j i = true) /\
  (forall i j k, i ∈ q -> j ∈ q -> k ∈ q ->
    less_urgent evs i j = true -> less_urgent evs j k = true -> less_urgent evs i k = true).

(** What [boost::heap::priority_queue] promises of [top()]: an element of the
    heap, and every other one compares less urgent than it, or as urgent.  The
    documentation says so of a strict weak order; [rpl_eventless] also answers
    true for two events of one alarm, so what the program relies on is that
    [top()] is right for the order that includes the equal ones, and nothing is
    promised of events the comparison does not order. *)
Class EventHeapLaws `{EventHeap} := {
  heap_top_some : forall evs q, q <> [] -> exists i, heap_top evs q = Some i;
  heap_top_in : forall evs q i, heap_top evs q = Some i -> i ∈ q;
  heap_top_urgent : forall evs q i j, compares evs q -> heap_top evs q = Some i -> j ∈ q ->
    less_urgent evs j i = true
}.

Section queue.
Context `{EventHeap}.

Definition get_event (i : nat) : M timers rpl_event := fun t =>
  match events t !! i with
  | Some e => if deleted e then Fault UseAfterFree else Ok (e, t)
  | None => Fault UseAfterFree
  end.
Definition set_event (i : nat) (f : rpl_event -> rpl_event) : M timers unit :=
  modify (fun t => t <| events ::= alter f i |>).

Definition gettimeofday : M timers timeval := gets clock.

(** [new rpl_event(sec, msec, type, ...)] *)
Definition new_event (sec msec : Z) (ty : event_types) : M timers nat :=
  now ← gettimeofday;
  t ← get;
  modify (fun t => t <| events ::= (fun es => es ++ [init_event t now sec msec ty]) |>
                     <| event_counter ::= (fun n => u32 (n + 1)) |>) ;;
  mret (length (events t)).

Definition add_event (i : nat) : M timers unit :=
  e ← get_event i;
  if inQueue e then fail AssertFailed
  else modify (fun t => t <| queue ::= (fun q => i :: q) |>) ;;
       set_event i (fun e => e <| inQueue := true |>).

(** [_requeue]; [list.update(handle)] only restores the order of the heap. *)
Definition _requeue (i : nat) : M timers unit :=
  e ← get_event i;
  if inQueue e then mret tt else add_event i.

Definition requeue (i : nat) : M timers unit := _requeue i.

Definition requeue_at (i : nat) (now : timeval) : M timers unit :=
  e ← get_event i;
  t ← get;
  set_event i (set_alarm t now (repeat_sec e) (repeat_msec e)) ;;
  _requeue i.

Definition alarm_event (i : nat) (now : timeval) (sec msec : Z) : M timers unit :=
  get_event i ;;
  t ← get;
  set_event i (set_alarm t now sec msec).

(** What [schedule_dio] and [schedule_dao] do with the event of the DAG. *)
Definition arm_event (i : nat) (ty : event_types) (dag : nat) (msec : Z) : M timers unit :=
  get_event i ;;
  set_event i (fun e => e <| event_type := ty |>) ;;
  now ← gettimeofday;
  alarm_event i now 0 msec ;;
  set_event i (fun e => e <| event_mDag := Some dag |>) ;;
  requeue i.

Definition queue_size : M timers Z := gets (fun t => zlen (queue t)).

Definition peek_event : M timers (option nat) :=
  gets (fun t => heap_top (events t) (queue t)).

Definition remove_id (i : nat) (q : list nat) : list nat := filter (fun j => j <> i) q.

Definition eat_event : M timers unit :=
  modify (fun t => match heap_top (events t) (queue t) with
                   | Some i => t <| queue ::= remove_id i |>
                   | None => t
                   end).

Definition next_event : M timers (option nat) :=
  t ← get;
  match heap_top (events t) (queue t) with
  | None => mret None
  | Some i => eat_event ;; set_event i (fun e => e <| inQueue := false |>) ;; mret (Some i)
  end.

(** [rpl_event_queue::clear] *)
Definition clear : M timers unit :=
  q ← gets queue;
  for_each q (fun i => get_event i ;; set_event i (fun e => e <| inQueue := false |>)) ;;
  modify (fun t => t <| queue := [] |>).

Definition set_fake_time (n : timeval) : M timers unit :=
  modify (fun t => t <| faked_time := true |> <| fake_time := n |>).
Definition advance_fake_time : M timers unit :=
  modify (fun t => t <| fake_time ::= (fun f => mk_timeval (tv_sec f + 1) (tv_usec f)) |>).
End queue.

(** A heap for the witnesses: the first of the most urgent. *)
Fixpoint most_urgent (evs : list rpl_event) (best : nat) (q : list nat) : nat :=
  match q with
  | [] => best
  | j :: q' => most_urgent evs (if less_urgent evs j best then best else j) q'
  end.
#[global] Instance first_heap : EventHeap := fun evs q =>
  match q with [] => None | i :: q' => Some (most_urgent evs i q') end.

Section first_heap.
Lemma most_urgent_in evs best q : most_urgent evs best q ∈ best :: q.
Proof.
  revert best. induction q as [|j q IH]; intros best; cbn; [by left|].
  specialize (IH (if less_urgent evs j best then best else j)).
  rewrite !elem_of_cons in *. destruct (less_urgent evs j best); tauto.
Qed.
Lemma compares_incl evs q q' : (forall i, i ∈ q' -> i ∈ q) -> compares evs q -> compares evs q'.
Proof. intros Hi [Ht Htr]. split; [eauto|]. intros i j k ? ? ?. eauto. Qed.
Lemma most_urgent_top evs best q j : compares evs (best :: q) -> j ∈ best :: q ->
  less_urgent evs j (most_urgent evs best q) = true.
Proof.
  revert best j. induction q as [|k q IH]; intros best j HC Hj; cbn [most_urgent].
  { apply list_elem_of_singleton in Hj as ->. destruct HC as [Ht _]. by destruct (Ht best best); [left..| |]. }
  set (b := if less_urgent evs k best then best else k).
  assert (forall i, i ∈ b :: q -> i ∈ best :: k :: q) as Hincl
    by (intros i; subst b; rewrite !elem_of_cons; destruct (less_urgent evs k best); tauto).
  assert (compares evs (b :: q)) as HCb by (by eapply compares_incl).
  pose proof HC as [Ht Htr].
  assert (less_urgent evs best b = true /\ less_urgent evs k b = true) as [Hbest Hk].
  { subst b. destruct (less_urgent evs k best) eqn:E; (split; [|try done]).
    - by destruct (Ht best best); [left..| |].
    - destruct (Ht best k); [left|right; left|done|congruence].
    - by destruct (Ht k k); [right; left..| |]. }
  assert (b ∈ best :: k :: q) as Hb by (apply Hincl; by left).
  pose proof (IH b b HCb ltac:(by left)) as Hbm.
  pose proof (Hincl _ (most_urgent_in evs b q)) as Hm.
  apply elem_of_cons in Hj as [->|Hj]; [by apply (Htr _ b); [left|..]|].
  apply elem_of_cons in Hj as [->|Hj]; [by apply (Htr _ b); [right; left|..]|].
  apply IH; [done|by right].
Qed.
#[global] Instance first_heap_laws : EventHeapLaws.
Proof.
  split.
  - intros evs [|i q] ?; [done|]. by eexists.
  - intros evs [|i q] j; [done|]. intros [= <-]. apply most_urgent_in.
  - intros evs [|i q] j k HC; [done|]. intros [= <-] Hk. by apply most_urgent_top.
Qed.
End first_heap.

(** * Alarms *)
Section alarms.
Lemma carry_spec fuel sec usec s us :
  carry fuel sec usec = (s, us) -> 0 <= usec -> usec < Z.of_nat fuel * 1000000 + 1 ->
  s * 1000000 + us = sec * 1000000 + usec /\ 0 <= us <= 1000000.
Proof.
  revert sec usec. induction fuel as [|fuel IH]; intros sec usec; cbn [carry].
  - intros [= <- <-]. lia.
  - case_bool; zbool; [|intros [= <- <-]; lia].
    intros HC ? ?. apply IH in HC; lia.
Qed.

(** The alarm of an event is its reference time plus the delay, to the
    microsecond, and its microseconds stay in [0, 1000000]: a full second is
    not carried.  The reference time is the fake clock when one is set. *)
Lemma set_alarm_total t relative sec msec e :
  let rel := if faked_time t then fake_time t else relative in
  0 <= tv_usec rel -> 0 <= msec < 4294968 ->
  let a := alarm_time (set_alarm t relative sec msec e) in
  tv_total a = tv_total rel + sec * 1000000 + msec * 1000 /\ 0 <= tv_usec a <= 1000000.
Proof.
  intros rel Hu Hm. unfold set_alarm. fold rel.
  rewrite u32_small by lia.
  destruct (carry _ _ _) as [s us] eqn:HC. cbn.
  unfold tv_total. cbn. unfold carry_fuel in HC.
  apply carry_spec in HC; [lia..|].
  pose proof (Z.div_mod (tv_usec rel + msec * 1000) 1000000).
  pose proof (Z.mod_pos_bound (tv_usec rel + msec * 1000) 1000000).
  pose proof (Z.div_pos (tv_usec rel + msec * 1000) 1000000). lia.
Qed.

Lemma passed_iff e now :
  0 <= tv_usec (alarm_time e) <= 1000000 -> tv_normal now ->
  passed e now = true <-> tv_total (alarm_time e) <= tv_total now.
Proof.
  unfold passed, tv_total, tv_normal. intros.
  rewrite orb_true_iff, andb_true_iff, Z.ltb_lt, Z.leb_le, Z.eqb_eq. lia.
Qed.

(** An event is due exactly when its alarm is not after [now]; the alarms
    [set_alarm] leaves at a full second are due when the next one starts. *)
Lemma passed_spec e now :
  0 <= tv_usec (alarm_time e) <= 1000000 -> tv_normal now ->
  passed e now = true <-> tv_total (alarm_time e) <= tv_total now.
Proof. apply passed_iff. Qed.

Lemma passed_spec_witness :
  let e := mk_event rpl_send_dio 1 (mk_timeval 100 1000000) (mk_timeval 0 0) 0 0 None false false in
  passed e (mk_timeval 101 0) = true <-> 101000000 <= 101000000.
Proof.
  apply (passed_spec (mk_event rpl_send_dio 1 (mk_timeval 100 1000000) (mk_timeval 0 0) 0 0 None false false)
    (mk_timeval 101 0)); unfold tv_normal; cbn; lia.
Defined.

(** The time the main loop sleeps is the time to the alarm, to the millisecond. *)
Lemma miliseconds_util_spec e now :
  0 <= tv_usec (alarm_time e) <= 1000000 -> tv_normal now ->
  0 <= tv_total (alarm_time e) - tv_total now < 2147483000000 ->
  -1000 < miliseconds_util e now * 1000 - (tv_total (alarm_time e) - tv_total now) < 1000
  /\ 0 <= miliseconds_util e now.
Proof.
  unfold miliseconds_util, tv_total, tv_normal. intros.
  rewrite (s32_small (tv_usec _ - _)) by lia.
  set (d := tv_sec (alarm_time e) - tv_sec now). set (q := Z.quot _ 1000).
  replace (u32 (u32 d * 1000 + q)) with (u32 (d * 1000 + q))
    by (unfold u32; by rewrite <-Zplus_mod_idemp_l, <-Zmult_mod_idemp_l, Zplus_mod_idemp_l).
  rewrite s32_u32; subst d q; Z.to_euclidean_division_equations; lia.
Qed.

Lemma occurs_in_spec e now :
  tv_normal (alarm_time e) -> tv_normal now ->
  0 <= tv_usec (occurs_in e now) < 1000000 /\
  tv_total (occurs_in e now) = tv_total (alarm_time e) - tv_total now.
Proof.
  unfold occurs_in, tv_total, tv_normal. intros.
  rewrite s32_small by lia. case_bool; zbool; cbn; lia.
Qed.

Lemma carry_grows fuel sec usec : sec <= (carry fuel sec usec).1.
Proof.
  revert sec usec. induction fuel as [|fuel IH]; intros sec usec; cbn; [done|].
  case_bool; [|done]. specialize (IH (sec + 1) (usec - 1000000)). lia.
Qed.

(** An alarm the comparison is made for: the seconds fit an int. *)
Definition alarm_ok (e : rpl_event) : Prop :=
  0 <= tv_usec (alarm_time e) <= 1000000 /\ 0 <= tv_sec (alarm_time e) < 2147483648.

(** An alarm is one the comparison is made for when its instant is before 2038. *)
Lemma set_alarm_ok t relative sec msec e :
  let rel := if faked_time t then fake_time t else relative in
  tv_normal rel -> 0 <= sec <= 400000 -> 0 <= msec < 4294968 -> alarm_ok (set_alarm t relative sec msec e).
Proof.
  intros rel [Hu Hs] Hsec Hm. destruct (set_alarm_total t relative sec msec e) as [Ht Hb]; [apply Hu|done|].
  assert (tv_sec rel + sec <= tv_sec (alarm_time (set_alarm t relative sec msec e))) as Hg.
  { unfold set_alarm. fold rel. set (us := tv_usec rel + _). pose proof (carry_grows (carry_fuel us) (tv_sec rel + sec) us).
    by destruct (carry _ _ _). }
  fold rel in Ht. split; [exact Hb|]. revert Ht Hb Hg. unfold tv_total.
  generalize (alarm_time (set_alarm t relative sec msec e)). intros a Ht Hb Hg. clearbody rel. lia.
Qed.

Lemma rpl_eventless_iff a b : alarm_ok a -> alarm_ok b ->
  rpl_eventless a b = true <-> tv_sec (alarm_time b) < tv_sec (alarm_time a) \/
    (tv_sec (alarm_time b) = tv_sec (alarm_time a) /\ tv_usec (alarm_time b) <= tv_usec (alarm_time a)).
Proof.
  unfold alarm_ok, rpl_eventless. intros [? ?] [? ?].
  rewrite (s32_small (tv_sec _ - _)), (s32_small (tv_usec _ - _)) by lia.
  repeat (case_bool; zbool); split; intros; try done; lia.
Qed.

(** The comparison the heap is built with agrees with the alarms, for
    alarms less than 2^31 seconds apart, and it answers true for an event and
    itself, so it is not the strict order [boost::heap::compare] asks for. *)
Lemma rpl_eventless_spec a b :
  0 <= tv_usec (alarm_time a) <= 1000000 -> 0 <= tv_usec (alarm_time b) <= 1000000 ->
  - 2147483648 < tv_sec (alarm_time b) - tv_sec (alarm_time a) < 2147483648 ->
  (rpl_eventless a b = true -> tv_total (alarm_time b) <= tv_total (alarm_time a)) /\
  (rpl_eventless a b = false -> tv_total (alarm_time a) <= tv_total (alarm_time b)) /\
  rpl_eventless a a = true.
Proof.
  intros. unfold rpl_eventless, tv_total.
  rewrite (s32_small (tv_sec _ - _)), (s32_small (tv_usec _ - _)) by lia.
  rewrite !Z.sub_diag. split_and!; [..|done]; repeat (case_bool; zbool); try done; lia.
Qed.

Lemma rpl_eventless_spec_witness :
  let e s us := mk_event rpl_send_dio 1 (mk_timeval s us) (mk_timeval 0 0) 0 0 None false false in
  rpl_eventless (e 10 5) (e 10 4) = true /\ rpl_eventless (e 10 4) (e 10 4) = true.
Proof.
  split; [reflexivity|].
  apply (rpl_eventless_spec
    (mk_event rpl_send_dio 1 (mk_timeval 10 4) (mk_timeval 0 0) 0 0 None false false)
    (mk_event rpl_send_dio 1 (mk_timeval 10 4) (mk_timeval 0 0) 0 0 None false false));
    cbn; lia.
Defined.
End alarms.

(** * The queue *)
Definition alarms_ok (evs : list rpl_event) (q : list nat) : Prop :=
  forall i, i ∈ q -> exists e, evs !! i = Some e /\ alarm_ok e.

Section order.
(** The comparison orders the events whose alarms are before 2038. *)
Lemma alarms_compare evs q : alarms_ok evs q -> compares evs q.
Proof.
  intros Ha. unfold compares, less_urgent. split.
  - intros i j Hi Hj. destruct (Ha i Hi) as (a & -> & Ha'), (Ha j Hj) as (b & -> & Hb').
    rewrite !rpl_eventless_iff by done. lia.
  - intros i j k Hi Hj Hk. destruct (Ha i Hi) as (a & -> & Ha'), (Ha j Hj) as (b & -> & Hb'), (Ha k Hk) as (c & -> & Hc').
    rewrite !rpl_eventless_iff by done. lia.
Qed.

Lemma less_urgent_alarm evs q i j : alarms_ok evs q -> i ∈ q -> j ∈ q ->
  less_urgent evs j i = true -> ev_alarm evs i <= ev_alarm evs j.
Proof.
  intros Ha Hi Hj. unfold less_urgent, ev_alarm.
  destruct (Ha i Hi) as (a & -> & Ha'), (Ha j Hj) as (b & -> & Hb').
  rewrite rpl_eventless_iff by done. destruct Ha', Hb'. unfold tv_total. lia.
Qed.
End order.

Section queue_theorems.
Context `{EventHeapLaws}.

(** So the event at the top is the one with the earliest alarm. *)
Lemma heap_earliest evs q i j : alarms_ok evs q -> heap_top evs q = Some i -> j ∈ q ->
  ev_alarm evs i <= ev_alarm evs j.
Proof.
  intros Ha Ht Hj. apply (less_urgent_alarm evs q); [done|by eapply heap_top_in|done|].
  eapply heap_top_urgent; [by apply alarms_compare|done..].
Qed.

(** The queue holds every event once, only live events, and exactly those
    whose [inQueue] says so. *)
Definition queue_ok (t : timers) : Prop :=
  NoDup (queue t) /\
  (forall i, i ∈ queue t -> exists e, events t !! i = Some e /\ inQueue e = true /\ deleted e = false) /\
  (forall i e, events t !! i = Some e -> inQueue e = true -> i ∈ queue t).

Definition live (t : timers) (i : nat) : Prop :=
  exists e, events t !! i = Some e /\ deleted e = false.

Lemma get_event_live t i e : events t !! i = Some e -> deleted e = false ->
  get_event i t = Ok (e, t).
Proof. intros He Hd. unfold get_event. by rewrite He, Hd. Qed.

Lemma set_event_keeps t f i :
  queue_ok t -> (forall e, inQueue (f e) = inQueue e /\ deleted (f e) = deleted e) ->
  queue_ok (t <| events ::= alter f i |>).
Proof.
  intros (Hnd & Hin & Hout) Hf. split_and!; cbn; [done| |].
  - intros j Hj. destruct (Hin j Hj) as (e & He & Hq & Hd).
    destruct (decide (i = j)) as [->|].
    + exists (f e). rewrite list_lookup_alter_eq, He. destruct (Hf e) as [-> ->]. done.
    + exists e. by rewrite list_lookup_alter_ne.
  - intros j e He Hq. destruct (decide (i = j)) as [->|].
    + rewrite list_lookup_alter_eq in He. destruct (events t !! j) as [e'|] eqn:E; [|done].
      cbn in He. injection He as <-. destruct (Hf e') as [Hq' _]. eapply Hout; [done|congruence].
    + rewrite list_lookup_alter_ne in He by done. by eapply Hout.
Qed.

Lemma set_alarm_keeps t rel sec msec e :
  inQueue (set_alarm t rel sec msec e) = inQueue e /\ deleted (set_alarm t rel sec msec e) = deleted e.
Proof. unfold set_alarm. by destruct (carry _ _ _). Qed.

Lemma add_event_ok t i e :
  queue_ok t -> events t !! i = Some e -> inQueue e = false -> deleted e = false ->
  let t' := t <| queue ::= cons i |> <| events ::= alter (fun e => e <| inQueue := true |>) i |> in
  add_event i t = Ok (tt, t') /\ queue_ok t'.
Proof.
  intros (Hnd & Hin & Hout) He Hq Hd. unfold add_event, mbind, M_bind.
  rewrite (get_event_live _ _ e) by done. rewrite Hq. cbn. split; [done|].
  assert (i ∉ queue t) as Hni.
  { intros Hi. destruct (Hin i Hi) as (e' & He' & Hq' & _). congruence. }
  split_and!; cbn; [by constructor| |].
  - intros j [->|Hj]%elem_of_cons.
    + eexists. by rewrite list_lookup_alter_eq, He.
    + rewrite list_lookup_alter_ne by (intros ->; done). by apply Hin.
  - intros j e' He' Hq'. destruct (decide (i = j)) as [->|]; [set_solver|].
    rewrite list_lookup_alter_ne in He' by done. apply elem_of_cons. right. by eapply Hout.
Qed.

(** Queueing a live event never fails, whether it is in the queue or not, and
    leaves it there once. *)
Lemma requeue_ok t i :
  queue_ok t -> live t i -> exists t', requeue i t = Ok (tt, t') /\ queue_ok t' /\ i ∈ queue t'
    /\ length (events t') = length (events t).
Proof.
  intros Hok (e & He & Hd). unfold requeue, _requeue, mbind, M_bind.
  rewrite (get_event_live _ _ e) by done. destruct (inQueue e) eqn:Hq.
  - exists t. split_and!; [done..| |done]. by apply (proj2 (proj2 Hok) i e).
  - destruct (add_event_ok t i e Hok He Hq Hd) as [-> Hok'].
    eexists. split; [done|]. split; [done|]. cbn. split; [by left|by rewrite length_alter].
Qed.

Lemma elem_of_remove_id i j q : j ∈ remove_id i q <-> j ∈ q /\ j <> i.
Proof. unfold remove_id. rewrite list_elem_of_filter. tauto. Qed.

(** [next_event] takes out the event with the earliest alarm, and answers
    NULL only when the queue is empty. *)
Lemma next_event_earliest t :
  queue_ok t -> exists r t', next_event t = Ok (r, t') /\ queue_ok t' /\
  match r with
  | None => queue t = [] /\ t' = t
  | Some i => i ∈ queue t /\ queue t' = remove_id i (queue t) /\
      (forall j, j <> i -> events t' !! j = events t !! j) /\
      (alarms_ok (events t) (queue t) -> forall j, j ∈ queue t -> ev_alarm (events t) i <= ev_alarm (events t) j)
  end.
Proof.
  intros (Hnd & Hin & Hout). unfold next_event, eat_event, mbind, M_bind, get, modify. cbn.
  destruct (heap_top (events t) (queue t)) as [i|] eqn:Ht; cycle 1.
  { exists None, t. split_and!; [done..| |done].
    destruct (decide (queue t = [])) as [|Hne]; [done|].
    destruct (heap_top_some (events t) (queue t) Hne). congruence. }
  try rewrite Ht. cbn. eexists (Some i), _. split; [done|]. pose proof (heap_top_in _ _ _ Ht) as Hi.
  split; [|split_and!; [done|done| |by intros; eapply heap_earliest]].
  2:{ intros j Hj. cbn. by rewrite list_lookup_alter_ne. }
  split_and!; cbn.
  - by apply list.NoDup_filter.
  - intros j [Hj Hne]%elem_of_remove_id. rewrite list_lookup_alter_ne by done. by apply Hin.
  - intros j e He Hq. apply elem_of_remove_id. destruct (decide (i = j)) as [->|Hne].
    + rewrite list_lookup_alter_eq in He. destruct (events t !! j); [|done].
      injection He as <-. by cbn in Hq.
    + rewrite list_lookup_alter_ne in He by done. split; [by eapply Hout|done].
Qed.

Lemma set_event_run i f t : set_event i f t = Ok (tt, t <| events ::= alter f i |>).
Proof. done. Qed.

Lemma live_alter t f i j : (forall e, deleted (f e) = deleted e) -> live t j ->
  live (t <| events ::= alter f i |>) j.
Proof.
  intros Hf (e & He & Hd). unfold live. cbn. destruct (decide (i = j)) as [->|].
  - exists (f e). rewrite list_lookup_alter_eq, He, Hf. done.
  - exists e. by rewrite list_lookup_alter_ne.
Qed.

Lemma new_event_spec sec msec ty t : queue_ok t ->
  exists t', new_event sec msec ty t = Ok (length (events t), t') /\ queue_ok t' /\
    queue t' = queue t /\ live t' (length (events t)) /\ (forall j, live t j -> live t' j) /\
    (forall j e, events t !! j = Some e -> events t' !! j = Some e) /\
    clock t' = clock t /\ faked_time t' = faked_time t /\ fake_time t' = fake_time t.
Proof.
  intros (Hnd & Hin & Hout). eexists. split; [done|].
  set (ev := init_event t (clock t) sec msec ty).
  assert (inQueue ev = false /\ deleted ev = false) as [Hq Hd]
    by (subst ev; unfold init_event, set_alarm; by destruct (carry _ _ _)).
  split; [|split_and!; try done].
  - split_and!; cbn; [done| |].
    + intros i Hi. destruct (Hin i Hi) as (e & He & ?). exists e. split; [|done].
      by apply lookup_app_l_Some.
    + intros i e He Hqe. apply lookup_app_Some in He as [He|[Hle He]]; [by eapply Hout|].
      apply list_lookup_singleton_Some in He as [? <-]. fold ev in Hqe. congruence.
  - exists ev. cbn. rewrite lookup_app_r, Nat.sub_diag by done. done.
  - intros j (e & He & ?). exists e. cbn. split; [by apply lookup_app_l_Some|done].
  - intros j e He. cbn. by apply lookup_app_l_Some.
Qed.

(** Arming the event of a DAG never fails on a live event. *)
Lemma arm_event_run i ty dag msec t e :
  queue_ok t -> events t !! i = Some e -> deleted e = false ->
  exists t' e', arm_event i ty dag msec t = Ok (tt, t') /\ queue_ok t' /\ i ∈ queue t' /\
    events t' !! i = Some e' /\ event_type e' = ty /\ event_mDag e' = Some dag /\
    alarm_time e' = alarm_time (set_alarm t (clock t) 0 msec e) /\ deleted e' = false /\
    (forall j, j <> i -> events t' !! j = events t !! j) /\ length (events t') = length (events t) /\
    clock t' = clock t /\ faked_time t' = faked_time t /\ fake_time t' = fake_time t /\
    (forall j, j ∈ queue t' -> j = i \/ j ∈ queue t) /\
    repeat_sec e' = repeat_sec e /\ repeat_msec e' = repeat_msec e.
Proof.
  intros Hok He Hd.
  set (f1 := fun e : rpl_event => e <| event_type := ty |>).
  set (t1 := t <| events ::= alter f1 i |>).
  set (f2 := set_alarm t1 (clock t) 0 msec). set (t2 := t1 <| events ::= alter f2 i |>).
  set (f3 := fun e : rpl_event => e <| event_mDag := Some dag |>).
  set (t3 := t2 <| events ::= alter f3 i |>).
  assert (Hok3 : queue_ok t3).
  { apply set_event_keeps; [|done]. apply set_event_keeps; [|apply set_alarm_keeps].
    by apply set_event_keeps. }
  set (e3 := f3 (f2 (f1 e))).
  assert (He1 : events t1 !! i = Some (f1 e)) by (cbn; by rewrite list_lookup_alter_eq, He).
  assert (He3 : events t3 !! i = Some e3).
  { cbn. rewrite !list_lookup_alter_eq, He. done. }
  assert (Hd3 : deleted e3 = false).
  { change (deleted (set_alarm t1 (clock t) 0 msec (f1 e)) = false).
    by rewrite (proj2 (set_alarm_keeps _ _ _ _ _)). }
  assert (Hq3 : inQueue e3 = inQueue e).
  { change (inQueue (set_alarm t1 (clock t) 0 msec (f1 e)) = inQueue e).
    by rewrite (proj1 (set_alarm_keeps _ _ _ _ _)). }
  assert (Hrun : arm_event i ty dag msec t = requeue i t3).
  { unfold arm_event. rewrite (bind_ok _ _ _ e t) by by apply get_event_live.
    rewrite (bind_ok _ _ _ tt t1) by done. rewrite (bind_ok _ _ _ (clock t) t1) by done.
    rewrite (bind_ok _ _ _ tt t2).
    2:{ unfold alarm_event. by rewrite (bind_ok _ _ _ (f1 e) t1) by by apply get_event_live. }
    by rewrite (bind_ok _ _ _ tt t3). }
  assert (Hal : alarm_time e3 = alarm_time (set_alarm t (clock t) 0 msec e)).
  { change (alarm_time (set_alarm t1 (clock t) 0 msec (f1 e)) = alarm_time (set_alarm t (clock t) 0 msec e)).
    unfold set_alarm. change (faked_time t1) with (faked_time t). change (fake_time t1) with (fake_time t).
    by destruct (carry _ _ _). }
  assert (Hty : event_type e3 = ty /\ event_mDag e3 = Some dag /\
    repeat_sec e3 = repeat_sec e /\ repeat_msec e3 = repeat_msec e).
  { subst e3 f3 f2 f1. cbn. unfold set_alarm. by destruct (carry _ _ _). }
  assert (Hoth : forall j, j <> i -> events t3 !! j = events t !! j).
  { intros j Hj. cbn. by rewrite !list_lookup_alter_ne by done. }
  assert (Hlen : length (events t3) = length (events t)) by (cbn; by rewrite !length_alter).
  rewrite Hrun. unfold requeue, _requeue, mbind, M_bind.
  rewrite (get_event_live _ _ e3) by done. rewrite Hq3. destruct (inQueue e) eqn:Hqe.
  - exists t3, e3. destruct Hty as (? & ? & ? & ?). split_and!; try done; [|by right].
    by apply (proj2 (proj2 Hok3) i e3).
  - destruct (add_event_ok t3 i e3 Hok3 He3 Hq3 Hd3) as [-> Hok4].
    eexists _, (e3 <| inQueue := true |>). split; [done|]. destruct Hty as (? & ? & ? & ?).
    split; [done|]. cbn [queue events clock faked_time fake_time]. split_and!; try done.
    + by left.
    + transitivity ((fun e : rpl_event => e <| inQueue := true |>) <$> (events t3 !! i));
        [apply (list_lookup_alter_eq _ (events t3) i)|by rewrite He3].
    + intros j Hj. transitivity (events t3 !! j); [by apply (list_lookup_alter_ne _ (events t3))|by apply Hoth].
    + transitivity (length (events t3)); [apply (length_alter _ (events t3))|done].
    + by intros j [->|Hj]%elem_of_cons; [left|right].
Qed.

(** Arming the event of a DAG never fails on a live event; afterwards the
    event is in the queue, once, with the type and the DAG asked for and an
    alarm that many milliseconds after the clock (the fake one when it is set),
    and no other event has changed. *)
Lemma arm_event_spec i ty dag msec t e :
  let rel := if faked_time t then fake_time t else clock t in
  queue_ok t -> events t !! i = Some e -> deleted e = false ->
  0 <= tv_usec rel -> 0 <= msec < 4294968 ->
  exists t' e', arm_event i ty dag msec t = Ok (tt, t') /\ queue_ok t' /\ i ∈ queue t' /\
    events t' !! i = Some e' /\ event_type e' = ty /\ event_mDag e' = Some dag /\
    tv_total (alarm_time e') = tv_total rel + msec * 1000 /\ deleted e' = false /\
    (forall j, j <> i -> events t' !! j = events t !! j).
Proof.
  intros rel Hok He Hd Hu Hm.
  destruct (arm_event_run i ty dag msec t e Hok He Hd) as
    (t' & e' & Hr & Hok' & Hi & He' & Hty & Hdag & Hal & Hdel & Hoth & _).
  exists t', e'. split_and!; try done. rewrite Hal.
  pose proof (set_alarm_total t (clock t) 0 msec e Hu Hm) as [HT _]. rewrite HT. subst rel. lia.
Qed.

(** ** Emptying the queue *)
Fixpoint next_events (n : nat) : M timers (list nat) :=
  match n with
  | O => mret []
  | S n' => r ← next_event;
            match r with None => mret [] | Some i => l ← next_events n'; mret (i :: l) end
  end.

Lemma remove_id_perm i q : NoDup q -> i ∈ q -> i :: remove_id i q ≡ₚ q.
Proof.
  intros Hnd Hi. apply NoDup_Permutation; [|done|].
  - constructor; [rewrite elem_of_remove_id; tauto|by apply list.NoDup_filter].
  - intros j. rewrite elem_of_cons, elem_of_remove_id. destruct (decide (j = i)) as [->|]; tauto.
Qed.

Lemma remove_id_length i q : NoDup q -> i ∈ q -> S (length (remove_id i q)) = length q.
Proof. intros Hnd Hi. by rewrite <-(Permutation_length (remove_id_perm i q Hnd Hi)). Qed.

Lemma alarms_ok_taken evs evs' q i : (forall j, j <> i -> evs' !! j = evs !! j) ->
  alarms_ok evs q -> alarms_ok evs' (remove_id i q).
Proof. intros Hoth Ha j [Hj Hne]%elem_of_remove_id. rewrite Hoth by done. by apply Ha. Qed.

(** C20: Taking events off the queue gives every one of them exactly once, the
    earliest alarm first, and then NULL, when the alarms are in the seconds an
    int holds (up to 2038), where the comparison the heap is given, [rpl_eventless],
    orders the events by their alarms. *)
Theorem next_events_sorted t : queue_ok t -> alarms_ok (events t) (queue t) ->
  exists l t', next_events (S (length (queue t))) t = Ok (l, t') /\ l ≡ₚ queue t /\
    StronglySorted (fun i j => ev_alarm (events t) i <= ev_alarm (events t) j) l /\
    queue t' = [] /\ queue_ok t'.
Proof.
  remember (length (queue t)) as n eqn:Hn. revert t Hn. induction n as [|n IH]; intros t Hn Hok Hal.
  - destruct (next_event_earliest t Hok) as (r & t' & Hr & Hok' & Hspec). cbn [next_events].
    symmetry in Hn. apply nil_length_inv in Hn.
    destruct r as [i|]; [destruct Hspec as [Hi _]; rewrite Hn in Hi; by apply elem_of_nil in Hi|].
    destruct Hspec as [_ ->]. exists [], t. rewrite (bind_ok _ _ _ _ _ Hr), Hn.
    split_and!; try done. constructor.
  - destruct (next_event_earliest t Hok) as (r & t1 & Hr & Hok1 & Hspec).
    destruct r as [i|]; [|destruct Hspec as [Hq _]; by rewrite Hq in Hn].
    destruct Hspec as (Hi & Hq & Hoth & Hmin%(fun H => H Hal)). pose proof (proj1 Hok) as Hnd.
    pose proof (remove_id_length i _ Hnd Hi) as Hlen. rewrite <-Hq in Hlen.
    destruct (IH t1 ltac:(lia) Hok1) as (l & t' & Hl & Hp & Hsorted & Hnil & Hok').
    { rewrite Hq. by apply (alarms_ok_taken (events t)). }
    exists (i :: l), t'. split.
    { change (next_events (S (S n))) with
        (r ← next_event; match r with None => mret [] | Some i => l ← next_events (S n); mret (i :: l) end).
      rewrite (bind_ok _ _ _ _ _ Hr). by rewrite (bind_ok _ _ _ _ _ Hl). }
    assert (forall j, j ∈ l -> j ∈ queue t /\ j <> i) as Hl'
      by (intros j Hj; rewrite Hp, Hq in Hj; by apply elem_of_remove_id).
    assert (forall j, j <> i -> ev_alarm (events t1) j = ev_alarm (events t) j) as Hev
      by (intros j Hj; unfold ev_alarm; by rewrite Hoth).
    split; [rewrite Hp, Hq; by apply remove_id_perm|split; [|done]].
    constructor; [|apply list.Forall_forall; intros j Hj; apply Hmin; by destruct (Hl' j Hj)].
    clear -Hsorted Hl' Hev. induction Hsorted as [|j l Hs IH Hj]; constructor.
    + apply IH. intros k Hk. apply Hl'. by right.
    + rewrite list.Forall_forall in Hj |- *. intros k Hk. rewrite <-!Hev; [by apply Hj|..].
      * apply Hl'. by right.
      * apply Hl'. by left.
Qed.
End queue_theorems.

(** * Witnesses *)
Section witnesses.
Let ev (s : Z) (q : bool) : rpl_event :=
  mk_event rpl_send_dio 1 (mk_timeval s 0) (mk_timeval 0 0) 0 5000 (Some 0%nat) q false.
Let ts : timers :=
  mk_timers [ev 30 true; ev 10 true; ev 20 true; ev 5 false] [0; 1; 2]%nat 5 false (mk_timeval 0 0)
    (mk_timeval 100 999000).
Lemma witness_queue_ok : queue_ok ts.
Proof.
  split_and!.
  - by apply (bool_decide_unpack _).
  - intros i Hi. repeat (apply elem_of_cons in Hi as [->|Hi]; [by eexists|]). by apply elem_of_nil in Hi.
  - intros i e He Hq. do 3 (destruct i as [|i]; [set_solver|]).
    destruct i; cbn in He; [by injection He as <-|done].
Qed.

Lemma next_events_sorted_witness :
  exists l t', next_events 4 ts = Ok (l, t') /\ l ≡ₚ [0; 1; 2]%nat /\
    StronglySorted (fun i j => ev_alarm (events ts) i <= ev_alarm (events ts) j) l.
Proof.
  destruct (next_events_sorted ts witness_queue_ok) as (l & t' & Hr & Hp & Hs & _).
  - intros i Hi. repeat (apply elem_of_cons in Hi as [->|Hi]; [eexists; split; [reflexivity|]; split; cbn; lia|]).
    by apply elem_of_nil in Hi.
  - by exists l, t'.
Defined.

Lemma arm_event_spec_witness :
  exists t' e', arm_event 3 rpl_send_dao 7 2001 ts = Ok (tt, t') /\ 3%nat ∈ queue t' /\
    events t' !! 3%nat = Some e' /\ tv_total (alarm_time e') = 103000000.
Proof.
  destruct (arm_event_spec 3 rpl_send_dao 7 2001 ts (ev 5 false) witness_queue_ok)
    as (t' & e' & Hr & _ & Hi & He & _ & _ & Ha & _); [done|done|done|done|].
  by exists t', e'.
Defined.
End witnesses.
