(* ===== verification/Prefix.v ===== *)
(** Addresses, nodes and prefixes: [ip_address]/[ip_subnet] of
    [include/oswlibs.h] with the predicates of [lib/libosw] the program uses,
    [rpl_node] ([include/node.h], [lib/libndmgmt/node.cpp]), [prefix_node] and
    [prefix_map] ([include/prefix.h], [lib/libndmgmt/prefix.cpp]).

    A [prefix_map] is a [std::map] ordered by [prefix_less], which is not an
    order (it answers true for every two different keys), so what the map does
    is not what the standard says of maps.  The class [PrefixMapSem] states the
    little the theorems of the other files rely on; it has two instances, what
    libstdc++'s red-black tree does with [prefix_less] and what it does with the
    order the comments of [prefix_less] describe. *)

From Stdlib Require Import ZArith Lia.
From stdpp Require Import base list gmap numbers sorting.
From S2P Require Import Prelude.
#[local] Open Scope Z_scope.

(** * Addresses *)

Definition AF_INET : Z := 2.
Definition AF_INET6 : Z := 10.

(** [struct in6_addr] is its 16 bytes. *)
Abbreviation in6_addr := (list Z).

Record ip_address := mk_ip { ip_family : Z; ip_bytes : in6_addr }.
Record ip_subnet := mk_subnet { sn_addr : ip_address; maskbits : Z }.

#[global] Instance ip_address_eq_dec : EqDecision ip_address.
Proof. solve_decision. Defined.
#[global] Instance ip_subnet_eq_dec : EqDecision ip_subnet.
Proof. solve_decision. Defined.

Definition ip6 (bs : in6_addr) : ip_address := mk_ip AF_INET6 bs.
Definition subnet6 (bs : in6_addr) (bits : Z) : ip_subnet := mk_subnet (ip6 bs) bits.
Definition in6addr_any : in6_addr := zeros 16.

(** [isvalidsubnet]: no number is both [<= 0] and [> 128]. *)
Definition isvalidsubnet (s : ip_subnet) : bool :=
  if ip_family (sn_addr s) =? AF_INET then
    negb ((maskbits s <=? 0) && (maskbits s >? 32))
  else if ip_family (sn_addr s) =? AF_INET6 then
    negb ((maskbits s <=? 0) && (maskbits s >? 128))
  else false.

(** The loop of [samenbits] over two addresses of 16 bytes. *)
Fixpoint samenbits_bytes (a b : list Z) (nbits : Z) : bool :=
  if nbits >=? 8 then
    match a, b with
    | x :: a', y :: b' => if x =? y then samenbits_bytes a' b' (nbits - 8) else false
    | _, _ => false
    end
  else if nbits >? 0 then
    match a, b with
    | x :: _, y :: _ =>
        let m := Z.lnot (Z.shiftr 255 nbits) in Z.land x m =? Z.land y m
    | _, _ => false
    end
  else true.

Definition samenbits (a b : ip_address) (nbits : Z) : bool :=
  if negb (ip_family a =? ip_family b) then false
  else if nbits >? zlen (ip_bytes a) * 8 then false
  else samenbits_bytes (ip_bytes a) (ip_bytes b) nbits.

Definition addrinsubnet (a : ip_address) (s : ip_subnet) : bool :=
  if negb (ip_family a =? ip_family (sn_addr s)) then false
  else samenbits a (sn_addr s) (maskbits s).

(** [initsubnet] of [lib/libosw/initsubnet.c], for a count that is not negative;
    [clash] is the character ['0'] or ['x'].  On an unknown [clash] the address
    is already in [dst] and the mask is not.  [false] is an error message. *)
Fixpoint clear_host (die : bool) (bs : list Z) (count : Z) : bool * list Z :=
  match bs with
  | [] => (true, [])
  | b :: bs' =>
      let m := if count >=? 8 then 0 else if count <=? 0 then 255 else Z.shiftr 255 count in
      if negb (Z.land b m =? 0) && die then (false, bs)
      else let '(ok, rest) := clear_host die bs' (count - 8) in (ok, Z.ldiff b m :: rest)
  end.
Definition initsubnet (addr : ip_address) (count clash : Z) (dst : ip_subnet) : bool * ip_subnet :=
  let dst := {| sn_addr := addr; maskbits := maskbits dst |} in
  if negb (ip_family addr =? AF_INET) && negb (ip_family addr =? AF_INET6) then (false, dst)
  else if negb (clash =? 48) && negb (clash =? 120) then (false, dst)
  else if count / 8 >? zlen (ip_bytes addr) then (false, dst)
  else
    let '(ok, bs) := clear_host (clash =? 120) (ip_bytes addr) count in
    let addr := {| ip_family := ip_family addr; ip_bytes := bs |} in
    if ok then (true, {| sn_addr := addr; maskbits := count |})
    else (false, {| sn_addr := addr; maskbits := maskbits dst |}).

(** [subnettypeof] is the family of the subnet's address.  The specification:
    the first [n] bits of the two addresses are the same. *)
Definition addr_bit (a : list Z) (i : nat) : bool :=
  match a !! (i / 8)%nat with Some b => Z.testbit b (7 - Z.of_nat (i mod 8)) | None => false end.

(** * Nodes *)

Record rpl_node := mk_node {
  nd_valid : bool;
  nd_self : bool;
  nodeip : ip_address;
  nd_ifindex : Z;
  lastseen : Z;
  alreadyDeclined : bool;
  alreadyAccepted : bool;
  joinQueryStarted : bool;
  queryId : Z;
  nd_mDN : option nat      (** [mDN], the index of the DAG *)
}.
#[global] Instance eta_node : Eta rpl_node := fun r =>
  mk_node (nd_valid r) (nd_self r) (nodeip r) (nd_ifindex r) (lastseen r)
    (alreadyDeclined r) (alreadyAccepted r) (joinQueryStarted r) (queryId r) (nd_mDN r).

Definition zero_node (n : rpl_node) : rpl_node :=
  n <| nd_valid := false |> <| nd_self := false |> <| alreadyDeclined := false |>
    <| alreadyAccepted := false |> <| joinQueryStarted := false |>.

(** The default constructor, on memory that held [junk]. *)
Definition new_rpl_node (junk : rpl_node) : rpl_node := zero_node junk.

Definition node_number (n : rpl_node) : in6_addr := ip_bytes (nodeip n).
Definition set_last_seen (clock : Z) (n : rpl_node) : rpl_node := n <| lastseen := clock |>.
Definition set_addr (v6 : in6_addr) (n : rpl_node) : rpl_node := n <| nodeip := ip6 v6 |>.

(** [couldBeValid]; the debug object of a node is never NULL here. *)
Definition couldBeValid (n : rpl_node) : rpl_node :=
  if nd_valid n then n
  else match nd_mDN n with
       | Some _ => if ip_family (nodeip n) =? AF_INET6 then n <| nd_valid := true |> else n
       | None => n
       end.

Definition set_dag (dn : option nat) (n : rpl_node) : rpl_node :=
  couldBeValid (match dn with Some _ => n <| nd_mDN := dn |> | None => n end).

(** [rpl_node(v6, dn, deb)] does not set [valid] first. *)
Definition rpl_node_of_dag (junk : rpl_node) (v6 : in6_addr) (dn : option nat) : rpl_node :=
  set_dag dn (set_addr v6 (junk <| nd_self := false |>)).

(** [rpl_node(v6)] *)
Definition rpl_node_of_addr (junk : rpl_node) (v6 : in6_addr) : rpl_node :=
  set_addr v6 (junk <| nd_valid := true |> <| nd_self := false |>).

Definition makevalid (v6 : in6_addr) (dn : option nat) (n : rpl_node) : rpl_node :=
  if nd_valid n then n
  else couldBeValid (n <| nodeip := ip6 v6 |> <| nd_mDN := dn |>).

Definition markself (index : Z) (n : rpl_node) : rpl_node :=
  n <| nd_self := true |> <| nd_ifindex := index |>.

Definition markvalid (index : Z) (v6 : in6_addr) (n : rpl_node) : rpl_node :=
  (zero_node n) <| nodeip := ip6 v6 |> <| nd_ifindex := index |> <| nd_valid := true |>.

Definition is_equal (n : rpl_node) (v6 : in6_addr) : bool :=
  if nd_valid n then memcmp (node_number n) v6 =? 0 else false.

Definition join_declined (n : rpl_node) : bool := negb (joinQueryStarted n) && alreadyDeclined n.
Definition join_accepted (n : rpl_node) : bool := negb (joinQueryStarted n) && alreadyAccepted n.
Definition join_queryInProgress (n : rpl_node) : bool := joinQueryStarted n.

Definition set_accepted (accepted : bool) (n : rpl_node) : rpl_node :=
  (if accepted then n <| alreadyDeclined := false |> <| alreadyAccepted := true |>
   else n <| alreadyDeclined := true |> <| alreadyAccepted := false |>)
  <| joinQueryStarted := false |>.

(** [node_map]: [rpl_less] is a strict order on addresses, so it is a map.
    [operator[]] makes the node it does not find. *)
Abbreviation node_map := (gmap (list Z) rpl_node).

Definition node_at (junk : rpl_node) (m : node_map) (a : in6_addr) : rpl_node :=
  default (new_rpl_node junk) (m !! a).

Definition rpl_less (x y : in6_addr) : bool := memcmp x y <? 0.

(** Iteration is in the order of [rpl_less]. *)
Definition addr_le (x y : list Z * rpl_node) : Prop := memcmp (fst x) (fst y) <= 0.
#[global] Instance addr_le_dec x y : Decision (addr_le x y).
Proof. unfold addr_le. apply _. Defined.
Definition node_map_items (m : node_map) : list (list Z * rpl_node) :=
  merge_sort addr_le (map_to_list m).

(** * Prefixes *)

(** [rpl_node *announced_from]: not set, a node of [dag_members] of the DAG, a node
    the program made for itself, or the address of a parameter that has gone. *)
Inductive announcer := NoPeer | Member (a : in6_addr) | Outside (n : rpl_node) | Expired.

Record prefix_node := mk_prefix {
  mPrefix_ : ip_subnet;
  pn_valid : bool;
  installed : bool;
  announced_from : announcer;
  pn_mDN : option nat
}.
#[global] Instance eta_prefix : Eta prefix_node := fun r =>
  mk_prefix (mPrefix_ r) (pn_valid r) (installed r) (announced_from r) (pn_mDN r).

(** The default constructor. *)
Definition new_prefix_node (junk : prefix_node) : prefix_node :=
  junk <| pn_valid := false |> <| installed := false |>.

Definition set_prefix (p : ip_subnet) (n : prefix_node) : prefix_node :=
  n <| mPrefix_ := p |> <| pn_valid := true |> <| installed := false |>.
Definition set_prefix6 (v6 : in6_addr) (len : Z) (n : prefix_node) : prefix_node :=
  set_prefix (subnet6 v6 len) n.

(** [set_installed] assigns its parameter. *)
Definition set_installed (b : bool) (n : prefix_node) : prefix_node := n.
Definition set_announcer (a : announcer) (n : prefix_node) : prefix_node :=
  n <| announced_from := a |>.
Definition set_dn (dn : option nat) (n : prefix_node) : prefix_node := n <| pn_mDN := dn |>.

Definition prefix_markself (dn : option nat) (p : ip_subnet) (n : prefix_node) : prefix_node :=
  set_prefix p (set_dn dn (n <| installed := true |>)).

(** * Maps of prefixes *)

(** [prefix_less]: [memcmp] or the difference of the mask lengths, as a bool. *)
Definition prefix_less (x y : ip_subnet) : bool :=
  let m := memcmp (ip_bytes (sn_addr x)) (ip_bytes (sn_addr y)) in
  if (m <? 0) || (m >? 0) then true else negb (maskbits x - maskbits y =? 0).

(** The order its comments describe. *)
Definition prefix_before (x y : ip_subnet) : bool :=
  let m := memcmp (ip_bytes (sn_addr x)) (ip_bytes (sn_addr y)) in
  if m <? 0 then true else if m >? 0 then false else maskbits x <? maskbits y.

(** Neither is before the other: the map takes them for the same key. *)
Definition same_key (x y : ip_subnet) : bool :=
  (memcmp (ip_bytes (sn_addr x)) (ip_bytes (sn_addr y)) =? 0) && (maskbits x =? maskbits y).

(** The nodes of a map, in the order they were made; a pointer to a value is its
    index, as nodes of a [std::map] do not move and the program erases none. *)
Abbreviation prefix_map := (list (ip_subnet * prefix_node)).

(** [find] gives the node a lookup of the key ends at, [walk] the nodes an
    iteration from [begin()] to [end()] visits. *)
Class PrefixMapSem := {
  pm_find : list ip_subnet -> ip_subnet -> option nat;
  pm_walk : list ip_subnet -> list nat
}.

Class PrefixMapLaws `{PrefixMapSem} := {
  pm_find_sound : forall ks k h, pm_find ks k = Some h ->
    exists k', ks !! h = Some k' /\ same_key k' k = true;
  pm_walk_lt : forall ks h, h ∈ pm_walk ks -> (h < length ks)%nat;
  pm_walk_nodup : forall ks, NoDup (pm_walk ks);
  pm_walk_nil : forall ks, pm_walk ks = [] -> ks = []
}.

(** A key that is in the map is found, and an iteration visits everything. *)
Class PrefixMapComplete `{PrefixMapSem} := {
  pm_find_complete : forall ks k h, ks !! h = Some k -> exists h', pm_find ks k = Some h';
  pm_walk_all : forall ks h, (h < length ks)%nat -> h ∈ pm_walk ks
}.

Section prefix_map.
Context `{PrefixMapSem}.

(** [map[key]]: the node of the key, made if there is none. *)
Definition pm_index (junk : prefix_node) (k : ip_subnet) (m : prefix_map) : nat * prefix_map :=
  match pm_find m.*1 k with
  | Some h => (h, m)
  | None => (length m, m ++ [(k, new_prefix_node junk)])
  end.
Definition pm_get (m : prefix_map) (h : nat) : option prefix_node := snd <$> m !! h.
Definition pm_upd (h : nat) (f : prefix_node -> prefix_node) (m : prefix_map) : prefix_map :=
  alter (fun kv => (kv.1, f kv.2)) h m.
Definition pm_values (m : prefix_map) : list prefix_node :=
  omap (pm_get m) (pm_walk m.*1).
Definition pm_size (m : prefix_map) : Z := zlen m.
Definition pm_begin (m : prefix_map) : option nat := head (pm_walk m.*1).
End prefix_map.

(** What libstdc++ does with [prefix_less]: every key but an equal one is
    greater, so a search goes right from the first node made, and a new node
    becomes the left child of that one, in place of the one before it. *)
Definition libstdcxx_map : PrefixMapSem := {|
  pm_find ks k := match ks with [] => None | k0 :: _ => if same_key k0 k then Some 0%nat else None end;
  pm_walk ks := match ks with [] => [] | [_] => [0%nat] | _ => [1%nat; 0%nat] end
|}.

(** What it does with [prefix_before]. *)
Definition before_or_same (ks : list ip_subnet) (i j : nat) : Prop :=
  match ks !! i, ks !! j with
  | Some x, Some y => prefix_before y x = false
  | _, _ => True
  end.
#[global] Instance before_or_same_dec ks i j : Decision (before_or_same ks i j).
Proof. unfold before_or_same. repeat case_match; apply _. Defined.

Definition ordered_map : PrefixMapSem := {|
  pm_find ks k := fst <$> list_find (fun k' => same_key k' k = true) ks;
  pm_walk ks := merge_sort (before_or_same ks) (seq 0 (length ks))
|}.

(** * Subnets: the bits that are compared *)
Section samenbits.
Lemma byte_bits_eq x y : byte_ok x -> byte_ok y ->
  (forall i, (i < 8)%nat -> Z.testbit x (7 - Z.of_nat i) = Z.testbit y (7 - Z.of_nat i)) <-> x = y.
Proof.
  intros Hx Hy. split; [|by intros ->]. intros Hb. apply Z.bits_inj'. intros n Hn.
  destruct (decide (n < 8)).
  - specialize (Hb (Z.to_nat (7 - n))). replace (7 - Z.of_nat (Z.to_nat (7 - n))) with n in Hb by lia.
    apply Hb. lia.
  - assert (forall z, byte_ok z -> Z.testbit z n = false) as Hz; [|by rewrite !Hz].
    intros z [? ?]. destruct (decide (z = 0)) as [->|]; [apply Z.bits_0|].
    apply Z.bits_above_log2; [lia|]. apply Z.log2_lt_pow2; [lia|].
    apply Z.lt_le_trans with (2 ^ 8); [done|]. apply Z.pow_le_mono_r; lia.
Qed.

(** The partial byte: the mask keeps the [n] high bits. *)
Lemma mask_bits x y n : byte_ok x -> byte_ok y -> 0 < n < 8 ->
  Z.land x (Z.lnot (Z.shiftr 255 n)) = Z.land y (Z.lnot (Z.shiftr 255 n)) <->
  (forall i, (i < Z.to_nat n)%nat -> Z.testbit x (7 - Z.of_nat i) = Z.testbit y (7 - Z.of_nat i)).
Proof.
  intros Hx Hy Hn.
  assert (forall m, 0 <= m -> Z.testbit (Z.lnot (Z.shiftr 255 n)) m = (8 - n <=? m)) as Hmask.
  { intros m Hm. rewrite Z.lnot_spec, Z.shiftr_spec by lia.
    change 255 with (Z.ones 8). rewrite Z.testbit_ones_nonneg by lia.
    destruct (Z.ltb_spec (m + n) 8), (Z.leb_spec (8 - n) m); done || lia. }
  split.
  - intros HE i Hi. pose proof (f_equal (fun z => Z.testbit z (7 - Z.of_nat i)) HE) as HB. cbn in HB.
    rewrite !Z.land_spec, !Hmask in HB by lia.
    rewrite (proj2 (Z.leb_le _ _)) in HB by lia. by rewrite !andb_true_r in HB.
  - intros HB. apply Z.bits_inj'. intros m Hm. rewrite !Z.land_spec, !Hmask by done.
    destruct (Z.leb_spec (8 - n) m); [|by rewrite !andb_false_r]. f_equal.
    destruct (decide (m < 8)).
    + specialize (HB (Z.to_nat (7 - m))).
      replace (7 - Z.of_nat (Z.to_nat (7 - m))) with m in HB by lia. apply HB. lia.
    + assert (forall z, byte_ok z -> Z.testbit z m = false) as Hz; [|by rewrite !Hz].
      intros z [? ?]. destruct (decide (z = 0)) as [->|]; [apply Z.bits_0|].
      apply Z.bits_above_log2; [lia|]. apply Z.log2_lt_pow2; [lia|].
      apply Z.lt_le_trans with (2 ^ 8); [done|]. apply Z.pow_le_mono_r; lia.
Qed.

Lemma addr_bit_head x a i : (i < 8)%nat -> addr_bit (x :: a) i = Z.testbit x (7 - Z.of_nat i).
Proof. intros. unfold addr_bit. by rewrite Nat.div_small, Nat.mod_small by done. Qed.
Lemma addr_bit_tail x a i : addr_bit (x :: a) (8 + i) = addr_bit a i.
Proof.
  unfold addr_bit.
  pose proof (PeanoNat.Nat.div_mod_eq (8 + i) 8). pose proof (PeanoNat.Nat.div_mod_eq i 8).
  pose proof (PeanoNat.Nat.mod_upper_bound (8 + i) 8). pose proof (PeanoNat.Nat.mod_upper_bound i 8).
  replace ((8 + i) / 8)%nat with (S (i / 8)) by lia.
  by replace ((8 + i) mod 8)%nat with (i mod 8)%nat by lia.
Qed.

Lemma samenbits_bytes_spec a b n :
  bytes_ok a -> bytes_ok b -> length a = length b -> 0 <= n <= zlen a * 8 ->
  samenbits_bytes a b n = true <->
  (forall i, (i < Z.to_nat n)%nat -> addr_bit a i = addr_bit b i).
Proof.
  revert b n. induction a as [|x a IH]; intros [|y b] n Ha Hb Hl Hn; try done.
  - unfold zlen in Hn. cbn in Hn. replace n with 0 by lia. cbn. split; [intros; lia|done].
  - apply Forall_cons_1 in Ha as [Hx Ha], Hb as [Hy Hb]. injection Hl as Hl.
    rewrite zlen_cons in Hn. cbn [samenbits_bytes].
    destruct (Z.geb_spec n 8) as [Hge|Hlt].
    + destruct (Z.eqb_spec x y) as [->|Hxy].
      * rewrite IH by (done || lia). split; intros HB i Hi.
        -- destruct (decide (i < 8)%nat); [by rewrite !addr_bit_head|].
           replace i with (8 + (i - 8))%nat by lia. rewrite !addr_bit_tail. apply HB. lia.
        -- rewrite <-(addr_bit_tail y a), <-(addr_bit_tail y b). apply HB. lia.
      * split; [done|]. intros HB. destruct Hxy. apply byte_bits_eq; [done..|].
        intros i Hi. rewrite <-(addr_bit_head x a), <-(addr_bit_head y b) by done. apply HB. lia.
    + destruct (Z.gtb_spec n 0) as [Hpos|Hz].
      * cbv zeta. rewrite Z.eqb_eq, mask_bits by (done || lia).
        split; intros HB i Hi; specialize (HB i Hi).
        -- by rewrite !addr_bit_head by lia.
        -- by rewrite !addr_bit_head in HB by lia.
      * split; [intros; lia|done].
Qed.
End samenbits.

(** An address is in a subnet exactly when its first [maskbits] bits are
    those of the subnet's address. *)
Lemma addrinsubnet_bits a s n :
  bytes_ok a -> bytes_ok s -> length a = 16%nat -> length s = 16%nat -> 0 <= n <= 128 ->
  addrinsubnet (ip6 a) (subnet6 s n) = true <->
  (forall i, (i < Z.to_nat n)%nat -> addr_bit a i = addr_bit s i).
Proof.
  intros Ha Hs Hla Hls Hn. unfold addrinsubnet, samenbits. cbn -[samenbits_bytes].
  assert (zlen a = 16) as -> by (unfold zlen; lia). rewrite gtb_false by lia.
  apply samenbits_bytes_spec; [done..|congruence|unfold zlen; lia].
Qed.

(** * Nodes *)
Section nodes.
Lemma makevalid_valid v6 dn n : nd_valid (makevalid v6 (Some dn) n) = true.
Proof. unfold makevalid. destruct (nd_valid n) eqn:E; [done|]. unfold couldBeValid. cbn. by rewrite E. Qed.

Lemma makevalid_addr v6 dn n :
  (nd_valid n = true -> node_number n = v6) -> node_number (makevalid v6 (Some dn) n) = v6.
Proof.
  unfold makevalid, couldBeValid. intros Hn. destruct (nd_valid n) eqn:E; [by apply Hn|].
  cbn. by rewrite E.
Qed.

(** [set_accepted] records one answer, and [markvalid] forgets it. *)
Lemma set_accepted_answer b n :
  join_accepted (set_accepted b n) = b /\ join_declined (set_accepted b n) = negb b /\
  join_queryInProgress (set_accepted b n) = false.
Proof. by destruct b. Qed.
Lemma markvalid_forgets i v6 n :
  join_accepted (markvalid i v6 n) = false /\ join_declined (markvalid i v6 n) = false /\
  join_queryInProgress (markvalid i v6 n) = false.
Proof. done. Qed.
End nodes.

(** * Maps of prefixes *)
Section maps.
Definition addr16 (s : ip_subnet) : Prop := length (ip_bytes (sn_addr s)) = 16%nat.
Implicit Types x y z : ip_subnet.

Lemma same_key_refl x : same_key x x = true.
Proof. unfold same_key. by rewrite memcmp_refl, !Z.eqb_refl. Qed.

Lemma prefix_less_spec x y : prefix_less x y = negb (same_key x y).
Proof.
  unfold prefix_less, same_key. set (m := memcmp _ _).
  destruct (Z.ltb_spec m 0), (Z.gtb_spec m 0), (Z.eqb_spec m 0), (Z.eqb_spec (maskbits x) (maskbits y)),
    (Z.eqb_spec (maskbits x - maskbits y) 0); try done; lia.
Qed.

(** [prefix_less] is not an order: it holds both ways between any two
    addresses or lengths that differ. *)
Lemma prefix_less_both_ways x y : addr16 x -> addr16 y ->
  ip_bytes (sn_addr x) <> ip_bytes (sn_addr y) \/ maskbits x <> maskbits y ->
  prefix_less x y = true /\ prefix_less y x = true.
Proof.
  intros Hx Hy Hne. rewrite !prefix_less_spec. unfold addr16, same_key in *.
  rewrite (memcmp_antisym (ip_bytes (sn_addr x))) by congruence.
  rewrite (Z.eqb_sym (maskbits y)).
  destruct (Z.eqb_spec (memcmp (ip_bytes (sn_addr x)) (ip_bytes (sn_addr y))) 0) as [E|E].
  - rewrite E. cbn. apply memcmp_eq in E; [|congruence].
    destruct (Z.eqb_spec (maskbits x) (maskbits y)); [|done]. tauto.
  - by rewrite (proj2 (Z.eqb_neq (- _) 0)) by lia.
Qed.

Lemma prefix_less_both_ways_witness :
  let x := subnet6 (253 :: zeros 15) 64 in let y := subnet6 (253 :: zeros 15) 48 in
  prefix_less x y = true /\ prefix_less y x = true.
Proof.
  apply (prefix_less_both_ways (subnet6 (253 :: zeros 15) 64) (subnet6 (253 :: zeros 15) 48));
    [done|done|by right].
Defined.

Lemma prefix_before_total x y : addr16 x -> addr16 y ->
  prefix_before x y = true \/ same_key x y = true \/ prefix_before y x = true.
Proof.
  unfold prefix_before, same_key, addr16. intros.
  rewrite (memcmp_antisym (ip_bytes (sn_addr x)) (ip_bytes (sn_addr y))) by congruence.
  set (m := memcmp _ _). destruct (Z.ltb_spec m 0); [by left|]. destruct (Z.gtb_spec m 0).
  - right; right. by rewrite (proj2 (Z.ltb_lt _ _)) by lia.
  - rewrite (proj2 (Z.ltb_ge (-m) 0)), (gtb_false (-m)), (proj2 (Z.eqb_eq m 0)) by lia. cbn.
    destruct (Z.ltb_spec (maskbits x) (maskbits y)), (Z.eqb_spec (maskbits x) (maskbits y)),
      (Z.ltb_spec (maskbits y) (maskbits x)); auto; lia.
Qed.

#[global] Instance libstdcxx_map_laws : @PrefixMapLaws libstdcxx_map.
Proof.
  split.
  - intros [|k0 ks] k h; cbn; [done|]. case_bool; [|done]. intros [= <-]. by exists k0.
  - intros [|? [|? ?]] h; cbn; rewrite ?elem_of_cons, ?elem_of_nil; lia.
  - intros [|? [|? ?]]; cbn; repeat constructor; rewrite ?elem_of_cons, ?elem_of_nil; lia.
  - by intros [|? [|? ?]].
Qed.

#[global] Instance ordered_map_laws : @PrefixMapLaws ordered_map.
Proof.
  split.
  - intros ks k h. cbn. intros ([i k'] & Hf & ->)%fmap_Some_1.
    apply list_find_Some in Hf as (? & ? & _). by exists k'.
  - intros ks h. cbn. rewrite merge_sort_Permutation, elem_of_seq. lia.
  - intros ks. cbn. rewrite merge_sort_Permutation. apply NoDup_seq.
  - intros [|k ks]; [done|]. intros Hnil. exfalso.
    assert (0%nat ∈ @pm_walk ordered_map (k :: ks)) as Hin; [|by rewrite Hnil in Hin; inversion Hin].
    cbn -[seq]. rewrite merge_sort_Permutation, elem_of_seq. cbn. lia.
Qed.

#[global] Instance ordered_map_complete : @PrefixMapComplete ordered_map.
Proof.
  split.
  - intros ks k h Hk. destruct (list_find_elem_of (fun k' => same_key k' k = true) ks k)
      as [[i k'] Hf]; [by eapply list_elem_of_lookup_2|apply same_key_refl|].
    exists i. change (fst <$> list_find (fun k' => same_key k' k = true) ks = Some i). by rewrite Hf.
  - intros ks h Hh. cbn. rewrite merge_sort_Permutation, elem_of_seq. lia.
Qed.
End maps.

Section map_operations.
Context `{PrefixMapLaws}.

Lemma pm_index_get junk k m h m' : pm_index junk k m = (h, m') ->
  exists n, pm_get m' h = Some n /\ (m' = m \/ n = new_prefix_node junk /\ h = length m).
Proof.
  unfold pm_index, pm_get. destruct (pm_find m.*1 k) as [h0|] eqn:Hf; intros [= <- <-].
  - destruct (pm_find_sound _ _ _ Hf) as (k' & Hk & _).
    rewrite list_lookup_fmap in Hk. destruct (m !! h0) as [[k1 n]|]; [|done].
    exists n. split; [done|by left].
  - exists (new_prefix_node junk). rewrite lookup_app_r, Nat.sub_diag by done. split; [done|by right].
Qed.

Lemma pm_index_length junk k m : (length m <= length (pm_index junk k m).2)%nat.
Proof. unfold pm_index. destruct (pm_find _ _); cbn; [done|]. rewrite length_app. lia. Qed.

Lemma pm_index_lookup junk k m h n : pm_get m h = Some n -> pm_get (pm_index junk k m).2 h = Some n.
Proof.
  unfold pm_index, pm_get. destruct (pm_find _ _); cbn; [done|]. intros Hn.
  rewrite lookup_app_l; [done|]. apply fmap_Some in Hn as (? & ? & _). by eapply lookup_lt_Some.
Qed.

Lemma pm_get_upd_eq f m h n : pm_get m h = Some n -> pm_get (pm_upd h f m) h = Some (f n).
Proof.
  unfold pm_get, pm_upd. rewrite list_lookup_alter_eq. destruct (m !! h) as [[]|]; cbn; [|done].
  by intros [= ->].
Qed.
Lemma pm_get_upd_ne f m h h' : h <> h' -> pm_get (pm_upd h f m) h' = pm_get m h'.
Proof. intros. unfold pm_get, pm_upd. by rewrite list_lookup_alter_ne. Qed.
Lemma pm_upd_keys f m h : (pm_upd h f m).*1 = m.*1.
Proof.
  unfold pm_upd. revert h. induction m as [|[k n] m IH]; intros [|h]; cbn; [done..|].
  f_equal. apply IH.
Qed.
Lemma pm_upd_length f m h : length (pm_upd h f m) = length m.
Proof. apply length_alter. Qed.
Lemma pm_values_length m : length (pm_values m) = length (pm_walk m.*1).
Proof.
  unfold pm_values. pose proof (pm_walk_lt m.*1) as Hlt. revert Hlt.
  generalize (pm_walk m.*1). intros q. rewrite length_fmap.
  induction q as [|h q IH]; intros Hlt; [done|]. cbn.
  destruct (lookup_lt_is_Some_2 m h) as [[k n] Hh]; [apply Hlt; by left|].
  unfold pm_get at 1. rewrite Hh. cbn. f_equal. apply IH. intros; apply Hlt; by right.
Qed.
Lemma pm_values_nil m : pm_values m = [] <-> m = [].
Proof.
  pose proof (pm_values_length m) as Hl. split.
  - intros Hv. rewrite Hv in Hl. symmetry in Hl. by apply nil_length_inv, pm_walk_nil, fmap_nil_inv in Hl.
  - intros ->. cbn in Hl. destruct (pm_walk []) as [|h q] eqn:Hw; [by apply nil_length_inv in Hl|].
    pose proof (pm_walk_lt [] h) as Hlt. rewrite Hw in Hlt. specialize (Hlt ltac:(by left)). cbn in Hlt. lia.
Qed.
End map_operations.
#[export] Hint Rewrite @pm_upd_length @pm_upd_keys : bytes.

(** With libstdc++'s map and [prefix_less], however many keys have been put
    in, an iteration sees at most the first two, and looking up any key but the
    first one makes a new node for it, even when it has one. *)
Lemma libstdcxx_map_loses (m : prefix_map) junk k :
  (length (@pm_values libstdcxx_map m) <= 2)%nat /\
  (forall k0 n0 m0, m = (k0, n0) :: m0 -> same_key k0 k = false ->
     @pm_index libstdcxx_map junk k m = (length m, m ++ [(k, new_prefix_node junk)])).
Proof.
  split.
  - rewrite pm_values_length. cbn. by destruct m as [|? [|? ?]]; cbn; lia.
  - intros k0 n0 m0 -> Hk. unfold pm_index. cbn. by rewrite Hk.
Qed.

(** With an ordering, a key that has been put in keeps its node, and an
    iteration sees every node. *)
Lemma ordered_map_keeps (m : prefix_map) junk k h n :
  pm_get m h = Some n -> m.*1 !! h = Some k ->
  (@pm_index ordered_map junk k m).2 = m /\ n ∈ @pm_values ordered_map m.
Proof.
  intros Hn Hk. split.
  - unfold pm_index. destruct (@pm_find_complete ordered_map _ _ _ _ Hk) as [h' ->]. done.
  - unfold pm_values. apply list_elem_of_omap. exists h. split; [|done].
    apply (@pm_walk_all ordered_map _). by eapply lookup_lt_Some.
Qed.

(** Where an iteration sees everything, the values are those of the map. *)
Lemma pm_values_complete `{PrefixMapSem} (m : prefix_map) pm : PrefixMapComplete -> pm ∈ m.*2 -> pm ∈ pm_values m.
Proof.
  intros Hc ([k n] & -> & Hkn)%list_elem_of_fmap. apply list_elem_of_lookup in Hkn as [h Hh].
  unfold pm_values. apply list_elem_of_omap. exists h. split; [|unfold pm_get; by rewrite Hh].
  apply (@pm_walk_all _ Hc). rewrite length_fmap. by eapply lookup_lt_Some.
Qed.

Lemma ordered_map_keeps_witness :
  let junk := mk_prefix (subnet6 in6addr_any 0) false false NoPeer None in
  let k i := subnet6 (zeros 15 ++ [i]) 128 in
  let m := [(k 3, junk); (k 1, junk); (k 2, set_prefix (k 2) junk)] in
  (@pm_index ordered_map junk (k 2) m).2 = m /\ set_prefix (k 2) junk ∈ @pm_values ordered_map m.
Proof.
  apply (ordered_map_keeps
    [(subnet6 (zeros 15 ++ [3]) 128, mk_prefix (subnet6 in6addr_any 0) false false NoPeer None);
     (subnet6 (zeros 15 ++ [1]) 128, mk_prefix (subnet6 in6addr_any 0) false false NoPeer None);
     (subnet6 (zeros 15 ++ [2]) 128, set_prefix (subnet6 (zeros 15 ++ [2]) 128)
        (mk_prefix (subnet6 in6addr_any 0) false false NoPeer None))]
    (mk_prefix (subnet6 in6addr_any 0) false false NoPeer None) _ 2%nat); reflexivity.
Defined.
