(* ===== verification/Text.v ===== *)
(** Text: numbers, addresses and subnets as characters, and back.
    [ultot] and [ttoul] of [lib/libosw], [addrtot], [subnettot], [ttoaddr] and
    [ttosubnet]; the commands the program runs name addresses and prefixes by
    the first group, and its options and filters are read by the second.

    A character is its code, a string a list without its NUL.  A function that
    takes a pointer and an end takes the characters between them.  An error is
    the message the code returns.  The lookups of names in the DNS and in
    [/etc/networks] are parameters. *)

From Stdlib Require Import ZArith Lia String Ascii.
From stdpp Require Import base list numbers strings.
From S2P Require Import Prelude Prefix.
#[local] Open Scope Z_scope.

Definition codes (s : string) : list Z := (fun c => Z.of_nat (nat_of_ascii c)) <$> list_ascii_of_string s.

(** [err_t]: NULL, or the message. *)
Inductive parsed (A : Type) : Type :=
| Good (a : A)
| Oops (msg : string).
Arguments Good {A} a.
Arguments Oops {A} msg.

Definition or_oops {A B} (m : parsed A) (k : A -> parsed B) : parsed B :=
  match m with Good a => k a | Oops e => Oops e end.
Notation "'try' x := m 'in' k" := (or_oops m (fun x => k))
  (at level 10, x pattern, m at level 100, k at level 200) : unstrung_scope.

(** * Numbers *)

Definition hex_digit (d : Z) : Z := if d <? 10 then 48 + d else 97 + (d - 10).

(** The [do ... while] of [ultot]; [n&0xf] and [n>>4] are the remainder and the
    quotient by 16.  The 22 octal digits of 64 bits are the most there are. *)
Fixpoint digits_of (fuel : nat) (base n : Z) (acc : list Z) : list Z :=
  let acc := hex_digit (n mod base) :: acc in
  match fuel with
  | O => acc
  | S fuel' => if n / base =? 0 then acc else digits_of fuel' base (n / base) acc
  end.
Definition digits (base n : Z) : list Z := digits_of 21 base (u64 n) [].
Definition pad_to (width : nat) (ds : list Z) : list Z := replicate (width - length ds) 48 ++ ds.

Definition ultot_text (n base : Z) : option (list Z) :=
  if (base =? 10) || (base =? 100) then Some (digits 10 n)
  else if base =? 16 then Some (digits 16 n)
  else if base =? 17 then Some (pad_to 8 (digits 16 n))
  else if base =? 120 then Some (codes "0x" ++ digits 16 n)
  else if base =? 8 then Some (digits 8 n)
  else if base =? 111 then Some (48 :: digits 8 n)
  else None.

(** [ultot]: the length with the NUL, and the string left in [dst], which is what
    it was ([None]) when there is no room at all. *)
Definition ultot (n base dstlen : Z) : Z * option (list Z) :=
  match ultot_text n base with
  | None => (0, None)
  | Some ds =>
      let len := zlen ds + 1 in
      (len, if dstlen >? 0 then Some (if len >? dstlen then take (Z.to_nat (dstlen - 1)) ds else ds) else None)
  end.

Definition ULONG_MAX : Z := 18446744073709551615.

Definition hex_value (c : Z) : option Z :=
  if (48 <=? c) && (c <=? 57) then Some (c - 48)
  else if (97 <=? c) && (c <=? 102) then Some (c - 97 + 10)
  else if (65 <=? c) && (c <=? 70) then Some (c - 65 + 10)
  else None.
Definition isxdigit (c : Z) : bool := match hex_value c with Some _ => true | None => false end.

Fixpoint ttoul_hex (src : list Z) (r : Z) : parsed Z :=
  match src with
  | [] => Good r
  | c :: src' =>
      match hex_value c with
      | Some d => ttoul_hex src' (u64 (Z.lor (Z.shiftl r 4) d))
      | None => Oops "non-hex digit in hex number"
      end
  end.
Fixpoint ttoul_digits (base : Z) (src : list Z) (r : Z) : parsed Z :=
  match src with
  | [] => Good r
  | c :: src' =>
      let d := c - 48 in
      let rlimit := ULONG_MAX / base in
      let dlimit := ULONG_MAX - rlimit * base in
      if (d <? 0) || (d >=? base) then Oops "non-digit in number"
      else if (r >? rlimit) || ((r =? rlimit) && (d >? dlimit)) then Oops "unsigned-long overflow"
      else ttoul_digits base src' (r * base + d)
  end.

(** [ttoul] in a known base, on a string that is not empty. *)
Definition ttoul_base (src : list Z) (base : Z) : parsed Z :=
  if base =? 16 then
    try r := ttoul_hex src 0 in
    if zlen src >? 16 then Oops "hex number too long" else Good r
  else if (base =? 8) || (base =? 10) then ttoul_digits base src 0
  else Oops "unsupported number base".

(** [src] is the whole string from the pointer on: a length of 0 means all of it. *)
Definition whole_if_0 (src : list Z) (srclen : Z) : list Z :=
  if srclen =? 0 then src else take (Z.to_nat srclen) src.
Definition ttoul (src : list Z) (srclen base : Z) : parsed Z :=
  let t := whole_if_0 src srclen in
  match t with
  | [] => Oops "empty string"
  | _ =>
      if base =? 0 then
        match t with
        | 48 :: c :: _ :: _ =>
            if (c =? 120) || (c =? 88) then ttoul_base (drop 2 t) 16 else ttoul_base (drop 1 t) 8
        | 48 :: _ :: _ => ttoul_base (drop 1 t) 8
        | _ => ttoul_base t 10
        end
      else ttoul_base t base
  end.

(** * Addresses to text *)

(** What [ultot] leaves in a buffer that is large enough. *)
Definition number (n base : Z) : list Z := default [] (ultot_text n base).

Fixpoint dotted_text (bs : list Z) : list Z :=
  match bs with
  | [] => []
  | [b] => number b 10
  | b :: bs' => number b 10 ++ [46] ++ dotted_text bs'
  end.
Definition normal4 (s : list Z) : list Z := dotted_text s.

Fixpoint pieces_of (s : list Z) : list Z :=
  match s with hi :: lo :: s' => Z.shiftl hi 8 + lo :: pieces_of s' | _ => [] end.

(** Each piece and a colon. *)
Definition colon_pieces (ps : list Z) : list Z := concat ((fun p => number p 16 ++ [58]) <$> ps).

Fixpoint starts_with (needle s : list Z) : bool :=
  match needle, s with
  | [], _ => true
  | a :: needle', b :: s' => (a =? b) && starts_with needle' s'
  | _ :: _, [] => false
  end.
(** [strstr]: what is before the first match, and the string from it on. *)
Fixpoint strstr (s needle : list Z) : option (list Z * list Z) :=
  if starts_with needle s then Some ([], s)
  else match s with
       | [] => None
       | c :: s' => match strstr s' needle with Some (pre, post) => Some (c :: pre, post) | None => None end
       end.
(** [while( *p == '0' && *(p+1) == ':') p += 2] *)
Fixpoint skip_zeros (p : list Z) : list Z :=
  match p with a :: b :: p' => if (a =? 48) && (b =? 58) then skip_zeros p' else p | _ => p end.
Definition ends_with_gap (t : list Z) : bool := starts_with [58; 58] (reverse t).

(** [normal6]: [squish] replaces the first run of two zero pieces or more. *)
Definition normal6 (s : list Z) (squish : bool) : list Z :=
  let buf := 58 :: colon_pieces (pieces_of s) in
  match (if squish then strstr buf (codes ":0:0:") else None) with
  | Some (pre, found) =>
      let buf := pre ++ [58; 58] ++ skip_zeros (drop 1 found) in
      let buf := if ends_with_gap buf then buf else removelast buf in
      if starts_with [58; 58] buf then buf else drop 1 buf
  | None => drop 1 (removelast buf)
  end.

Definition reverse4 (s : list Z) : list Z :=
  concat ((fun b => number b 10 ++ [46]) <$> reverse s) ++ codes "IN-ADDR.ARPA.".
Definition reverse6 (s : list Z) : list Z :=
  concat ((fun b => number (Z.land b 15) 16 ++ [46] ++ number (Z.shiftr b 4) 16 ++ [46]) <$> reverse s)
    ++ codes "IP6.ARPA.".

(** The [switch] over the family and the format. *)
Definition addr_text (a : ip_address) (format : Z) : option (list Z) :=
  if ip_family a =? AF_INET then
    if (format =? 0) || (format =? 81) then Some (normal4 (ip_bytes a))
    else if format =? 114 then Some (reverse4 (ip_bytes a)) else None
  else if ip_family a =? AF_INET6 then
    if format =? 0 then Some (normal6 (ip_bytes a) true)
    else if format =? 81 then Some (normal6 (ip_bytes a) false)
    else if format =? 114 then Some (reverse6 (ip_bytes a)) else None
  else None.

(** The size of the buffer [addrtot] works in, and what callers are told to have. *)
Definition ADDRTOT_BUF : Z := 73.
Definition SUBNETTOT_BUF : Z := ADDRTOT_BUF + 1 + 3.

(** [addrtot]: the size that is needed, with the NUL, and the string in [dst],
    of [dstlen] bytes.  [strncat] puts its NUL after the [dstlen] characters it
    may copy. *)
Definition addrtot (a : ip_address) (format dstlen : Z) : outcome (Z * list Z) :=
  match addr_text a format with
  | None => if dstlen <? 10 then Fault OutOfBounds else Ok (10, codes "<invalid>")
  | Some t =>
      let n := zlen t + 1 in
      if n >? ADDRTOT_BUF + 2 then Fault OutOfBounds
      else Ok (n, if dstlen <? n then take (Z.to_nat (dstlen - 1)) t else t)
  end.

(** [subnettot]; 0 for another format.  When the address does not fit there is no
    slash and no count. *)
Definition subnettot (sub : ip_subnet) (format dstlen : Z) : outcome (Z * list Z) :=
  if negb (format =? 0) then Ok (0, [])
  else
    a ← addrtot (sn_addr sub) format dstlen;
    let '(len, t) := a in
    if len <? dstlen then
      let '(n, digits) := ultot (u64 (maskbits sub)) 10 (dstlen - len) in
      Ok (len + n, t ++ [47] ++ default [] digits)
    else Ok (len + (ultot (u64 (maskbits sub)) 10 0).1, t).

(** [subnetporttot]; the port is in host order here. *)
Definition ULTOT_BUF : Z := 23.
Definition subnetporttot (sub : ip_subnet) (port format dstlen : Z) : outcome (Z * list Z) :=
  r ← subnettot sub format dstlen;
  let '(len, t) := r in
  if port =? 0 then Ok (len, t)
  else if zlen t + ULTOT_BUF >? dstlen then Ok (len + ULTOT_BUF, t)
  else
    let '(n, digits) := ultot port 10 (dstlen - (zlen t + 1)) in
    Ok (len + n, t ++ [58] ++ default [] digits).

(** * Text to addresses *)

Definition memchr (c : Z) (s : list Z) : bool := existsb (Z.eqb c) s.
(** What is before the first [c], and what is after it. *)
Fixpoint split_at (c : Z) (s : list Z) : option (list Z * list Z) :=
  match s with
  | [] => None
  | x :: s' =>
      if x =? c then Some ([], s')
      else match split_at c s' with Some (pre, post) => Some (x :: pre, post) | None => None end
  end.

Definition initaddr (src : list Z) (af : Z) : parsed ip_address :=
  if af =? AF_INET then
    if negb (zlen src =? 4) then Oops "IPv4 address must be exactly 4 bytes" else Good (mk_ip af src)
  else if af =? AF_INET6 then
    if negb (zlen src =? 16) then Oops "IPv6 address must be exactly 16 bytes" else Good (mk_ip af src)
  else Oops "unknown address family in initaddr".
Definition anyaddr (af : Z) : parsed ip_address :=
  if af =? AF_INET then initaddr (zeros 4) af
  else if af =? AF_INET6 then initaddr (zeros 16) af
  else Oops "unknown address family in anyaddr/unspecaddr".

(** The digits [getpiece] takes: at most [NDIG]. *)
Fixpoint hex_run (n : nat) (p : list Z) : list Z * list Z :=
  match n, p with
  | S n', c :: p' => if isxdigit c then let '(ds, rest) := hex_run n' p' in (c :: ds, rest) else ([], p)
  | _, _ => ([], p)
  end.
(** [getpiece]: the piece and where the next character is.  The message [":"]
    says that the field is empty; nothing is then taken. *)
Definition getpiece (src : list Z) : parsed (Z * list Z) :=
  match src with
  | [] => Oops ":"
  | c :: _ =>
      if c =? 58 then Oops ":"
      else
        let '(ds, rest) := hex_run 4 src in
        match ds with
        | [] => Oops "non-hex field in IPv6 numeric address"
        | _ =>
            if (length ds =? 4)%nat && match rest with c :: _ => isxdigit c | [] => false end
            then Oops "field in IPv6 numeric address longer than 4 hex digits"
            else try v := ttoul src (zlen ds) 16 in Good (v, rest)
        end
  end.

(** The loop of [colon] over the pieces: the pieces that were stored, the index
    of the empty one, and what is left. *)
Fixpoint colon_loop (n : nat) (src : list Z) (gap : option nat) (ps : list Z)
  : parsed (list Z * option nat * list Z) :=
  match n, src with
  | S n', _ :: _ =>
      let next piece gap src :=
        let ps := ps ++ [piece] in
        match src, n' with
        | _, O => colon_loop n' src gap ps
        | [], _ => if gap is None then Oops "IPv6 numeric address ends prematurely"
                   else colon_loop n' src gap ps
        | c :: src', _ => if c =? 58 then colon_loop n' src' gap ps
                          else Oops "syntax error in IPv6 numeric address"
        end in
      match getpiece src with
      | Good (piece, src') => next piece gap src'
      | Oops e =>
          if String.eqb e ":" then
            if gap is None then next 0 (Some (length ps)) src
            else Oops "more than one :: in IPv6 numeric address"
          else Oops e
      end
  | _, _ => Good (ps, gap, src)
  end.

Definition piece_bytes (p : Z) : list Z := [u8 (Z.shiftr p 8); Z.land p 255].
(** [colon], on a string that is not empty.  After the loop the pieces behind the
    empty one move to the end of the buffer, and the rest is cleared. *)
Definition colon (src : list Z) : parsed ip_address :=
  let lone_front := starts_with [58] src && negb (starts_with [58; 58] src) in
  let lone_back := starts_with [58] (reverse src) && negb (ends_with_gap src) in
  if lone_front then Oops "illegal leading `:' in IPv6 numeric address"
  else if bool_decide (src = [58; 58]) then anyaddr AF_INET6
  else
    let src := if starts_with [58] src then drop 1 src else src in
    if lone_back then Oops "illegal trailing `:' in IPv6 numeric address"
    else
      try (ps, gap, rest) := colon_loop 8 src None [] in
      if negb (bool_decide (rest = [])) then Oops "extra garbage on end of IPv6 numeric address"
      else
        match gap with
        | None =>
            if (length ps <? 8)%nat then Oops "incomplete IPv6 numeric address (internal error)"
            else initaddr (concat (piece_bytes <$> ps)) AF_INET6
        | Some g =>
            if (length ps =? 8)%nat then Oops "non-abbreviating empty field in IPv6 numeric address"
            else
              let after := drop (S g) ps in
              let buf := take g ps ++ replicate (8 - g - length after) 0 ++ after in
              initaddr (concat (piece_bytes <$> buf)) AF_INET6
        end.

(** [getbyte]: a message that starts with [?] says that it was not a number. *)
Fixpoint decimal_run (no : Z) (p : list Z) : Z * list Z :=
  match p with
  | c :: p' => if (no <=? 255) && (48 <=? c) && (c <=? 57) then decimal_run (no * 10 + (c - 48)) p' else (no, p)
  | [] => (no, p)
  end.
Definition getbyte (src : list Z) : parsed (Z * list Z) :=
  match src with
  | [] => Oops "?empty number in dotted-decimal address"
  | _ =>
      let '(no, rest) := decimal_run 0 src in
      if (length rest =? length src)%nat then Oops "?non-numeric component in dotted-decimal address"
      else if no >? 255 then Oops "byte overflow in dotted-decimal address"
      else Good (no, rest)
  end.

Definition is_question (e : string) : bool := match e with String "?" _ => true | _ => false end.
Definition after_first (e : string) : string := match e with String _ e' => e' | EmptyString => e end.

(** The loop of [trydotted]; [i] counts the bytes that were read. *)
Fixpoint dotted_loop (n : nat) (i : Z) (src : list Z) (buf : list Z) : parsed (list Z * list Z) :=
  match n, src with
  | S n', _ :: _ =>
      match getbyte src with
      | Oops e => if is_question e && (i >? 1) then Oops (after_first e) else Oops e
      | Good (byte, src') =>
          let buf := buf ++ [byte] in
          match src' with
          | c :: src'' =>
              if i <? 3 then
                if c =? 46 then dotted_loop n' (i + 1) src'' buf
                else Oops (if i =? 0 then "?syntax error in dotted-decimal address"
                           else "syntax error in dotted-decimal address")
              else dotted_loop n' (i + 1) src' buf
          | [] => dotted_loop n' (i + 1) [] buf
          end
      end
  | _, _ => Good (buf, src)
  end.
Definition trydotted (src : list Z) : parsed ip_address :=
  try (buf, rest) := dotted_loop 4 0 src [] in
  if negb (bool_decide (rest = [])) then Oops "extra garbage on end of dotted-decimal address"
  else initaddr (buf ++ zeros (4 - length buf)) AF_INET.

(** [tryhex]: ['x'] is network order, ['h'] the order of the host, which is little
    endian. *)
Definition tryhex (src : list Z) (flavor : Z) : parsed ip_address :=
  if negb (zlen src =? 8) then Oops "internal error, tryhex called with bad length"
  else
    try ul := ttoul src 8 16 in
    initaddr (if flavor =? 104 then reverse (be32 ul) else be32 ul) AF_INET.

Definition namechars : list Z := codes "abcdefghijklmnopqrstuvwxyz0123456789ABCDEFGHIJKLMNOPQRSTUVWXYZ-_.".

(** [masktocount]: -1 when the bytes are not a mask. *)
Fixpoint mask_ones (fuel : nat) (b : Z) (n : Z) : Z * Z :=
  match fuel with
  | S fuel' => if negb (Z.land b 128 =? 0) then mask_ones fuel' (Z.shiftl b 1) (n + 1) else (b, n)
  | O => (b, n)
  end.
Fixpoint masktocount_bytes (p : list Z) (n : Z) : Z :=
  match p with
  | [] => n
  | b :: p' =>
      if b =? 255 then masktocount_bytes p' (n + 8)
      else
        let '(b', n') := if b =? 0 then (0, n) else mask_ones 8 b n in
        if negb (Z.land b' 255 =? 0) then -1
        else if forallb (Z.eqb 0) p' then n' else -1
  end.
Definition masktocount (a : ip_address) : Z :=
  if (ip_family a =? AF_INET) || (ip_family a =? AF_INET6) then masktocount_bytes (ip_bytes a) 0 else -1.

Section lookups.
(** The resolver: the family and the bytes of a host, and the type and the number
    (in host order) of a network. *)
Context (gethostbyname2 : list Z -> Z -> option (Z * list Z)).
Context (getnetbyname : list Z -> option (Z * Z)).

Definition tryname (src : list Z) (af : Z) : parsed ip_address :=
  if negb (forallb (fun c => negb (Z.land c 128 =? 0) || existsb (Z.eqb c) namechars) src)
  then Oops "illegal (non-DNS-name) character in name"
  else
    match gethostbyname2 src af with
    | Some (ty, bs) =>
        if negb (ty =? af) then Oops "address-type mismatch from gethostbyname2!!!" else initaddr bs af
    | None =>
        match (if af =? AF_INET then getnetbyname src else None) with
        | Some (ty, net) =>
            if negb (ty =? af) then Oops "address-type mismatch from getnetbyname!!!"
            else initaddr (be32 net) af
        | None => Oops "does not look numeric and name lookup failed"
        end
    end.

(** [ttoaddr_base]: the answer, and whether [allnumericfailed] was set. *)
Definition ttoaddr_base (src : list Z) (af : Z) : parsed ip_address * bool :=
  let numeric :=
    if memchr 58 src then
      if (af =? 0) || (af =? AF_INET6) then (colon src, false)
      else (Oops "non-ipv6 address may not contain `:'", false)
    else if (af =? 0) || (af =? AF_INET) then
      match trydotted src with
      | Good a => (Good a, false)
      | Oops e => if is_question e then (Oops "not numeric", true) else (Oops e, false)
      end
    else (Oops "not numeric", true) in
  if negb ((af =? AF_INET) || (af =? AF_INET6) || (af =? 0)) then (Oops "invalid address family", false)
  else
    match src with
    | z :: c :: src' =>
        if (af =? AF_INET) && (zlen src =? 10) && (z =? 48) then
          if (c =? 120) || (c =? 88) then (tryhex src' 120, false)
          else if (c =? 104) || (c =? 72) then (tryhex src' 104, false)
          else numeric
        else numeric
    | _ => numeric
    end.

(** [ttoaddr]; [dst] is what the address held before.  [err] is cleared before
    the lookups, and there are lookups only when [af] is 0: for a known family a
    name is neither looked up nor refused. *)
Definition ttoaddr (src : list Z) (srclen af : Z) (dst : ip_address) : parsed ip_address :=
  let src := whole_if_0 src srclen in
  match src with
  | [] => Oops "empty string"
  | _ =>
      match ttoaddr_base src af with
      | (Oops _, true) =>
          if af =? 0 then
            match tryname src AF_INET6 with Good a => Good a | Oops _ => tryname src AF_INET end
          else Good dst
      | (r, _) => r
      end
  end.

Definition ttoaddr_num (src : list Z) (srclen af : Z) : parsed ip_address :=
  let src := whole_if_0 src srclen in
  match src with [] => Oops "empty string" | _ => (ttoaddr_base src af).1 end.

(** [tnatoaddr]: numbers only. *)
Definition tnatoaddr (src : list Z) (srclen af : Z) : parsed ip_address :=
  let src := whole_if_0 src srclen in
  match src with
  | [] => Oops "empty string"
  | _ =>
      if af =? 0 then
        match colon src, trydotted src with
        | Good a, _ => Good a
        | Oops _, Good a => Good a
        | Oops _, Oops _ => Oops "does not appear to be either IPv4 or IPv6 numeric address"
        end
      else if af =? AF_INET6 then colon src
      else if af =? AF_INET then
        match trydotted src with
        | Good a => Good a
        | Oops e => if is_question e then Oops "does not appear to be numeric address" else Oops e
        end
      else Oops "unknown address family in tnatoaddr"
  end.

(** The part of [ttosubnet] behind the slash: the number of bits, and the port
    in host order. *)
Definition mask_and_port (mask : list Z) (af nbits : Z) : parsed (Z * Z) :=
  try (mlen, port) :=
    match split_at 58 mask with
    | None => Good (zlen mask, 0)
    | Some (m, after) => try p := ttoul after (zlen after) 0 in Good (zlen m, u16 p)
    end in
  match ttoul mask mlen 10 with
  | Good bc => if bc >? nbits then Oops "subnet mask bit count too large" else Good (bc, port)
  | Oops _ =>
      if af =? AF_INET then
        try m := ttoaddr_num mask mlen af in
        let i := masktocount m in
        if i <? 0 then Oops "non-contiguous or otherwise erroneous mask" else Good (i, port)
      else Oops "masks are not permitted for IPv6 addresses"
  end.

(** [ttosubnet]; the temporary address held [junk].  The answer is the subnet and
    its port. *)
Definition ttosubnet (src : list Z) (srclen af : Z) (junk : ip_address) : parsed (ip_subnet * Z) :=
  let src := whole_if_0 src srclen in
  if bool_decide (src = []) then Oops "empty string"
  else if negb ((af =? AF_INET) || (af =? AF_INET6)) then Oops "unknown address family in ttosubnet"
  else
    let nbits := if af =? AF_INET then 32 else 128 in
    let src := if bool_decide (src = codes "%default")
               then codes (if af =? AF_INET then "0/0" else "::/0") else src in
    match split_at 47 src with
    | None => Oops "no / in subnet specification"
    | Some (addr, mask) =>
        try a := ttoaddr src (zlen addr) af junk in
        try (bits, port) := mask_and_port mask af nbits in
        let '(ok, s) := initsubnet a bits 48 {| sn_addr := junk; maskbits := 0 |} in
        if ok : bool then Good (s, port) else Oops "initsubnet"
    end.
End lookups.

(** * Printed numbers *)

Definition base_digit (base c : Z) : Prop := exists d, 0 <= d < base /\ c = hex_digit d.
Definition valued (base : Z) (ds : list Z) (r : Z) : Z :=
  foldl (fun r c => r * base + default 0 (hex_value c)) r ds.

Lemma hex_value_digit d : 0 <= d < 16 -> hex_value (hex_digit d) = Some d.
Proof.
  intros H. unfold hex_digit, hex_value.
  destruct (Z.ltb_spec d 10); repeat case_match; try f_equal; lia.
Qed.
Lemma base_digit_range base c : base <= 16 -> base_digit base c ->
  48 <= c <= 57 \/ 97 <= c <= 102.
Proof. intros Hb (d & Hd & ->). unfold hex_digit. destruct (Z.ltb_spec d 10); lia. Qed.
Lemma base_digit_value base c : base <= 16 -> base_digit base c ->
  exists d, hex_value c = Some d /\ 0 <= d < base.
Proof. intros Hb (d & Hd & ->). exists d. split; [apply hex_value_digit|]; lia. Qed.

Lemma digits_of_spec base f n acc : 2 <= base <= 16 -> 0 <= n < base ^ (Z.of_nat f + 1) ->
  exists ds, digits_of f base n acc = ds ++ acc /\ ds <> [] /\ Forall (base_digit base) ds /\
    (forall k, (0 < k)%nat -> n < base ^ Z.of_nat k -> (length ds <= k)%nat) /\
    (forall r, valued base ds r = r * base ^ zlen ds + n).
Proof.
  intros Hb. revert n acc. induction f as [|f IH]; intros n acc Hn.
  all: assert (Hd : base_digit base (hex_digit (n mod base)))
    by (exists (n mod base); split; [apply Z.mod_pos_bound; lia | done]).
  all: assert (Hv : default 0 (hex_value (hex_digit (n mod base))) = n mod base)
    by (rewrite hex_value_digit; [done | pose proof (Z.mod_pos_bound n base); lia]).
  - exists [hex_digit (n mod base)]. simpl. split_and!; [done | done | by repeat constructor | intros; simpl; lia |].
    intros r. rewrite Hv. change (zlen _) with 1. rewrite Z.mod_small; lia.
  - assert (Hq : 0 <= n / base < base ^ (Z.of_nat f + 1)).
    { split; [apply Z.div_pos; lia|]. apply Z.div_lt_upper_bound; [lia|].
      rewrite <- Z.pow_succ_r by lia. replace (Z.succ _) with (Z.of_nat (S f) + 1) by lia. lia. }
    cbn [digits_of]. destruct (Z.eqb_spec (n / base) 0) as [E|E].
    + exists [hex_digit (n mod base)]. split_and!; [done | done | by repeat constructor | intros; simpl; lia |].
      intros r. simpl. rewrite Hv. change (zlen _) with 1.
      pose proof (Z.div_mod n base). lia.
    + destruct (IH (n / base) (hex_digit (n mod base) :: acc) Hq) as (ds & -> & Hne & Hall & Hlen & Hval).
      exists (ds ++ [hex_digit (n mod base)]). rewrite <- app_assoc. split_and!.
      * done.
      * by destruct ds.
      * apply Forall_app. split; [done | by repeat constructor].
      * intros k Hk Hnk. rewrite length_app. simpl.
        destruct k as [|[|k]]; [lia | |].
        { change (Z.of_nat 1) with 1 in Hnk. rewrite Z.pow_1_r in Hnk. rewrite Z.div_small in E; lia. }
        enough (length ds <= S k)%nat by lia. apply Hlen; [lia|].
        apply Z.div_lt_upper_bound; [lia|]. rewrite <- Z.pow_succ_r by lia.
        by replace (Z.succ _) with (Z.of_nat (S (S k))) by lia.
      * intros r. unfold valued in *. rewrite foldl_app. simpl. rewrite Hval, Hv, zlen_app.
        change (zlen [_]) with 1. rewrite Z.pow_add_r, Z.pow_1_r by (unfold zlen; lia).
        pose proof (Z.div_mod n base). lia.
Qed.

Lemma digits_spec base n k : base = 10 \/ base = 16 -> (0 < k)%nat ->
  0 <= n < base ^ Z.of_nat k -> base ^ Z.of_nat k <= ULONG_MAX ->
  digits base n <> [] /\ Forall (base_digit base) (digits base n) /\
  (length (digits base n) <= k)%nat /\ valued base (digits base n) 0 = n.
Proof.
  intros Hb Hk Hn Hw. unfold digits. replace (u64 n) with n by (unfold u64, ULONG_MAX in *; rewrite Z.mod_small; lia).
  destruct (digits_of_spec base 21 n []) as (ds & -> & Hne & Hall & Hlen & Hval); [lia | |].
  { unfold ULONG_MAX in *. destruct Hb as [-> | ->]; (split; [lia|]).
    all: set (top := _ ^ (_ + 1)); vm_compute in top; subst top; lia. }
  rewrite app_nil_r. split_and!; [done | done | apply Hlen; lia |]. rewrite Hval. lia.
Qed.

Lemma valued_cons base c ds r : base <= 16 -> base_digit base c ->
  exists d, hex_value c = Some d /\ 0 <= d < base /\ valued base (c :: ds) r = valued base ds (r * base + d).
Proof.
  intros Hb Hc. destruct (base_digit_value base c Hb Hc) as (d & Hd & Hrange).
  exists d. split; [done|]. split; [done|]. unfold valued. simpl. by rewrite Hd.
Qed.

Lemma valued_ge base ds : forall r, 1 < base <= 16 -> Forall (base_digit base) ds -> 0 <= r -> r <= valued base ds r.
Proof.
  induction ds as [|c ds IH]; intros r Hb Hds Hr; [done|].
  apply Forall_cons in Hds as [Hc Hds].
  destruct (valued_cons base c ds r) as (d & _ & Hd & ->); [lia | done |].
  transitivity (r * base + d); [nia|]. apply IH; [lia | done | nia].
Qed.

Lemma push_nibble r d : 0 <= r -> 0 <= d < 16 -> Z.lor (Z.shiftl r 4) d = r * 16 + d.
Proof.
  intros Hr Hd. pose proof (Z.add_lor_land (Z.shiftl r 4) d) as Hsum.
  assert (Z.land (Z.shiftl r 4) d = 0); [|rewrite (Z.shiftl_mul_pow2 r 4) in *; lia].
  clear Hsum.
  apply Z.bits_inj'. intros n Hn. rewrite Z.land_spec, Z.bits_0, andb_false_iff.
  destruct (Z.lt_ge_cases n 4); [left; apply Z.shiftl_spec_low; lia | right].
  apply (Z.bits_above_log2 d n); [lia|]. destruct (Z.eq_dec d 0) as [-> | ]; [simpl; lia|].
  apply Z.log2_lt_pow2; [lia|]. apply (Z.lt_le_trans _ (2 ^ 4)); [lia | apply Z.pow_le_mono_r; lia].
Qed.

Lemma ttoul_hex_spec ds : forall r, Forall (base_digit 16) ds -> 0 <= r ->
  valued 16 ds r <= ULONG_MAX -> ttoul_hex ds r = Good (valued 16 ds r).
Proof.
  induction ds as [|c ds IH]; intros r Hds Hr Hv; [done|].
  apply Forall_cons in Hds as [Hc Hds].
  destruct (valued_cons 16 c ds r) as (d & Hd & Hrange & E); [lia | done |].
  rewrite E in *. cbn [ttoul_hex]. rewrite Hd, push_nibble by lia.
  pose proof (valued_ge 16 ds (r * 16 + d) ltac:(lia) Hds ltac:(lia)).
  replace (u64 (r * 16 + d)) with (r * 16 + d) by (unfold u64, ULONG_MAX in *; rewrite Z.mod_small; lia).
  apply IH; [done | lia | done].
Qed.

Lemma ttoul_digits_spec ds : forall r, Forall (base_digit 10) ds -> 0 <= r ->
  valued 10 ds r <= ULONG_MAX -> ttoul_digits 10 ds r = Good (valued 10 ds r).
Proof.
  induction ds as [|c ds IH]; intros r Hds Hr Hv; [done|].
  apply Forall_cons in Hds as [Hc Hds].
  destruct (valued_cons 10 c ds r) as (d & Hd & Hrange & E); [lia | done |].
  rewrite E in *. pose proof (valued_ge 10 ds (r * 10 + d) ltac:(lia) Hds ltac:(lia)).
  assert (c - 48 = d) as Hcd.
  { destruct Hc as (d' & Hd' & ->). rewrite hex_value_digit in Hd by lia. simplify_eq.
    unfold hex_digit. destruct (Z.ltb_spec d 10); lia. }
  cbn [ttoul_digits]. rewrite Hcd. unfold ULONG_MAX in *.
  change (18446744073709551615 / 10) with 1844674407370955161.
  rewrite (proj2 (Z.ltb_ge d 0)), Z.geb_leb, (proj2 (Z.leb_gt 10 d)), gtb_false by lia.
  replace ((r =? 1844674407370955161) && _) with false; [apply IH; [done | lia | done]|].
  symmetry. apply andb_false_iff. destruct (Z.eqb_spec r 1844674407370955161); [right | by left].
  apply gtb_false. lia.
Qed.

(** A number that was printed is read back. *)
Lemma ttoul_number base n k : base = 10 \/ base = 16 -> (0 < k <= 4)%nat -> 0 <= n < base ^ Z.of_nat k ->
  forall rest, ttoul (number n base ++ rest) (zlen (number n base)) base = Good n.
Proof.
  intros Hb Hk Hn rest.
  assert (base ^ Z.of_nat k <= ULONG_MAX) as Hw.
  { transitivity (base ^ 4); [apply Z.pow_le_mono_r; lia | by destruct Hb as [-> | ->]]. }
  destruct (digits_spec base n k Hb ltac:(lia) Hn Hw) as (Hne & Hds & Hlen & Hval).
  assert (number n base = digits base n) as -> by (by destruct Hb as [-> | ->]).
  set (ds := digits base n) in *.
  assert (zlen ds <> 0) by (destruct ds; [done | rewrite zlen_cons; pose proof (zlen_nonneg ds); lia]).
  unfold ttoul, whole_if_0. rewrite (proj2 (Z.eqb_neq (zlen ds) 0)) by done.
  unfold zlen. rewrite Nat2Z.id, take_app_length. destruct ds as [|c ds'] eqn:E; [done|]. rewrite <- E in *.
  assert ((base =? 0) = false) as -> by (by destruct Hb as [-> | ->]).
  unfold ttoul_base. destruct Hb as [-> | ->]; simpl.
  - rewrite ttoul_digits_spec; [by rewrite Hval | done | done | lia].
  - rewrite ttoul_hex_spec, Hval by (done || lia). simpl.
    rewrite gtb_false; [done|]. unfold zlen. lia.
Qed.

(** * Printed addresses *)

Definition piece_ok (p : Z) : Prop := 0 <= p < 65536.
Abbreviation hexs p := (number p 16).

Lemma hexs_spec p : piece_ok p ->
  hexs p <> [] /\ Forall (base_digit 16) (hexs p) /\ (length (hexs p) <= 4)%nat /\ (hexs p = [48] -> p = 0).
Proof.
  intros Hp. destruct (digits_spec 16 p 4) as (Hne & Hds & Hlen & Hval); [by right | lia | exact Hp | done |].
  split_and!; [done.. |]. change (hexs p) with (digits 16 p). intros E. by rewrite E in Hval.
Qed.

Lemma not_colon c : base_digit 16 c -> (c =? 58) = false.
Proof. intros Hc%base_digit_range; [apply Z.eqb_neq|]; lia. Qed.

Definition drop_zero_pieces : list Z -> list Z :=
  fix go ps := match ps with p :: ps' => if p =? 0 then go ps' else ps | [] => [] end.
Fixpoint first_gap (ps : list Z) : option (list Z * list Z) :=
  match ps with
  | p :: ps' =>
      if (p =? 0) && match ps' with q :: _ => q =? 0 | [] => false end then Some ([], ps)
      else match first_gap ps' with Some (a, b) => Some (p :: a, b) | None => None end
  | [] => None
  end.
Fixpoint join (ps : list Z) : list Z :=
  match ps with [] => [] | [p] => hexs p | p :: ps' => hexs p ++ 58 :: join ps' end.
Definition lead_pieces (ps : list Z) : list Z := concat ((fun p => 58 :: hexs p) <$> ps).

Lemma colon_pieces_cons p ps : colon_pieces (p :: ps) = hexs p ++ 58 :: colon_pieces ps.
Proof. unfold colon_pieces. simpl. by rewrite <- app_assoc. Qed.

Lemma zero_token p t : piece_ok p ->
  (p = 0 /\ hexs p ++ 58 :: t = 48 :: 58 :: t) \/
  (p <> 0 /\ exists c d t', hexs p ++ 58 :: t = c :: d :: t' /\ (c =? 58) = false /\ (c =? 48) && (d =? 58) = false).
Proof.
  intros Hp. destruct (decide (p = 0)) as [-> | Hnz]; [by left | right]. split; [done|].
  destruct (hexs_spec p Hp) as (Hne & Hds & _ & Hzero).
  destruct (hexs p) as [|c ds] eqn:E; [done|]. apply Forall_cons in Hds as [Hc Hds].
  destruct ds as [|d ds].
  - exists c, 58, t. split_and!; [done | by apply not_colon |].
    destruct (Z.eqb_spec c 48) as [-> | ]; [|done]. by destruct Hnz; apply Hzero.
  - apply Forall_cons in Hds as [Hd _]. exists c, d, (ds ++ 58 :: t). split_and!; [done | by apply not_colon |].
    by rewrite (not_colon d Hd), andb_false_r.
Qed.

Lemma skip_zeros_pieces ps : Forall piece_ok ps -> skip_zeros (colon_pieces ps) = colon_pieces (drop_zero_pieces ps).
Proof.
  induction 1 as [|p ps Hp Hps IH]; [done|]. rewrite colon_pieces_cons. simpl.
  destruct (zero_token p (colon_pieces ps) Hp) as [[-> ->] | (Hnz & c & d & t & E & _ & H)].
  - simpl. apply IH.
  - rewrite (proj2 (Z.eqb_neq p 0) Hnz), colon_pieces_cons, E. simpl. by rewrite H.
Qed.

(** The pattern [":0:0:"] is found where two pieces in a row are zero, first. *)
Lemma strstr_skip h s needle : Forall (base_digit 16) h -> head needle = Some 58 ->
  strstr (h ++ s) needle =
    match strstr s needle with Some (pre, post) => Some (h ++ pre, post) | None => None end.
Proof.
  intros Hh Hn. induction Hh as [|c h Hc Hh IH]; [simpl; by destruct (strstr s needle) as [[]|]|].
  destruct needle as [|n needle]; [done|]. injection Hn as ->.
  cbn [app strstr starts_with]. rewrite (Z.eqb_sym 58 c), (not_colon c Hc). simpl. rewrite IH.
  by destruct (strstr s _) as [[]|].
Qed.

Lemma starts_gap ps : Forall piece_ok ps ->
  starts_with (codes ":0:0:") (58 :: colon_pieces ps) =
    match ps with p :: q :: _ => (p =? 0) && (q =? 0) | _ => false end.
Proof.
  assert (Htok : forall p t needle, piece_ok p ->
    starts_with (48 :: 58 :: needle) (hexs p ++ 58 :: t) = (p =? 0) && starts_with needle t).
  { intros p t needle Hp. destruct (zero_token p t Hp) as [[-> ->] | (Hnz & c & d & t' & -> & _ & H)]; [done|].
    rewrite (proj2 (Z.eqb_neq p 0) Hnz). cbn [starts_with]. rewrite (Z.eqb_sym 48), (Z.eqb_sym 58 d).
    by rewrite andb_assoc, H. }
  intros [|p ps' Hp Hps]; [done|]. change (codes ":0:0:") with [58; 48; 58; 48; 58].
  rewrite colon_pieces_cons. set (t := 58 :: colon_pieces ps').
  change (starts_with [58; 48; 58; 48; 58] (58 :: hexs p ++ t))
    with (starts_with [48; 58; 48; 58] (hexs p ++ t)).
  subst t. rewrite Htok by done. destruct Hps as [|q ps'' Hq Hps]; [by rewrite andb_false_r|].
  rewrite colon_pieces_cons, Htok by done. simpl. by rewrite andb_true_r.
Qed.

Lemma strstr_gap ps : Forall piece_ok ps ->
  strstr (58 :: colon_pieces ps) (codes ":0:0:") =
    match first_gap ps with
    | Some (a, b) => Some (lead_pieces a, 58 :: colon_pieces b)
    | None => None
    end.
Proof.
  induction 1 as [|p ps Hp Hps IH]; [done|].
  pose proof (starts_gap (p :: ps) ltac:(by constructor)) as Hstart.
  cbn [strstr]. rewrite Hstart. cbn [first_gap].
  destruct ((p =? 0) && match ps with q :: _ => q =? 0 | [] => false end) eqn:E.
  - destruct ps as [|q ps]; [by rewrite andb_false_r in E|]. rewrite E. done.
  - replace (match ps with [] => false | _ => _ end) with false by (destruct ps; simpl in E; [done | by rewrite E]).
    destruct (hexs_spec p Hp) as (_ & Hds & _).
    rewrite colon_pieces_cons, strstr_skip, IH by done.
    by destruct (first_gap ps) as [[a b]|].
Qed.

Lemma first_gap_split ps a b : first_gap ps = Some (a, b) ->
  ps = a ++ b /\ exists k, ps = a ++ replicate (S (S k)) 0 ++ drop_zero_pieces b.
Proof.
  intros Hgap. split.
  { revert a b Hgap. induction ps as [|p ps IH]; intros a b; [done|]. cbn [first_gap].
    destruct (_ && _); [by intros [= <- <-]|].
    destruct (first_gap ps) as [[a' b']|]; [|done]. intros [= <- <-]. simpl. by rewrite (IH a' b'). }
  revert a b Hgap. induction ps as [|p ps IH]; intros a b; [done|]. cbn [first_gap].
  destruct (Z.eqb_spec p 0) as [-> | Hp]; simpl.
  - destruct ps as [|q ps]; [done|]. destruct (Z.eqb_spec q 0) as [-> | Hq].
    + intros [= <- <-]. clear IH. induction ps as [|r ps [k IH]]; [by exists 0%nat|].
      simpl in *. destruct (Z.eqb_spec r 0) as [-> | Hr]; [|by exists 0%nat].
      exists (S k). simpl. by do 3 f_equal; injection IH.
    + destruct (first_gap (q :: ps)) as [[a' b']|]; [|done]. intros [= <- <-].
      destruct (IH _ _ eq_refl) as [k ->]. by exists k.
  - destruct (first_gap ps) as [[a' b']|]; [|done]. intros [= <- <-].
    destruct (IH _ _ eq_refl) as [k ->]. by exists k.
Qed.

Lemma colon_pieces_join ps : ps <> [] -> colon_pieces ps = join ps ++ [58].
Proof.
  induction ps as [|p ps IH]; intros Hne; [done|]. rewrite colon_pieces_cons.
  destruct ps as [|q ps]; [done|]. rewrite IH by done. cbn [join]. by rewrite <- app_assoc.
Qed.
Lemma lead_pieces_join ps : ps <> [] -> lead_pieces ps = 58 :: join ps.
Proof.
  induction ps as [|p ps IH]; intros Hne; [done|].
  change (lead_pieces (p :: ps)) with (58 :: hexs p ++ lead_pieces ps). destruct ps as [|q ps].
  - by rewrite app_nil_r.
  - by rewrite IH.
Qed.

(** What is at the ends of pieces that are joined: a digit. *)
Lemma join_head ps : Forall piece_ok ps -> ps <> [] -> exists c t, join ps = c :: t /\ base_digit 16 c.
Proof.
  intros [|p ps' Hp Hps] Hne; [done|]. destruct (hexs_spec p Hp) as (Hh & Hds & _).
  destruct (hexs p) as [|c ds] eqn:E; [done|]. apply Forall_cons in Hds as [Hc _].
  destruct ps'; cbn [join]; rewrite E; by eexists _, _.
Qed.
Lemma join_last ps : Forall piece_ok ps -> ps <> [] -> exists c t, join ps = t ++ [c] /\ base_digit 16 c.
Proof.
  induction 1 as [|p ps Hp Hps IH]; intros Hne; [done|]. destruct ps as [|q ps].
  - destruct (hexs_spec p Hp) as (Hh & Hds & _). cbn [join].
    destruct (exists_last Hh) as (t & c & E). rewrite E in *. apply Forall_app in Hds as [_ Hc].
    apply Forall_cons in Hc as [Hc _]. by exists c, t.
  - destruct (IH ltac:(done)) as (c & t & E & Hc). exists c, (hexs p ++ 58 :: t).
    cbn [join]. cbn [join] in E. by rewrite E, <- app_assoc.
Qed.

(** The text of eight pieces: all of them, or what is before and behind a gap. *)
Definition squished (a b : list Z) : list Z := join a ++ [58; 58] ++ join b.

Lemma normal6_full s squish : Forall piece_ok (pieces_of s) -> pieces_of s <> [] ->
  (squish = false \/ first_gap (pieces_of s) = None) -> normal6 s squish = join (pieces_of s).
Proof.
  intros Hps Hne Hgap. unfold normal6. rewrite strstr_gap by done.
  replace (if squish then _ else _) with (@None (list Z * list Z))
    by (destruct Hgap as [-> | ->]; [done | by destruct squish]).
  rewrite colon_pieces_join, app_comm_cons, removelast_last by done. done.
Qed.

Lemma ends_with_gap_digit t c : base_digit 16 c -> ends_with_gap (t ++ [c; 58]) = false.
Proof.
  intros Hc. unfold ends_with_gap. rewrite reverse_app. change (reverse [c; 58]) with [58; c]. cbn [app starts_with]. by rewrite (Z.eqb_sym 58 c), (not_colon c Hc).
Qed.

Lemma normal6_gap s a b : Forall piece_ok (pieces_of s) -> first_gap (pieces_of s) = Some (a, b) ->
  normal6 s true = squished a (drop_zero_pieces b).
Proof.
  intros Hps Hgap. destruct (first_gap_split _ _ _ Hgap) as (E1 & k & E2).
  assert (Forall piece_ok a /\ Forall piece_ok b) as [Ha Hb] by (rewrite E1 in Hps; by apply Forall_app in Hps).
  assert (Forall piece_ok (drop_zero_pieces b)) as Hb'.
  { rewrite E2 in Hps. apply Forall_app in Hps as [_ Hps]. by apply Forall_app in Hps as [_ ?]. }
  unfold normal6. rewrite strstr_gap, Hgap by done.
  change (drop 1 (58 :: colon_pieces b)) with (colon_pieces b). rewrite skip_zeros_pieces by done.
  set (b' := drop_zero_pieces b) in *. unfold squished.
  match goal with |- context [if ends_with_gap ?x then _ else _] => set (buf := x) end.
  assert ((if ends_with_gap buf then buf else removelast buf) = lead_pieces a ++ [58; 58] ++ join b') as ->.
  { subst buf. destruct (decide (b' = [])) as [-> | Hne].
    - unfold ends_with_gap. by rewrite reverse_app.
    - destruct (join_last b' Hb' Hne) as (c & t & E & Hc).
      rewrite colon_pieces_join, E by done.
      replace (lead_pieces a ++ [58; 58] ++ (t ++ [c]) ++ [58])
        with ((lead_pieces a ++ [58; 58] ++ t) ++ [c; 58]) by (by rewrite <- !app_assoc).
      rewrite ends_with_gap_digit by done.
      replace ((lead_pieces a ++ [58; 58] ++ t) ++ [c; 58])
        with ((lead_pieces a ++ [58; 58] ++ t ++ [c]) ++ [58]) by (by rewrite <- !app_assoc).
      by rewrite removelast_last. }
  destruct (decide (a = [])) as [-> | Hne]; [done|].
  destruct (join_head a Ha Hne) as (c & t & E & Hc).
  rewrite lead_pieces_join, E by done. cbn [app starts_with]. by rewrite (Z.eqb_sym 58 c), (not_colon c Hc).
Qed.

(** * Reading an address back *)

Lemma xdigit_of c : base_digit 16 c -> isxdigit c = true.
Proof. intros Hc. unfold isxdigit. by destruct (base_digit_value 16 c) as (d & -> & _). Qed.

Definition stops (rest : list Z) : Prop := match rest with c :: _ => isxdigit c = false | [] => True end.

Lemma hex_run_spec ds rest : forall n, Forall (base_digit 16) ds -> (length ds <= n)%nat -> stops rest ->
  hex_run n (ds ++ rest) = (ds, rest).
Proof.
  induction ds as [|c ds IH]; intros n Hds Hn Hstop.
  - destruct n, rest as [|c rest]; try done. simpl in *. by rewrite Hstop.
  - apply Forall_cons in Hds as [Hc Hds]. destruct n as [|n]; [simpl in Hn; lia|].
    simpl in *. rewrite (xdigit_of c Hc), IH by (done || lia). done.
Qed.

Lemma getpiece_hexs p rest : piece_ok p -> stops rest -> getpiece (hexs p ++ rest) = Good (p, rest).
Proof.
  intros Hp Hstop. destruct (hexs_spec p Hp) as (Hne & Hds & Hlen & _).
  pose proof (ttoul_number 16 p 4 ltac:(by right) ltac:(lia) Hp rest) as Hread.
  pose proof (hex_run_spec (hexs p) rest 4 Hds Hlen Hstop) as Hrun.
  unfold getpiece. destruct (hexs p) as [|c ds]; [done|]. apply Forall_cons in Hds as [Hc Hds].
  cbn [app] in *. rewrite (not_colon c Hc), Hrun.
  replace (_ && _) with false by (destruct rest; simpl in Hstop; [by rewrite andb_false_r | by rewrite Hstop, andb_false_r]).
  by rewrite Hread.
Qed.

Lemma hexs_cons p : piece_ok p -> exists c t, hexs p = c :: t.
Proof. intros Hp. destruct (hexs_spec p Hp) as (Hne & _). destruct (hexs p); [done | by eexists _, _]. Qed.

Lemma loop_piece n p rest gap ps : piece_ok p ->
  colon_loop (S (S n)) (hexs p ++ 58 :: rest) gap ps = colon_loop (S n) rest gap (ps ++ [p]).
Proof.
  intros Hp. pose proof (getpiece_hexs p (58 :: rest) Hp eq_refl) as Hpiece.
  destruct (hexs_cons p Hp) as (c & t & E). rewrite E in *.
  cbn [app] in *. remember (S n) as m eqn:Hm. cbn [colon_loop]. rewrite Hpiece. by subst m.
Qed.
Lemma loop_last n p gap ps : piece_ok p -> n = 0%nat \/ is_Some gap ->
  colon_loop (S n) (hexs p) gap ps = Good (ps ++ [p], gap, []).
Proof.
  intros Hp Hn. pose proof (getpiece_hexs p [] Hp I) as Hpiece. rewrite app_nil_r in Hpiece.
  destruct (hexs_cons p Hp) as (c & t & E). rewrite E in *. cbn [colon_loop]. rewrite Hpiece.
  destruct n as [|n]; [done|]. destruct Hn as [? | [g ->]]; [lia | done].
Qed.
Lemma loop_empty n rest ps :
  colon_loop (S (S n)) (58 :: rest) None ps = colon_loop (S n) rest (Some (length ps)) (ps ++ [0]).
Proof. done. Qed.

Lemma join_cons p q ps : join (p :: q :: ps) = hexs p ++ 58 :: join (q :: ps).
Proof. done. Qed.

Lemma loop_front a : forall n rest ps, Forall piece_ok a -> a <> [] ->
  colon_loop (length a + S n) (join a ++ 58 :: rest) None ps = colon_loop (S n) rest None (ps ++ a).
Proof.
  induction a as [|p a IH]; intros n rest ps Ha Hne; [done|]. apply Forall_cons in Ha as [Hp Ha].
  destruct a as [|q a]; [by apply loop_piece|].
  rewrite join_cons, <- app_assoc. cbn [app].
  change (length (p :: q :: a) + S n)%nat with (S (S (length a + S n))). rewrite loop_piece by done.
  change (S (length a + S n)) with (length (q :: a) + S n)%nat.
  rewrite (IH n rest (ps ++ [p])) by done. by rewrite <- app_assoc.
Qed.
Lemma loop_back b : forall n g ps, Forall piece_ok b -> (length b <= n)%nat ->
  colon_loop n (join b) (Some g) ps = Good (ps ++ b, Some g, []).
Proof.
  induction b as [|p b IH]; intros n g ps Hb Hn; [destruct n; by rewrite app_nil_r|].
  apply Forall_cons in Hb as [Hp Hb]. destruct b as [|q b].
  - destruct n as [|n]; [simpl in Hn; lia|]. apply loop_last; [done | right; by exists g].
  - destruct n as [|[|n]]; [simpl in Hn; lia.. |]. rewrite join_cons, loop_piece by done.
    rewrite IH by (done || simpl in *; lia). by rewrite <- app_assoc.
Qed.
Lemma loop_full ps : forall acc, Forall piece_ok ps -> ps <> [] ->
  colon_loop (length ps) (join ps) None acc = Good (acc ++ ps, None, []).
Proof.
  induction ps as [|p ps IH]; intros acc Hps Hne; [done|]. apply Forall_cons in Hps as [Hp Hps].
  destruct ps as [|q ps]; [apply loop_last; [done | by left]|].
  rewrite join_cons. change (length (p :: q :: ps)) with (S (S (length ps))). rewrite loop_piece by done.
  change (S (length ps)) with (length (q :: ps)). rewrite (IH (acc ++ [p])) by done. by rewrite <- app_assoc.
Qed.

Lemma no_lone_front ps rest : Forall piece_ok ps -> ps <> [] -> starts_with [58] (join ps ++ rest) = false.
Proof.
  intros Hps Hne. destruct (join_head ps Hps Hne) as (c & t & -> & Hc).
  cbn [app starts_with]. by rewrite (Z.eqb_sym 58 c), (not_colon c Hc).
Qed.
Lemma no_lone_back pre ps : Forall piece_ok ps -> ps <> [] -> starts_with [58] (reverse (pre ++ join ps)) = false.
Proof.
  intros Hps Hne. destruct (join_last ps Hps Hne) as (c & t & -> & Hc).
  rewrite app_assoc, reverse_snoc. cbn [starts_with]. by rewrite (Z.eqb_sym 58 c), (not_colon c Hc).
Qed.

Lemma colon_full ps : Forall piece_ok ps -> length ps = 8%nat ->
  colon (join ps) = initaddr (concat (piece_bytes <$> ps)) AF_INET6.
Proof.
  intros Hps Hlen. assert (ps <> []) as Hne by (by destruct ps).
  unfold colon. pose proof (no_lone_front ps [] Hps Hne) as Hf. rewrite app_nil_r in Hf.
  pose proof (no_lone_back [] ps Hps Hne) as Hb. cbn [app] in Hb. rewrite Hf, Hb. cbn [andb].
  rewrite bool_decide_false by (intros E; by rewrite E in Hf).
  pose proof (loop_full ps [] Hps Hne) as Hloop. rewrite Hlen in Hloop. rewrite Hloop. cbn [or_oops app].
  by rewrite bool_decide_true, Hlen by done.
Qed.

Lemma colon_squished a b : Forall piece_ok a -> Forall piece_ok b -> (length a + length b < 7)%nat ->
  colon (squished a b) =
    initaddr (concat (piece_bytes <$> a ++ replicate (8 - length a - length b) 0 ++ b)) AF_INET6.
Proof.
  intros Ha Hb Hlen. unfold squished.
  assert (Hback : starts_with [58] (reverse (join a ++ [58; 58] ++ join b)) &&
                  negb (ends_with_gap (join a ++ [58; 58] ++ join b)) = false).
  { destruct (decide (b = [])) as [-> | Hne].
    - unfold ends_with_gap. rewrite reverse_app. by rewrite andb_false_r.
    - pose proof (no_lone_back (join a ++ [58; 58]) b Hb Hne) as H. rewrite <- app_assoc in H. by rewrite H. }
  assert (Hloop : colon_loop (8 - length a) (58 :: join b) None a = Good (a ++ 0 :: b, Some (length a), [])).
  { destruct (8 - length a)%nat as [|[|m]] eqn:E; [lia.. |].
    rewrite loop_empty, loop_back by (done || lia). by rewrite <- app_assoc. }
  unfold colon. rewrite Hback.
  destruct (decide (a = [])) as [-> | Hne].
  - destruct (decide (b = [])) as [-> | Hne]; [done|].
    destruct (join_head b Hb Hne) as (c & t & E & _).
    rewrite bool_decide_false by (by rewrite E). cbn [join app starts_with Z.eqb Pos.eqb andb negb drop].
    change (8 - length (@nil Z))%nat with 8%nat in Hloop. rewrite Hloop. cbn [or_oops app length drop].
    rewrite bool_decide_true by done. cbn [negb]. rewrite (proj2 (Nat.eqb_neq _ _)) by (simpl in *; lia). done.
  - rewrite (no_lone_front a _ Ha Hne). cbn [andb].
    destruct (join_head a Ha Hne) as (c & t & E & Hc).
    rewrite bool_decide_false by (rewrite E; intros [= -> _]; by apply not_colon in Hc).
    change (join a ++ [58; 58] ++ join b) with (join a ++ 58 :: 58 :: join b).
    replace 8%nat with (length a + S (7 - length a))%nat at 1 by lia.
    rewrite (loop_front a (7 - length a) (58 :: join b) []) by done.
    replace (S (7 - length a)) with (8 - length a)%nat by lia. cbn [app]. rewrite Hloop. cbn [or_oops].
    rewrite bool_decide_true by done. cbn [negb].
    rewrite (proj2 (Nat.eqb_neq _ _)) by (rewrite length_app; simpl; lia).
    rewrite take_app_length, drop_app_ge by lia.
    replace (S (length a) - length a)%nat with 1%nat by lia. done.
Qed.

(** * The pieces of an address *)

Lemma pieces_spec n : forall s, length s = (2 * n)%nat -> bytes_ok s ->
  Forall piece_ok (pieces_of s) /\ length (pieces_of s) = n /\ concat (piece_bytes <$> pieces_of s) = s.
Proof.
  induction n as [|n IH]; intros s Hlen Hs; [by destruct s|].
  destruct s as [|hi [|lo s]]; [simpl in Hlen; lia.. |].
  apply Forall_cons in Hs as [Hhi Hs]. apply Forall_cons in Hs as [Hlo Hs].
  destruct (IH s ltac:(simpl in Hlen; lia) Hs) as (Hps & Hn & Hback). unfold byte_ok in *.
  cbn [pieces_of]. rewrite Z.shiftl_mul_pow2 by lia. split_and!.
  - constructor; [unfold piece_ok; lia | done].
  - simpl. lia.
  - rewrite fmap_cons. cbn [concat]. rewrite Hback. unfold piece_bytes. cbn [app].
    change 255 with (Z.ones 8). rewrite Z.land_ones, Z.shiftr_div_pow2 by lia.
    change (2 ^ 8) with 256. f_equal; [unfold u8; Z.div_mod_to_equations; lia|].
    f_equal. Z.div_mod_to_equations; lia.
Qed.

Definition addr_char (c : Z) : Prop := base_digit 16 c \/ c = 58.

Lemma join_chars ps : Forall piece_ok ps -> Forall addr_char (join ps) /\ zlen (join ps) <= Z.max 0 (5 * zlen ps - 1).
Proof.
  assert (Hh : forall p, piece_ok p -> Forall addr_char (hexs p) /\ zlen (hexs p) <= 4).
  { intros p Hp. destruct (hexs_spec p Hp) as (_ & Hds & Hlen & _). split; [|unfold zlen; lia].
    eapply Forall_impl; [exact Hds|]. intros c Hc. by left. }
  induction 1 as [|p ps Hp Hps [IH1 IH2]]; [done|]. destruct (Hh p Hp) as [Hp1 Hp2].
  rewrite zlen_cons. pose proof (zlen_nonneg ps).
  destruct ps as [|q ps]; [split; [done | cbn [join]; lia]|].
  rewrite join_cons, zlen_app, !zlen_cons in *. pose proof (zlen_nonneg ps). split; [|lia].
  apply Forall_app. split; [done|]. constructor; [by right | done].
Qed.

(** An address prints as at most 39 characters, digits and colons, and is read
    back from them. *)
Lemma normal6_spec s squish : length s = 16%nat -> bytes_ok s ->
  colon (normal6 s squish) = Good (ip6 s) /\ Forall addr_char (normal6 s squish) /\
  2 <= zlen (normal6 s squish) <= 39 /\ memchr 58 (normal6 s squish) = true.
Proof.
  intros Hlen Hs. destruct (pieces_spec 8 s Hlen Hs) as (Hps & Hn & Hback).
  assert (Hinit : initaddr s AF_INET6 = Good (ip6 s)) by (unfold initaddr, zlen; by rewrite Hlen).
  assert (Hcolon : forall x y, memchr 58 (x ++ 58 :: y) = true).
  { intros x y. unfold memchr. rewrite existsb_app. simpl. apply orb_true_r. }
  destruct (decide (squish = false \/ first_gap (pieces_of s) = None)) as [Hfull | Hgap].
  - assert (pieces_of s <> []) as Hne by (by destruct (pieces_of s)).
    rewrite (normal6_full s squish Hps Hne Hfull).
    destruct (join_chars _ Hps) as [Hch Hz]. split_and!.
    + by rewrite colon_full, Hback.
    + done.
    + destruct (pieces_of s) as [|p [|q ps]]; [done | done |]. rewrite join_cons, zlen_app, zlen_cons.
      destruct (hexs_cons p) as (c & t & ->); [exact (Forall_inv Hps)|].
      rewrite zlen_cons. pose proof (zlen_nonneg t). pose proof (zlen_nonneg (join (q :: ps))). lia.
    + unfold zlen in Hz. rewrite Hn in Hz. unfold zlen. lia.
    + destruct (pieces_of s) as [|p [|q ps]]; [done | done |]. rewrite join_cons. apply Hcolon.
  - destruct squish; [|by destruct Hgap; left].
    destruct (first_gap (pieces_of s)) as [[a b]|] eqn:Eg; [|by destruct Hgap; right].
    rewrite (normal6_gap s a b Hps Eg). destruct (first_gap_split _ _ _ Eg) as (_ & k & E).
    set (b' := drop_zero_pieces b) in *. assert (Hps' := Hps). rewrite E in Hps'.
    apply Forall_app in Hps' as [Ha Hb]. apply Forall_app in Hb as [_ Hb].
    assert (Hsum : (length a + S (S k) + length b' = 8)%nat)
      by (rewrite <- Hn, E, !length_app, length_replicate; lia).
    destruct (join_chars _ Ha) as [Ha1 Ha2], (join_chars _ Hb) as [Hb1 Hb2].
    split_and!; [| unfold squished.. ].
    + rewrite colon_squished by (done || lia). replace (8 - length a - length b')%nat with (S (S k)) by lia.
      by rewrite <- E, Hback.
    + apply Forall_app. split; [done|]. by repeat (constructor; [by right|]).
    + rewrite !zlen_app. pose proof (zlen_nonneg (join a)). pose proof (zlen_nonneg (join b')).
      change (zlen [58; 58]) with 2. lia.
    + rewrite !zlen_app. change (zlen [58; 58]) with 2. unfold zlen in *. lia.
    + apply Hcolon.
Qed.

(** * Subnets *)

Lemma clear_host_ok bs : forall count, (clear_host false bs count).1 = true /\ length (clear_host false bs count).2 = length bs.
Proof.
  induction bs as [|b bs IH]; intros count; [done|]. cbn [clear_host]. rewrite andb_false_r.
  destruct (IH (count - 8)) as [H1 H2]. destruct (clear_host false bs (count - 8)) as [ok rest].
  simpl in *. by rewrite H1, H2.
Qed.

Lemma ldiff_le b m : 0 <= b -> 0 <= m -> 0 <= Z.ldiff b m <= b.
Proof.
  intros Hb Hm. pose proof (Z.lor_ldiff_and b m) as Hor.
  pose proof (Z.add_lor_land (Z.ldiff b m) (Z.land b m)) as Hsum.
  assert (Z.land (Z.ldiff b m) (Z.land b m) = 0) as Hz.
  { apply Z.bits_inj'. intros n _. rewrite Z.land_spec, Z.ldiff_spec, Z.land_spec, Z.bits_0.
    by destruct (Z.testbit b n), (Z.testbit m n). }
  pose proof (proj2 (Z.land_nonneg b m) (or_introl Hb)). pose proof (proj2 (Z.ldiff_nonneg b m) (or_introl Hb)). lia.
Qed.
Lemma clear_host_bytes bs : forall count, bytes_ok bs -> bytes_ok (clear_host false bs count).2.
Proof.
  induction bs as [|b bs IH]; intros count Hbs; [done|]. apply Forall_cons in Hbs as [Hb Hbs].
  cbn [clear_host]. rewrite andb_false_r. specialize (IH (count - 8) Hbs).
  destruct (clear_host false bs (count - 8)) as [ok rest]. constructor; [|done]. unfold byte_ok in *. cbn [snd].
  set (m := if count >=? 8 then 0 else _). assert (0 <= m).
  { subst m. repeat case_match; [lia | lia | apply Z.shiftr_nonneg; lia]. }
  pose proof (ldiff_le b m). lia.
Qed.

(** The host part is cleared, the first [count] bits stay. *)
Lemma clear_host_bits bs : forall count i,
  addr_bit (clear_host false bs count).2 i = (Z.of_nat i <? count) && addr_bit bs i.
Proof.
  induction bs as [|b bs IH]; intros count i; [by rewrite andb_false_r|].
  cbn [clear_host]. rewrite andb_false_r.
  specialize (IH (count - 8)). destruct (clear_host false bs (count - 8)) as [ok rest]. cbn [snd] in *.
  destruct (le_lt_dec 8 i) as [Hi | Hi].
  - replace i with (8 + (i - 8))%nat by lia. rewrite !addr_bit_tail, IH. f_equal.
    apply eq_true_iff_eq. rewrite !Z.ltb_lt. lia.
  - rewrite !addr_bit_head by done. rewrite Z.ldiff_spec, andb_comm. f_equal.
    apply eq_true_iff_eq. rewrite negb_true_iff, Z.ltb_lt.
    assert (H255 : forall k, 0 <= k -> Z.testbit 255 k = (k <? 8)).
    { intros k Hk. change 255 with (Z.ones 8). destruct (Z.ltb_spec k 8);
        [apply Z.ones_spec_low | apply Z.ones_spec_high]; lia. }
    destruct (Z.geb_spec count 8) as [Hc | Hc]; [rewrite Z.bits_0; split; [lia | done]|].
    destruct (Z.leb_spec count 0) as [Hc0 | Hc0].
    + rewrite H255, Z.ltb_ge by lia. lia.
    + rewrite Z.shiftr_spec, H255, Z.ltb_ge by lia. lia.
Qed.

Lemma split_at_app c pre post : Forall (fun x => x <> c) pre -> split_at c (pre ++ c :: post) = Some (pre, post).
Proof.
  induction 1 as [|x pre Hx Hpre IH]; simpl; [by rewrite Z.eqb_refl|].
  by rewrite (proj2 (Z.eqb_neq x c) Hx), IH.
Qed.
Lemma split_at_none c s : Forall (fun x => x <> c) s -> split_at c s = None.
Proof. induction 1 as [|x s Hx Hs IH]; simpl; [done|]. by rewrite (proj2 (Z.eqb_neq x c) Hx), IH. Qed.

Lemma whole_if_0_app s rest : s <> [] -> whole_if_0 (s ++ rest) (zlen s) = s.
Proof.
  intros Hne. unfold whole_if_0. rewrite (proj2 (Z.eqb_neq _ _)).
  - unfold zlen. by rewrite Nat2Z.id, take_app_length.
  - destruct s; [done|]. rewrite zlen_cons. pose proof (zlen_nonneg s). lia.
Qed.

Lemma number_decimal n : 0 <= n <= 128 ->
  Forall (fun c => 48 <= c <= 57) (number n 10) /\ number n 10 <> [] /\ zlen (number n 10) <= 3.
Proof.
  intros Hn. destruct (digits_spec 10 n 3) as (Hne & Hds & Hlen & _); [by left | lia | simpl; lia | done |].
  change (number n 10) with (digits 10 n). split_and!; [|done | unfold zlen; lia].
  eapply Forall_impl; [exact Hds|]. intros c (d & Hd & ->). unfold hex_digit.
  destruct (Z.ltb_spec d 10); lia.
Qed.

Lemma mask_read n : 0 <= n <= 128 -> mask_and_port (number n 10) AF_INET6 128 = Good (n, 0).
Proof.
  intros Hn. destruct (number_decimal n Hn) as (Hds & Hne & _).
  unfold mask_and_port. rewrite split_at_none
    by (eapply Forall_impl; [exact Hds | simpl; lia]). cbn [or_oops].
  pose proof (ttoul_number 10 n 3 ltac:(by left) ltac:(lia) ltac:(simpl; lia) []) as Hread.
  rewrite app_nil_r in Hread. rewrite Hread. by rewrite gtb_false by lia.
Qed.

Lemma ttoaddr_colon gethostbyname2 getnetbyname s rest dst : s <> [] -> memchr 58 s = true ->
  ttoaddr gethostbyname2 getnetbyname (s ++ rest) (zlen s) AF_INET6 dst = colon s.
Proof.
  intros Hne Hcolon. unfold ttoaddr. rewrite whole_if_0_app by done.
  assert (ttoaddr_base s AF_INET6 = (colon s, false)) as ->.
  { unfold ttoaddr_base. rewrite Hcolon. by destruct s as [|a [|b s]]. }
  destruct s; [done | by destruct (colon _)].
Qed.

(** Every IPv6 address fits in the buffers. *)
Lemma addrtot_run bs (squish : bool) dstlen : length bs = 16%nat -> bytes_ok bs -> 40 <= dstlen ->
  addrtot (ip6 bs) (if squish then 0 else 81) dstlen =
    Ok (zlen (normal6 bs squish) + 1, normal6 bs squish).
Proof.
  intros Hlen Hbs Hdst. destruct (normal6_spec bs squish Hlen Hbs) as (_ & _ & Hz & _).
  unfold addrtot. replace (addr_text _ _) with (Some (normal6 bs squish)) by (by destruct squish).
  cbv zeta. unfold ADDRTOT_BUF. rewrite (gtb_false (zlen (normal6 bs squish) + 1)), (proj2 (Z.ltb_ge dstlen _)) by lia. done.
Qed.

Lemma subnettot_run bs n dstlen : length bs = 16%nat -> bytes_ok bs -> 0 <= n <= 128 -> SUBNETTOT_BUF <= dstlen ->
  let t := normal6 bs true ++ 47 :: number n 10 in
  subnettot (subnet6 bs n) 0 dstlen = Ok (zlen t + 1, t).
Proof.
  intros Hlen Hbs Hn Hdst. unfold SUBNETTOT_BUF, ADDRTOT_BUF in Hdst.
  destruct (normal6_spec bs true Hlen Hbs) as (_ & _ & Hz & _).
  destruct (number_decimal n Hn) as (_ & _ & Hlen3).
  pose proof (addrtot_run bs true dstlen Hlen Hbs ltac:(lia)) as Haddr.
  unfold subnettot. change (sn_addr (subnet6 bs n)) with (ip6 bs). simpl negb. rewrite Haddr.
  cbn [mbind outcome_bind]. rewrite (proj2 (Z.ltb_lt _ dstlen)) by lia.
  replace (u64 (maskbits (subnet6 bs n))) with n by (unfold u64; simpl; rewrite Z.mod_small; lia).
  unfold ultot. change (ultot_text n 10) with (Some (number n 10)). cbv zeta.
  rewrite gtb_true, gtb_false by lia. rewrite zlen_app, zlen_cons. cbn [default app]. f_equal. f_equal. lia.
Qed.

Lemma nibble_text d : 0 <= d < 16 -> zlen (number d 16) = 1.
Proof.
  intros Hd. destruct (digits_spec 16 d 1) as (Hne & _ & Hlen & _); [by right | lia | exact Hd | done |].
  change (number d 16) with (digits 16 d). unfold zlen. destruct (digits 16 d); [done|]. simpl in *. lia.
Qed.
Lemma reverse6_length bs : bytes_ok bs -> zlen (reverse6 bs) = 4 * zlen bs + 9.
Proof.
  intros Hbs. unfold reverse6. rewrite zlen_app. change (zlen (codes "IP6.ARPA.")) with 9. f_equal.
  replace (zlen bs) with (zlen (reverse bs)) by (unfold zlen; by rewrite length_reverse).
  assert (Hrev : bytes_ok (reverse bs)) by (by apply Forall_reverse).
  induction Hrev as [|b l Hb Hl IH]; [done|]. rewrite fmap_cons. cbn [concat]. rewrite zlen_app, IH, zlen_cons.
  unfold byte_ok in Hb. rewrite !zlen_app, !nibble_text.
  - change (zlen [46]) with 1. lia.
  - rewrite Z.shiftr_div_pow2 by lia. change (2 ^ 4) with 16. Z.div_mod_to_equations; lia.
  - change 15 with (Z.ones 4). rewrite Z.land_ones by lia. apply Z.mod_pos_bound. lia.
Qed.

Lemma addrtot_text a format dstlen t : addr_text a format = Some t -> zlen t <= 74 -> 0 <= dstlen ->
  addrtot a format dstlen = Ok (zlen t + 1, take (Z.to_nat (dstlen - 1)) t).
Proof.
  intros Ht Hlen Hdst. unfold addrtot. rewrite Ht. cbv zeta. unfold ADDRTOT_BUF. rewrite gtb_false by lia.
  destruct (Z.ltb_spec dstlen (zlen t + 1)); [done|]. rewrite take_ge; [done|]. unfold zlen in *. lia.
Qed.

Lemma initsubnet_run bs n s : length bs = 16%nat -> 0 <= n <= 128 ->
  (let '(ok, v) := initsubnet (ip6 bs) n 48 s in
   if ok : bool then Good (v, 0) else Oops "initsubnet") = Good (subnet6 (clear_host false bs n).2 n, 0).
Proof.
  intros Hlen Hn. unfold initsubnet. simpl negb. cbn [andb].
  rewrite gtb_false by (unfold zlen; simpl; rewrite Hlen; apply Z.div_le_upper_bound; lia).
  destruct (clear_host_ok bs n) as [Hok _]. change (ip_bytes (ip6 bs)) with bs. change (48 =? 120) with false.
  destruct (clear_host false bs n) as [ok bs']. simpl in Hok. by rewrite Hok.
Qed.

Section text_theorems.
Context (gethostbyname2 : list Z -> Z -> option (Z * list Z)) (getnetbyname : list Z -> option (Z * Z)).

(** What [ttosubnet] reads in the text of a subnet. *)
Lemma subnet_text_read bs n junk : length bs = 16%nat -> bytes_ok bs -> 0 <= n <= 128 ->
  ttosubnet gethostbyname2 getnetbyname (normal6 bs true ++ 47 :: number n 10) 0 AF_INET6 junk =
    Good (subnet6 (clear_host false bs n).2 n, 0).
Proof.
  intros Hlen Hbs Hn.
  destruct (normal6_spec bs true Hlen Hbs) as (Hback & Hch & Hz & Hcolon).
  set (a := normal6 bs true) in *.
  assert (Hhead : exists c a', a = c :: a' /\ addr_char c).
  { destruct Hch as [|c a' Hc _]; [change (zlen (@nil Z)) with 0 in Hz; lia | by eexists _, _]. }
  assert (Hnum : forall c, addr_char c -> c <> 37 /\ c <> 47).
  { intros c [Hc%base_digit_range | ->]; lia. }
  unfold ttosubnet. change (whole_if_0 (a ++ 47 :: number n 10) 0) with (a ++ 47 :: number n 10).
  rewrite bool_decide_false by (by destruct a). simpl negb.
  rewrite bool_decide_false
    by (destruct Hhead as (c & a' & E & Hc); rewrite E; intros [= -> _]; by destruct (Hnum 37 Hc)).
  rewrite split_at_app by (eapply Forall_impl; [exact Hch | intros c Hc; by apply Hnum]).
  rewrite ttoaddr_colon, Hback by (done || (intros E; by destruct Hhead as (? & ? & E' & _); rewrite E in E')).
  cbn [or_oops]. change (if AF_INET6 =? AF_INET then 32 else 128) with 128. rewrite mask_read by done.
  by apply initsubnet_run.
Qed.

(** C17: The text of a subnet, which is what the route commands and the names of
    prefixes hold, is read back as the subnet with the same number of bits: the
    bits of the address that the mask keeps are the same, and the host part is
    zero.  The text fits in the buffers that have the size the header gives. *)
Theorem subnet_text_roundtrip bs n dstlen junk : length bs = 16%nat -> bytes_ok bs -> 0 <= n <= 128 ->
  SUBNETTOT_BUF <= dstlen ->
  exists t bs', subnettot (subnet6 bs n) 0 dstlen = Ok (zlen t + 1, t) /\ zlen t < dstlen /\
    ttosubnet gethostbyname2 getnetbyname t 0 AF_INET6 junk = Good (subnet6 bs' n, 0) /\
    length bs' = 16%nat /\ forall i, addr_bit bs' i = (Z.of_nat i <? n) && addr_bit bs i.
Proof.
  intros Hlen Hbs Hn Hdst.
  destruct (normal6_spec bs true Hlen Hbs) as (_ & _ & Hz & _).
  destruct (number_decimal n Hn) as (_ & _ & Hlen3).
  exists (normal6 bs true ++ 47 :: number n 10), (clear_host false bs n).2.
  split_and!; [by apply subnettot_run | | by apply subnet_text_read | by rewrite (proj2 (clear_host_ok bs n)) | apply clear_host_bits].
  rewrite zlen_app, zlen_cons. unfold SUBNETTOT_BUF, ADDRTOT_BUF in Hdst. lia.
Qed.

(** For a family that is known a text without a colon is taken for an address
    whatever it says: [ttoaddr] answers that all went well and does not touch the
    address, so a filter or a prefix that names a host is made of whatever the
    memory held. *)
Lemma name_taken_for_address s bits junk : s <> [] -> memchr 58 s = false -> Forall (fun c => c <> 47) s ->
  0 <= bits <= 128 -> length (ip_bytes junk) = 16%nat -> ip_family junk = AF_INET6 ->
  ttoaddr gethostbyname2 getnetbyname s 0 AF_INET6 junk = Good junk /\
  ttosubnet gethostbyname2 getnetbyname (s ++ 47 :: number bits 10) 0 AF_INET6 junk =
    Good (subnet6 (clear_host false (ip_bytes junk) bits).2 bits, 0).
Proof.
  intros Hne Hcolon Hslash Hbits Hlen Hfam.
  assert (Hbase : ttoaddr_base s AF_INET6 = (Oops "not numeric", true)).
  { unfold ttoaddr_base. rewrite Hcolon. by destruct s as [|a [|b s']]. }
  split; [unfold ttoaddr; change (whole_if_0 s 0) with s; rewrite Hbase; by destruct s|].
  unfold ttosubnet. change (whole_if_0 (s ++ 47 :: number bits 10) 0) with (s ++ 47 :: number bits 10).
  rewrite bool_decide_false by (by destruct s). simpl negb.
  rewrite bool_decide_false by (intros E; pose proof (split_at_app 47 s (number bits 10) Hslash) as Hs;
    rewrite E in Hs; change (split_at 47 (codes "%default")) with (@None (list Z * list Z)) in Hs; done).
  rewrite split_at_app by done. unfold ttoaddr. rewrite whole_if_0_app, Hbase by done.
  replace (match s with [] => _ | _ => _ end) with (Good junk) by (by destruct s).
  cbn [or_oops]. change (if AF_INET6 =? AF_INET then 32 else 128) with 128. rewrite mask_read by done.
  destruct junk as [fam bs]. simpl in Hlen, Hfam. subst fam. by apply initsubnet_run.
Qed.

(** No IPv6 address makes [addrtot] write past the buffer it works in or past
    the caller's: it answers the space that is needed, and leaves what fits.  The
    text and the full text take at most 40 bytes; but the name in the reverse zone
    of the DNS takes 74, one more than [ADDRTOT_BUF], so a buffer of that size
    loses its last character. *)
Lemma addrtot_bounds bs dstlen : length bs = 16%nat -> bytes_ok bs -> 0 <= dstlen ->
  (forall format, format = 0 \/ format = 81 -> exists t, zlen t + 1 <= 40 /\
     addrtot (ip6 bs) format dstlen = Ok (zlen t + 1, take (Z.to_nat (dstlen - 1)) t)) /\
  exists t, zlen t = ADDRTOT_BUF /\
    addrtot (ip6 bs) 114 dstlen = Ok (zlen t + 1, take (Z.to_nat (dstlen - 1)) t).
Proof.
  intros Hlen Hbs Hdst. split.
  - intros format Hformat. assert (exists squish, addr_text (ip6 bs) format = Some (normal6 bs squish)) as [squish E].
    { destruct Hformat as [-> | ->]; [by exists true | by exists false]. }
    destruct (normal6_spec bs squish Hlen Hbs) as (_ & _ & Hz & _).
    eexists. split; [|apply (addrtot_text _ _ _ _ E)]; lia.
  - pose proof (reverse6_length bs Hbs) as Hz. exists (reverse6 bs). unfold zlen at 2 in Hz. rewrite Hlen in Hz.
    split; [done|]. apply addrtot_text; [done | lia | done].
Qed.
End text_theorems.

(** * Examples *)

Definition example_bs : list Z := [32; 1; 13; 184] ++ zeros 10 ++ [171; 205].
Definition no_host (_ : list Z) (_ : Z) : option (Z * list Z) := None.
Definition no_net (_ : list Z) : option (Z * Z) := None.

Example text_of_example : subnettot (subnet6 example_bs 48) 0 SUBNETTOT_BUF = Ok (18, codes "2001:db8::abcd/48").
Proof. vm_compute. done. Qed.
Example mid_gap : normal6 ([0; 1] ++ zeros 4 ++ [0; 3; 0; 4] ++ zeros 4 ++ [0; 2]) true = codes "1::3:4:0:0:2".
Proof. vm_compute. done. Qed.
Example port_text : subnetporttot (subnet6 example_bs 48) 53 0 100 = Ok (21, codes "2001:db8::abcd/48:53").
Proof. vm_compute. done. Qed.
Example dotted_subnet :
  ttosubnet no_host no_net (codes "1.2.3.1/255.255.255.240:0x10") 0 AF_INET (ip6 []) =
    Good (mk_subnet (mk_ip AF_INET [1; 2; 3; 0]) 28, 16).
Proof. vm_compute. done. Qed.

Lemma subnet_text_roundtrip_witness : exists t bs',
  subnettot (subnet6 example_bs 48) 0 SUBNETTOT_BUF = Ok (zlen t + 1, t) /\ zlen t < SUBNETTOT_BUF /\
  ttosubnet no_host no_net t 0 AF_INET6 (ip6 []) = Good (subnet6 bs' 48, 0) /\
  length bs' = 16%nat /\ forall i, addr_bit bs' i = (Z.of_nat i <? 48) && addr_bit example_bs i.
Proof.
  apply (subnet_text_roundtrip no_host no_net example_bs 48 SUBNETTOT_BUF (ip6 [])).
  - reflexivity.
  - unfold bytes_ok. repeat (constructor; [unfold byte_ok; lia|]). constructor.
  - lia.
  - lia.
Defined.

Lemma name_taken_for_address_witness :
  ttoaddr no_host no_net (codes "router") 0 AF_INET6 (ip6 example_bs) = Good (ip6 example_bs) /\
  ttosubnet no_host no_net (codes "router" ++ 47 :: number 128 10) 0 AF_INET6 (ip6 example_bs) =
    Good (subnet6 (clear_host false example_bs 128).2 128, 0).
Proof.
  apply (name_taken_for_address no_host no_net (codes "router") 128 (ip6 example_bs)).
  - discriminate.
  - reflexivity.
  - repeat (constructor; [vm_compute; discriminate|]). constructor.
  - lia.
  - reflexivity.
  - reflexivity.
Defined.

Lemma addrtot_bounds_witness :
  (forall format, format = 0 \/ format = 81 -> exists t, zlen t + 1 <= 40 /\
     addrtot (ip6 example_bs) format 73 = Ok (zlen t + 1, take (Z.to_nat (73 - 1)) t)) /\
  exists t, zlen t = ADDRTOT_BUF /\
    addrtot (ip6 example_bs) 114 73 = Ok (zlen t + 1, take (Z.to_nat (73 - 1)) t).
Proof.
  apply (addrtot_bounds example_bs 73).
  - reflexivity.
  - unfold bytes_ok. repeat (constructor; [unfold byte_ok; lia|]). constructor.
  - lia.
Defined.
