(* ===== verification/State.v ===== *)
(** The state of the program: [dag_network] ([include/dag.h]),
    [network_interface] ([include/iface.h]), the static members of the classes,
    and what the program has sent to the system.

    The methods of a DAG run on [ctx], the DAG and everything that is shared by
    the DAGs; those of an interface run on [sys].  Objects are indices into
    stores. *)

From Stdlib Require Import ZArith Lia String.
From stdpp Require Import base list gmap numbers strings.
From S2P Require Import Prelude Event Prefix.
#[local] Open Scope Z_scope.

(** * Counters: [enum packet_stats] of [include/counter_names.h] *)
Inductive packet_stats :=
| PS_SEQ_OLD | PS_PACKET_RECEIVED | PS_PACKET_PROCESSED | PS_PACKETS_WATCHED
| PS_LOWER_RANK_CONSIDERED | PS_LOWER_RANK_REJECTED | PS_SUBOPTION_UNDERRUN
| PS_SELF_PACKET_RECEIVED | PS_DAO_PACKET_RECEIVED | PS_DIO_PACKET_RECEIVED
| PS_DAO_PACKET_IGNORED | PS_DIO_PACKET_IGNORED | PS_DAG_CREATED_FOR_WATCHING
| PS_SAME_PARENT_IGNORED | PS_SAME_SEQUENCE_IGNORED | PS_DAOACK_PACKET_IGNORED
| PS_DAOACK_NO_DAGID_IGNORED | PS_DAOACK_WRONG_PARENT | PS_DAOACK_WRONG_SEQNO
| PS_RPL_UNKNOWN_CODE | PS_DIS_PACKET_RECEIVED | PS_DIS_PACKET_IGNORED
| PS_NEIGHBOUR_UNICAST_REACHABILITY | PS_NEIGHBOUR_UNICAST_TARGET_NS
| PS_NEIGHBOUR_UNICAST_SOURCE_UNSPECIFIED | PS_NEIGHBOUR_MCAST_SOLICIT
| PS_NEIGHBOUR_IGNORED | PS_NEIGHBOUR_SOLICIT | PS_NEIGHBOUR_ADVERT
| PS_NEIGHBOUR_JOINASSISTANT_SOLICIT | PS_NEIGHBOUR_JOIN_QUERY_STARTED
| PS_NEIGHBOUR_JOIN_QUERY_INPROGRESS | PS_NEIGHBOUR_JOIN_NEIGHBOUR_SOLICITATION
| PS_NEIGHBOUR_JOIN_QUERY_ALREADY_DECLINED | PS_NEIGHBOUR_JOIN_QUERY_ALREADY_ACCEPTED
| PS_NEIGHBOUR_JOIN_QUERY_NOCONNECTION.

Definition ps (x : packet_stats) : nat :=
  match x with
  | PS_SEQ_OLD => 0 | PS_PACKET_RECEIVED => 1 | PS_PACKET_PROCESSED => 2
  | PS_PACKETS_WATCHED => 3 | PS_LOWER_RANK_CONSIDERED => 4 | PS_LOWER_RANK_REJECTED => 5
  | PS_SUBOPTION_UNDERRUN => 6 | PS_SELF_PACKET_RECEIVED => 7 | PS_DAO_PACKET_RECEIVED => 8
  | PS_DIO_PACKET_RECEIVED => 9 | PS_DAO_PACKET_IGNORED => 10 | PS_DIO_PACKET_IGNORED => 11
  | PS_DAG_CREATED_FOR_WATCHING => 12 | PS_SAME_PARENT_IGNORED => 13
  | PS_SAME_SEQUENCE_IGNORED => 14 | PS_DAOACK_PACKET_IGNORED => 15
  | PS_DAOACK_NO_DAGID_IGNORED => 16 | PS_DAOACK_WRONG_PARENT => 17
  | PS_DAOACK_WRONG_SEQNO => 18 | PS_RPL_UNKNOWN_CODE => 19 | PS_DIS_PACKET_RECEIVED => 20
  | PS_DIS_PACKET_IGNORED => 21 | PS_NEIGHBOUR_UNICAST_REACHABILITY => 22
  | PS_NEIGHBOUR_UNICAST_TARGET_NS => 23 | PS_NEIGHBOUR_UNICAST_SOURCE_UNSPECIFIED => 24
  | PS_NEIGHBOUR_MCAST_SOLICIT => 25 | PS_NEIGHBOUR_IGNORED => 26 | PS_NEIGHBOUR_SOLICIT => 27
  | PS_NEIGHBOUR_ADVERT => 28 | PS_NEIGHBOUR_JOINASSISTANT_SOLICIT => 29
  | PS_NEIGHBOUR_JOIN_QUERY_STARTED => 30 | PS_NEIGHBOUR_JOIN_QUERY_INPROGRESS => 31
  | PS_NEIGHBOUR_JOIN_NEIGHBOUR_SOLICITATION => 32
  | PS_NEIGHBOUR_JOIN_QUERY_ALREADY_DECLINED => 33
  | PS_NEIGHBOUR_JOIN_QUERY_ALREADY_ACCEPTED => 34
  | PS_NEIGHBOUR_JOIN_QUERY_NOCONNECTION => 35
  end%nat.
Definition PS_MAX : nat := 36.

Definition stat (x : packet_stats) (st : list Z) : Z := st !!! ps x.
Definition no_stats : list Z := replicate PS_MAX 0.

(** * What leaves the program *)

(** The commands of [lib/libndmgmt/netlink.cpp], given to [system()]. *)
Inductive command :=
| AddrDel (p : ip_subnet) (dev : string)
| AddrAdd (p : ip_subnet) (dev : string)
| RouteShow
| RouteDel (p : ip_subnet)
| RouteAddParent (p : ip_subnet) (via : ip_address) (dev : string) (src : option ip_address)
| RouteAddNode (p : ip_subnet) (via : ip_address) (dev : string) (src : ip_address)
| RouteAddUnreachable (p : ip_subnet).

(** A CBOR data item, as far as the GRASP client builds and reads them. *)
#[warnings="-register-all"]
Inductive cbor :=
| CUint (n : Z)
| CText (s : string)
| CBytes (b : list Z)
| CArray (items : list cbor).

Inductive output :=
| OCommand (c : command)
| OIcmp (iface : nat) (dest src : in6_addr) (body : list Z)
| OGrasp (iface : nat) (query : cbor).

(** * Interfaces *)

Record grasp_client := mk_grasp {
  queries_outstanding : Z;
  grasp_write_ok : bool      (** whether the next [write] takes the whole query *)
}.
#[global] Instance eta_grasp : Eta grasp_client := fun r =>
  mk_grasp (queries_outstanding r) (grasp_write_ok r).

Record network_interface := mk_iface {
  if_name : string;
  if_index : Z;
  if_addr : in6_addr;
  ifa_scope : Z;
  ifi_type : Z;
  alive : bool;
  disabled : bool;
  loopback : bool;
  watching : bool;
  on_list : bool;
  if_mark : bool;
  eui64set : bool;
  eui48 : list Z;
  eui64 : list Z;
  ipv6_link_addr : in6_addr;
  ipv6_prefix_list : prefix_map;
  neighbours : node_map;
  recv_cnt : Z;
  error_cnt : Z;
  if_hwaddr : list Z;
  if_node : option rpl_node;
  last_multicast : timeval;
  join_query_client : option grasp_client
}.
#[global] Instance eta_iface : Eta network_interface := fun r =>
  mk_iface (if_name r) (if_index r) (if_addr r) (ifa_scope r) (ifi_type r) (alive r) (disabled r) (loopback r)
    (watching r) (on_list r) (if_mark r) (eui64set r) (eui48 r) (eui64 r) (ipv6_link_addr r)
    (ipv6_prefix_list r) (neighbours r) (recv_cnt r) (error_cnt r) (if_hwaddr r) (if_node r)
    (last_multicast r) (join_query_client r).

(** * DAGs *)

Definition RANK_INFINITE : Z := 65537.
Definition INVALID_SEQUENCE : Z := 257.
Definition UINT_MAX : Z := 4294967295.
Definition DAG_IFWILDCARD_MAX : Z := 8.
Definition DAG_IFWILDCARD_LEN : Z := 32.

(** [prefix_node *dag_me]: a value of [dag_announced], one of [dag_prefixes], or
    an object of the caller's. *)
Inductive me_ref := InAnnounced (h : nat) | InPrefixes (h : nat) | External (p : prefix_node).

Record dag_network := mk_dag {
  dag_self : nat;                  (** [this] *)
  mDagid : list Z;
  mActive : bool;
  mIgnorePio : bool;
  mPrefixSet : bool;
  mLastSeq : Z;
  mMyRank : Z;
  mBestRank : Z;
  mPrefix : ip_subnet;
  myDeviceIdentity : option ip_subnet;
  mIID_is_set : bool;
  mIID : ip_address;
  mIfWildcard : list (list Z);     (** the rows of [mIfWildcard] that are used *)
  mIfFilter_max : Z;
  mIfFilter : list ip_subnet;
  dag_children : prefix_map;
  dag_prefixes : prefix_map;
  dag_announced : prefix_map;
  dao_needed : bool;
  dag_me : option me_ref;
  mStats : list Z;
  dag_members : node_map;
  dag_parent : option in6_addr;
  dag_parentif : option nat;
  dag_lastparent : option in6_addr;
  dag_bestparent : option in6_addr;
  dag_bestparentif : option nat;
  mMode : Z;
  mDTSN : Z;                       (** unsigned short *)
  mDAOSequence : Z;                (** unsigned short *)
  mInstanceid : Z;
  mLifetime : Z;
  mVersion : Z;
  mDio_lifetime : Z;
  mGrounded : bool;
  mInterval_msec : Z;
  mSendDioEvent : option nat;
  mSendDaoEvent : option nat
}.
#[global] Instance eta_dag : Eta dag_network := fun r =>
  mk_dag (dag_self r) (mDagid r) (mActive r) (mIgnorePio r) (mPrefixSet r) (mLastSeq r)
    (mMyRank r) (mBestRank r) (mPrefix r) (myDeviceIdentity r) (mIID_is_set r) (mIID r)
    (mIfWildcard r) (mIfFilter_max r) (mIfFilter r) (dag_children r) (dag_prefixes r)
    (dag_announced r) (dao_needed r) (dag_me r) (mStats r) (dag_members r) (dag_parent r)
    (dag_parentif r) (dag_lastparent r) (dag_bestparent r) (dag_bestparentif r) (mMode r)
    (mDTSN r) (mDAOSequence r) (mInstanceid r) (mLifetime r) (mVersion r) (mDio_lifetime r)
    (mGrounded r) (mInterval_msec r) (mSendDioEvent r) (mSendDaoEvent r).

(** * The static members, and the memory and the system around the program *)

(** How [setup] of the first interface ends: the raw socket is made and
    configured, [socket] fails, or one of the [setsockopt] fails. *)
Inductive sock_result := SockOk | SockFails | SockoptFails.

Record sys := mk_sys {
  things_to_do : timers;
  terminating_soon : bool;
  verbose : bool;                    (** [debug->verbose_test()] *)
  globalStats : list Z;
  ifaces : list network_interface;   (** the interfaces ever made *)
  freed_if : list nat;               (** those that were deleted *)
  all_if : list nat;
  loopback_interface : option nat;
  nd_socket_open : bool;             (** [nd_socket != -1] *)
  socket_result : sock_result;
  mcast_ok : bool;                   (** whether [IPV6_ADD_MEMBERSHIP] succeeds *)
  igmp6 : option (list (Z * string));    (** what [/proc/net/igmp6] holds *)
  if_inet6 : option (list (string * Z * in6_addr)); (** link-local lines of [/proc/net/if_inet6] *)
  disable_ipv6 : string -> bool;     (** [system_get_disable_ipv6], by name of interface *)
  lastsession : Z;
  junk_node : rpl_node;              (** what new objects hold before they are set *)
  junk_prefix : prefix_node;
  junk_iface : network_interface;
  junk_bytes : list Z;               (** 2048 bytes of the stack: a local buffer before it is written *)
  junk_maskbits : Z;                 (** and a mask length there *)
  out : list output                  (** latest first *)
}.
#[global] Instance eta_sys : Eta sys := fun r =>
  mk_sys (things_to_do r) (terminating_soon r) (verbose r) (globalStats r) (ifaces r) (freed_if r) (all_if r)
    (loopback_interface r) (nd_socket_open r) (socket_result r)
    (mcast_ok r) (igmp6 r) (if_inet6 r) (disable_ipv6 r) (lastsession r) (junk_node r)
    (junk_prefix r) (junk_iface r) (junk_bytes r) (junk_maskbits r) (out r).

Record ctx := mk_ctx { this : dag_network; shared : sys }.
#[global] Instance eta_ctx : Eta ctx := fun r => mk_ctx (this r) (shared r).

(** * Access *)
Definition emit (o : output) : M sys unit := modify (fun s => s <| out ::= cons o |>).
Definition global_count (x : packet_stats) : M sys unit :=
  modify (fun s => s <| globalStats ::= bump (ps x) |>).
Definition with_timers {A} (m : M timers A) : M sys A :=
  zoom things_to_do (fun t s => s <| things_to_do := t |>) m.

Definition get_iface (i : nat) : M sys network_interface := fun s =>
  if decide (i ∈ freed_if s) then Fault UseAfterFree
  else match ifaces s !! i with Some n => Ok (n, s) | None => Fault UseAfterFree end.
Definition upd_iface (i : nat) (f : network_interface -> network_interface) : M sys unit :=
  modify (fun s => s <| ifaces ::= alter f i |>).

Definition with_sys {A} (m : M sys A) : M ctx A :=
  zoom shared (fun s c => c <| shared := s |>) m.
Definition dag_get {A} (f : dag_network -> A) : M ctx A := gets (fun c => f (this c)).
Definition dag_upd (f : dag_network -> dag_network) : M ctx unit :=
  modify (fun c => c <| this ::= f |>).
Definition dag_count (x : packet_stats) : M ctx unit :=
  dag_upd (fun d => d <| mStats ::= bump (ps x) |>).

(** * An example state

    One interface, on the list and alive; one DAG, active, of instance 1, that
    has announced two addresses and has a child.  The witnesses of the theorems
    run the program from here. *)
Module Example.
Definition eui : list Z := [0; 22; 62; 17; 52; 36].
Definition link_addr : in6_addr := [254; 128] ++ zeros 6 ++ [2; 22; 62; 255; 254; 17; 52; 36].
Definition peer_addr : in6_addr := [254; 128] ++ zeros 6 ++ [2; 22; 62; 255; 254; 17; 52; 99].
Definition prefix64 : in6_addr := [253; 1; 2; 3; 4; 5; 6; 7] ++ zeros 8.
Definition host_addr : in6_addr := [253; 1; 2; 3; 4; 5; 6; 7] ++ [2; 22; 62; 255; 254; 17; 52; 36].
Definition dagid : list Z := [116; 104; 101] ++ zeros 13.

Definition node : rpl_node := mk_node false false (ip6 in6addr_any) 0 0 false false false 0 None.
Definition prefix : prefix_node := mk_prefix (subnet6 in6addr_any 0) false false NoPeer None.
Definition iface : network_interface :=
  mk_iface "eth0" 2 link_addr 253 1 true false false false true false true eui
    [2; 22; 62; 255; 254; 17; 52; 36] link_addr [] ∅ 0 0 eui None (mk_timeval 0 0) None.
Definition announced (i : Z) : ip_subnet * prefix_node :=
  (subnet6 (take 15 host_addr ++ [i]) 128, set_prefix (subnet6 (take 15 host_addr ++ [i]) 128) prefix).
Definition dag : dag_network :=
  mk_dag 0 dagid true false true 0 RANK_INFINITE RANK_INFINITE (subnet6 prefix64 64) None false
    (ip6 in6addr_any) [] 0 (replicate 8 (subnet6 in6addr_any 0)) [announced 9] []
    [announced 7; announced 8] false (Some (InAnnounced 0)) no_stats ∅ None None None None None
    2 INVALID_SEQUENCE 1 1 0 1 3600 false 5000 None None.
Definition timers : timers := mk_timers [] [] 1 false (mk_timeval 0 0) (mk_timeval 1000 250000).
Definition sys : sys :=
  mk_sys timers false false no_stats [iface] [] [0%nat] None true SockOk true (Some []) None
    (fun _ => false) 0 node prefix iface (zeros 2048) 0 [].
Definition ctx : ctx := mk_ctx dag sys.
End Example.
