(* ===== verification/Iface.v ===== *)
(** The interface object of [lib/libndmgmt/iface.cpp] and the system commands of
    [lib/libndmgmt/netlink.cpp]: link-layer identifiers and the link-local
    address, the list of interfaces, opening the socket, sending a packet, and
    the addresses and routes given to the kernel. *)

From Stdlib Require Import ZArith Lia String Ascii.
From stdpp Require Import base list gmap numbers strings.
From S2P Require Import Prelude Event Prefix State.
#[local] Open Scope Z_scope.

Definition all_hosts_addr : in6_addr := [255; 2] ++ zeros 13 ++ [1].
Definition all_routers_addr : in6_addr := [255; 2] ++ zeros 13 ++ [2].
Definition all_rpl_addr : in6_addr := [255; 2] ++ zeros 13 ++ [26].
Definition ALL_ROUTERS_MCAST : string := "ff020000000000000000000000000002".
Definition ALL_RPL_MCAST : string := "ff02000000000000000000000000001a".

(** * Link-layer identifiers *)

Definition generate_linkaddr (n : network_interface) : network_interface :=
  n <| ipv6_link_addr := [254; 128] ++ zeros 6 ++ eui64 n |>.

(** EUI-48 [a:b:c:d:e:f] gives [a|02 b c ff fe d e f]. *)
Definition eui64_of_eui48 (e : list Z) : list Z :=
  match e with
  | [a; b; c; d; e; f] => [Z.lor a 2; b; c; 255; 254; d; e; f]
  | _ => e
  end.
Definition eui64_from_eui48 (n : network_interface) : network_interface :=
  n <| eui64 := eui64_of_eui48 (eui48 n) |> <| eui64set := true |>.

Definition generate_eui64 (n : network_interface) : network_interface :=
  generate_linkaddr (if eui64set n then n else eui64_from_eui48 n).

Definition link_local (n : network_interface) : network_interface * in6_addr :=
  let n := if eui64set n then n else generate_eui64 n in (n, ipv6_link_addr n).

(** [memcpy] into [eui48] or [eui64] of as many bytes as the caller says. *)
Definition set_eui48 (addr48 : list Z) (addrlen : Z) (n : network_interface) : outcome network_interface :=
  src ← rd_range addr48 0 addrlen;
  e ← wr_range (eui48 n) 0 src;
  Ok (generate_eui64 (n <| eui48 := e |> <| eui64set := false |>)).

Definition set_eui64 (addr64 : list Z) (addrlen : Z) (n : network_interface) : outcome network_interface :=
  src ← rd_range addr64 0 addrlen;
  e ← wr_range (eui64 n) 0 src;
  Ok (generate_linkaddr
        (n <| eui64set := true |> <| eui64 := alter (fun b => Z.lor b 2) 0%nat e |>)).

Definition ARPHRD_6LOWPAN : Z := 825.

(** [set_link_layer64] *)
Definition set_link_layer64 (bytes : list Z) (len : Z) (n : network_interface)
  : outcome (bool * network_interface) :=
  let finish n :=
    if ifi_type n =? ARPHRD_6LOWPAN
    then Ok (true, n <| if_hwaddr := take 8 (eui64 n) |>)
    else Ok (true, n <| if_hwaddr := take 6 (eui48 n) |>) in
  if len =? 6 then
    src ← rd_range bytes 0 6;
    finish (eui64_from_eui48 (n <| eui48 := src |>))
  else if len =? 8 then
    src ← rd_range bytes 0 8;
    finish (n <| eui64 := src |> <| eui64set := true |>)
  else Ok (false, n).

Definition matching_address (n : network_interface) (maybeme : in6_addr) : bool :=
  memcmp maybeme (ipv6_link_addr n) =? 0.
Definition if_ifaddr (n : network_interface) (ia : in6_addr) : bool :=
  memcmp ia (if_addr n) =? 0.
Definition all_hosts_addrP (ia : in6_addr) : bool := memcmp ia all_hosts_addr =? 0.
Definition is_active (n : network_interface) : bool := alive n && negb (disabled n).

(** * The list of interfaces *)
Definition add_to_list (i : nat) : M sys unit :=
  n ← get_iface i;
  if on_list n then mret tt
  else modify (fun s => s <| all_if ::= cons i |>) ;;
       upd_iface i (fun n => n <| on_list := true |>).

(** The walk dereferences [next] until it meets the object. *)
Fixpoint unlink (i : nat) (l : list nat) : outcome (list nat) :=
  match l with
  | [] => Fault NullDeref
  | j :: l' => if decide (j = i) then Ok l' else l'' ← unlink i l'; Ok (j :: l'')
  end.
Definition remove_from_list (i : nat) : M sys unit :=
  n ← get_iface i;
  if negb (on_list n) then mret tt
  else s ← get;
       l ← lift (unlink i (all_if s));
       modify (fun s => s <| all_if := l |>) ;;
       upd_iface i (fun n => n <| on_list := false |>).

Fixpoint find_iface (p : network_interface -> bool) (l : list nat) : M sys (option nat) :=
  match l with
  | [] => mret None
  | i :: l' => n ← get_iface i; if p n then mret (Some i) else find_iface p l'
  end.
Definition find_by_ifindex (index : Z) : M sys (option nat) :=
  s ← get; find_iface (fun n => if_index n =? index) (all_if s).

(** [strcasecmp] *)
Definition tolower (c : ascii) : ascii :=
  let n := nat_of_ascii c in
  if Nat.leb 65 n && Nat.leb n 90 then ascii_of_nat (n + 32) else c.
Fixpoint strcaseeq (x y : string) : bool :=
  match x, y with
  | EmptyString, EmptyString => true
  | String a x', String b y' => Ascii.eqb (tolower a) (tolower b) && strcaseeq x' y'
  | _, _ => false
  end.
Definition find_by_name (name : string) : M sys (option nat) :=
  s ← get; find_iface (fun n => strcaseeq name (if_name n)) (all_if s).

(** [foreach_if]: the callback stops the walk by answering 0. *)
Fixpoint foreach_list {S} (func : nat -> M S Z) (ret : Z) (l : list nat) : M S Z :=
  match l with
  | [] => mret ret
  | i :: l' => r ← func i; if r =? 0 then mret r else foreach_list func r l'
  end.
Lemma keeps_foreach_list {S} (R : S -> S -> Prop) `{!PreOrder R} func l :
  (forall i, keeps R (func i)) -> forall r, keeps R (foreach_list func r l).
Proof.
  intros Hf. induction l as [|i l IH]; intros r; cbn [foreach_list]; [apply keeps_ret, _|].
  apply keeps_bind; [apply _|apply Hf|intros r']. destruct (r' =? 0); [apply keeps_ret, _|apply IH].
Qed.
#[export] Hint Extern 2 (keeps _ (foreach_list _ _ _)) => (apply keeps_foreach_list; [apply _|intros ?; keep]) : keep.
Definition foreach_if (func : nat -> M sys Z) : M sys Z :=
  s ← get; foreach_list func (-1) (all_if s).

Definition remove_marks : M sys Z :=
  foreach_if (fun i => upd_iface i (fun n => n <| if_mark := false |>) ;; mret 1).
Definition if_count : M sys Z := gets (fun s => zlen (all_if s)).

(** The cached index, or the one of the link-local line of the interface. *)
Definition get_if_index (i : nat) : M sys Z :=
  n ← get_iface i;
  if if_index n >? 0 then mret (if_index n)
  else
    s ← get;
    match if_inet6 s with
    | None => mret (-1)
    | Some lines =>
        match list_find (fun l => (fst (fst l)) = if_name n) lines with
        | None => mret (-1)
        | Some (_, (_, idx, addr)) =>
            upd_iface i (fun n => n <| if_addr := addr |> <| if_index := idx |>) ;; mret idx
        end
    end.

Definition packet_too_short (i : nat) (avail_len needed_len : Z) : M sys bool :=
  if avail_len <? needed_len
  then upd_iface i (fun n => n <| error_cnt ::= (fun c => c + 1) |>) ;; mret true
  else mret false.

(** * The socket *)

(** [setup_allrouters_membership] and [setup_allrpl_membership] *)
Definition join_group (i : nat) : M sys unit :=
  get_if_index i ;;
  s ← get;
  if mcast_ok s then mret tt else upd_iface i (fun n => n <| alive := false |>).

Definition setup (i : nat) : M sys bool :=
  n ← get_iface i;
  if alive n then mret true
  else
    upd_iface i (fun n => generate_eui64 n <| alive := true |>) ;;
    add_to_list i ;;
    s ← get;
    if nd_socket_open s then join_group i ;; mret true
    else match socket_result s with
         | SockFails => mret false
         | SockoptFails => modify (fun s => s <| nd_socket_open := true |>) ;; mret false
         | SockOk => modify (fun s => s <| nd_socket_open := true |>) ;; join_group i ;; mret true
         end.

Definition setup_all_if : M sys unit :=
  s ← get;
  for_each (all_if s) (fun i =>
    n ← get_iface i;
    when (negb (loopback n) && negb (disabled n)) (setup i ;; mret tt)).

Definition check_allrouters_membership (i : nat) : M sys unit :=
  s ← get;
  n ← get_iface i;
  match igmp6 s with
  | None => mret tt
  | Some lines =>
      let has g := existsb (fun l => (fst l =? if_index n) && String.eqb (snd l) g) lines in
      when (negb (has ALL_ROUTERS_MCAST)) (join_group i) ;;
      when (negb (has ALL_RPL_MCAST)) (join_group i)
  end.

(** [send_raw_icmp]: [src] is written into the packet information and then
    overwritten with the interface's address. *)
Definition send_raw_icmp (i : nat) (dest src : option in6_addr) (icmp_body : list Z) : M sys unit :=
  ok ← setup i;
  if negb ok then mret tt
  else
    check_allrouters_membership i ;;
    when (match dest with None => true | Some _ => false end)
      (s ← get; upd_iface i (fun n => n <| last_multicast := clock (things_to_do s) |>)) ;;
    get_if_index i ;;
    n ← get_iface i;
    s ← get;
    when (nd_socket_open s)
      (emit (OIcmp i (default all_rpl_addr dest) (if_addr n) icmp_body)).

(** * Addresses and routes *)
Definition nisystem (c : command) : M sys unit := emit (OCommand c).
Definition ni_route_show : M sys unit := nisystem RouteShow.

Definition addprefix (i : nat) (p : prefix_node) : M sys bool :=
  when (isvalidsubnet (mPrefix_ p))
    (nisystem (AddrDel (mPrefix_ p) "lo") ;;
     nisystem (AddrAdd (mPrefix_ p) "lo") ;;
     ni_route_show) ;;
  mret true.

Definition add_parent_route_to_prefix (i : nat) (p : ip_subnet) (src : option ip_address)
    (parent : rpl_node) : M sys bool :=
  n ← get_iface i;
  nisystem (RouteDel p) ;;
  nisystem (RouteAddParent p (nodeip parent) (if_name n) src) ;;
  ni_route_show ;;
  mret true.

Definition default_route : ip_subnet := subnet6 in6addr_any 0.
Definition add_parent_route_to_default (i : nat) (src : option ip_address) (parent : rpl_node) : M sys bool :=
  add_parent_route_to_prefix i default_route src parent.

Definition add_null_route_to_prefix (p : ip_subnet) : M sys bool :=
  nisystem (RouteAddUnreachable p) ;; ni_route_show ;; mret true.

Section routes.
Context `{PrefixMapSem}.

Definition add_route_to_node (i : nat) (p : ip_subnet) (peer : rpl_node) (src : ip_address) : M sys bool :=
  s ← get;
  n ← get_iface i;
  let '(h, m) := pm_index (junk_prefix s) p (ipv6_prefix_list n) in
  upd_iface i (fun n => n <| ipv6_prefix_list := pm_upd h (set_prefix p) m |>) ;;
  nisystem (RouteAddNode p (nodeip peer) (if_name n) src) ;;
  ni_route_show ;;
  mret true.
End routes.
