(* ===== verification/Build.v ===== *)
(** The messages a DAG sends: [build_dio] and [append_suboption] of
    [lib/libndmgmt/dio.cpp], [build_dao] of [dao.cpp], [build_daoack] of
    [daoack.cpp] and [build_dis] of [dis.cpp].

    A builder clears its buffer, lays structs over it and returns the length of
    the message; the theorems say what the buffer then holds, and the parser of
    [Subopt] reads the same options back. *)

From Stdlib Require Import ZArith Lia.
From stdpp Require Import base list gmap numbers.
From S2P Require Import Prelude Wire Subopt Event Prefix State.
#[local] Open Scope Z_scope.

(** The header of [struct icmp6_hdr] before [icmp6_data8]. *)
Definition icmp6_hdr_size : Z := 4.
Definition icmp6_start (buff_len : nat) (ty code : Z) : outcome (list Z) :=
  wr_range (zeros buff_len) 0 [ty; code; 0; 0].

(** [(len + 7)&(~0x7)] *)
Definition round8 (len : Z) : Z := Z.land (len + 7) (Z.lnot 7).

(** [append_suboption]: [buff_len] is only what the caller says is left. *)
Definition append_suboption (buff : list Z) (nextopt : Z) (buff_len : Z) (subopt_type : Z)
    (subopt_data : list Z) (subopt_len : Z) : outcome (list Z * Z) :=
  if u32 buff_len <? u32 (subopt_len + 2) then Ok (buff, -1)
  else
    data ← rd_range subopt_data 0 subopt_len;
    b ← wr_range buff nextopt ([u8 subopt_type; u8 subopt_len] ++ data);
    Ok (b, subopt_len + 2).

(** The second [append_suboption] takes the data from [optbuff], after the two
    bytes of its own type and length. *)
Definition append_optbuff (buff : list Z) (nextopt buff_len subopt_type : Z) (optbuff : list Z) (optlen : Z)
  : outcome (list Z * Z) :=
  append_suboption buff nextopt buff_len subopt_type (drop 2 optbuff) (optlen - 2).

(** * DIO *)

Definition build_prefix_dioopt (d : dag_network) (prefix : ip_subnet) : outcome (list Z * Z) :=
  let count := Z.max 0 (Z.min (Z.quot (maskbits prefix + 7) 8) 129) in
  bytes ← rd_range (ip_bytes (sn_addr prefix)) 0 count;
  dp_prefix ← wr_range (zeros 16) 0 bytes;
  optbuff ← wr_range (zeros 256) 0 (Opt.destprefix_encode
    {| Opt.rpl_dio_type := 0; Opt.rpl_dio_len := 0; Opt.rpl_dio_prefixlen := u8 (maskbits prefix);
       Opt.rpl_dio_prf := RPL_DIO_PREFIX_AUTONOMOUS_ADDR_CONFIG_FLAG;
       Opt.rpl_dio_valid_lifetime := mDio_lifetime d;
       Opt.rpl_dio_preferred_lifetime := mDio_lifetime d;
       Opt.reserved2 := 0; Opt.rpl_dio_prefix := dp_prefix |});
  Ok (optbuff, Opt.destprefix_size).

(** [htons(mMyRank & 0xffff)] *)
Definition dio_of (d : dag_network) : Dio.nd_rpl_dio :=
  {| Dio.rpl_instanceid := u8 (mInstanceid d);
     Dio.rpl_version := u8 (mVersion d);
     Dio.rpl_dagrank := u16 (mMyRank d);
     Dio.rpl_mopprf := u8 (mopprf_of (mGrounded d) (mMode d));
     Dio.rpl_dtsn := u8 (mDTSN d);
     Dio.rpl_flags := 0; Dio.rpl_resv1 := 0;
     Dio.rpl_dagid := mDagid d |}.

Definition build_dio (d : dag_network) (buff_len : nat) (prefix : ip_subnet)
  : outcome (dag_network * list Z * Z) :=
  buff ← icmp6_start buff_len ND_RPL_MESSAGE ND_RPL_DAG_IO;
  buff ← wr_range buff icmp6_hdr_size (Dio.encode (dio_of d));
  let d := d <| mDTSN ::= (fun n => u16 (n + 1)) |> in
  let nextopt := icmp6_hdr_size + Dio.size in
  '(optbuff, diooptlen) ← build_prefix_dioopt d prefix;
  '(buff, nextoptlen) ← append_optbuff buff nextopt diooptlen RPL_DIO_DESTPREFIX optbuff diooptlen;
  if nextoptlen <? 0 then Ok (d, buff, -1)
  else Ok (d, buff, round8 (nextopt + nextoptlen)).

(** * DAO *)

(** [build_target_opt]: always a /128. *)
Definition build_target_opt (prefix : ip_subnet) : outcome (list Z * Z) :=
  let maskbits := 128 in
  bytes ← rd_range (ip_bytes (sn_addr prefix)) 0 (Z.quot (maskbits + 7) 8);
  optbuff ← wr_range (zeros 256) 0 ([0; 0; 0; maskbits] ++ bytes);
  Ok (optbuff, Z.quot (maskbits + 7) 8 + Opt.target_size).

(** One of the two loops of [build_dao]. *)
Fixpoint append_targets (buff : list Z) (buff_len nextopt : Z) (pms : list prefix_node)
  : outcome (list Z * Z) :=
  match pms with
  | [] => Ok (buff, nextopt)
  | pm :: pms' =>
      '(optbuff, optlen) ← build_target_opt (mPrefix_ pm);
      '(buff, nextoptlen) ← append_optbuff buff nextopt (buff_len - nextopt) RPL_DAO_RPLTARGET optbuff optlen;
      append_targets buff buff_len (nextopt + nextoptlen) pms'
  end.

Section dao.
Context `{PrefixMapSem}.

Definition build_dao (d : dag_network) (buff_len : nat) : outcome (dag_network * list Z * Z) :=
  buff ← icmp6_start buff_len ND_RPL_MESSAGE ND_RPL_DAO;
  let d := d <| mDAOSequence ::= (fun n => u16 (n + 1)) |> in
  buff ← wr_range buff icmp6_hdr_size (Dao.encode
    {| Dao.rpl_instanceid := u8 (mInstanceid d);
       Dao.rpl_flags := Z.lor RPL_DAO_D_MASK RPL_DAO_K_MASK;
       Dao.rpl_resv := 0; Dao.rpl_daoseq := u8 (mDAOSequence d) |});
  buff ← wr_range buff (icmp6_hdr_size + Dao.size) (mDagid d);
  let nextopt := icmp6_hdr_size + Dao.size + DAGID_LEN in
  '(buff, nextopt) ← append_targets buff (Z.of_nat buff_len) nextopt (pm_values (dag_children d));
  '(buff, nextopt) ← append_targets buff (Z.of_nat buff_len) nextopt (pm_values (dag_announced d));
  Ok (d, buff, round8 nextopt).
End dao.

(** * DAO-ACK *)
Definition build_daoack (d : dag_network) (buff_len : nat) (seq_num : Z) : outcome (list Z * Z) :=
  buff ← icmp6_start buff_len ND_RPL_MESSAGE ND_RPL_DAO_ACK;
  buff ← wr_range buff icmp6_hdr_size (DaoAck.encode
    {| DaoAck.rpl_instanceid := u8 (mInstanceid d); DaoAck.rpl_flags := RPL_DAOACK_D_MASK;
       DaoAck.rpl_daoseq := u8 seq_num; DaoAck.rpl_status := 0 |});
  buff ← wr_range buff (icmp6_hdr_size + DaoAck.size) (mDagid d);
  Ok (buff, round8 (icmp6_hdr_size + DaoAck.size + DAGID_LEN)).

(** * DIS *)
Definition build_info_disopt (d : dag_network) : outcome (list Z * Z) :=
  optbuff ← wr_range (zeros 256) 0 (Dis.si_encode
    {| Dis.rpl_dis_type := 0; Dis.rpl_dis_len := 0;
       Dis.rpl_dis_instanceid := u8 (mInstanceid d); Dis.rpl_dis_flags := RPL_DIS_SI_I;
       Dis.rpl_dis_dagid := zeros 16; Dis.rpl_dis_versionnum := 0 |});
  Ok (optbuff, Dis.si_size).

Definition build_dis (d : dag_network) (buff_len : nat) : outcome (list Z * Z) :=
  buff ← icmp6_start buff_len ND_RPL_MESSAGE ND_RPL_DAG_IS;
  let nextopt := icmp6_hdr_size + Dis.size in
  '(optbuff, disoptlen) ← build_info_disopt d;
  '(buff, nextoptlen) ← append_optbuff buff nextopt disoptlen RPL_DIS_SOLICITEDINFO optbuff disoptlen;
  if nextoptlen <? 0 then Ok (buff, -1)
  else Ok (buff, round8 (nextopt + nextoptlen)).

(** * Filling a cleared buffer

    [filled p n] is a buffer of which the first bytes are [p] and the [n] others
    have not been written since the [memset]. *)
Definition filled (p : list Z) (n : nat) : list Z := p ++ zeros n.

Section filling.
Lemma filled_length p n : length (filled p n) = (length p + n)%nat.
Proof. unfold filled, zeros. by rewrite length_app, length_replicate. Qed.

Lemma wr_filled p n off bs : off = zlen p -> (length bs <= n)%nat ->
  wr_range (filled p n) off bs = Ok (filled (p ++ bs) (n - length bs)).
Proof. intros -> ?. by apply wr_range_fill. Qed.

Lemma wr_zeros n bs : (length bs <= n)%nat ->
  wr_range (zeros n) 0 bs = Ok (filled bs (n - length bs)).
Proof. intros. by apply (wr_filled [] n). Qed.

Lemma rd_range_all m len : len = zlen m -> rd_range m 0 len = Ok m.
Proof.
  intros ->. pose proof (rd_range_app [] m []) as H. by rewrite app_nil_r in H.
Qed.

Lemma rd_range_take m n : 0 <= n <= zlen m -> rd_range m 0 n = Ok (take (Z.to_nat n) m).
Proof. intros. unfold rd_range. rewrite !(proj2 (Z.leb_le _ _)) by lia. done. Qed.

Lemma append_filled p n off avail ty data :
  off = zlen p -> zlen data < 4294967294 -> zlen data + 2 <= u32 avail -> (length data + 2 <= n)%nat ->
  append_suboption (filled p n) off avail ty data (zlen data) =
    Ok (filled (p ++ [u8 ty; u8 (zlen data)] ++ data) (n - (length data + 2)), zlen data + 2).
Proof.
  intros -> Hd Ha Hn. unfold append_suboption. pose proof (zlen_nonneg data).
  rewrite (u32_small (zlen data + 2)) by lia. rewrite (proj2 (Z.ltb_ge _ _)) by lia.
  rewrite rd_range_all by done. cbn [mbind outcome_bind].
  rewrite wr_filled; [|done|cbn [app length]; lia].
  cbn [mbind outcome_bind app length]. by replace (S (S (length data))) with (length data + 2)%nat by lia.
Qed.

Lemma append_full buff off avail ty data len :
  0 <= len < 4294967294 -> u32 avail < len + 2 ->
  append_suboption buff off avail ty data len = Ok (buff, -1).
Proof.
  intros. unfold append_suboption. rewrite (u32_small (len + 2)) by lia.
  by rewrite (proj2 (Z.ltb_lt _ _)) by lia.
Qed.

Lemma round8_spec len : 0 <= len -> len <= round8 len < len + 8 /\ round8 len mod 8 = 0.
Proof.
  intros. assert (round8 len = len + 7 - (len + 7) mod 8) as ->.
  { unfold round8. change 7 with (Z.ones 3) at 2. rewrite <-Z.ldiff_land, Z.ldiff_ones_r by lia.
    rewrite Z.shiftr_div_pow2, Z.shiftl_mul_pow2 by lia. change (2 ^ 3) with 8.
    rewrite (Z.mod_eq (len + 7) 8) by lia. lia. }
  Z.to_euclidean_division_equations; lia.
Qed.
End filling.

(** * What the messages hold *)
Section images.
(** A DAG whose identifiers have the sizes of their C types. *)
Definition dag_sized (d : dag_network) : Prop :=
  length (mDagid d) = 16%nat /\ bytes_ok (mDagid d) /\ 0 <= mMode d < 8 /\
  0 <= mDio_lifetime d < 4294967296.

Definition header (code : Z) : list Z := [ND_RPL_MESSAGE; code; 0; 0].

(** The padding between the end of the options and the length that is sent. *)
Definition pads (len : Z) : list tlv := replicate (Z.to_nat (round8 len - len)) Pad0.
Lemma enc_pads n : enc (replicate n Pad0) = zeros n.
Proof. induction n as [|n IH]; [done|]. cbn [replicate]. by rewrite enc_cons, IH. Qed.

(** The PIO as an option of a well-formed message. *)
Definition pio (d : dag_network) (bs : in6_addr) (bits : Z) : tlv :=
  Tlv RPL_DIO_DESTPREFIX
    ([u8 bits; RPL_DIO_PREFIX_AUTONOMOUS_ADDR_CONFIG_FLAG] ++ be32 (mDio_lifetime d) ++
     be32 (mDio_lifetime d) ++ be32 0 ++ take (Z.to_nat ((bits + 7) / 8)) bs ++
     zeros (16 - Z.to_nat ((bits + 7) / 8))).

Lemma build_prefix_dioopt_image d bs bits :
  length bs = 16%nat -> 0 <= bits <= 128 ->
  exists data rest, pio d bs bits = Tlv RPL_DIO_DESTPREFIX data /\ length data = 30%nat /\
    build_prefix_dioopt d (subnet6 bs bits) = Ok ([0; 0] ++ data ++ rest, 32) /\ length rest = 224%nat.
Proof.
  intros Hl Hb. unfold build_prefix_dioopt, pio. cbn [maskbits sn_addr subnet6 ip6 ip_bytes].
  rewrite Z.quot_div_nonneg by lia. set (c := (bits + 7) / 8).
  assert (0 <= c <= 16) as Hc by (subst c; Z.to_euclidean_division_equations; lia).
  rewrite Z.min_l, Z.max_r, rd_range_take by (unfold zlen; lia). cbn [mbind outcome_bind].
  assert (length (take (Z.to_nat c) bs) = Z.to_nat c) as Ht by (rewrite length_take_le; lia).
  rewrite wr_zeros by lia. cbn [mbind outcome_bind]. rewrite Ht. unfold filled.
  set (px := take _ _ ++ zeros _).
  assert (length px = 16%nat) as H16 by (subst px; rewrite length_app, length_zeros; lia).
  rewrite wr_zeros by (cbn [Opt.destprefix_encode app be32 length Opt.rpl_dio_prefix]; lia).
  eexists _, (zeros 224). split; [done|].
  split; [cbn [app be32 length]; rewrite H16; done|]. split; [|done].
  cbn [mbind outcome_bind Opt.destprefix_encode app be32 length Opt.rpl_dio_prefix]. rewrite H16.
  unfold filled. cbn -[zeros px]. done.
Qed.

Lemma dio_of_wf d : dag_sized d -> Dio.wf (dio_of d).
Proof.
  intros (Hl & Hb & Hm & Hd). unfold Dio.wf, dio_of.
  cbn [Dio.rpl_instanceid Dio.rpl_version Dio.rpl_dagrank Dio.rpl_mopprf Dio.rpl_dtsn Dio.rpl_flags
    Dio.rpl_resv1 Dio.rpl_dagid].
  split_and!; auto with words; try apply u16_range; word_lia.
Qed.

Lemma header_filled n code : (4 <= n)%nat ->
  icmp6_start n ND_RPL_MESSAGE code = Ok (filled (header code) (n - 4)).
Proof. intros. unfold icmp6_start. by rewrite wr_zeros. Qed.

Lemma filled_pads p n len :
  zlen p = len -> 0 <= len -> (Z.to_nat (round8 len - len) <= n)%nat ->
  filled p n = p ++ enc (pads len) ++ zeros (n - Z.to_nat (round8 len - len)).
Proof.
  intros Hp Hl Hn. unfold filled, pads. rewrite enc_pads. f_equal. unfold zeros.
  rewrite <-replicate_add. f_equal. pose proof (round8_spec len Hl). lia.
Qed.

(** The message [build_dio] leaves in the buffer. *)
Lemma build_dio_image d n bs bits :
  dag_sized d -> length bs = 16%nat -> 0 <= bits <= 128 -> (64 <= n)%nat ->
  build_dio d n (subnet6 bs bits) =
    Ok (d <| mDTSN ::= (fun k => u16 (k + 1)) |>,
        (header ND_RPL_DAG_IO ++ Dio.encode (dio_of d)) ++ enc (pio d bs bits :: pads 60) ++ zeros (n - 64),
        64).
Proof.
  intros Hd Hl Hb Hn. unfold build_dio. rewrite header_filled by lia. cbn [mbind outcome_bind].
  pose proof (Dio.encode_len _ (dio_of_wf d Hd)) as Hdio. unfold zlen, Dio.size in Hdio.
  rewrite wr_filled by (done || (cbn [length header]; lia)). cbn [mbind outcome_bind].
  replace (build_prefix_dioopt _ (subnet6 bs bits)) with (build_prefix_dioopt d (subnet6 bs bits)) by done.
  destruct (build_prefix_dioopt_image d bs bits Hl Hb) as (data & rest & Hpio & Hdata & -> & Hrest).
  cbn [mbind outcome_bind]. unfold append_optbuff. cbn [drop app].
  change (32 - 2) with 30. unfold append_suboption. change (u32 32 <? u32 (30 + 2)) with false.
  cbn [negb]. rewrite drop_0, rd_range_take by (unfold zlen; rewrite length_app; lia).
  change (Z.to_nat 30) with 30%nat. rewrite <-Hdata, take_app_length. cbn [mbind outcome_bind].
  rewrite wr_filled; cycle 1.
  { unfold zlen. rewrite length_app. cbn [length header]. unfold icmp6_hdr_size, Dio.size. lia. }
  { cbn [length app header]. lia. }
  cbn [mbind outcome_bind]. change (30 + 2 <? 0) with false. cbn [negb].
  change (round8 _) with 64. do 2 f_equal. f_equal.
  rewrite (filled_pads _ _ 60); cycle 1.
  { unfold zlen. rewrite !length_app. cbn [length app header]. lia. }
  { lia. }
  { change (round8 60) with 64. cbn [length app header]. lia. }
  change (round8 60 - 60) with 4. rewrite enc_cons, Hpio. cbn [tlv_enc length app header].
  rewrite <-!app_assoc. unfold zlen. rewrite Hdata. cbn -[enc pads zeros Dio.encode].
  replace (n - 4 - length (Dio.encode (dio_of d)) - 32 - Z.to_nat 4)%nat with (n - 64)%nat by lia. done.
Qed.

(** ** The DAO *)
Definition target_opt (bs : in6_addr) : tlv := Tlv RPL_DAO_RPLTARGET ([0; 128] ++ bs).
Definition pm_addr (pm : prefix_node) : in6_addr := ip_bytes (sn_addr (mPrefix_ pm)).
Definition targets (pms : list prefix_node) : list tlv := (target_opt ∘ pm_addr) <$> pms.

Lemma append_targets_image pms : forall p n blen,
  Forall (fun pm => length (pm_addr pm) = 16%nat) pms -> (20 * length pms <= n)%nat ->
  zlen p + Z.of_nat n = blen -> blen < 4294967296 ->
  append_targets (filled p n) blen (zlen p) pms =
    Ok (filled (p ++ enc (targets pms)) (n - 20 * length pms), zlen p + 20 * zlen pms).
Proof.
  induction pms as [|pm pms IH]; intros p n blen Hpms Hn Hblen Hb.
  { cbn. rewrite app_nil_r, Nat.sub_0_r, Z.add_0_r. done. }
  apply Forall_cons_1 in Hpms as [Hpm Hpms]. cbn [append_targets]. unfold build_target_opt.
  fold (pm_addr pm). change (Z.quot (128 + 7) 8) with 16.
  rewrite rd_range_take by (unfold zlen; lia). change (Z.to_nat 16) with 16%nat.
  rewrite take_ge by lia. cbn [mbind outcome_bind].
  rewrite wr_zeros by (cbn [length app]; lia). cbn [mbind outcome_bind].
  unfold append_optbuff, filled at 2. cbn [app drop]. unfold Opt.target_size.
  change (16 + 4 - 2) with 18. cbn [length] in Hn. unfold append_suboption.
  change (u32 (18 + 2)) with 20. rewrite u32_small by (pose proof (zlen_nonneg p); lia).
  rewrite (proj2 (Z.ltb_ge _ _)) by lia.
  assert (rd_range (0 :: 128 :: pm_addr pm ++ zeros (256 - length (0 :: 0 :: 0 :: 128 :: pm_addr pm))) 0 18
    = Ok (0 :: 128 :: pm_addr pm)) as Hrd.
  { rewrite rd_range_take by (unfold zlen; cbn [length]; rewrite length_app; lia).
    change (Z.to_nat 18) with (2 + 16)%nat. cbn [take Nat.add]. by rewrite (take_app_le _ _ 16), take_ge by lia. }
  rewrite Hrd. cbn [mbind outcome_bind].
  rewrite wr_filled; [|done|cbn [length app]; lia]. cbn [mbind outcome_bind].
  assert (zlen (p ++ [u8 RPL_DAO_RPLTARGET; u8 18] ++ 0 :: 128 :: pm_addr pm) = zlen p + 20) as Hz.
  { rewrite zlen_app. unfold zlen at 2. cbn [length app]. lia. }
  change (18 + 2) with 20. rewrite <-Hz, IH; [|done|cbn [length app]; lia|rewrite Hz; cbn [length app]; lia|done].
  rewrite Hz, <-app_assoc, zlen_cons. f_equal. f_equal; [|lia].
  change (targets (pm :: pms)) with (target_opt (pm_addr pm) :: targets pms). cbn [length app].
  assert (enc (target_opt (pm_addr pm) :: targets pms) =
    u8 RPL_DAO_RPLTARGET :: u8 18 :: 0 :: 128 :: pm_addr pm ++ enc (targets pms)) as ->.
  { rewrite enc_cons. unfold target_opt. cbn [tlv_enc app]. rewrite !zlen_cons.
    unfold zlen. rewrite Hpm. done. }
  f_equal. cbn [length app]. lia.
Qed.

Lemma targets_len pms : Forall (fun pm => length (pm_addr pm) = 16%nat) pms ->
  zlen (enc (targets pms)) = 20 * zlen pms.
Proof.
  induction 1 as [|pm pms Hpm _ IH]; [done|].
  change (targets (pm :: pms)) with (target_opt (pm_addr pm) :: targets pms).
  rewrite enc_cons, zlen_app, IH, zlen_cons. unfold target_opt. rewrite tlv_enc_len.
  unfold zlen. cbn [length app]. lia.
Qed.

Lemma targets_wf pms : Forall (fun pm => length (pm_addr pm) = 16%nat) pms -> Forall tlv_wf (targets pms).
Proof.
  intros Hp. apply Forall_fmap. induction Hp as [|pm pms Hpm _ IH]; constructor; [|done]. cbn.
  unfold RPL_DAO_RPLTARGET, zlen. cbn [length app]. lia.
Qed.
Lemma pads_wf n : Forall tlv_wf (pads n).
Proof. by apply Forall_replicate. Qed.
Lemma locate_pads optnum base n : locate optnum base (pads n) = [].
Proof. unfold pads. generalize (Z.to_nat (round8 n - n)). intros k. revert base. induction k; intros; cbn; auto. Qed.

(** Where the targets are in the options: one every 20 bytes. *)
Definition target_spots (pms : list prefix_node) : list (Z * Z) :=
  (fun i => (20 * Z.of_nat i, 20)) <$> seq 0 (length pms).

Lemma locate_targets k pms os : Forall (fun pm => length (pm_addr pm) = 16%nat) pms ->
  (forall base, locate RPL_DAO_RPLTARGET base os = []) ->
  locate RPL_DAO_RPLTARGET (20 * Z.of_nat k) (targets pms ++ os) =
    (fun i => (20 * Z.of_nat i, 20)) <$> seq k (length pms).
Proof.
  intros Hp Hos. revert k. induction Hp as [|pm pms Hpm _ IH]; intros k; [apply Hos|].
  change (targets (pm :: pms) ++ os) with (target_opt (pm_addr pm) :: (targets pms ++ os)).
  cbn [length seq fmap list_fmap]. specialize (IH (S k)).
  assert (zlen ([0; 128] ++ pm_addr pm) + 2 = 20) as Hz by (unfold zlen; cbn [length app]; lia).
  unfold target_opt. cbn [locate]. rewrite Z.eqb_refl, Hz. f_equal.
  replace (20 * Z.of_nat k + 20) with (20 * Z.of_nat (S k)) by lia. exact IH.
Qed.

(** The identity of the DAO: the sequence number is the low byte of the
    counter, which has been advanced. *)
Definition dao_of (d : dag_network) : Dao.nd_rpl_dao :=
  {| Dao.rpl_instanceid := u8 (mInstanceid d);
     Dao.rpl_flags := Z.lor RPL_DAO_D_MASK RPL_DAO_K_MASK;
     Dao.rpl_resv := 0; Dao.rpl_daoseq := u8 (mDAOSequence d) |}.
Definition dao_next (d : dag_network) : dag_network :=
  d <| mDAOSequence ::= (fun n => u16 (n + 1)) |>.

Lemma build_dao_image `{PrefixMapSem} d n :
  let pms := pm_values (dag_children d) ++ pm_values (dag_announced d) in
  let len := 24 + 20 * zlen pms in
  dag_sized d -> Forall (fun pm => length (pm_addr pm) = 16%nat) pms ->
  round8 len <= Z.of_nat n -> Z.of_nat n < 4294967296 ->
  build_dao d n = Ok (dao_next d,
    (header ND_RPL_DAO ++ Dao.encode (dao_of (dao_next d)) ++ mDagid d) ++
    enc (targets pms ++ pads len) ++ zeros (n - Z.to_nat (round8 len)), round8 len).
Proof.
  intros pms len (Hl & _) Hpms Hn Hn'. pose proof (zlen_nonneg pms).
  assert (len = 24 + 20 * zlen pms) as Elen by done. clearbody len.
  pose proof (round8_spec len ltac:(lia)) as [Hr _].
  unfold build_dao. rewrite header_filled by lia. cbn [mbind outcome_bind].
  fold (dao_next d). fold (dao_of (dao_next d)). change (mDagid (dao_next d)) with (mDagid d).
  change (dag_children (dao_next d)) with (dag_children d).
  change (dag_announced (dao_next d)) with (dag_announced d).
  assert (length (Dao.encode (dao_of (dao_next d))) = 4%nat) as He by done.
  rewrite wr_filled by (done || lia). cbn [mbind outcome_bind].
  rewrite wr_filled by (done || lia). cbn [mbind outcome_bind].
  set (p := (header ND_RPL_DAO ++ Dao.encode (dao_of (dao_next d))) ++ mDagid d).
  assert (zlen p = 24) as Hp.
  { subst p. unfold zlen. rewrite !length_app, Hl. done. }
  change (icmp6_hdr_size + Dao.size + DAGID_LEN) with 24. rewrite <-Hp.
  subst pms. apply Forall_app in Hpms as [Hc Ha]. rewrite zlen_app in *.
  rewrite append_targets_image; [|done|unfold zlen in *; lia|unfold zlen in *; lia|done].
  cbn [mbind outcome_bind]. pose proof (targets_len _ Hc) as Htc. pose proof (targets_len _ Ha) as Hta.
  rewrite <-Htc, <-zlen_app, append_targets_image;
    [|done|unfold zlen in *; lia|rewrite zlen_app; unfold zlen in *; lia|done].
  cbn [mbind outcome_bind]. rewrite <-Hta, <-zlen_app.
  assert (targets (pm_values (dag_children d) ++ pm_values (dag_announced d)) =
    targets (pm_values (dag_children d)) ++ targets (pm_values (dag_announced d))) as ->
    by apply fmap_app.
  rewrite !enc_app. set (tc := enc (targets (pm_values (dag_children d)))) in *.
  set (ta := enc (targets (pm_values (dag_announced d)))) in *.
  assert (zlen ((p ++ tc) ++ ta) = len) as Hlen.
  { rewrite !zlen_app, Hp, Htc, Hta. lia. }
  rewrite Hlen. rewrite app_assoc, (filled_pads _ _ len); [|done|lia|unfold zlen in *; lia].
  subst p. do 3 f_equal. rewrite <-!app_assoc. do 5 f_equal.
  do 2 f_equal. unfold zlen in *. lia.
Qed.

(** What a builder makes of its DAG. *)
Lemma build_dio_dag d m p d' b l : build_dio d m p = Ok (d', b, l) -> d' = d <| mDTSN ::= (fun k => u16 (k + 1)) |>.
Proof.
  unfold build_dio. intros E. do 2 apply out_bind_inv in E as (? & _ & E).
  apply out_bind_inv in E as ([? ?] & _ & E). apply out_bind_inv in E as ([? ?] & _ & E).
  case_match; by injection E as <- _ _.
Qed.
Lemma build_dao_dag `{PrefixMapSem} d m d' b l : build_dao d m = Ok (d', b, l) -> d' = dao_next d.
Proof.
  unfold build_dao. intros E. do 3 apply out_bind_inv in E as (? & _ & E).
  apply out_bind_inv in E as ([? ?] & _ & E). apply out_bind_inv in E as ([? ?] & _ & E).
  by injection E as <- _ _.
Qed.

End images.

(** * Theorems *)
Section theorems.
Lemma dio_options d bs bits : length bs = 16%nat -> 0 <= bits <= 128 ->
  let os := pio d bs bits :: pads 60 in
  Forall tlv_wf os /\ zlen (enc os) = 36 /\ locate RPL_DIO_DESTPREFIX 0 os = [(0, 32)].
Proof.
  intros Hl Hb os. destruct (build_prefix_dioopt_image d bs bits Hl Hb) as (data & _ & Hpio & Hd & _).
  assert (zlen data = 30) as Hz by (unfold zlen; lia).
  subst os. rewrite Hpio. split_and!.
  - constructor; [|apply pads_wf]. cbn. unfold RPL_DIO_DESTPREFIX. lia.
  - rewrite enc_cons, zlen_app, tlv_enc_len, Hz. unfold pads. by rewrite enc_pads, zlen_zeros.
  - cbn [locate]. rewrite Z.eqb_refl, Hz. by rewrite locate_pads.
Qed.

(** C26: The DIO a DAG builds is read back by the receiver's parser: the base
    object with the DAG's instance, version, rank, mode and DODAG id, and one
    prefix information option that holds the prefix, cut to its length. *)
Theorem build_dio_roundtrip d n bs bits junk :
  dag_sized d -> length bs = 16%nat -> 0 <= bits <= 128 -> (64 <= n)%nat -> length junk = 2048%nat ->
  exists buff m, build_dio d n (subnet6 bs bits) = Ok (d <| mDTSN ::= (fun k => u16 (k + 1)) |>, buff, 64) /\
    Dio.overlay buff icmp6_hdr_size = Ok (dio_of d) /\
    rpl_msg_init junk buff 28 (64 - 4 - Dio.size) = Ok m /\
    search_all scan_fuel m RPL_DIO_DESTPREFIX = Ok [(0, 32)] /\
    rd_range buff 28 32 = Ok (tlv_enc (pio d bs bits)).
Proof.
  intros Hd Hl Hb Hn Hj. pose proof (dio_of_wf d Hd) as Hwf.
  destruct (dio_options d bs bits Hl Hb) as (Hos & Hlen & Hloc).
  set (pre := header ND_RPL_DAG_IO ++ Dio.encode (dio_of d)).
  assert (zlen pre = 28) as Hpre.
  { subst pre. rewrite zlen_app, Dio.encode_len by done. done. }
  destruct (search_all_enc junk pre (pio d bs bits :: pads 60) (zeros (n - 64)) RPL_DIO_DESTPREFIX)
    as (m & Hm & Hs & _); [done..|lia|by compute|].
  rewrite Hpre, Hlen in Hm. rewrite Hloc in Hs.
  exists (pre ++ enc (pio d bs bits :: pads 60) ++ zeros (n - 64)), m.
  split; [by apply build_dio_image|]. split; [|split_and!; [done..|]].
  - subst pre. rewrite <-app_assoc. unfold Dio.overlay.
    change icmp6_hdr_size with (zlen (header ND_RPL_DAG_IO)).
    rewrite overlay_block by by apply Dio.encode_len.
    destruct Hwf as (?&?&?&?&?&?&?&?&?). revert H1. unfold lookup_total.
    cbn -[be16_val u16 u8 mopprf_of]. intros. by rewrite be16_val_be16.
  - rewrite <-Hpre, enc_cons, <-app_assoc.
    replace 32 with (zlen (tlv_enc (pio d bs bits))); [apply rd_range_app|].
    destruct (build_prefix_dioopt_image d bs bits Hl Hb) as (data & _ & -> & Hdt & _).
    rewrite tlv_enc_len. unfold zlen. lia.
Qed.


(** When the message has no room for a target, the target is left out and
    the place for the next one moves one byte back into what was written. *)
Lemma full_dao_steps_back p n pm :
  length (pm_addr pm) = 16%nat -> (n < 20)%nat -> zlen p + Z.of_nat n < 4294967296 ->
  append_targets (filled p n) (zlen p + Z.of_nat n) (zlen p) [pm] = Ok (filled p n, zlen p - 1).
Proof.
  intros Hpm Hn Hb. cbn [append_targets]. unfold build_target_opt. fold (pm_addr pm).
  change (Z.quot (128 + 7) 8) with 16. rewrite rd_range_take by (unfold zlen; lia).
  change (Z.to_nat 16) with 16%nat. rewrite take_ge by lia. cbn [mbind outcome_bind].
  rewrite wr_zeros by (cbn [length app]; lia). cbn [mbind outcome_bind].
  unfold append_optbuff. unfold Opt.target_size. change (16 + 4 - 2) with 18.
  pose proof (zlen_nonneg p).
  rewrite append_full by (rewrite ?u32_small by lia; lia). cbn [mbind outcome_bind]. done.
Qed.

(** A DAO-ACK repeats the instance and the DODAG id of the DAG, sets D, and
    carries the low byte of the sequence number it is given. *)
Lemma daoack_image d n seq_num :
  dag_sized d -> (24 <= n)%nat ->
  exists buff, build_daoack d n seq_num = Ok (buff, 24) /\
    DaoAck.overlay buff icmp6_hdr_size =
      Ok {| DaoAck.rpl_instanceid := u8 (mInstanceid d); DaoAck.rpl_flags := 128;
            DaoAck.rpl_daoseq := u8 seq_num; DaoAck.rpl_status := 0 |} /\
    rd_range buff 8 16 = Ok (mDagid d).
Proof.
  intros (Hl & _) Hn. unfold build_daoack. rewrite header_filled by lia. cbn [mbind outcome_bind].
  set (ack := {| DaoAck.rpl_instanceid := _ |}).
  assert (length (DaoAck.encode ack) = 4%nat) as He by done.
  rewrite wr_filled by (done || lia). cbn [mbind outcome_bind].
  rewrite wr_filled by (done || lia). cbn [mbind outcome_bind].
  eexists. split; [done|]. unfold filled. rewrite <-!app_assoc. split.
  - unfold DaoAck.overlay. change icmp6_hdr_size with (zlen (header ND_RPL_DAO_ACK)).
    by rewrite overlay_block.
  - rewrite (app_assoc (header _)). change 8 with (zlen (header ND_RPL_DAO_ACK ++ DaoAck.encode ack)).
    replace 16 with (zlen (mDagid d)) by (unfold zlen; by rewrite Hl). apply rd_range_app.
Qed.

(** The solicited-information option of a DIS: only the I predicate is set. *)
Definition solicited (d : dag_network) : tlv :=
  Tlv RPL_DIS_SOLICITEDINFO ([u8 (mInstanceid d); RPL_DIS_SI_I] ++ zeros 17).

Lemma build_dis_image d n : (32 <= n)%nat ->
  build_dis d n = Ok ((header ND_RPL_DAG_IS ++ zeros 2) ++ enc (solicited d :: pads 27) ++ zeros (n - 32), 32).
Proof.
  intros Hn. unfold build_dis. rewrite header_filled by lia. cbn [mbind outcome_bind].
  unfold build_info_disopt. rewrite wr_zeros by (cbn; lia). cbn [mbind outcome_bind].
  unfold append_optbuff, append_suboption.
  change (u32 Dis.si_size <? u32 (Dis.si_size - 2 + 2)) with false. cbn [negb].
  change (rd_range _ 0 (Dis.si_size - 2)) with (Ok ([u8 (mInstanceid d); RPL_DIS_SI_I] ++ zeros 17)).
  cbn [mbind outcome_bind].
  assert (filled (header ND_RPL_DAG_IS) (n - 4) = filled (header ND_RPL_DAG_IS ++ zeros 2) (n - 6)) as ->.
  { unfold filled. rewrite <-app_assoc. f_equal. unfold zeros. rewrite <-replicate_add. f_equal. lia. }
  rewrite wr_filled by (done || (cbn [length app zeros replicate]; lia)). cbn [mbind outcome_bind].
  change (Dis.si_size - 2 + 2 <? 0) with false. cbn [negb].
  rewrite (filled_pads _ _ 27); [|done|lia|change (round8 27) with 32; cbn [length app zeros replicate]; lia].
  change (round8 (icmp6_hdr_size + Dis.size + (Dis.si_size - 2 + 2))) with 32.
  match goal with |- context [zeros (n - 6 - ?a - ?b)] =>
    replace (n - 6 - a - b)%nat with (n - 32)%nat
      by (change (Z.to_nat (round8 27 - 27)) with 5%nat; cbn [length app zeros replicate]; lia)
  end.
  by rewrite enc_cons, <-!app_assoc.
Qed.

(** A DIS asks for the DAG's instance: the receiver's parser finds one
    solicited-information option, with only the I predicate set. *)
Lemma build_dis_roundtrip d n junk :
  (32 <= n)%nat -> length junk = 2048%nat ->
  exists buff m, build_dis d n = Ok (buff, 32) /\
    rpl_msg_init junk buff 6 (32 - 4 - Dis.size) = Ok m /\
    search_all scan_fuel m RPL_DIS_SOLICITEDINFO = Ok [(0, 21)] /\
    rd_range buff 6 21 = Ok (tlv_enc (solicited d)).
Proof.
  intros Hn Hj. rewrite build_dis_image by done. set (pre := header ND_RPL_DAG_IS ++ zeros 2).
  set (os := solicited d :: pads 27).
  destruct (search_all_enc junk pre os (zeros (n - 32)) RPL_DIS_SOLICITEDINFO) as (m & Hm & Hs & _);
    [done|repeat constructor; apply pads_wf|by compute|by compute|].
  exists (pre ++ enc os ++ zeros (n - 32)), m. split_and!; [done..|].
  subst os. rewrite enc_cons, <-app_assoc.
  change 6 with (zlen pre). change 21 with (zlen (tlv_enc (solicited d))). apply rd_range_app.
Qed.
End theorems.

(** * Witnesses *)
Lemma example_dag_sized : dag_sized Example.dag.
Proof. split; [done|]. split; [by apply (bool_decide_unpack _); vm_compute|by vm_compute]. Qed.

Lemma build_dio_roundtrip_witness :
  exists buff m, build_dio Example.dag 64 (subnet6 Example.prefix64 60) =
      Ok ((Example.dag <| mDTSN := 258 |>), buff, 64) /\
    search_all scan_fuel m RPL_DIO_DESTPREFIX = Ok [(0, 32)].
Proof.
  destruct (build_dio_roundtrip Example.dag 64 Example.prefix64 60 (zeros 2048))
    as (buff & m & Hb & _ & _ & Hs & _); [apply example_dag_sized|done|lia|lia|by vm_compute|].
  by exists buff, m.
Defined.


Lemma full_dao_steps_back_witness :
  append_targets (filled [1; 2; 3] 19) 22 3 [(Example.announced 9).2] = Ok (filled [1; 2; 3] 19, 2).
Proof. apply (full_dao_steps_back [1; 2; 3] 19 (Example.announced 9).2); [done|lia|done]. Defined.

Lemma build_dis_roundtrip_witness :
  exists buff m, build_dis Example.dag 32 = Ok (buff, 32) /\
    search_all scan_fuel m RPL_DIS_SOLICITEDINFO = Ok [(0, 21)].
Proof.
  destruct (build_dis_roundtrip Example.dag 32 (zeros 2048)) as (buff & m & Hb & _ & Hs & _);
    [lia|by vm_compute|].
  by exists buff, m.
Defined.
