(* ===== verification/Dag.v ===== *)
(** [dag_network]: [lib/libndmgmt/dag.cpp], the parts of [prefix.cpp] that use
    the DAG ([configureip], [add_route_via_node]), and the [send_*] methods of an
    interface, which build a message of a DAG and send it.

    A method is a computation on [ctx].  Peers are nodes of [dag_members]; a
    pointer to one is its address. *)

From Stdlib Require Import ZArith Lia String.
From stdpp Require Import base list gmap numbers strings.
From S2P Require Import Prelude Wire Subopt Event Prefix State Iface Build.
#[local] Open Scope Z_scope.

(** * Sequence numbers *)

(** [seq_too_old]: [seq] is unsigned and [diff] an int. *)
Definition seq_too_old (d : dag_network) (seq : Z) : bool :=
  let low8bit := Z.land (mLastSeq d) 255 in
  let diff := s32 (u32 (seq - low8bit)) in
  if (diff >? 0) && (diff <? 128) then false
  else if (diff <? 0) && (diff >? -128) then true
  else if (low8bit <? 128) && (seq >? 128) && (diff >? 128) then true
  else false.

Definition seq_update (seq : Z) (d : dag_network) : dag_network :=
  let low8bit := Z.land (mLastSeq d) 255 in
  if seq >? low8bit then d <| mLastSeq ::= (fun l => u32 (l + (seq - low8bit))) |>
  else if seq + 256 >? low8bit then d <| mLastSeq ::= (fun l => u32 (l + (seq + 256 - low8bit))) |>
  else d.
Definition last_seq (d : dag_network) : Z := Z.land (mLastSeq d) 255.

Definition dag_rank_infinite (d : dag_network) : bool := mBestRank d >=? RANK_INFINITE.
Definition root_node (d : dag_network) : bool := mMyRank d =? 1.
Definition groundedP (d : dag_network) : bool := mGrounded d.

(** [check_security] always answers true. *)
Definition check_security (d : dag_network) : bool := true.

(** * Plain setters *)
Definition dag_set_prefix (p : ip_subnet) (d : dag_network) : dag_network :=
  d <| mPrefix := subnet6 (ip_bytes (sn_addr p)) (maskbits p) |> <| mPrefixSet := true |>.
Definition set_dagid (id : list Z) (d : dag_network) : dag_network := d <| mDagid := id |>.
Definition set_dagrank (rank : Z) (d : dag_network) : dag_network :=
  d <| mMyRank := rank |> <| mBestRank := rank |>.
Definition set_active (d : dag_network) : dag_network := d <| mActive := true |>.
Definition set_inactive (d : dag_network) : dag_network := d <| mActive := false |>.
Definition set_interval (msec : Z) (d : dag_network) : dag_network := d <| mInterval_msec := u32 msec |>.
Definition set_ignore_pio (ignore : bool) (d : dag_network) : dag_network := d <| mIgnorePio := ignore |>.
Definition set_instanceid (instanceid : Z) (d : dag_network) : dag_network := d <| mInstanceid := u32 instanceid |>.
Definition set_version (version : Z) (d : dag_network) : dag_network := d <| mVersion := u32 version |>.
Definition set_prefixlifetime (lifetime : Z) (d : dag_network) : dag_network := d <| mLifetime := u32 lifetime |>.
Definition set_mode (m : Z) (d : dag_network) : dag_network := d <| mMode := m |>.
Definition set_sequence (seq : Z) (d : dag_network) : dag_network := d <| mDTSN := u16 seq |>.
Definition set_explicit_iid (sn : ip_subnet) (d : dag_network) : dag_network :=
  d <| mIID := sn_addr sn |> <| mIID_is_set := true |>.
Definition set_multicast (d : dag_network) : dag_network :=
  if mMode d =? RPL_DIO_STORING_NO_MULTICAST then d <| mMode := RPL_DIO_STORING_MULTICAST |> else d.
Definition set_nomulticast (d : dag_network) : dag_network :=
  if mMode d =? RPL_DIO_STORING_MULTICAST then d <| mMode := RPL_DIO_STORING_NO_MULTICAST |> else d.

Definition set_interface_filter (i6 : ip_subnet) (d : dag_network) : outcome dag_network :=
  if mIfFilter_max d <? DAG_IFWILDCARD_MAX then
    if mIfFilter_max d <? 0 then Fault OutOfBounds
    else Ok (d <| mIfFilter ::= (fun l => <[Z.to_nat (mIfFilter_max d) := i6]> l) |>
               <| mIfFilter_max ::= (fun n => n + 1) |>)
  else Ok d.

(** [set_interface_wildcard]: [wild] is the string without its final NUL.  The
    NUL is written at [len], which is 32, past the row, for a long string. *)
Definition set_interface_wildcard (wild : list Z) (d : dag_network) : outcome dag_network :=
  if zlen (mIfWildcard d) <? DAG_IFWILDCARD_MAX then
    let len := zlen wild + 1 in
    let len := if len >? DAG_IFWILDCARD_LEN - 1 then DAG_IFWILDCARD_LEN else len in
    src ← rd_range (wild ++ [0]) 0 len;
    row ← wr_range (zeros 32) 0 src;
    row ← wr_range row len [0];
    Ok (d <| mIfWildcard ::= (fun l => l ++ [row]) |>)
  else Ok d.

(** [matchesIfPrefix] *)
Definition matchesIfPrefix (d : dag_network) (v6 : ip_address) : bool :=
  existsb (addrinsubnet v6)
    (take (Z.to_nat (Z.min (mIfFilter_max d) DAG_IFWILDCARD_MAX)) (mIfFilter d)).

(** * The members *)
Definition get_member (d : dag_network) (a : in6_addr) : option rpl_node := dag_members d !! a.
Definition contains_member (d : dag_network) (a : in6_addr) : bool :=
  match get_member d a with Some _ => true | None => false end.

(** [this->dag_members[a]], then an update of the node. *)
Definition with_member (a : in6_addr) (f : rpl_node -> rpl_node) : M ctx rpl_node := fun c =>
  let n := f (node_at (junk_node (shared c)) (dag_members (this c)) a) in
  Ok (n, c <| this ::= (fun d => d <| dag_members ::= <[a := n]> |>) |>).

(** Dereference of a pointer to a member. *)
Definition deref_peer (a : in6_addr) : M ctx rpl_node := fun c =>
  match dag_members (this c) !! a with
  | Some n => Ok (n, c)
  | None => Fault UseAfterFree
  end.

(** [update_node]; [update_parent] and [update_child] call it.  [None] is the
    NULL that says the packet is our own. *)
Definition update_node (i : nat) (from : in6_addr) (now : Z) : M ctx (option in6_addr) :=
  peer ← with_member from id;
  iface ← with_sys (get_iface i);
  if nd_self peer || if_ifaddr iface from then
    idx ← with_sys (get_if_index i);
    with_member from (markself idx) ;;
    dag_count PS_SELF_PACKET_RECEIVED ;;
    mret None
  else
    dn ← dag_get dag_self;
    with_member from (fun n => set_last_seen now (makevalid from (Some dn) n)) ;;
    mret (Some from).

(** * Timers *)
Section dag.
Context `{EventHeap, PrefixMapSem}.

Definition arm_dag_event (e : nat) (ty : event_types) (msec : Z) : M ctx unit :=
  me ← dag_get dag_self;
  with_sys (with_timers (arm_event e ty me msec)).

(** [schedule_dio(msec)] *)
Definition schedule_dio (msec : Z) : M ctx unit :=
  d ← dag_get id;
  if dag_rank_infinite d then mret tt
  else
    e ← (match mSendDioEvent d with
         | Some e => mret e
         | None =>
             e ← with_sys (with_timers (new_event 0 (mInterval_msec d) rpl_send_dio));
             dag_upd (fun d => d <| mSendDioEvent := Some e |>) ;;
             mret e
         end);
    arm_dag_event e rpl_send_dio (u32 (msec + 1)).

Definition schedule_dio_interval : M ctx unit :=
  d ← dag_get id; schedule_dio (mInterval_msec d).

Definition schedule_dao : M ctx unit :=
  s ← with_sys get;
  d ← dag_get id;
  if terminating_soon s then mret tt
  else
    e ← (match mSendDaoEvent d with
         | Some e => mret e
         | None =>
             e ← with_sys (with_timers (new_event 0 (mInterval_msec d) rpl_send_dao));
             dag_upd (fun d => d <| mSendDaoEvent := Some e |>) ;;
             mret e
         end);
    arm_dag_event e rpl_send_dao 2.

(** [clear_event] forgets only the DAO event. *)
Definition clear_event (thisone : option nat) : M ctx unit :=
  dag_upd (fun d =>
    match thisone with
    | None => d <| mSendDaoEvent := None |>
    | Some e => if decide (mSendDaoEvent d = Some e) then d <| mSendDaoEvent := None |> else d
    end).

Definition maybe_send_dao : M ctx unit :=
  d ← dag_get id;
  if dao_needed d && (match dag_bestparent d with Some _ => true | None => false end) then
    when (negb (root_node d)) schedule_dao ;;
    dag_upd (fun d => d <| dao_needed := false |>)
  else mret tt.

Definition maybe_schedule_dio : M ctx unit :=
  d ← dag_get id;
  if decide (dag_lastparent d = dag_parent d) then mret tt
  else schedule_dio 1 ;; dag_upd (fun d => d <| dag_lastparent := dag_parent d |>).

(** * Prefixes and addresses *)

Definition read_me : M ctx ip_address := fun c =>
  match dag_me (this c) with
  | None => Fault NullDeref
  | Some (InAnnounced h) =>
      match pm_get (dag_announced (this c)) h with
      | Some p => Ok (sn_addr (mPrefix_ p), c) | None => Fault UseAfterFree end
  | Some (InPrefixes h) =>
      match pm_get (dag_prefixes (this c)) h with
      | Some p => Ok (sn_addr (mPrefix_ p), c) | None => Fault UseAfterFree end
  | Some (External p) => Ok (sn_addr (mPrefix_ p), c)
  end.

Definition deref_announcer (a : announcer) : M ctx rpl_node :=
  match a with
  | NoPeer => fail NullDeref
  | Member x => deref_peer x
  | Outside n => mret n
  | Expired => fail UseAfterFree
  end.

(** [add_route_via_node] on the node [h] of [dag_children]. *)
Definition add_route_via_node (h : nat) (i : nat) : M ctx unit :=
  children ← dag_get dag_children;
  match pm_get children h with
  | None => fail UseAfterFree
  | Some pre =>
      if installed pre then mret tt
      else
        src ← read_me;
        peer ← deref_announcer (announced_from pre);
        with_sys (add_route_to_node i (mPrefix_ pre) peer src) ;;
        dag_upd (fun d => d <| dag_children ::= pm_upd h (fun p => p <| installed := true |>) |>)
  end.

Definition add_childnode_of (announcing_peer : announcer) (i : nat) (prefix : ip_subnet) : M ctx unit :=
  s ← with_sys get;
  d ← dag_get id;
  let '(h, m) := pm_index (junk_prefix s) prefix (dag_children d) in
  dag_upd (fun d => d <| dag_children := m |>) ;;
  match pm_get m h with
  | None => fail UseAfterFree
  | Some pre =>
      if installed pre then mret tt
      else
        dag_upd (fun d => d <| dao_needed := true |>
          <| dag_children ::= pm_upd h (fun p =>
               set_dn (Some (dag_self d)) (set_announcer announcing_peer (set_prefix prefix p))) |>) ;;
        add_route_via_node h i ;;
        dag_upd (fun d => d <| dao_needed := true |>)
  end.
(** The peer a handler has is a member of the DAG. *)
Definition add_childnode (announcing_peer : in6_addr) (i : nat) (prefix : ip_subnet) : M ctx unit :=
  add_childnode_of (Member announcing_peer) i prefix.

(** [add_address(ip_subnet)]: the node of [dag_announced], marked as not installed. *)
Definition add_address (prefix : ip_subnet) : M ctx nat :=
  s ← with_sys get;
  d ← dag_get id;
  let '(h, m) := pm_index (junk_prefix s) prefix (dag_announced d) in
  dag_upd (fun d => d <| dag_announced := pm_upd h (set_prefix prefix) m |>) ;;
  mret h.

(** [add_address(ip_address)]: the call of [initsubnet] passes 0 for its
    character, so the mask of the key is what the stack held. *)
Definition add_address_ip (addr : ip_address) : M ctx nat :=
  s ← with_sys get;
  let '(_, vs) := initsubnet addr 128 0 {| sn_addr := addr; maskbits := junk_maskbits s |} in
  add_address vs.

(** Which of the DAG's maps a [prefix_node] is in. *)
Inductive pm_sel := Announced | Prefixes.
Definition sel_get (w : pm_sel) (d : dag_network) : prefix_map :=
  match w with Announced => dag_announced d | Prefixes => dag_prefixes d end.
Definition sel_upd (w : pm_sel) (f : prefix_map -> prefix_map) (d : dag_network) : dag_network :=
  match w with
  | Announced => d <| dag_announced ::= f |>
  | Prefixes => d <| dag_prefixes ::= f |>
  end.
Definition sel_ref (w : pm_sel) (h : nat) : me_ref :=
  match w with Announced => InAnnounced h | Prefixes => InPrefixes h end.

Definition read_pm (w : pm_sel) (h : nat) : M ctx prefix_node := fun c =>
  match pm_get (sel_get w (this c)) h with Some p => Ok (p, c) | None => Fault UseAfterFree end.
Definition upd_pm (w : pm_sel) (h : nat) (f : prefix_node -> prefix_node) : M ctx unit :=
  dag_upd (sel_upd w (pm_upd h f)).

(** [configureip] on the node [h] of the map [w]. *)
Definition configureip (w : pm_sel) (h : nat) (i : nat) : M ctx unit :=
  d ← dag_get id;
  if mIgnorePio d then mret tt
  else
    p ← read_pm w h;
    if installed p then mret tt
    else
      link ← (if mIID_is_set d then mret (ip_bytes (mIID d))
              else
                n ← with_sys (get_iface i);
                let '(n', ll) := link_local n in
                with_sys (upd_iface i (fun _ => n')) ;; mret ll);
      let link :=
        match myDeviceIdentity d with
        | Some sn => ip_bytes (sn_addr sn)
        | None => take 8 (ip_bytes (sn_addr (mPrefix d))) ++ drop 8 link
        end in
      upd_pm w h (set_prefix (subnet6 link 128)) ;;
      p ← read_pm w h;
      ok ← with_sys (addprefix i p);
      when ok (upd_pm w h (fun p => p <| installed := true |>)).

(** [cfg_new_node(me, iface, prefix)]; [iface] may be NULL. *)
Definition cfg_new_node (w : pm_sel) (h : nat) (iface : option nat) (prefix : ip_subnet) : M ctx unit :=
  me ← read_pm w h;
  if installed me then mret tt
  else
    dag_upd (fun d => d <| dao_needed := true |>) ;;
    upd_pm w h (set_prefix prefix) ;;
    (match iface with Some i => configureip w h i | None => mret tt end) ;;
    dag_upd (fun d => match dag_me d with
                      | None => d <| dag_me := Some (sel_ref w h) |>
                      | Some _ => d
                      end).

Definition set_acp_identity (sn : ip_subnet) : M ctx unit :=
  dag_upd (fun d => d <| myDeviceIdentity := Some sn |>) ;;
  me ← add_address sn;
  cfg_new_node Announced me None sn.

Definition add_prefix (i : nat) (prefix : ip_subnet) : M ctx unit :=
  s ← with_sys get;
  d ← dag_get id;
  let '(h, m) := pm_index (junk_prefix s) prefix (dag_prefixes d) in
  dag_upd (fun d => d <| dag_prefixes := m |>) ;;
  pre ← read_pm Prefixes h;
  (if installed pre then mret tt
   else
     dag_upd (dag_set_prefix prefix) ;;
     upd_pm Prefixes h (fun p => set_announcer Expired (set_installed true (set_prefix prefix p))) ;;
     dag_upd (fun d => d <| dao_needed := true |>) ;;
     maybe_schedule_dio) ;;
  d ← dag_get id;
  if mIgnorePio d then mret tt
  else
    me ← add_address prefix;
    upd_pm Announced me (set_announcer Expired) ;;
    cfg_new_node Announced me (Some i) prefix.

Definition addselfprefix (i : nat) : M ctx unit :=
  n ← with_sys (get_iface i);
  dn ← dag_get dag_self;
  with_member (if_addr n) (makevalid (if_addr n) (Some dn)) ;;
  idx ← with_sys (get_if_index i);
  with_member (if_addr n) (markself idx) ;;
  s ← with_sys get;
  d ← dag_get id;
  let '(h, m) := pm_index (junk_prefix s) (mPrefix d) (dag_prefixes d) in
  dag_upd (fun d => d <| dag_prefixes := m |>) ;;
  pre ← read_pm Prefixes h;
  if installed pre then mret tt
  else
    dag_upd (fun d => d <| dao_needed := true |>) ;;
    upd_pm Prefixes h (fun p => set_announcer (Member (if_addr n)) (set_prefix (mPrefix d) p)) ;;
    configureip Prefixes h i ;;
    dag_upd (fun d => match dag_me d with
                      | None => d <| dag_me := Some (InPrefixes h) |>
                      | Some _ => d
                      end).

Definition add_all_interfaces : M ctx unit :=
  s ← with_sys get;
  foreach_list (fun i => addselfprefix i ;; mret 1) (-1) (all_if s) ;; mret tt.

Definition set_grounded (grounded : bool) : M ctx unit :=
  if grounded then
    dag_upd (fun d => d <| mGrounded := true |>) ;;
    s ← with_sys get;
    d ← dag_get id;
    match loopback_interface s with
    | Some _ => when (mPrefixSet d) (with_sys (add_null_route_to_prefix (mPrefix d)) ;; mret tt)
    | None => mret tt
    end
  else dag_upd (fun d => d <| mGrounded := false |>).

(** * Sending *)
Definition icmp_body_size : nat := 2048.

(** [network_interface::send_dio] *)
Definition send_dio (i : nat) : M ctx unit :=
  d ← dag_get id;
  '(d, buff, len) ← lift (build_dio d icmp_body_size (mPrefix d));
  dag_upd (fun _ => d) ;;
  when (len >? 0) (body ← lift (rd_range buff 0 len); with_sys (send_raw_icmp i None None body)).

Definition send_dis (i : nat) : M ctx unit :=
  d ← dag_get id;
  '(buff, len) ← lift (build_dis d icmp_body_size);
  when (len >? 0) (body ← lift (rd_range buff 0 len); with_sys (send_raw_icmp i None None body)).

(** [network_interface::send_dao]; [icmp_len] is unsigned. *)
Definition iface_send_dao (i : nat) (parent : in6_addr) : M ctx unit :=
  d ← dag_get id;
  '(d, buff, len) ← lift (build_dao d icmp_body_size);
  dag_upd (fun _ => d) ;;
  p ← deref_peer parent;
  body ← lift (rd_range buff 0 (u32 len));
  with_sys (send_raw_icmp i (Some (node_number p)) None body).

Definition send_daoack (i : nat) (child : in6_addr) (seq_num : Z) : M ctx unit :=
  d ← dag_get id;
  '(buff, len) ← lift (build_daoack d icmp_body_size seq_num);
  p ← deref_peer child;
  body ← lift (rd_range buff 0 (u32 len));
  with_sys (send_raw_icmp i (Some (node_number p)) None body).

(** [dag_network::send_dao] *)
Definition send_dao : M ctx unit :=
  d ← dag_get id;
  match dag_bestparent d, dag_bestparentif d with
  | Some parent, Some i => iface_send_dao i parent
  | _, _ => mret tt
  end.

(** * Parents *)
Definition commit_parent : M ctx unit :=
  d ← dag_get id;
  if decide (dag_bestparentif d = dag_parentif d /\ dag_bestparent d = dag_parent d) then mret tt
  else
    dag_upd (fun d => d <| dag_lastparent := dag_parent d |>
                        <| dag_parentif := dag_bestparentif d |>
                        <| dag_parent := dag_bestparent d |>) ;;
    (match dag_bestparentif d, dag_bestparent d with
     | Some i, Some a =>
         src ← (if pm_size (dag_announced d) >? 0 then
                  match pm_values (dag_announced d) with
                  | p :: _ => mret (Some (sn_addr (mPrefix_ p)))
                  | [] => fail UseAfterFree
                  end
                else mret None);
         parent ← deref_peer a;
         with_sys (add_parent_route_to_prefix i (mPrefix d) src parent) ;;
         when (groundedP d) (with_sys (add_parent_route_to_default i src parent) ;; mret tt)
     | _, _ => fail NullDeref
     end) ;;
    maybe_schedule_dio.

(** * Receiving *)

(** [memcpy(v6bytes, option->prefix, prefixbytes)] into 16 cleared bytes. *)
Definition v6bytes_of (mb : list Z) (off prefixlen : Z) : outcome in6_addr :=
  bs ← rd_range mb off ((prefixlen + 7) / 8);
  wr_range (zeros 16) 0 bs.

(** The two loops over the options; each turn of one finds an option further
    on, so [scan_fuel] turns are enough. *)
Fixpoint pio_loop (fuel : nat) (i : nat) (m : rpl_msg) : M ctx unit :=
  match fuel with
  | O => fail OutOfFuel
  | S fuel' =>
      '(m, r, underrun) ← lift (destprefix m);
      when underrun (dag_count PS_SUBOPTION_UNDERRUN) ;;
      match r with
      | None => mret tt
      | Some dp =>
          prefixlen ← lift (rd (mBytes m) (dp + 2));
          v6 ← lift (v6bytes_of (mBytes m) (dp + 16) prefixlen);
          add_prefix i (subnet6 v6 prefixlen) ;;
          pio_loop fuel' i m
      end
  end.

Definition potentially_lower_rank (peer : in6_addr) (i : nat) (dio : Dio.nd_rpl_dio) (m : outcome rpl_msg)
  : M ctx unit :=
  let rank := Dio.rpl_dagrank dio in
  d ← dag_get id;
  dag_count PS_LOWER_RANK_CONSIDERED ;;
  if rank >? mBestRank d then dag_count PS_LOWER_RANK_REJECTED
  else if bool_decide (dag_bestparent d = Some peer) || bool_decide (dag_parent d = Some peer)
  then dag_count PS_SAME_PARENT_IGNORED
  else if negb (mDTSN d =? INVALID_SEQUENCE) && (mDTSN d >=? Dio.rpl_dtsn dio)
  then dag_count PS_SAME_SEQUENCE_IGNORED
  else
    dag_upd (fun d => d
      <| mDTSN := Dio.rpl_dtsn dio |>
      <| mBestRank := rank |>
      <| mMyRank := rank + 1 |>
      <| mGrounded := negb (RPL_DIO_GROUNDED (Dio.rpl_mopprf dio) =? 0) |>
      <| mInstanceid := Dio.rpl_instanceid dio |>
      <| mVersion := Dio.rpl_version dio |>
      <| mMode := RPL_DIO_MOP (Dio.rpl_mopprf dio) |>
      <| mDagid := Dio.rpl_dagid dio |>
      <| dag_bestparentif := Some i |>
      <| dag_bestparent := Some peer |>) ;;
    m ← lift m;
    pio_loop scan_fuel i m ;;
    d ← dag_get id;
    (match dag_parent d with Some _ => maybe_schedule_dio | None => mret tt end) ;;
    maybe_send_dao.

(** [receive_dio] of the DAG.  [dat] is the packet from the DIO base object on;
    the caller has checked that the object is all there. *)
Definition dag_receive_dio (i : nat) (from : in6_addr) (now : Z) (dat : list Z) (dio_len : Z) : M ctx unit :=
  dio ← lift (Dio.overlay dat 0);
  dag_count PS_PACKET_RECEIVED ;;
  dag_count PS_DIO_PACKET_RECEIVED ;;
  d ← dag_get id;
  if seq_too_old d (Dio.rpl_dtsn dio) && negb (Dio.rpl_dtsn dio =? 0)
     && negb (stat PS_DIO_PACKET_RECEIVED (mStats d) =? 1)
  then dag_count PS_SEQ_OLD
  else
    peer ← update_node i from now;
    match peer with
    | None => mret tt
    | Some peer =>
        dag_upd (seq_update (Dio.rpl_dtsn dio)) ;;
        d ← dag_get id;
        if negb (mActive d) then dag_count PS_PACKETS_WATCHED
        else
          s ← with_sys get;
          potentially_lower_rank peer i dio
            (rpl_msg_init (junk_bytes s) dat Dio.size (dio_len - Dio.size)) ;;
          dag_count PS_PACKET_PROCESSED
    end.

(** [receive_dis] of the DAG. *)
Definition dag_receive_dis : M ctx unit :=
  dag_count PS_PACKET_RECEIVED ;;
  dag_count PS_DIS_PACKET_RECEIVED ;;
  schedule_dio 1.

Fixpoint target_loop (fuel : nat) (peer : in6_addr) (i : nat) (m : rpl_msg) : M ctx unit :=
  match fuel with
  | O => fail OutOfFuel
  | S fuel' =>
      '(m, r) ← lift (rpltarget m);
      match r with
      | None => mret tt
      | Some t =>
          prefixlen ← lift (rd (mBytes m) (t + 3));
          v6 ← lift (v6bytes_of (mBytes m) (t + 4) prefixlen);
          add_childnode peer i (subnet6 v6 prefixlen) ;;
          target_loop fuel' peer i m
      end
  end.

(** [receive_dao] of the DAG: [data_off] and [data_len] give the options of the
    packet [dat]. *)
Definition dag_receive_dao (i : nat) (from : in6_addr) (now : Z) (dao : Dao.nd_rpl_dao)
    (dat : list Z) (data_off data_len : Z) : M ctx unit :=
  dag_count PS_PACKET_RECEIVED ;;
  dag_count PS_DAO_PACKET_RECEIVED ;;
  peer ← update_node i from now;
  match peer with
  | None => mret tt
  | Some peer =>
      d ← dag_get id;
      if negb (mActive d) then dag_count PS_PACKETS_WATCHED
      else
        s ← with_sys get;
        m ← lift (rpl_msg_init (junk_bytes s) dat data_off data_len);
        target_loop scan_fuel peer i m ;;
        maybe_send_dao ;;
        when (negb (RPL_DAO_K (Dao.rpl_flags dao) =? 0)) (send_daoack i peer (Dao.rpl_daoseq dao)) ;;
        dag_count PS_PACKET_PROCESSED
  end.

(** [receive_daoack] of the DAG; [rpl_daoseq] is 8 bits and the counter 16. *)
Definition dag_receive_daoack (from : in6_addr) (daoack : DaoAck.nd_rpl_daoack) : M ctx unit :=
  d ← dag_get id;
  match dag_bestparent d with
  | None => dag_count PS_DAOACK_WRONG_PARENT
  | Some a =>
      parent ← deref_peer a;
      if negb (is_equal parent from) then dag_count PS_DAOACK_WRONG_PARENT
      else if negb (DaoAck.rpl_daoseq daoack =? mDAOSequence d)
      then dag_count PS_DAOACK_WRONG_SEQNO
      else commit_parent
  end.
End dag.
