(* ===== verification/Filters.v ===== *)
(** The filters an operator gives a DAG as text: [set_interface_filter] on a
    string of [lib/libndmgmt/dag.cpp], and which addresses pass the filter. *)

From Stdlib Require Import ZArith Lia.
From stdpp Require Import base list numbers.
From S2P Require Import Prelude Wire Subopt Event Prefix Text State Iface Build Dag.
#[local] Open Scope Z_scope.

Section filters.
Context (gethostbyname2 : list Z -> Z -> option (Z * list Z)) (getnetbyname : list Z -> option (Z * Z)).

(** The subnet on the stack held [junk], and the error of [ttosubnet] is ignored. *)
Definition set_interface_filter_text (filter : list Z) (junk : ip_subnet) (junk_addr : ip_address)
  (d : dag_network) : outcome dag_network :=
  set_interface_filter
    (match ttosubnet gethostbyname2 getnetbyname filter 0 AF_INET6 junk_addr with
     | Good (i6, _) => i6
     | Oops _ => junk
     end) d.

Lemma filter_added s d : 0 <= mIfFilter_max d < DAG_IFWILDCARD_MAX ->
  length (mIfFilter d) = Z.to_nat DAG_IFWILDCARD_MAX ->
  exists d', set_interface_filter s d = Ok d' /\ 
    mIfFilter_max d' = mIfFilter_max d + 1 /\ length (mIfFilter d') = length (mIfFilter d) /\
    forall a, matchesIfPrefix d' a = matchesIfPrefix d a || addrinsubnet a s.
Proof.
  intros Hmax Hlen. unfold set_interface_filter, DAG_IFWILDCARD_MAX in *.
  rewrite (proj2 (Z.ltb_lt _ 8)), (proj2 (Z.ltb_ge _ 0)) by lia.
  eexists. split; [done|]. split_and!; [done | cbn; by rewrite length_insert | intros a].
  unfold matchesIfPrefix, DAG_IFWILDCARD_MAX.
  change (mIfFilter_max (_ <| mIfFilter_max ::= _ |>)) with (mIfFilter_max d + 1).
  change (mIfFilter (_ <| mIfFilter_max ::= _ |>)) with (<[Z.to_nat (mIfFilter_max d) := s]> (mIfFilter d)).
  set (k := Z.to_nat (mIfFilter_max d)) in *.
  replace (Z.to_nat (Z.min (mIfFilter_max d + 1) 8)) with (S k) by lia.
  replace (Z.to_nat (Z.min (mIfFilter_max d) 8)) with k by lia.
  rewrite (take_S_r _ _ s) by (apply list_lookup_insert_eq; lia).
  rewrite take_insert_ge, existsb_app by lia. cbn [existsb]. by rewrite orb_false_r.
Qed.

End filters.

Definition example_filters : dag_network :=
  Example.dag <| mIfFilter := replicate 8 (subnet6 in6addr_any 128) |> <| mIfFilter_max := 0 |>.

