(* ===== verification/DagFacts.v ===== *)
(** Theorems about [dag_network]: sequence numbers, the choice of the parent and
    the rank, the timers, the routes, and what the handlers of the four messages
    do on each of their branches. *)

From Stdlib Require Import ZArith Lia String.
From stdpp Require Import base list gmap numbers strings.
From S2P Require Import Prelude Wire Subopt Event Prefix State Iface Build Dag.
#[local] Open Scope Z_scope.

(** * Sequence numbers *)
Section seq.
Lemma low8_range x : 0 <= Z.land x 255 < 256.
Proof. change 255 with (Z.ones 8). rewrite Z.land_ones by lia. apply Z.mod_pos_bound. lia. Qed.
Lemma land_255 x : Z.land x 255 = x mod 256.
Proof. change 255 with (Z.ones 8). by rewrite Z.land_ones by lia. Qed.

(** For the 8-bit number of a DIO, "too old" is serial-number arithmetic:
    behind the last one by less than half of the circle. *)
Lemma seq_too_old_spec d seq : 0 <= seq < 256 ->
  seq_too_old d seq = ((seq - last_seq d) mod 256 >? 128).
Proof.
  intros Hs. unfold seq_too_old, last_seq. pose proof (low8_range (mLastSeq d)).
  set (low := Z.land (mLastSeq d) 255) in *.
  rewrite s32_u32 by lia. cbv zeta.
  assert ((seq - low) mod 256 = if seq <? low then seq - low + 256 else seq - low) as ->.
  { case_bool; zbool; Z.to_euclidean_division_equations; lia. }
  destruct (Z.ltb_spec seq low); repeat (case_bool; zbool); symmetry;
    rewrite ?Z.gtb_lt, ?Z.gtb_ltb, ?Z.ltb_ge; try lia; intuition lia.
Qed.

Lemma seq_too_old_spec_witness :
  let d := Example.dag <| mLastSeq := 517 |> in
  seq_too_old d 250 = true /\ seq_too_old d 250 = ((250 - last_seq d) mod 256 >? 128).
Proof.
  split; [reflexivity|]. apply (seq_too_old_spec (Example.dag <| mLastSeq := 517 |>) 250). lia.
Defined.

(** After an update the number just seen is the last one, it is not too
    old, and the 32-bit counter has advanced by 1 to 256: a number equal to the
    last one counts as a whole turn. *)
Lemma seq_update_spec d seq : 0 <= seq < 256 -> 0 <= mLastSeq d < 4294967296 ->
  let d' := seq_update seq d in
  last_seq d' = seq /\ seq_too_old d' seq = false /\
  mLastSeq d' = u32 (mLastSeq d + ((seq - last_seq d - 1) mod 256 + 1)).
Proof.
  intros Hs Hl d'. assert (mLastSeq d' = u32 (mLastSeq d + ((seq - last_seq d - 1) mod 256 + 1))) as HL.
  { subst d'. unfold seq_update, last_seq. rewrite land_255.
    pose proof (Z.mod_pos_bound (mLastSeq d) 256). set (low := mLastSeq d mod 256) in *.
    destruct (Z.gtb_spec seq low).
    - cbn. f_equal. Z.to_euclidean_division_equations; lia.
    - rewrite gtb_true by lia. cbn. f_equal. Z.to_euclidean_division_equations; lia. }
  assert (last_seq d' = seq) as Hlast.
  { unfold last_seq in *. rewrite land_255 in *. rewrite HL.
    unfold u32. Z.to_euclidean_division_equations; lia. }
  split_and!; [done| |done].
  unfold seq_too_old. unfold last_seq in Hlast. rewrite Hlast, Z.sub_diag. cbn.
  by destruct (_ && _ && _) eqn:E; zbool; [lia|].
Qed.

Lemma seq_update_spec_witness :
  let d := Example.dag <| mLastSeq := 517 |> in
  last_seq (seq_update 2 d) = 2 /\ seq_too_old (seq_update 2 d) 2 = false /\
  mLastSeq (seq_update 2 d) = 770.
Proof.
  destruct (seq_update_spec (Example.dag <| mLastSeq := 517 |>) 2) as (H1 & H2 & H3); [cbn; lia..|].
  split; [done|]. split; [done|]. by rewrite H3.
Defined.
End seq.

(** * What the methods leave alone *)
Definition same {T} (f : dag_network -> T) (c c' : ctx) : Prop := f (this c') = f (this c).
#[global] Instance same_preorder {T} (f : dag_network -> T) : PreOrder (same f).
Proof. split; [by intros c|]. intros a b c ? ?. unfold same in *. congruence. Qed.

Section same.
Context {T : Type} (f : dag_network -> T).
Lemma same_with_sys {A} (m : M sys A) : keeps (same f) (with_sys m).
Proof. intros c a c'. unfold with_sys, zoom. destruct (m _) as [[]|]; [|done]. by intros [= _ <-]. Qed.
Lemma same_dag_get {A} (g : dag_network -> A) : keeps (same f) (dag_get g).
Proof. intros c a c' [= _ <-]. done. Qed.
Lemma same_dag_upd g : (forall d, f (g d) = f d) -> keeps (same f) (dag_upd g).
Proof. intros Hg c a c' [= _ <-]. apply Hg. Qed.
Lemma same_deref a : keeps (same f) (deref_peer a).
Proof. intros c n c'. unfold deref_peer. case_match; [|done]. by intros [= _ <-]. Qed.
End same.
#[export] Hint Resolve same_with_sys same_dag_get same_deref : keep.

(** A message that is built from the DAG, or a change of it that can go wrong. *)
Lemma keeps_build (R : ctx -> ctx -> Prop) `{!PreOrder R} {A B} (build : dag_network -> outcome (dag_network * A * B)) {C}
    (k : A -> B -> M ctx C) :
  (forall c d' a b, build (this c) = Ok (d', a, b) -> R c (c <| this := d' |>)) -> (forall a b, keeps R (k a b)) ->
  keeps R (d ← dag_get id; '(d', a, b) ← lift (build d); dag_upd (fun _ => d') ;; k a b).
Proof.
  intros Hb Hk c r c' E. unfold mbind, M_bind, dag_get, gets, lift, id in E.
  destruct (build (this c)) as [[[d' a] b]|] eqn:Eb; [|done].
  transitivity (c <| this := d' |>); [by apply (Hb c d' a b)|exact (Hk a b _ _ _ E)].
Qed.
#[export] Hint Extern 2 (keeps (same _) (dag_upd _)) =>
  (apply same_dag_upd; intros []; try reflexivity; (repeat case_match); reflexivity) : keep.

Section frames.
Context `{EventHeap, PrefixMapSem}.

(** The fields that say who we are and whom we follow; handling a prefix does
    not change them. *)
Definition core (d : dag_network) :=
  (dag_self d, mDagid d, mActive d, mLastSeq d, mMyRank d, mBestRank d,
   (dag_parent d, dag_parentif d, dag_bestparent d, dag_bestparentif d),
   (mMode d, mDTSN d, mDAOSequence d, mInstanceid d, mVersion d, mGrounded d),
   dag_members d, dag_children d).

Lemma core_dag_count x : keeps (same core) (dag_count x).
Proof. unfold dag_count. keep. Qed.
Hint Resolve core_dag_count : keep.
Lemma core_schedule_dio ms : keeps (same core) (schedule_dio ms).
Proof. unfold schedule_dio, arm_dag_event. keep. Qed.
Lemma core_schedule_dao : keeps (same core) schedule_dao.
Proof. unfold schedule_dao, arm_dag_event. keep. Qed.
Hint Resolve core_schedule_dio core_schedule_dao : keep.
Lemma core_maybe_send_dao : keeps (same core) maybe_send_dao.
Proof. unfold maybe_send_dao. keep. Qed.
Lemma core_maybe_schedule_dio : keeps (same core) maybe_schedule_dio.
Proof. unfold maybe_schedule_dio. keep. Qed.
Hint Resolve core_maybe_send_dao core_maybe_schedule_dio : keep.


(** The maps of prefixes; the timers do not touch them. *)
Definition maps (d : dag_network) := (dag_announced d, dag_prefixes d, dag_me d, dag_self d).
Lemma maps_schedule_dio ms : keeps (same maps) (schedule_dio ms).
Proof. unfold schedule_dio, arm_dag_event. keep. Qed.
Hint Resolve maps_schedule_dio : keep.
Lemma maps_maybe_schedule_dio : keeps (same maps) maybe_schedule_dio.
Proof. unfold maybe_schedule_dio. keep. Qed.

Lemma core_read_pm w h : keeps (same core) (read_pm w h).
Proof. intros c a c'. unfold read_pm. case_match; [|done]. by intros [= _ <-]. Qed.
Lemma core_upd_pm w h f : keeps (same core) (upd_pm w h f).
Proof. unfold upd_pm. apply same_dag_upd. intros []. by destruct w. Qed.
Hint Resolve core_read_pm core_upd_pm : keep.
Lemma core_configureip w h i : keeps (same core) (configureip w h i).
Proof. unfold configureip. keep. Qed.
Hint Resolve core_configureip : keep.
Lemma core_cfg_new_node w h i p : keeps (same core) (cfg_new_node w h i p).
Proof. unfold cfg_new_node. keep. Qed.
Lemma core_add_address p : keeps (same core) (add_address p).
Proof. unfold add_address. keep. Qed.
Hint Resolve core_cfg_new_node core_add_address : keep.
Lemma core_add_prefix i p : keeps (same core) (add_prefix i p).
Proof. unfold add_prefix. keep. Qed.
Hint Resolve core_add_prefix : keep.
Lemma core_pio_loop fuel i m : keeps (same core) (pio_loop fuel i m).
Proof. revert m. induction fuel; intros m; cbn [pio_loop]; keep. Qed.
End frames.

(** * The loops over the options are loops over what the options say

    A prefix information option and a target, decoded. *)
Definition cut_prefix (bs : list Z) (prefixlen : Z) : ip_subnet :=
  let n := Z.to_nat ((prefixlen + 7) / 8) in
  subnet6 (take n bs ++ zeros (16 - n)) prefixlen.
Definition pio_ok (data : list Z) : Prop := 30 <= zlen data /\ 0 <= data !!! 0%nat <= 128.
Definition pio_subnet (data : list Z) : ip_subnet := cut_prefix (drop 14 data) (data !!! 0%nat).
Definition target_ok (data : list Z) : Prop :=
  2 <= zlen data /\ 0 <= data !!! 1%nat <= 128 /\ (data !!! 1%nat + 7) / 8 + 2 <= zlen data.
Definition target_subnet (data : list Z) : ip_subnet := cut_prefix (drop 2 data) (data !!! 1%nat).

Section loops.
Context `{EventHeap, PrefixMapSem}.

Lemma v6bytes_of_mid p bs q k len :
  0 <= k -> 0 <= len <= 128 -> k + (len + 7) / 8 <= zlen bs ->
  v6bytes_of (p ++ bs ++ q) (zlen p + k) len =
    Ok (ip_bytes (sn_addr (cut_prefix (drop (Z.to_nat k) bs) len))).
Proof.
  intros Hk Hl Hb. unfold v6bytes_of.
  assert (0 <= (len + 7) / 8 <= 16) by (Z.to_euclidean_division_equations; lia).
  rewrite rd_range_mid by lia. cbn [mbind outcome_bind].
  assert (length (take (Z.to_nat ((len + 7) / 8)) (drop (Z.to_nat k) bs)) = Z.to_nat ((len + 7) / 8)) as Ht
    by (rewrite length_take_le; [done|rewrite length_drop; unfold zlen in *; lia]).
  rewrite wr_zeros by lia. unfold filled. by rewrite Ht.
Qed.

(** More than 128 bits do not fit the 16 bytes on the stack. *)
Lemma v6bytes_of_overflow mb off len :
  128 < len -> 0 <= off -> off + (len + 7) / 8 <= zlen mb -> v6bytes_of mb off len = Fault OutOfBounds.
Proof.
  intros Hl Ho Hb. assert (17 <= (len + 7) / 8) by (Z.to_euclidean_division_equations; lia).
  unfold v6bytes_of, rd_range. rewrite !(proj2 (Z.leb_le _ _)) by lia. cbn [andb mbind outcome_bind].
  unfold wr_range. rewrite zlen_zeros. unfold zlen at 1. rewrite length_take_le; cycle 1.
  { rewrite length_drop. unfold zlen in *. lia. }
  cbn [Z.leb Z.compare andb]. by rewrite (proj2 (Z.leb_gt _ _)) by lia.
Qed.

Lemma pio_loop_refines i fuel : forall m os1 os2 c,
  searching m RPL_DIO_DESTPREFIX os1 os2 -> Forall pio_ok (select RPL_DIO_DESTPREFIX os2) ->
  (length (select RPL_DIO_DESTPREFIX os2) < fuel)%nat ->
  pio_loop fuel i m c = for_each (pio_subnet <$> select RPL_DIO_DESTPREFIX os2) (add_prefix i) c.
Proof.
  induction fuel as [|fuel IH]; intros m os1 os2 c Hs Hok Hf; [lia|].
  cbn [pio_loop]. unfold destprefix.
  destruct (search_next m RPL_DIO_DESTPREFIX os1 os2 ltac:(by compute) Hs)
    as [(Hnil & m' & Hrun)|(pre & data & post & m' & -> & Hpre & Hrun & Hs' & Hmb & [q Hq])].
  { unfold lift, mbind, M_bind. rewrite Hrun, Hnil. done. }
  assert (select RPL_DIO_DESTPREFIX (pre ++ Tlv RPL_DIO_DESTPREFIX data :: post) =
    data :: select RPL_DIO_DESTPREFIX post) as Hsel.
  { unfold select. rewrite omap_app. fold (select RPL_DIO_DESTPREFIX pre). by rewrite Hpre. }
  rewrite Hsel in *. apply Forall_cons_1 in Hok as [[Hlen Hp] Hok].
  rewrite (bind_ok _ _ c (m', Some (zlen (enc (os1 ++ pre))), false) c); cycle 1.
  { unfold lift. rewrite Hrun. cbn [mbind outcome_bind]. unfold Opt.destprefix_size.
    by rewrite (proj2 (Z.ltb_ge _ _)) by lia. }
  cbn beta iota. rewrite (bind_ok _ _ c tt c) by done.
  rewrite (bind_ok _ _ c (data !!! 0%nat) c); cycle 1.
  { unfold lift. by rewrite Hmb, Hq, rd_mid by (rewrite !zlen_cons; lia). }
  rewrite (bind_ok _ _ c (ip_bytes (sn_addr (pio_subnet data))) c); cycle 1.
  { unfold lift. rewrite Hmb, Hq, v6bytes_of_mid; [done|lia|lia|].
    rewrite !zlen_cons. Z.to_euclidean_division_equations; lia. }
  change (subnet6 (ip_bytes (sn_addr (pio_subnet data))) (data !!! 0%nat)) with (pio_subnet data).
  cbn [fmap list_fmap for_each]. unfold mbind, M_bind.
  destruct (add_prefix i (pio_subnet data) c) as [[[] c']|]; [|done].
  apply (IH _ _ _ _ Hs' Hok). cbn in Hf. lia.
Qed.

Lemma target_loop_refines peer i fuel : forall m os1 os2 c,
  searching m RPL_DAO_RPLTARGET os1 os2 -> Forall target_ok (select RPL_DAO_RPLTARGET os2) ->
  (length (select RPL_DAO_RPLTARGET os2) < fuel)%nat ->
  target_loop fuel peer i m c =
    for_each (target_subnet <$> select RPL_DAO_RPLTARGET os2) (add_childnode peer i) c.
Proof.
  induction fuel as [|fuel IH]; intros m os1 os2 c Hs Hok Hf; [lia|].
  cbn [target_loop]. unfold rpltarget.
  destruct (search_next m RPL_DAO_RPLTARGET os1 os2 ltac:(by compute) Hs)
    as [(Hnil & m' & Hrun)|(pre & data & post & m' & -> & Hpre & Hrun & Hs' & Hmb & [q Hq])].
  { unfold lift, mbind, M_bind. rewrite Hrun, Hnil. done. }
  assert (select RPL_DAO_RPLTARGET (pre ++ Tlv RPL_DAO_RPLTARGET data :: post) =
    data :: select RPL_DAO_RPLTARGET post) as Hsel.
  { unfold select. rewrite omap_app. fold (select RPL_DAO_RPLTARGET pre). by rewrite Hpre. }
  rewrite Hsel in *. apply Forall_cons_1 in Hok as [(Hlen & Hp & Hpl) Hok].
  rewrite (bind_ok _ _ c (m', Some (zlen (enc (os1 ++ pre)))) c); cycle 1.
  { unfold lift. rewrite Hrun. cbn [mbind outcome_bind].
    rewrite Hmb, Hq, rd_mid by (rewrite !zlen_cons; lia). cbn [mbind outcome_bind].
    change ((RPL_DAO_RPLTARGET :: zlen data :: data) !!! Z.to_nat 3) with (data !!! 1%nat).
    unfold Opt.target_size. by rewrite (proj2 (Z.ltb_ge _ _)) by lia. }
  cbn beta iota. rewrite (bind_ok _ _ c (data !!! 1%nat) c); cycle 1.
  { unfold lift. by rewrite Hmb, Hq, rd_mid by (rewrite !zlen_cons; lia). }
  rewrite (bind_ok _ _ c (ip_bytes (sn_addr (target_subnet data))) c); cycle 1.
  { unfold lift. rewrite Hmb, Hq, v6bytes_of_mid; [done|lia|lia|]. rewrite !zlen_cons. lia. }
  change (subnet6 (ip_bytes (sn_addr (target_subnet data))) (data !!! 1%nat)) with (target_subnet data).
  cbn [fmap list_fmap for_each]. unfold mbind, M_bind.
  destruct (add_childnode peer i (target_subnet data) c) as [[[] c']|]; [|done].
  apply (IH _ _ _ _ Hs' Hok). cbn in Hf. lia.
Qed.
End loops.
