(* ===== verification/Safety.v ===== *)
(** Memory safety of the DAG's methods: a well-formedness invariant of the state
    that every method keeps, and under which the methods return.

    The invariant [ctx_ok] says that the pointers the program holds are good: the
    event queue and the events of the DAG, the parent pointers and the pointer to
    the node's own identity, the interfaces.  What the methods need beyond it is
    an explicit hypothesis of their theorems. *)

From Stdlib Require Import ZArith Lia String.
From stdpp Require Import base list gmap numbers strings.
From S2P Require Import Prelude Wire Subopt Event Prefix State Iface Build Dag DagFacts.
#[local] Open Scope Z_scope.

(** * The invariant *)
Definition env (n : nat) (t : timers) (s : sys) : Prop :=
  things_to_do s = t /\ Forall (fun i => (i < n)%nat) (all_if s) /\ length (ifaces s) = n /\
  length (junk_bytes s) = 2048%nat /\ freed_if s = [].

Definition me_ok (d : dag_network) : Prop :=
  match dag_me d with
  | None | Some (External _) => True
  | Some (InAnnounced h) => is_Some (pm_get (dag_announced d) h)
  | Some (InPrefixes h) => is_Some (pm_get (dag_prefixes d) h)
  end.

Definition dag_ok (n : nat) (t : timers) (d : dag_network) : Prop :=
  (forall e, mSendDioEvent d = Some e -> live t e) /\
  (forall e, mSendDaoEvent d = Some e -> live t e) /\
  (forall a, dag_bestparent d = Some a -> is_Some (dag_members d !! a) /\ is_Some (dag_bestparentif d)) /\
  (forall a, dag_parent d = Some a -> is_Some (dag_members d !! a)) /\
  (forall i, dag_bestparentif d = Some i -> (i < n)%nat) /\
  me_ok d.

Definition ctx_ok (n : nat) (c : ctx) : Prop :=
  exists t, queue_ok t /\ env n t (shared c) /\ dag_ok n t (this c).

Create HintDb safe.

(** * The system *)
Section system.
Context (n : nat) (t : timers).
#[local] Notation "'safe_sys' m" :=  (safe (env n t) m (fun _ => env n t)) (at level 10, only parsing).

Lemma get_iface_safe i : (i < n)%nat -> safe_sys (get_iface i).
Proof.
  intros Hi s (Ht & Ha & Hl & Hj & Hf). unfold get_iface. rewrite Hf. cbn.
  destruct (lookup_lt_is_Some_2 (ifaces s) i) as [x ->]; [lia|]. by exists x, s.
Qed.
Lemma upd_iface_safe i f : safe_sys (upd_iface i f).
Proof. apply safe_modify. intros s (Ht & Ha & Hl). unfold env. cbn. by rewrite length_alter. Qed.
Lemma emit_safe o : safe_sys (emit o).
Proof. apply safe_modify. done. Qed.
Lemma global_count_safe x : safe_sys (global_count x).
Proof. apply safe_modify. done. Qed.
Lemma get_safe {S} (P : S -> Prop) : safe P get (fun a s => P s /\ s = a).
Proof. intros s Hs. by exists s, s. Qed.
End system.
#[export] Hint Resolve get_iface_safe upd_iface_safe emit_safe global_count_safe : safe.

(** Walk through a computation whose state keeps satisfying the same predicate. *)
Lemma keep_bind {S A B} (P : S -> Prop) (m : M S A) (k : A -> M S B) :
  safe P m (fun _ => P) -> (forall a, safe P (k a) (fun _ => P)) -> safe P (m ≫= k) (fun _ => P).
Proof. apply safe_bind. Qed.
Lemma keep_ret {S A} (P : S -> Prop) (a : A) : safe P (mret a) (fun _ => P).
Proof. intros s Hs. by exists a, s. Qed.
Lemma keep_get {S} (P : S -> Prop) : safe P get (fun _ => P).
Proof. intros s Hs. by exists s, s. Qed.
Lemma keep_gets {S A} (P : S -> Prop) (f : S -> A) : safe P (gets f) (fun _ => P).
Proof. intros s Hs. by exists (f s), s. Qed.
Lemma keep_get_bind {S B} (P : S -> Prop) (k : S -> M S B) :
  (forall s0, P s0 -> safe P (k s0) (fun _ => P)) -> safe P (get ≫= k) (fun _ => P).
Proof. intros Hk s Hs. destruct (Hk s Hs s Hs) as (b & s' & E & ?). exists b, s'. split; [|done]. done. Qed.

Ltac safe_step :=
  lazymatch goal with
  | |- safe _ (get ≫= _) _ => apply keep_get_bind; intros ? ?
  | |- safe _ (_ ≫= _) _ => apply keep_bind; [|intros ?]
  | |- safe _ (mret _) _ => apply keep_ret
  | |- safe _ get _ => apply keep_get
  | |- safe _ (gets _) _ => apply keep_gets
  | |- safe _ (when _ _) _ => apply safe_when
  | |- safe _ (for_each _ _) _ => apply safe_for_each; intros ? ?
  | |- safe _ (match ?x with _ => _ end) _ => destruct x
  end.
Ltac safe_tac := repeat first [ solve [eauto 3 with safe] | safe_step ].

Section iface.
Context (n : nat) (t : timers).
#[local] Notation "'safe_sys' m" :=  (safe (env n t) m (fun _ => env n t)) (at level 10, only parsing).

Lemma get_if_index_safe i : (i < n)%nat -> safe_sys (get_if_index i).
Proof. intros. unfold get_if_index. safe_tac. Qed.
Hint Resolve get_if_index_safe : safe.
Lemma join_group_safe i : (i < n)%nat -> safe_sys (join_group i).
Proof. intros. unfold join_group. safe_tac. Qed.
Hint Resolve join_group_safe : safe.
Lemma add_to_list_safe i : (i < n)%nat -> safe_sys (add_to_list i).
Proof.
  intros. unfold add_to_list. safe_tac.
  apply safe_modify. intros s (? & ? & ? & ? & ?). unfold env. cbn. split_and!; try done. by constructor.
Qed.
Hint Resolve add_to_list_safe : safe.
Lemma nd_open_safe : safe_sys (modify (fun s : sys => s <| nd_socket_open := true |>)).
Proof. apply safe_modify. done. Qed.
Hint Resolve nd_open_safe : safe.
Lemma setup_safe i : (i < n)%nat -> safe_sys (setup i).
Proof. intros. unfold setup. safe_tac. Qed.
Hint Resolve setup_safe : safe.
Lemma check_allrouters_safe i : (i < n)%nat -> safe_sys (check_allrouters_membership i).
Proof. intros. unfold check_allrouters_membership. safe_tac. Qed.
Hint Resolve check_allrouters_safe : safe.
(** Sending never fails, whatever the socket and [/proc] say. *)
Lemma send_raw_icmp_safe i dest src body : (i < n)%nat -> safe_sys (send_raw_icmp i dest src body).
Proof. intros. unfold send_raw_icmp. safe_tac. Qed.
Lemma addprefix_safe i p : safe_sys (addprefix i p).
Proof. unfold addprefix, ni_route_show, nisystem. safe_tac. Qed.
Lemma add_parent_route_safe i p src parent : (i < n)%nat ->
  safe_sys (add_parent_route_to_prefix i p src parent).
Proof. intros. unfold add_parent_route_to_prefix, ni_route_show, nisystem. safe_tac. Qed.
Lemma add_null_route_safe p : safe_sys (add_null_route_to_prefix p).
Proof. unfold add_null_route_to_prefix, ni_route_show, nisystem. safe_tac. Qed.
Lemma add_route_to_node_safe `{PrefixMapSem} i p peer src : (i < n)%nat ->
  safe_sys (add_route_to_node i p peer src).
Proof. intros. unfold add_route_to_node, ni_route_show, nisystem. safe_tac. Qed.
End iface.
#[export] Hint Resolve get_if_index_safe setup_safe send_raw_icmp_safe addprefix_safe
  add_parent_route_safe add_null_route_safe add_route_to_node_safe : safe.

(** * The DAG *)
Section dag.
Context `{EventHeapLaws, PrefixMapLaws} (n : nat).
#[local] Notation "'safe_dag' m" := (safe (ctx_ok n) m (fun _ => ctx_ok n)) (at level 10, only parsing).

Lemma with_sys_safe {A} (m : M sys A) :
  (forall t, safe (env n t) m (fun _ => env n t)) -> safe_dag (with_sys m).
Proof.
  intros Hm c (t & Hq & He & Hd). destruct (Hm t _ He) as (a & s' & E & He').
  exists a, (c <| shared := s' |>). unfold with_sys, zoom. rewrite E. split; [done|].
  exists t. by destruct c.
Qed.

Lemma dag_upd_safe g : (forall t d, dag_ok n t d -> dag_ok n t (g d)) -> safe_dag (dag_upd g).
Proof.
  intros Hg. apply safe_modify. intros c (t & Hq & He & Hd). exists t. split_and!; [done..|].
  by apply Hg.
Qed.

Lemma dag_get_safe {B T} (f : dag_network -> T) (k : T -> M ctx B) :
  (forall c0, ctx_ok n c0 -> safe_dag (k (f (this c0)))) -> safe_dag (dag_get f ≫= k).
Proof. intros Hk c Hc. destruct (Hk c Hc c Hc) as (b & c' & E & ?). by exists b, c'. Qed.

Lemma with_timers_run {A} (m : M timers A) c a t' :
  m (things_to_do (shared c)) = Ok (a, t') ->
  with_sys (with_timers m) c = Ok (a, c <| shared ::= (fun s => s <| things_to_do := t' |>) |>).
Proof. intros E. unfold with_sys, with_timers, zoom. rewrite E. by destruct c. Qed.

Lemma dag_ok_mono t t' d : (forall j, live t j -> live t' j) -> dag_ok n t d -> dag_ok n t' d.
Proof. intros Hm (Hdio & Hdao & Hr). split_and!; try apply Hr; eauto. Qed.

(** Creating the event of the DAG, and arming it. *)
Lemma new_dag_event_safe msec ty (put : option nat -> dag_network -> dag_network) sel :
  (forall t d e, dag_ok n t d -> live t e -> dag_ok n t (put (Some e) d)) ->
  (forall d e, sel (put e d) = e) ->
  safe (ctx_ok n)
    (e ← with_sys (with_timers (new_event 0 msec ty)); dag_upd (put (Some e)) ;; mret e)
    (fun e c => ctx_ok n c /\ sel (this c) = Some e).
Proof.
  intros Hput Hsel c (t & Hq & He & Hd).
  destruct (new_event_spec 0 msec ty (things_to_do (shared c))) as
    (t' & Hrun & Hq' & _ & Hl & Hmono & _); [by destruct He as [-> _]|].
  destruct He as (Et & Ha & Hi).
  rewrite (bind_ok _ _ _ _ _ (with_timers_run _ _ _ _ Hrun)).
  eexists _, _. split; [done|]. split; [|apply Hsel].
  exists t'. split; [done|]. split; [done|]. cbn. apply Hput; [|exact Hl].
  eapply dag_ok_mono; [|done]. by rewrite <-Et.
Qed.

Lemma arm_dag_event_safe sel e ty msec :
  (forall t d, dag_ok n t d -> sel d = Some e -> live t e) ->
  safe (fun c => ctx_ok n c /\ sel (this c) = Some e) (arm_dag_event e ty msec) (fun _ => ctx_ok n).
Proof.
  intros Hlive c [(t & Hq & (Et & Ha & Hi) & Hd) He].
  destruct (Hlive _ _ Hd He) as (ev & Hev & Hdel). subst t.
  destruct (arm_event_run e ty (dag_self (this c)) msec _ ev Hq Hev Hdel) as
    (t' & e' & Hrun & Hq' & _ & He' & _ & _ & _ & Hdel' & Hoth & _).
  unfold arm_dag_event. rewrite (bind_ok _ _ c (dag_self (this c)) c) by done.
  rewrite (with_timers_run _ _ _ _ Hrun). eexists _, _. split; [done|].
  exists t'. split; [done|]. split; [done|]. cbn. eapply dag_ok_mono; [|done].
  intros j (x & Hx & Hxd). destruct (decide (j = e)) as [->|Hne].
  - by exists e'.
  - exists x. by rewrite Hoth.
Qed.

(** The event of a DAG is made when there is none, then armed. *)
Lemma schedule_safe (sel : dag_network -> option nat) put msec ty ty' delay d :
  (forall t d e, dag_ok n t d -> live t e -> dag_ok n t (put (Some e) d)) ->
  (forall d e, sel (put e d) = e) ->
  (forall t d e, dag_ok n t d -> sel d = Some e -> live t e) ->
  safe (fun c => ctx_ok n c /\ this c = d)
    (e ← match sel d with
         | Some e => mret e
         | None => e ← with_sys (with_timers (new_event 0 msec ty)); dag_upd (put (Some e)) ;; mret e
         end;
     arm_dag_event e ty' delay) (fun _ => ctx_ok n).
Proof.
  intros Hput Hsel Hlive.
  apply (safe_bind _ _ (fun e c => ctx_ok n c /\ sel (this c) = Some e)).
  - destruct (sel d) as [e|] eqn:Ee.
    + intros c [Hc <-]. by exists e, c.
    + eapply safe_weaken; [apply (new_dag_event_safe msec ty put sel Hput Hsel)|by intros ? []|done].
  - intros e. apply arm_dag_event_safe. intros t d' Hd He. by eapply Hlive.
Qed.

Lemma schedule_dio_safe msec : safe_dag (schedule_dio msec).
Proof.
  unfold schedule_dio. apply safe_gets. intros c0 Hc0. unfold id. case_bool.
  { apply (safe_weaken _ (ctx_ok n) _ _ (fun _ => ctx_ok n)); [apply keep_ret|by intros ? ->|done]. }
  apply (safe_weaken _ (fun c => ctx_ok n c /\ this c = this c0) _ _ (fun _ => ctx_ok n)); [|by intros c ->|done].
  apply (schedule_safe mSendDioEvent (fun e d => d <| mSendDioEvent := e |>)); try done.
  - intros t d e (Hdio & Hdao & Hr) Hl. split_and!; try apply Hr; cbn; [by intros ? [= <-]|done].
  - intros t d e (Hdio & _). auto.
Qed.

Lemma schedule_dao_safe : safe_dag schedule_dao.
Proof.
  unfold schedule_dao. apply keep_bind; [apply with_sys_safe; intros; apply keep_get|intros s].
  apply safe_gets. intros c0 Hc0. unfold id. case_bool.
  { apply (safe_weaken _ (ctx_ok n) _ _ (fun _ => ctx_ok n)); [apply keep_ret|by intros ? ->|done]. }
  apply (safe_weaken _ (fun c => ctx_ok n c /\ this c = this c0) _ _ (fun _ => ctx_ok n)); [|by intros c ->|done].
  apply (schedule_safe mSendDaoEvent (fun e d => d <| mSendDaoEvent := e |>)); try done.
  - intros t d e (Hdio & Hdao & Hr) Hl. split_and!; try apply Hr; cbn; [done|by intros ? [= <-]].
  - intros t d e (_ & Hdao & _). auto.
Qed.

Lemma maybe_send_dao_safe : safe_dag maybe_send_dao.
Proof.
  unfold maybe_send_dao. apply dag_get_safe. intros c0 Hc0. case_bool; [|apply keep_ret].
  apply keep_bind; [apply safe_when, schedule_dao_safe|intros _]. by apply dag_upd_safe.
Qed.
Lemma maybe_schedule_dio_safe : safe_dag maybe_schedule_dio.
Proof.
  unfold maybe_schedule_dio. apply dag_get_safe. intros c0 Hc0. case_match; [apply keep_ret|].
  apply keep_bind; [apply schedule_dio_safe|intros _]. by apply dag_upd_safe.
Qed.

(** ** Prefixes

    [ok F]: the invariant, and [F] of the DAG. *)
Definition ok (F : dag_network -> Prop) (c : ctx) : Prop := ctx_ok n c /\ F (this c).

Lemma with_sys_ok {A} F (m : M sys A) :
  (forall t, safe (env n t) m (fun _ => env n t)) -> safe (ok F) (with_sys m) (fun _ => ok F).
Proof.
  intros Hm. apply (safe_frame (ctx_ok n) _ (fun _ => ctx_ok n) (same id) (fun c => F (this c)));
    [by apply with_sys_safe|apply same_with_sys|].
  unfold same, id. by intros s s' ->.
Qed.
Lemma dag_upd_ok (F G : dag_network -> Prop) g :
  (forall t d, dag_ok n t d -> F d -> dag_ok n t (g d) /\ G (g d)) ->
  safe (ok F) (dag_upd g) (fun _ => ok G).
Proof.
  intros Hg. apply safe_modify. intros c [(t & Hq & He & Hd) HF]. destruct (Hg t _ Hd HF).
  split; [|done]. by exists t.
Qed.
Lemma dag_get_ok {B T} F (f : dag_network -> T) (k : T -> M ctx B) Q :
  (forall c0, ok F c0 -> safe (ok (fun d => F d /\ f d = f (this c0))) (k (f (this c0))) Q) ->
  safe (ok F) (dag_get f ≫= k) Q.
Proof.
  intros Hk c Hc. destruct (Hk c Hc c) as (b & c' & E & ?); [by destruct Hc|]. by exists b, c'.
Qed.
Lemma maybe_schedule_dio_ok F : (forall d d', maps d' = maps d -> F d -> F d') ->
  safe (ok F) maybe_schedule_dio (fun _ => ok F).
Proof.
  intros HF. apply (safe_frame (ctx_ok n) _ (fun _ => ctx_ok n) (same maps) (fun c => F (this c)));
    [apply maybe_schedule_dio_safe|apply maps_maybe_schedule_dio|].
  intros s s' E. by apply HF.
Qed.

Definition has (w : pm_sel) (h : nat) (d : dag_network) : Prop := is_Some (pm_get (sel_get w d) h).

Lemma pm_upd_some h h' f m : is_Some (pm_get m h) -> is_Some (pm_get (pm_upd h' f m) h).
Proof.
  intros [x Hx]. destruct (decide (h' = h)) as [->|].
  - erewrite pm_get_upd_eq by done. by eexists.
  - rewrite pm_get_upd_ne by done. by eexists.
Qed.

Lemma me_ok_maps (d d' : dag_network) : dag_me d' = dag_me d ->
  (forall h, is_Some (pm_get (dag_announced d) h) -> is_Some (pm_get (dag_announced d') h)) ->
  (forall h, is_Some (pm_get (dag_prefixes d) h) -> is_Some (pm_get (dag_prefixes d') h)) ->
  me_ok d -> me_ok d'.
Proof. unfold me_ok. intros -> Ha Hp. destruct (dag_me d) as [[]|]; auto. Qed.

Lemma upd_pm_ok w h f w' h' : safe (ok (has w' h')) (upd_pm w h f) (fun _ => ok (has w' h')).
Proof.
  apply dag_upd_ok. intros t d Hd Hh. unfold has in *. destruct Hd as (? & ? & ? & ? & ? & Hme).
  split; [split_and!; try (by destruct w); revert Hme|].
  - destruct w; apply me_ok_maps; try done; intros; by apply pm_upd_some.
  - destruct w, w'; try done; by apply pm_upd_some.
Qed.
Lemma read_pm_ok w h F : (forall d, F d -> has w h d) -> safe (ok F) (read_pm w h) (fun _ => ok F).
Proof.
  intros HF c [Hc Hh]. unfold read_pm. destruct (HF _ Hh) as [p ->]. by exists p, c.
Qed.

Lemma dag_get_keep F {T} (f : dag_network -> T) : safe (ok F) (dag_get f) (fun _ => ok F).
Proof. apply keep_gets. Qed.
Hint Resolve dag_get_keep with_sys_ok upd_pm_ok : safe.

Lemma configureip_ok w h i : (i < n)%nat ->
  safe (ok (has w h)) (configureip w h i) (fun _ => ok (has w h)).
Proof.
  intros Hi. unfold configureip. apply keep_bind; [apply dag_get_keep|intros d].
  case_bool; [apply keep_ret|]. apply keep_bind; [by apply read_pm_ok|intros p].
  case_bool; [apply keep_ret|]. apply keep_bind.
  { case_bool; [apply keep_ret|].
    apply keep_bind; [apply with_sys_ok; eauto with safe|intros x].
    destruct (link_local x). apply keep_bind; [|intros; apply keep_ret].
    apply with_sys_ok. eauto with safe. }
  intros link. cbv zeta. apply keep_bind; [apply upd_pm_ok|intros _].
  apply keep_bind; [by apply read_pm_ok|intros q].
  apply keep_bind; [apply with_sys_ok; intros; apply addprefix_safe|intros b].
  apply safe_when, upd_pm_ok.
Qed.

Lemma set_me_ok w h (F : dag_network -> Prop) : (forall d x, F (d <| dag_me := x |>) <-> F d) ->
  (forall d, F d -> has w h d) ->
  safe (ok F) (dag_upd (fun d => match dag_me d with
                                 | None => d <| dag_me := Some (sel_ref w h) |>
                                 | Some _ => d end)) (fun _ => ok F).
Proof.
  intros HF Hh. apply dag_upd_ok. intros t d Hd HFd. destruct (dag_me d) eqn:E; [done|].
  split; [|by apply HF]. destruct Hd as (? & ? & ? & ? & ? & _). split_and!; try done.
  specialize (Hh d HFd). unfold me_ok, has in *. by destruct w.
Qed.

Lemma cfg_new_node_ok w h iface p : (forall i, iface = Some i -> (i < n)%nat) ->
  safe (ok (has w h)) (cfg_new_node w h iface p) (fun _ => ok (has w h)).
Proof.
  intros Hi. unfold cfg_new_node. apply keep_bind; [by apply read_pm_ok|intros me].
  case_bool; [apply keep_ret|].
  apply keep_bind; [by apply dag_upd_ok|intros _]. apply keep_bind; [apply upd_pm_ok|intros _].
  apply keep_bind.
  { destruct iface as [i|]; [apply configureip_ok, Hi; done|apply keep_ret]. }
  intros _. apply set_me_ok; [|done]. intros d x. by destruct w.
Qed.

Lemma pm_index_some junk k m h : is_Some (pm_get m h) -> is_Some (pm_get (pm_index junk k m).2 h).
Proof. intros [x Hx]. eexists. by apply pm_index_lookup. Qed.

Lemma add_address_ok p : safe (ctx_ok n) (add_address p) (fun h => ok (has Announced h)).
Proof.
  intros c Hc. unfold add_address.
  rewrite (bind_ok _ _ c (shared c) c) by (unfold with_sys, zoom, get; by destruct c).
  rewrite (bind_ok _ _ c (this c) c) by done.
  destruct (pm_index _ _ _) as [h m] eqn:Ei. rewrite (bind_ok _ _ c tt
    (c <| this ::= (fun d => d <| dag_announced := pm_upd h (set_prefix p) m |>) |>)) by done.
  eexists h, _. split; [done|]. destruct (pm_index_get _ _ _ _ _ Ei) as (x & Hx & _).
  split; [|unfold has; cbn; by apply pm_upd_some].
  destruct Hc as (t & Hq & He & Hd). exists t. split; [done|]. split; [done|].
  destruct Hd as (? & ? & ? & ? & ? & Hme). split_and!; try done. revert Hme.
  apply me_ok_maps; try done. cbn. intros h' Hh'. apply pm_upd_some.
  pose proof (pm_index_some (junk_prefix (shared c)) p (dag_announced (this c)) h' Hh') as HS.
  by rewrite Ei in HS.
Qed.

(** The map of prefixes with the node of a key in it. *)
Lemma put_prefixes_ok c p h m : ctx_ok n c ->
  pm_index (junk_prefix (shared c)) p (dag_prefixes (this c)) = (h, m) ->
  safe (fun c' => c' = c) (dag_upd (fun d => d <| dag_prefixes := m |>)) (fun _ => ok (has Prefixes h)).
Proof.
  intros Hc Ei. apply safe_modify. intros ? ->. destruct (pm_index_get _ _ _ _ _ Ei) as (x & Hx & _).
  split; [|by exists x]. destruct Hc as (t & Hq & He & Hd). exists t. split; [done|]. split; [done|].
  destruct Hd as (? & ? & ? & ? & ? & Hme). split_and!; try done. revert Hme.
  apply me_ok_maps; try done. cbn. intros h' Hh'.
  pose proof (pm_index_some (junk_prefix (shared c)) p (dag_prefixes (this c)) h' Hh') as HS.
  by rewrite Ei in HS.
Qed.

Lemma add_prefix_safe i p : (i < n)%nat -> safe_dag (add_prefix i p).
Proof.
  intros Hi. unfold add_prefix.
  apply (safe_weaken _ (ctx_ok n) _ _ (fun _ => ctx_ok n)); [|done|done].
  intros c Hc. rewrite (bind_ok _ _ c (shared c) c) by (unfold with_sys, zoom, get; by destruct c).
  rewrite (bind_ok _ _ c (this c) c) by done.
  destruct (pm_index _ _ _) as [h m] eqn:Ei.
  assert (safe (fun c' => c' = c) (dag_upd (fun d => d <| dag_prefixes := m |>))
    (fun _ => ok (has Prefixes h))) as Hput by by eapply put_prefixes_ok.
  refine ((safe_bind _ _ _ _ (fun _ => ctx_ok n) Hput _) c eq_refl). intros _.
  apply (safe_weaken _ (ok (has Prefixes h)) _ _ (fun _ => ctx_ok n)); [|done|done].
  apply (safe_bind _ _ (fun _ => ok (has Prefixes h))); [by apply read_pm_ok|intros pre].
  apply (safe_bind _ _ (fun _ => ok (has Prefixes h))).
  { case_bool; [apply keep_ret|].
    apply keep_bind; [apply dag_upd_ok; intros t d Hd Hh; done|intros _].
    apply keep_bind; [apply upd_pm_ok|intros _]. apply keep_bind; [by apply dag_upd_ok|intros _].
    apply maybe_schedule_dio_ok. intros d d' Em. unfold has. cbn. unfold maps in Em. by injection Em as _ -> _ _. }
  intros _. apply (safe_bind _ _ (fun _ => ok (has Prefixes h))); [apply dag_get_keep|intros d].
  case_bool; [by apply (safe_weaken _ (ctx_ok n) _ _ (fun _ => ctx_ok n)); [apply keep_ret|intros ? []|]|].
  apply (safe_weaken _ (ctx_ok n) _ _ (fun _ => ctx_ok n)); [|by intros ? []|done].
  apply (safe_bind _ _ _ _ _ (add_address_ok p)). intros me.
  apply (safe_bind _ _ (fun _ => ok (has Announced me))); [apply upd_pm_ok|intros _].
  apply (safe_weaken _ (ok (has Announced me)) _ _ (fun _ => ok (has Announced me)));
    [apply cfg_new_node_ok; by intros ? [= <-]|done|by intros ? ? []].
Qed.

(** ** Children *)
Definition rooted (peer : in6_addr) (d : dag_network) : Prop :=
  is_Some (dag_members d !! peer) /\ is_Some (dag_me d) /\ length (mDagid d) = 16%nat.

Lemma read_me_ok F : (forall d, F d -> is_Some (dag_me d)) -> safe (ok F) read_me (fun _ => ok F).
Proof.
  intros HF c [Hc Hf]. unfold read_me. destruct (HF _ Hf) as [r Hr].
  assert (me_ok (this c)) as Hme by (by destruct Hc as (t & _ & _ & _ & _ & _ & _ & _ & Hme)).
  unfold me_ok in Hme. rewrite Hr in *. destruct r as [h|h|p]; [destruct Hme as [p ->]..|]; by eexists _, c.
Qed.
Lemma deref_peer_ok F a : (forall d, F d -> is_Some (dag_members d !! a)) ->
  safe (ok F) (deref_peer a) (fun _ => ok F).
Proof. intros HF c [Hc Hf]. unfold deref_peer. destruct (HF _ Hf) as [x ->]. by exists x, c. Qed.

Lemma children_upd_ok F f : (forall d, F d -> F (d <| dag_children ::= f |>)) ->
  safe (ok F) (dag_upd (fun d => d <| dag_children ::= f |>)) (fun _ => ok F).
Proof. intros HF. apply dag_upd_ok. intros t d Hd Hf. split; [exact Hd|by apply HF]. Qed.

Lemma add_childnode_safe peer i p : (i < n)%nat ->
  safe (ok (rooted peer)) (add_childnode peer i p) (fun _ => ok (rooted peer)).
Proof.
  intros Hi. unfold add_childnode, add_childnode_of. intros c Hc.
  rewrite (bind_ok _ _ c (shared c) c) by (unfold with_sys, zoom, get; by destruct c).
  rewrite (bind_ok _ _ c (this c) c) by done.
  destruct (pm_index _ _ _) as [h m] eqn:Ei. destruct (pm_index_get _ _ _ _ _ Ei) as (x & Hx & _).
  set (F := fun d => rooted peer d /\
    exists y, pm_get (dag_children d) h = Some y /\ (installed y = false -> announced_from y = Member peer)).
  set (G := fun d => rooted peer d /\ is_Some (pm_get (dag_children d) h)).
  assert (safe (fun c' => c' = c) (dag_upd (fun d => d <| dag_children := m |>)) (fun _ => ok G)) as Hput.
  { apply safe_modify. intros ? ->. destruct Hc as [Hc Hr]. split; [|split; [done|by exists x]].
    destruct Hc as (t & ? & ? & ?). by exists t. }
  refine ((safe_bind _ _ _ _ (fun _ => ok (rooted peer)) Hput _) c eq_refl). intros _.
  rewrite Hx. case_bool.
  { apply (safe_weaken _ (ok G) _ _ (fun _ => ok G)); [apply keep_ret|done|by intros ? ? (? & ? & ?)]. }
  apply (safe_bind _ _ (fun _ => ok F)).
  { apply dag_upd_ok. intros t d Hd [Hr [y Hy]]. split; [exact Hd|]. split; [exact Hr|].
    eexists. split; [cbn; by apply pm_get_upd_eq|done]. }
  intros _. apply (safe_bind _ _ (fun _ => ok G)).
  - unfold add_route_via_node. intros c1 [Hc1 (Hr & y & Hy & Hann)].
    rewrite (bind_ok _ _ c1 (dag_children (this c1)) c1) by done. rewrite Hy.
    destruct (installed y) eqn:Hin.
    { exists tt, c1. split; [done|]. split; [done|]. split; [done|by exists y]. }
    assert (safe (ok G) (src ← read_me; peer ← deref_announcer (announced_from y);
      with_sys (add_route_to_node i (mPrefix_ y) peer src) ;;
      dag_upd (fun d => d <| dag_children ::= pm_upd h (fun p => p <| installed := true |>) |>))
      (fun _ => ok G)) as Hrest; [|apply Hrest; split; [done|split; [done|by exists y]]].
    apply keep_bind; [apply read_me_ok; by intros d ((_ & ? & _) & _)|intros src].
    rewrite Hann by done. cbn [deref_announcer].
    apply keep_bind; [apply deref_peer_ok; by intros d ((? & _) & _)|intros pn].
    apply keep_bind; [apply with_sys_ok; intros; by apply add_route_to_node_safe|intros _].
    apply children_upd_ok. intros d [Hr' Hs]. split; [exact Hr'|]. cbn. by apply pm_upd_some.
  - intros _. apply dag_upd_ok. intros t d Hd [Hr' _]. split; [exact Hd|exact Hr'].
Qed.

(** ** Members *)
Lemma with_member_ok a f F (G : dag_network -> Prop) :
  (forall d x, F d -> G (d <| dag_members ::= <[a := x]> |>)) ->
  safe (ok F) (with_member a f) (fun _ => ok G).
Proof.
  intros HF c [(t & Hq & He & Hd) Hf]. unfold with_member. eexists _, _. split; [done|].
  split; [|by apply HF]. exists t. split; [done|]. split; [done|].
  destruct Hd as (? & ? & Hb & Hp & ? & ?). split_and!; try done; cbn.
  - intros b Hb'. destruct (Hb b Hb') as [Hm ?]. split; [|done].
    destruct (decide (a = b)) as [->|]; [rewrite lookup_insert_eq; by eexists|by rewrite lookup_insert_ne].
  - intros b Hb'. pose proof (Hp b Hb').
    destruct (decide (a = b)) as [->|]; [rewrite lookup_insert_eq; by eexists|by rewrite lookup_insert_ne].
Qed.

(** [F]: a fact about the DAG that its members do not matter for. *)
Lemma update_node_safe i from now F : (i < n)%nat ->
  (forall d m, F d -> F (d <| dag_members ::= m |>)) -> (forall d m, F d -> F (d <| mStats ::= m |>)) ->
  safe (ok F) (update_node i from now)
    (fun r c => ok F c /\ forall a, r = Some a -> a = from /\ is_Some (dag_members (this c) !! a)).
Proof.
  intros Hi HF HF'. unfold update_node.
  apply (safe_bind _ _ (fun _ => ok F)); [by apply with_member_ok; auto|intros peer].
  apply (safe_bind _ _ (fun _ => ok F)); [apply with_sys_ok; eauto with safe|intros x].
  case_bool.
  - apply (safe_bind _ _ (fun _ => ok F)); [apply with_sys_ok; eauto with safe|intros idx].
    apply (safe_bind _ _ (fun _ => ok F)); [by apply with_member_ok; auto|intros _].
    apply (safe_bind _ _ (fun _ => ok F)).
    { apply dag_upd_ok. intros t d Hd Hf. split; [exact Hd|by apply HF']. }
    intros _ c Hc. by exists None, c.
  - apply (safe_bind _ _ (fun _ => ok F)); [apply dag_get_keep|intros dn].
    apply (safe_bind _ _ (fun _ => ok (fun d => F d /\ is_Some (dag_members d !! from)))).
    { apply with_member_ok. intros d m Hf. split; [auto|]. cbn. rewrite lookup_insert_eq. by eexists. }
    intros _ c [Hc [Hf Hm]]. exists (Some from), c. split; [done|]. split; [done|]. by intros a [= <-].
Qed.

(** ** Handlers *)
Lemma dag_count_safe x : safe_dag (dag_count x).
Proof. by apply dag_upd_safe. Qed.

Definition msg_of (m : outcome rpl_msg) (optnum : Z) (os : list tlv) : Prop :=
  exists m', m = Ok m' /\ searching m' optnum [] os /\ (length (select optnum os) < scan_fuel)%nat.

Lemma select_length optnum os : (length (select optnum os) <= length os)%nat.
Proof.
  unfold select. induction os as [|[|ty data] os IH]; cbn in *; [lia..|].
  destruct (ty =? optnum); cbn in *; lia.
Qed.

Lemma init_msg_of junk pre os post optnum :
  length junk = 2048%nat -> Forall tlv_wf os -> zlen (enc os) <= 2048 -> 0 < optnum < 256 ->
  msg_of (rpl_msg_init junk (pre ++ enc os ++ post) (zlen pre) (zlen (enc os))) optnum os.
Proof.
  intros Hj Hwf Hlen Hn. destruct (search_all_enc junk pre os post optnum) as (m & Hm & _ & Hs); [done..|].
  exists m. split; [done|]. split; [done|].
  pose proof (select_length optnum os). pose proof (tlv_count os Hwf). unfold scan_fuel, zlen in *. lia.
Qed.

Lemma potentially_lower_rank_safe peer i dio m os : (i < n)%nat ->
  msg_of m RPL_DIO_DESTPREFIX os -> Forall pio_ok (select RPL_DIO_DESTPREFIX os) ->
  safe (fun c => ctx_ok n c /\ is_Some (dag_members (this c) !! peer))
    (potentially_lower_rank peer i dio m) (fun _ => ctx_ok n).
Proof.
  intros Hi (m' & -> & Hs & Hf) Hpio. unfold potentially_lower_rank. intros c [Hc Hp].
  rewrite (bind_ok _ _ c (this c) c) by done.
  set (c1 := c <| this ::= (fun d => d <| mStats ::= bump (ps PS_LOWER_RANK_CONSIDERED) |>) |>).
  rewrite (bind_ok _ _ c tt c1) by done.
  assert (ctx_ok n c1) as Hc1 by (destruct Hc as (t & ? & ? & ?); by exists t).
  case_bool; [by apply dag_count_safe|]. case_bool; [by apply dag_count_safe|].
  case_bool; [by apply dag_count_safe|].
  match goal with |- context [dag_upd ?g] => rewrite (bind_ok (dag_upd g) _ c1 tt (c1 <| this ::= g |>)) by done end.
  match goal with |- context [c1 <| this ::= ?g |>] => set (c2 := c1 <| this ::= g |>) end.
  assert (ctx_ok n c2) as Hc2.
  { destruct Hc1 as (t & ? & ? & Hd). exists t. split_and!; [done..|].
    destruct Hd as (? & ? & ? & ? & ? & ?). split_and!; try done; cbn.
    - intros a [= <-]. split; [exact Hp|by eexists].
    - by intros ? [= <-]. }
  rewrite (bind_ok _ _ c2 m' c2) by done.
  apply (safe_bind (ctx_ok n) _ (fun _ => ctx_ok n)); [|intros _|done].
  - intros c3 Hc3. rewrite (pio_loop_refines i scan_fuel m' [] os c3 Hs Hpio Hf).
    apply safe_for_each; [|done]. intros p _. by apply add_prefix_safe.
  - apply keep_bind; [apply keep_gets|intros d]. apply keep_bind; [|intros _; apply maybe_send_dao_safe].
    destruct (dag_parent d); [apply maybe_schedule_dio_safe|apply keep_ret].
Qed.

Lemma ok_drop F c : ok F c -> ctx_ok n c.
Proof. by intros []. Qed.

Lemma overlay_dio dio rest : Dio.wf dio -> Dio.overlay (Dio.encode dio ++ rest) 0 = Ok dio.
Proof.
  intros Hwf. pose proof (overlay_block Dio.size (fun b => b) [] (Dio.encode dio) rest
    (Dio.encode_len _ Hwf)) as Hb. cbn [app] in Hb. unfold Dio.overlay.
  assert (rd_range (Dio.encode dio ++ rest) 0 Dio.size = Ok (Dio.encode dio)) as ->.
  { change (zlen []) with 0 in Hb. by destruct (rd_range _ _ _). }
  destruct Hwf as (?&?&Hr&?&?&?&?&?&?), dio. cbn -[be16_val] in *.
  unfold lookup_total. cbn -[be16_val]. by rewrite be16_val_be16.
Qed.

Lemma seq_update_ok seq F : (forall d l, F d -> F (d <| mLastSeq := l |>)) ->
  safe (ok F) (dag_upd (seq_update seq)) (fun _ => ok F).
Proof.
  intros HF. apply dag_upd_ok. intros t d Hd Hf. unfold seq_update.
  repeat case_bool; try done; (split; [exact Hd|by apply HF]).
Qed.

Lemma dag_receive_dio_returns i from now dio os post : (i < n)%nat ->
  Dio.wf dio -> Forall tlv_wf os -> Forall pio_ok (select RPL_DIO_DESTPREFIX os) ->
  zlen (enc os) <= 2048 ->
  safe_dag (dag_receive_dio i from now (Dio.encode dio ++ enc os ++ post) (Dio.size + zlen (enc os))).
Proof.
  intros Hi Hwf Hos Hpio Hlen. unfold dag_receive_dio.
  intros c Hc. rewrite (bind_ok _ _ c dio c) by (unfold lift; by rewrite overlay_dio).
  revert c Hc. change (safe_dag (dag_count PS_PACKET_RECEIVED ;; dag_count PS_DIO_PACKET_RECEIVED ;;
    d ← dag_get id;
    if seq_too_old d (Dio.rpl_dtsn dio) && negb (Dio.rpl_dtsn dio =? 0)
       && negb (stat PS_DIO_PACKET_RECEIVED (mStats d) =? 1)
    then dag_count PS_SEQ_OLD
    else
      peer ← update_node i from now;
      match peer with
      | None => mret tt
      | Some peer =>
          dag_upd (seq_update (Dio.rpl_dtsn dio)) ;;
          d ← dag_get id;
          if negb (mActive d) then dag_count PS_PACKETS_WATCHED
          else
            s ← with_sys get;
            potentially_lower_rank peer i dio
              (rpl_msg_init (junk_bytes s) (Dio.encode dio ++ enc os ++ post) Dio.size
                 (Dio.size + zlen (enc os) - Dio.size)) ;;
            dag_count PS_PACKET_PROCESSED
      end)).
  apply keep_bind; [apply dag_count_safe|intros _]. apply keep_bind; [apply dag_count_safe|intros _].
  apply keep_bind; [apply keep_gets|intros d]. case_bool; [apply dag_count_safe|].
  eapply safe_bind.
  { apply (safe_weaken _ (ok (fun _ => True)) _ _ _ (update_node_safe i from now (fun _ => True) Hi
      (fun _ _ H => H) (fun _ _ H => H))); [by intros|intros r c Hr; exact Hr]. }
  intros [peer|]; cycle 1.
  { intros c [Hc _]. exists tt, c. split; [done|by eapply ok_drop]. }
  set (F := fun d => is_Some (dag_members d !! peer)).
  apply (safe_weaken _ (ok F) _ _ (fun _ => ctx_ok n)); [|intros c [[Hc _] Hp]; split; [done|by apply (Hp peer)]|done].
  apply (safe_bind _ _ (fun _ => ok F)); [by apply seq_update_ok|intros _].
  apply (safe_bind _ _ (fun _ => ok F)); [apply dag_get_keep|intros d'].
  case_bool; [apply (safe_weaken _ (ctx_ok n) _ _ (fun _ => ctx_ok n)); [apply dag_count_safe|by intros ? []|done]|].
  intros c [Hc Hp]. rewrite (bind_ok _ _ c (shared c) c) by (unfold with_sys, zoom, get; by destruct c).
  replace (Dio.size + zlen (enc os) - Dio.size) with (zlen (enc os)) by lia.
  assert (length (junk_bytes (shared c)) = 2048%nat) as Hj by (by destruct Hc as (t & _ & (_ & _ & _ & Hj & _) & _)).
  pose proof (init_msg_of (junk_bytes (shared c)) (Dio.encode dio) os post RPL_DIO_DESTPREFIX Hj Hos Hlen
    ltac:(by compute)) as Hm. rewrite (Dio.encode_len _ Hwf) in Hm.
  refine ((safe_bind _ _ _ _ (fun _ => ctx_ok n)
    (potentially_lower_rank_safe peer i dio _ os Hi Hm Hpio) _) c (conj Hc Hp)).
  intros _. apply dag_count_safe.
Qed.

Lemma keep_frame {A} F (m : M ctx A) {T} (f : dag_network -> T) :
  safe_dag m -> keeps (same f) m -> (forall d d', f d' = f d -> F d -> F d') ->
  safe (ok F) m (fun _ => ok F).
Proof.
  intros Hm Hk HF. apply (safe_frame (ctx_ok n) _ (fun _ => ctx_ok n) (same f) (fun c => F (this c)));
    [done|done|]. intros s s' E. by apply HF.
Qed.

(** The acknowledgement of a DAO can be built and sent. *)
Lemma send_daoack_safe i child seq_num : (i < n)%nat ->
  safe (ok (rooted child)) (send_daoack i child seq_num) (fun _ => ok (rooted child)).
Proof.
  intros Hi c Hc. pose proof Hc as [_ (Hm & _ & Hl)]. unfold send_daoack.
  rewrite (bind_ok _ _ c (this c) c) by done.
  assert (exists buff, build_daoack (this c) icmp_body_size seq_num = Ok (buff, 24) /\ length buff = 2048%nat)
    as (buff & Hb & Hbl).
  { unfold build_daoack, icmp_body_size. rewrite header_filled by lia. cbn [mbind outcome_bind].
    rewrite wr_filled by (done || (cbn [length DaoAck.encode]; lia)). cbn [mbind outcome_bind].
    rewrite wr_filled by (done || (cbn [length DaoAck.encode]; lia)). cbn [mbind outcome_bind].
    eexists. split; [done|]. rewrite filled_length, !length_app, Hl. done. }
  rewrite (bind_ok _ _ c (buff, 24) c) by (unfold lift; by rewrite Hb).
  assert (safe (ok (rooted child)) (p ← deref_peer child; body ← lift (rd_range buff 0 (u32 24));
    with_sys (send_raw_icmp i (Some (node_number p)) None body)) (fun _ => ok (rooted child))) as HS;
    [|by apply HS].
  apply keep_bind; [apply deref_peer_ok; by intros d []|intros p].
  apply keep_bind; [|intros body; apply with_sys_ok; intros; by apply send_raw_icmp_safe].
  intros c' Hc'. change (u32 24) with 24. unfold lift.
  rewrite rd_range_take by (unfold zlen; lia). by eexists _, c'.
Qed.

(** An active DAG has an address of its own and an id. *)
Definition identified (d : dag_network) : Prop :=
  mActive d = true -> is_Some (dag_me d) /\ length (mDagid d) = 16%nat.

Lemma dag_receive_dao_returns i from now dao pre os post : (i < n)%nat ->
  Forall tlv_wf os -> Forall target_ok (select RPL_DAO_RPLTARGET os) -> zlen (enc os) <= 2048 ->
  safe (fun c => ctx_ok n c /\ identified (this c))
    (dag_receive_dao i from now dao (pre ++ enc os ++ post) (zlen pre) (zlen (enc os)))
    (fun _ => ctx_ok n).
Proof.
  intros Hi Hos Htg Hlen. unfold dag_receive_dao.
  change (safe (ok identified) (dag_receive_dao i from now dao (pre ++ enc os ++ post) (zlen pre) (zlen (enc os)))
    (fun _ => ctx_ok n)). unfold dag_receive_dao.
  assert (forall x, safe (ok identified) (dag_count x) (fun _ => ok identified)) as Hcount.
  { intros x. apply dag_upd_ok. intros t d Hd Hf. split; [exact Hd|exact Hf]. }
  apply (safe_bind _ _ (fun _ => ok identified)); [apply Hcount|intros _].
  apply (safe_bind _ _ (fun _ => ok identified)); [apply Hcount|intros _].
  eapply safe_bind; [apply (update_node_safe i from now identified Hi); by intros|].
  intros [peer|]; cycle 1.
  { intros c [Hc _]. exists tt, c. split; [done|by eapply ok_drop]. }
  set (F := fun d => identified d /\ is_Some (dag_members d !! peer)).
  apply (safe_weaken _ (ok F) _ _ (fun _ => ctx_ok n)); [| |done].
  2:{ intros c [[Hc ?] Hp]. split; [done|]. split; [done|]. by apply (Hp peer). }
  apply dag_get_ok. intros c0 _. unfold id. destruct (mActive (this c0)) eqn:Hact; cbn [negb]; cycle 1.
  { apply (safe_weaken _ (ctx_ok n) _ _ (fun _ => ctx_ok n)); [apply dag_count_safe|by intros ? []|done]. }
  apply (safe_weaken _ (ok (rooted peer)) _ _ (fun _ => ok (rooted peer))); [| |by intros ? ? []].
  2:{ intros c [Hc [[Hid Hm] E]]. split; [done|]. split; [done|]. apply Hid. by rewrite E. }
  assert (forall x, safe (ok (rooted peer)) (dag_count x) (fun _ => ok (rooted peer))) as Hcount'.
  { intros x. apply dag_upd_ok. intros t d Hd Hf. split; [exact Hd|exact Hf]. }
  intros c Hc. rewrite (bind_ok _ _ c (shared c) c) by (unfold with_sys, zoom, get; by destruct c).
  assert (length (junk_bytes (shared c)) = 2048%nat) as Hj
    by (by destruct Hc as [(t & _ & (_ & _ & _ & Hj & _) & _) _]).
  destruct (init_msg_of (junk_bytes (shared c)) pre os post RPL_DAO_RPLTARGET Hj Hos Hlen ltac:(by compute))
    as (m & Hm & Hs & Hf).
  rewrite (bind_ok _ _ c m c) by (unfold lift; by rewrite Hm).
  apply (safe_bind (ok (rooted peer)) _ (fun _ => ok (rooted peer))); [|intros _|done].
  - intros c3 Hc3. rewrite (target_loop_refines peer i scan_fuel m [] os c3 Hs Htg Hf).
    apply safe_for_each; [|done]. intros p _. by apply add_childnode_safe.
  - apply keep_bind.
    { apply (keep_frame _ _ (fun d => (dag_members d, dag_me d, mDagid d)));
        [apply maybe_send_dao_safe| |].
      - unfold maybe_send_dao, schedule_dao, arm_dag_event. keep.
      - intros d1 d2 Eq. injection Eq as Em Ee Ei. unfold rooted. by rewrite Em, Ee, Ei. }
    intros _. apply keep_bind; [|intros _; apply Hcount'].
    apply safe_when. by apply send_daoack_safe.
Qed.

Lemma commit_parent_safe :
  safe (fun c => ctx_ok n c /\ is_Some (dag_bestparent (this c))) commit_parent (fun _ => ctx_ok n).
Proof.
  intros c [Hc Hbest]. unfold commit_parent. rewrite (bind_ok _ _ c (this c) c) by done.
  case_match; [by exists tt, c|]. destruct Hbest as [a Ha].
  pose proof Hc as (t & Hq & He & (_ & _ & Hb & _ & Hif & _)).
  destruct (Hb a Ha) as [Hm [i Hi]]. pose proof (Hif i Hi) as Hin.
  match goal with |- context [dag_upd ?g] => rewrite (bind_ok (dag_upd g) _ c tt (c <| this ::= g |>)) by done end.
  rewrite Hi, Ha. match goal with |- context [c <| this ::= ?g |>] => set (c1 := c <| this ::= g |>) end.
  assert (ok (fun d => is_Some (dag_members d !! a)) c1) as Hc1.
  { split; [|exact Hm]. destruct Hc as (t' & ? & ? & (? & ? & Hb' & Hp' & ? & ?)). exists t'.
    split; [done|]. split; [done|]. split_and!; try done. cbn. intros x Hx. by apply (Hb' x). }
  revert Hc1. generalize c1. clear c1.
  apply (safe_weaken _ (ok (fun d => is_Some (dag_members d !! a))) _ _ (fun _ => ctx_ok n)); [|done|done].
  apply (safe_bind _ _ (fun _ => ok (fun d => is_Some (dag_members d !! a)))).
  - apply keep_bind.
    { destruct (Z.gtb_spec (pm_size (dag_announced (this c))) 0) as [Hsz|]; [|apply keep_ret].
      destruct (pm_values (dag_announced (this c))) as [|p ps'] eqn:Epv; [|apply keep_ret].
      apply pm_values_nil in Epv. rewrite Epv in Hsz. by compute in Hsz. }
    intros src. apply keep_bind; [by apply deref_peer_ok|intros parent].
    apply keep_bind; [apply with_sys_ok; intros; by apply add_parent_route_safe|intros _].
    apply safe_when. apply keep_bind; [|intros; apply keep_ret].
    apply with_sys_ok. intros. by apply add_parent_route_safe.
  - intros _. apply (safe_weaken _ (ctx_ok n) _ _ (fun _ => ctx_ok n));
      [apply maybe_schedule_dio_safe|by intros ? []|done].
Qed.

Lemma dag_receive_daoack_returns from daoack : safe_dag (dag_receive_daoack from daoack).
Proof.
  intros c Hc. unfold dag_receive_daoack. rewrite (bind_ok _ _ c (this c) c) by done. unfold id.
  destruct (dag_bestparent (this c)) as [a|] eqn:Ha; [|by apply dag_count_safe].
  pose proof Hc as (t & Hq & He & (_ & _ & Hb & _)). destruct (Hb a Ha) as [[pn Hm] _].
  rewrite (bind_ok _ _ c pn c) by (unfold deref_peer; by rewrite Hm).
  case_bool; [by apply dag_count_safe|]. case_bool; [by apply dag_count_safe|].
  apply commit_parent_safe. split; [done|by exists a].
Qed.
End dag.
