(* ===== verification/Handlers.v ===== *)
(** What the handlers of the four messages do: the choice of the parent as a
    function of the DAG and the message, the handlers as functions of the decoded
    message, and the theorems about them.

    The specifications [dio_spec] and [dao_spec] take what the message says; the
    refinement theorems say that the handlers of the code, which scan bytes, do
    the same. *)

From Stdlib Require Import ZArith Lia String.
From stdpp Require Import base list gmap numbers strings.
From S2P Require Import Prelude Wire Subopt Event Prefix State Iface Build Dag DagFacts Safety.
#[local] Open Scope Z_scope.

(** * Specifications *)

(** Why a DIO is not followed; [None]: it is. *)
Definition verdict (d : dag_network) (peer : in6_addr) (dio : Dio.nd_rpl_dio) : option packet_stats :=
  if Dio.rpl_dagrank dio >? mBestRank d then Some PS_LOWER_RANK_REJECTED
  else if bool_decide (dag_bestparent d = Some peer) || bool_decide (dag_parent d = Some peer)
  then Some PS_SAME_PARENT_IGNORED
  else if negb (mDTSN d =? INVALID_SEQUENCE) && (mDTSN d >=? Dio.rpl_dtsn dio)
  then Some PS_SAME_SEQUENCE_IGNORED
  else None.

(** What the DAG takes over from the DIO it follows. *)
Definition follow (peer : in6_addr) (i : nat) (dio : Dio.nd_rpl_dio) (d : dag_network) : dag_network :=
  d <| mDTSN := Dio.rpl_dtsn dio |>
    <| mBestRank := Dio.rpl_dagrank dio |>
    <| mMyRank := Dio.rpl_dagrank dio + 1 |>
    <| mGrounded := negb (RPL_DIO_GROUNDED (Dio.rpl_mopprf dio) =? 0) |>
    <| mInstanceid := Dio.rpl_instanceid dio |>
    <| mVersion := Dio.rpl_version dio |>
    <| mMode := RPL_DIO_MOP (Dio.rpl_mopprf dio) |>
    <| mDagid := Dio.rpl_dagid dio |>
    <| dag_bestparentif := Some i |>
    <| dag_bestparent := Some peer |>.

Section specs.
Context `{EventHeap, PrefixMapSem}.

Definition choose_spec (peer : in6_addr) (i : nat) (dio : Dio.nd_rpl_dio) (prefixes : list ip_subnet)
  : M ctx unit :=
  d ← dag_get id;
  dag_count PS_LOWER_RANK_CONSIDERED ;;
  match verdict d peer dio with
  | Some why => dag_count why
  | None =>
      dag_upd (follow peer i dio) ;;
      for_each prefixes (add_prefix i) ;;
      d ← dag_get id;
      (match dag_parent d with Some _ => maybe_schedule_dio | None => mret tt end) ;;
      maybe_send_dao
  end.

Definition dio_spec (i : nat) (from : in6_addr) (now : Z) (dio : Dio.nd_rpl_dio)
    (prefixes : list ip_subnet) : M ctx unit :=
  dag_count PS_PACKET_RECEIVED ;;
  dag_count PS_DIO_PACKET_RECEIVED ;;
  d ← dag_get id;
  if seq_too_old d (Dio.rpl_dtsn dio) && negb (Dio.rpl_dtsn dio =? 0)
     && negb (stat PS_DIO_PACKET_RECEIVED (mStats d) =? 1)
  then dag_count PS_SEQ_OLD
  else
    peer ← update_node i from now;
    match peer with
    | None => mret tt
    | Some peer =>
        dag_upd (seq_update (Dio.rpl_dtsn dio)) ;;
        d ← dag_get id;
        if mActive d then choose_spec peer i dio prefixes ;; dag_count PS_PACKET_PROCESSED
        else dag_count PS_PACKETS_WATCHED
    end.

Definition dao_spec (i : nat) (from : in6_addr) (now : Z) (dao : Dao.nd_rpl_dao)
    (targets : list ip_subnet) : M ctx unit :=
  dag_count PS_PACKET_RECEIVED ;;
  dag_count PS_DAO_PACKET_RECEIVED ;;
  peer ← update_node i from now;
  match peer with
  | None => mret tt
  | Some peer =>
      d ← dag_get id;
      if mActive d then
        for_each targets (add_childnode peer i) ;;
        maybe_send_dao ;;
        when (negb (RPL_DAO_K (Dao.rpl_flags dao) =? 0)) (send_daoack i peer (Dao.rpl_daoseq dao)) ;;
        dag_count PS_PACKET_PROCESSED
      else dag_count PS_PACKETS_WATCHED
  end.
End specs.

(** * What the methods leave alone in the shared state *)
Definition sys_same {T} (f : sys -> T) (s s' : sys) : Prop := f s' = f s.
#[global] Instance sys_same_preorder {T} (f : sys -> T) : PreOrder (sys_same f).
Proof. split; [by intros s|]. intros a b c ? ?. unfold sys_same in *. congruence. Qed.
Definition shared_same {T} (f : sys -> T) (c c' : ctx) : Prop := f (shared c') = f (shared c).
#[global] Instance shared_same_preorder {T} (f : sys -> T) : PreOrder (shared_same f).
Proof. split; [by intros s|]. intros a b c ? ?. unfold shared_same in *. congruence. Qed.

Section shared_same.
Context {T : Type} (f : sys -> T).
Lemma shared_with_sys {A} (m : M sys A) : keeps (sys_same f) m -> keeps (shared_same f) (with_sys m).
Proof.
  intros Hm c a c'. unfold with_sys, zoom. destruct (m _) as [[b s]|] eqn:E; [|done].
  intros [= _ <-]. exact (Hm _ _ _ E).
Qed.
Lemma shared_dag_upd g : keeps (shared_same f) (dag_upd g).
Proof. intros c a c' [= _ <-]. done. Qed.
Lemma shared_dag_get {A} (g : dag_network -> A) : keeps (shared_same f) (dag_get g).
Proof. intros c a c' [= _ <-]. done. Qed.
Lemma shared_with_member a g : keeps (shared_same f) (with_member a g).
Proof. intros c x c' [= _ <-]. done. Qed.
Lemma shared_deref a : keeps (shared_same f) (deref_peer a).
Proof. intros c x c'. unfold deref_peer. case_match; [|done]. by intros [= _ <-]. Qed.
Lemma sys_get_iface i : keeps (sys_same f) (get_iface i).
Proof. intros s x s'. unfold get_iface. case_match; [done|]. case_match; [|done]. by intros [= _ <-]. Qed.
End shared_same.
#[export] Hint Resolve shared_with_sys shared_dag_upd shared_dag_get shared_with_member shared_deref
  sys_get_iface : keep.
#[export] Hint Extern 2 (keeps (sys_same _) (modify _)) =>
  (apply keeps_modify; intros []; reflexivity) : keep.

(** Everything but the interfaces. *)
Definition off_iface (s : sys) :=
  (things_to_do s, out s, globalStats s, all_if s, junk_bytes s, terminating_soon s).

Section update_node_frame.
Lemma off_iface_upd i g : keeps (sys_same off_iface) (upd_iface i g).
Proof. unfold upd_iface. keep. Qed.
Hint Resolve off_iface_upd : keep.
Lemma off_iface_index i : keeps (sys_same off_iface) (get_if_index i).
Proof. unfold get_if_index. keep. Qed.
Hint Resolve off_iface_index : keep.
Lemma off_iface_update_node i from now : keeps (shared_same off_iface) (update_node i from now).
Proof. unfold update_node, dag_count. keep. Qed.
End update_node_frame.
#[export] Hint Resolve off_iface_upd off_iface_index off_iface_update_node : keep.

(** * Refinement *)
Section refinement.
Context `{EventHeap, PrefixMapSem}.

Lemma choose_refines peer i dio m os c : msg_of m RPL_DIO_DESTPREFIX os ->
  Forall pio_ok (select RPL_DIO_DESTPREFIX os) ->
  potentially_lower_rank peer i dio m c =
    choose_spec peer i dio (pio_subnet <$> select RPL_DIO_DESTPREFIX os) c.
Proof.
  intros (m' & -> & Hs & Hf) Hpio. unfold potentially_lower_rank, choose_spec.
  apply bind_cong. intros d c1 [= <- <-]. apply bind_cong. intros [] c2 _. unfold verdict, id.
  repeat (case_bool; [done|]). apply bind_cong. intros [] c3 _.
  rewrite (bind_ok _ _ c3 m' c3) by done.
  unfold mbind at 1, M_bind at 1. rewrite (pio_loop_refines i scan_fuel m' [] os c3 Hs Hpio Hf). done.
Qed.

Lemma junk_kept c c' : off_iface (shared c') = off_iface (shared c) ->
  junk_bytes (shared c') = junk_bytes (shared c).
Proof. unfold off_iface. by intros [=]. Qed.

Lemma dio_refines i from now dio os post c :
  Dio.wf dio -> Forall tlv_wf os -> Forall pio_ok (select RPL_DIO_DESTPREFIX os) ->
  zlen (enc os) <= 2048 -> length (junk_bytes (shared c)) = 2048%nat ->
  dag_receive_dio i from now (Dio.encode dio ++ enc os ++ post) (Dio.size + zlen (enc os)) c =
    dio_spec i from now dio (pio_subnet <$> select RPL_DIO_DESTPREFIX os) c.
Proof.
  intros Hwf Hos Hpio Hlen Hj. unfold dag_receive_dio, dio_spec.
  rewrite (bind_ok _ _ c dio c) by (unfold lift; by rewrite overlay_dio).
  apply bind_cong. intros [] c1 [= <-]. apply bind_cong. intros [] c2 [= <-].
  apply bind_cong. intros d c3 [= _ <-]. case_bool; [done|].
  apply bind_cong. intros peer c4 Hup. apply off_iface_update_node in Hup. apply junk_kept in Hup.
  destruct peer as [peer|]; [|done]. apply bind_cong. intros [] c5 [= <-].
  apply bind_cong. intros d' c6 [= _ <-]. destruct (mActive d'); cbn [negb]; [|done].
  set (c7 := c4 <| this ::= _ |>).
  rewrite (bind_ok _ _ c7 (shared c7) c7) by (unfold with_sys, zoom, get; by destruct c7).
  unfold mbind at 1, M_bind at 1.
  replace (Dio.size + zlen (enc os) - Dio.size) with (zlen (enc os)) by lia.
  pose proof (init_msg_of (junk_bytes (shared c7)) (Dio.encode dio) os post RPL_DIO_DESTPREFIX) as Hm.
  rewrite (Dio.encode_len _ Hwf) in Hm.
  rewrite (choose_refines peer i dio _ os c7); [done| |done].
  apply Hm; [by change (shared c7) with (shared c4); rewrite Hup|done..].
Qed.

(** C6: For every well-formed DIO, the handler that scans the bytes does what
    the specification does with the decoded message: the sequence check, the
    choice of the parent and one [add_prefix] for every prefix information
    option, in order. *)
Theorem receive_dio_refines i from now dio os post c :
  Dio.wf dio -> Forall tlv_wf os -> Forall pio_ok (select RPL_DIO_DESTPREFIX os) ->
  zlen (enc os) <= 2048 -> length (junk_bytes (shared c)) = 2048%nat ->
  dag_receive_dio i from now (Dio.encode dio ++ enc os ++ post) (Dio.size + zlen (enc os)) c =
    dio_spec i from now dio (pio_subnet <$> select RPL_DIO_DESTPREFIX os) c.
Proof. apply dio_refines. Qed.

Lemma dao_refines i from now dao pre os post c :
  Forall tlv_wf os -> Forall target_ok (select RPL_DAO_RPLTARGET os) ->
  zlen (enc os) <= 2048 -> length (junk_bytes (shared c)) = 2048%nat ->
  dag_receive_dao i from now dao (pre ++ enc os ++ post) (zlen pre) (zlen (enc os)) c =
    dao_spec i from now dao (target_subnet <$> select RPL_DAO_RPLTARGET os) c.
Proof.
  intros Hos Htg Hlen Hj. unfold dag_receive_dao, dao_spec.
  apply bind_cong. intros [] c1 [= <-]. apply bind_cong. intros [] c2 [= <-].
  apply bind_cong. intros peer c4 Hup. apply off_iface_update_node in Hup. apply junk_kept in Hup.
  destruct peer as [peer|]; [|done].
  apply bind_cong. intros d' c6 [= _ <-]. destruct (mActive d'); cbn [negb]; [|done].
  rewrite (bind_ok _ _ c4 (shared c4) c4) by (unfold with_sys, zoom, get; by destruct c4).
  destruct (init_msg_of (junk_bytes (shared c4)) pre os post RPL_DAO_RPLTARGET) as (m & Hm & Hs & Hf);
    [by rewrite Hup|done..|].
  rewrite (bind_ok _ _ c4 m c4) by (unfold lift; by rewrite Hm).
  unfold mbind at 1, M_bind at 1. rewrite (target_loop_refines peer i scan_fuel m [] os c4 Hs Htg Hf).
  done.
Qed.

(** C7: For every well-formed DAO, the handler does what the specification does
    with the decoded targets: one [add_childnode] for each, in order, then the
    DAO of its own and the acknowledgement that was asked for. *)
Theorem receive_dao_refines i from now dao pre os post c :
  Forall tlv_wf os -> Forall target_ok (select RPL_DAO_RPLTARGET os) ->
  zlen (enc os) <= 2048 -> length (junk_bytes (shared c)) = 2048%nat ->
  dag_receive_dao i from now dao (pre ++ enc os ++ post) (zlen pre) (zlen (enc os)) c =
    dao_spec i from now dao (target_subnet <$> select RPL_DAO_RPLTARGET os) c.
Proof. apply dao_refines. Qed.
End refinement.

(** * Memory safety *)
Section memory_safety.
Context `{EventHeapLaws, PrefixMapLaws} (n : nat).

(** A well-formed DIO, with any options, prefixes of at most 128 bits and
    any bytes behind it, is handled without a fault from every good state, and
    leaves a good state: pointers valid, queue and events consistent. *)
Lemma receive_dio_safe i from now dio os post c : (i < n)%nat ->
  Dio.wf dio -> Forall tlv_wf os -> Forall pio_ok (select RPL_DIO_DESTPREFIX os) ->
  zlen (enc os) <= 2048 -> ctx_ok n c ->
  exists c', dag_receive_dio i from now (Dio.encode dio ++ enc os ++ post)
               (Dio.size + zlen (enc os)) c = Ok (tt, c') /\ ctx_ok n c'.
Proof.
  intros Hi Hwf Hos Hpio Hlen Hc.
  destruct (dag_receive_dio_returns n i from now dio os post Hi Hwf Hos Hpio Hlen c Hc)
    as ([] & c' & ? & ?). by exists c'.
Qed.

(** A well-formed DAO is handled without a fault from every good state in
    which the DAG has an identity of its own. *)
Lemma receive_dao_safe i from now dao pre os post c : (i < n)%nat ->
  Forall tlv_wf os -> Forall target_ok (select RPL_DAO_RPLTARGET os) -> zlen (enc os) <= 2048 ->
  ctx_ok n c -> identified (this c) ->
  exists c', dag_receive_dao i from now dao (pre ++ enc os ++ post) (zlen pre) (zlen (enc os)) c
               = Ok (tt, c') /\ ctx_ok n c'.
Proof.
  intros Hi Hos Htg Hlen Hc Hid.
  destruct (dag_receive_dao_returns n i from now dao pre os post Hi Hos Htg Hlen c (conj Hc Hid))
    as ([] & c' & ? & ?). by exists c'.
Qed.

(** Every DAO-ACK, from anyone, is handled without a fault. *)
Lemma receive_daoack_safe from daoack c : ctx_ok n c ->
  exists c', dag_receive_daoack from daoack c = Ok (tt, c') /\ ctx_ok n c'.
Proof. intros Hc. destruct (dag_receive_daoack_returns n from daoack c Hc) as ([] & c' & ? & ?). by exists c'. Qed.
End memory_safety.

(** * The choice of the parent *)
Section parents.
Context `{EventHeap, PrefixMapSem}.

Definition counted (xs : list packet_stats) (c : ctx) : ctx :=
  c <| this ::= (fun d => d <| mStats ::= (fun st => foldl (fun st x => bump (ps x) st) st xs) |>) |>.

(** Following a DIO, after the decision. *)
Definition after_follow (i : nat) (m : outcome rpl_msg) : M ctx unit :=
  m ← lift m;
  pio_loop scan_fuel i m ;;
  d ← dag_get id;
  (match dag_parent d with Some _ => maybe_schedule_dio | None => mret tt end) ;;
  maybe_send_dao.

Lemma choose_cases peer i dio m c :
  potentially_lower_rank peer i dio m c =
    match verdict (this c) peer dio with
    | Some why => Ok (tt, counted [PS_LOWER_RANK_CONSIDERED; why] c)
    | None => after_follow i m
        (counted [PS_LOWER_RANK_CONSIDERED] c <| this ::= follow peer i dio |>)
    end.
Proof.
  unfold potentially_lower_rank, verdict. rewrite (bind_ok _ _ c (this c) c) by done.
  rewrite (bind_ok _ _ c tt (counted [PS_LOWER_RANK_CONSIDERED] c)) by done.
  repeat (case_bool; [done|]). by rewrite (bind_ok _ _ _ tt
    (counted [PS_LOWER_RANK_CONSIDERED] c <| this ::= follow peer i dio |>)) by done.
Qed.

Lemma core_after_follow i m : keeps (same core) (after_follow i m).
Proof.
  unfold after_follow. apply keeps_bind; [apply _|apply keeps_lift; apply _|intros m'].
  apply keeps_bind; [apply _|apply core_pio_loop|intros _].
  apply keeps_bind; [apply _|apply same_dag_get|intros d].
  apply keeps_bind; [apply _| |intros _; apply core_maybe_send_dao].
  destruct (dag_parent d); [apply core_maybe_schedule_dio|apply keeps_ret; apply _].
Qed.

(** A DIO whose rank is worse than the best rank seen, or that comes from
    the parent or the candidate parent, or whose sequence number is not newer,
    changes nothing but two counters. *)
Lemma dio_not_followed peer i dio m c why :
  verdict (this c) peer dio = Some why ->
  potentially_lower_rank peer i dio m c = Ok (tt, counted [PS_LOWER_RANK_CONSIDERED; why] c).
Proof. intros Hv. by rewrite choose_cases, Hv. Qed.

(** The rank only goes down, and the node's own rank is one more than its
    parent's from the first DIO that is followed on. *)
Definition rank_step (c c' : ctx) : Prop :=
  mBestRank (this c') <= mBestRank (this c) /\
  ((mBestRank (this c') = mBestRank (this c) /\ mMyRank (this c') = mMyRank (this c)) \/
   mMyRank (this c') = mBestRank (this c') + 1).
#[local] Instance rank_step_preorder : PreOrder rank_step.
Proof.
  split; [intros c; split; [lia|by left]|]. intros a b c [H1 Hb] [H2 Hc]. split; [lia|].
  destruct Hc as [[-> ->]|?]; [|by right]. destruct Hb as [[-> ->]|?]; [by left|by right].
Qed.

Lemma rank_of_core c c' : same core c c' -> rank_step c c'.
Proof. unfold same, core, rank_step. intros [= _ _ _ _ -> -> _ _ _ _ _ _ _ _ _ _ _ _]. split; [lia|by left]. Qed.
Lemma rank_with_member a f : keeps rank_step (with_member a f).
Proof. intros c x c' [= _ <-]. split; [done|by left]. Qed.
Lemma rank_with_sys {A} (m : M sys A) : keeps rank_step (with_sys m).
Proof. intros c a c' E. apply rank_of_core. by eapply same_with_sys. Qed.
Lemma rank_count x : keeps rank_step (dag_count x).
Proof. intros c a c' [= _ <-]. split; [done|by left]. Qed.
Lemma rank_dag_get {T} (f : dag_network -> T) : keeps rank_step (dag_get f).
Proof. intros c a c' [= _ <-]. split; [done|by left]. Qed.
Lemma rank_seq seq : keeps rank_step (dag_upd (seq_update seq)).
Proof.
  intros c a c' [= _ <-]. unfold seq_update, rank_step. cbn.
  repeat case_bool; (split; [done|by left]).
Qed.
Hint Resolve rank_with_member rank_with_sys rank_count rank_dag_get rank_seq : keep.
Lemma rank_update_node i from now : keeps rank_step (update_node i from now).
Proof. unfold update_node. keep. Qed.
Lemma rank_choose peer i dio m : keeps rank_step (potentially_lower_rank peer i dio m).
Proof.
  intros c [] c' E. rewrite choose_cases in E. destruct (verdict _ _ _) eqn:Hv.
  - injection E as <-. split; [done|by left].
  - apply core_after_follow in E. unfold same, core in E.
    injection E as _ _ _ _ Hm Hb _ _ _ _ _ _ _ _ _ _ _ _. unfold rank_step. rewrite Hb, Hm. cbn.
    split; [|by right]. unfold verdict in Hv. destruct (_ >? _) eqn:E; [done|]. zbool. exact E.
Qed.
Hint Resolve rank_update_node rank_choose : keep.

(** C11: Whatever bytes arrive, a DIO never makes the best rank worse, and if it
    changes a rank at all then the node's own rank is the new best one plus 1. *)
Theorem rank_never_worsens i from now dat len c c' :
  dag_receive_dio i from now dat len c = Ok (tt, c') -> rank_step c c'.
Proof.
  revert c c'. assert (keeps rank_step (dag_receive_dio i from now dat len)) as Hk.
  { unfold dag_receive_dio. keep. }
  intros c c'. apply Hk.
Qed.

(** A rank of 65535 is accepted, and the node then advertises rank 0. *)
Lemma worst_rank_advertised_as_zero peer i dio m c c' :
  verdict (this c) peer dio = None -> Dio.rpl_dagrank dio = 65535 ->
  potentially_lower_rank peer i dio m c = Ok (tt, c') ->
  mMyRank (this c') = 65536 /\ Dio.rpl_dagrank (dio_of (this c')) = 0.
Proof.
  intros Hv Hr E. rewrite choose_cases, Hv in E. apply core_after_follow in E. unfold same, core in E.
  injection E as _ _ _ _ Hm _ _ _ _ _ _ _ _ _ _ _ _ _. cbn [this upd] in Hm.
  assert (mMyRank (this c') = 65536) as HR by (rewrite Hm; cbn; lia).
  split; [done|]. unfold dio_of. cbn. by rewrite HR.
Qed.

(** A prefix information option of more than 128 bits overruns the 16 bytes
    the prefix is copied to. *)
Lemma long_prefix_overflows peer i dio m os data rest c :
  verdict (this c) peer dio = None -> searching m RPL_DIO_DESTPREFIX [] os ->
  select RPL_DIO_DESTPREFIX os = data :: rest -> 30 <= zlen data -> 128 < data !!! 0%nat ->
  potentially_lower_rank peer i dio (Ok m) c = Fault OutOfBounds.
Proof.
  intros Hv Hs Hsel Hd Hlen. rewrite choose_cases, Hv. unfold after_follow. set (c1 := _ <| this ::= _ |>).
  rewrite (bind_ok _ _ c1 m c1) by done.
  assert (exists k, scan_fuel = S k) as [k ->] by by eexists. apply bind_fault. cbn [pio_loop].
  destruct (search_next m RPL_DIO_DESTPREFIX [] os ltac:(by compute) Hs)
    as [(Hnil & _)|(pre & data' & post & m' & -> & Hpre & Hrun & Hs' & Hmb & [q Hq])]; [congruence|].
  assert (data' = data) as ->.
  { unfold select in Hsel, Hpre. rewrite omap_app in Hsel. fold (select RPL_DIO_DESTPREFIX pre) in Hsel.
    unfold select in Hsel. rewrite Hpre in Hsel. cbn in Hsel. by injection Hsel. }
  rewrite (bind_ok _ _ c1 (m', Some (zlen (enc ([] ++ pre))), false) c1); cycle 1.
  { unfold lift, destprefix. rewrite Hrun. cbn [mbind outcome_bind]. unfold Opt.destprefix_size.
    by rewrite (proj2 (Z.ltb_ge _ _)) by lia. }
  cbn beta iota. rewrite (bind_ok _ _ c1 tt c1) by done.
  rewrite (bind_ok _ _ c1 (data !!! 0%nat) c1); cycle 1.
  { unfold lift. by rewrite Hmb, Hq, rd_mid by (rewrite !zlen_cons; lia). }
  apply bind_fault. unfold lift, v6bytes_of.
  destruct (rd_range _ _ _) as [bs|f] eqn:Er; cbn [mbind outcome_bind].
  - apply rd_range_inv in Er as (_ & _ & _ & Hl & _).
    assert (17 <= (data !!! 0%nat + 7) / 8) by (Z.to_euclidean_division_equations; lia).
    unfold wr_range. rewrite zlen_zeros, Hl. cbn [Z.leb Z.compare andb].
    by rewrite (proj2 (Z.leb_gt (0 + _) _)) by lia.
  - unfold rd_range in Er. by case_match; [|injection Er as <-].
Qed.
End parents.

(** * A DIO that is followed *)
Section followed.
Context `{EventHeapLaws, PrefixMapLaws} (n : nat).

(** C10: Any other DIO is followed: the handler returns in a good state, the
    sender is the best parent, and the rank, the instance, the version, the
    mode, the DODAG id and the sequence number are those of the message. *)
Theorem dio_followed peer i dio m os c : (i < n)%nat ->
  msg_of m RPL_DIO_DESTPREFIX os -> Forall pio_ok (select RPL_DIO_DESTPREFIX os) ->
  ctx_ok n c -> is_Some (dag_members (this c) !! peer) -> verdict (this c) peer dio = None ->
  exists c', potentially_lower_rank peer i dio m c = Ok (tt, c') /\ ctx_ok n c' /\
    core (this c') = core (follow peer i dio (this c)).
Proof.
  intros Hi Hm Hpio Hc Hp Hv.
  destruct (potentially_lower_rank_safe n peer i dio m os Hi Hm Hpio c (conj Hc Hp)) as ([] & c' & E & Hc').
  exists c'. split; [done|]. split; [done|].
  rewrite choose_cases, Hv in E. apply core_after_follow in E. exact E.
Qed.
End followed.

(** * A DAG that only watches *)
Section watching.
Context `{EventHeap, PrefixMapSem}.

(** All of the DAG but its counters, its members and the last sequence number. *)
Definition quiet (d : dag_network) :=
  (mActive d, mMyRank d, mBestRank d, (dag_parent d, dag_parentif d, dag_bestparent d, dag_bestparentif d),
   mDTSN d, mDAOSequence d, (dag_children d, dag_announced d, dag_prefixes d), dag_me d, dao_needed d,
   mPrefix d, (mSendDioEvent d, mSendDaoEvent d)).
Definition silent (c c' : ctx) : Prop := shared_same off_iface c c' /\ same quiet c c'.
#[local] Instance silent_preorder : PreOrder silent.
Proof.
  split; [by intros c|]. intros a b c [H1 H2] [H3 H4]. split; [by transitivity b|by transitivity b].
Qed.

Lemma silent_both {A} (m : M ctx A) : keeps (shared_same off_iface) m -> keeps (same quiet) m -> keeps silent m.
Proof. intros Hs Hq c a c' E. split; [by eapply Hs|by eapply Hq]. Qed.
Lemma silent_count x : keeps silent (dag_count x).
Proof. intros c a c' [= _ <-]. done. Qed.
Lemma silent_seq seq : keeps silent (dag_upd (seq_update seq)).
Proof. intros c a c' [= _ <-]. split; [done|]. unfold seq_update, same. cbn. by repeat case_bool. Qed.
Lemma silent_get {T} (f : dag_network -> T) : keeps silent (dag_get f).
Proof. intros c a c' [= _ <-]. done. Qed.
Lemma quiet_with_member a f : keeps (same quiet) (with_member a f).
Proof. intros c x c' [= _ <-]. done. Qed.
Hint Resolve quiet_with_member : keep.
Lemma silent_update_node i from now : keeps silent (update_node i from now).
Proof. apply silent_both; [apply off_iface_update_node|]. unfold update_node, dag_count. keep. Qed.
Hint Resolve silent_count silent_seq silent_get silent_update_node : keep.

Lemma silent_inactive c c' : silent c c' -> mActive (this c) = false -> mActive (this c') = false.
Proof. intros [_ Hq]. unfold same, quiet in Hq. injection Hq. congruence. Qed.

(** The handlers ask whether the DAG is active after what they always do. *)
Lemma silent_guard c (m : dag_network -> M ctx unit) r c' : mActive (this c) = false ->
  (d ← dag_get id; if negb (mActive d) then dag_count PS_PACKETS_WATCHED else m d) c = Ok (r, c') ->
  silent c c'.
Proof.
  intros Hc E. rewrite (bind_ok _ _ c (this c) c) in E by done. rewrite Hc in E.
  exact (silent_count _ _ _ _ E).
Qed.

(** A DAG that is only watched sends nothing, schedules nothing, installs
    nothing and follows nobody, whatever DIO or DAO arrives for it. *)
Lemma watching_is_silent c i from now : mActive (this c) = false ->
  (forall dat len c', dag_receive_dio i from now dat len c = Ok (tt, c') -> silent c c') /\
  (forall dao dat off len c', dag_receive_dao i from now dao dat off len c = Ok (tt, c') -> silent c c').
Proof.
  intros Hc. split.
  - intros dat len c' E. unfold dag_receive_dio in E.
    apply bind_inv in E as (dio & c0 & E0 & E). unfold lift in E0.
    destruct (Dio.overlay dat 0); [|done]. injection E0 as -> <-.
    apply bind_inv in E as ([] & c1 & E1%silent_count & E). apply bind_inv in E as ([] & c2 & E2%silent_count & E).
    apply bind_inv in E as (d & c3 & E3%silent_get & E).
    assert (silent c c3) as Hs by (transitivity c1; [done|]; by transitivity c2).
    transitivity c3; [done|]. apply silent_inactive in Hs; [|done].
    case_bool; [by eapply silent_count|].
    apply bind_inv in E as (peer & c4 & E4%silent_update_node & E). transitivity c4; [done|].
    apply silent_inactive in E4; [|done]. destruct peer as [peer|]; [|by injection E as <-].
    apply bind_inv in E as ([] & c5 & E5%silent_seq & E). transitivity c5; [done|].
    apply silent_inactive in E5; [|done]. revert E. by apply silent_guard.
  - intros dao dat off len c' E. unfold dag_receive_dao in E.
    apply bind_inv in E as ([] & c1 & E1%silent_count & E). apply bind_inv in E as ([] & c2 & E2%silent_count & E).
    assert (silent c c2) as Hs by by transitivity c1.
    transitivity c2; [done|]. apply silent_inactive in Hs; [|done].
    apply bind_inv in E as (peer & c4 & E4%silent_update_node & E). transitivity c4; [done|].
    apply silent_inactive in E4; [|done]. destruct peer as [peer|]; [|by injection E as <-].
    revert E. by apply silent_guard.
Qed.
End watching.

(** * Witnesses *)
Section witnesses.
Let map : PrefixMapSem := ordered_map.
#[local] Existing Instance map.
#[local] Instance map_laws : @PrefixMapLaws map := ordered_map_laws.

Lemma example_ok ms : ctx_ok 1 (Example.ctx <| this ::= (fun d => d <| dag_members ::= ms |>) |>).
Proof.
  exists Example.timers. split; [split_and!; [constructor| |]|split].
  - intros i Hi. by apply elem_of_nil in Hi.
  - by intros i e He.
  - split_and!; try done. repeat constructor.
  - split_and!; try done. by eexists.
Qed.
Lemma example_ctx_ok : ctx_ok 1 Example.ctx.
Proof. exact (example_ok id). Qed.

Definition example_dio (rank : Z) : Dio.nd_rpl_dio := Dio.mk 1 3 rank 144 7 0 0 Example.dagid.
Definition example_pio : tlv := Tlv RPL_DIO_DESTPREFIX ([64; 64] ++ zeros 12 ++ Example.prefix64).
Definition example_target : tlv := Tlv RPL_DAO_RPLTARGET ([0; 128] ++ Example.peer_addr).
Definition example_peer : ctx :=
  Example.ctx <| this ::= (fun d => d <| dag_members ::= <[Example.peer_addr := Example.node]> |>) |>.

Lemma example_dio_wf rank : 0 <= rank < 65536 -> Dio.wf (example_dio rank).
Proof. intros. unfold Dio.wf. cbn. split_and!; try done; try lia; by apply (bool_decide_unpack _); vm_compute. Qed.
Lemma example_peer_ok : ctx_ok 1 example_peer.
Proof. exact (example_ok _). Qed.
Lemma example_msg rest : exists m, rpl_msg_init (zeros 2048) (enc [example_pio] ++ rest) 0 32 = Ok m /\
  msg_of (Ok m) RPL_DIO_DESTPREFIX [example_pio] /\ searching m RPL_DIO_DESTPREFIX [] [example_pio].
Proof.
  destruct (init_msg_of (zeros 2048) [] [example_pio] rest RPL_DIO_DESTPREFIX) as (m & Hm & Hs & Hf);
    [by vm_compute|by repeat constructor|by compute|by compute|].
  exists m. split; [exact Hm|]. split; [|done]. by exists m.
Qed.

Lemma receive_dio_refines_witness :
  dag_receive_dio 0 Example.peer_addr 1000
    (Dio.encode (example_dio 256) ++ enc [example_pio; Pad0] ++ [9]) 57 Example.ctx =
  dio_spec 0 Example.peer_addr 1000 (example_dio 256) [subnet6 Example.prefix64 64] Example.ctx.
Proof.
  apply (receive_dio_refines 0 Example.peer_addr 1000 (example_dio 256) [example_pio; Pad0] [9] Example.ctx);
    [by apply example_dio_wf|by repeat constructor|by repeat constructor|by compute|by vm_compute].
Defined.

Lemma receive_dao_refines_witness :
  dag_receive_dao 0 Example.peer_addr 1000 (Dao.mk 1 192 0 4) ([1; 2; 3; 4] ++ enc [example_target] ++ []) 4 20 Example.ctx =
  dao_spec 0 Example.peer_addr 1000 (Dao.mk 1 192 0 4) [subnet6 Example.peer_addr 128] Example.ctx.
Proof.
  apply (receive_dao_refines 0 Example.peer_addr 1000 (Dao.mk 1 192 0 4) [1; 2; 3; 4] [example_target] [] Example.ctx);
    [by repeat constructor|by repeat constructor|by compute|by vm_compute].
Defined.

Lemma receive_dio_safe_witness :
  exists c', dag_receive_dio 0 Example.peer_addr 1000
      (Dio.encode (example_dio 256) ++ enc [example_pio; Pad0] ++ [9]) 57 Example.ctx = Ok (tt, c') /\ ctx_ok 1 c'.
Proof.
  apply (receive_dio_safe 1 0 Example.peer_addr 1000 (example_dio 256) [example_pio; Pad0] [9] Example.ctx);
    [lia|by apply example_dio_wf|by repeat constructor|by repeat constructor|by compute|exact example_ctx_ok].
Defined.

Lemma receive_dao_safe_witness :
  exists c', dag_receive_dao 0 Example.peer_addr 1000 (Dao.mk 1 192 0 4)
      ([1; 2; 3; 4] ++ enc [example_target] ++ []) 4 20 Example.ctx = Ok (tt, c') /\ ctx_ok 1 c'.
Proof.
  apply (receive_dao_safe 1 0 Example.peer_addr 1000 (Dao.mk 1 192 0 4) [1; 2; 3; 4] [example_target] [] Example.ctx);
    [lia|by repeat constructor|by repeat constructor|by compute|exact example_ctx_ok|intros _; split; [by eexists|done]].
Defined.

Lemma receive_daoack_safe_witness :
  exists c', dag_receive_daoack Example.peer_addr (DaoAck.mk 1 128 1 0) Example.ctx = Ok (tt, c') /\ ctx_ok 1 c'.
Proof. apply (receive_daoack_safe 1 Example.peer_addr (DaoAck.mk 1 128 1 0) Example.ctx), example_ctx_ok. Defined.

Lemma dio_not_followed_witness :
  let c := Example.ctx <| this ::= (fun d => d <| mBestRank := 512 |>) |> in
  potentially_lower_rank Example.peer_addr 0 (example_dio 513) (Fault OutOfBounds) c =
    Ok (tt, counted [PS_LOWER_RANK_CONSIDERED; PS_LOWER_RANK_REJECTED] c).
Proof.
  by apply (dio_not_followed Example.peer_addr 0 (example_dio 513) (Fault OutOfBounds)
    (Example.ctx <| this ::= (fun d => d <| mBestRank := 512 |>) |>)).
Defined.

Lemma rank_never_worsens_witness :
  exists c', dag_receive_dio 0 Example.peer_addr 1000 (Dio.encode (example_dio 256)) 24 Example.ctx = Ok (tt, c') /\
    mBestRank (this c') = 256 /\ rank_step Example.ctx c'.
Proof.
  destruct (dag_receive_dio 0 Example.peer_addr 1000 (Dio.encode (example_dio 256)) 24 Example.ctx)
    as [[[] c']|] eqn:E; [|by vm_compute in E].
  exists c'. split; [done|]. split; [by vm_compute in E; injection E as <-|].
  exact (rank_never_worsens 0 Example.peer_addr 1000 _ 24 Example.ctx c' E).
Defined.

Lemma worst_rank_advertised_as_zero_witness :
  exists m c', potentially_lower_rank Example.peer_addr 0 (example_dio 65535) m example_peer = Ok (tt, c') /\
    mMyRank (this c') = 65536 /\ Dio.rpl_dagrank (dio_of (this c')) = 0.
Proof.
  destruct (potentially_lower_rank Example.peer_addr 0 (example_dio 65535)
    (rpl_msg_init (zeros 2048) [] 0 0) example_peer) as [[[] c']|] eqn:E; [|by vm_compute in E].
  exists (rpl_msg_init (zeros 2048) [] 0 0), c'. split; [exact E|].
  by apply (worst_rank_advertised_as_zero Example.peer_addr 0 (example_dio 65535)
    (rpl_msg_init (zeros 2048) [] 0 0) example_peer c').
Defined.

Lemma long_prefix_overflows_witness :
  exists m, searching m RPL_DIO_DESTPREFIX [] [Tlv RPL_DIO_DESTPREFIX (129 :: zeros 29)] /\
    potentially_lower_rank Example.peer_addr 0 (example_dio 256) (Ok m) example_peer = Fault OutOfBounds.
Proof.
  destruct (init_msg_of (zeros 2048) [] [Tlv RPL_DIO_DESTPREFIX (129 :: zeros 29)] [] RPL_DIO_DESTPREFIX)
    as (m & Hm & Hs & Hf); [by vm_compute|by repeat constructor|by compute|by compute|].
  exists m. split; [done|].
  by apply (long_prefix_overflows Example.peer_addr 0 (example_dio 256) m
    [Tlv RPL_DIO_DESTPREFIX (129 :: zeros 29)] (129 :: zeros 29) [] example_peer).
Defined.

Lemma dio_followed_witness :
  exists m c', potentially_lower_rank Example.peer_addr 0 (example_dio 256) m example_peer = Ok (tt, c') /\
    mMyRank (this c') = 257 /\ dag_bestparent (this c') = Some Example.peer_addr.
Proof.
  destruct (example_msg []) as (m & _ & Hm & _).
  destruct (dio_followed 1 Example.peer_addr 0 (example_dio 256) (Ok m) [example_pio] example_peer)
    as (c' & E & _ & Hcore); [lia|done|by repeat constructor|exact example_peer_ok|by eexists|done|].
  exists (Ok m), c'. split; [done|]. by injection Hcore.
Defined.

Lemma watching_is_silent_witness :
  let c := Example.ctx <| this ::= (fun d => d <| mActive := false |>) |> in
  exists c', dag_receive_dio 0 Example.peer_addr 1000 (Dio.encode (example_dio 256)) 24 c = Ok (tt, c') /\ silent c c'.
Proof.
  set (c := Example.ctx <| this ::= (fun d => d <| mActive := false |>) |>).
  destruct (dag_receive_dio 0 Example.peer_addr 1000 (Dio.encode (example_dio 256)) 24 c) as [[[] c']|] eqn:E;
    [|by vm_compute in E].
  exists c'. split; [exact E|]. by apply (proj1 (watching_is_silent c 0 Example.peer_addr 1000 eq_refl)) in E.
Defined.
End witnesses.
