(* ===== verification/Routes.v ===== *)
(** From messages to routes and timers: the acknowledgement that makes a parent
    the parent, the routes through it and to the children, the answer to a
    solicitation, and messages that travel from one DAG to another. *)

From Stdlib Require Import ZArith Lia String.
From stdpp Require Import base list gmap numbers strings.
From S2P Require Import Prelude Wire Subopt Event Prefix State Iface Build Dag DagFacts Safety Handlers.
#[local] Open Scope Z_scope.

(** * The parent *)

Definition parent_route (p : ip_subnet) (pn : rpl_node) (n : network_interface) (src : option ip_address)
  : list output :=
  [OCommand RouteShow; OCommand (RouteAddParent p (nodeip pn) (if_name n) src); OCommand (RouteDel p)].

(** The commands of [commit_parent], the latest first. *)
Definition commit_routes `{PrefixMapSem} (d : dag_network) (pn : rpl_node) (n : network_interface) : list output :=
  let src := option_map (fun p => sn_addr (mPrefix_ p)) (head (pm_values (dag_announced d))) in
  (if mGrounded d then parent_route default_route pn n src else []) ++ parent_route (mPrefix d) pn n src.

Section parent.
Context `{EventHeap, PrefixMapSem}.

Lemma out_with_timers {A} (m : M timers A) : keeps (sys_same out) (with_timers m).
Proof. intros s a s'. unfold with_timers, zoom. destruct (m _) as [[b t]|]; [|done]. by intros [= _ <-]. Qed.
Hint Resolve out_with_timers : keep.
Lemma out_schedule_dio ms : keeps (shared_same out) (schedule_dio ms).
Proof. unfold schedule_dio, arm_dag_event. keep. Qed.
Hint Resolve out_schedule_dio : keep.
Lemma out_maybe_schedule_dio : keeps (shared_same out) maybe_schedule_dio.
Proof. unfold maybe_schedule_dio. keep. Qed.

Lemma add_parent_route_run i p src pn n s : get_iface i s = Ok (n, s) ->
  add_parent_route_to_prefix i p src pn s = Ok (true, s <| out ::= app (parent_route p pn n src) |>).
Proof. intros E. unfold add_parent_route_to_prefix. by rewrite (bind_ok _ _ s n s). Qed.

Lemma get_iface_out i n s f : get_iface i s = Ok (n, s) ->
  get_iface i (s <| out ::= f |>) = Ok (n, s <| out ::= f |>).
Proof.
  unfold get_iface. cbn. case_match; [done|]. case_match; [|done]. by intros [= ->].
Qed.

Lemma core_parents d d' : core d' = core d ->
  dag_parent d' = dag_parent d /\ dag_parentif d' = dag_parentif d /\
  dag_bestparent d' = dag_bestparent d /\ dag_bestparentif d' = dag_bestparentif d.
Proof. unfold core. by intros [=]. Qed.

(** The state in which the timers are then set. *)
Definition committed (pn : rpl_node) (n : network_interface) (c : ctx) : ctx :=
  c <| this ::= (fun d => d <| dag_lastparent := dag_parent d |>
                            <| dag_parentif := dag_bestparentif d |> <| dag_parent := dag_bestparent d |>) |>
    <| shared ::= (fun s => s <| out ::= app (commit_routes (this c) pn n) |>) |>.

End parent.

Section commit.
Context `{EventHeapLaws, PrefixMapLaws} (n : nat).

Lemma commit_source c : (if pm_size (dag_announced (this c)) >? 0
           then match pm_values (dag_announced (this c)) with
                | p :: _ => mret (Some (sn_addr (mPrefix_ p))) | [] => fail UseAfterFree end
           else mret None : M ctx (option ip_address)) =
  mret (option_map (fun p => sn_addr (mPrefix_ p)) (head (pm_values (dag_announced (this c))))).
Proof.
  pose proof (pm_values_nil (dag_announced (this c))) as Hnil. case_bool; zbool.
  - destruct (pm_values _) eqn:Ev; [|done]. by rewrite (proj1 Hnil eq_refl) in E.
  - destruct (dag_announced (this c)) as [|x l] eqn:El.
    + by rewrite (proj2 Hnil eq_refl).
    + unfold pm_size in E. rewrite zlen_cons in E. pose proof (zlen_nonneg l). lia.
Qed.

Lemma commit_parent_run c a i pn ni :
  ~ (dag_bestparentif (this c) = dag_parentif (this c) /\ dag_bestparent (this c) = dag_parent (this c)) ->
  dag_bestparent (this c) = Some a -> dag_bestparentif (this c) = Some i ->
  dag_members (this c) !! a = Some pn -> get_iface i (shared c) = Ok (ni, shared c) ->
  commit_parent c = maybe_schedule_dio (committed pn ni c).
Proof.
  intros Hne Ha Hi Hm Hn. unfold commit_parent. rewrite (bind_ok _ _ c (this c) c) by done. unfold id.
  rewrite decide_False by done. rewrite Ha, Hi.
  match goal with |- context [dag_upd ?g] =>
    rewrite (bind_ok (dag_upd g) _ c tt (c <| this ::= g |>)) by done end.
  set (c1 := c <| this ::= _ |>). rewrite commit_source.
  set (src := option_map _ _).
  set (c2 := c1 <| shared ::= (fun s => s <| out ::= app (parent_route (mPrefix (this c)) pn ni src) |>) |>).
  set (c3 := if mGrounded (this c)
    then c2 <| shared ::= (fun s => s <| out ::= app (parent_route default_route pn ni src) |>) |> else c2).
  assert (forall r : M ctx unit, (src ← mret src; parent ← deref_peer a;
      with_sys (add_parent_route_to_prefix i (mPrefix (this c)) src parent) ;;
      when (groundedP (this c)) (with_sys (add_parent_route_to_default i src parent) ;; mret tt)) c1 = Ok (tt, c3)) as Hrun.
  { intros _. rewrite (bind_ok _ _ c1 src c1) by done.
    rewrite (bind_ok _ _ c1 pn c1) by (unfold deref_peer; replace (dag_members (this c1)) with (dag_members (this c)) by done; by rewrite Hm).
    assert (forall p k, get_iface i (shared k) = Ok (ni, shared k) ->
      with_sys (add_parent_route_to_prefix i p src pn) k =
        Ok (true, k <| shared ::= (fun s => s <| out ::= app (parent_route p pn ni src) |>) |>)) as Hadd.
    { intros p k Hk. unfold with_sys, zoom. rewrite (add_parent_route_run i p src pn ni _ Hk). by destruct k. }
    rewrite (bind_ok _ _ c1 true c2) by by apply Hadd.
    unfold when, groundedP. subst c3. destruct (mGrounded (this c)); [|done].
    unfold add_parent_route_to_default. rewrite (bind_ok _ _ c2 true
      (c2 <| shared ::= (fun s => s <| out ::= app (parent_route default_route pn ni src) |>) |>)); [done|].
    apply Hadd. by apply get_iface_out. }
  rewrite (bind_ok _ _ c1 tt c3) by by apply (Hrun (mret tt)). f_equal.
  subst c3 c2 c1. unfold committed, commit_routes. fold src. destruct (mGrounded (this c)); [|done].
  destruct c as [d s], s. cbn. by rewrite <-?app_assoc.
Qed.

(** C21: Committing the parent makes the best parent the parent and routes the
    prefix of the DAG through it, and everything else too when the DAG is
    grounded, from the first announced address; doing it again does nothing. *)
Theorem commit_parent_routes c a i pn ni : ctx_ok n c ->
  ~ (dag_bestparentif (this c) = dag_parentif (this c) /\ dag_bestparent (this c) = dag_parent (this c)) ->
  dag_bestparent (this c) = Some a -> dag_bestparentif (this c) = Some i ->
  dag_members (this c) !! a = Some pn -> get_iface i (shared c) = Ok (ni, shared c) ->
  exists c', commit_parent c = Ok (tt, c') /\ ctx_ok n c' /\
    dag_parent (this c') = Some a /\ dag_parentif (this c') = Some i /\
    out (shared c') = commit_routes (this c) pn ni ++ out (shared c) /\
    commit_parent c' = Ok (tt, c').
Proof.
  intros Hc Hne Ha Hi Hm Hn.
  assert (is_Some (dag_bestparent (this c))) as Hbest by by eexists.
  destruct (commit_parent_safe n c (conj Hc Hbest)) as ([] & c' & E & Hc').
  pose proof (commit_parent_run c a i pn ni Hne Ha Hi Hm Hn) as Hrun. rewrite E in Hrun. symmetry in Hrun.
  pose proof (core_maybe_schedule_dio _ _ _ Hrun) as Hcore. pose proof (out_maybe_schedule_dio _ _ _ Hrun) as Hout.
  assert (dag_parent (this c') = dag_bestparent (this c) /\ dag_parentif (this c') = dag_bestparentif (this c) /\
    dag_bestparent (this c') = dag_bestparent (this c) /\ dag_bestparentif (this c') = dag_bestparentif (this c))
    as (Hp & Hpi & Hb & Hbi) by by apply core_parents in Hcore. exists c'.
  split; [done|]. split; [done|]. split; [congruence|]. split; [congruence|]. split; [exact Hout|].
  unfold commit_parent. rewrite (bind_ok _ _ c' (this c') c') by done. unfold id.
  rewrite decide_True by (split; congruence). done.
Qed.
End commit.

(** * Acknowledgements *)
Section daoack.
Context `{EventHeap, PrefixMapSem}.

Lemma daoack_cases from ack c a pn :
  dag_bestparent (this c) = Some a -> dag_members (this c) !! a = Some pn ->
  dag_receive_daoack from ack c =
    if negb (is_equal pn from) then dag_count PS_DAOACK_WRONG_PARENT c
    else if negb (DaoAck.rpl_daoseq ack =? mDAOSequence (this c)) then dag_count PS_DAOACK_WRONG_SEQNO c
    else commit_parent c.
Proof.
  intros Ha Hm. unfold dag_receive_daoack. rewrite (bind_ok _ _ c (this c) c) by done. unfold id. rewrite Ha.
  rewrite (bind_ok _ _ c pn c) by (unfold deref_peer; by rewrite Hm). by repeat case_bool.
Qed.

(** The acknowledgement that the parent builds for the DAO it has just
    received makes it the parent of the sender, as long as the sender's counter
    is below 256. *)
Lemma dao_acknowledged from c a pn dp n buff ack :
  dag_bestparent (this c) = Some a -> dag_members (this c) !! a = Some pn -> is_equal pn from = true ->
  0 <= mDAOSequence (this c) < 256 -> dag_sized dp -> (24 <= n)%nat ->
  build_daoack dp n (Dao.rpl_daoseq (dao_of (this c))) = Ok (buff, 24) ->
  DaoAck.overlay buff icmp6_hdr_size = Ok ack ->
  dag_receive_daoack from ack c = commit_parent c.
Proof.
  intros Ha Hm Heq Hs Hd Hn Hb Ho. rewrite (daoack_cases from ack c a pn Ha Hm), Heq. cbn [negb].
  destruct (daoack_image dp n (Dao.rpl_daoseq (dao_of (this c))) Hd Hn) as (buff' & Hb' & Ho' & _).
  rewrite Hb in Hb'. injection Hb' as <-. rewrite Ho in Ho'. injection Ho' as ->.
  cbn [DaoAck.rpl_daoseq dao_of Dao.rpl_daoseq]. rewrite !u8_small by (rewrite ?u8_small; lia).
  by rewrite Z.eqb_refl.
Qed.

(** Once the counter of DAOs has passed 255 no acknowledgement is accepted
    any more: the counter has 16 bits, and the number in the message 8. *)
Lemma daoack_lost_after_255 from ack c c' :
  byte_ok (DaoAck.rpl_daoseq ack) -> 256 <= mDAOSequence (this c) ->
  dag_receive_daoack from ack c = Ok (tt, c') ->
  shared c' = shared c /\ dag_parent (this c') = dag_parent (this c) /\
  dag_parentif (this c') = dag_parentif (this c).
Proof.
  intros Hack Hs. destruct (dag_bestparent (this c)) as [a|] eqn:Ha; cycle 1.
  { unfold dag_receive_daoack. rewrite (bind_ok _ _ c (this c) c) by done. unfold id. rewrite Ha.
    by intros [= <-]. }
  destruct (dag_members (this c) !! a) as [pn|] eqn:Hm; cycle 1.
  { unfold dag_receive_daoack. rewrite (bind_ok _ _ c (this c) c) by done. unfold id. rewrite Ha.
    rewrite (bind_fault _ _ c UseAfterFree) by (unfold deref_peer; by rewrite Hm). done. }
  rewrite (daoack_cases from ack c a pn Ha Hm). unfold byte_ok in Hack.
  rewrite (proj2 (Z.eqb_neq (DaoAck.rpl_daoseq ack) _)) by lia.
  case_bool; by intros [= <-].
Qed.
End daoack.

(** * Children *)
Section children.
Context `{EventHeap, PrefixMapLaws}.

(** A DAO for a new prefix dereferences the null [dag_me] on a node that has
    no address of its own in the DAG yet. *)
Lemma child_needs_identity peer i p c h m pre :
  dag_me (this c) = None -> pm_index (junk_prefix (shared c)) p (dag_children (this c)) = (h, m) ->
  pm_get m h = Some pre -> installed pre = false ->
  add_childnode peer i p c = Fault NullDeref.
Proof.
  intros Hme Hi Hg Hin. unfold add_childnode, add_childnode_of.
  rewrite (bind_ok _ _ c (shared c) c) by (unfold with_sys, zoom, get; by destruct c).
  rewrite (bind_ok _ _ c (this c) c) by done. unfold id. rewrite Hi.
  match goal with |- context [dag_upd ?g] =>
    rewrite (bind_ok (dag_upd g) _ c tt (c <| this ::= g |>)) by done end.
  rewrite Hg, Hin.
  match goal with |- context [dag_upd ?g ;; (add_route_via_node _ _ ;; _)] =>
    match goal with |- context [c <| this ::= ?g0 |>] =>
      set (c1 := c <| this ::= g0 |>); rewrite (bind_ok (dag_upd g) _ c1 tt (c1 <| this ::= g |>)) by done end end.
  set (c2 := c1 <| this ::= _ |>). apply bind_fault. unfold add_route_via_node.
  rewrite (bind_ok _ _ c2 (dag_children (this c2)) c2) by done.
  assert (pm_get (dag_children (this c2)) h =
    Some (set_dn (Some (dag_self (this c))) (set_announcer (Member peer) (set_prefix p pre)))) as ->.
  { subst c2. cbn. by erewrite pm_get_upd_eq. }
  cbn [installed set_dn set_announcer set_prefix upd]. apply bind_fault. unfold read_me.
  by change (dag_me (this c2)) with (dag_me (this c)); rewrite Hme.
Qed.

Definition child_route (p : ip_subnet) (pn : rpl_node) (ni : network_interface) (src : ip_address) : list output :=
  [OCommand RouteShow; OCommand (RouteAddNode p (nodeip pn) (if_name ni) src)].

Lemma route_to_node_run i p pn src ni s : get_iface i s = Ok (ni, s) ->
  exists s', add_route_to_node i p pn src s = Ok (true, s') /\ out s' = child_route p pn ni src ++ out s.
Proof.
  intros E. unfold add_route_to_node. rewrite (bind_ok _ _ s s s) by done. rewrite (bind_ok _ _ s ni s) by done.
  destruct (pm_index _ _ _) as [h m]. eexists. by split.
Qed.

(** The address of the node itself: that of the prefix [dag_me] points at. *)
Definition own_address (d : dag_network) : option ip_address :=
  own ← dag_me d;
  pn ← match own with
       | InAnnounced h => pm_get (dag_announced d) h
       | InPrefixes h => pm_get (dag_prefixes d) h
       | External p => Some p
       end;
  Some (sn_addr (mPrefix_ pn)).
Lemma read_me_run c : me_ok (this c) -> is_Some (dag_me (this c)) ->
  exists src, read_me c = Ok (src, c) /\ own_address (this c) = Some src.
Proof.
  unfold me_ok, read_me, own_address. intros Hok [r Hr]. rewrite Hr in *.
  destruct r as [h|h|p]; cbn; [destruct Hok as [x ->]..|]; by eexists.
Qed.

Lemma child_run peer i p c h m pre pn ni :
  me_ok (this c) -> is_Some (dag_me (this c)) -> dag_members (this c) !! peer = Some pn ->
  get_iface i (shared c) = Ok (ni, shared c) ->
  pm_index (junk_prefix (shared c)) p (dag_children (this c)) = (h, m) ->
  pm_get m h = Some pre -> installed pre = false ->
  exists c' src, add_childnode peer i p c = Ok (tt, c') /\ own_address (this c) = Some src /\
    out (shared c') = child_route p pn ni src ++ out (shared c) /\ dao_needed (this c') = true /\
    length (dag_children (this c')) = length m /\
    exists q, pm_get (dag_children (this c')) h = Some q /\ installed q = true /\ mPrefix_ q = p /\
      announced_from q = Member peer.
Proof.
  intros Hok Hme Hm Hn Hi Hg Hin. unfold add_childnode, add_childnode_of.
  rewrite (bind_ok _ _ c (shared c) c) by (unfold with_sys, zoom, get; by destruct c).
  rewrite (bind_ok _ _ c (this c) c) by done. unfold id. rewrite Hi.
  match goal with |- context [dag_upd ?g] =>
    rewrite (bind_ok (dag_upd g) _ c tt (c <| this ::= g |>)) by done end.
  rewrite Hg, Hin.
  match goal with |- context [dag_upd ?g ;; (add_route_via_node _ _ ;; _)] =>
    match goal with |- context [c <| this ::= ?g0 |>] =>
      set (c1 := c <| this ::= g0 |>); rewrite (bind_ok (dag_upd g) _ c1 tt (c1 <| this ::= g |>)) by done end end.
  set (c2 := c1 <| this ::= _ |>).
  set (pre2 := set_dn (Some (dag_self (this c))) (set_announcer (Member peer) (set_prefix p pre))).
  assert (pm_get (dag_children (this c2)) h = Some pre2) as Hg2 by (subst c2; cbn; by erewrite pm_get_upd_eq).
  destruct (read_me_run c2 Hok Hme) as (src & Hsrc & Hown).
  destruct (route_to_node_run i p pn src ni (shared c2) Hn) as (s' & Hrun & Hout).
  set (put := fun p : prefix_node => p <| installed := true |>).
  set (c3 := c2 <| shared := s' |> <| this ::= (fun d => d <| dag_children ::= pm_upd h put |>) |>).
  assert (add_route_via_node h i c2 = Ok (tt, c3)) as Hvia.
  { unfold add_route_via_node. rewrite (bind_ok _ _ c2 (dag_children (this c2)) c2) by done. rewrite Hg2.
    change (installed pre2) with false. cbn iota. rewrite (bind_ok _ _ c2 src c2) by done.
    change (announced_from pre2) with (Member peer). cbn [deref_announcer].
    rewrite (bind_ok _ _ c2 pn c2); [|unfold deref_peer; replace (dag_members (this c2)) with (dag_members (this c)) by done; by rewrite Hm].
    rewrite (bind_ok _ _ c2 true (c2 <| shared := s' |>)); [done|].
    unfold with_sys, zoom. change (mPrefix_ pre2) with p. by rewrite Hrun. }
  rewrite (bind_ok _ _ c2 tt c3) by done. eexists _, src. split; [done|]. split; [exact Hown|]. split; [exact Hout|].
  split; [done|]. split.
  { subst c3 c2. cbn. by rewrite !pm_upd_length. }
  exists (put pre2). split; [|done]. change (pm_get (pm_upd h put (dag_children (this c2))) h = Some (put pre2)).
  by apply pm_get_upd_eq.
Qed.

(** C24: A target that is not yet routed gets one route, through the node that
    announced it and from this node's own address, which is the one of the prefix
    [dag_me] points at ([own_address]), and a DAO is now needed. *)
Theorem child_routed n peer i p c h m pre pn ni : ctx_ok n c ->
  is_Some (dag_me (this c)) -> dag_members (this c) !! peer = Some pn ->
  get_iface i (shared c) = Ok (ni, shared c) ->
  pm_index (junk_prefix (shared c)) p (dag_children (this c)) = (h, m) ->
  pm_get m h = Some pre -> installed pre = false ->
  exists c' src, add_childnode peer i p c = Ok (tt, c') /\ own_address (this c) = Some src /\
    out (shared c') = child_route p pn ni src ++ out (shared c) /\ dao_needed (this c') = true /\
    exists q, pm_get (dag_children (this c')) h = Some q /\ installed q = true /\ mPrefix_ q = p.
Proof.
  intros (t & _ & _ & (_ & _ & _ & _ & _ & Hok)) Hme Hm Hn Hi Hg Hin.
  destruct (child_run peer i p c h m pre pn ni) as (c' & src & E & Hown & Hout & Hd & _ & q & ? & ? & ? & _); [done..|].
  exists c', src. split_and!; try done. by exists q.
Qed.
End children.

(** With libstdc++'s map, on a node that already has a child of another key,
    a target makes a new node and runs the route command again every time it is
    announced. *)
Lemma repeated_target_grows peer i p c k0 n0 m0 pn ni : me_ok (this c) ->
  is_Some (dag_me (this c)) -> dag_members (this c) !! peer = Some pn ->
  get_iface i (shared c) = Ok (ni, shared c) ->
  dag_children (this c) = (k0, n0) :: m0 -> same_key k0 p = false ->
  exists c' src, @add_childnode libstdcxx_map peer i p c = Ok (tt, c') /\
    out (shared c') = child_route p pn ni src ++ out (shared c) /\
    length (dag_children (this c')) = S (length (dag_children (this c))).
Proof.
  intros Hok Hme Hm Hn Hch Hk. set (pre := new_prefix_node (junk_prefix (shared c))).
  assert (@pm_index libstdcxx_map (junk_prefix (shared c)) p (dag_children (this c)) =
    (length (dag_children (this c)), dag_children (this c) ++ [(p, pre)])) as Hi.
  { rewrite Hch. unfold pm_index. cbn. by rewrite Hk. }
  destruct (@child_run libstdcxx_map peer i p c _ _ pre pn ni Hok Hme Hm Hn Hi)
    as (c' & src & E & _ & Hout & _ & Hl & _); [|done|].
  { unfold pm_get. by rewrite lookup_app_r, Nat.sub_diag. }
  exists c', src. split; [done|]. split; [done|]. rewrite Hl, length_app. cbn. lia.
Qed.

(** * Timers *)
Section schedule.
Context `{EventHeapLaws, PrefixMapSem}.

Definition now_of (s : sys) : timeval :=
  if faked_time (things_to_do s) then fake_time (things_to_do s) else clock (things_to_do s).

(** The DIO timer of the DAG: its event is in the queue and due at [t]. *)
Definition dio_due_at (t : Z) (c : ctx) : Prop :=
  exists e ev, mSendDioEvent (this c) = Some e /\ e ∈ queue (things_to_do (shared c)) /\
    events (things_to_do (shared c)) !! e = Some ev /\ event_type ev = rpl_send_dio /\
    event_mDag ev = Some (dag_self (this c)) /\ deleted ev = false /\ tv_total (alarm_time ev) = t.

Lemma arm_dio_run e ev msec c : queue_ok (things_to_do (shared c)) -> 0 <= tv_usec (now_of (shared c)) ->
  0 <= msec < 4294967 -> mSendDioEvent (this c) = Some e ->
  events (things_to_do (shared c)) !! e = Some ev -> deleted ev = false ->
  exists c', arm_dag_event e rpl_send_dio (u32 (msec + 1)) c = Ok (tt, c') /\
    dio_due_at (tv_total (now_of (shared c)) + (msec + 1) * 1000) c'.
Proof.
  intros Hq Hu Hm He Hev Hdel.
  destruct (arm_event_run e rpl_send_dio (dag_self (this c)) (u32 (msec + 1)) _ ev Hq Hev Hdel) as
    (t' & e' & Hrun & _ & Hin & He' & Hty & Hdag & Hal & Hdel' & _).
  unfold arm_dag_event. rewrite (bind_ok _ _ c (dag_self (this c)) c) by done.
  rewrite (with_timers_run _ c _ _ Hrun). eexists. split; [done|].
  exists e, e'. split_and!; try done. rewrite Hal.
  rewrite u32_small by lia.
  destruct (set_alarm_total (things_to_do (shared c)) (clock (things_to_do (shared c))) 0 (msec + 1) ev) as [-> _];
    [exact Hu|lia|]. unfold now_of. lia.
Qed.

Lemma schedule_dio_run msec c : queue_ok (things_to_do (shared c)) -> 0 <= tv_usec (now_of (shared c)) ->
  0 <= msec < 4294967 -> mBestRank (this c) < RANK_INFINITE ->
  (forall e, mSendDioEvent (this c) = Some e -> live (things_to_do (shared c)) e) ->
  exists c', schedule_dio msec c = Ok (tt, c') /\
    dio_due_at (tv_total (now_of (shared c)) + (msec + 1) * 1000) c'.
Proof.
  intros Hq Hu Hm Hr Hl. unfold schedule_dio. rewrite (bind_ok _ _ c (this c) c) by done. unfold id.
  unfold dag_rank_infinite. rewrite Z.geb_leb, (proj2 (Z.leb_gt _ _)) by lia.
  destruct (mSendDioEvent (this c)) as [e|] eqn:He.
  - destruct (Hl e eq_refl) as (ev & Hev & Hdel). rewrite (bind_ok _ _ c e c) by done.
    by apply (arm_dio_run e ev).
  - destruct (new_event_spec 0 (mInterval_msec (this c)) rpl_send_dio _ Hq) as
      (t' & Hrun & Hq' & _ & (ev & Hev & Hdel) & _ & _ & Hck & Hfk & Hft).
    set (e := length (events (things_to_do (shared c)))) in *.
    set (c1 := c <| shared ::= (fun s => s <| things_to_do := t' |>) |>
                 <| this ::= (fun d => d <| mSendDioEvent := Some e |>) |>).
    rewrite (bind_ok _ _ c e c1); cycle 1.
    { by rewrite (bind_ok _ _ c e _ (with_timers_run _ c _ _ Hrun)). }
    assert (now_of (shared c1) = now_of (shared c)) as Hnow by (unfold now_of; cbn; by rewrite Hck, Hfk, Hft).
    rewrite <-Hnow. apply (arm_dio_run e ev); try done. by rewrite Hnow.
Qed.

(** A solicitation is answered by a DIO: the DIO timer of a DAG whose rank
    is known is made, if there is none, and set to fire in 2 milliseconds. *)
Lemma dis_schedules_dio n c : ctx_ok n c -> 0 <= tv_usec (now_of (shared c)) ->
  mBestRank (this c) < RANK_INFINITE ->
  exists c', dag_receive_dis c = Ok (tt, c') /\ dio_due_at (tv_total (now_of (shared c)) + 2000) c'.
Proof.
  intros (t & Hq & (<- & _) & Hd & _) Hu Hr. unfold dag_receive_dis.
  set (c1 := counted [PS_PACKET_RECEIVED; PS_DIS_PACKET_RECEIVED] c).
  rewrite (bind_ok _ _ c tt (counted [PS_PACKET_RECEIVED] c)) by done.
  rewrite (bind_ok _ _ _ tt c1) by done.
  destruct (schedule_dio_run 1 c1 Hq Hu ltac:(lia) Hr Hd) as (c' & E & Hdue).
  by exists c'.
Qed.
End schedule.

(** * Between two nodes *)
Section exchange.
Context `{EventHeap, PrefixMapSem}.

Lemma select_pads optnum k : select optnum (pads k) = [].
Proof. unfold pads. generalize (Z.to_nat (round8 k - k)). intros j. by induction j. Qed.
Lemma select_targets pms k :
  select RPL_DAO_RPLTARGET (targets pms ++ pads k) = (fun pm => [0; 128] ++ pm_addr pm) <$> pms.
Proof.
  unfold select. rewrite omap_app. fold (select RPL_DAO_RPLTARGET (pads k)). rewrite select_pads, app_nil_r.
  by induction pms as [|pm pms IH]; [|cbn; f_equal].
Qed.
Lemma target_subnet_of bs : length bs = 16%nat -> target_subnet ([0; 128] ++ bs) = subnet6 bs 128.
Proof.
  intros Hl. unfold target_subnet, cut_prefix. change (([0; 128] ++ bs) !!! 1%nat) with 128.
  change (drop 2 ([0; 128] ++ bs)) with bs. change (Z.to_nat ((128 + 7) / 8)) with 16%nat.
  rewrite take_ge by lia. cbn [Nat.sub zeros replicate]. by rewrite app_nil_r.
Qed.


Lemma pio_subnet_of d bs bits : length bs = 16%nat -> 0 <= bits <= 128 ->
  exists data, pio d bs bits = Tlv RPL_DIO_DESTPREFIX data /\ pio_ok data /\ pio_subnet data = cut_prefix bs bits.
Proof.
  intros Hl Hb. unfold pio. eexists. split; [done|].
  assert (0 <= (bits + 7) / 8 <= 16) by (Z.to_euclidean_division_equations; lia).
  assert (length (take (Z.to_nat ((bits + 7) / 8)) bs) = Z.to_nat ((bits + 7) / 8)) as Ht
    by (rewrite length_take_le; lia).
  set (px := take _ _ ++ zeros _).
  assert (length px = 16%nat) as Hpx by (subst px; rewrite length_app, length_zeros; lia).
  set (data := [u8 bits; _] ++ _).
  assert (data !!! 0%nat = bits) as Hd0 by (change (data !!! 0%nat) with (u8 bits); apply u8_small; lia).
  assert (drop 14 data = px) as H14 by done.
  split.
  - unfold pio_ok. rewrite Hd0. split; [|lia]. unfold zlen. change (length data) with (14 + length px)%nat. lia.
  - unfold pio_subnet. rewrite Hd0, H14. unfold cut_prefix. subst px. do 2 f_equal.
    rewrite take_app_le by lia. by rewrite take_ge by lia.
Qed.

(** C9: The DIO one node builds and sends is, at the node that receives it, the
    rank, the identity and the mode of the sender and the prefix, cut to its
    length. *)
Theorem dio_delivered d n bs bits i from now c :
  dag_sized d -> length bs = 16%nat -> 0 <= bits <= 128 -> (64 <= n)%nat ->
  length (junk_bytes (shared c)) = 2048%nat ->
  exists d' buff, build_dio d n (subnet6 bs bits) = Ok (d', buff, 64) /\
    dag_receive_dio i from now (drop 4 buff) 60 c = dio_spec i from now (dio_of d) [cut_prefix bs bits] c.
Proof.
  intros Hd Hl Hb Hn Hj. destruct (pio_subnet_of d bs bits Hl Hb) as (data & Hp & Hok & Hsub).
  destruct (dio_options d bs bits Hl Hb) as (Hwf & Hlen & _).
  eexists _, _. split; [by apply build_dio_image|].
  change (drop 4 ((header ND_RPL_DAG_IO ++ Dio.encode (dio_of d)) ++ enc (pio d bs bits :: pads 60) ++ zeros (n - 64)))
    with (Dio.encode (dio_of d) ++ enc (pio d bs bits :: pads 60) ++ zeros (n - 64)).
  assert (select RPL_DIO_DESTPREFIX (pio d bs bits :: pads 60) = [data]) as Hsel.
  { rewrite Hp. unfold select. cbn [omap list_omap]. fold (select RPL_DIO_DESTPREFIX (pads 60)).
    by rewrite select_pads. }
  replace 60 with (Dio.size + zlen (enc (pio d bs bits :: pads 60))) at 2 by (rewrite Hlen; done).
  rewrite dio_refines; [|by apply dio_of_wf|done|by rewrite Hsel; constructor|lia|done].
  by rewrite Hsel, <-Hsub.
Qed.
End exchange.

(** * Witnesses *)
Section witnesses.
Let map : PrefixMapSem := ordered_map.
#[local] Existing Instance map.
#[local] Instance map_laws : @PrefixMapLaws map := ordered_map_laws.

(** A DAG that has chosen its parent, and is grounded. *)
Let pn : rpl_node := makevalid Example.peer_addr (Some 0%nat) Example.node.
Definition example_child : ctx :=
  Example.ctx <| this ::= (fun d => d <| dag_members ::= <[Example.peer_addr := pn]> |>
    <| dag_bestparent := Some Example.peer_addr |> <| dag_bestparentif := Some 0%nat |>
    <| mGrounded := true |> <| mDAOSequence := 5 |> <| mBestRank := 256 |>) |>.
Lemma example_child_ok : ctx_ok 1 example_child.
Proof.
  destruct example_ctx_ok as (t & Hq & He & (? & ? & ? & ? & ? & ?)). exists t.
  split; [done|]. split; [done|]. split_and!; try done.
  - intros a [= <-]. split; [by eexists|by eexists].
  - intros i [= <-]. lia.
Qed.

Lemma commit_parent_routes_witness :
  exists c', commit_parent example_child = Ok (tt, c') /\ dag_parent (this c') = Some Example.peer_addr /\
    length (out (shared c')) = 6%nat /\ commit_parent c' = Ok (tt, c').
Proof.
  destruct (commit_parent_routes 1 example_child Example.peer_addr 0 pn Example.iface)
    as (c' & E & _ & Hp & _ & Hout & Hagain); [exact example_child_ok|by intros []|done|done|done|done|].
  exists c'. split; [exact E|]. split; [exact Hp|]. split; [by rewrite Hout|exact Hagain].
Defined.

Lemma dao_acknowledged_witness :
  exists buff ack, build_daoack Example.dag 24 5 = Ok (buff, 24) /\
    DaoAck.overlay buff icmp6_hdr_size = Ok ack /\
    dag_receive_daoack Example.peer_addr ack example_child = commit_parent example_child.
Proof.
  destruct (build_daoack Example.dag 24 5) as [[buff len]|] eqn:E; [|by vm_compute in E].
  assert (len = 24) as -> by (vm_compute in E; by injection E).
  destruct (DaoAck.overlay buff icmp6_hdr_size) as [ack|] eqn:Eo;
    [|vm_compute in E; injection E as <-; by vm_compute in Eo].
  exists buff, ack. split; [done|]. split; [done|].
  by apply (dao_acknowledged Example.peer_addr example_child Example.peer_addr pn Example.dag 24 buff ack);
    [done|done|done|done|apply example_dag_sized|lia|exact E|].
Defined.

Lemma daoack_lost_after_255_witness :
  let c := example_child <| this ::= (fun d => d <| mDAOSequence := 256 |>) |> in
  exists c', dag_receive_daoack Example.peer_addr (DaoAck.mk 1 128 0 0) c = Ok (tt, c') /\ shared c' = shared c.
Proof.
  set (c := example_child <| this ::= (fun d => d <| mDAOSequence := 256 |>) |>).
  destruct (dag_receive_daoack Example.peer_addr (DaoAck.mk 1 128 0 0) c) as [[[] c']|] eqn:E; [|by vm_compute in E].
  exists c'. split; [exact E|]. by destruct (daoack_lost_after_255 Example.peer_addr (DaoAck.mk 1 128 0 0) c c') as (Hs & _).
Defined.

Lemma child_needs_identity_witness :
  let c := example_child <| this ::= (fun d => d <| dag_me := None |>) |> in
  add_childnode Example.peer_addr 0 (subnet6 Example.peer_addr 128) c = Fault NullDeref.
Proof.
  by apply (child_needs_identity Example.peer_addr 0 (subnet6 Example.peer_addr 128)
    (example_child <| this ::= (fun d => d <| dag_me := None |>) |>) 1
    ([Example.announced 9; (subnet6 Example.peer_addr 128, new_prefix_node Example.prefix)])
    (new_prefix_node Example.prefix)).
Defined.

Lemma child_routed_witness :
  exists c' src, add_childnode Example.peer_addr 0 (subnet6 Example.peer_addr 128) example_child = Ok (tt, c') /\
    own_address (this example_child) = Some src /\
    out (shared c') = [OCommand RouteShow;
      OCommand (RouteAddNode (subnet6 Example.peer_addr 128) (ip6 Example.peer_addr) "eth0" src)].
Proof.
  destruct (child_routed 1 Example.peer_addr 0 (subnet6 Example.peer_addr 128) example_child 1
    ([Example.announced 9; (subnet6 Example.peer_addr 128, new_prefix_node Example.prefix)])
    (new_prefix_node Example.prefix) pn Example.iface) as (c' & src & E & Hown & Hout & _);
    [exact example_child_ok|by eexists|done|done|done|done|done|].
  by exists c', src.
Defined.

Lemma repeated_target_grows_witness :
  exists c' src, @add_childnode libstdcxx_map Example.peer_addr 0 (subnet6 Example.peer_addr 128) example_child = Ok (tt, c') /\
    out (shared c') = child_route (subnet6 Example.peer_addr 128) pn Example.iface src ++ out (shared example_child) /\
    length (dag_children (this c')) = S (length (dag_children (this example_child))).
Proof.
  destruct example_child_ok as (t & _ & _ & (_ & _ & _ & _ & _ & Hme)).
  apply (repeated_target_grows Example.peer_addr 0 (subnet6 Example.peer_addr 128) example_child
    (Example.announced 9).1 (Example.announced 9).2 [] pn Example.iface);
    [exact Hme|by eexists|reflexivity|reflexivity|reflexivity|reflexivity].
Defined.

Lemma dis_schedules_dio_witness :
  exists c', dag_receive_dis example_child = Ok (tt, c') /\ dio_due_at 1000252000 c'.
Proof. by apply (dis_schedules_dio 1 example_child example_child_ok). Defined.

Lemma dio_delivered_witness :
  exists d' buff, build_dio Example.dag 64 (subnet6 Example.prefix64 60) = Ok (d', buff, 64) /\
    dag_receive_dio 0 Example.peer_addr 1000 (drop 4 buff) 60 example_child =
      dio_spec 0 Example.peer_addr 1000 (dio_of Example.dag) [cut_prefix Example.prefix64 60] example_child.
Proof.
  apply (dio_delivered Example.dag 64 Example.prefix64 60 0 Example.peer_addr 1000 example_child);
    [apply example_dag_sized|done|lia|lia|by vm_compute].
Defined.
End witnesses.

(** With the map the program has: a child and two addresses, all visited. *)
Section delivered_witness.
#[local] Existing Instance libstdcxx_map.
End delivered_witness.
