(* ===== verification/Neighbour.v ===== *)
(** Neighbour discovery and the join assistant:
    [lib/libndmgmt/neighboursolicit.cpp], [neighbouradvert.cpp], the neighbour
    table of [node.cpp], and the GRASP client that asks the registrar
    ([lib/libgrasp/client.cpp]).

    Everything runs on [sys]; a neighbour is named by the interface and the
    address it has in the table of the interface. *)

From Stdlib Require Import ZArith Lia String.
From stdpp Require Import base list gmap numbers strings.
From S2P Require Import Prelude Wire Event Prefix State Iface Build.
#[local] Open Scope Z_scope.

(** * The GRASP client *)
Definition M_REQ_NEG : Z := 3.
Definition M_END : Z := 6.
Definition O_ACCEPT : Z := 101.
Definition F_NEG : Z := 1.

(** [generate_random_sessionid]: a counter. *)
Definition generate_random_sessionid : M sys Z :=
  modify (fun s => s <| lastsession ::= (fun n => s32 (n + 1)) |>) ;;
  gets (fun s => u32 (lastsession s)).

Definition aro_query (gsi : Z) (eui : list Z) : cbor :=
  CArray [CUint M_REQ_NEG; CUint gsi;
          CArray [CText "46930:6JOIN"; CUint (Z.shiftl 1 F_NEG); CUint 2;
                  CArray [CBytes eui; CText "6p-ipip"]]].

Definition upd_client (i : nat) (f : grasp_client -> grasp_client) : M sys unit :=
  upd_iface i (fun n => n <| join_query_client ::= fmap f |>).

(** [send_cbor] *)
Definition send_cbor (i : nat) (g : grasp_client) (query : cbor) : M sys bool :=
  if grasp_write_ok g then
    emit (OGrasp i query) ;;
    upd_client i (fun g => g <| queries_outstanding ::= (fun n => u32 (n + 1)) |>) ;;
    mret true
  else mret false.

Definition start_query_for_aro (i : nat) (g : grasp_client) (eui : list Z) : M sys Z :=
  gsi ← generate_random_sessionid;
  send_cbor i g (aro_query gsi eui) ;;
  mret gsi.

(** [poll_setup] *)
Definition poll_setup (g : grasp_client) : bool := queries_outstanding g >? 0.

(** * The neighbour table *)
Definition upd_neighbour (i : nat) (a : in6_addr) (f : rpl_node -> rpl_node) : M sys rpl_node :=
  n ← get_iface i;
  s ← get;
  let nd := f (node_at (junk_node s) (neighbours n) a) in
  upd_iface i (fun n => n <| neighbours ::= <[a := nd]> |>) ;;
  mret nd.

Definition find_neighbour (i : nat) (nip : in6_addr) : M sys rpl_node :=
  target ← upd_neighbour i nip id;
  if nd_valid target then mret target
  else idx ← get_if_index i; upd_neighbour i nip (markvalid idx nip).

Definition update_nce_stamp (i : nat) (a : in6_addr) : M sys rpl_node :=
  s ← get; upd_neighbour i a (set_last_seen (tv_sec (clock (things_to_do s)))).

(** The first neighbour, in the order of the table, with that query. *)
Definition find_by_sessionid (m : node_map) (gsi : Z) : option (list Z * rpl_node) :=
  snd <$> list_find (fun kv => queryId kv.2 = gsi) (node_map_items m).

(** * Neighbour advertisements *)

(** [start_neighbour_advert], the flags and the target. *)
Definition na_start (flags : Z) (target : in6_addr) : outcome (list Z) :=
  buff ← wr_range (zeros 2048) 0 [Nd.ND_NEIGHBOR_ADVERT; 0; 0; 0; flags];
  wr_range buff 8 target.

Definition build_basic_neighbour_advert (i : nat) (solicited : bool) : M sys (list Z) :=
  n ← get_iface i;
  let '(n', target) := link_local n in
  upd_iface i (fun _ => n') ;;
  buff ← lift (na_start (if solicited then Z.lor Nd.ND_NA_FLAG_OVERRIDE Nd.ND_NA_FLAG_SOLICITED
                         else Nd.ND_NA_FLAG_OVERRIDE) target);
  lift (rd_range buff 0 (round8 Nd.ns_size)).

(** [rpl_node::reply_mcast_neighbour_advert] *)
Definition reply_mcast_neighbour_advert (i : nat) (this from : in6_addr) : M sys unit :=
  update_nce_stamp i this ;;
  body ← build_basic_neighbour_advert i true;
  send_raw_icmp i (Some from) None body.

(** [rpl_node::reply_neighbour_advert(iface, success)]: the option's length field
    is the size of the struct, in bytes. *)
Definition join_reply (nd : rpl_node) (success : Z) : outcome (list Z) :=
  buff ← na_start (Z.lor Nd.ND_NA_FLAG_OVERRIDE Nd.ND_NA_FLAG_SOLICITED) (node_number nd);
  buff ← wr_range buff Nd.ns_size (Nd.aro_encode
    {| Nd.nd_aro_type := Nd.ND_OPT_ARO; Nd.nd_aro_len := Nd.aro_size; Nd.nd_aro_status := u8 success;
       Nd.nd_aro_res1 := 0; Nd.nd_aro_res2 := 0; Nd.nd_aro_lifetime := 0;
       Nd.nd_aro_eui64 := drop 8 (node_number nd) |});
  rd_range buff 0 (round8 (Nd.ns_size + Nd.aro_size)).

Definition reply_join (i : nat) (nd : rpl_node) (success : Z) : M sys unit :=
  body ← lift (join_reply nd success);
  send_raw_icmp i (Some (node_number nd)) None body.

(** * Neighbour solicitations *)

(** The loop over the options in [reply_mcast_neighbour_join]: the place of the
    first ARO.  An ARO is read for the log. *)
Fixpoint find_aro (fuel : nat) (dat : list Z) (optend in_nextopt : Z) (in_aro_opt : option Z)
  : outcome (option Z) :=
  match fuel with
  | O => Fault OutOfFuel
  | S fuel' =>
      if in_nextopt <? optend - Nd.opt_hdr_size then
        ty ← rd dat in_nextopt;
        in_aro_opt ← (if ty =? Nd.ND_OPT_ARO then
                        rd_range dat (in_nextopt + 8) 8 ;;
                        Ok (match in_aro_opt with None => Some in_nextopt | Some o => Some o end)
                      else Ok in_aro_opt);
        ln ← rd dat (in_nextopt + 1);
        find_aro fuel' dat optend (in_nextopt + ln * 8) in_aro_opt
      else Ok in_aro_opt
  end.
Definition find_aro_fuel (nd_len : Z) : nat := S (Z.to_nat nd_len).

Definition reply_mcast_neighbour_join (i : nat) (this : in6_addr) (dat : list Z) (nd_len : Z) : M sys unit :=
  aro ← lift (find_aro (find_aro_fuel nd_len) dat nd_len Nd.ns_size None);
  match aro with
  | None => mret tt
  | Some off =>
      global_count PS_NEIGHBOUR_JOIN_NEIGHBOUR_SOLICITATION ;;
      nd ← upd_neighbour i this id;
      if join_declined nd then
        global_count PS_NEIGHBOUR_JOIN_QUERY_ALREADY_DECLINED ;;
        reply_join i nd Nd.ND_NS_JOIN_DECLINED
      else if join_queryInProgress nd then
        global_count PS_NEIGHBOUR_JOIN_QUERY_INPROGRESS
      else if join_accepted nd then
        global_count PS_NEIGHBOUR_JOIN_QUERY_ALREADY_ACCEPTED ;;
        reply_join i nd 0
      else
        global_count PS_NEIGHBOUR_JOIN_QUERY_STARTED ;;
        n ← get_iface i;
        match join_query_client n with
        | Some g =>
            eui ← lift (rd_range dat (off + 8) 8);
            gsi ← start_query_for_aro i g eui;
            upd_neighbour i this (fun nd => nd <| queryId := gsi |>) ;; mret tt
        | None =>
            global_count PS_NEIGHBOUR_JOIN_QUERY_NOCONNECTION ;;
            reply_join i nd Nd.ND_NS_JOIN_DECLINED
        end
  end.

(** [network_interface::reply_neighbour_advert] *)
Definition reply_unicast_solicit (i : nat) (from : in6_addr) : M sys unit :=
  if memcmp in6addr_any from =? 0 then global_count PS_NEIGHBOUR_UNICAST_SOURCE_UNSPECIFIED
  else
    upd_neighbour i from id ;;
    idx ← get_if_index i;
    upd_neighbour i from (markvalid idx from) ;;
    update_nce_stamp i from ;;
    mret tt.

Definition is_multicast (a : in6_addr) : bool := a !!! 0%nat =? 255.

Definition receive_neighbour_solicit (i : nat) (from ip6_to : in6_addr) (dat : list Z) (nd_len : Z) : M sys unit :=
  global_count PS_NEIGHBOUR_SOLICIT ;;
  short ← packet_too_short i nd_len Nd.ns_size;
  if (short : bool) then mret tt
  else
    neighbourv6 ← lift (rd_range dat 8 16);
    find_neighbour i neighbourv6 ;;
    n ← get_iface i;
    if matching_address n ip6_to then
      when (matching_address n neighbourv6) (global_count PS_NEIGHBOUR_UNICAST_TARGET_NS) ;;
      global_count PS_NEIGHBOUR_UNICAST_REACHABILITY ;;
      reply_unicast_solicit i from
    else if is_multicast ip6_to then
      idx ← get_if_index i;
      upd_neighbour i neighbourv6 (markvalid idx neighbourv6) ;;
      if all_hosts_addrP ip6_to then
        global_count PS_NEIGHBOUR_JOINASSISTANT_SOLICIT ;;
        reply_mcast_neighbour_join i neighbourv6 dat nd_len
      else
        global_count PS_NEIGHBOUR_MCAST_SOLICIT ;;
        reply_mcast_neighbour_advert i neighbourv6 from
    else global_count PS_NEIGHBOUR_IGNORED.

(** * The registrar's answer *)

(** [network_interface::process_grasp_reply] *)
Definition process_grasp_reply (i : nat) (gsi : Z) (success : bool) : M sys unit :=
  n ← get_iface i;
  match find_by_sessionid (neighbours n) gsi with
  | None => mret tt
  | Some (a, _) =>
      rn ← upd_neighbour i a (set_accepted success);
      reply_join i rn (if success then 0 else Nd.ND_NS_JOIN_DECLINED)
  end.

(** [cbor_array_get], [cbor_get_int]: out of range, or on another kind of item,
    libcbor promises nothing. *)
Definition cbor_array_get (items : list cbor) (k : nat) : outcome cbor :=
  match items !! k with Some c => Ok c | None => Fault OutOfBounds end.
Definition cbor_get_int (c : cbor) : outcome Z :=
  match c with CUint n => Ok n | _ => Fault AssertFailed end.

Definition decode_grasp_reply (i : nat) (reply : cbor) : M sys bool :=
  match reply with
  | CArray items =>
      msgitem ← lift (cbor_array_get items 0);
      msgtype ← lift (cbor_get_int msgitem);
      if negb (u32 msgtype =? M_END) then mret false
      else
        session ← lift (cbor_array_get items 1);
        sessionid ← lift (cbor_get_int session);
        result ← lift (cbor_array_get items 2);
        match result with
        | CArray opts =>
            option ← lift (cbor_array_get opts 0);
            optionnum ← lift (cbor_get_int option);
            process_grasp_reply i (u32 sessionid) (u32 optionnum =? O_ACCEPT) ;;
            mret true
        | _ => mret false
        end
  | _ => mret false
  end.

(** [grasp_client::process_grasp_reply]; [reply] is what [read_cbor] returns. *)
Definition client_reply (i : nat) (reply : option cbor) : M sys bool :=
  match reply with
  | None => mret false
  | Some r =>
      upd_client i (fun g => g <| queries_outstanding ::= (fun n => u32 (n - 1)) |>) ;;
      decode_grasp_reply i r
  end.

(** * Sending a solicitation *)

(** [device_identity::build_neighbour_solicit] *)
Definition build_neighbour_solicit (i : nat) : M sys (list Z) :=
  n ← get_iface i;
  let '(n', target) := link_local n in
  upd_iface i (fun _ => n') ;;
  lift (
    buff ← wr_range (zeros 2048) 0 [Nd.ND_NEIGHBOR_SOLICIT; 0; 0; 0; Nd.ND_NA_FLAG_OVERRIDE];
    buff ← wr_range buff 8 target;
    buff ← wr_range buff Nd.ns_size (Nd.aro_encode
      {| Nd.nd_aro_type := Nd.ND_OPT_ARO; Nd.nd_aro_len := (Nd.aro_size - 8) / 4; Nd.nd_aro_status := 0;
         Nd.nd_aro_res1 := 0; Nd.nd_aro_res2 := 0; Nd.nd_aro_lifetime := Nd.ND_ARO_DEFAULT_LIFETIME;
         Nd.nd_aro_eui64 := eui64 n' |});
    rd_range buff 0 (round8 (Nd.ns_size + Nd.aro_size))).

(** [send_ns] asks for the unspecified source address. *)
Definition send_ns (i : nat) : M sys unit :=
  body ← build_neighbour_solicit i;
  send_raw_icmp i (Some all_hosts_addr) (Some in6addr_any) body.
