(* ===== verification/World.v ===== *)
(** The whole program: every DAG, the list of them, the interfaces and the
    timers; the reception of packets ([lib/libndmgmt/iface.cpp] and the
    [receive_*] functions of the interface in [dio.cpp], [dao.cpp], [daoack.cpp],
    [dis.cpp]), and what the timers do when they fire.

    A DAG is an index into the store [dags].  A method of a DAG runs on the DAG
    and the shared state, by [in_dag]; one of an interface by [in_sys]. *)

From Stdlib Require Import ZArith Lia String.
From stdpp Require Import base list gmap numbers strings.
From S2P Require Import Prelude Wire Subopt Event Prefix State Iface Build Dag Neighbour.
#[local] Open Scope Z_scope.

Record world := mk_world {
  dags : list dag_network;
  all_dag : list nat;
  wsys : sys;
  junk_dag : dag_network    (** what a new DAG holds before it is set *)
}.
#[global] Instance eta_world : Eta world := fun r =>
  mk_world (dags r) (all_dag r) (wsys r) (junk_dag r).

Definition in_sys {A} (m : M sys A) : M world A := zoom wsys (fun s w => w <| wsys := s |>) m.
Definition in_dag {A} (k : nat) (m : M ctx A) : M world A := fun w =>
  match dags w !! k with
  | None => Fault UseAfterFree
  | Some d =>
      match m (mk_ctx d (wsys w)) with
      | Ok (a, c) => Ok (a, w <| dags ::= <[k := this c]> |> <| wsys := shared c |>)
      | Fault f => Fault f
      end
  end.

(** [fnmatch(3)] with [FNM_CASEFOLD]: whether the pattern, up to its NUL, matches. *)
Class Fnmatch := fnmatch : list Z -> string -> bool.

(** * The list of DAGs *)

(** [init_dag], on the memory the constructor was given. *)
Definition init_dag (d : dag_network) : dag_network :=
  d <| mLastSeq := 0 |> <| mMyRank := UINT_MAX |> <| mBestRank := UINT_MAX |> <| mVersion := 1 |>
    <| mIgnorePio := false |> <| mSendDioEvent := None |> <| mSendDaoEvent := None |>
    <| myDeviceIdentity := None |> <| mStats := no_stats |> <| mMode := RPL_DIO_STORING_MULTICAST |>
    <| mDAOSequence := 1 |> <| mDTSN := INVALID_SEQUENCE |> <| dag_me := None |>
    <| mPrefixSet := false |> <| mIfWildcard := [] |> <| dag_parent := None |>
    <| dag_parentif := None |> <| dag_lastparent := None |> <| dag_bestparent := None |>
    <| dag_bestparentif := None |>.

(** The constructors: with a DAG id, or without. *)
Definition fresh_dag (junk : dag_network) (k : nat) (num : Z) (dagid : option (list Z)) : dag_network :=
  let d := junk <| dag_self := k |> <| mInstanceid := num |>
             <| dag_children := [] |> <| dag_prefixes := [] |>
             <| dag_announced := [] |> <| dag_members := ∅ |> in
  init_dag (match dagid with Some id => set_dagid id d | None => d end).
Definition new_dag_network (num : Z) (dagid : option (list Z)) : M world nat :=
  w ← get;
  let k := length (dags w) in
  modify (fun w => w <| dags ::= (fun l => l ++ [fresh_dag (junk_dag w) k num dagid]) |>
                     <| all_dag ::= cons k |>) ;;
  mret k.

(** [dag_network::remove_from_list], the destructor. *)
Fixpoint unlink_dag (k : nat) (l : list nat) : list nat :=
  match l with
  | [] => []
  | j :: l' => if decide (j = k) then l' else j :: unlink_dag k l'
  end.
Definition dag_remove_from_list (k : nat) : M world unit :=
  modify (fun w => w <| all_dag ::= unlink_dag k |>).

Fixpoint find_dag (num : Z) (l : list nat) : M world (option nat) :=
  match l with
  | [] => mret None
  | k :: l' =>
      d ← in_dag k (dag_get id);
      if mInstanceid d =? num then mret (Some k) else find_dag num l'
  end.
Definition find_by_instanceid (num : Z) : M world (option nat) :=
  w ← get; find_dag num (all_dag w).
(** The other overload does not look at the DAG id either. *)
Definition find_by_instanceid_dagid (num : Z) (dagid : list Z) : M world (option nat) :=
  w ← get; find_dag num (all_dag w).

Definition world_count (x : packet_stats) : M world unit := in_sys (global_count x).

Definition find_or_make_by_instanceid (num : Z) (n_dagid : list Z) (watching : bool) : M world nat :=
  dn ← find_by_instanceid_dagid num n_dagid;
  match dn with
  | Some k => mret k
  | None =>
      k ← new_dag_network num (Some n_dagid);
      when watching (world_count PS_DAG_CREATED_FOR_WATCHING) ;;
      in_dag k (dag_upd (fun d => d <| mActive := false |>)) ;;
      mret k
  end.

(** [dagid] is the string, without its NUL. *)
Definition find_or_make_by_string (num : Z) (dagid : list Z) (watching : bool) : M world nat :=
  find_or_make_by_instanceid num (take 16 dagid ++ zeros (16 - length dagid)) watching.

(** [matchesIfWildcard] *)
Definition matchesIfWildcard `{Fnmatch} (d : dag_network) (ifname : string) : bool :=
  existsb (fun row => fnmatch row ifname) (take (Z.to_nat DAG_IFWILDCARD_MAX) (mIfWildcard d)).

(** * Receiving *)
Section receive.
Context `{EventHeap, PrefixMapSem}.

(** A loop over the list of DAGs. *)
Definition all_dags (body : nat -> M world unit) : M world unit :=
  w ← get; for_each (all_dag w) body.

Definition repair_dao_send : M world unit :=
  all_dags (fun k => in_dag k (dag_upd (fun d => d <| dao_needed := true |>) ;; maybe_send_dao)).

Definition send_all_dag (i : nat) : M world unit := all_dags (fun k => in_dag k (send_dis i)).

(** The DAG an interface looks up: one that watches makes it. *)
Definition find_dag_for (i : nat) (num : Z) (dagid : list Z) : M world (option nat) :=
  n ← in_sys (get_iface i);
  if watching n then k ← find_or_make_by_instanceid num dagid (watching n); mret (Some k)
  else find_by_instanceid_dagid num dagid.

(** [receive_dio]: [dat] is the message after the ICMPv6 header, and what is
    behind it in memory. *)
Definition receive_dio (i : nat) (from : in6_addr) (now : Z) (dat : list Z) (dio_len : Z) : M world unit :=
  short ← in_sys (packet_too_short i dio_len Dio.size);
  if (short : bool) then mret tt
  else
    dio ← lift (Dio.overlay dat 0);
    dn ← find_dag_for i (Dio.rpl_instanceid dio) (Dio.rpl_dagid dio);
    match dn with
    | Some k => in_dag k (dag_receive_dio i from now dat dio_len)
    | None => world_count PS_DIO_PACKET_IGNORED
    end.

(** The DAG id of a DAO or a DAO-ACK: the 16 bytes after the base object when
    the D flag is set, and otherwise what the stack held after a 0. *)
Definition read_dagid (dat : list Z) (flag size : Z) : M world (list Z) :=
  s ← in_sys get;
  if flag =? 0 then mret (0 :: take 15 (junk_bytes s)) else lift (rd_range dat size 16).
Definition option_start (flag size : Z) : Z := if flag =? 0 then size else size + 16.

(** [receive_dao]; [dat_len] is unsigned here and an int in the callee. *)
Definition receive_dao (i : nat) (from : in6_addr) (now : Z) (dat : list Z) (dao_len : Z) : M world unit :=
  short ← in_sys (packet_too_short i dao_len Dao.size);
  if (short : bool) then mret tt
  else
    dao ← lift (Dao.overlay dat 0);
    let flag := RPL_DAO_D (Dao.rpl_flags dao) in
    dagid ← read_dagid dat flag Dao.size;
    let off := option_start flag Dao.size in
    dn ← find_dag_for i (Dao.rpl_instanceid dao) dagid;
    match dn with
    | Some k => in_dag k (dag_receive_dao i from now dao dat off (s32 (u32 (dao_len - off))))
    | None => world_count PS_DAO_PACKET_IGNORED
    end.

(** [receive_daoack] *)
Definition receive_daoack (i : nat) (from : in6_addr) (now : Z) (dat : list Z) (daoack_len : Z) : M world unit :=
  short ← in_sys (packet_too_short i daoack_len DaoAck.size);
  if (short : bool) then mret tt
  else
    daoack ← lift (DaoAck.overlay dat 0);
    let flag := RPL_DAOACK_D (DaoAck.rpl_flags daoack) in
    dagid ← read_dagid dat flag DaoAck.size;
    if flag =? 0 then world_count PS_DAOACK_NO_DAGID_IGNORED
    else
      dn ← find_by_instanceid_dagid (DaoAck.rpl_instanceid daoack) dagid;
      match dn with
      | Some k => in_dag k (dag_receive_daoack from daoack)
      | None => world_count PS_DAOACK_PACKET_IGNORED
      end.

(** The loop of [receive_dis] over the solicited-information options. *)
Fixpoint solicited_loop (fuel : nat) (m : rpl_msg) : M world unit :=
  match fuel with
  | O => fail OutOfFuel
  | S fuel' =>
      '(m, r) ← lift (rplsolicitedinfo m);
      match r with
      | None => mret tt
      | Some si =>
          flags ← lift (rd (mBytes m) (si + 3));
          dn ← (if Z.land flags (Z.lor RPL_DIS_SI_I RPL_DIS_SI_D) =? Z.lor RPL_DIS_SI_I RPL_DIS_SI_D then
                  num ← lift (rd (mBytes m) (si + 2));
                  find_by_instanceid_dagid num (take 16 (drop (Z.to_nat (si + 4)) (mBytes m)))
                else if negb (Z.land flags RPL_DIS_SI_I =? 0) then
                  num ← lift (rd (mBytes m) (si + 2));
                  find_by_instanceid num
                else mret None);
          (match dn with
           | Some k => in_dag k dag_receive_dis
           | None => world_count PS_DIS_PACKET_IGNORED
           end) ;;
          solicited_loop fuel' m
      end
  end.

Definition receive_dis (i : nat) (dat : list Z) (dis_len : Z) : M world unit :=
  short ← in_sys (packet_too_short i dis_len Dis.size);
  if (short : bool) then mret tt
  else
    s ← in_sys get;
    m ← lift (rpl_msg_init (junk_bytes s) dat Dis.size (s32 (u32 (dis_len - Dis.size))));
    solicited_loop scan_fuel m.

(** [%s]: the characters up to the NUL are read. *)
Fixpoint rd_string (m : list Z) : outcome unit :=
  match m with
  | [] => Fault OutOfBounds
  | b :: m' => if b =? 0 then Ok tt else rd_string m'
  end.
(** The loop over the options of router and neighbour advertisements; they are
    only logged.  In verbose mode the fields of a prefix are read, though the
    option may go past what was received, and past the buffer. *)
Fixpoint nd_options_loop (fuel : nat) (i : nat) (bytes : list Z) (len off : Z) : M world unit :=
  match fuel with
  | O => fail OutOfFuel
  | S fuel' =>
      if negb (off <? len) then mret tt
      else
        ty ← lift (rd bytes off);
        if ty =? 0 then mret tt
        else
          l ← lift (rd bytes (off + 1));
          let optlen := Z.shiftl l 3 in
          short ← in_sys (packet_too_short i optlen Nd.opt_hdr_size);
          if (short : bool) then mret tt
          else
            short ← in_sys (packet_too_short i len optlen);
            if (short : bool) then mret tt
            else
              short ← (if ty =? Nd.ND_OPT_PREFIX_INFORMATION
                       then in_sys (packet_too_short i optlen Nd.prefix_info_size) else mret false);
              if (short : bool) then mret tt
              else
                s ← in_sys get;
                when ((ty =? Nd.ND_OPT_PREFIX_INFORMATION) && verbose s)
                  (lift (rd_range bytes off Nd.prefix_info_size) ;; mret tt) ;;
                nd_options_loop fuel' i bytes len (off + optlen)
  end.
Definition nd_fuel (len : Z) : nat := S (Z.to_nat len).

(** [src_addrbuf]: only [verbose_test()] writes it. *)
Definition INET6_ADDRSTRLEN : nat := 46.
Definition warn_solicitation : M world unit :=
  s ← in_sys get;
  if verbose s then mret tt else lift (rd_string (take INET6_ADDRSTRLEN (junk_bytes s))).

(** [receive_packet]: [bytes] is the buffer, of which [len] bytes were received.
    A router solicitation is logged with the text of the sender's address, which
    is there in verbose mode only. *)
Definition receive_packet (i : nat) (src dst : in6_addr) (now : Z) (bytes : list Z) (len : Z) : M world unit :=
  in_sys (upd_iface i (fun n => n <| recv_cnt ::= (fun c => c + 1) |>)) ;;
  ty ← lift (rd bytes 0);
  let dat := drop 4 bytes in
  let options size := nd_options_loop (nd_fuel len) i bytes len size in
  if ty =? ND_RPL_MESSAGE then
    code ← lift (rd bytes 1);
    if code =? ND_RPL_DAG_IO then receive_dio i src now dat (len - 4)
    else if code =? ND_RPL_DAO then receive_dao i src now dat (len - 4)
    else if code =? ND_RPL_DAO_ACK then receive_daoack i src now dat (len - 4)
    else if code =? ND_RPL_DAG_IS then
      world_count PS_DIS_PACKET_IGNORED ;; receive_dis i dat (len - 4)
    else world_count PS_RPL_UNKNOWN_CODE
  else if ty =? Nd.ND_ROUTER_SOLICIT then warn_solicitation ;; options Nd.rs_size
  else if ty =? Nd.ND_ROUTER_ADVERT then options Nd.ra_size
  else if ty =? Nd.ND_NEIGHBOR_SOLICIT then in_sys (receive_neighbour_solicit i src dst bytes len)
  else if ty =? Nd.ND_NEIGHBOR_ADVERT then options Nd.ns_size
  else mret tt.

(** What [recvmsg] gives: the sender, the control messages, the data. *)
Inductive control :=
| HopLimit (size_ok : bool) (v : Z)
| PktInfo (size_ok : bool) (addr : in6_addr) (ifindex : Z)
| OtherControl.
Record datagram := mk_datagram { rx_from : in6_addr; rx_control : list control; rx_data : list Z }.

(** The loop over the control messages; [None]: the packet is dropped. *)
Fixpoint scan_control (cs : list control) (info : option (in6_addr * Z)) : option (option (in6_addr * Z)) :=
  match cs with
  | [] => Some info
  | HopLimit ok v :: cs' =>
      if ok && (v >=? 0) && (v <? 256) then scan_control cs' info else None
  | PktInfo ok a ifindex :: cs' =>
      if ok && negb (ifindex =? 0) then scan_control cs' (Some (a, ifindex)) else None
  | OtherControl :: cs' => scan_control cs' info
  end.

(** [network_interface::receive]: the buffer has 2048 bytes. *)
Definition receive (now : Z) (g : datagram) : M world unit :=
  match scan_control (rx_control g) None with
  | None => mret tt
  | Some info =>
      let '(dst, ifindex) := default (zeros 16, -1) info in
      found ← in_sys (find_by_ifindex ifindex);
      match found with
      | None => mret tt
      | Some i =>
          s ← in_sys get;
          let data := take 2048 (rx_data g) in
          receive_packet i (rx_from g) dst now (data ++ drop (length data) (junk_bytes s)) (zlen data)
      end
  end.

(** * Timers *)

(** [send_dio_all] *)
Definition send_dio_all (dag : option nat) : M world unit :=
  s ← in_sys get;
  for_each (all_if s) (fun i =>
    n ← in_sys (get_iface i);
    when (is_active n && negb (loopback n))
      (match dag with
       | Some k => in_dag k (send_dio i)
       | None => fail NullDeref
       end)).

(** [rpl_event::doit] *)
Definition doit (e : nat) : M world bool :=
  ev ← in_sys (with_timers (get_event e));
  match event_type ev with
  | rpl_send_dio => send_dio_all (event_mDag ev) ;; mret true
  | rpl_send_dao =>
      (match event_mDag ev with Some k => in_dag k send_dao | None => mret tt end) ;; mret true
  | rpl_event_max => mret false
  end.

(** [delete re], with its destructor. *)
Definition delete_event (e : nat) : M world unit :=
  ev ← in_sys (with_timers (get_event e));
  (match event_mDag ev with Some k => in_dag k (clear_event (Some e)) | None => mret tt end) ;;
  in_sys (with_timers (set_event e (fun ev => ev <| deleted := true |>))).

Definition terminating : M world unit := in_sys (modify (fun s => s <| terminating_soon := true |>)).

Definition force_next_event : M world bool :=
  re ← in_sys (with_timers next_event);
  s ← in_sys get;
  match re with
  | None => mret false
  | Some e =>
      again ← doit e;
      (if again && negb (terminating_soon s)
       then in_sys (with_timers (requeue_at e (clock (things_to_do s))))
       else delete_event e) ;;
      mret true
  end.

(** [clear_events]: every turn takes an event off the queue. *)
Fixpoint clear_events_loop (fuel : nat) : M world unit :=
  match fuel with
  | O => fail OutOfFuel
  | S fuel' =>
      re ← in_sys (with_timers next_event);
      match re with None => mret tt | Some e => delete_event e ;; clear_events_loop fuel' end
  end.
Definition clear_events : M world unit :=
  s ← in_sys get; clear_events_loop (S (length (queue (things_to_do s)))).

(** [~network_interface] *)
Definition delete_iface (i : nat) : M world unit :=
  in_sys (remove_from_list i) ;;
  clear_events ;;
  in_sys (modify (fun s => s <| freed_if ::= cons i |>)).
End receive.
