(* ===== verification/Join.v ===== *)
(** The join assistant: which option of a solicitation it reads, the question it
    asks the registrar, and what it does with the answer. *)

From Stdlib Require Import ZArith Lia String.
From stdpp Require Import base list gmap numbers strings sorting.
From S2P Require Import Prelude Wire Subopt Event Prefix State Iface Build Neighbour.
#[local] Open Scope Z_scope.

(** * The options of neighbour discovery

    An option has a type and a length in units of eight bytes; an ARO has room
    for its EUI-64. *)
Record nd_option := mk_opt { opt_type : Z; opt_body : list Z }.
Definition units (o : nd_option) : Z := (2 + zlen (opt_body o)) / 8.
Definition opt_wf (o : nd_option) : Prop :=
  (2 + zlen (opt_body o)) mod 8 = 0 /\ (opt_type o = Nd.ND_OPT_ARO -> 2 <= units o).
Definition opt_enc (o : nd_option) : list Z := opt_type o :: units o :: opt_body o.
Definition opts_enc (os : list nd_option) : list Z := mjoin (opt_enc <$> os).

(** Where the first ARO is. *)
Fixpoint first_aro (base : Z) (os : list nd_option) : option Z :=
  match os with
  | [] => None
  | o :: os' => if opt_type o =? Nd.ND_OPT_ARO then Some base else first_aro (base + zlen (opt_enc o)) os'
  end.
(** What the loop has seen so far stays: the first one counts. *)
Definition keep_first (seen next : option Z) : option Z := match seen with Some o => Some o | None => next end.

Section options.
Lemma opt_enc_len o : opt_wf o -> zlen (opt_enc o) = units o * 8 /\ 1 <= units o.
Proof.
  intros [Hm _]. unfold opt_enc, units. rewrite !zlen_cons. pose proof (zlen_nonneg (opt_body o)).
  Z.to_euclidean_division_equations; lia.
Qed.
Lemma opts_enc_cons o os : opts_enc (o :: os) = opt_enc o ++ opts_enc os.
Proof. done. Qed.

(** One turn of the loop, on a well-formed option. *)
Lemma find_aro_step fuel pre o rest optend seen : opt_wf o -> zlen pre + 8 <= optend ->
  find_aro (S fuel) (pre ++ opt_enc o ++ rest) optend (zlen pre) seen =
  find_aro fuel (pre ++ opt_enc o ++ rest) optend (zlen pre + zlen (opt_enc o))
    (keep_first seen (if opt_type o =? Nd.ND_OPT_ARO then Some (zlen pre) else None)).
Proof.
  intros Hwf Hend. destruct (opt_enc_len o Hwf) as [Hlen Hu]. cbn [find_aro]. unfold Nd.opt_hdr_size.
  rewrite (proj2 (Z.ltb_lt _ _)) by lia.
  assert (rd (pre ++ opt_enc o ++ rest) (zlen pre) = Ok (opt_type o)) as ->.
  { rewrite <-(Z.add_0_r (zlen pre)) at 1. rewrite rd_mid by lia. done. }
  assert (rd (pre ++ opt_enc o ++ rest) (zlen pre + 1) = Ok (units o)) as -> by (by rewrite rd_mid by lia).
  cbn [mbind outcome_bind]. rewrite Hlen. case_bool; zbool.
  - rewrite rd_range_mid by (pose proof (proj2 Hwf ltac:(done)); lia). cbn [mbind outcome_bind]. by destruct seen.
  - cbn [mbind outcome_bind]. by destruct seen.
Qed.

Lemma find_aro_skip os : forall pre fuel rest optend seen, Forall opt_wf os ->
  zlen pre + zlen (opts_enc os) <= optend ->
  find_aro (length os + fuel) (pre ++ opts_enc os ++ rest) optend (zlen pre) seen =
  find_aro fuel (pre ++ opts_enc os ++ rest) optend (zlen pre + zlen (opts_enc os))
    (keep_first seen (first_aro (zlen pre) os)).
Proof.
  induction os as [|o os IH]; intros pre fuel rest optend seen Hwf Hend.
  { cbn. rewrite Z.add_0_r. by destruct seen. }
  apply Forall_cons in Hwf as [Ho Hos]. destruct (opt_enc_len o Ho) as [Hlen Hu].
  rewrite opts_enc_cons, <-app_assoc. rewrite opts_enc_cons, zlen_app in Hend. pose proof (zlen_nonneg (opts_enc os)).
  cbn [length Nat.add]. rewrite find_aro_step by (done || lia).
  rewrite (app_assoc pre), <-zlen_app. rewrite IH by (rewrite ?zlen_app; done || lia).
  rewrite <-app_assoc, !zlen_app. f_equal; [lia|]. cbn [first_aro]. destruct seen; [done|]. cbn [keep_first].
  by case_bool.
Qed.

Lemma opts_count os : Forall opt_wf os -> Z.of_nat (length os) <= zlen (opts_enc os).
Proof.
  induction 1 as [|o os Ho _ IH]; [done|]. rewrite opts_enc_cons, zlen_app.
  destruct (opt_enc_len o Ho). cbn [length]. lia.
Qed.

(** A run that did not stop for want of fuel is the same with more of it. *)
Lemma find_aro_more fuel : forall fuel' dat optend off seen, (fuel <= fuel')%nat ->
  find_aro fuel dat optend off seen <> Fault OutOfFuel ->
  find_aro fuel' dat optend off seen = find_aro fuel dat optend off seen.
Proof.
  induction fuel as [|fuel IH]; intros fuel' dat optend off seen Hle Hne; [done|]. destruct fuel' as [|fuel']; [lia|].
  cbn [find_aro] in *. destruct (off <? optend - Nd.opt_hdr_size); [|done].
  destruct (rd dat off) as [ty|]; [|done]. cbn [mbind outcome_bind] in *.
  destruct (if ty =? _ then _ else _) as [seen'|]; [|done]. cbn [mbind outcome_bind] in *.
  destruct (rd dat (off + 1)) as [ln|]; [|done]. cbn [mbind outcome_bind] in *. apply IH; [lia|done].
Qed.

Lemma find_aro_run hdr os post : zlen hdr = Nd.ns_size -> Forall opt_wf os ->
  let nd_len := Nd.ns_size + zlen (opts_enc os) in
  find_aro (find_aro_fuel nd_len) (hdr ++ opts_enc os ++ post) nd_len Nd.ns_size None = Ok (first_aro Nd.ns_size os).
Proof.
  intros Hh Hos nd_len. pose proof (opts_count os Hos). pose proof (zlen_nonneg (opts_enc os)).
  assert (find_aro (length os + 1) (hdr ++ opts_enc os ++ post) nd_len Nd.ns_size None = Ok (first_aro Nd.ns_size os)) as E.
  { rewrite <-Hh. rewrite find_aro_skip by (done || lia). cbn [find_aro keep_first].
    rewrite (proj2 (Z.ltb_ge _ _)); [done|]. unfold nd_len, Nd.opt_hdr_size. lia. }
  rewrite <-E. apply find_aro_more; [|by rewrite E].
  unfold find_aro_fuel, nd_len. rewrite <-Hh. pose proof (zlen_nonneg hdr). lia.
Qed.

(** On well-formed options the loop of the join assistant comes to an end
    and finds the first ARO, or none when there is none. *)
Lemma find_aro_first hdr os post : zlen hdr = Nd.ns_size -> Forall opt_wf os ->
  let nd_len := Nd.ns_size + zlen (opts_enc os) in
  find_aro (find_aro_fuel nd_len) (hdr ++ opts_enc os ++ post) nd_len Nd.ns_size None = Ok (first_aro Nd.ns_size os).
Proof. apply find_aro_run. Qed.

(** An option of length zero, behind any well-formed ones, keeps the loop
    at the same place for ever: one packet stops the program. *)
Lemma zero_length_option_hangs fuel hdr os ty post optend :
  zlen hdr = Nd.ns_size -> Forall opt_wf os -> ty <> Nd.ND_OPT_ARO ->
  Nd.ns_size + zlen (opts_enc os) + 2 < optend ->
  find_aro fuel (hdr ++ opts_enc os ++ [ty; 0] ++ post) optend Nd.ns_size None = Fault OutOfFuel.
Proof.
  intros Hh Hos Hty Hend. rewrite <-Hh in *. set (dat := hdr ++ _).
  assert (forall f seen, find_aro f dat optend (zlen hdr + zlen (opts_enc os)) seen = Fault OutOfFuel) as Hloop.
  { assert (dat = (hdr ++ opts_enc os) ++ [ty; 0] ++ post) as Hdat by (subst dat; by rewrite app_assoc).
    rewrite <-zlen_app. induction f as [|f IH]; intros seen; [done|]. cbn [find_aro]. unfold Nd.opt_hdr_size.
    rewrite (proj2 (Z.ltb_lt _ _)) by (rewrite zlen_app; lia).
    assert (rd dat (zlen (hdr ++ opts_enc os)) = Ok ty) as ->.
    { rewrite Hdat. rewrite <-(Z.add_0_r (zlen (hdr ++ opts_enc os))). by rewrite rd_mid. }
    assert (rd dat (zlen (hdr ++ opts_enc os) + 1) = Ok 0) as -> by (rewrite Hdat; by rewrite rd_mid).
    cbn [mbind outcome_bind]. rewrite (proj2 (Z.eqb_neq _ _)) by done. cbn [mbind outcome_bind].
    rewrite Z.mul_0_l, Z.add_0_r. apply IH. }
  assert (find_aro (length os + fuel) dat optend (zlen hdr) None = Fault OutOfFuel) as E.
  { subst dat. rewrite find_aro_skip by (done || lia). apply Hloop. }
  destruct (find_aro fuel dat optend (zlen hdr) None) as [r|f] eqn:Ef; [|destruct (decide (f = OutOfFuel)) as [->|Hne]; [done|]];
    (rewrite (find_aro_more fuel (length os + fuel)) in E; [congruence|lia|congruence]).
Qed.
End options.

(** * The neighbour table *)
Definition quiet (s : sys) := (out s, lastsession s, junk_node s, nd_socket_open s, igmp6 s, things_to_do s, mcast_ok s).
(** The interface [i] is [n] after the change, and nothing else that matters changed. *)
Definition becomes (i : nat) (n : network_interface) (s s' : sys) : Prop :=
  get_iface i s' = Ok (n, s') /\ quiet s' = quiet s.

Section table.
Lemma becomes_trans i n n' (s s' s'' : sys) : becomes i n s s' -> becomes i n' s' s'' -> becomes i n' s s''.
Proof. intros [_ Hq] [Hi Hq']. split; [done|congruence]. Qed.

Lemma upd_iface_becomes i f n s : get_iface i s = Ok (n, s) ->
  exists s', upd_iface i f s = Ok (tt, s') /\ becomes i (f n) s s'.
Proof.
  unfold get_iface. case_decide as Hf; [done|]. destruct (ifaces s !! i) as [x|] eqn:Hi; [|done]. intros [= ->].
  eexists. split; [done|]. split; [|done]. unfold get_iface. cbn. rewrite decide_False by done.
  change (match alter f i (ifaces s) !! i with Some x => Ok (x, s <| ifaces ::= alter f i |>) | None => Fault UseAfterFree end
    = Ok (f n, s <| ifaces ::= alter f i |>)). by rewrite list_lookup_alter_eq, Hi.
Qed.

Lemma count_becomes i x n s : get_iface i s = Ok (n, s) -> exists s', global_count x s = Ok (tt, s') /\ becomes i n s s'.
Proof.
  intros Hi. eexists. split; [done|]. split; [|done]. revert Hi. unfold get_iface. cbn.
  case_decide; [done|]. by destruct (ifaces s !! i); [intros [= ->]|].
Qed.

Lemma upd_neighbour_becomes i a f n s : get_iface i s = Ok (n, s) ->
  let nd := f (node_at (junk_node s) (neighbours n) a) in
  exists s', upd_neighbour i a f s = Ok (nd, s') /\ becomes i (n <| neighbours ::= <[a := nd]> |>) s s'.
Proof.
  intros Hi nd. unfold upd_neighbour. rewrite (bind_ok _ _ s n s Hi), (bind_ok _ _ s s s) by done.
  destruct (upd_iface_becomes i (fun n => n <| neighbours ::= <[a := nd]> |>) n s Hi) as (s' & E & Hb).
  exists s'. split; [|done]. fold nd. by rewrite (bind_ok _ _ s tt s' E).
Qed.

Lemma if_index_cached i n s : get_iface i s = Ok (n, s) -> 0 < if_index n -> get_if_index i s = Ok (if_index n, s).
Proof.
  intros Hi Hx. unfold get_if_index. rewrite (bind_ok _ _ s n s Hi).
  by rewrite (proj2 (Z.gtb_lt _ _)) by lia.
Qed.

(** Looking a neighbour up makes an entry for it, and only for it. *)
Lemma find_neighbour_becomes i a n s : get_iface i s = Ok (n, s) -> 0 < if_index n ->
  exists nd m s', find_neighbour i a s = Ok (nd, s') /\ becomes i (n <| neighbours := m |>) s s' /\
    forall b, b <> a -> m !! b = neighbours n !! b.
Proof.
  intros Hi Hx. unfold find_neighbour.
  destruct (upd_neighbour_becomes i a id n s Hi) as (s1 & E1 & Hb1). set (nd1 := id _) in *.
  rewrite (bind_ok _ _ s nd1 s1 E1). destruct (nd_valid nd1).
  { eexists nd1, _, s1. split; [done|]. split; [exact Hb1|]. intros b Hne. by rewrite lookup_insert_ne. }
  rewrite (bind_ok _ _ s1 (if_index n) s1) by by apply (if_index_cached i _ s1 (proj1 Hb1)).
  destruct (upd_neighbour_becomes i a (markvalid (if_index n) a) _ s1 (proj1 Hb1)) as (s2 & E2 & Hb2).
  eexists _, _, s2. split; [exact E2|]. split; [exact (becomes_trans _ _ _ _ _ _ Hb1 Hb2)|].
  intros b Hne. cbn. by rewrite !lookup_insert_ne.
Qed.
End table.

(** * A solicitation to join *)
Section solicit.
(** The solicitation of [target], with options, in memory. *)
Definition solicitation (hdr : list Z) (target : in6_addr) (os : list nd_option) (post : list Z) : list Z :=
  (hdr ++ target) ++ opts_enc os ++ post.

Lemma send_cbor_run i g query n s : get_iface i s = Ok (n, s) ->
  exists b s' n', send_cbor i g query s = Ok (b, s') /\ get_iface i s' = Ok (n', s') /\
    neighbours n' = neighbours n /\ alive n' = alive n /\ if_index n' = if_index n /\ if_addr n' = if_addr n /\
    (is_Some (join_query_client n') <-> is_Some (join_query_client n)) /\
    out s' = (if grasp_write_ok g then [OGrasp i query] else []) ++ out s /\
    (junk_node s', nd_socket_open s', igmp6 s', mcast_ok s') = (junk_node s, nd_socket_open s, igmp6 s, mcast_ok s).
Proof.
  intros Hi. unfold send_cbor. destruct (grasp_write_ok g); [|by eexists _, s, n].
  set (s1 := s <| out ::= cons (OGrasp i query) |>). rewrite (bind_ok _ _ s tt s1) by done.
  assert (get_iface i s1 = Ok (n, s1)) as Hi1.
  { revert Hi. unfold get_iface. cbn. case_decide; [done|]. by destruct (ifaces s !! i); [intros [= ->]|]. }
  unfold upd_client.
  destruct (upd_iface_becomes i (fun n => n <| join_query_client ::= fmap (fun g => g <| queries_outstanding ::= (fun k => u32 (k + 1)) |>) |>)
    n s1 Hi1) as (s2 & E & Hi2 & Hq). rewrite (bind_ok _ _ s1 tt s2 E). eexists true, s2, _. split; [done|]. split; [exact Hi2|].
  unfold quiet in Hq. injection Hq as Ho _ Hj Hs Hg _ Hm. split_and!; try done; [|by rewrite Hj, Hs, Hg, Hm].
  cbn. by rewrite fmap_is_Some.
Qed.

Lemma aro_place hdr target os1 o os2 post : zlen (hdr ++ target) = Nd.ns_size ->
  Forall opt_wf (os1 ++ o :: os2) -> opt_type o = Nd.ND_OPT_ARO -> Forall (fun x => opt_type x <> Nd.ND_OPT_ARO) os1 ->
  let dat := solicitation hdr target (os1 ++ o :: os2) post in
  let nd_len := Nd.ns_size + zlen (opts_enc (os1 ++ o :: os2)) in
  exists off, find_aro (find_aro_fuel nd_len) dat nd_len Nd.ns_size None = Ok (Some off) /\
    rd_range dat (off + 8) 8 = Ok (take 8 (drop 6 (opt_body o))).
Proof.
  intros Hh Hwf Hty Hno dat nd_len. exists (Nd.ns_size + zlen (opts_enc os1)). split.
  - unfold dat, solicitation, nd_len. rewrite find_aro_run by done. f_equal. clear -Hty Hno.
    generalize Nd.ns_size. induction Hno as [|x os1 Hx _ IH]; intros base; cbn [app first_aro].
    + rewrite Hty, Z.eqb_refl. cbn. f_equal. unfold zlen. cbn. lia.
    + rewrite (proj2 (Z.eqb_neq _ _)) by done. rewrite IH, opts_enc_cons, zlen_app. f_equal. lia.
  - apply Forall_app in Hwf as [_ Hwf]. apply Forall_cons in Hwf as [Ho _].
    destruct (opt_enc_len o Ho) as [Hl _]. pose proof (proj2 Ho Hty) as Hu.
    unfold dat, solicitation. rewrite <-Hh.
    assert (opts_enc (os1 ++ o :: os2) = opts_enc os1 ++ opt_enc o ++ opts_enc os2) as -> by (unfold opts_enc; by rewrite fmap_app, join_app).
    rewrite <-!app_assoc, (app_assoc hdr), (app_assoc (hdr ++ target)), <-zlen_app.
    rewrite rd_range_mid by lia. done.
Qed.

(** The state after a node was marked and asked for. *)
Definition asked (i : nat) (target : in6_addr) (gsi : Z) (n : network_interface) (s s' : sys) (n' : network_interface) : Prop :=
  get_iface i s' = Ok (n', s') /\ alive n' = alive n /\ if_index n' = if_index n /\ if_addr n' = if_addr n /\
  (is_Some (join_query_client n') <-> is_Some (join_query_client n)) /\
  (nd_socket_open s', igmp6 s', mcast_ok s') = (nd_socket_open s, igmp6 s, mcast_ok s) /\
  (forall b, b <> target -> neighbours n' !! b = neighbours n !! b) /\
  exists nd, neighbours n' !! target = Some nd /\ node_number nd = target /\ queryId nd = gsi /\ join_declined nd = false /\
    join_accepted nd = false /\ join_queryInProgress nd = false.

(** The body of the join reply, once the entry of the node has been marked. *)
Lemma join_query_run i target dat nd_len off eui n g s nd0 idx :
  find_aro (find_aro_fuel nd_len) dat nd_len Nd.ns_size None = Ok (Some off) -> rd_range dat (off + 8) 8 = Ok eui ->
  get_iface i s = Ok (n, s) -> join_query_client n = Some g -> neighbours n !! target = Some (markvalid idx target nd0) ->
  let gsi := u32 (s32 (lastsession s + 1)) in
  exists s' n', reply_mcast_neighbour_join i target dat nd_len s = Ok (tt, s') /\ asked i target gsi n s s' n' /\
    out s' = (if grasp_write_ok g then [OGrasp i (aro_query gsi eui)] else []) ++ out s.
Proof.
  intros Haro Heui Hi Hg Hnd gsi. unfold reply_mcast_neighbour_join.
  rewrite (bind_ok _ _ s (Some off) s) by (unfold lift; by rewrite Haro).
  destruct (count_becomes i PS_NEIGHBOUR_JOIN_NEIGHBOUR_SOLICITATION n s Hi) as (s1 & E1 & Hb1).
  rewrite (bind_ok _ _ s tt s1 E1).
  destruct (upd_neighbour_becomes i target id n s1 (proj1 Hb1)) as (s2 & E2 & Hb2).
  assert (node_at (junk_node s1) (neighbours n) target = markvalid idx target nd0) as Hat by (unfold node_at; by rewrite Hnd).
  rewrite Hat in *. cbn [id] in *. rewrite (bind_ok _ _ s1 _ s2 E2).
  change (join_declined (markvalid idx target nd0)) with false. change (join_queryInProgress (markvalid idx target nd0)) with false.
  change (join_accepted (markvalid idx target nd0)) with false. cbn iota.
  destruct (count_becomes i PS_NEIGHBOUR_JOIN_QUERY_STARTED _ s2 (proj1 Hb2)) as (s3 & E3 & Hb3).
  rewrite (bind_ok _ _ s2 tt s3 E3). set (n3 := n <| neighbours ::= _ |>) in *.
  rewrite (bind_ok _ _ s3 n3 s3 (proj1 Hb3)). change (join_query_client n3) with (join_query_client n). rewrite Hg.
  rewrite (bind_ok _ _ s3 eui s3) by (unfold lift; by rewrite Heui).
  assert (quiet s3 = quiet s) as Hq3 by (destruct Hb1, Hb2, Hb3; congruence). unfold quiet in Hq3.
  injection Hq3 as Ho Hl Hj Hso Hig _ Hmc.
  set (s4 := s3 <| lastsession ::= (fun k => s32 (k + 1)) |>).
  assert (get_iface i s4 = Ok (n3, s4)) as Hi4.
  { destruct Hb3 as [Hb3 _]. revert Hb3. unfold get_iface. cbn. case_decide; [done|]. by destruct (ifaces s3 !! i); [intros [= ->]|]. }
  destruct (send_cbor_run i g (aro_query gsi eui) n3 s4 Hi4) as (b & s5 & n5 & E5 & Hi5 & Hnb & Hal & Hix & Had & Hjq & Hout & Hrest).
  rewrite (bind_ok _ _ s3 gsi s5); cycle 1.
  { unfold start_query_for_aro, generate_random_sessionid. rewrite (bind_ok _ _ s3 gsi s4); [by rewrite (bind_ok _ _ s4 b s5 E5)|].
    rewrite (bind_ok _ _ s3 tt s4) by done. unfold gets, gsi. cbn. by rewrite Hl. }
  destruct (upd_neighbour_becomes i target (fun nd => nd <| queryId := gsi |>) n5 s5 Hi5) as (s6 & E6 & Hi6 & Hq6).
  rewrite (bind_ok _ _ s5 _ s6 E6). unfold quiet in Hq6. injection Hq6 as Ho6 _ _ Hso6 Hig6 _ Hmc6. injection Hrest as _ Hso5 Hig5 Hmc5.
  eexists s6, _. split; [done|]. split.
  - split; [exact Hi6|]. split_and!; try done; [rewrite Hso6, Hig6, Hmc6, Hso5, Hig5, Hmc5; cbn; congruence| |].
    + intros c Hc. cbn. rewrite lookup_insert_ne, Hnb by done. cbn. by rewrite lookup_insert_ne.
    + eexists. cbn. rewrite lookup_insert_eq. split; [done|].
      assert (node_at (junk_node s5) (neighbours n5) target = markvalid idx target nd0) as ->; [|done].
      unfold node_at. rewrite Hnb. cbn. by rewrite lookup_insert_eq.
  - rewrite Ho6, Hout. cbn. by rewrite Ho.
Qed.

Lemma solicit_join_run i from hdr target os1 o os2 post n g s :
  zlen hdr = 8 -> length target = 16%nat -> Forall opt_wf (os1 ++ o :: os2) ->
  opt_type o = Nd.ND_OPT_ARO -> Forall (fun x => opt_type x <> Nd.ND_OPT_ARO) os1 ->
  get_iface i s = Ok (n, s) -> 0 < if_index n -> matching_address n all_hosts_addr = false -> join_query_client n = Some g ->
  let gsi := u32 (s32 (lastsession s + 1)) in
  let eui := take 8 (drop 6 (opt_body o)) in
  exists s' n', receive_neighbour_solicit i from all_hosts_addr (solicitation hdr target (os1 ++ o :: os2) post)
      (Nd.ns_size + zlen (opts_enc (os1 ++ o :: os2))) s = Ok (tt, s') /\ asked i target gsi n s s' n' /\
    out s' = (if grasp_write_ok g then [OGrasp i (aro_query gsi eui)] else []) ++ out s.
Proof.
  intros Hh Ht Hwf Hty Hno Hi Hx Hm Hg gsi eui.
  assert (zlen (hdr ++ target) = Nd.ns_size) as Hht by (rewrite zlen_app, Hh; unfold zlen; rewrite Ht; done).
  destruct (aro_place hdr target os1 o os2 post Hht Hwf Hty Hno) as (off & Haro & Heui).
  set (dat := solicitation _ _ _ _) in *. set (nd_len := Nd.ns_size + _) in *.
  unfold receive_neighbour_solicit.
  destruct (count_becomes i PS_NEIGHBOUR_SOLICIT n s Hi) as (s1 & E1 & Hb1). rewrite (bind_ok _ _ s tt s1 E1).
  rewrite (bind_ok _ _ s1 false s1); cycle 1.
  { unfold packet_too_short. rewrite (proj2 (Z.ltb_ge _ _)); [done|]. unfold nd_len. pose proof (zlen_nonneg (opts_enc (os1 ++ o :: os2))). lia. }
  rewrite (bind_ok _ _ s1 target s1); cycle 1.
  { unfold lift, dat, solicitation. rewrite <-app_assoc. change 8 with (8 + 0). rewrite <-Hh at 1.
    assert (16 = zlen target) as -> by (unfold zlen; by rewrite Ht). rewrite Z.add_0_r, rd_range_app. done. }
  destruct (find_neighbour_becomes i target n s1 (proj1 Hb1) Hx) as (nd & m & s2 & E2 & Hb2 & Hoth).
  rewrite (bind_ok _ _ s1 nd s2 E2), (bind_ok _ _ s2 _ s2 (proj1 Hb2)).
  change (matching_address (n <| neighbours := m |>) all_hosts_addr) with (matching_address n all_hosts_addr). rewrite Hm.
  change (is_multicast all_hosts_addr) with true. cbn iota.
  rewrite (bind_ok _ _ s2 (if_index n) s2) by by apply (if_index_cached i _ s2 (proj1 Hb2)).
  destruct (upd_neighbour_becomes i target (markvalid (if_index n) target) _ s2 (proj1 Hb2)) as (s3 & E3 & Hb3).
  rewrite (bind_ok _ _ s2 _ s3 E3). change (all_hosts_addrP all_hosts_addr) with true. cbn iota.
  destruct (count_becomes i PS_NEIGHBOUR_JOINASSISTANT_SOLICIT _ s3 (proj1 Hb3)) as (s4 & E4 & Hb4).
  rewrite (bind_ok _ _ s3 tt s4 E4). match type of Hb4 with becomes _ ?x _ _ => set (n4 := x) in * end.
  assert (quiet s4 = quiet s) as Hq by (destruct Hb1, Hb2, Hb3, Hb4; congruence). unfold quiet in Hq. injection Hq as Ho Hl _ Hso Hig _ Hmc.
  destruct (join_query_run i target dat nd_len off eui n4 g s4 (node_at (junk_node s2) m target) (if_index n) Haro Heui (proj1 Hb4) Hg)
    as (s5 & n5 & E5 & Hasked & Hout); [by subst n4; cbn; rewrite lookup_insert_eq|].
  rewrite Hl in *. exists s5, n5. split; [done|]. split; [|by rewrite Hout, Ho].
  destruct Hasked as (H1 & H2 & H3 & H4 & H5 & H6 & H7 & H8). split_and!; try done; [by rewrite H6, Hso, Hig, Hmc|].
  intros b Hb. rewrite H7 by done. subst n4. cbn. by rewrite lookup_insert_ne, Hoth.
Qed.
End solicit.

(** * The registrar's answer *)
Section answer.

(** The node with a query, when only one has it. *)
Lemma find_by_sessionid_unique m gsi a nd : m !! a = Some nd -> queryId nd = gsi ->
  (forall b x, m !! b = Some x -> queryId x = gsi -> b = a) -> find_by_sessionid m gsi = Some (a, nd).
Proof.
  intros Ha Hq Huniq. unfold find_by_sessionid.
  assert (forall kv, kv ∈ node_map_items m <-> m !! kv.1 = Some kv.2) as Hitems.
  { intros [b x]. unfold node_map_items. by rewrite merge_sort_Permutation, elem_of_map_to_list. }
  destruct (list_find (fun kv => queryId kv.2 = gsi) (node_map_items m)) as [[k [b x]]|] eqn:E.
  - apply list_find_Some in E as (Hk & Hx & _). cbn in Hx.
    apply list_elem_of_lookup_2, Hitems in Hk. cbn in Hk.
    assert (b = a) as -> by by eapply Huniq. cbn. congruence.
  - exfalso. apply list_find_None in E. rewrite list.Forall_forall in E.
    apply (E (a, nd)); [by apply Hitems|done].
Qed.

(** The advertisement that carries the verdict: override and solicited, for the
    node, with an ARO that holds the status and the lower half of its address. *)
Definition verdict_body (a : in6_addr) (status : Z) : list Z :=
  [Nd.ND_NEIGHBOR_ADVERT; 0; 0; 0; 96; 0; 0; 0] ++ a ++ [Nd.ND_OPT_ARO; 16; status; 0; 0; 0; 0; 0] ++ drop 8 a.

Lemma join_reply_body nd status : length (node_number nd) = 16%nat -> 0 <= status < 256 ->
  join_reply nd status = Ok (verdict_body (node_number nd) status).
Proof.
  intros Hl Hs. unfold join_reply, na_start. destruct (node_number nd) as [|b0 l]; [done|].
  do 15 (destruct l as [|? l]; [done|]). destruct l; [|done].
  change (Z.lor Nd.ND_NA_FLAG_OVERRIDE Nd.ND_NA_FLAG_SOLICITED) with 96.
  unfold Nd.aro_encode. cbn [Nd.nd_aro_status]. rewrite u8_small by lia.
  cbn [Nd.nd_aro_type Nd.nd_aro_len Nd.nd_aro_res1 Nd.nd_aro_res2 Nd.nd_aro_lifetime Nd.nd_aro_eui64 be16 app drop].
  generalize b0 z z0 z1 z2 z3 z4 z5 z6 z7 z8 z9 z10 z11 z12 z13 status. intros. by vm_compute.
Qed.

(** An interface that is up sends what it is asked to send: its index is known, the
    socket is open, and the groups [/proc/net/igmp6] does not list, if it can be
    read, can be joined. *)
Definition listed_in (n : network_interface) (lines : list (Z * string)) (g : string) : bool :=
  existsb (fun l => (fst l =? if_index n) && String.eqb (snd l) g) lines.
Definition serving (n : network_interface) (s : sys) : Prop :=
  alive n = true /\ 0 < if_index n /\ nd_socket_open s = true /\
  forall lines, igmp6 s = Some lines -> mcast_ok s = true \/
    (listed_in n lines ALL_ROUTERS_MCAST = true /\ listed_in n lines ALL_RPL_MCAST = true).

Lemma join_group_run i n s : get_iface i s = Ok (n, s) -> 0 < if_index n -> mcast_ok s = true -> join_group i s = Ok (tt, s).
Proof.
  intros Hi Hx Hm. unfold join_group. rewrite (bind_ok _ _ s (if_index n) s) by by apply if_index_cached.
  rewrite (bind_ok _ _ s s s) by done. by rewrite Hm.
Qed.
Lemma check_allrouters_run i n s : get_iface i s = Ok (n, s) -> serving n s -> check_allrouters_membership i s = Ok (tt, s).
Proof.
  intros Hi (_ & Hx & _ & Hg). unfold check_allrouters_membership.
  rewrite (bind_ok _ _ s s s), (bind_ok _ _ s n s Hi) by done. destruct (igmp6 s) as [lines|]; [|done]. cbv zeta.
  fold (listed_in n lines ALL_ROUTERS_MCAST) (listed_in n lines ALL_RPL_MCAST).
  destruct (Hg lines eq_refl) as [Hm|[-> ->]]; [|done].
  rewrite (bind_ok _ _ s tt s); unfold when; destruct (listed_in _ _ _); cbn [negb]; (done || by eapply join_group_run).
Qed.

Lemma send_raw_icmp_run i n dest src body s : get_iface i s = Ok (n, s) -> serving n s ->
  send_raw_icmp i (Some dest) src body s = Ok (tt, s <| out ::= cons (OIcmp i dest (if_addr n) body) |>).
Proof.
  intros Hi Hserve. pose proof Hserve as (Hal & Hx & Hso & _). unfold send_raw_icmp.
  rewrite (bind_ok _ _ s true s) by (unfold setup; rewrite (bind_ok _ _ s n s Hi); by rewrite Hal). cbn [negb].
  rewrite (bind_ok _ _ s tt s) by by eapply check_allrouters_run.
  rewrite (bind_ok _ _ s tt s) by done. rewrite (bind_ok _ _ s (if_index n) s) by by apply if_index_cached.
  rewrite (bind_ok _ _ s n s Hi), (bind_ok _ _ s s s) by done. by rewrite Hso.
Qed.

(** What the interface knows and sends once the answer is in. *)
Lemma grasp_reply_run i gsi (success : bool) a nd n s : get_iface i s = Ok (n, s) -> serving n s ->
  find_by_sessionid (neighbours n) gsi = Some (a, nd) -> neighbours n !! a = Some nd -> length (node_number nd) = 16%nat ->
  let status := if success then 0 else Nd.ND_NS_JOIN_DECLINED in
  exists s', process_grasp_reply i gsi success s = Ok (tt, s') /\
    get_iface i s' = Ok (n <| neighbours ::= <[a := set_accepted success nd]> |>, s') /\
    out s' = OIcmp i (node_number nd) (if_addr n) (verdict_body (node_number nd) status) :: out s.
Proof.
  intros Hi (Hal & Hx & Hso & Hig) Hfind Ha Hl status. unfold process_grasp_reply.
  rewrite (bind_ok _ _ s n s Hi), Hfind.
  destruct (upd_neighbour_becomes i a (set_accepted success) n s Hi) as (s1 & E1 & Hi1 & Hq).
  assert (node_at (junk_node s) (neighbours n) a = nd) as Hat by (unfold node_at; by rewrite Ha). rewrite Hat in *.
  rewrite (bind_ok _ _ s _ s1 E1). unfold reply_join. fold status.
  assert (node_number (set_accepted success nd) = node_number nd) as Hn by (by destruct success).
  assert (join_reply (set_accepted success nd) status = Ok (verdict_body (node_number nd) status)) as Ej.
  { rewrite join_reply_body; [by rewrite Hn|by rewrite Hn|subst status; by destruct success]. }
  rewrite (bind_ok _ _ s1 (verdict_body (node_number nd) status) s1) by (unfold lift; by rewrite Ej).
  rewrite Hn. unfold quiet in Hq. injection Hq as Ho _ _ Hso1 Hig1 _ Hmc1.
  rewrite (send_raw_icmp_run i _ _ _ _ s1 Hi1); [|split_and!; cbn; [congruence..|by rewrite Hig1, Hmc1]].
  eexists. split; [done|]. split; [|cbn; by rewrite Ho].
  revert Hi1. unfold get_iface. cbn. case_decide; [done|]. by destruct (ifaces s1 !! i); [intros [= ->]|].
Qed.

(** C23: A solicitation to join, from a node of any standing, starts one query to
    the registrar, which carries the EUI-64 of the first ARO and a new session id
    that the node's entry remembers.  A verdict the node had been given before is
    forgotten ([markvalid] clears it), and that a query is under way is never
    noted, so every repeated solicitation starts one more query. *)
Theorem join_solicit_queries i from hdr target os1 o os2 post n g s :
  zlen hdr = 8 -> length target = 16%nat -> Forall opt_wf (os1 ++ o :: os2) ->
  opt_type o = Nd.ND_OPT_ARO -> Forall (fun x => opt_type x <> Nd.ND_OPT_ARO) os1 ->
  get_iface i s = Ok (n, s) -> 0 < if_index n -> matching_address n all_hosts_addr = false -> join_query_client n = Some g ->
  let gsi := u32 (s32 (lastsession s + 1)) in
  let eui := take 8 (drop 6 (opt_body o)) in
  exists s' n', receive_neighbour_solicit i from all_hosts_addr (solicitation hdr target (os1 ++ o :: os2) post)
      (Nd.ns_size + zlen (opts_enc (os1 ++ o :: os2))) s = Ok (tt, s') /\ asked i target gsi n s s' n' /\
    out s' = (if grasp_write_ok g then [OGrasp i (aro_query gsi eui)] else []) ++ out s.
Proof. apply solicit_join_run. Qed.

End answer.

(** * Witnesses *)
Section witnesses.

Definition example_joiner : list Z := [254; 128] ++ zeros 6 ++ [2; 1; 1; 1; 1; 1; 1; 1].
Definition example_aro : nd_option := mk_opt Nd.ND_OPT_ARO ([0; 0; 0; 0; 0; 5] ++ [2; 1; 1; 1; 1; 1; 1; 1]).
Definition example_lladdr : nd_option := mk_opt 1 [2; 1; 1; 1; 1; 1].
Definition example_ns : list Z := [Nd.ND_NEIGHBOR_SOLICIT; 0; 0; 0; 32; 0; 0; 0].
(** An interface with a client, whose neighbour has been declined before. *)
Definition example_join_iface : network_interface :=
  Example.iface <| alive := true |> <| join_query_client := Some (mk_grasp 0 true) |>
    <| neighbours := {[ example_joiner := set_accepted false (markvalid 2 example_joiner Example.node) ]} |>.
Definition example_join_sys : sys := Example.sys <| ifaces := [example_join_iface] |>.
(** The state in which its query is out. *)
Definition example_asked_iface : network_interface :=
  example_join_iface <| neighbours := {[ example_joiner := markvalid 2 example_joiner Example.node <| queryId := 1 |> ]} |>.

Lemma example_opts_wf : Forall opt_wf [example_lladdr; example_aro].
Proof. repeat constructor; by vm_compute. Qed.

Lemma find_aro_first_witness :
  find_aro 49 ((example_ns ++ example_joiner) ++ opts_enc [example_lladdr; example_aro] ++ [7]) 48 24 None = Ok (Some 32).
Proof. apply (find_aro_first (example_ns ++ example_joiner) [example_lladdr; example_aro] [7]); [done|exact example_opts_wf]. Defined.

Lemma zero_length_option_hangs_witness :
  find_aro 1000 ((example_ns ++ example_joiner) ++ opts_enc [example_lladdr] ++ [1; 0] ++ zeros 6) 40 24 None = Fault OutOfFuel.
Proof.
  apply (zero_length_option_hangs 1000 (example_ns ++ example_joiner) [example_lladdr] 1 (zeros 6) 40);
    [done|repeat constructor; by vm_compute|done|done].
Defined.

Lemma join_solicit_queries_witness :
  exists s' n', receive_neighbour_solicit 0 example_joiner all_hosts_addr
      (solicitation example_ns example_joiner [example_lladdr; example_aro] [7]) 48 example_join_sys = Ok (tt, s') /\
    asked 0 example_joiner 1 example_join_iface example_join_sys s' n' /\
    out s' = [OGrasp 0 (aro_query 1 [2; 1; 1; 1; 1; 1; 1; 1])].
Proof.
  apply (join_solicit_queries 0 example_joiner example_ns example_joiner [example_lladdr] example_aro [] [7]
    example_join_iface (mk_grasp 0 true) example_join_sys); [done|done|exact example_opts_wf|done| |done..].
  by repeat constructor.
Defined.

End witnesses.
