(* ===== verification/Eui.v ===== *)
(** Identifiers in text: [parse_eui2bin] and [fmt_eui] of
    [lib/libndmgmt/ifacefuncs.cpp], the link-layer addresses; and
    [parse_rfc8994string] of [lib/libidevid/rfc8994acp.cpp], the node name of a
    certificate.  A character is its code. *)

From Stdlib Require Import ZArith Lia String Ascii.
From stdpp Require Import base list numbers strings.
From S2P Require Import Prelude Prefix Text.
#[local] Open Scope Z_scope.

(** * Link-layer addresses *)

Definition nibble_of (c : Z) : option Z :=
  if (48 <=? c) && (c <=? 57) then Some (c - 48)
  else if (65 <=? c) && (c <=? 70) then Some (c - 65 + 10)
  else if (97 <=? c) && (c <=? 102) then Some (c - 97 + 10)
  else None.
Definition is_sep (c : Z) : bool := (c =? 45) || (c =? 58).

(** The loop of [parse_eui2bin].  [upper] is [None] when the next digit is the
    high one, and otherwise [upper4].  The answer is the value that is returned
    and the bytes that were stored. *)
Fixpoint parse_loop (src : list Z) (dstlen : nat) (upper : option Z) : Z * list Z :=
  match src, dstlen with
  | [], _ | _, O => (0, [])
  | c :: src', S room =>
      let store b :=
        let '(r, bs) := parse_loop src' room None in
        ((if r =? -1 then -1 else r + 1), b :: bs) in
      match nibble_of c, upper with
      | Some nibble, None => parse_loop src' dstlen (Some (Z.shiftl nibble 4))
      | Some nibble, Some upper4 => store (Z.lor upper4 nibble)
      | None, _ =>
          if is_sep c then
            match upper with
            | None => parse_loop src' dstlen None
            | Some upper4 => store (Z.lor 0 (Z.shiftr upper4 4))
            end
          else (-1, [])
      end
  end.

(** [parse_eui2bin] into the buffer [dst], whose first byte is cleared first: what
    is returned, and the buffer afterwards. *)
Definition parse_eui2bin (dst : list Z) (src : list Z) : Z * list Z :=
  let '(retlen, bs) := parse_loop src (length dst) None in
  (retlen, bs ++ drop (length bs) (match dst with [] => [] | _ :: dst' => 0 :: dst' end)).

Definition hex2 (b : Z) : list Z := [hex_digit (b / 16); hex_digit (b mod 16)].

(** [fmt_eui]: whether everything fit, and the text; each [snprintf] has room. *)
Fixpoint fmt_loop (sep : list Z) (txtlen : Z) (src : list Z) : bool * list Z :=
  match src with
  | [] => (true, [])
  | b :: src' =>
      if txtlen >? 3 then
        let text := sep ++ hex2 b in
        let '(ok, rest) := fmt_loop [45] (txtlen - zlen text) src' in (ok, text ++ rest)
      else (false, [])
  end.
Definition fmt_eui (txtlen : Z) (src : list Z) : bool * list Z := fmt_loop [] txtlen src.

(** * The ACP node name *)

(** [strchr] on a buffer from an offset: it stops at the character, at a NUL, or
    runs past the buffer. *)
Fixpoint strchr_in (c : Z) (i : Z) (bs : list Z) : outcome (option Z) :=
  match bs with
  | [] => Fault OutOfBounds
  | b :: bs' => if b =? c then Ok (Some i) else if b =? 0 then Ok None else strchr_in c (i + 1) bs'
  end.
Definition strchr (buf : list Z) (off c : Z) : outcome (option Z) :=
  strchr_in c off (drop (Z.to_nat off) buf).

(** The string at the start of a buffer. *)
Fixpoint c_string (bs : list Z) : list Z :=
  match bs with [] => [] | b :: bs' => if b =? 0 then [] else b :: c_string bs' end.

(** [sscanf(s, "%02x", &v)]: blanks, a sign, [0x], digits, the last three in two
    characters; what is read is an [unsigned]. *)
Definition is_space (c : Z) : bool := (c =? 32) || ((9 <=? c) && (c <=? 13)).
Fixpoint skip_space (s : list Z) : list Z :=
  match s with c :: s' => if is_space c then skip_space s' else s | [] => [] end.
Definition hex_field (s : list Z) : option Z :=
  match s with
  | [] => None
  | c :: rest =>
      match nibble_of c with
      | None => None
      | Some d =>
          match rest with
          | [] => Some d
          | c' :: _ => match nibble_of c' with Some d' => Some (d * 16 + d') | None => Some d end
          end
      end
  end.
Definition sscanf_2x (s : list Z) : option Z :=
  let s := skip_space s in
  match s with
  | 45 :: rest => (fun d => u32 (- d)) <$> hex_field (take 1 rest)
  | 43 :: rest => hex_field (take 1 rest)
  | _ => hex_field (take 2 s)
  end.

(** The loop over the 16 bytes of the address. *)
Fixpoint acp_bytes (n : nat) (buf : list Z) (plus : Z) : outcome (option (list Z)) :=
  match n with
  | O => Ok (Some [])
  | S n' =>
      c0 ← rd buf plus;
      more ← (if c0 =? 0 then Ok false else c1 ← rd buf (plus + 1); Ok (negb (c1 =? 0)));
      if more : bool then
        match sscanf_2x (c_string (drop (Z.to_nat plus) buf)) with
        | None => Ok None
        | Some onebyte =>
            rest ← acp_bytes n' buf (plus + 2);
            Ok (option_map (cons (u8 onebyte)) rest)
        end
      else rest ← acp_bytes n' buf plus; Ok (option_map (cons 0) rest)
  end.

(** [parse_rfc8994string]: the copy of the text has no NUL of its own. *)
Definition put_nul (buf : list Z) (at_ : option Z) : outcome (list Z) :=
  match at_ with Some i => wr_range buf i [0] | None => Ok buf end.
(** The parts around the plus signs, once the domain is cut off. *)
Definition acp_parts (buf : list Z) : outcome (option ip_subnet) :=
  plus ← strchr buf 0 43;
  match plus with
  | None => Ok None
  | Some p =>
      buf ← put_nul buf plus;
      plus2 ← strchr buf (p + 1) 43;
      buf ← put_nul buf plus2;
      let scheme := c_string buf in
      if bool_decide (scheme = codes "rfc8994") || bool_decide (scheme = codes "rfcSELF") then
        bs ← acp_bytes 16 buf (p + 1);
        Ok (option_map (fun bs => subnet6 bs 128) bs)
      else Ok None
  end.
Definition parse_rfc8994string (prefix : list Z) : outcome (option ip_subnet) :=
  at_ ← strchr prefix 0 64;
  buf ← put_nul prefix at_;
  acp_parts buf.

(** * Link-layer addresses: what is printed is read back *)

Lemma nibble_digit d : 0 <= d < 16 -> nibble_of (hex_digit d) = Some d.
Proof.
  intros H. unfold hex_digit, nibble_of. destruct (Z.ltb_spec d 10); repeat case_match; try f_equal; lia.
Qed.
Lemma byte_nibbles b : byte_ok b -> 0 <= b / 16 < 16 /\ 0 <= b mod 16 < 16 /\ b / 16 * 16 + b mod 16 = b.
Proof. unfold byte_ok. intros Hb. Z.div_mod_to_equations. lia. Qed.

Definition stored (b : Z) (p : Z * list Z) : Z * list Z := (if p.1 =? -1 then -1 else p.1 + 1, b :: p.2).

Lemma parse_hex2 b rest n : byte_ok b ->
  parse_loop (hex2 b ++ rest) (S n) None = stored b (parse_loop rest n None).
Proof.
  intros Hb. destruct (byte_nibbles b Hb) as (Hhi & Hlo & E). unfold hex2. cbn [app parse_loop].
  rewrite !nibble_digit, push_nibble, E by lia. unfold stored. by destruct (parse_loop rest n None).
Qed.
Lemma parse_dash rest n : parse_loop (45 :: rest) (S n) None = parse_loop rest (S n) None.
Proof. done. Qed.
Lemma parse_stop n upper : parse_loop [] n upper = (0, []).
Proof. by destruct n. Qed.

(** Each byte behind a dash. *)
Definition dashed (bs : list Z) : list Z := concat ((fun b => 45 :: hex2 b) <$> bs).
Lemma dashed_length bs : zlen (dashed bs) = 3 * zlen bs.
Proof.
  induction bs as [|b bs IH]; [done|]. change (dashed (b :: bs)) with (45 :: hex2 b ++ dashed bs).
  rewrite !zlen_cons, zlen_app, IH. change (zlen (hex2 b)) with 2. lia.
Qed.

Lemma parse_dashed bs : forall rest n, bytes_ok bs ->
  parse_loop (dashed bs ++ rest) (length bs + n) None =
    foldr stored (parse_loop rest n None) bs.
Proof.
  induction bs as [|b bs IH]; intros rest n Hbs; [done|]. apply Forall_cons in Hbs as [Hb Hbs].
  change (dashed (b :: bs) ++ rest) with (45 :: (hex2 b ++ dashed bs) ++ rest). rewrite <- app_assoc.
  change (length (b :: bs) + n)%nat with (S (length bs + n)).
  rewrite parse_dash, parse_hex2, IH by done. done.
Qed.
Lemma foldr_stored bs r l : 0 <= r -> foldr stored (r, l) bs = (r + zlen bs, bs ++ l).
Proof.
  intros Hr. induction bs as [|b bs IH]; [simpl; f_equal; unfold zlen; simpl; lia|].
  cbn [foldr]. rewrite IH. unfold stored. simpl. rewrite (proj2 (Z.eqb_neq _ _)) by (pose proof (zlen_nonneg bs); lia).
  rewrite zlen_cons. f_equal. lia.
Qed.

Lemma fmt_dashed bs : forall txtlen, 3 * zlen bs < txtlen -> fmt_loop [45] txtlen bs = (true, dashed bs).
Proof.
  induction bs as [|b bs IH]; intros txtlen Hlen; [done|]. rewrite zlen_cons in Hlen. pose proof (zlen_nonneg bs).
  cbn [fmt_loop]. rewrite gtb_true by lia. change (zlen ([45] ++ hex2 b)) with 3. by rewrite IH by lia.
Qed.
Lemma fmt_dashed_full bs : forall txtlen, bs <> [] -> txtlen <= 3 * zlen bs -> (fmt_loop [45] txtlen bs).1 = false.
Proof.
  induction bs as [|b bs IH]; intros txtlen Hne Hlen; [done|]. rewrite zlen_cons in Hlen.
  cbn [fmt_loop]. destruct (Z.gtb_spec txtlen 3); [|done]. change (zlen ([45] ++ hex2 b)) with 3.
  specialize (IH (txtlen - 3)). destruct bs as [|b' bs]; [change (zlen (@nil Z)) with 0 in Hlen; lia|].
  specialize (IH ltac:(done) ltac:(lia)). by destruct (fmt_loop [45] (txtlen - 3) (b' :: bs)).
Qed.

(** The text of bytes. *)
Definition eui_text (bs : list Z) : list Z := drop 1 (dashed bs).
Lemma fmt_eui_spec b bs txtlen : 
  fmt_eui txtlen (b :: bs) = if (txtlen >? 3) && (3 * zlen (b :: bs) <=? txtlen) then (true, eui_text (b :: bs)) else
    (false, (fmt_eui txtlen (b :: bs)).2).
Proof.
  unfold fmt_eui. rewrite zlen_cons. cbn [fmt_loop]. destruct (Z.gtb_spec txtlen 3) as [H|H]; [|done].
  cbn [andb app]. change (zlen (hex2 b)) with 2.
  destruct (Z.leb_spec (3 * (1 + zlen bs)) txtlen) as [Hle | Hgt].
  - by rewrite fmt_dashed by lia.
  - pose proof (fmt_dashed_full bs (txtlen - 2)) as Hfull. destruct bs as [|b' bs]; [change (zlen (@nil Z)) with 0 in *; lia|].
    specialize (Hfull ltac:(done) ltac:(lia)). destruct (fmt_loop [45] (txtlen - 2) (b' :: bs)) as [ok t].
    simpl in Hfull. by subst ok.
Qed.
Lemma parse_eui_text bs rest n : bytes_ok bs -> bs <> [] ->
  parse_loop (eui_text bs ++ rest) (length bs + n) None = foldr stored (parse_loop rest n None) bs.
Proof.
  intros Hbs Hne. rewrite <- parse_dashed by done. destruct bs as [|b bs]; [done|].
  change (dashed (b :: bs) ++ rest) with (45 :: eui_text (b :: bs) ++ rest).
  change (length (b :: bs) + n)%nat with (S (length bs + n)). by rewrite parse_dash.
Qed.

Lemma parse_eui_back dst bs : bytes_ok bs -> bs <> [] -> (length bs <= length dst)%nat ->
  parse_eui2bin dst (eui_text bs) = (zlen bs, bs ++ drop (length bs) dst).
Proof.
  intros Hbs Hne Hlen. unfold parse_eui2bin. replace (length dst) with (length bs + (length dst - length bs))%nat by lia.
  rewrite <- (app_nil_r (eui_text _)), parse_eui_text, parse_stop, foldr_stored by done. rewrite app_nil_r.
  destruct bs as [|b bs]; [done|]. destruct dst as [|x dst]; [simpl in Hlen; lia|]. done.
Qed.

(** C36: A link-layer address is printed exactly when the buffer has three bytes
    for each of its bytes, and room for four; the text is then read back as the
    same bytes, the buffer they are put in keeping what is behind them. *)
Theorem eui_roundtrip txtlen dst bs : bytes_ok bs -> bs <> [] -> (length bs <= length dst)%nat ->
  ((fmt_eui txtlen bs).1 = true <-> 4 <= txtlen /\ 3 * zlen bs <= txtlen) /\
  (4 <= txtlen -> 3 * zlen bs <= txtlen ->
   let text := (fmt_eui txtlen bs).2 in
   zlen text = 3 * zlen bs - 1 /\ parse_eui2bin dst text = (zlen bs, bs ++ drop (length bs) dst)).
Proof.
  intros Hbs Hne Hlen. destruct bs as [|b bs]; [done|]. rewrite fmt_eui_spec. split.
  - destruct (Z.gtb_spec txtlen 3), (Z.leb_spec (3 * zlen (b :: bs)) txtlen); simpl; split; (done || lia || intros []; lia).
  - intros H4 H3. rewrite gtb_true, (proj2 (Z.leb_le _ _)) by lia. cbn [andb snd]. split.
    + unfold eui_text. pose proof (dashed_length (b :: bs)) as Hz.
      change (dashed (b :: bs)) with (45 :: drop 1 (dashed (b :: bs))) in Hz. rewrite zlen_cons in Hz. lia.
    + by apply parse_eui_back.
Qed.

(** A byte of one digit is read when a separator follows, but at the end of
    the text it is lost: the last digit of an address is only stored with the
    second one or with the separator behind it. *)
Lemma lone_last_digit_lost dst bs d : bytes_ok bs -> bs <> [] -> 0 <= d < 16 -> (length bs < length dst)%nat ->
  parse_eui2bin dst (eui_text bs ++ [45; hex_digit d; 58]) =
    (zlen bs + 1, bs ++ d :: drop (S (length bs)) dst) /\
  parse_eui2bin dst (eui_text bs ++ [45; hex_digit d]) = (zlen bs, bs ++ drop (length bs) dst).
Proof.
  intros Hbs Hne Hd Hlen. unfold parse_eui2bin.
  replace (length dst) with (length bs + S (length dst - length bs - 1))%nat by lia.
  rewrite !parse_eui_text by done. set (n := (length dst - length bs - 1)%nat).
  assert (parse_loop [45; hex_digit d; 58] (S n) None = (1, [d])) as ->.
  { cbn [parse_loop]. rewrite nibble_digit by done. simpl nibble_of. cbn [is_sep].
    rewrite Z.shiftr_shiftl_l by lia. change (4 - 4) with 0. by rewrite Z.shiftl_0_r. }
  assert (parse_loop [45; hex_digit d] (S n) None = (0, [])) as ->.
  { cbn [parse_loop]. by rewrite nibble_digit. }
  rewrite !foldr_stored, app_nil_r, length_app by lia. destruct bs as [|b bs]; [done|].
  destruct dst as [|x dst]; [simpl in Hlen; lia|].
  split; [f_equal; [lia|] | done]. rewrite <- app_assoc. f_equal. simpl. f_equal. f_equal. lia.
Qed.

(** * ACP names *)

Lemma strchr_found c pre mid post : Forall (fun x => x <> c /\ x <> 0) mid ->
  strchr (pre ++ mid ++ c :: post) (zlen pre) c = Ok (Some (zlen pre + zlen mid)).
Proof.
  intros Hmid. unfold strchr, zlen at 2. rewrite Nat2Z.id, drop_app_length.
  generalize (zlen pre). induction Hmid as [|x mid [Hx Hx0] Hmid IH]; intros i; simpl.
  - rewrite Z.eqb_refl. change (zlen (@nil Z)) with 0. do 2 f_equal. lia.
  - rewrite (proj2 (Z.eqb_neq x c)), (proj2 (Z.eqb_neq x 0)), IH, zlen_cons by done. do 2 f_equal. lia.
Qed.
Lemma strchr_past c s : Forall (fun x => x <> c /\ x <> 0) s -> strchr s 0 c = Fault OutOfBounds.
Proof.
  intros Hs. unfold strchr. simpl drop. generalize 0 at 1.
  induction Hs as [|x s [Hx Hx0] Hs IH]; intros i; simpl; [done|].
  by rewrite (proj2 (Z.eqb_neq x c)), (proj2 (Z.eqb_neq x 0)), IH by done.
Qed.
Lemma put_nul_at pre x post : put_nul (pre ++ x :: post) (Some (zlen pre)) = Ok (pre ++ 0 :: post).
Proof.
  unfold put_nul, wr_range. rewrite zlen_app, (zlen_cons x post). change (zlen [0]) with 1.
  pose proof (zlen_nonneg pre). pose proof (zlen_nonneg post).
  rewrite (proj2 (Z.leb_le 0 (zlen pre))), (proj2 (Z.leb_le (zlen pre + 1) (zlen pre + (1 + zlen post)))) by lia.
  cbn [andb].
  unfold zlen. rewrite Nat2Z.id, take_app_length, drop_app_ge by lia.
  replace (length pre + length [0%Z] - length pre)%nat with 1%nat by (simpl; lia). done.
Qed.

(** A string up to its end. *)
Lemma c_string_cut text rest : Forall (fun c => c <> 0) text -> c_string (text ++ 0 :: rest) = text.
Proof. induction 1 as [|c text Hc _ IH]; [done|]. cbn [app c_string]. by rewrite (proj2 (Z.eqb_neq _ _) Hc), IH. Qed.
Definition hex_text (bs : list Z) : list Z := concat (hex2 <$> bs).
Lemma hex_text_cons b bs : hex_text (b :: bs) = hex2 b ++ hex_text bs.
Proof. done. Qed.
Lemma hex_text_length bs : zlen (hex_text bs) = 2 * zlen bs.
Proof.
  induction bs as [|b bs IH]; [done|]. rewrite hex_text_cons, zlen_app, zlen_cons, IH.
  change (zlen (hex2 b)) with 2. lia.
Qed.
Lemma hex_digit_range d : 0 <= d < 16 -> 48 <= hex_digit d <= 57 \/ 97 <= hex_digit d <= 102.
Proof. unfold hex_digit. destruct (Z.ltb_spec d 10); lia. Qed.
Lemma hex_text_chars (P : Z -> Prop) bs : (forall c, 48 <= c <= 57 \/ 97 <= c <= 102 -> P c) -> bytes_ok bs ->
  Forall P (hex_text bs).
Proof.
  intros HP. induction 1 as [|b bs Hb Hbs IH]; [done|]. destruct (byte_nibbles b Hb) as (Hhi & Hlo & _).
  rewrite hex_text_cons. repeat (constructor; [by apply HP, hex_digit_range|]). done.
Qed.

Lemma sscanf_hex2 b s : byte_ok b -> sscanf_2x (c_string (hex2 b ++ s)) = Some b.
Proof.
  intros Hb. destruct (byte_nibbles b Hb) as (Hhi & Hlo & E). unfold hex2.
  pose proof (hex_digit_range _ Hhi) as Rhi. pose proof (hex_digit_range _ Hlo) as Rlo.
  pose proof (nibble_digit _ Hhi) as Nhi. pose proof (nibble_digit _ Hlo) as Nlo.
  set (c := hex_digit (b / 16)) in *. set (c' := hex_digit (b mod 16)) in *.
  cbn [app c_string]. rewrite !(proj2 (Z.eqb_neq _ 0)) by lia. unfold sscanf_2x, is_space. cbn [skip_space].
  unfold is_space. rewrite (proj2 (Z.eqb_neq c 32)), (proj2 (Z.leb_gt c 13)), andb_false_r by lia. cbn [orb].
  assert (hex_field (take 2 (c :: c' :: c_string s)) = Some b) as Hf.
  { cbn [take hex_field]. by rewrite Nhi, Nlo, E. }
  rewrite Hf. destruct (Z.eq_dec c 45) as [?|?]; [lia|]. destruct (Z.eq_dec c 43) as [?|?]; [lia|].
  repeat case_match; subst; done || lia.
Qed.

Lemma acp_bytes_read bs : forall pre post, bytes_ok bs ->
  acp_bytes (length bs) (pre ++ hex_text bs ++ post) (zlen pre) = Ok (Some bs).
Proof.
  induction bs as [|b bs IH]; intros pre post Hbs; [done|]. apply Forall_cons in Hbs as [Hb Hbs].
  destruct (byte_nibbles b Hb) as (Hhi & Hlo & E).
  pose proof (hex_digit_range _ Hhi) as Rhi. pose proof (hex_digit_range _ Hlo) as Rlo.
  cbn [length acp_bytes]. rewrite hex_text_cons.
  assert (rd (pre ++ (hex2 b ++ hex_text bs) ++ post) (zlen pre) = Ok (hex_digit (b / 16))) as -> by (by rewrite rd_app_r0).
  cbn [mbind outcome_bind]. rewrite (proj2 (Z.eqb_neq _ 0)) by lia.
  assert (rd (pre ++ (hex2 b ++ hex_text bs) ++ post) (zlen pre + 1) = Ok (hex_digit (b mod 16))) as ->
    by (by rewrite rd_app_r by lia).
  cbn [mbind outcome_bind]. rewrite (proj2 (Z.eqb_neq _ 0)) by lia. cbn [negb].
  unfold zlen at 1. rewrite Nat2Z.id, drop_app_length, <- app_assoc, sscanf_hex2 by done.
  replace (pre ++ hex2 b ++ hex_text bs ++ post) with ((pre ++ hex2 b) ++ hex_text bs ++ post) by (by rewrite <- app_assoc).
  replace (zlen pre + 2) with (zlen (pre ++ hex2 b)) by (by rewrite zlen_app).
  rewrite IH by done. cbn. by rewrite u8_small.
Qed.

Ltac flat_app := repeat first [rewrite <- app_assoc | progress cbn [app]].

Lemma strchr_stop c pre mid post : c <> 0 -> Forall (fun x => x <> c /\ x <> 0) mid ->
  strchr (pre ++ mid ++ 0 :: post) (zlen pre) c = Ok None.
Proof.
  intros Hc Hmid. unfold strchr, zlen. rewrite Nat2Z.id, drop_app_length.
  generalize (Z.of_nat (length pre)). induction Hmid as [|x mid [Hx Hx0] Hmid IH]; intros i; cbn [app strchr_in].
  - by rewrite (proj2 (Z.eqb_neq 0 c)), Z.eqb_refl by done.
  - by rewrite (proj2 (Z.eqb_neq x c)), (proj2 (Z.eqb_neq x 0)), IH by done.
Qed.

Lemma bind_assoc {A B C} (m : outcome A) (f : A -> outcome B) (k : B -> outcome C) :
  (a ← m; b ← f a; k b) = (b ← (a ← m; f a); k b).
Proof. by destruct m. Qed.

(** The name up to a NUL: the address, and maybe a second plus. *)
Lemma acp_parts_read bs c post : bytes_ok bs -> length bs = 16%nat -> c = 43 \/ c = 0 ->
  acp_parts (codes "rfc8994" ++ 43 :: hex_text bs ++ c :: post) = Ok (Some (subnet6 bs 128)).
Proof.
  intros Hbs Hlen Hc. unfold acp_parts.
  assert (Hhex : Forall (fun x => x <> 43 /\ x <> 0) (hex_text bs)) by (apply hex_text_chars; [lia | done]).
  pose proof (strchr_found 43 [] (codes "rfc8994") (hex_text bs ++ c :: post)) as Hplus. cbn [app] in Hplus.
  change (zlen (@nil Z)) with 0 in Hplus. rewrite Hplus by (by apply (bool_decide_unpack _)).
  cbn [mbind outcome_bind]. change (0 + zlen (codes "rfc8994")) with (zlen (codes "rfc8994")). rewrite put_nul_at.
  cbn [mbind outcome_bind]. set (pre := codes "rfc8994" ++ [0]).
  replace (codes "rfc8994" ++ 0 :: hex_text bs ++ c :: post) with (pre ++ hex_text bs ++ c :: post)
    by (subst pre; by rewrite <- app_assoc).
  change (zlen (codes "rfc8994") + 1) with (zlen pre).
  assert (exists post', (plus2 ← strchr (pre ++ hex_text bs ++ c :: post) (zlen pre) 43;
    put_nul (pre ++ hex_text bs ++ c :: post) plus2) = Ok (pre ++ hex_text bs ++ post')) as [post' Hcut].
  { destruct Hc as [-> | ->].
    - rewrite strchr_found by done. cbn [mbind outcome_bind]. rewrite <- zlen_app, app_assoc, put_nul_at.
      eexists. by rewrite <- app_assoc.
    - rewrite strchr_stop by done. by eexists. }
  rewrite bind_assoc, Hcut.
  cbn [mbind outcome_bind]. change (c_string (pre ++ hex_text bs ++ post')) with (codes "rfc8994").
  rewrite bool_decide_true by done. cbn [orb].
  pose proof (acp_bytes_read bs pre post' Hbs) as Hread. rewrite Hlen in Hread. by rewrite Hread.
Qed.

(** The domain is cut off at the at sign. *)
Lemma acp_cut name domain : Forall (fun x => x <> 64 /\ x <> 0) name ->
  parse_rfc8994string (name ++ 64 :: domain) = acp_parts (name ++ 0 :: domain).
Proof.
  intros Hname. unfold parse_rfc8994string. pose proof (strchr_found 64 [] name domain Hname) as Hat.
  cbn [app] in Hat. change (zlen (@nil Z)) with 0 in Hat. rewrite Hat. cbn [mbind outcome_bind].
  change (0 + zlen name) with (zlen name). by rewrite put_nul_at.
Qed.

(** C35: The node name of an RFC 8994 certificate, [rfc8994+], the address in hex,
    what may follow behind a plus, and the domain behind an at sign, gives the
    address as a /128.  But the copy it is taken apart in has no NUL of its own:
    a name without an at sign, and without a NUL in the certificate, is searched
    past its end. *)
Theorem acp_name_read bs ext domain : bytes_ok bs -> length bs = 16%nat ->
  Forall (fun c => c <> 64 /\ c <> 0) ext ->
  parse_rfc8994string (codes "rfc8994+" ++ hex_text bs ++ 43 :: ext ++ 64 :: domain) =
    Ok (Some (subnet6 bs 128)) /\
  parse_rfc8994string (codes "rfc8994+" ++ hex_text bs ++ 64 :: domain) = Ok (Some (subnet6 bs 128)) /\
  parse_rfc8994string (codes "rfc8994+" ++ hex_text bs ++ 43 :: ext) = Fault OutOfBounds.
Proof.
  intros Hbs Hlen Hext.
  assert (Hname : Forall (fun x => x <> 64 /\ x <> 0) (codes "rfc8994+" ++ hex_text bs)).
  { apply Forall_app. split; [by apply (bool_decide_unpack _) | apply hex_text_chars; [lia | done]]. }
  assert (Hall : Forall (fun x => x <> 64 /\ x <> 0) (codes "rfc8994+" ++ hex_text bs ++ 43 :: ext)).
  { rewrite app_assoc. apply Forall_app. split; [done|]. constructor; [lia | done]. }
  split_and!.
  - replace (codes "rfc8994+" ++ hex_text bs ++ 43 :: ext ++ 64 :: domain)
      with ((codes "rfc8994+" ++ hex_text bs ++ 43 :: ext) ++ 64 :: domain) by (by flat_app).
    rewrite acp_cut by done. rewrite <- !app_assoc. apply acp_parts_read; [done | done | by left].
  - rewrite app_assoc, acp_cut by done. rewrite <- app_assoc. apply acp_parts_read; [done | done | by right].
  - unfold parse_rfc8994string. by rewrite strchr_past by done.
Qed.

(** * Examples *)

Definition example_eui : list Z := [0; 80; 194; 255; 254; 1; 32; 9].

Lemma eui_roundtrip_witness :
  ((fmt_eui 24 example_eui).1 = true <-> 4 <= 24 /\ 3 * zlen example_eui <= 24) /\
  (4 <= 24 -> 3 * zlen example_eui <= 24 ->
   let text := (fmt_eui 24 example_eui).2 in
   zlen text = 3 * zlen example_eui - 1 /\
   parse_eui2bin (replicate 10 7) text = (zlen example_eui, example_eui ++ drop (length example_eui) (replicate 10 7))).
Proof.
  apply (eui_roundtrip 24 (replicate 10 7) example_eui).
  - unfold bytes_ok. repeat (constructor; [unfold byte_ok; lia|]). constructor.
  - discriminate.
  - vm_compute. lia.
Defined.

Lemma lone_last_digit_lost_witness :
  parse_eui2bin (replicate 10 7) (eui_text [2; 3] ++ [45; hex_digit 11; 58]) =
    (zlen [2; 3] + 1, [2; 3] ++ 11 :: drop (S (length [2; 3])) (replicate 10 7)) /\
  parse_eui2bin (replicate 10 7) (eui_text [2; 3] ++ [45; hex_digit 11]) =
    (zlen [2; 3], [2; 3] ++ drop (length [2; 3]) (replicate 10 7)).
Proof.
  apply (lone_last_digit_lost (replicate 10 7) [2; 3] 11).
  - unfold bytes_ok. repeat (constructor; [unfold byte_ok; lia|]). constructor.
  - discriminate.
  - lia.
  - vm_compute. lia.
Defined.

Lemma acp_name_read_witness :
  parse_rfc8994string (codes "rfc8994+" ++ hex_text example_bs ++ 43 :: codes "area51" ++ 64 :: codes "acp.example.com") =
    Ok (Some (subnet6 example_bs 128)) /\
  parse_rfc8994string (codes "rfc8994+" ++ hex_text example_bs ++ 64 :: codes "acp.example.com") =
    Ok (Some (subnet6 example_bs 128)) /\
  parse_rfc8994string (codes "rfc8994+" ++ hex_text example_bs ++ 43 :: codes "area51") = Fault OutOfBounds.
Proof.
  apply (acp_name_read example_bs (codes "area51") (codes "acp.example.com")).
  - unfold bytes_ok. repeat (constructor; [unfold byte_ok; lia|]). constructor.
  - reflexivity.
  - repeat (constructor; [split; discriminate|]). constructor.
Defined.
