(* ===== verification/Netlink.v ===== *)
(** The interfaces and addresses the kernel announces:
    [lib/libndmgmt/netlink.cpp], from the callback [gather_linkinfo] on.  A
    message is what [parse_rtattr] of the netlink library leaves of it. *)

From Stdlib Require Import ZArith Lia String.
From stdpp Require Import base list gmap numbers strings.
From S2P Require Import Prelude Wire Subopt Event Prefix State Iface Build Dag Neighbour World.
#[local] Open Scope Z_scope.

Record link_msg := mk_link {
  ifi_index : Z; lm_type : Z; ifi_up : bool; ifi_running : bool;
  ifla_ifname : option string; ifla_address : option (list Z) }.
Record addr_msg := mk_addr {
  ifa_index : Z; ifa_family : Z; am_scope : Z;
  ifa_local : option (list Z); ifa_address : option (list Z) }.
Inductive nlmsg :=
| NewLink (m : link_msg)
| DelLink (m : link_msg)
| NewAddr (m : addr_msg)
| DelAddr
| TooShort           (** the payload is smaller than the fixed part *)
| OtherMsg.

Definition ARPHRD_ETHER : Z := 1.
Definition ARPHRD_IEEE802154 : Z := 804.
Definition ARPHRD_LOOPBACK : Z := 772.
Definition ARPHRD_NONE : Z := 65534.
Definition RT_SCOPE_LINK : Z := 253.

(** * Links *)

(** [newnetwork_interface(name)]: the constructor sets some of the fields. *)
Definition new_network_interface (name : string) : M sys nat :=
  s ← get;
  modify (fun s => s <| ifaces ::= (fun l => l ++
    [junk_iface s <| alive := false |> <| disabled := false |> <| if_node := None |>
       <| on_list := false |> <| eui48 := zeros 6 |> <| eui64 := zeros 8 |>
       <| join_query_client := None |> <| if_name := String.substring 0 15 name |>
       <| recv_cnt := 0 |> <| error_cnt := 0 |> <| ipv6_prefix_list := [] |> <| neighbours := ∅ |>]) |>) ;;
  mret (length (ifaces s)).

(** The computation of an interface on itself, when it may fault. *)
Definition try_iface (i : nat) (f : network_interface -> outcome network_interface) : M sys unit :=
  n ← get_iface i; n' ← lift (f n); upd_iface i (fun _ => n').

(** The [switch] on the hardware type, whose cases fall through when there is no
    address: the answer is whether the interface has a link-layer address, or
    [None] when the function returns. *)
Definition make_loopback (i : nat) : M sys (option bool) :=
  modify (fun s => s <| loopback_interface := Some i |>) ;;
  upd_iface i (fun n => n <| loopback := true |>) ;;
  mret None.
Definition link_type (i : nat) (ty : Z) (address : option (list Z)) : M sys (option bool) :=
  if ty =? ARPHRD_ETHER then
    match address with
    | Some addr => try_iface i (set_eui48 addr (zlen addr)) ;; mret (Some true)
    | None => make_loopback i
    end
  else if (ty =? ARPHRD_IEEE802154) || (ty =? ARPHRD_6LOWPAN) then
    match address with
    | Some addr => try_iface i (set_eui64 addr (zlen addr)) ;; mret (Some true)
    | None => make_loopback i
    end
  else if ty =? ARPHRD_LOOPBACK then make_loopback i
  else if ty =? ARPHRD_NONE then mret (Some false)
  else mret None.

(** What [add_linkinfo] does with the interface, once it has one. *)
Definition link_found (i : nat) (m : link_msg) : M sys unit :=
  add_to_list i ;;
  n ← get_iface i;
  s ← get;
  if strcaseeq (if_name n) "dummy0" then mret tt
  else if disable_ipv6 s (if_name n) then upd_iface i (fun n => n <| disabled := true |>)
  else
    upd_iface i (fun n => n <| ifi_type := lm_type m |>) ;;
    hasL2 ← link_type i (lm_type m) (ifla_address m);
    match hasL2 with
    | None => mret tt
    | Some hasL2 =>
        n ← get_iface i;
        when (negb (eui64set n) && hasL2)
          (match ifla_address m with
           | Some addr => try_iface i (fun n =>
               e ← wr_range (eui48 n) 0 addr; Ok (generate_eui64 (n <| eui48 := e |>)))
           | None => fail NullDeref
           end)
    end.
Definition add_linkinfo (m : link_msg) : M sys unit :=
  match ifla_ifname m with
  | None => mret tt
  | Some ifname =>
      if negb (ifi_up m) then mret tt
      else if negb (ifi_running m) then mret tt
      else
        found ← find_by_ifindex (ifi_index m);
        i ← (match found with
             | Some i => mret i
             | None =>
                 i ← new_network_interface ifname;
                 upd_iface i (fun n => n <| if_index := ifi_index m |>) ;;
                 mret i
             end);
        link_found i m
  end.

Section messages.
Context `{EventHeap, PrefixMapSem, Fnmatch}.

(** [del_linkinfo]: for an interface that is not known, the message it logs
    reads the index of the interface through the null pointer. *)
Definition del_linkinfo (m : link_msg) : M world unit :=
  match ifla_ifname m with
  | None => mret tt
  | Some _ =>
      found ← in_sys (find_by_ifindex (ifi_index m));
      match found with
      | None => fail NullDeref
      | Some i => delete_iface i
      end
  end.

(** * Addresses *)

(** [notify_new_interface]: the DAGs whose filters the interface passes announce
    its address. *)
Definition notify_new_interface (one : nat) : M world unit :=
  all_dags (fun k =>
    n ← in_sys (get_iface one);
    in_dag k (
      d ← dag_get id;
      when (matchesIfWildcard d (if_name n) && matchesIfPrefix d (ip6 (if_addr n)))
        (match if_node n with
         | None => fail NullDeref
         | Some node =>
             h ← add_address_ip (nodeip node);
             upd_pm Announced h (set_prefix6 (if_addr n) 128) ;;
             dag_upd (fun d => d <| dao_needed := true |>) ;;
             maybe_send_dao
         end))).

Definition update_addr (i : nat) : M world unit :=
  s ← in_sys get;
  in_sys (upd_iface i (fun n => n <| if_node := Some (rpl_node_of_addr (junk_node s) (if_addr n)) |>)) ;;
  n ← in_sys (get_iface i);
  when (ifa_scope n <=? RT_SCOPE_LINK) (notify_new_interface i).

Definition adddel_ipinfo (m : addr_msg) : M world unit :=
  match (match ifa_local m with Some a => Some a | None => ifa_address m end) with
  | None => mret tt
  | Some addr =>
      found ← in_sys (find_by_ifindex (ifa_index m));
      match found with
      | None => mret tt
      | Some i =>
          if ifa_family m =? AF_INET6 then
            in_sys (try_iface i (fun n =>
              a ← wr_range (if_addr n) 0 (take 16 addr);
              Ok (n <| if_addr := a |> <| ifa_scope := am_scope m |>))) ;;
            update_addr i
          else mret tt
      end
  end.

Definition gather_linkinfo (m : nlmsg) : M world unit :=
  match m with
  | NewLink l => in_sys (add_linkinfo l)
  | DelLink l => del_linkinfo l
  | NewAddr a => adddel_ipinfo a
  | DelAddr | TooShort | OtherMsg => mret tt
  end.

Definition empty_socket (msgs : list nlmsg) : M world unit := for_each msgs gather_linkinfo.

(** [scan_devices]: whether the socket is open, and what the two dumps give
    ([None]: the dump fails). *)
Definition scan_devices (open_netlink : bool) (links addrs : option (list nlmsg)) : M world bool :=
  if negb open_netlink then mret true
  else
    in_sys remove_marks ;;
    match links with
    | None => mret false
    | Some ls =>
        for_each ls gather_linkinfo ;;
        match addrs with
        | None => mret false
        | Some l => for_each l gather_linkinfo ;; mret true
        end
    end.

(** [look_for_new_interfaces] *)
Definition look_for_new_interfaces : M world unit :=
  s ← in_sys get;
  for_each (all_if s) (fun i =>
    n ← in_sys (get_iface i);
    when (negb (is_active n) && negb (loopback n) && negb (disabled n))
      (in_sys (setup i) ;; send_all_dag i)).
End messages.
