(* ===== verification/Frames.v ===== *)
(** The interface over pcap files, [lib/libfakeiface/pcap_iface.cpp], by which the
    program is run on recorded packets: the Ethernet frames it writes, with their
    checksum, and the frames it accepts. *)

From Stdlib Require Import ZArith Lia String.
From stdpp Require Import base list numbers.
From S2P Require Import Prelude Csum Wire Subopt Event Prefix State Iface Build Dag.
From S2P Require Import Neighbour World Netlink.
#[local] Open Scope Z_scope.

(** * Sending *)

Definition IPPROTO_ICMPV6 : Z := 58.
Definition DLT_EN10MB : Z := 1.
Definition DLT_LINUX_SLL : Z := 113.
Definition ETHERMTU : Z := 1500.
Definition SLL_HDR_LEN : Z := 16.
Definition LINUX_SLL_P_802_2 : Z := 4.

(** The fields of [pcap_network_interface]; [pcap_out] holds the packets of the
    file that is being written, the latest first. *)
Record pcap_iface := mk_pcap {
  pcap_link : Z;
  pcap_out : option (list (list Z));
  packet_count : Z
}.
#[global] Instance eta_pcap : Eta pcap_iface := fun r => mk_pcap (pcap_link r) (pcap_out r) (packet_count r).

(** Layer 4: the message, in an array with 2 bytes more, with its checksum, which
    is computed with 0 in its place. *)
Definition with_checksum (src dst body : list Z) : outcome (list Z) :=
  let icmp_len := zlen body in
  payload ← wr_range (body ++ zeros 2) 2 [0; 0];
  sum ← csum_ipv6_magic src dst icmp_len IPPROTO_ICMPV6 0;
  sum ← csum_partial payload icmp_len sum;
  let ck := Z.land (Z.lnot sum) 65535 in
  wr_range payload 2 [Z.land ck 255; Z.shiftr ck 8].

Definition ether_header (hwaddr : list Z) : list Z :=
  [2; 52; 86; 120; 154; 188] ++ take 6 hwaddr ++ [134; 221].
Definition ip6_header (src dst : list Z) (plen : Z) : list Z :=
  [96; 0; 0; 0] ++ be16 (u16 plen) ++ [IPPROTO_ICMPV6; 64] ++ src ++ dst.

(** [send_raw_icmp]; what is dumped is [caplen] bytes of the array. *)
Definition pcap_send_raw_icmp (n : network_interface) (dest src : option in6_addr) (body : list Z)
  (p : pcap_iface) : outcome (network_interface * pcap_iface) :=
  let dest := default all_hosts_addr dest in
  let '(n, own) := link_local n in
  let src := default own src in
  payload ← with_checksum src dest body;
  let packet := ether_header (if_hwaddr n) ++ ip6_header src dest (zlen body) ++ payload in
  let caplen := 14 + 40 + zlen body in
  Ok (n, p <| pcap_out ::= fmap (cons (take (Z.to_nat caplen) packet)) |>).

(** * Receiving *)

(** A packet of a file: its captured bytes and the length it had. *)
Record pcap_packet := mk_packet { pk_bytes : list Z; pk_len : Z; pk_sec : Z }.

(** What becomes of it. *)
Inductive pcap_verdict :=
| Dropped
| Exited                                                    (** [exit(1)] *)
| Passed (src dst : in6_addr) (bytes : list Z) (len : Z).

Definition filter_and_receive_icmp6 (bytes : list Z) (len : Z) : outcome pcap_verdict :=
  nh ← rd bytes 6;
  if negb (nh =? IPPROTO_ICMPV6) then Ok Dropped
  else
    ty ← rd bytes 40;
    if negb ((ty =? Nd.ND_ROUTER_SOLICIT) || (ty =? Nd.ND_ROUTER_ADVERT) || (ty =? Nd.ND_NEIGHBOR_SOLICIT) ||
             (ty =? Nd.ND_NEIGHBOR_ADVERT) || (ty =? ND_RPL_MESSAGE)) then Ok Dropped
    else
      src ← rd_range bytes 8 16;
      dst ← rd_range bytes 24 16;
      Ok (Passed src dst (drop 40 bytes) (len - 40)).

Definition skip_10mb_pcap_headers (h : pcap_packet) : outcome pcap_verdict :=
  let bytes := pk_bytes h in
  b12 ← rd bytes 12;
  other ← (if negb (b12 =? 134) then Ok true else b13 ← rd bytes 13; Ok (negb (b13 =? 221)));
  if other : bool then Ok Dropped
  else
    version ← rd bytes 14;
    if negb (Z.land version 240 =? 96) then Ok Dropped
    else filter_and_receive_icmp6 (drop 14 bytes) (pk_len h - 14).

(** [len] and [caplen] are unsigned here. *)
Definition skip_linux_pcap_headers (h : pcap_packet) : outcome pcap_verdict :=
  if zlen (pk_bytes h) <? SLL_HDR_LEN then Ok Dropped
  else
    hi ← rd (pk_bytes h) 14;
    lo ← rd (pk_bytes h) 15;
    let ether_type := be16_val hi lo in
    let bytes := drop 16 (pk_bytes h) in
    if (ether_type <=? ETHERMTU) && negb (ether_type =? LINUX_SLL_P_802_2) then Ok Dropped
    else if (ether_type >? ETHERMTU) && negb (ether_type =? 34525) then Ok Dropped
    else
      version ← rd bytes 0;
      if negb (Z.land version 240 =? 96) then Ok Dropped
      else filter_and_receive_icmp6 bytes (s32 (u32 (pk_len h - SLL_HDR_LEN))).

(** [skip_pcap_headers]; both cases count the packet. *)
Definition skip_pcap_headers (h : pcap_packet) (p : pcap_iface) : outcome (pcap_verdict * pcap_iface) :=
  let counted := p <| packet_count ::= (fun c => u32 (c + 1)) |> in
  if pcap_link p =? DLT_LINUX_SLL then v ← skip_linux_pcap_headers h; Ok (v, counted)
  else if pcap_link p =? DLT_EN10MB then v ← skip_10mb_pcap_headers h; Ok (v, counted)
  else Ok (Exited, p).

Section pcap.
Context `{EventHeap, PrefixMapSem, Fnmatch}.

(** [sunshine_pcap_input] on interface [i]: [false] when the program has left. *)
Definition pcap_input (i : nat) (h : pcap_packet) (p : pcap_iface) : M world (bool * pcap_iface) :=
  '(v, p) ← lift (skip_pcap_headers h p);
  match v with
  | Dropped => mret (true, p)
  | Exited => mret (false, p)
  | Passed src dst bytes len => receive_packet i src dst (pk_sec h) bytes len ;; mret (true, p)
  end.

(** [process_pcap] *)
Fixpoint pcap_loop (i : nat) (hs : list pcap_packet) (p : pcap_iface) : M world (bool * pcap_iface) :=
  match hs with
  | [] => mret (true, p)
  | h :: hs' => '(go, p) ← pcap_input i h p; if go : bool then pcap_loop i hs' p else mret (false, p)
  end.

(** * Interfaces that are made up *)

Definition fake_linkinfo (name : string) (myindex type : Z) (up running : bool) (eui : list Z) : M world unit :=
  gather_linkinfo (NewLink (mk_link myindex type up running (Some name) (Some (take 6 eui)))).
Definition fake_addrinfo (myindex scope : Z) (addr : list Z) : M world unit :=
  gather_linkinfo (NewAddr (mk_addr myindex AF_INET6 scope (Some (take 16 addr)) None)).

Definition RT_SCOPE_HOST : Z := 254.
Definition pcap_scan_devices (wlan1_is_down : bool) : M world unit :=
  fake_linkinfo "wlan0" 1 ARPHRD_ETHER true true [0; 22; 62; 17; 52; 36] ;;
  fake_addrinfo 1 RT_SCOPE_LINK ([254; 128] ++ zeros 6 ++ [16; 0; 0; 255; 254; 100; 100; 35]) ;;
  fake_linkinfo "lo" 2 ARPHRD_LOOPBACK true true [192; 0; 127; 0; 0; 1] ;;
  fake_addrinfo 2 RT_SCOPE_HOST (zeros 15 ++ [1]) ;;
  (if wlan1_is_down then fake_linkinfo "wlan1" 3 ARPHRD_ETHER false false [0; 22; 240; 13; 186; 190] else mret tt) ;;
  let virbr0 := if wlan1_is_down then 4 else 3 in
  fake_linkinfo "virbr0" virbr0 ARPHRD_LOOPBACK true false [192; 0; 127; 171; 0; 2] ;;
  fake_addrinfo virbr0 RT_SCOPE_HOST [32; 0; 13; 184; 0; 0; 0; 2; 0; 3; 0; 4; 0; 5; 0; 6].
End pcap.

(** * The checksum *)

Definition put_cksum (body : list Z) (ck : Z) : list Z := take 2 body ++ [Z.land ck 255; Z.shiftr ck 8] ++ drop 4 body.

(** What a receiver checks (RFC 4443): the sum of RFC 1071 over the pseudo-header
    and the message, with its checksum, is all ones. *)
Definition checksum_good (src dst message : list Z) : Prop :=
  rfc1071_sum (icmpv6_pseudo_header src dst (zlen message) ++ message) = 65535.

Lemma bytes_app a b : bytes_ok a -> bytes_ok b -> bytes_ok (a ++ b).
Proof. intros. apply Forall_app. by split. Qed.
Lemma be32_ok x : bytes_ok (be32 x).
Proof. unfold be32. repeat (constructor; [apply u8_ok|]). constructor. Qed.
Lemma put_cksum_bytes body ck : bytes_ok body -> 0 <= ck <= 65535 -> bytes_ok (put_cksum body ck).
Proof.
  intros Hb Hck. apply bytes_app; [by apply Forall_take|]. apply bytes_app; [|by apply Forall_drop].
  repeat constructor; unfold byte_ok.
  - change 255 with (Z.ones 8). rewrite Z.land_ones by lia. change (2 ^ 8) with 256. Z.div_mod_to_equations; lia.
  - change 255 with (Z.ones 8). rewrite Z.land_ones by lia. change (2 ^ 8) with 256. Z.div_mod_to_equations; lia.
  - rewrite Z.shiftr_div_pow2 by lia. change (2 ^ 8) with 256. Z.div_mod_to_equations; lia.
  - rewrite Z.shiftr_div_pow2 by lia. change (2 ^ 8) with 256. Z.div_mod_to_equations; lia.
Qed.
Lemma put_cksum_sum body ck : (4 <= length body)%nat -> 0 <= ck <= 65535 ->
  word_sum (put_cksum body ck) = word_sum (put_cksum body 0) + ck.
Proof.
  intros Hlen Hck. destruct body as [|a [|b [|c [|d body]]]]; [simpl in Hlen; lia.. |].
  unfold put_cksum. cbn [take drop app word_sum]. change 255 with (Z.ones 8).
  rewrite !Z.land_ones, !Z.shiftr_div_pow2 by lia. change (2 ^ 8) with 256. Z.div_mod_to_equations. lia.
Qed.
Lemma put_cksum_length body ck : (4 <= length body)%nat -> length (put_cksum body ck) = length body.
Proof. intros H. unfold put_cksum. rewrite !length_app, length_take, length_drop. cbn [length]. lia. Qed.
Lemma put_cksum_write body ck rest : (4 <= length body)%nat ->
  wr_range (body ++ rest) 2 [Z.land ck 255; Z.shiftr ck 8] = Ok (put_cksum body ck ++ rest).
Proof.
  intros Hlen. destruct body as [|a [|b [|c [|d body]]]]; [simpl in Hlen; lia.. |].
  unfold wr_range. pose proof (zlen_nonneg (body ++ rest)).
  change ((a :: b :: c :: d :: body) ++ rest) with (a :: b :: c :: d :: (body ++ rest)).
  rewrite !zlen_cons. change (zlen (@nil Z)) with 0. 
  replace (_ && _) with true by (symmetry; apply andb_true_intro; split; apply Z.leb_le; lia). done.
Qed.

Lemma put_cksum_again body a b : (4 <= length body)%nat -> put_cksum (put_cksum body a) b = put_cksum body b.
Proof. intros Hlen. by destruct body as [|x [|y [|z [|u body]]]]; [simpl in Hlen; lia.. |]. Qed.

Lemma pseudo_header_spec src dst len : bytes_ok src -> bytes_ok dst -> length src = 16%nat -> length dst = 16%nat ->
  bytes_ok (pseudo_header src dst len IPPROTO_ICMPV6) /\ length (pseudo_header src dst len IPPROTO_ICMPV6) = 40%nat.
Proof.
  intros Hs Hd Hls Hld. unfold pseudo_header. split; [|rewrite !length_app, Hls, Hld; done].
  repeat apply bytes_app; [done | done | apply be32_ok | apply bytes_ok_zeros |]. constructor; [apply u8_ok | constructor].
Qed.

Lemma csum_magic_spec src dst len : bytes_ok src -> bytes_ok dst -> length src = 16%nat -> length dst = 16%nat ->
  csum_ipv6_magic src dst len IPPROTO_ICMPV6 0 = Ok (ones (word_sum (pseudo_header src dst len IPPROTO_ICMPV6))).
Proof.
  intros Hs Hd Hls Hld. destruct (pseudo_header_spec src dst len Hs Hd Hls Hld) as [Hb Hlen].
  unfold csum_ipv6_magic. set (ph := pseudo_header _ _ _ _) in *.
  pose proof (word_sum_range ph Hb) as Hr. assert (zlen ph = 40) as Hz by (unfold zlen; by rewrite Hlen).
  pose proof (csum_partial_spec 20 ph [] 0 Hlen Hb ltac:(lia) ltac:(lia)) as Hsum.
  by rewrite app_nil_r, Hz in Hsum.
Qed.

(** The sum of a message whose checksum is [ck]. *)
Lemma message_sum body ck s : bytes_ok body -> (4 <= length body)%nat -> zlen body <= 65535 ->
  0 <= ck <= 65535 -> 0 <= s <= 65535 ->
  csum_partial (put_cksum body ck ++ zeros 2) (zlen body) s = Ok (ones (s + word_sum (put_cksum body 0) + ck)).
Proof.
  intros Hb Hlen Hmax Hck Hs. pose proof (put_cksum_bytes body ck Hb Hck) as Hbytes.
  pose proof (word_sum_range _ Hbytes) as Hr. pose proof (put_cksum_length body ck Hlen) as Hl.
  replace (zlen body) with (zlen (put_cksum body ck)) in * by (unfold zlen; by rewrite Hl).
  change (zeros 2) with (0 :: [0]). rewrite csum_partial_any by (done || lia).
  by rewrite put_cksum_sum, Z.add_assoc by (done || lia).
Qed.

Lemma with_checksum_spec src dst body : bytes_ok src -> bytes_ok dst -> bytes_ok body ->
  length src = 16%nat -> length dst = 16%nat -> (4 <= length body)%nat -> zlen body <= 65535 ->
  exists ck, with_checksum src dst body = Ok (put_cksum body ck ++ zeros 2) /\
    length (put_cksum body ck) = length body /\ checksum_good src dst (put_cksum body ck).
Proof.
  intros Hs Hd Hb Hls Hld Hlen Hmax. set (ph := word_sum (pseudo_header src dst (zlen body) IPPROTO_ICMPV6)).
  assert (0 <= ph) as Hph by (apply word_sum_range; by apply pseudo_header_spec).
  pose proof (ones_range ph Hph). set (w := word_sum (put_cksum body 0)).
  assert (0 <= w) as Hw by (apply word_sum_range, put_cksum_bytes; [done | lia]).
  pose proof (ones_range (ones ph + w) ltac:(lia)) as Hsum.
  set (ck := 65535 - ones (ones ph + w)). exists ck.
  pose proof (put_cksum_length body ck Hlen) as Hl. split_and!; [|done|].
  - unfold with_checksum. change [0; 0] with [Z.land 0 255; Z.shiftr 0 8]. rewrite put_cksum_write by done.
    cbn [mbind outcome_bind]. rewrite csum_magic_spec by done. cbn [mbind outcome_bind].
    rewrite message_sum by (done || lia). cbn [mbind outcome_bind]. rewrite Z.add_0_r. fold ph w.
    replace (Z.land (Z.lnot (ones (ones ph + w))) 65535) with ck.
    2: { change 65535 with (Z.ones 16). rewrite Z.land_ones by lia. change (2 ^ 16) with 65536. unfold Z.lnot, ck.
         Z.div_mod_to_equations. lia. }
    rewrite put_cksum_write by (by rewrite put_cksum_length). do 2 f_equal.
    by rewrite put_cksum_again.
  - unfold checksum_good. replace (zlen (put_cksum body ck)) with (zlen body) by (unfold zlen; by rewrite Hl).
    pose proof (zlen_nonneg body). rewrite <-pseudo_header_icmpv6 by lia.
    destruct (pseudo_header_spec src dst (zlen body) Hs Hd Hls Hld) as [Hpb Hpl]. unfold IPPROTO_ICMPV6 in *.
    apply rfc1071_all_ones; [apply bytes_app; [done|apply put_cksum_bytes; [done|lia]]|].
    rewrite (word_sum_app 20) by (by rewrite Hpl). fold ph. rewrite put_cksum_sum by (done || lia). fold w.
    rewrite Z.add_assoc, <-ones_add, <-(ones_add ph w), ones_add by lia.
    apply (ones_complement (ones ph + w)). lia.
Qed.

(** * A frame from end to end *)

Lemma filter_passes src dst body len : length src = 16%nat -> length dst = 16%nat ->
  (exists ty, head body = Some ty /\ 
    ty ∈ [Nd.ND_ROUTER_SOLICIT; Nd.ND_ROUTER_ADVERT; Nd.ND_NEIGHBOR_SOLICIT; Nd.ND_NEIGHBOR_ADVERT; ND_RPL_MESSAGE]) ->
  filter_and_receive_icmp6 (ip6_header src dst (zlen body) ++ body) len = Ok (Passed src dst body (len - 40)).
Proof.
  intros Hls Hld (ty & Hty & Hin). unfold filter_and_receive_icmp6, ip6_header. unfold be16.
  set (pre := [96; 0; 0; 0] ++ [u8 (u16 (zlen body) / 256); u8 (u16 (zlen body))] ++ [IPPROTO_ICMPV6; 64]).
  replace (_ ++ body) with (pre ++ src ++ dst ++ body) by (subst pre; by rewrite <- !app_assoc).
  change (rd (pre ++ src ++ dst ++ body) 6) with (Ok (A := Z) IPPROTO_ICMPV6). cbn [mbind outcome_bind].
  change (negb (IPPROTO_ICMPV6 =? IPPROTO_ICMPV6)) with false. cbn match.
  assert (rd (pre ++ src ++ dst ++ body) 40 = Ok ty) as ->.
  { replace (pre ++ src ++ dst ++ body) with ((pre ++ src ++ dst) ++ body) by (by rewrite <- !app_assoc).
    replace 40 with (zlen (pre ++ src ++ dst)) by (unfold zlen; by rewrite !length_app, Hls, Hld).
    rewrite rd_app_r0. destruct body; [done|]. injection Hty as ->. apply rd_cons0. }
  cbn [mbind outcome_bind].
  replace (negb _) with false by (symmetry; apply negb_false_iff; rewrite !elem_of_cons, elem_of_nil in Hin; by destruct Hin as [-> | [-> | [-> | [-> | [-> | []]]]]]).
  assert (rd_range (pre ++ src ++ dst ++ body) 8 16 = Ok src) as ->.
  { replace 16 with (zlen src) by (unfold zlen; by rewrite Hls). apply rd_range_app. }
  cbn [mbind outcome_bind].
  assert (rd_range (pre ++ src ++ dst ++ body) 24 16 = Ok dst) as ->.
  { replace (pre ++ src ++ dst ++ body) with ((pre ++ src) ++ dst ++ body) by (by rewrite <- !app_assoc).
    replace 24 with (zlen (pre ++ src)) by (unfold zlen; by rewrite length_app, Hls).
    replace 16 with (zlen dst) by (unfold zlen; by rewrite Hld). apply rd_range_app. }
  cbn [mbind outcome_bind]. do 3 f_equal.
  replace (pre ++ src ++ dst ++ body) with ((pre ++ src ++ dst) ++ body) by (by rewrite <- !app_assoc).
  by rewrite drop_app_length' by (rewrite !length_app, Hls, Hld; done).
Qed.

Lemma ether_passes hwaddr src dst body sec : (6 <= length hwaddr)%nat -> 
  skip_10mb_pcap_headers (mk_packet (ether_header hwaddr ++ ip6_header src dst (zlen body) ++ body) (54 + zlen body) sec) =
    filter_and_receive_icmp6 (ip6_header src dst (zlen body) ++ body) (40 + zlen body).
Proof.
  intros Hhw. unfold ether_header. destruct hwaddr as [|a [|b [|c [|d [|e [|f hw]]]]]]; [simpl in Hhw; lia.. |].
  unfold skip_10mb_pcap_headers. cbn [pk_bytes pk_len].
  replace (54 + zlen body - 14) with (40 + zlen body) by lia. reflexivity.
Qed.

Lemma link_local_hwaddr n : if_hwaddr (link_local n).1 = if_hwaddr n.
Proof. unfold link_local, generate_eui64, generate_linkaddr, eui64_from_eui48. by destruct (eui64set n). Qed.
Lemma headers_length hwaddr src dst plen : (6 <= length hwaddr)%nat -> length src = 16%nat -> length dst = 16%nat ->
  length (ether_header hwaddr ++ ip6_header src dst plen) = 54%nat.
Proof.
  intros Hhw Hls Hld. unfold ether_header, ip6_header. rewrite !length_app, length_take, Hls, Hld. cbn [length be16]. lia.
Qed.

Section frames.
Context `{EventHeap, PrefixMapSem, Fnmatch}.

Lemma receive_ignores_cksum i src dst now body ck len w : (4 <= length body)%nat -> head body = Some ND_RPL_MESSAGE ->
  receive_packet i src dst now (put_cksum body ck) len w = receive_packet i src dst now body len w.
Proof.
  intros Hlen Hty. destruct body as [|a [|b [|c [|d body]]]]; [simpl in Hlen; lia.. |]. injection Hty as ->. reflexivity.
Qed.

End frames.

(** * Examples *)

#[local] Existing Instance libstdcxx_map.

Definition example_dis : list Z := [ND_RPL_MESSAGE; ND_RPL_DAG_IS; 0; 0; 0; 0; 1].
Definition example_pcap : pcap_iface := mk_pcap DLT_EN10MB (Some []) 0.
Definition example_node : world := mk_world [Example.dag] [0%nat] Example.sys Example.dag.


(** The interfaces that are made up: the loopback and [wlan0]; the bridge has no
    carrier, and its address is for no interface that is known. *)
Example scan_makes_two :
  match @pcap_scan_devices _ _ (fun _ _ => true) false (example_node <| wsys ::= (fun s => s <| all_if := [] |> <| ifaces := [] |>) |>) with
  | Ok (_, w) => (fun i => if_name <$> ifaces (wsys w) !! i) <$> all_if (wsys w)
  | Fault _ => []
  end = [Some "lo"%string; Some "wlan0"%string].
Proof. vm_compute. reflexivity. Qed.
