(* ===== verification/MainLoop.v ===== *)
(** [network_interface::main_loop]: one turn runs the timers that are due, waits,
    and handles what has arrived; the program is a sequence of turns, as a step
    relation. *)

From Stdlib Require Import ZArith Lia String.
From stdpp Require Import base list gmap numbers strings.
From S2P Require Import Prelude Wire Subopt Event Prefix State Iface Build Dag Neighbour World Netlink.
#[local] Open Scope Z_scope.

(** What a turn sees of the world outside: the clock before and after the wait,
    and what can be read. *)
Record turn := mk_turn {
  t_clock : timeval;
  t_woken : timeval;
  netlink_ready : option (list nlmsg);
  packet_ready : option datagram;
  grasp_ready : nat -> option (option cbor);
  signal_usr1 : option (bool * option (list nlmsg) * option (list nlmsg))
}.

Definition set_clock (t : timeval) : M world unit :=
  in_sys (with_timers (modify (fun ts => ts <| clock := t |>))).

Definition poll_timeout_max : Z := 60000.
Definition next_timeout (ev : rpl_event) (now : timeval) : Z :=
  let newtimeout := miliseconds_util ev now in
  if newtimeout <? 0 then poll_timeout_max
  else if newtimeout <? poll_timeout_max then newtimeout else poll_timeout_max.

Section main_loop.
Context `{EventHeap, PrefixMapSem, Fnmatch}.

(** The inner [while]: run the events that have passed, put them back; the
    answer is the timeout of [poll]. *)
Fixpoint run_due (fuel : nat) (now : timeval) : M world Z :=
  match fuel with
  | O => fail OutOfFuel
  | S fuel' =>
      size ← in_sys (with_timers queue_size);
      if negb (size >? 0) then mret poll_timeout_max
      else
        re ← in_sys (with_timers peek_event);
        match re with
        | None => mret poll_timeout_max
        | Some e =>
            ev ← in_sys (with_timers (get_event e));
            if passed ev now then
              in_sys (with_timers eat_event) ;;
              in_sys (with_timers (set_event e (fun ev => ev <| inQueue := false |>))) ;;
              again ← doit e;
              (if (again : bool) then in_sys (with_timers (requeue_at e now)) else delete_event e) ;;
              run_due fuel' now
            else mret (next_timeout ev now)
        end
  end.

(** What is polled: the two sockets, then the clients of the interfaces.  The
    array [all_grasp] has [limit] elements, and the index of a client starts at 2. *)
Fixpoint grasp_sources (limit pollnum : Z) (l : list nat) : M sys (list nat) :=
  match l with
  | [] => mret []
  | i :: l' =>
      n ← get_iface i;
      match join_query_client n with
      | Some g =>
          if poll_setup g then
            if pollnum <? limit then
              rest ← grasp_sources limit (pollnum + 1) l'; mret (i :: rest)
            else fail OutOfBounds
          else grasp_sources limit pollnum l'
      | None => grasp_sources limit pollnum l'
      end
  end.
Definition poll_sources (limit : Z) : M sys (list nat) :=
  s ← get; grasp_sources limit 2 (all_if s).

(** One turn; it answers the timeout it slept with.  [all_grasp] is made for the
    interfaces there are at its start, with one element more than these; the
    packet socket has index 1, and its element is looked at when it is ready. *)
Definition loop_turn (fuel : nat) (t : turn) : M world Z :=
  set_clock (t_clock t) ;;
  n ← in_sys if_count;
  timeout ← run_due fuel (t_clock t);
  sources ← in_sys (poll_sources (1 + n));
  set_clock (t_woken t) ;;
  let now := tv_sec (t_woken t) in
  (match netlink_ready t with
   | Some msgs => empty_socket msgs ;; look_for_new_interfaces
   | None => mret tt
   end) ;;
  (match packet_ready t with
   | Some g => if 1 <? 1 + n then receive now g else fail OutOfBounds
   | None => mret tt
   end) ;;
  for_each sources (fun i =>
    match grasp_ready t i with
    | Some reply => in_sys (client_reply i reply) ;; mret tt
    | None => mret tt
    end) ;;
  (match signal_usr1 t with
   | Some (open, links, addrs) => scan_devices open links addrs ;; repair_dao_send
   | None => mret tt
   end) ;;
  mret timeout.

(** The loop, over turns one after the other.  The fuel of the inner loop is one
    more than the events that wait. *)
Definition main_loop (ts : list turn) : M world unit :=
  for_each ts (fun t => w ← get; loop_turn (S (length (queue (things_to_do (wsys w))))) t ;; mret tt).

(** The program's turns. *)
Inductive runs : world -> world -> Prop :=
| runs_done w : runs w w
| runs_turn w fuel t timeout w1 w2 :
    loop_turn fuel t w = Ok (timeout, w1) -> runs w1 w2 -> runs w w2.
End main_loop.
