(* ===== verification/Rtnl.v ===== *)
(** Netlink messages and the socket they come from:
    [lib/libnetlink/libnetlink.c] and the macros of the kernel's headers it is
    written in.  A buffer is the list of its bytes, a pointer into it an offset;
    the fields are in the byte order of the host, here the least byte first. *)

From Stdlib Require Import ZArith Lia String.
From stdpp Require Import base list numbers strings.
From S2P Require Import Prelude.
#[local] Open Scope Z_scope.

(** * Fields in the host's order *)
Fixpoint le (n : nat) (x : Z) : list Z :=
  match n with O => [] | S n' => u8 x :: le n' (x / 256) end.
Definition le_val (bs : list Z) : Z := foldr (fun b acc => b + 256 * acc) 0 bs.
Definition rd_le (n : nat) (m : list Z) (off : Z) : outcome Z :=
  bs ← rd_range m off (Z.of_nat n); Ok (le_val bs).

(** [struct nlmsghdr], 16 bytes, and [struct rtattr], 4 bytes. *)
Definition nlmsghdr_size : Z := 16.
Definition nlmsg_len (m : list Z) (h : Z) : outcome Z := rd_le 4 m h.
Definition nlmsg_type (m : list Z) (h : Z) : outcome Z := rd_le 2 m (h + 4).
Definition nlmsg_flags (m : list Z) (h : Z) : outcome Z := rd_le 2 m (h + 6).
Definition nlmsg_seq (m : list Z) (h : Z) : outcome Z := rd_le 4 m (h + 8).
Definition nlmsg_pid (m : list Z) (h : Z) : outcome Z := rd_le 4 m (h + 12).
Definition rtattr_size : Z := 4.
Definition rta_len (m : list Z) (r : Z) : outcome Z := rd_le 2 m r.
Definition rta_type (m : list Z) (r : Z) : outcome Z := rd_le 2 m (r + 2).

(** [NLMSG_ALIGN] and [RTA_ALIGN]: to a multiple of 4, in [unsigned]. *)
Definition NLMSG_ALIGN (len : Z) : Z := Z.land (u32 (len + 3)) 4294967292.
Definition RTA_ALIGN : Z -> Z := NLMSG_ALIGN.
Definition NLMSG_LENGTH (len : Z) : Z := len + 16.
Definition RTA_LENGTH (len : Z) : Z := 4 + len.
(** A signed length from which an unsigned one is taken. *)
Definition less (len by_ : Z) : Z := s32 (u32 (len - by_)).

Definition RTA_OK (m : list Z) (rta len : Z) : outcome bool :=
  if len >=? rtattr_size then
    l ← rta_len m rta; Ok ((l >=? rtattr_size) && (l <=? len))
  else Ok false.
Definition NLMSG_OK (m : list Z) (h len : Z) : outcome bool :=
  if len >=? nlmsghdr_size then
    l ← nlmsg_len m h; Ok ((l >=? nlmsghdr_size) && (l <=? len))
  else Ok false.

(** * Reading attributes *)

(** [parse_rtattr]: the last attribute of each type; what is left over is logged,
    with the field behind the last attribute that was taken. *)
Fixpoint rtattr_loop (fuel : nat) (m : list Z) (max rta len : Z) (tb : list (option Z)) : outcome (list (option Z) * Z * Z) :=
  match fuel with
  | O => Fault OutOfFuel
  | S fuel' =>
      ok ← RTA_OK m rta len;
      if (ok : bool) then
        ty ← rta_type m rta;
        l ← rta_len m rta;
        rtattr_loop fuel' m max (rta + RTA_ALIGN l) (less len (RTA_ALIGN l))
          (if ty <=? max then <[Z.to_nat ty := Some rta]> tb else tb)
      else Ok (tb, rta, len)
  end.
Definition parse_rtattr (m : list Z) (max rta len : Z) : outcome (list (option Z)) :=
  '(tb, rta, len) ← rtattr_loop (S (Z.to_nat len)) m max rta len (replicate (Z.to_nat (max + 1)) None);
  if len =? 0 then Ok tb else rta_len m rta ;; Ok tb.

(** [parse_rtattr_byindex]: the first [max] attributes, in order. *)
Fixpoint byindex_loop (fuel : nat) (m : list Z) (max rta len : Z) (tb : list Z) : outcome (list Z * Z * Z) :=
  match fuel with
  | O => Fault OutOfFuel
  | S fuel' =>
      ok ← RTA_OK m rta len;
      if (ok : bool) then
        ty ← rta_type m rta;
        l ← rta_len m rta;
        byindex_loop fuel' m max (rta + RTA_ALIGN l) (less len (RTA_ALIGN l))
          (if (ty <=? max) && (zlen tb <? max) then tb ++ [rta] else tb)
      else Ok (tb, rta, len)
  end.
Definition parse_rtattr_byindex (m : list Z) (max rta len : Z) : outcome (list Z) :=
  '(tb, rta, len) ← byindex_loop (S (Z.to_nat len)) m max rta len [];
  if len =? 0 then Ok tb else rta_len m rta ;; Ok tb.

(** [RTA_DATA] and [RTA_PAYLOAD] of the attribute of a type. *)
Definition rta_data (m : list Z) (tb : list (option Z)) (ty : Z) : outcome (option (list Z)) :=
  match tb !! Z.to_nat ty with
  | Some (Some r) => l ← rta_len m r; d ← rd_range m (r + 4) (l - 4); Ok (Some d)
  | _ => Ok None
  end.

(** * Writing attributes

    The message is at the start of [m]; the answer is what the function returns
    and what it leaves. *)
Definition nlmsg_tail (m : list Z) : outcome Z := l ← nlmsg_len m 0; Ok (NLMSG_ALIGN l).

Definition put_rtattr (m : list Z) (rta type len : Z) (data : list Z) : outcome (list Z) :=
  m ← wr_range m (rta + 2) (le 2 type);
  m ← wr_range m rta (le 2 len);
  wr_range m (rta + 4) data.

Definition addattr32 (m : list Z) (maxlen type data : Z) : outcome (Z * list Z) :=
  tail ← nlmsg_tail m;
  let len := RTA_LENGTH 4 in
  if u32 (tail + len) >? u32 maxlen then Ok (-1, m)
  else
    m ← put_rtattr m tail type len (le 4 data);
    m ← wr_range m 0 (le 4 (tail + len));
    Ok (0, m).
Definition addattr_l (m : list Z) (maxlen type : Z) (data : list Z) : outcome (Z * list Z) :=
  tail ← nlmsg_tail m;
  let len := RTA_LENGTH (zlen data) in
  if u32 (tail + RTA_ALIGN len) >? u32 maxlen then Ok (-1, m)
  else
    m ← put_rtattr m tail type len data;
    m ← wr_range m 0 (le 4 (tail + RTA_ALIGN len));
    Ok (0, m).
(** The padding is cleared at [NLMSG_TAIL(n) + len], which is a [struct rtattr *]
    plus an integer. *)
Definition addraw_l (m : list Z) (maxlen : Z) (data : list Z) : outcome (Z * list Z) :=
  tail ← nlmsg_tail m;
  let len := zlen data in
  if u32 (tail + NLMSG_ALIGN len) >? u32 maxlen then Ok (-1, m)
  else
    m ← wr_range m tail data;
    m ← wr_range m (tail + rtattr_size * len) (zeros (Z.to_nat (NLMSG_ALIGN len - len)));
    m ← wr_range m 0 (le 4 (tail + NLMSG_ALIGN len));
    Ok (0, m).
(** Attributes in an attribute. *)
Definition rta_addattr32 (m : list Z) (rta maxlen type data : Z) : outcome (Z * list Z) :=
  l ← rta_len m rta;
  let len := RTA_LENGTH 4 in
  if u32 (RTA_ALIGN l + len) >? u32 maxlen then Ok (-1, m)
  else
    m ← put_rtattr m (rta + RTA_ALIGN l) type len (le 4 data);
    m ← wr_range m rta (le 2 (NLMSG_ALIGN l + len));
    Ok (0, m).
Definition rta_addattr_l (m : list Z) (rta maxlen type : Z) (data : list Z) : outcome (Z * list Z) :=
  l ← rta_len m rta;
  let len := RTA_LENGTH (zlen data) in
  if u32 (RTA_ALIGN l + RTA_ALIGN len) >? u32 maxlen then Ok (-1, m)
  else
    m ← put_rtattr m (rta + RTA_ALIGN l) type len data;
    m ← wr_range m rta (le 2 (NLMSG_ALIGN l + RTA_ALIGN len));
    Ok (0, m).
Definition addattr_nest (m : list Z) (maxlen type : Z) : outcome (Z * list Z) :=
  nest ← nlmsg_tail m;
  '(_, m) ← addattr_l m maxlen type [];
  Ok (nest, m).
Definition addattr_nest_end (m : list Z) (nest : Z) : outcome (Z * list Z) :=
  tail ← nlmsg_tail m;
  m ← wr_range m nest (le 2 (tail - nest));
  l ← nlmsg_len m 0;
  Ok (l, m).

(** * The socket *)
Record rtnl_handle := mk_handle { local_pid : Z; rth_seq : Z; rth_dump : Z }.
#[global] Instance eta_handle : Eta rtnl_handle := fun r => mk_handle (local_pid r) (rth_seq r) (rth_dump r).

Definition NLMSG_ERROR : Z := 2.
Definition NLMSG_DONE : Z := 3.
Definition NLM_F_REQUEST : Z := 1.
Definition NLM_F_ACK : Z := 4.
Definition NLM_F_ROOT : Z := 256.
Definition NLM_F_MATCH : Z := 512.
Definition nlmsgerr_size : Z := 20.

Definition header_bytes (len type flags seq pid : Z) : list Z := le 4 len ++ le 2 type ++ le 2 flags ++ le 4 seq ++ le 4 pid.
(** What [rtnl_wilddump_request] and [rtnl_dump_request] send. *)
Definition rtnl_wilddump_request (rth : rtnl_handle) (family type : Z) : rtnl_handle * list Z :=
  let seq := u32 (rth_seq rth + 1) in
  (rth <| rth_seq := seq |> <| rth_dump := seq |>,
   header_bytes 20 type (Z.lor NLM_F_ROOT (Z.lor NLM_F_MATCH NLM_F_REQUEST)) seq 0 ++ [u8 family] ++ zeros 3).
Definition rtnl_dump_request (rth : rtnl_handle) (type : Z) (req : list Z) : rtnl_handle * list Z :=
  let seq := u32 (rth_seq rth + 1) in
  (rth <| rth_seq := seq |> <| rth_dump := seq |>,
   header_bytes (NLMSG_LENGTH (zlen req)) type (Z.lor NLM_F_ROOT (Z.lor NLM_F_MATCH NLM_F_REQUEST)) seq 0 ++ req).

(** What one call of [recvmsg] gives. *)
Inductive rerr := EINTR | EAGAIN | OtherError.
Inductive recv :=
| RErr (e : rerr)
| REof
| RMsg (pid : Z) (name_ok trunc : bool) (data : list Z).
(** How a function over the socket ends: [Waiting] when there is no more to be had. *)
Inductive ended := Returned (r : Z) | Exited (status : Z) | Waiting.

(** The data go over what the buffer held. *)
Definition fill (buf data : list Z) : list Z :=
  let got := take (length buf) data in got ++ drop (length got) buf.
(** [status >= sizeof *h], an [int] against a [size_t]. *)
Definition at_least_header (status : Z) : bool := (status <? 0) || (status >=? nlmsghdr_size).

Section socket.
Context {S : Type}.
(** The callback is given the buffer and the offset of the message. *)
Variable handler : list Z -> Z -> M S Z.

(** The messages of one datagram, for [rtnl_listen]: how the function ends, or
    what is left of the datagram. *)
Fixpoint listen_loop (fuel : nat) (buf : list Z) (trunc : bool) (h status : Z) : M S (ended + Z) :=
  match fuel with
  | O => fail OutOfFuel
  | Datatypes.S fuel' =>
      if negb (at_least_header status) then mret (inr status)
      else
        raw ← lift (nlmsg_len buf h);
        let len := s32 raw in
        let l := s32 (u32 (len - nlmsghdr_size)) in
        if (l <? 0) || (len >? status) then
          mret (inl (if trunc then Returned (-1) else Exited 1))
        else
          err ← handler buf h;
          if err <? 0 then mret (inl (Returned err))
          else listen_loop fuel' buf trunc (h + NLMSG_ALIGN len) (less status (NLMSG_ALIGN len))
  end.
Fixpoint rtnl_listen (buf : list Z) (rs : list recv) : M S ended :=
  match rs with
  | [] => mret Waiting
  | RErr EAGAIN :: _ => mret (Returned 0)
  | RErr _ :: rs' => rtnl_listen buf rs'
  | REof :: _ => mret (Returned (-1))
  | RMsg _ name_ok trunc data :: rs' =>
      let buf := fill buf data in
      let status := zlen (take (length buf) data) in
      if status =? 0 then mret (Returned (-1))
      else if negb name_ok then mret (Exited 1)
      else
        r ← listen_loop (Datatypes.S (length buf)) buf trunc 0 status;
        match r with
        | inl e => mret e
        | inr status => if trunc then rtnl_listen buf rs'
                        else if negb (status =? 0) then mret (Exited 1) else rtnl_listen buf rs'
        end
  end.

(** [rtnl_dump_filter], with the callback for the messages of others. *)
Variable junk : option (list Z -> Z -> M S Z).
Fixpoint dump_loop (fuel : nat) (rth : rtnl_handle) (buf : list Z) (from h status : Z) : M S (ended + Z) :=
  match fuel with
  | O => fail OutOfFuel
  | Datatypes.S fuel' =>
      ok ← lift (NLMSG_OK buf h status);
      if negb ok then mret (inr status)
      else
        len ← lift (nlmsg_len buf h);
        let next := dump_loop fuel' rth buf from (h + NLMSG_ALIGN len) (less status (NLMSG_ALIGN len)) in
        pid ← lift (nlmsg_pid buf h);
        seq ← lift (nlmsg_seq buf h);
        ty ← lift (nlmsg_type buf h);
        if negb (from =? 0) || negb (pid =? local_pid rth) || negb (seq =? rth_dump rth) then
          match junk with
          | Some j => err ← j buf h; if err <? 0 then mret (inl (Returned err)) else next
          | None => next
          end
        else if ty =? NLMSG_DONE then mret (inl (Returned 0))
        else if ty =? NLMSG_ERROR then mret (inl (Returned (-1)))
        else
          err ← handler buf h;
          if err <? 0 then mret (inl (Returned err)) else next
  end.
Fixpoint rtnl_dump_filter (rth : rtnl_handle) (buf : list Z) (rs : list recv) : M S ended :=
  match rs with
  | [] => mret Waiting
  | RErr EAGAIN :: _ => mret (Returned 0)
  | RErr _ :: rs' => rtnl_dump_filter rth buf rs'
  | REof :: _ => mret (Returned (-1))
  | RMsg from _ trunc data :: rs' =>
      let buf := fill buf data in
      let status := zlen (take (length buf) data) in
      if status =? 0 then mret (Returned (-1))
      else
        r ← dump_loop (Datatypes.S (length buf)) rth buf from 0 status;
        match r with
        | inl e => mret e
        | inr status => if trunc then rtnl_dump_filter rth buf rs'
                        else if negb (status =? 0) then mret (Returned (-1)) else rtnl_dump_filter rth buf rs'
        end
  end.

(** [rtnl_from_file]: the bytes of a file; a [fread] that comes to the end takes
    what there is. *)
Fixpoint rtnl_from_file (fuel : nat) (buf : list Z) (file : list Z) : M S ended :=
  match fuel with
  | O => fail OutOfFuel
  | Datatypes.S fuel' =>
      let head := take 16 file in
      if zlen head =? 0 then mret (Returned 0)
      else
        let buf := head ++ drop (length head) buf in
        raw ← lift (nlmsg_len buf 0);
        let len := s32 raw in
        let l := s32 (u32 (len - nlmsghdr_size)) in
        if (l <? 0) || (len <? 0) || (len >? zlen buf) then mret (Returned (-1))
        else
          let body := take (Z.to_nat (NLMSG_ALIGN l)) (drop 16 file) in
          buf ← lift (wr_range buf 16 body);
          if zlen body <? l then mret (Returned (-1))
          else
            err ← handler buf 0;
            if err <? 0 then mret (Returned err) else rtnl_from_file fuel' buf (drop (length body) (drop 16 file))
  end.
End socket.

(** [rtnl_talk] without a callback for other messages: the request with its
    number, how it ends, and the answer when one is asked for. *)
Fixpoint talk_loop (fuel : nat) (rth : rtnl_handle) (peer : Z) (answer : bool) (buf : list Z) (from : Z) (trunc : bool)
    (h status : Z) : outcome (ended * option (list Z) + Z) :=
  match fuel with
  | O => Fault OutOfFuel
  | S fuel' =>
      if negb (at_least_header status) then Ok (inr status)
      else
        raw ← nlmsg_len buf h;
        let len := s32 raw in
        let l := s32 (u32 (len - nlmsghdr_size)) in
        if (l <? 0) || (len >? status) then Ok (inl (if trunc then Returned (-1) else Exited 1, None))
        else
          pid ← nlmsg_pid buf h;
          seq ← nlmsg_seq buf h;
          if negb (from =? peer) || negb (pid =? local_pid rth) || negb (seq =? rth_seq rth) then
            talk_loop fuel' rth peer answer buf from trunc h status
          else
            ty ← nlmsg_type buf h;
            if ty =? NLMSG_ERROR then
              if l <? nlmsgerr_size then Ok (inl (Returned (-1), None))
              else
                e ← rd_le 4 buf (h + nlmsghdr_size);
                if e =? 0 then
                  if answer then a ← rd_range buf h raw; Ok (inl (Returned 0, Some a)) else Ok (inl (Returned 0, None))
                else Ok (inl (Returned (-1), None))
            else if answer then a ← rd_range buf h raw; Ok (inl (Returned 0, Some a))
            else talk_loop fuel' rth peer answer buf from trunc (h + NLMSG_ALIGN len) (less status (NLMSG_ALIGN len))
  end.
Fixpoint talk_recv (fuel : nat) (rth : rtnl_handle) (peer : Z) (answer : bool) (buf : list Z) (rs : list recv)
    : outcome (ended * option (list Z)) :=
  match rs with
  | [] => Ok (Waiting, None)
  | RErr _ :: rs' => talk_recv fuel rth peer answer buf rs'
  | REof :: _ => Ok (Returned (-1), None)
  | RMsg from name_ok trunc data :: rs' =>
      if zlen (take (length buf) data) =? 0 then Ok (Returned (-1), None)
      else if negb name_ok then Ok (Exited 1, None)
      else
        let buf := fill buf data in
        r ← talk_loop fuel rth peer answer buf from trunc 0 (zlen (take (length buf) data));
        match r with
        | inl e => Ok e
        | inr status => if trunc then talk_recv fuel rth peer answer buf rs'
                        else if negb (status =? 0) then Ok (Exited 1, None) else talk_recv fuel rth peer answer buf rs'
        end
  end.
Definition rtnl_talk (fuel : nat) (rth : rtnl_handle) (n : list Z) (peer : Z) (answer : bool) (sent : bool) (rs : list recv)
    : outcome (rtnl_handle * list Z * (ended * option (list Z))) :=
  let rth := rth <| rth_seq := u32 (rth_seq rth + 1) |> in
  n ← wr_range n 8 (le 4 (rth_seq rth));
  flags ← nlmsg_flags n 0;
  n ← (if answer then Ok n else wr_range n 6 (le 2 (Z.lor flags NLM_F_ACK)));
  len ← nlmsg_len n 0;
  request ← rd_range n 0 len;
  if negb sent then Ok (rth, request, (Returned (-1), None))
  else r ← talk_recv fuel rth peer answer (zeros (Z.to_nat 16384)) rs; Ok (rth, request, r).

(** * Bytes in a buffer *)
Definition holds_at (m : list Z) (off : Z) (bs : list Z) : Prop :=
  0 <= off /\ off + zlen bs <= zlen m /\ take (length bs) (drop (Z.to_nat off) m) = bs.

Section holds_at.
Implicit Types (m bs cs : list Z) (off : Z).

Lemma at_read m off bs n : n = zlen bs -> holds_at m off bs -> rd_range m off n = Ok bs.
Proof.
  intros -> (Ho & Hl & E). unfold rd_range. pose proof (zlen_nonneg bs).
  rewrite (proj2 (Z.leb_le _ _)), (proj2 (Z.leb_le 0 (zlen bs))), (proj2 (Z.leb_le _ _)) by lia. cbn [andb].
  unfold zlen. by rewrite Nat2Z.id, E.
Qed.
Lemma at_split m off bs cs : holds_at m off (bs ++ cs) -> holds_at m off bs /\ holds_at m (off + zlen bs) cs.
Proof.
  intros (Ho & Hl & E). rewrite zlen_app in Hl. rewrite length_app in E. pose proof (zlen_nonneg bs). pose proof (zlen_nonneg cs).
  split; (split; [lia|]; split; [lia|]).
  - apply (f_equal (take (length bs))) in E. rewrite take_take, take_app_length in E. by rewrite Nat.min_l in E by lia.
  - replace (Z.to_nat (off + zlen bs)) with (Z.to_nat off + length bs)%nat by (unfold zlen in *; lia).
    rewrite <-drop_drop. apply (f_equal (drop (length bs))) in E. rewrite drop_app_length in E.
    by rewrite skipn_firstn_comm, Nat.add_comm, Nat.add_sub in E.
Qed.
Lemma at_join m off bs cs : holds_at m off bs -> holds_at m (off + zlen bs) cs -> holds_at m off (bs ++ cs).
Proof.
  intros (Ho & Hl & E) (Ho' & Hl' & E'). split; [done|]. rewrite zlen_app, length_app. split; [lia|].
  rewrite <-(take_drop (length bs) (drop (Z.to_nat off) m)), E, drop_drop.
  replace (Z.to_nat off + length bs)%nat with (Z.to_nat (off + zlen bs)) by (unfold zlen in *; lia).
  by rewrite take_app_add', E'.
Qed.
Lemma at_here p bs q : holds_at (p ++ bs ++ q) (zlen p) bs.
Proof.
  pose proof (zlen_nonneg p). pose proof (zlen_nonneg q). split; [lia|]. rewrite !zlen_app. split; [lia|].
  unfold zlen. rewrite Nat2Z.id, drop_app_length. apply take_app_length.
Qed.
Lemma rd_at m off b bs : holds_at m off (b :: bs) -> rd m off = Ok b /\ holds_at m (off + 1) bs.
Proof.
  intros Hm. change (b :: bs) with ([b] ++ bs) in Hm. apply at_split in Hm as [(Ho & Hl & E) Hm]. split; [|exact Hm].
  apply rd_ok; [done|]. cbn [length] in E. destruct (drop (Z.to_nat off) m) as [|x r] eqn:Ed; [done|]. injection E as ->.
  rewrite <-(Nat.add_0_r (Z.to_nat off)), <-lookup_drop. by rewrite Ed.
Qed.
Lemma at_written m off bs m' : wr_range m off bs = Ok m' -> holds_at m' off bs.
Proof.
  unfold wr_range. destruct (Z.leb_spec 0 off), (Z.leb_spec (off + zlen bs) (zlen m)); try done. cbn. intros [= <-].
  assert (zlen (take (Z.to_nat off) m) = off) as Ht by (unfold zlen in *; rewrite length_take; lia).
  pose proof (at_here (take (Z.to_nat off) m) bs (drop (Z.to_nat off + length bs) m)) as Hat. by rewrite Ht in Hat.
Qed.
(** What is read of a written buffer, elsewhere, is what was there. *)
Lemma at_elsewhere m off bs m' o cs : wr_range m off bs = Ok m' -> o + zlen cs <= off \/ off + zlen bs <= o ->
  holds_at m o cs -> holds_at m' o cs.
Proof.
  intros Hw Hd (Ho & Hl & E). pose proof (wr_range_length _ _ _ _ Hw) as Hlen. split; [done|]. split; [unfold zlen in *; lia|].
  rewrite <-E. unfold wr_range in Hw. destruct (Z.leb_spec 0 off), (Z.leb_spec (off + zlen bs) (zlen m)); try done.
  cbn in Hw. injection Hw as <-. unfold zlen in *. apply list_eq. intros i.
  destruct (decide (i < length cs)%nat); [|rewrite !lookup_take_ge by (rewrite ?length_take; lia); done].
  assert (length (take (length cs) (drop (Z.to_nat o) m)) = length cs) as Hl' by (rewrite length_take, length_drop; lia).
  rewrite Hl', !lookup_take_lt, !lookup_drop by lia. destruct Hd as [Hd|Hd].
  - rewrite lookup_app_l by (rewrite length_take; lia). by rewrite lookup_take_lt by lia.
  - rewrite lookup_app_r by (rewrite length_take; lia). rewrite length_take, Nat.min_l by lia.
    rewrite lookup_app_r by lia. rewrite lookup_drop. f_equal. lia.
Qed.
End holds_at.

Section le.
Lemma length_le n x : length (le n x) = n.
Proof. revert x. induction n as [|n IH]; intros x; [done|]. cbn. by rewrite IH. Qed.
Lemma zlen_le n x : zlen (le n x) = Z.of_nat n.
Proof. unfold zlen. by rewrite length_le. Qed.
Lemma le_value n : forall x, 0 <= x < 256 ^ Z.of_nat n -> le_val (le n x) = x.
Proof.
  induction n as [|n IH]; intros x Hx; [cbn in *; lia|]. cbn [le le_val foldr]. fold (le_val (le n (x / 256))).
  rewrite Nat2Z.inj_succ, Z.pow_succ_r in Hx by lia.
  rewrite IH by (split; [apply Z.div_pos; lia|apply Z.div_lt_upper_bound; lia]). unfold u8. pose proof (Z.div_mod x 256). lia.
Qed.
Lemma at_le n m off x : 0 <= x < 256 ^ Z.of_nat n -> holds_at m off (le n x) -> rd_le n m off = Ok x.
Proof. intros Hx Hm. unfold rd_le. rewrite (at_read _ _ (le n x)) by (done || by rewrite zlen_le). cbn. by rewrite le_value. Qed.

(** [NLMSG_ALIGN] is the next multiple of 4. *)
Lemma align_spec x : 0 <= x < 4294967292 -> NLMSG_ALIGN x = 4 * ((x + 3) / 4).
Proof.
  intros Hx. unfold NLMSG_ALIGN. rewrite u32_small by lia. change 4294967292 with (Z.ldiff (Z.ones 32) (Z.ones 2)).
  rewrite Z.ldiff_land, Z.land_assoc, <-Z.ldiff_land, Z.land_ones by lia. rewrite Z.mod_small by (change (2 ^ 32) with 4294967296; lia).
  rewrite Z.ldiff_ones_r by lia. rewrite Z.shiftr_div_pow2, Z.shiftl_mul_pow2 by lia. change (2 ^ 2) with 4. lia.
Qed.
Lemma align_multiple x : 0 <= x < 4294967292 -> x mod 4 = 0 -> NLMSG_ALIGN x = x.
Proof. intros Hx Hm. rewrite align_spec by done. Z.to_euclidean_division_equations; lia. Qed.
Lemma align_bounds x : 0 <= x < 4294967292 -> x <= NLMSG_ALIGN x < x + 4 /\ NLMSG_ALIGN x mod 4 = 0.
Proof. intros Hx. rewrite align_spec by done. Z.to_euclidean_division_equations; lia. Qed.
Lemma less_small len by_ : -2147483648 <= len - by_ < 2147483648 -> less len by_ = len - by_.
Proof. intros. unfold less. by rewrite s32_u32. Qed.
End le.

(** * What is sent and received

    Attributes and messages as they are encoded; a message has a length that is
    a multiple of 4, as the kernel's have. *)
Definition attr : Type := Z * list Z.
Definition attr_enc (a : attr) : list Z :=
  let len := RTA_LENGTH (zlen a.2) in
  le 2 len ++ le 2 a.1 ++ a.2 ++ zeros (Z.to_nat (RTA_ALIGN len - len)).
Definition attrs_enc (l : list attr) : list Z := concat (attr_enc <$> l).
Definition attr_ok (a : attr) : Prop := 0 <= a.1 < 65536 /\ zlen a.2 <= 65531.
(** The last of a type. *)
Fixpoint find_attr (ty : Z) (l : list attr) : option (list Z) :=
  match l with
  | [] => None
  | a :: l' => match find_attr ty l' with Some d => Some d | None => if a.1 =? ty then Some a.2 else None end
  end.

Record message := mk_message { msg_type : Z; msg_flags : Z; msg_seq : Z; msg_pid : Z; msg_body : list Z }.
Definition message_enc (g : message) : list Z :=
  header_bytes (NLMSG_LENGTH (zlen (msg_body g))) (msg_type g) (msg_flags g) (msg_seq g) (msg_pid g) ++ msg_body g.
Definition word_ok (n : nat) (x : Z) : Prop := 0 <= x < 256 ^ Z.of_nat n.
Definition message_ok (g : message) : Prop :=
  word_ok 2 (msg_type g) /\ word_ok 2 (msg_flags g) /\ word_ok 4 (msg_seq g) /\ word_ok 4 (msg_pid g) /\
  zlen (msg_body g) mod 4 = 0.

Section attributes.
Implicit Types (m : list Z) (a : attr) (l : list attr).

Lemma attr_enc_len a : attr_ok a -> zlen (attr_enc a) = RTA_ALIGN (RTA_LENGTH (zlen a.2)) /\
  4 <= zlen (attr_enc a) < 65540 /\ RTA_LENGTH (zlen a.2) <= zlen (attr_enc a) /\ zlen (attr_enc a) mod 4 = 0.
Proof.
  intros [_ Hl]. pose proof (zlen_nonneg a.2). unfold attr_enc, RTA_LENGTH, RTA_ALIGN in *.
  destruct (align_bounds (4 + zlen a.2)) as [? ?]; [lia|]. rewrite !zlen_app, !zlen_le, zlen_zeros.
  set (len := NLMSG_ALIGN (4 + zlen a.2)) in *. replace (_ + _) with len by lia. lia.
Qed.
Lemma attr_at m off a : attr_ok a -> holds_at m off (attr_enc a) ->
  rta_len m off = Ok (RTA_LENGTH (zlen a.2)) /\ rta_type m off = Ok a.1 /\ rd_range m (off + 4) (zlen a.2) = Ok a.2.
Proof.
  intros [Ht Hl] Hm. pose proof (zlen_nonneg a.2). unfold attr_enc in Hm.
  apply at_split in Hm as [H1 Hm]. apply at_split in Hm as [H2 Hm]. apply at_split in Hm as [H3 _].
  rewrite !zlen_le in H2, H3. split; [|split].
  - apply at_le; [unfold RTA_LENGTH; lia|done].
  - by apply at_le.
  - apply at_read; [done|]. by replace (off + 4) with (off + Z.of_nat 2 + Z.of_nat 2) by lia.
Qed.

(** Where [parse_rtattr] leaves its pointers. *)
Fixpoint entries (max rta : Z) (l : list attr) (tb : list (option Z)) : list (option Z) :=
  match l with
  | [] => tb
  | a :: l' => entries max (rta + zlen (attr_enc a)) l' (if a.1 <=? max then <[Z.to_nat a.1 := Some rta]> tb else tb)
  end.
Lemma attrs_enc_cons a l : attrs_enc (a :: l) = attr_enc a ++ attrs_enc l.
Proof. done. Qed.
Lemma RTA_OK_attr m rta a rest : attr_ok a -> holds_at m rta (attr_enc a) -> 0 <= rest ->
  RTA_OK m rta (zlen (attr_enc a) + rest) = Ok true.
Proof.
  intros Ha Hm Hr. destruct (attr_enc_len a Ha) as (_ & Hb & Hle & _). destruct (attr_at m rta a Ha Hm) as (El & _).
  unfold RTA_OK, rtattr_size. pose proof (zlen_nonneg a.2). unfold RTA_LENGTH in *.
  replace (_ >=? 4) with true by lia. rewrite El. cbn [mbind outcome_bind]. f_equal. lia.
Qed.
Lemma rtattr_loop_run m max l : forall fuel rta tb, holds_at m rta (attrs_enc l) -> Forall attr_ok l ->
  zlen (attrs_enc l) < 2147483648 -> (length l < fuel)%nat ->
  rtattr_loop fuel m max rta (zlen (attrs_enc l)) tb = Ok (entries max rta l tb, rta + zlen (attrs_enc l), 0).
Proof.
  induction l as [|a l IH]; intros [|fuel] rta tb Hm Hl Hs Hf; try (cbn in Hf; lia); cbn [rtattr_loop].
  - unfold RTA_OK. change (zlen (attrs_enc [])) with 0. cbn. do 2 f_equal. by rewrite Z.add_0_r.
  - apply Forall_cons in Hl as [Ha Hl]. rewrite attrs_enc_cons in Hm, Hs |- *. rewrite zlen_app in Hs |- *.
    apply at_split in Hm as [H1 H2].
    pose proof (zlen_nonneg (attrs_enc l)). destruct (attr_enc_len a Ha) as (Hlen & Hb & _).
    destruct (attr_at m rta a Ha H1) as (El & Et & _). rewrite (RTA_OK_attr m rta a) by done.
    cbn [mbind outcome_bind]. rewrite Et, El. cbn [mbind outcome_bind]. rewrite <-Hlen, less_small by lia.
    replace (zlen (attr_enc a) + zlen (attrs_enc l) - zlen (attr_enc a)) with (zlen (attrs_enc l)) by lia.
    rewrite IH by (done || cbn in Hf; lia). cbn [entries]. do 3 f_equal. lia.
Qed.
Lemma attrs_count l : Forall attr_ok l -> Z.of_nat (length l) <= zlen (attrs_enc l).
Proof.
  induction 1 as [|a l Ha _ IH]; [done|]. rewrite attrs_enc_cons, zlen_app. destruct (attr_enc_len a Ha) as (_ & ? & _).
  cbn [length]. lia.
Qed.

(** A table that points to the attribute [f] gives for each type. *)
Definition points (m : list Z) (max : Z) (tb : list (option Z)) (f : Z -> option (list Z)) : Prop :=
  forall ty, 0 <= ty <= max ->
    match tb !! Z.to_nat ty with
    | Some (Some off) => exists d, f ty = Some d /\ attr_ok (ty, d) /\ holds_at m off (attr_enc (ty, d))
    | Some None => f ty = None
    | None => False
    end.
Lemma entries_points m max l : forall rta tb f, points m max tb f -> holds_at m rta (attrs_enc l) -> Forall attr_ok l ->
  points m max (entries max rta l tb) (fun ty => match find_attr ty l with Some d => Some d | None => f ty end).
Proof.
  induction l as [|a l IH]; intros rta tb f Hp Hm Hl; [exact Hp|]. apply Forall_cons in Hl as [Ha Hl].
  rewrite attrs_enc_cons in Hm. apply at_split in Hm as [H1 H2]. cbn [entries].
  set (tb' := if a.1 <=? max then _ else tb).
  assert (points m max tb' (fun ty => if a.1 =? ty then Some a.2 else f ty)) as Hp'.
  { intros ty Hty. pose proof (Hp ty Hty) as Hold. destruct Ha as [Hat Hal]. unfold tb'.
    destruct (Z.leb_spec a.1 max); cycle 1; [rewrite (proj2 (Z.eqb_neq a.1 ty)) by lia; exact Hold|].
    destruct (Z.eqb_spec a.1 ty) as [<-|Hne].
    - rewrite list_lookup_insert_eq; [exists a.2; by destruct a|].
      apply lookup_lt_is_Some_1. destruct (tb !! _); [by eexists|done].
    - by rewrite list_lookup_insert_ne by lia. }
  intros ty Hty. pose proof (IH _ _ _ Hp' H2 Hl ty Hty) as HI. cbn [find_attr].
  cbv beta in HI. destruct (find_attr ty l); [exact HI|]. destruct (a.1 =? ty); exact HI.
Qed.
Lemma points_data m max tb f ty : 0 <= ty <= max -> points m max tb f -> rta_data m tb ty = Ok (f ty).
Proof.
  intros Hty Hp. specialize (Hp ty Hty). unfold rta_data. destruct (tb !! _) as [[off|]|]; [|by rewrite Hp|done].
  destruct Hp as (d & -> & Ha & Hm). destruct (attr_at m off (ty, d) Ha Hm) as (El & _ & Ed). cbn [fst snd] in *.
  rewrite El. cbn [mbind outcome_bind]. unfold RTA_LENGTH. replace (4 + zlen d - 4) with (zlen d) by lia. by rewrite Ed.
Qed.

Lemma parse_rtattr_points m max off l : 0 <= max -> holds_at m off (attrs_enc l) -> Forall attr_ok l ->
  zlen (attrs_enc l) < 2147483648 ->
  exists tb, parse_rtattr m max off (zlen (attrs_enc l)) = Ok tb /\ points m max tb (fun ty => find_attr ty l).
Proof.
  intros Hmax Hm Hl Hs. pose proof (attrs_count l Hl). pose proof (zlen_nonneg (attrs_enc l)).
  exists (entries max off l (replicate (Z.to_nat (max + 1)) None)). split.
  - unfold parse_rtattr. by rewrite rtattr_loop_run by (done || lia).
  - assert (points m max (replicate (Z.to_nat (max + 1)) None) (fun _ => None)) as H0'
      by (intros x Hx; by rewrite lookup_replicate_2 by lia).
    intros ty Hty. pose proof (entries_points m max l off _ _ H0' Hm Hl ty Hty) as Hp. cbv beta in Hp.
    by destruct (find_attr ty l).
Qed.

(** C39: [parse_rtattr] reads back what was encoded: over any sequence of
    attributes in a buffer, for every type the table has room for, it points to
    the last attribute of the type, whole, and to none when there is none; it
    ends without reading outside the sequence. *)
Theorem parse_rtattr_last m max off l : 0 <= max -> holds_at m off (attrs_enc l) -> Forall attr_ok l ->
  zlen (attrs_enc l) < 2147483648 ->
  exists tb, parse_rtattr m max off (zlen (attrs_enc l)) = Ok tb /\
    forall ty, 0 <= ty <= max -> rta_data m tb ty = Ok (find_attr ty l).
Proof.
  intros Hmax Hm Hl Hs. destruct (parse_rtattr_points m max off l Hmax Hm Hl Hs) as (tb & E & Hp).
  exists tb. split; [done|]. intros ty Hty. exact (points_data m max tb (fun ty => find_attr ty l) ty Hty Hp).
Qed.
End attributes.

(** * Attributes that are appended *)
Section appending.
Implicit Types (m p q b d : list Z) (a : attr).

Lemma wr_mid p x y q : length x = length y -> wr_range (p ++ x ++ q) (zlen p) y = Ok (p ++ y ++ q).
Proof.
  intros Hl. unfold wr_range. pose proof (zlen_nonneg p). pose proof (zlen_nonneg q). rewrite !zlen_app.
  rewrite (proj2 (Z.leb_le _ _)), (proj2 (Z.leb_le _ _)) by (unfold zlen in *; lia). cbn [andb]. unfold zlen.
  by rewrite Nat2Z.id, take_app_length, <-Hl, <-drop_drop, !drop_app_length.
Qed.
Lemma zeros_add i j : zeros (i + j) = zeros i ++ zeros j.
Proof. apply replicate_add. Qed.

(** The attribute takes the place of the zeros behind the message. *)
Lemma put_rtattr_run p k a : attr_ok a -> RTA_LENGTH (zlen a.2) <= Z.of_nat k ->
  zlen (attr_enc a) <= Z.of_nat k ->
  put_rtattr (p ++ zeros k) (zlen p) a.1 (RTA_LENGTH (zlen a.2)) a.2 =
    Ok (p ++ attr_enc a ++ zeros (k - length (attr_enc a))).
Proof.
  intros Ha Hk Hk'. destruct (attr_enc_len a Ha) as (Hlen & Hb & Hle & _). unfold put_rtattr, RTA_LENGTH in *.
  pose proof (zlen_nonneg a.2). set (n := length a.2). set (r := (k - 4 - n)%nat).
  assert (zeros k = zeros 2 ++ zeros 2 ++ zeros n ++ zeros r) as ->
    by (rewrite <-!zeros_add; f_equal; unfold zlen in *; subst n r; lia).
  replace (zlen p + 2) with (zlen (p ++ zeros 2)) by (rewrite zlen_app; done).
  rewrite app_assoc, wr_mid by (by rewrite length_le). cbn [mbind outcome_bind]. rewrite <-app_assoc.
  rewrite wr_mid by (by rewrite length_le). cbn [mbind outcome_bind].
  replace (zlen p + 4) with (zlen (p ++ le 2 (4 + zlen a.2) ++ le 2 a.1)) by (rewrite !zlen_app, !zlen_le; lia).
  replace (p ++ le 2 (4 + zlen a.2) ++ le 2 a.1 ++ zeros n ++ zeros r)
    with ((p ++ le 2 (4 + zlen a.2) ++ le 2 a.1) ++ zeros n ++ zeros r) by (by rewrite <-!app_assoc).
  rewrite wr_mid by (by rewrite length_zeros). f_equal.
  assert (length (attr_enc a) = Z.to_nat (RTA_ALIGN (4 + zlen a.2))) as -> by (unfold zlen in Hlen at 1; lia).
  unfold attr_enc, RTA_LENGTH. rewrite <-!app_assoc. do 4 f_equal. rewrite <-zeros_add. f_equal.
  assert (Z.of_nat n = zlen a.2) by done. subst r. lia.
Qed.

(** A message that is being built: what follows its length, and zeros. *)
Definition built (b : list Z) (k : nat) : list Z := le 4 (4 + zlen b) ++ b ++ zeros k.
Lemma built_tail b k : 4 + zlen b < 4294967292 -> (4 + zlen b) mod 4 = 0 -> nlmsg_tail (built b k) = Ok (4 + zlen b).
Proof.
  intros Hb Hm. pose proof (zlen_nonneg b). unfold nlmsg_tail, nlmsg_len. rewrite (at_le 4 _ 0 (4 + zlen b)).
  - cbn [mbind outcome_bind]. by rewrite align_multiple by lia.
  - lia.
  - apply (at_here []).
Qed.
Lemma addattr_l_run b k maxlen a : attr_ok a -> (4 + zlen b) mod 4 = 0 -> 0 <= maxlen < 2147483648 ->
  4 + zlen b + zlen (attr_enc a) <= maxlen -> zlen (attr_enc a) <= Z.of_nat k ->
  addattr_l (built b k) maxlen a.1 a.2 = Ok (0, built (b ++ attr_enc a) (k - length (attr_enc a))).
Proof.
  intros Ha Hm Hmax Hfit Hk. destruct (attr_enc_len a Ha) as (Hlen & Hb & Hle & _). pose proof (zlen_nonneg b).
  unfold addattr_l. rewrite built_tail by lia. cbn [mbind outcome_bind]. rewrite <-Hlen, !u32_small by lia.
  rewrite gtb_false by lia. unfold built.
  rewrite (app_assoc (le 4 _) b). replace (4 + zlen b) with (zlen (le 4 (4 + zlen b) ++ b)) at 2 by (rewrite zlen_app, zlen_le; lia).
  rewrite put_rtattr_run by (done || lia). cbn [mbind outcome_bind].
  rewrite <-!app_assoc. pose proof (wr_mid [] (le 4 (4 + zlen b)) (le 4 (4 + zlen b + zlen (attr_enc a)))
    (b ++ attr_enc a ++ zeros (k - length (attr_enc a)))) as Hw. cbn [app] in Hw. change (zlen (@nil Z)) with 0 in Hw.
  rewrite Hw by (by rewrite !length_le). cbn [mbind outcome_bind]. by rewrite zlen_app, Z.add_assoc.
Qed.
(** What does not fit is refused, and nothing is changed. *)
Lemma addattr_l_full b k maxlen type d : 4 + zlen b < 2147483648 -> (4 + zlen b) mod 4 = 0 -> zlen d < 1073741824 ->
  0 <= maxlen < 4 + zlen b + RTA_ALIGN (RTA_LENGTH (zlen d)) -> addattr_l (built b k) maxlen type d = Ok (-1, built b k).
Proof.
  intros Hb Hm Hd Hmax. pose proof (zlen_nonneg b). pose proof (zlen_nonneg d). unfold addattr_l.
  rewrite built_tail by lia. cbn [mbind outcome_bind]. unfold RTA_LENGTH, RTA_ALIGN in *.
  destruct (align_bounds (4 + zlen d)) as [? _]; [lia|]. rewrite !u32_small by lia.
  by rewrite gtb_true by lia.
Qed.

(** A nested attribute, from [addattr_nest] to [addattr_nest_end]. *)
Lemma addattr_nest_run b k maxlen type : 0 <= type < 65536 -> (4 + zlen b) mod 4 = 0 -> 0 <= maxlen < 2147483648 ->
  8 + zlen b <= maxlen -> (4 <= k)%nat ->
  addattr_nest (built b k) maxlen type = Ok (4 + zlen b, built (b ++ attr_enc (type, [])) (k - 4)).
Proof.
  intros Ht Hm Hmax Hfit Hk. pose proof (zlen_nonneg b). unfold addattr_nest. rewrite built_tail by lia.
  cbn [mbind outcome_bind]. pose proof (addattr_l_run b k maxlen (type, [])) as Hrun. cbn [fst snd] in Hrun.
  assert (zlen (attr_enc (type, [])) = 4) as H4 by done.
  rewrite Hrun; [done|by split|done|done|rewrite H4; lia|rewrite H4; lia].
Qed.
Lemma addattr_nest_end_run b k type d : 0 <= type < 65536 -> (4 + zlen b) mod 4 = 0 -> zlen d mod 4 = 0 ->
  zlen d <= 65531 -> 8 + zlen b + zlen d < 2147483648 ->
  addattr_nest_end (built ((b ++ attr_enc (type, [])) ++ d) k) (4 + zlen b) =
    Ok (8 + zlen b + zlen d, built (b ++ attr_enc (type, d)) k).
Proof.
  intros Ht Hm Hd Hl Hs. pose proof (zlen_nonneg b). pose proof (zlen_nonneg d).
  set (b' := (b ++ attr_enc (type, [])) ++ d).
  assert (zlen b' = 4 + zlen b + zlen d) as Hb' by (subst b'; rewrite !zlen_app; change (zlen (attr_enc (type, []))) with 4; lia).
  unfold addattr_nest_end. rewrite built_tail by (rewrite Hb'; Z.to_euclidean_division_equations; lia).
  cbn [mbind outcome_bind]. rewrite Hb'. replace (4 + (4 + zlen b + zlen d) - (4 + zlen b)) with (RTA_LENGTH (zlen d)) by (unfold RTA_LENGTH; lia).
  assert (attr_enc (type, d) = le 2 (RTA_LENGTH (zlen d)) ++ le 2 type ++ d) as He.
  { unfold attr_enc. cbn [fst snd]. unfold RTA_LENGTH, RTA_ALIGN.
    rewrite align_multiple, Z.sub_diag, app_nil_r by (Z.to_euclidean_division_equations; lia). done. }
  assert (built b' k = (le 4 (4 + zlen b') ++ b) ++ le 2 4 ++ (le 2 type ++ d ++ zeros k)) as ->
    by (unfold built, b', attr_enc; cbn [fst snd zeros replicate]; by rewrite <-!app_assoc).
  replace (4 + zlen b) with (zlen (le 4 (4 + zlen b') ++ b)) at 1 by (rewrite zlen_app, zlen_le; lia).
  rewrite wr_mid by (by rewrite !length_le). cbn [mbind outcome_bind].
  unfold nlmsg_len. rewrite (at_le 4 _ 0 (4 + zlen b')); [|lia|rewrite <-app_assoc; apply (at_here [])].
  cbn [mbind outcome_bind]. rewrite Hb'. do 2 f_equal; [lia|]. unfold built. rewrite He, !zlen_app, !zlen_le.
  rewrite <-!app_assoc. do 2 f_equal. lia.
Qed.
End appending.

(** * Messages that arrive *)
Definition messages_enc (gs : list message) : list Z := concat (message_enc <$> gs).

Section messages.
Implicit Types (m buf : list Z) (g : message) (gs : list message).

Lemma message_enc_len g : zlen (message_enc g) = 16 + zlen (msg_body g).
Proof. unfold message_enc, header_bytes. rewrite !zlen_app, !zlen_le. lia. Qed.
Lemma messages_enc_cons g gs : messages_enc (g :: gs) = message_enc g ++ messages_enc gs.
Proof. done. Qed.
Lemma messages_count gs : 16 * Z.of_nat (length gs) <= zlen (messages_enc gs).
Proof.
  induction gs as [|g gs IH]; [done|]. rewrite messages_enc_cons, zlen_app, message_enc_len. pose proof (zlen_nonneg (msg_body g)).
  cbn [length]. lia.
Qed.
(** The fields of the header, whatever the length says of the body. *)
Lemma header_at m h len type flags seq pid : word_ok 4 len -> word_ok 2 type -> word_ok 2 flags -> word_ok 4 seq ->
  word_ok 4 pid -> holds_at m h (header_bytes len type flags seq pid) ->
  nlmsg_len m h = Ok len /\ nlmsg_type m h = Ok type /\ nlmsg_seq m h = Ok seq /\ nlmsg_pid m h = Ok pid.
Proof.
  intros Hl Ht Hf Hs Hp Hm. unfold header_bytes in Hm. apply at_split in Hm as [H1 Hm]. apply at_split in Hm as [H2 Hm].
  apply at_split in Hm as [H3 Hm]. apply at_split in Hm as [H4 H5]. rewrite !zlen_le in *.
  split; [by apply at_le|]. split; [by apply at_le|]. split; apply at_le; try done.
  - by replace (h + 8) with (h + Z.of_nat 4 + Z.of_nat 2 + Z.of_nat 2) by lia.
  - by replace (h + 12) with (h + Z.of_nat 4 + Z.of_nat 2 + Z.of_nat 2 + Z.of_nat 4) by lia.
Qed.
Lemma message_at m h g : message_ok g -> zlen (message_enc g) < 2147483648 -> holds_at m h (message_enc g) ->
  nlmsg_len m h = Ok (zlen (message_enc g)) /\ nlmsg_type m h = Ok (msg_type g) /\ nlmsg_seq m h = Ok (msg_seq g) /\
  nlmsg_pid m h = Ok (msg_pid g) /\ rd_range m (h + 16) (zlen (msg_body g)) = Ok (msg_body g).
Proof.
  intros (Ht & Hf & Hs & Hp & _) Hl Hm. rewrite message_enc_len in *. pose proof (zlen_nonneg (msg_body g)).
  unfold message_enc in Hm. apply at_split in Hm as [H1 H2].
  apply header_at in H1 as (-> & -> & -> & ->); try done; [|unfold NLMSG_LENGTH, word_ok; cbn; lia].
  split; [unfold NLMSG_LENGTH; f_equal; lia|]. split; [done|]. split; [done|]. split; [done|].
  apply at_read; [done|]. unfold header_bytes in H2. rewrite !zlen_app, !zlen_le in H2.
  by replace (h + 16) with (h + (Z.of_nat 4 + (Z.of_nat 2 + (Z.of_nat 2 + (Z.of_nat 4 + Z.of_nat 4))))) by lia.
Qed.
Lemma message_align g : message_ok g -> zlen (message_enc g) < 2147483648 ->
  NLMSG_ALIGN (zlen (message_enc g)) = zlen (message_enc g).
Proof.
  intros (_ & _ & _ & _ & Hm) Hl. pose proof (zlen_nonneg (msg_body g)). rewrite message_enc_len in *.
  apply align_multiple; [lia|]. Z.to_euclidean_division_equations; lia.
Qed.
Lemma fill_at buf bs : (length bs <= length buf)%nat -> holds_at (fill buf bs) 0 bs /\ length (fill buf bs) = length buf /\
  zlen (take (length (fill buf bs)) bs) = zlen bs.
Proof.
  intros Hl. unfold fill. rewrite take_ge by done. split; [apply (at_here [])|].
  assert (length (bs ++ drop (length bs) buf) = length buf) as Hl' by (rewrite length_app, length_drop; lia).
  split; [done|]. by rewrite Hl', take_ge.
Qed.
Lemma messages_small size gs : (length (messages_enc gs) <= size)%nat -> Z.of_nat size < 1073741824 ->
  Forall (fun g => zlen (message_enc g) < 2147483648) gs.
Proof.
  intros Hl Hs. induction gs as [|g gs IH]; [constructor|]. rewrite messages_enc_cons, length_app in Hl.
  constructor; [unfold zlen; lia|apply IH; lia].
Qed.
End messages.

(** What the socket gives to a buffer of [size] bytes, until there is nothing
    more: datagrams of whole messages, and errors the code tries again after. *)
Inductive arrived (size : nat) : list recv -> list (Z * list message) -> Prop :=
| arrived_again rs : arrived size (RErr EAGAIN :: rs) []
| arrived_error e rs ds : e <> EAGAIN -> arrived size rs ds -> arrived size (RErr e :: rs) ds
| arrived_more from gs rs ds : gs <> [] -> Forall message_ok gs -> (length (messages_enc gs) <= size)%nat ->
    arrived size rs ds -> arrived size (RMsg from true false (messages_enc gs) :: rs) ((from, gs) :: ds).

Section delivery.
Context {St : Type}.
Variable size : nat.
Variable handler : list Z -> Z -> M St Z.
(** What the callback does, and the messages it does it for. *)
Variable good : message -> Prop.
Variable sem : message -> M St unit.
Hypothesis small : Z.of_nat size < 1073741824.
Hypothesis handles : forall buf h g s, length buf = size -> message_ok g -> good g -> zlen (message_enc g) < 2147483648 ->
  holds_at buf h (message_enc g) -> handler buf h s = (sem g ;; mret 0) s.

Lemma for_each_app_then {A} gs gs' (k : M St A) s : (for_each (gs ++ gs') sem ;; k) s = (for_each gs sem ;; (for_each gs' sem ;; k)) s.
Proof.
  revert s. induction gs as [|g gs IH]; intros s; [done|]. cbn [app for_each]. rewrite !bind_then. by apply then_cong.
Qed.

(** The messages in front of what is left of a datagram. *)
Lemma listen_loop_more buf trunc rest gs : forall fuel h s, length buf = size -> holds_at buf h (messages_enc gs) ->
  Forall message_ok gs -> Forall good gs -> 0 <= rest -> h + zlen (messages_enc gs) + rest <= Z.of_nat size ->
  listen_loop handler (length gs + fuel) buf trunc h (zlen (messages_enc gs) + rest) s =
    (for_each gs sem ;; listen_loop handler fuel buf trunc (h + zlen (messages_enc gs)) rest) s.
Proof.
  induction gs as [|g gs IH]; intros fuel h s Hb Hm Hok Hg Hr Hsz.
  { cbn [length Nat.add for_each]. change (zlen (messages_enc [])) with 0. by rewrite Z.add_0_r, Z.add_0_l. }
  apply Forall_cons in Hok as [Hok Hoks]. apply Forall_cons in Hg as [Hg Hgs].
  pose proof Hm as (Hh & _ & _). rewrite messages_enc_cons in Hm, Hsz |- *. rewrite zlen_app in Hsz |- *.
  pose proof (zlen_nonneg (messages_enc gs)). pose proof (message_enc_len g) as Hlen. pose proof (zlen_nonneg (msg_body g)).
  assert (zlen (message_enc g) < 2147483648) as Hs by lia.
  apply at_split in Hm as [H1 H2]. destruct (message_at buf h g Hok Hs H1) as (El & _). cbn [length Nat.add listen_loop].
  unfold at_least_header, nlmsghdr_size. replace (_ <? 0) with false by lia. replace (_ >=? 16) with true by lia. cbn [orb negb].
  rewrite (bind_ok _ _ s (zlen (message_enc g)) s) by (unfold lift; by rewrite El). cbv zeta.
  rewrite (s32_small (zlen _)), s32_u32 by lia.
  replace (_ <? 0) with false by lia. replace (_ >? _) with false by lia. cbn [orb].
  rewrite (bind_out_cong _ _ _ _ (handles buf h g s Hb Hok Hg Hs H1)), then_assoc. change (0 <? 0) with false. cbv iota.
  cbn [for_each]. rewrite bind_then. apply then_cong. intros s'. rewrite message_align, less_small by (done || lia).
  replace (_ + _ + _ - _) with (zlen (messages_enc gs) + rest) by lia. rewrite IH by (done || lia).
  by replace (h + zlen (message_enc g) + zlen (messages_enc gs)) with (h + (zlen (message_enc g) + zlen (messages_enc gs))) by lia.
Qed.
Lemma listen_run rs ds : arrived size rs ds -> Forall good (concat ds.*2) ->
  forall buf s, length buf = size -> rtnl_listen handler buf rs s = (for_each (concat ds.*2) sem ;; mret (Returned 0)) s.
Proof.
  induction 1 as [rs|e rs ds He _ IH|from gs rs ds Hne Hok Hsz _ IH]; intros Hg buf s Hb; [done| |].
  - destruct e; [by apply IH|done|by apply IH].
  - cbn [fmap list_fmap concat snd] in *. apply Forall_app in Hg as [Hg Hgs]. cbn [rtnl_listen].
    cbv zeta. destruct (fill_at buf (messages_enc gs)) as (Hm & Hl & ->); [lia|]. pose proof (messages_count gs).
    assert (0 < Z.of_nat (length gs)) by (destruct gs; [done|cbn; lia]).
    replace (_ =? 0) with false by lia. cbn [negb].
    assert (Datatypes.S (length (fill buf (messages_enc gs))) = length gs + Datatypes.S (size - length gs))%nat as ->
      by (rewrite Hl; unfold zlen in *; lia).
    pose proof (listen_loop_more _ false 0 gs (Datatypes.S (size - length gs)) 0 s (eq_trans Hl Hb) Hm Hok Hg) as Hrun.
    replace (zlen (messages_enc gs) + 0) with (zlen (messages_enc gs)) in Hrun by lia. rewrite (bind_out_cong _ (for_each gs sem ;; mret (inr 0)) _ s) by (apply Hrun; unfold zlen; lia).
    rewrite then_assoc, for_each_app_then. apply then_cong. intros s'. change (negb (0 =? 0)) with false. cbv iota.
    apply IH; [done|lia].
Qed.

(** [rtnl_listen] hands every message of every datagram to its callback, in the
    order in which they arrive, whatever the buffer held, tries again after an
    error, and returns 0 when there is nothing more. *)
Lemma listen_delivers rs ds : arrived size rs ds -> Forall good (concat ds.*2) ->
  forall buf s, length buf = size -> rtnl_listen handler buf rs s = (for_each (concat ds.*2) sem ;; mret (Returned 0)) s.
Proof. apply listen_run. Qed.
(** ** A message whose length is no multiple of 4 *)
Definition ragged (g : message) : Prop :=
  word_ok 2 (msg_type g) /\ word_ok 2 (msg_flags g) /\ word_ok 4 (msg_seq g) /\ word_ok 4 (msg_pid g) /\
  zlen (msg_body g) mod 4 <> 0.

(** The last message, and the test behind it. *)
Lemma ragged_step buf g raw fuel h s : length buf = size -> ragged g -> holds_at buf h (message_enc g) ->
  (forall s', handler buf h s' = (sem g ;; mret 0) s') ->
  nlmsg_len buf (h + NLMSG_ALIGN (zlen (message_enc g))) = Ok raw -> -2147483632 <= s32 raw ->
  listen_loop handler (Datatypes.S (Datatypes.S fuel)) buf false h (zlen (message_enc g)) s = (sem g ;; mret (inl (Exited 1))) s.
Proof.
  intros Hb (Ht & Hfl & Hsq & Hp & Hrag) Hm Hlast Hraw Hhigh. pose proof (message_enc_len g) as Hlen.
  pose proof (zlen_nonneg (msg_body g)). pose proof Hm as (Hh & Hle & _).
  assert (zlen buf = Z.of_nat size) as Hz by (unfold zlen; by rewrite Hb). rewrite Hz in Hle.
  assert (nlmsg_len buf h = Ok (zlen (message_enc g))) as El.
  { unfold message_enc in Hm. apply at_split in Hm as [H1 _].
    apply header_at in H1 as (E & _); [|unfold NLMSG_LENGTH, word_ok; cbn; lia|done..].
    rewrite E. unfold NLMSG_LENGTH. f_equal. lia. }
  destruct (align_bounds (zlen (message_enc g))) as [Hal Hmod]; [lia|].
  assert (zlen (message_enc g) < NLMSG_ALIGN (zlen (message_enc g))).
  { rewrite Hlen in *. revert Hmod Hal Hrag. generalize (NLMSG_ALIGN (16 + zlen (msg_body g))).
    intros. Z.to_euclidean_division_equations; lia. }
  cbn [listen_loop]. unfold at_least_header, nlmsghdr_size. replace (_ <? 0) with false by lia.
  replace (_ >=? 16) with true by lia. cbn [orb negb].
  rewrite (bind_ok _ _ s (zlen (message_enc g)) s) by (unfold lift; by rewrite El). cbv zeta.
  rewrite (s32_small (zlen _)), s32_u32 by lia.
  replace (_ <? 0) with false by lia. replace (_ >? _) with false by lia. cbn [orb].
  rewrite (bind_out_cong _ _ _ _ (Hlast s)), then_assoc. change (0 <? 0) with false. cbv iota. apply then_cong. intros s'.
  rewrite less_small by lia. replace (_ <? 0) with true by lia. cbn [orb negb].
  rewrite (bind_ok _ _ s' raw s') by (unfold lift; by rewrite Hraw). cbv zeta.
  assert (-2147483648 <= s32 raw < 2147483648) by word_lia. rewrite s32_u32 by lia.
  replace (_ || _) with true; [done|]. symmetry. destruct (Z.ltb_spec (s32 raw - 16) 0); [done|]. cbn [orb]. lia.
Qed.
Lemma fill_beyond buf bs o n x : (length bs <= length buf)%nat -> zlen bs <= o -> rd_le n buf o = Ok x ->
  rd_le n (fill buf bs) o = Ok x.
Proof.
  intros Hl Ho E. apply out_bind_inv in E as (cs & E & [= <-]). unfold rd_le.
  apply rd_range_inv in E as (? & ? & Hle & Hn & Hcs).
  assert (wr_range buf 0 bs = Ok (fill buf bs)) as Hw.
  { unfold wr_range, fill. rewrite (proj2 (Z.leb_le _ _)), (proj2 (Z.leb_le _ _)) by (unfold zlen; lia).
    change (Z.to_nat 0) with 0%nat. cbn [andb take app Nat.add]. by rewrite (take_ge bs) by lia. }
  rewrite (at_read _ _ cs); [done|by rewrite Hn|]. apply (at_elsewhere _ _ _ _ _ _ Hw); [right; lia|].
  split; [done|]. split; [lia|]. rewrite Hcs at 2. f_equal. unfold zlen in Hn. lia.
Qed.
Lemma messages_enc_aligned gs : Forall message_ok gs -> zlen (messages_enc gs) mod 4 = 0.
Proof.
  induction 1 as [|g gs (_ & _ & _ & _ & Hg) _ IH]; [done|]. rewrite messages_enc_cons, zlen_app, message_enc_len.
  Z.to_euclidean_division_equations; lia.
Qed.

(** A datagram whose last message has a length that is no multiple of 4 ends the
    program.  The message is handled, but what is left of the datagram is then a
    negative number, which passes the test against [sizeof]; the old bytes of the
    buffer behind the datagram are taken for a header, and unless the length there
    is within 16 of the least [int] the test on it fails and [rtnl_listen] exits. *)
Lemma ragged_message_exits from gs g rs raw buf s : length buf = size -> Forall message_ok gs -> Forall good gs -> ragged g ->
  (length (messages_enc gs ++ message_enc g) <= size)%nat ->
  (forall b h s', length b = size -> holds_at b h (message_enc g) -> handler b h s' = (sem g ;; mret 0) s') ->
  nlmsg_len buf (NLMSG_ALIGN (zlen (messages_enc gs ++ message_enc g))) = Ok raw -> -2147483632 <= s32 raw ->
  rtnl_listen handler buf (RMsg from true false (messages_enc gs ++ message_enc g) :: rs) s =
    (for_each gs sem ;; (sem g ;; mret (Exited 1))) s.
Proof.
  intros Hb Hok Hg Hrag Hsz Hlast Hraw Hhigh. cbn [rtnl_listen]. cbv zeta.
  destruct (fill_at buf (messages_enc gs ++ message_enc g)) as (Hm & Hl & ->); [lia|].
  pose proof (messages_enc_aligned gs Hok) as Hal. pose proof (messages_count gs). pose proof (zlen_nonneg (msg_body g)).
  pose proof (message_enc_len g) as Hlen. rewrite length_app in Hsz.
  assert (NLMSG_ALIGN (zlen (messages_enc gs ++ message_enc g)) = zlen (messages_enc gs) + NLMSG_ALIGN (zlen (message_enc g))) as Ha.
  { rewrite zlen_app, !align_spec by (unfold zlen in *; lia). Z.to_euclidean_division_equations; lia. }
  destruct (align_bounds (zlen (message_enc g))) as [Hb' _]; [unfold zlen in *; lia|].
  rewrite Ha in Hraw. apply (fill_beyond buf (messages_enc gs ++ message_enc g) _ 4) in Hraw;
    [|rewrite length_app; lia|rewrite zlen_app; lia]. set (b := fill buf _) in *.
  rewrite zlen_app. replace (_ =? 0) with false by lia. cbn [negb]. apply at_split in Hm as [H1 H2].
  assert (Datatypes.S (length b) = length gs + Datatypes.S (Datatypes.S (length b - length gs - 1)))%nat as ->
    by (unfold zlen in *; lia).
  rewrite (bind_out_cong _ (for_each gs sem ;; (sem g ;; mret (inl (Exited 1)))) _ s).
  - rewrite bind_then. apply then_cong. intros s'. by rewrite bind_then.
  - rewrite listen_loop_more by (done || congruence || (rewrite ?Z.add_0_l; unfold zlen in *; lia)).
    apply then_cong. intros s'. rewrite Z.add_0_l. eapply ragged_step; try done; [congruence|].
    intros s0. apply Hlast; [congruence|done].
Qed.

(** ** A dump *)
Definition ours (rth : rtnl_handle) (from : Z) (g : message) : bool :=
  (from =? 0) && (msg_pid g =? local_pid rth) && (msg_seq g =? rth_dump rth).
Definition plain_message (g : message) : Prop := msg_type g <> NLMSG_DONE /\ msg_type g <> NLMSG_ERROR.
(** What the socket gives to a dump, and the messages of the dump in it. *)
Inductive dumped (rth : rtnl_handle) : list recv -> list message -> Prop :=
| dumped_again rs : dumped rth (RErr EAGAIN :: rs) []
| dumped_error e rs gs : e <> EAGAIN -> dumped rth rs gs -> dumped rth (RErr e :: rs) gs
| dumped_more from name_ok gs rs gs' : gs <> [] -> Forall message_ok gs ->
    Forall (fun g => ours rth from g = true -> plain_message g) gs -> (length (messages_enc gs) <= size)%nat ->
    dumped rth rs gs' -> dumped rth (RMsg from name_ok false (messages_enc gs) :: rs) (filter (fun g => ours rth from g = true) gs ++ gs')
| dumped_done from name_ok trunc gs g after rs : Forall message_ok gs -> message_ok g ->
    Forall (fun g => ours rth from g = true -> plain_message g) gs -> ours rth from g = true -> msg_type g = NLMSG_DONE ->
    (length (messages_enc gs ++ message_enc g ++ after) <= size)%nat ->
    dumped rth (RMsg from name_ok trunc (messages_enc gs ++ message_enc g ++ after) :: rs) (filter (fun g => ours rth from g = true) gs).

(** One message: the header is read, and the message is ours or not. *)
Lemma dump_step fuel rth buf from h rest g s : length buf = size -> message_ok g -> 0 <= rest ->
  h + zlen (message_enc g) + rest <= Z.of_nat size -> holds_at buf h (message_enc g) ->
  dump_loop handler None (Datatypes.S fuel) rth buf from h (zlen (message_enc g) + rest) s =
    (let next := dump_loop handler None fuel rth buf from (h + zlen (message_enc g)) rest in
     if negb (ours rth from g) then next
     else if msg_type g =? NLMSG_DONE then mret (inl (Returned 0))
     else if msg_type g =? NLMSG_ERROR then mret (inl (Returned (-1)))
     else err ← handler buf h; if err <? 0 then mret (inl (Returned err)) else next) s.
Proof.
  intros Hb Hok Hr Hsz Hm. pose proof Hm as (Hh & _ & _). pose proof (message_enc_len g) as Hlen.
  pose proof (zlen_nonneg (msg_body g)). assert (zlen (message_enc g) < 2147483648) as Hs by lia.
  destruct (message_at buf h g Hok Hs Hm) as (El & Et & Eq & Ep & _). cbn [dump_loop]. unfold NLMSG_OK, nlmsghdr_size.
  replace (_ + rest >=? 16) with true by lia. rewrite El. cbn [mbind outcome_bind].
  replace (_ && _) with true by lia. rewrite (bind_ok _ _ s true s) by done. cbn [negb].
  rewrite !(bind_ok _ _ s _ s (eq_refl (Ok (_, s)))). cbv zeta.
  rewrite (bind_ok _ _ s (msg_pid g) s), (bind_ok _ _ s (msg_seq g) s), (bind_ok _ _ s (msg_type g) s)
    by (unfold lift; by rewrite ?Ep, ?Eq, ?Et).
  rewrite message_align, less_small by (done || lia). replace (_ + rest - _) with rest by lia.
  unfold ours. by destruct (from =? 0), (msg_pid g =? local_pid rth), (msg_seq g =? rth_dump rth).
Qed.
Lemma dump_loop_more rth buf from rest gs : forall fuel h s, length buf = size -> holds_at buf h (messages_enc gs) ->
  Forall message_ok gs -> Forall (fun g => ours rth from g = true -> plain_message g) gs ->
  Forall good (filter (fun g => ours rth from g = true) gs) -> 0 <= rest -> h + zlen (messages_enc gs) + rest <= Z.of_nat size ->
  dump_loop handler None (length gs + fuel) rth buf from h (zlen (messages_enc gs) + rest) s =
    (for_each (filter (fun g => ours rth from g = true) gs) sem ;;
     dump_loop handler None fuel rth buf from (h + zlen (messages_enc gs)) rest) s.
Proof.
  induction gs as [|g gs IH]; intros fuel h s Hb Hm Hok Hpl Hg Hr Hsz.
  { cbn [length Nat.add for_each]. change (zlen (messages_enc [])) with 0. by rewrite Z.add_0_r, Z.add_0_l. }
  apply Forall_cons in Hok as [Hok Hoks]. apply Forall_cons in Hpl as [Hpl Hpls].
  pose proof Hm as (Hh & _ & _). rewrite messages_enc_cons in Hm, Hsz |- *. rewrite zlen_app in Hsz |- *.
  pose proof (zlen_nonneg (messages_enc gs)). pose proof (message_enc_len g) as Hlen. pose proof (zlen_nonneg (msg_body g)).
  apply at_split in Hm as [H1 H2]. cbn [length Nat.add].
  rewrite <-Z.add_assoc, dump_step by (done || lia). cbv zeta. rewrite filter_cons in Hg |- *. rewrite Z.add_assoc.
  destruct (ours rth from g) eqn:Eo; cbn [negb]; cycle 1.
  { rewrite decide_False in Hg |- * by done. by apply IH; try done; lia. }
  rewrite decide_True in Hg |- * by done. apply Forall_cons in Hg as [Hg Hgs]. destruct (Hpl eq_refl) as [Hd He].
  rewrite (proj2 (Z.eqb_neq _ _) Hd), (proj2 (Z.eqb_neq _ _) He).
  rewrite (bind_out_cong _ _ _ _ (handles buf h g s Hb Hok Hg ltac:(lia) H1)), then_assoc. change (0 <? 0) with false. cbv iota.
  cbn [for_each]. rewrite bind_then. apply then_cong. intros s'. apply IH; try done. lia.
Qed.

Lemma dump_run rth rs gs : dumped rth rs gs -> Forall good gs ->
  forall buf s, length buf = size -> rtnl_dump_filter handler None rth buf rs s = (for_each gs sem ;; mret (Returned 0)) s.
Proof.
  induction 1 as [rs|e rs gs He _ IH|from nok gs rs gs' Hne Hok Hpl Hsz _ IH|from nok trunc gs g after rs Hok Hgok Hpl Ho Hd Hsz];
    intros Hg buf s Hb; [done| |..].
  - destruct e; [by apply IH|done|by apply IH].
  - apply Forall_app in Hg as [Hg Hg']. cbn [rtnl_dump_filter]. cbv zeta.
    destruct (fill_at buf (messages_enc gs)) as (Hm & Hl & ->); [lia|]. pose proof (messages_count gs).
    assert (0 < Z.of_nat (length gs)) by (destruct gs; [done|cbn; lia]). replace (_ =? 0) with false by lia.
    assert (Datatypes.S (length (fill buf (messages_enc gs))) = length gs + Datatypes.S (size - length gs))%nat as ->
      by (rewrite Hl; unfold zlen in *; lia).
    pose proof (dump_loop_more rth _ from 0 gs (Datatypes.S (size - length gs)) 0 s (eq_trans Hl Hb) Hm Hok Hpl Hg) as Hrun.
    replace (zlen (messages_enc gs) + 0) with (zlen (messages_enc gs)) in Hrun by lia.
    rewrite (bind_out_cong _ (for_each (filter (fun g => ours rth from g = true) gs) sem ;; mret (inr 0)) _ s)
      by (apply Hrun; unfold zlen; lia).
    rewrite then_assoc, for_each_app_then. apply then_cong. intros s'. change (negb (0 =? 0)) with false. cbv iota.
    apply IH; [done|lia].
  - cbn [rtnl_dump_filter]. cbv zeta. destruct (fill_at buf (messages_enc gs ++ message_enc g ++ after)) as (Hm & Hl & ->); [lia|].
    rewrite !zlen_app. rewrite !length_app in Hsz. pose proof (messages_count gs). pose proof (message_enc_len g) as Hlen.
    pose proof (zlen_nonneg (msg_body g)). pose proof (zlen_nonneg after). replace (_ =? 0) with false by lia.
    set (b := fill buf _) in *. apply at_split in Hm as [Hm1 Hm]. apply at_split in Hm as [Hm2 _].
    assert (Datatypes.S (length b) = length gs + Datatypes.S (length b - length gs))%nat as -> by (unfold zlen in *; lia).
    rewrite (bind_out_cong _ (for_each (filter (fun g => ours rth from g = true) gs) sem ;; mret (inl (Returned 0))) _ s).
    + by rewrite then_assoc.
    + rewrite dump_loop_more by (done || congruence || (rewrite ?Z.add_0_l; unfold zlen in *; lia)).
      apply then_cong. intros s'. rewrite Z.add_0_l in Hm2 |- *. rewrite dump_step by (done || congruence || (unfold zlen in *; lia)).
      cbv zeta. by rewrite Ho, Hd.
Qed.

(** [rtnl_dump_filter] hands to its callback the messages of the dump, by sender,
    port and sequence number, in order and across datagrams, passes over those of
    others, and returns 0 at the message that ends the dump, whatever follows it, or
    when there is nothing more. *)
Lemma dump_delivers rth rs gs : dumped rth rs gs -> Forall good gs ->
  forall buf s, length buf = size -> rtnl_dump_filter handler None rth buf rs s = (for_each gs sem ;; mret (Returned 0)) s.
Proof. apply dump_run. Qed.
End delivery.

(** * Asking for an answer *)
Definition foreign (rth : rtnl_handle) (peer from : Z) (g : message) : Prop :=
  from <> peer \/ msg_pid g <> local_pid rth \/ msg_seq g <> rth_seq rth.

Section talking.
Implicit Types (g : message) (b : list Z).

Lemma talk_loop_foreign rth peer answer from trunc g b fuel status : message_ok g -> holds_at b 0 (message_enc g) ->
  zlen (message_enc g) <= status < 2147483648 -> foreign rth peer from g ->
  talk_loop fuel rth peer answer b from trunc 0 status = Fault OutOfFuel.
Proof.
  intros Hok Hm Hs Hf. pose proof (message_enc_len g) as Hlen. pose proof (zlen_nonneg (msg_body g)).
  destruct (message_at b 0 g Hok ltac:(lia) Hm) as (El & Et & Eq & Ep & _).
  induction fuel as [|fuel IH]; [done|]. cbn [talk_loop]. unfold at_least_header, nlmsghdr_size.
  replace (_ || _) with true by lia. cbn [negb]. rewrite El. cbn [mbind outcome_bind].
  rewrite (s32_small (zlen _)), s32_u32 by lia. replace (_ || _) with false by lia. rewrite Ep, Eq. cbn [mbind outcome_bind].
  replace (_ || _ || _) with true; [exact IH|]. symmetry. unfold foreign in Hf.
  destruct (Z.eqb_spec from peer), (Z.eqb_spec (msg_pid g) (local_pid rth)), (Z.eqb_spec (msg_seq g) (rth_seq rth)); try done.
  by destruct Hf as [|[|]].
Qed.

(** The request, with its number and flags. *)
Definition asked (q : message) (seq : Z) (answer : bool) : message :=
  mk_message (msg_type q) (if answer then msg_flags q else Z.lor (msg_flags q) NLM_F_ACK) seq (msg_pid q) (msg_body q).
Lemma talk_request rth q answer fuel peer rs : message_ok q -> zlen (message_enc q) < 2147483648 ->
  let rth' := rth <| rth_seq := u32 (rth_seq rth + 1) |> in
  forall rest, rtnl_talk fuel rth (message_enc q ++ rest) peer answer true rs =
    (r ← talk_recv fuel rth' peer answer (zeros (Z.to_nat 16384)) rs;
     Ok (rth', message_enc (asked q (u32 (rth_seq rth + 1)) answer), r)).
Proof.
  intros (Ht & Hf & Hs & Hp & Hm) Hl rth' rest. unfold rtnl_talk. cbv zeta. fold rth'. pose proof (zlen_nonneg (msg_body q)).
  rewrite message_enc_len in Hl. change (rth_seq rth') with (u32 (rth_seq rth + 1)). set (seq := u32 (rth_seq rth + 1)).
  unfold message_enc, header_bytes at 1. set (len := NLMSG_LENGTH _). set (tl := msg_body q ++ rest).
  assert (forall sq fl, (le 4 len ++ le 2 (msg_type q) ++ le 2 fl ++ le 4 sq ++ le 4 (msg_pid q)) ++ tl =
    (le 4 len ++ le 2 (msg_type q) ++ le 2 fl) ++ le 4 sq ++ (le 4 (msg_pid q) ++ tl)) as Hcut by (intros; by rewrite <-!app_assoc).
  rewrite <-app_assoc. fold tl. rewrite Hcut.
  pose proof (wr_mid (le 4 len ++ le 2 (msg_type q) ++ le 2 (msg_flags q)) (le 4 (msg_seq q)) (le 4 seq) (le 4 (msg_pid q) ++ tl)) as Hw.
  rewrite !zlen_app, !zlen_le in Hw. change (Z.of_nat 4 + (Z.of_nat 2 + Z.of_nat 2)) with 8 in Hw.
  rewrite Hw by (by rewrite !length_le). cbn [mbind outcome_bind]. clear Hw.
  assert (holds_at ((le 4 len ++ le 2 (msg_type q) ++ le 2 (msg_flags q)) ++ le 4 seq ++ le 4 (msg_pid q) ++ tl) 6 (le 2 (msg_flags q))) as H6.
  { replace ((le 4 len ++ le 2 (msg_type q) ++ le 2 (msg_flags q)) ++ le 4 seq ++ le 4 (msg_pid q) ++ tl)
      with ((le 4 len ++ le 2 (msg_type q)) ++ le 2 (msg_flags q) ++ (le 4 seq ++ le 4 (msg_pid q) ++ tl)) by (by rewrite <-!app_assoc).
    pose proof (at_here (le 4 len ++ le 2 (msg_type q)) (le 2 (msg_flags q)) (le 4 seq ++ le 4 (msg_pid q) ++ tl)) as Hat.
    rewrite zlen_app, !zlen_le in Hat. exact Hat. }
  unfold nlmsg_flags. change (0 + 6) with 6. rewrite (at_le 2 _ 6 _ Hf H6). cbn [mbind outcome_bind].
  set (fl := if answer then msg_flags q else Z.lor (msg_flags q) NLM_F_ACK).
  assert ((if answer then Ok ((le 4 len ++ le 2 (msg_type q) ++ le 2 (msg_flags q)) ++ le 4 seq ++ le 4 (msg_pid q) ++ tl)
    else wr_range ((le 4 len ++ le 2 (msg_type q) ++ le 2 (msg_flags q)) ++ le 4 seq ++ le 4 (msg_pid q) ++ tl) 6
      (le 2 (Z.lor (msg_flags q) NLM_F_ACK))) = Ok (message_enc (asked q seq answer) ++ rest)) as ->.
  { unfold message_enc, header_bytes, asked. cbn [msg_type msg_flags msg_seq msg_pid msg_body]. fold fl len.
    rewrite <-!app_assoc. fold tl. subst fl. destruct answer; [done|].
    pose proof (wr_mid (le 4 len ++ le 2 (msg_type q)) (le 2 (msg_flags q)) (le 2 (Z.lor (msg_flags q) NLM_F_ACK))
      (le 4 seq ++ le 4 (msg_pid q) ++ tl)) as Hw.
    rewrite !zlen_app, !zlen_le in Hw. rewrite <-!app_assoc in Hw. apply Hw. by rewrite !length_le. }
  cbn [mbind outcome_bind]. unfold nlmsg_len. rewrite (at_le 4 _ 0 len); cycle 1.
  { unfold len, NLMSG_LENGTH. cbn. lia. }
  { unfold message_enc, header_bytes. rewrite <-!app_assoc. apply (at_here []). }
  cbn [mbind outcome_bind]. rewrite (at_read _ 0 (message_enc (asked q seq answer))); [done| |apply (at_here [])].
  rewrite message_enc_len. unfold len, NLMSG_LENGTH, asked. cbn. lia.
Qed.

(** The kernel's acknowledgement: 0, or minus an error number, and the header of the
    request. *)
Definition acknowledges (rth : rtnl_handle) (e : Z) (g : message) : Prop :=
  message_ok g /\ msg_pid g = local_pid rth /\ msg_seq g = rth_seq rth /\ msg_type g = NLMSG_ERROR /\
  word_ok 4 e /\ exists rest, msg_body g = le 4 e ++ rest /\ 16 <= zlen rest.
Lemma talk_recv_ack fuel rth peer trunc e g buf rs : acknowledges rth e g -> (length (message_enc g) <= length buf)%nat ->
  zlen (message_enc g) < 2147483648 ->
  talk_recv (S fuel) rth peer false buf (RMsg peer true trunc (message_enc g) :: rs) =
    Ok (Returned (if e =? 0 then 0 else -1), None).
Proof.
  intros (Hok & Hp & Hq & Ht & He & rest & Hbody & Hrest) Hsz Hs. cbn [talk_recv]. cbv zeta.
  destruct (fill_at buf (message_enc g)) as (Hm & Hl & Hlen); [lia|]. rewrite Hlen. rewrite Hl in Hlen. rewrite Hlen.
  pose proof (message_enc_len g) as Hg. pose proof (zlen_nonneg (msg_body g)).
  destruct (message_at _ 0 g Hok Hs Hm) as (El & Et & Eq & Ep & _). replace (_ =? 0) with false by lia. cbn [negb].
  cbn [talk_loop]. unfold at_least_header, nlmsghdr_size. replace (_ || _) with true by lia. cbn [negb]. rewrite El.
  cbn [mbind outcome_bind]. rewrite (s32_small (zlen _)), s32_u32 by lia. replace (_ || _) with false by lia.
  rewrite Ep, Eq, Et, Hp, Hq, Ht. cbn [mbind outcome_bind]. rewrite !Z.eqb_refl. cbn [negb orb].
  assert (zlen (msg_body g) = 4 + zlen rest) as Hb by (by rewrite Hbody, zlen_app, zlen_le).
  unfold nlmsgerr_size. replace (_ <? 20) with false by lia.
  assert (holds_at (fill buf (message_enc g)) 16 (le 4 e)) as H16.
  { unfold message_enc in Hm at 2. apply at_split in Hm as [_ Hm]. rewrite Hbody in Hm. apply at_split in Hm as [Hm _].
    unfold header_bytes in Hm. by rewrite !zlen_app, !zlen_le in Hm. }
  change (0 + 16) with 16. rewrite (at_le 4 _ 16 e He H16). cbn [mbind outcome_bind]. by destruct (e =? 0).
Qed.

(** [rtnl_talk], called without a callback for other messages, does not return
    once a message that is not the answer has arrived: the [continue] of its inner
    loop goes on with the same message, for ever. *)
Lemma talk_foreign_hangs rth q peer answer from trunc g gs rs rest fuel :
  message_ok q -> zlen (message_enc q) < 2147483648 -> message_ok g -> (length (message_enc g ++ gs) <= Z.to_nat 16384)%nat ->
  foreign (rth <| rth_seq := u32 (rth_seq rth + 1) |>) peer from g ->
  rtnl_talk fuel rth (message_enc q ++ rest) peer answer true (RMsg from true trunc (message_enc g ++ gs) :: rs) = Fault OutOfFuel.
Proof.
  intros Hq Hql Hg Hsz Hf. rewrite talk_request by done. set (rth' := rth <| rth_seq := _ |>) in *. cbn [talk_recv]. cbv zeta.
  assert (length (zeros (Z.to_nat 16384)) = Z.to_nat 16384) as Hz by apply length_zeros.
  destruct (fill_at (zeros (Z.to_nat 16384)) (message_enc g ++ gs)) as (Hm & Hl & _); [lia|].
  rewrite !(take_ge (message_enc g ++ gs)) by lia. rewrite zlen_app. pose proof (message_enc_len g).
  pose proof (zlen_nonneg (msg_body g)). pose proof (zlen_nonneg gs). replace (_ =? 0) with false by lia. cbn [negb].
  apply at_split in Hm as [Hm _]. rewrite (talk_loop_foreign rth' peer answer from trunc g); [reflexivity|exact Hg|exact Hm| |exact Hf].
  rewrite length_app in Hsz. unfold zlen in *. lia.
Qed.
End talking.

Section witnesses.
Definition example_attrs : list attr := [(3, [108; 111; 0]); (1, [2; 4; 6; 8; 10; 12]); (3, [101; 0]); (70, [])].
Lemma parse_rtattr_last_witness :
  exists tb, parse_rtattr ([9; 9; 9] ++ attrs_enc example_attrs ++ [7]) 53 3 (zlen (attrs_enc example_attrs)) = Ok tb /\
    forall ty, 0 <= ty <= 53 ->
      rta_data ([9; 9; 9] ++ attrs_enc example_attrs ++ [7]) tb ty = Ok (find_attr ty example_attrs).
Proof.
  apply (parse_rtattr_last ([9; 9; 9] ++ attrs_enc example_attrs ++ [7]) 53 3 example_attrs);
    [done|apply (at_here [9; 9; 9])|by repeat constructor|done].
Defined.

(** The callback counts the messages. *)
Definition tally (buf : list Z) (h : Z) : M Z Z := modify (fun c => c + 1) ;; mret 0.
Definition example_message (seq : Z) (body : list Z) : message := mk_message 16 0 seq 7 body.
Lemma ragged_message_exits_witness :
  rtnl_listen tally (zeros 64) [RMsg 0 true false (messages_enc [example_message 1 [1; 2; 3; 4]] ++ message_enc (example_message 2 [5; 6]))] 0 =
    (for_each [example_message 1 [1; 2; 3; 4]] (fun _ => modify (fun c => c + 1)) ;; (modify (fun c => c + 1) ;; mret (Exited 1))) 0.
Proof.
  apply (ragged_message_exits 64 tally (fun _ => True) (fun _ => modify (fun c => c + 1)) eq_refl) with (raw := 0);
    [done|done|by repeat constructor|by repeat constructor|by repeat constructor|cbn; lia|done|reflexivity|done].
Defined.

Definition example_request : message := mk_message 16 1 0 0 [17; 0; 0; 0].
Lemma talk_foreign_hangs_witness :
  rtnl_talk 1000 (mk_handle 7 4 0) (message_enc example_request ++ zeros 12) 0 false true
    [RMsg 0 true false (message_enc (example_message 9 []) ++ []); REof] = Fault OutOfFuel.
Proof.
  apply (talk_foreign_hangs (mk_handle 7 4 0) example_request 0 false 0 false (example_message 9 []) []);
    [by repeat constructor|done|by repeat constructor|apply Nat.leb_le; vm_compute; reflexivity|by right; right].
Defined.
End witnesses.
