(* ===== verification/Devid.v ===== *)
(** The identity of a device, from its certificate: [lib/libidevid/eui64.cpp].
    The certificate itself is read by mbedtls, which is a parameter here: a class of
    its functions, and another of what they document. *)

From Stdlib Require Import ZArith Lia String.
From stdpp Require Import base list numbers strings.
From S2P Require Import Prelude Prefix Text Eui Rtnl.
#[local] Open Scope Z_scope.

(** * mbedtls

    A certificate, the bytes it was read from, and where in them its alternative
    names are; there is always a first one, which is empty when there is none. *)
Class Mbedtls := {
  crt : Type;
  raw : crt -> list Z;
  subject_alt_names : crt -> (Z * Z) * list (Z * Z);
  subject_email : crt -> option (list Z);
  x509_crt_parse_file : list Z -> Z * list crt;
  x509_crt_info : crt -> Z;
  x509_crt_verify : list crt -> list crt -> Z;
  asn1_get_tag : list Z -> Z -> Z -> Z -> Z + (Z * Z);
  ASN1_PRIVATE : Z
}.
Definition ASN1_OID : Z := 6.
Definition ASN1_UTF8_STRING : Z := 12.
(** iso(1) identified-organization(3) dod(6) ... enterprise(1) sandelman(46930) 1 *)
Definition OID_EUI64 : list Z := [43; 6; 1; 4; 1; 130; 238; 82; 1].

(** [fmt_eui] on an array of which [n] bytes are to be printed. *)
Fixpoint fmt_n (n : nat) (sep : list Z) (txtlen : Z) (src : list Z) : outcome (list Z) :=
  match n with
  | O => Ok []
  | S n' =>
      if txtlen >? 3 then
        match src with
        | [] => Fault OutOfBounds
        | b :: src' => rest ← fmt_n n' [45] (txtlen - zlen (sep ++ hex2 b)) src'; Ok ((sep ++ hex2 b) ++ rest)
        end
      else Ok []
  end.

Section device_identity.
Context `{Mbedtls}.

(** [load_identity_from_cert]: what is returned, and the certificate of the
    identity, which is left as it was when the function fails. *)
Definition load_identity_from_cert (ca_file : option (list Z)) (certfile : list Z) (cert : option (list crt))
    : Z * option (list crt) :=
  let leave (ret : Z) (chain : list crt) := if ret <? 0 then (2, cert) else (0, Some chain) in
  let load (cacert : list crt) :=
    let '(ret, chain) := x509_crt_parse_file certfile in
    if ret <? 0 then leave ret chain
    else if existsb (fun c => x509_crt_info c =? -1) chain then leave (-1) chain
    else
      match ca_file with
      | Some _ => leave (x509_crt_verify chain cacert) chain
      | None => leave 0 chain
      end in
  match ca_file with
  | Some f => let '(ret, cacert) := x509_crt_parse_file f in if ret <? 0 then (1, cert) else load cacert
  | None => load []
  end.

(** [parse_rfc8994cert]: the subnet of the identity, or [None] for [false]. *)
Definition parse_rfc8994cert (c : crt) : outcome (option ip_subnet) :=
  match subject_email c with
  | None => Ok None
  | Some name => parse_rfc8994string name
  end.

(** What becomes of the text of a name that is an EUI-64: what is returned, [eui64],
    of 8 bytes, and [eui64buf]. *)
Definition take_eui64 (eui64 eui64buf : list Z) (eui64buf_len len : Z) : outcome (Z * list Z * list Z) :=
  let print (n : Z) (eui64 : list Z) :=
    text ← fmt_n (Z.to_nat n) [] eui64buf_len eui64;
    eui64buf ← (if bool_decide (text = []) then Ok eui64buf else wr_range eui64buf 0 (text ++ [0]));
    Ok (s32 n, eui64, eui64buf) in
  sep ← rd eui64buf 2;
  if is_sep sep then
    let '(n, eui64) := parse_eui2bin eui64 (c_string eui64buf) in
    if (n =? 6) || (n =? 8) then print n eui64 else Ok (0, eui64, eui64buf)
  else
    bytes ← rd_range eui64buf 0 8;
    eui64 ← wr_range eui64 0 bytes;
    print len eui64.
(** The text of an alternative name that is an EUI-64: [None] when it is another. *)
Definition eui64_name (m : list Z) (p len : Z) : outcome (option (Z * Z)) :=
  match asn1_get_tag m p (p + len) ASN1_PRIVATE with
  | inl _ => Ok None
  | inr (p, _) =>
      let len := len - 2 in
      match asn1_get_tag m p (p + len) ASN1_UTF8_STRING with
      | inl _ => Ok None
      | inr (p, utf8len) => Ok (Some (p, utf8len))
      end
  end.
Fixpoint alt_names (m : list Z) (seqs : list (Z * Z)) (eui64 eui64buf : list Z) (eui64buf_len : Z)
    : outcome (Z * list Z * list Z) :=
  match seqs with
  | [] => Ok (-1, eui64, eui64buf)
  | (p, len) :: seqs' =>
      match asn1_get_tag m p (p + len) ASN1_OID with
      | inl _ => Ok (-1, eui64, eui64buf)
      | inr (p, oidlen) =>
          ours ← (if oidlen =? zlen OID_EUI64 then oid ← rd_range m p oidlen; Ok (bool_decide (oid = OID_EUI64)) else Ok false);
          name ← (if ours : bool then eui64_name m (p + oidlen) (len - oidlen) else Ok None);
          match name with
          | None => alt_names m seqs' eui64 eui64buf eui64buf_len
          | Some (p, utf8len) =>
              let len := if utf8len >? u32 (eui64buf_len - 1) then u32 (eui64buf_len - 1) else utf8len in
              text ← rd_range m p len;
              eui64buf ← wr_range eui64buf 0 text;
              eui64buf ← wr_range eui64buf len [0];
              take_eui64 eui64 eui64buf eui64buf_len (u32 len)
          end
      end
  end.
Definition extract_eui64_from_cert (c : crt) (eui64 eui64buf : list Z) (eui64buf_len : Z) : outcome (Z * list Z * list Z) :=
  let '(s, seqs) := subject_alt_names c in alt_names (raw c) (s :: seqs) eui64 eui64buf eui64buf_len.

(** The option [--ldevid] of the daemon: the subnet it takes from a file; [None] ends
    in the usage message. *)
Definition load_ldevid (file : list Z) : outcome (option ip_subnet) :=
  match load_identity_from_cert None file None with
  | (0, Some (c :: _)) => parse_rfc8994cert c
  | _ => Ok None
  end.
End device_identity.

(** * What is read of a certificate *)

(** What mbedtls documents of its reader of tags, for lengths below 128: it takes a
    tag whose content is in front of the end it is given, and nothing else, and an
    empty extent has no tag. *)
Class MbedtlsLaws `{Mbedtls} := {
  tag_read m p e tag n : holds_at m p [tag; n] -> 0 <= n < 128 -> p + 2 + n <= e -> asn1_get_tag m p e tag = inr (p + 2, n);
  tag_past m p e tag n : holds_at m p [tag; n] -> 0 <= n < 128 -> e < p + 2 + n -> exists er, asn1_get_tag m p e tag = inl er;
  tag_other m p e tag b : holds_at m p [b] -> b <> tag -> exists er, asn1_get_tag m p e tag = inl er;
  tag_none m p e tag : e <= p -> exists er, asn1_get_tag m p e tag = inl er
}.

Section reading.
Context `{MbedtlsLaws}.
Implicit Types (m text bs : list Z).

Definition der (tag : Z) (body : list Z) : list Z := tag :: zlen body :: body.
(** The name of an EUI-64, as [text] says it. *)
Definition eui64_other_name text : list Z := der ASN1_OID OID_EUI64 ++ der ASN1_PRIVATE (der ASN1_UTF8_STRING text).
(** An alternative name that begins with the OID of something else. *)
Definition skipped m (s : Z * Z) : Prop :=
  exists oid rest, holds_at m s.1 (der ASN1_OID oid ++ rest) /\ zlen oid < 128 /\ oid <> OID_EUI64 /\ 2 + zlen oid <= s.2.
(** An alternative name that begins with no OID: that of a host, a mail address,
    an address, or the empty one of a certificate without names. *)
Definition oidless m (s : Z * Z) : Prop := s.2 <= 0 \/ exists b, holds_at m s.1 [b] /\ b <> ASN1_OID.
(** The name of an EUI-64 of which [n] bytes are in the extension, and whose text
    claims to be [text]. *)
Definition claimed m (s : Z * Z) text : Prop :=
  exists n, 0 <= n < 126 /\ s.2 = 15 + n /\ zlen text <= n + 2 /\ zlen text < 128 /\
    holds_at m s.1 (der ASN1_OID OID_EUI64 ++ [ASN1_PRIVATE; n + 2; ASN1_UTF8_STRING; zlen text] ++ text).

Lemma wr_over bs buf : zlen bs <= zlen buf -> wr_range buf 0 bs = Ok (bs ++ drop (length bs) buf).
Proof. intros Hl. unfold wr_range. cbn [Z.leb Z.compare andb]. by rewrite (proj2 (Z.leb_le (0 + zlen bs) _)) by lia. Qed.
Lemma alt_names_skip m s seqs eui64 eui64buf size : skipped m s ->
  alt_names m (s :: seqs) eui64 eui64buf size = alt_names m seqs eui64 eui64buf size.
Proof.
  intros (oid & rest & Hm & Hoid & Hne & Hlen). destruct s as [p len]. cbn [fst snd] in *. cbn [alt_names].
  pose proof (zlen_nonneg oid). apply at_split in Hm as [Hm _]. unfold der in Hm.
  change (ASN1_OID :: zlen oid :: oid) with ([ASN1_OID; zlen oid] ++ oid) in Hm. apply at_split in Hm as [Ha Hb].
  rewrite (tag_read m p (p + len) ASN1_OID (zlen oid)) by (done || lia). change (zlen [_; _]) with 2 in Hb.
  destruct (Z.eqb_spec (zlen oid) (zlen OID_EUI64)) as [E|]; [|done].
  rewrite (at_read m (p + 2) oid) by done. cbn [mbind outcome_bind]. by rewrite bool_decide_false.
Qed.
Lemma alt_names_oidless m l1 s l2 eui64 eui64buf size : Forall (skipped m) l1 -> oidless m s ->
  alt_names m (l1 ++ s :: l2) eui64 eui64buf size = Ok (-1, eui64, eui64buf).
Proof.
  intros Hl1 Hs. induction Hl1 as [|s' l1 Hs' _ IH]; [|cbn [app]; by rewrite alt_names_skip].
  destruct s as [p len]. cbn [app alt_names fst snd] in *.
  assert (exists er, asn1_get_tag m p (p + len) ASN1_OID = inl er) as [er ->]; [|done].
  destruct Hs as [Hlen|(b & Hb & Hne)]; [apply tag_none; cbn in Hlen; lia|by eapply tag_other].
Qed.
(** Up to the text of the name. *)
Lemma alt_names_reach m p len l2 n u eui64 eui64buf : 0 <= n < 126 -> len = 15 + n -> 0 <= u <= n + 2 -> u < 128 ->
  u < zlen eui64buf < 4294967296 ->
  holds_at m p (der ASN1_OID OID_EUI64 ++ [ASN1_PRIVATE; n + 2; ASN1_UTF8_STRING; u]) ->
  alt_names m ((p, len) :: l2) eui64 eui64buf (zlen eui64buf) =
    (text ← rd_range m (p + 15) u;
     eui64buf' ← wr_range eui64buf 0 text;
     eui64buf' ← wr_range eui64buf' u [0];
     take_eui64 eui64 eui64buf' (zlen eui64buf) u).
Proof.
  intros Hn -> Hle Hu Hsz Hm. cbn [alt_names]. assert (zlen OID_EUI64 = 9) as H9 by done. unfold der in Hm. rewrite H9 in Hm.
  change ((ASN1_OID :: 9 :: OID_EUI64) ++ _)
    with ([ASN1_OID; 9] ++ OID_EUI64 ++ [ASN1_PRIVATE; n + 2] ++ [ASN1_UTF8_STRING; u]) in Hm.
  apply at_split in Hm as [Ha Hm]. apply at_split in Hm as [Hb Hm]. apply at_split in Hm as [Hc Hd].
  rewrite H9 in *. change (zlen [_; _]) with 2 in *.
  rewrite (tag_read m p _ ASN1_OID 9) by (done || lia). rewrite Z.eqb_refl.
  rewrite (at_read m (p + 2) OID_EUI64) by done. cbn [mbind outcome_bind]. rewrite bool_decide_true by done. unfold eui64_name.
  rewrite (tag_read m (p + 2 + 9) _ ASN1_PRIVATE (n + 2)) by (done || lia).
  rewrite (tag_read m (p + 2 + 9 + 2) _ ASN1_UTF8_STRING u) by (done || lia). cbn [mbind outcome_bind].
  rewrite (u32_small (_ - 1)) by lia. rewrite gtb_false by lia. rewrite (u32_small u) by lia.
  by replace (p + 2 + 9 + 2 + 2) with (p + 15) by lia.
Qed.
Lemma alt_names_take m l1 s l2 text eui64 eui64buf : Forall (skipped m) l1 -> claimed m s text ->
  zlen text < zlen eui64buf < 4294967296 ->
  alt_names m (l1 ++ s :: l2) eui64 eui64buf (zlen eui64buf) =
    take_eui64 eui64 (text ++ 0 :: drop (S (length text)) eui64buf) (zlen eui64buf) (zlen text).
Proof.
  intros Hl1 (n & Hn & Hlen & Hle & Ht & Hm) Hsz. induction Hl1 as [|s' l1 Hs' _ IH]; [|cbn [app]; by rewrite alt_names_skip].
  destruct s as [p len]. cbn [fst snd] in *. cbn [app]. pose proof (zlen_nonneg text). rewrite app_assoc in Hm. apply at_split in Hm as [Hm Htext].
  rewrite (alt_names_reach m p len l2 n (zlen text)) by (done || lia). rewrite (at_read _ _ text) by done. cbn [mbind outcome_bind].
  rewrite wr_over by lia. cbn [mbind outcome_bind].
  assert (drop (length text) eui64buf = nth (length text) eui64buf 0 :: drop (S (length text)) eui64buf) as ->.
  { apply drop_S. destruct (lookup_lt_is_Some_2 eui64buf (length text)) as [x Hx]; [unfold zlen in Hsz; lia|].
    by rewrite (nth_lookup_Some _ _ _ _ Hx). }
  pose proof (put_nul_at text (nth (length text) eui64buf 0) (drop (S (length text)) eui64buf)) as Hw.
  unfold put_nul in Hw. by rewrite Hw.
Qed.

(** ** The EUI-64 itself *)
Lemma fmt_n_exact src rest : forall sep txtlen, fmt_n (length src) sep txtlen (src ++ rest) = Ok (fmt_loop sep txtlen src).2.
Proof.
  induction src as [|b src IH]; intros sep txtlen; [done|]. cbn [length app fmt_n fmt_loop].
  destruct (txtlen >? 3); [|done]. rewrite IH. cbn [mbind outcome_bind].
  by destruct (fmt_loop [45] (txtlen - zlen (sep ++ hex2 b)) src).
Qed.
(** The bytes are printed over the buffer when there is room. *)
Lemma print_eui bs rest size : bs <> [] -> 4 <= size -> 3 * zlen bs <= size ->
  fmt_n (length bs) [] size (bs ++ rest) = Ok (eui_text bs) /\ zlen (eui_text bs) = 3 * zlen bs - 1.
Proof.
  intros Hne H4 H3. rewrite fmt_n_exact. destruct bs as [|b bs]; [done|]. fold (fmt_eui size (b :: bs)).
  rewrite fmt_eui_spec, gtb_true, (proj2 (Z.leb_le _ _)) by lia. split; [done|].
  unfold eui_text. pose proof (dashed_length (b :: bs)) as Hz.
  change (dashed (b :: bs)) with (45 :: drop 1 (dashed (b :: bs))) in Hz. rewrite zlen_cons in Hz. lia.
Qed.
Lemma dashed_chars bs : bytes_ok bs -> Forall (fun c => c <> 0) (dashed bs).
Proof.
  induction 1 as [|b bs Hb _ IH]; [constructor|]. change (dashed (b :: bs)) with (45 :: hex2 b ++ dashed bs).
  destruct (byte_nibbles b Hb) as (Hhi & Hlo & _). pose proof (hex_digit_range _ Hhi). pose proof (hex_digit_range _ Hlo).
  constructor; [lia|]. constructor; [lia|]. constructor; [lia|done].
Qed.

(** What [take_eui64] leaves, for the bytes [bs]. *)
Definition printed bs (eui64 euibuf : list Z) : list Z * list Z :=
  (bs ++ drop (length bs) eui64, eui_text bs ++ 0 :: drop (3 * length bs) euibuf).
Lemma take_printed {A} (F : list Z -> outcome A) bs euibuf : bs <> [] -> 3 * zlen bs <= zlen euibuf -> zlen (eui_text bs) = 3 * zlen bs - 1 ->
  (euibuf ← (if bool_decide (eui_text bs = []) then Ok euibuf else wr_range euibuf 0 (eui_text bs ++ [0])); F euibuf) =
    F (printed bs [] euibuf).2.
Proof.
  intros Hne Hl Ht. assert (0 < zlen bs) by (destruct bs; [done|rewrite zlen_cons; pose proof (zlen_nonneg bs); lia]).
  rewrite bool_decide_false by (intros E; rewrite E in Ht; change (zlen (@nil Z)) with 0 in Ht; lia).
  rewrite wr_over by (rewrite zlen_app; change (zlen [0]) with 1; lia). cbn [mbind outcome_bind]. rewrite <-app_assoc. cbn [app].
  unfold printed. cbn [snd]. do 4 f_equal. rewrite length_app. cbn [length]. unfold zlen in *. lia.
Qed.
Lemma take_text bs eui64 rest len : bytes_ok bs -> zlen bs = 6 \/ zlen bs = 8 -> length eui64 = 8%nat ->
  let euibuf := eui_text bs ++ 0 :: rest in 24 <= zlen euibuf ->
  take_eui64 eui64 euibuf (zlen euibuf) len = Ok (zlen bs, (printed bs eui64 euibuf).1, (printed bs eui64 euibuf).2).
Proof.
  intros Hbs Hlen H8 euibuf Hsz. assert (bs <> []) as Hne by (intros ->; change (zlen (@nil Z)) with 0 in Hlen; lia).
  assert (rd euibuf 2 = Ok 45) as Hsep.
  { apply rd_ok; [lia|]. destruct bs as [|b1 [|b2 bs]]; [done|change (zlen [b1]) with 1 in Hlen; lia|done]. }
  unfold take_eui64. rewrite Hsep. cbn [mbind outcome_bind]. change (is_sep 45) with true. cbv iota.
  assert (c_string euibuf = eui_text bs) as ->.
  { apply c_string_cut. pose proof (dashed_chars bs Hbs) as Hc. unfold eui_text. by apply Forall_drop. }
  rewrite parse_eui_back by (done || (unfold zlen in Hlen; lia)).
  replace ((zlen bs =? 6) || (zlen bs =? 8)) with true by lia.
  destruct (print_eui bs (drop (length bs) eui64) (zlen euibuf)) as [Hp Ht]; [done|lia|lia|].
  unfold zlen at 2. rewrite Nat2Z.id, Hp. cbn [mbind outcome_bind].
  rewrite take_printed by (done || lia). by rewrite s32_small by lia.
Qed.
Definition plain text : Prop := exists c, text !! 2%nat = Some c /\ is_sep c = false.
Lemma plain_sep text rest : plain text -> exists c, rd (text ++ 0 :: rest) 2 = Ok c /\ is_sep c = false.
Proof.
  intros (c & Hc & Hs). exists c. split; [|done]. apply rd_ok; [lia|]. change (Z.to_nat 2) with 2%nat.
  rewrite lookup_app_l; [done|]. by apply lookup_lt_Some in Hc.
Qed.
Lemma take_binary text eui64 rest : zlen text = 8 -> plain text -> length eui64 = 8%nat ->
  let euibuf := text ++ 0 :: rest in 24 <= zlen euibuf ->
  take_eui64 eui64 euibuf (zlen euibuf) 8 = Ok (8, (printed text eui64 euibuf).1, (printed text eui64 euibuf).2).
Proof.
  intros Hlen Hp H8 euibuf Hsz. assert (text <> []) as Hne by (by intros ->). unfold take_eui64.
  destruct (plain_sep text rest Hp) as (c & E & Hc). fold euibuf in E. rewrite E. cbn [mbind outcome_bind]. rewrite Hc.
  rewrite (at_read euibuf 0 text) by (done || apply (at_here [])). cbn [mbind outcome_bind].
  rewrite wr_over by (unfold zlen in *; lia). cbn [mbind outcome_bind].
  destruct (print_eui text (drop (length text) eui64) (zlen euibuf)) as [Hpr Ht]; [done|lia|lia|].
  replace (Z.to_nat 8) with (length text) by (unfold zlen in Hlen; lia). rewrite Hpr. cbn [mbind outcome_bind].
  rewrite take_printed by (done || lia). done.
Qed.

(** The name of an EUI-64, whole. *)
Definition named m (s : Z * Z) text : Prop :=
  s.2 = zlen (eui64_other_name text) /\ zlen text < 126 /\ holds_at m s.1 (eui64_other_name text).
Lemma named_claimed m s text : named m s text -> claimed m s text.
Proof.
  intros (Hl & Ht & Hm). pose proof (zlen_nonneg text). exists (zlen text).
  assert (zlen (der ASN1_UTF8_STRING text) = zlen text + 2) as Hd by (unfold der; rewrite !zlen_cons; lia).
  unfold eui64_other_name in *. split; [lia|]. split.
  - rewrite Hl, zlen_app. unfold der at 2. rewrite !zlen_cons, Hd. change (zlen (der ASN1_OID OID_EUI64)) with 11. lia.
  - split; [lia|]. split; [lia|]. unfold der at 2 in Hm. rewrite Hd in Hm. exact Hm.
Qed.
(** How the EUI-64 is written: with separators, or as its bytes. *)
Inductive spells bs : list Z -> Prop :=
| spells_text : zlen bs = 6 \/ zlen bs = 8 -> spells bs (eui_text bs)
| spells_binary : zlen bs = 8 -> plain bs -> spells bs bs.
Lemma spelled_size bs text : spells bs text -> 6 <= zlen bs <= 8 /\ 0 <= zlen text < 24.
Proof.
  intros [Hl|Hl _]; [|lia]. destruct (print_eui bs [] 24) as [_ Ht]; [by intros ->; destruct Hl|lia|lia|]. lia.
Qed.


(** The length of the extension is not kept while its parts are read: a text that
    claims two bytes more than the extension has is accepted.  The two bytes behind
    the extension become part of the EUI-64, and when the certificate ends there
    they are read past its end. *)
Lemma cert_eui64_overread c name seqs bs eui64 euibuf : subject_alt_names c = (name, seqs) ->
  length eui64 = 8%nat -> 24 <= zlen euibuf < 4294967296 -> zlen bs = 6 -> plain bs -> name.2 = 21 ->
  holds_at (raw c) name.1 (der ASN1_OID OID_EUI64 ++ [ASN1_PRIVATE; 8; ASN1_UTF8_STRING; 8] ++ bs) ->
  (forall x y, holds_at (raw c) (name.1 + 21) [x; y] ->
    exists rest, extract_eui64_from_cert c eui64 euibuf (zlen euibuf) = Ok (8, bs ++ [x; y], rest)) /\
  (zlen (raw c) = name.1 + 21 -> extract_eui64_from_cert c eui64 euibuf (zlen euibuf) = Fault OutOfBounds).
Proof.
  intros Hs H8 Hsz Hlen Hp Hn Hm. destruct name as [p len]. cbn [fst snd] in *. unfold extract_eui64_from_cert. rewrite Hs. split.
  - intros x y Hxy. set (text := bs ++ [x; y]).
    assert (zlen text = 8) as Ht by (unfold text; rewrite zlen_app, Hlen; done).
    assert (plain text) as Hpt.
    { destruct Hp as (c' & Hc & Hsep). exists c'. split; [|done]. unfold text. rewrite lookup_app_l; [done|].
      by apply lookup_lt_Some in Hc. }
    change ((p, len) :: seqs) with ([] ++ (p, len) :: seqs). rewrite (alt_names_take _ [] _ _ text); [|constructor| |lia].
    + assert (zlen (text ++ 0 :: drop (S (length text)) euibuf) = zlen euibuf) as Hb
        by (rewrite zlen_app, zlen_cons; unfold zlen in *; rewrite length_drop; lia).
      rewrite Ht, <-Hb, take_binary by (done || lia). unfold printed. cbn [fst snd].
      rewrite (drop_ge eui64), app_nil_r by (unfold zlen in Ht; lia). by eexists.
    + exists 6. cbn [fst snd]. split; [lia|]. split; [lia|]. rewrite Ht. split; [lia|]. split; [lia|].
      unfold text. rewrite app_assoc in Hm |- *. rewrite app_assoc. apply at_join; [exact Hm|].
      rewrite !zlen_app, Hlen. exact Hxy.
  - intros Hend. rewrite app_assoc in Hm. apply at_split in Hm as [Hm _].
    rewrite (alt_names_reach _ p len _ 6 8) by (done || lia). unfold rd_range. replace (p + 15 + 8 <=? zlen (raw c)) with false by lia.
    by rewrite andb_false_r.
Qed.

(** ** Text that is taken for bytes *)
Lemma fmt_n_past src k : forall sep txtlen, zlen sep <= 1 -> 3 * zlen src + 3 < txtlen -> fmt_n (length src + S k) sep txtlen src = Fault OutOfBounds.
Proof.
  induction src as [|b src IH]; intros sep txtlen Hs Hl.
  - cbn [length Nat.add fmt_n]. change (zlen (@nil Z)) with 0 in Hl. by rewrite gtb_true by lia.
  - rewrite zlen_cons in Hl. pose proof (zlen_nonneg src). cbn [length Nat.add fmt_n]. rewrite gtb_true by lia.
    rewrite IH; [done|done|]. rewrite zlen_app. change (zlen (hex2 b)) with 2. lia.
Qed.
(** An EUI-64 without separators, as sixteen digits for example, is taken for bytes:
    all its characters are printed from the array of 8 bytes that has the first
    eight of them. *)
Lemma unseparated_overreads c l1 name l2 text eui64 euibuf s seqs : subject_alt_names c = (s, seqs) ->
  s :: seqs = l1 ++ name :: l2 -> Forall (skipped (raw c)) l1 -> named (raw c) name text -> plain text -> 8 < zlen text < zlen euibuf ->
  length eui64 = 8%nat -> 27 < zlen euibuf < 4294967296 ->
  extract_eui64_from_cert c eui64 euibuf (zlen euibuf) = Fault OutOfBounds.
Proof.
  intros Hs Hseqs Hl1 Hn Hp Ht H8 Hsz. unfold extract_eui64_from_cert. rewrite Hs, Hseqs.
  rewrite (alt_names_take _ _ _ _ text) by (done || lia || by apply named_claimed). unfold take_eui64.
  destruct (plain_sep text (drop (S (length text)) euibuf) Hp) as (ch & -> & Hc). cbn [mbind outcome_bind]. rewrite Hc.
  assert (zlen (take 8 text) = 8) as H8t by (unfold zlen in *; rewrite length_take; lia).
  rewrite (at_read _ 0 (take 8 text)) by (done || (rewrite <-(take_drop 8 text) at 1; rewrite <-app_assoc; apply (at_here []))).
  cbn [mbind outcome_bind]. rewrite wr_over by (rewrite H8t; unfold zlen; lia). cbn [mbind outcome_bind].
  rewrite (drop_ge eui64), app_nil_r by (unfold zlen in H8t; lia).
  replace (Z.to_nat (zlen text)) with (length (take 8 text) + S (length text - 9))%nat
    by (unfold zlen in *; rewrite length_take; lia).
  rewrite fmt_n_past; [done|by cbn|lia].
Qed.

(** ** The identity of the daemon *)
Lemma load_ldevid_read file ret c chain bs domain : x509_crt_parse_file file = (ret, c :: chain) -> 0 <= ret ->
  Forall (fun c => x509_crt_info c <> -1) (c :: chain) -> bytes_ok bs -> length bs = 16%nat ->
  subject_email c = Some (codes "rfc8994+" ++ hex_text bs ++ 64 :: domain) ->
  load_ldevid file = Ok (Some (subnet6 bs 128)).
Proof.
  intros Hf Hret Hinfo Hbs Hlen He. unfold load_ldevid, load_identity_from_cert. rewrite Hf.
  replace (ret <? 0) with false by lia.
  assert (existsb (fun c => x509_crt_info c =? -1) (c :: chain) = false) as ->.
  { clear Hf. induction Hinfo as [|c' l Hc _ IH]; [done|]. cbn [existsb]. by rewrite (proj2 (Z.eqb_neq _ _) Hc). }
  cbn. unfold parse_rfc8994cert. rewrite He. rewrite app_assoc, acp_cut; cycle 1.
  { apply Forall_app. split; [by apply (bool_decide_unpack _)|apply hex_text_chars; [lia|done]]. }
  rewrite <-app_assoc. apply acp_parts_read; [done|done|by right].
Qed.
End reading.

Section witnesses.
(** A certificate of which there is nothing but its address in the ACP. *)
Definition acp_cert : list Z * ((Z * Z) * list (Z * Z)) :=
  (codes "rfc8994+" ++ hex_text ([253; 0] ++ zeros 13 ++ [1]) ++ codes "@acp", ((0, 0), [])).
(** A reader of the tags with lengths in one byte. *)
Definition der_tag (m : list Z) (p e tag : Z) : Z + (Z * Z) :=
  if e <=? p then inl (-96) else
  match rd m p, rd m (p + 1) with
  | Ok t, Ok n => if (t =? tag) && (n <? 128) && (p + 2 + n <=? e) then inr (p + 2, n) else inl (-98)
  | _, _ => inl (-96)
  end.
Definition example_mbedtls : Mbedtls := {|
  crt := list Z * ((Z * Z) * list (Z * Z)); raw := fst; subject_alt_names := snd;
  subject_email c := Some c.1; x509_crt_info _ := 0; x509_crt_verify _ _ := 0;
  x509_crt_parse_file file := if bool_decide (file = codes "ldevid.pem") then (0, [acp_cert]) else (-1, []);
  asn1_get_tag := der_tag; ASN1_PRIVATE := 160
|}.
#[local] Existing Instance example_mbedtls.
#[local] Instance example_laws : MbedtlsLaws.
Proof.
  split; cbn; unfold der_tag; intros m p e tag.
  - intros n Hm Hn He. apply rd_at in Hm as [-> Hm]. apply rd_at in Hm as [-> _]. rewrite Z.eqb_refl.
    replace (n <? 128) with true by lia. replace (e <=? p) with false by lia. by replace (p + 2 + n <=? e) with true by lia.
  - intros n Hm Hn He. apply rd_at in Hm as [-> Hm]. apply rd_at in Hm as [-> _]. case_bool; [by eexists|].
    replace (p + 2 + n <=? e) with false by lia. rewrite andb_false_r. by eexists.
  - intros b Hm Hb. apply rd_at in Hm as [-> _]. rewrite (proj2 (Z.eqb_neq _ _) Hb).
    case_bool; [by eexists|]. destruct (rd m (p + 1)); by eexists.
  - intros He. rewrite (proj2 (Z.leb_le _ _)) by done. by eexists.
Qed.

Definition example_names : list Z := der ASN1_OID [42; 3] ++ [5; 0] ++ eui64_other_name (eui_text example_eui).
Definition example_cert : crt := ([48; 99] ++ example_names, ((2, 6), [(8, 38)])).
Definition example_nameless : crt := ([48; 6] ++ der ASN1_OID [42; 3] ++ [5; 0], ((2, 6), [])).
(** The name of a host, and an EUI-64 behind it. *)
Definition example_hosted : crt := (codes "a.b" ++ eui64_other_name (eui_text example_eui), ((0, 3), [(3, 38)])).

Definition example_short : list Z := der ASN1_OID OID_EUI64 ++ [ASN1_PRIVATE; 8; ASN1_UTF8_STRING; 8] ++ [1; 2; 3; 4; 5; 6].
Definition example_claim (behind : list Z) : crt := (example_short ++ behind, ((0, 21), [])).
Lemma cert_eui64_overread_witness :
  (exists rest, extract_eui64_from_cert (example_claim [77; 88; 99]) (zeros 8) (zeros 32) (zlen (zeros 32)) =
    Ok (8, [1; 2; 3; 4; 5; 6; 77; 88], rest)) /\
  extract_eui64_from_cert (example_claim []) (zeros 8) (zeros 32) (zlen (zeros 32)) = Fault OutOfBounds.
Proof.
  split.
  - apply (proj1 (cert_eui64_overread (example_claim [77; 88; 99]) (0, 21) [] [1; 2; 3; 4; 5; 6]
      (zeros 8) (zeros 32) eq_refl eq_refl ltac:(by vm_compute) eq_refl ltac:(by exists 3) eq_refl (at_here [] example_short [77; 88; 99])) 77 88).
    apply (at_here example_short [77; 88] [99]).
  - apply (proj2 (cert_eui64_overread (example_claim []) (0, 21) [] [1; 2; 3; 4; 5; 6]
      (zeros 8) (zeros 32) eq_refl eq_refl ltac:(by vm_compute) eq_refl ltac:(by exists 3) eq_refl
      (at_here [] example_short []))). done.
Defined.
End witnesses.
