(* ===== verification/Sunshine.v ===== *)
(** The daemon [sunshine]: [main] of [programs/sunshine/main.cpp], from the
    options of the command line to the main loop, and [set_dagid] on a string of
    [lib/libndmgmt/dag.cpp].

    [getopt_long] is the C library's: the model starts from the options it
    finds, in order.  An [exit] is the answer of the computation.  What the
    system answers (the connection to the registrar, the PID file) is in [Startup];
    a certificate is read by [Devid].  [--sleep] as the first option, which only waits before
    the scan of the devices, is an option without effect here. *)

From Stdlib Require Import ZArith Lia String.
From stdpp Require Import base list gmap numbers strings.
From S2P Require Import Prelude Wire Subopt Event Prefix Text State Iface Build Dag Filters.
From S2P Require Import Neighbour World Netlink MainLoop Devid.
#[local] Open Scope Z_scope.

(** * Numbers and DAG ids on the command line *)

Definition is_space (c : Z) : bool := ((9 <=? c) && (c <=? 13)) || (c =? 32).
Fixpoint skip_space (s : list Z) : list Z :=
  match s with c :: s' => if is_space c then skip_space s' else s | [] => [] end.

(** [atoi]: glibc's [strtol], which saturates, cut to an int. *)
Fixpoint decimal (acc : Z) (s : list Z) : Z :=
  match s with
  | c :: s' => if (48 <=? c) && (c <=? 57) then decimal (acc * 10 + (c - 48)) s' else acc
  | [] => acc
  end.
Definition LONG_MAX : Z := 9223372036854775807.
Definition atoi (s : list Z) : Z :=
  let '(sign, ds) :=
    match skip_space s with
    | 45 :: s' => (-1, s')
    | 43 :: s' => (1, s')
    | s' => (1, s')
    end in
  s32 (Z.max (- LONG_MAX - 1) (Z.min LONG_MAX (sign * decimal 0 ds))).

(** [sscanf(s, "%2x", &value)] *)
Inductive scanned := ScanEof | ScanNone | Scanned (value : Z).
Definition scan_2x (s : list Z) : scanned :=
  match skip_space s with
  | [] => ScanEof
  | c :: s' =>
      if (c =? 43) || (c =? 45) then
        match s' with
        | d :: _ =>
            match hex_value d with
            | Some v => Scanned (u32 (if c =? 45 then - v else v))
            | None => ScanNone
            end
        | [] => ScanNone
        end
      else
        match hex_value c with
        | None => ScanNone
        | Some v =>
            match s' with
            | d :: _ => match hex_value d with Some v' => Scanned (v * 16 + v') | None => Scanned v end
            | [] => Scanned v
            end
        end
  end.

(** The loop over the digits: at most 16 bytes, two characters each.  At the end
    of the string [sscanf] answers EOF, which is not 0, and [value] is not set. *)
Fixpoint hex_dagid (room : nat) (i : nat) (junk : Z) (digits id : list Z) : list Z :=
  match room, digits with
  | S room', _ :: digits' =>
      let next v := hex_dagid room' (S i) junk (drop 1 digits') (<[i := u8 v]> id) in
      match scan_2x digits with
      | ScanNone => id
      | ScanEof => next junk
      | Scanned v => next v
      end
  | _, _ => id
  end.

(** [inet_pton(AF_INET6, ...)] *)
Class InetPton := inet_pton6 : list Z -> option in6_addr.

(** [set_dagid] on a string: [n] is set only if the string is an address. *)
Definition set_dagid_text `{InetPton} (junk_value : Z) (junk_id : list Z) (dagstr : list Z) (d : dag_network)
  : dag_network :=
  match dagstr with
  | 48 :: 120 :: digits => d <| mDagid ::= hex_dagid 16 0 junk_value digits |>
  | _ => set_dagid (default junk_id (inet_pton6 dagstr)) d
  end.

(** A DAG id in hexadecimal: [0x] and two digits for each byte. *)
Definition hex_text (id : list Z) : list Z :=
  codes "0x" ++ flat_map (fun b => [hex_digit (b / 16); hex_digit (b mod 16)]) id.

Lemma hex_digit_value d : 0 <= d < 16 ->
  hex_value (hex_digit d) = Some d /\ is_space (hex_digit d) = false /\
  (hex_digit d =? 43) || (hex_digit d =? 45) = false.
Proof.
  intros Hd. assert (Forall (fun d => hex_value (hex_digit d) = Some d /\ is_space (hex_digit d) = false /\
    (hex_digit d =? 43) || (hex_digit d =? 45) = false) (seqZ 0 16)) as Hall by by repeat constructor.
  rewrite list.Forall_forall in Hall. apply Hall, elem_of_seqZ. lia.
Qed.
Lemma scan_2x_hex b rest : byte_ok b -> scan_2x (hex_digit (b / 16) :: hex_digit (b mod 16) :: rest) = Scanned b.
Proof.
  unfold byte_ok. intros Hb. destruct (hex_digit_value (b / 16)) as (H1 & H2 & H3); [Z.to_euclidean_division_equations; lia|].
  destruct (hex_digit_value (b mod 16)) as (H4 & _); [Z.to_euclidean_division_equations; lia|].
  unfold scan_2x. cbn [skip_space]. rewrite H2, H3, H1, H4. f_equal. Z.to_euclidean_division_equations; lia.
Qed.
Lemma hex_dagid_run junk id : forall room p q, bytes_ok id -> (length id <= room)%nat -> (length id <= length q)%nat ->
  hex_dagid room (length p) junk (flat_map (fun b => [hex_digit (b / 16); hex_digit (b mod 16)]) id) (p ++ q) =
  p ++ id ++ drop (length id) q.
Proof.
  induction id as [|b id IH]; intros room p q Hid Hr Hq; [by destruct room|].
  apply Forall_cons in Hid as [Hb Hid]. destruct room as [|room]; [cbn in Hr; lia|]. destruct q as [|c q]; [cbn in Hq; lia|].
  cbn [flat_map app hex_dagid]. rewrite scan_2x_hex by done. cbn [drop]. rewrite drop_0, u8_small by done.
  rewrite insert_app_r_alt, Nat.sub_diag by done. cbn [insert list_insert].
  replace (p ++ b :: q) with ((p ++ [b]) ++ q) by by rewrite <-app_assoc.
  replace (S (length p)) with (length (p ++ [b])) by (rewrite length_app; cbn; lia).
  rewrite IH, <-app_assoc by (done || cbn in *; lia). done.
Qed.

Lemma dagid_of_hex `{InetPton} junk_value junk_id id d : bytes_ok id -> (length id <= 16)%nat -> length (mDagid d) = 16%nat ->
  mDagid (set_dagid_text junk_value junk_id (hex_text id) d) = id ++ drop (length id) (mDagid d).
Proof.
  intros Hid Hl Hd. pose proof (hex_dagid_run junk_value id 16 [] (mDagid d) Hid Hl) as Hrun. cbn [length app] in Hrun.
  rewrite <-Hrun by lia. done.
Qed.
Lemma dagid_of_text `{InetPton} junk_value junk_id text d : take 2 text <> codes "0x" ->
  mDagid (set_dagid_text junk_value junk_id text d) = default junk_id (inet_pton6 text).
Proof. intros Ht. unfold set_dagid_text. repeat case_match; subst; done. Qed.

(** * The program *)
Inductive cmd_option :=
| OptUsage                                   (** [-h], [-?], or not an option *)
| OptDaemon | OptDieAfterInit | OptKill
| OptVerbose                                 (** [-v] *)
| OptLog                                     (** [-t], [--stderr], [--syslog], [--sleep] *)
| OptRegistrar (arg : list Z) | OptLdevid (arg : list Z) | OptIid (arg : list Z) | OptIpv6 (arg : list Z)
| OptPrefix (arg : list Z) | OptIgnorePio
| OptIfFilter (arg : list Z) | OptAddrFilter (arg : list Z)
| OptInstance (arg : list Z) | OptInterval (arg : list Z) | OptRank (arg : list Z) | OptDagid (arg : list Z)
| OptInterface (name : string) | OptNomulticast.

Class Startup := {
  host_lookup : list Z -> Z -> option (Z * list Z);    (** [gethostbyname2] *)
  net_lookup : list Z -> option (Z * Z);               (** [getnetbyname] *)
  addrinfo : list Z -> option (list (bool * bool));    (** [getaddrinfo]: for each address, whether
                                                           [socket] and [connect] succeed *)
  client_writes : bool;                                (** whether a [write] to the registrar takes it all *)
  kill_status : Z;                                     (** how [killanydaemon] exits *)
  daemon_ok : bool;                                    (** [daemon(0, 1)] *)
  pid_dir_ok : bool                                    (** [mkdir] of the PID directory *)
}.

(** [grasp_client::open_connection] *)
Definition open_connection `{Startup} (serverip : list Z) : bool :=
  match addrinfo serverip with
  | None => false
  | Some addrs => existsb (fun a => fst a && snd a) addrs
  end.

(** The variables of [main]. *)
Record locals := mk_locals {
  l_iface : option nat;
  bedaemon : bool;
  grounded : bool;
  justkidding : bool;
  loaded : Z;
  grasp_portnum : Z;
  grasp_registrar : option (list Z);
  di_sn : ip_subnet;                (** [di.sn] *)
  l_dag : option nat
}.
#[global] Instance eta_locals : Eta locals := fun r =>
  mk_locals (l_iface r) (bedaemon r) (grounded r) (justkidding r) (loaded r) (grasp_portnum r)
    (grasp_registrar r) (di_sn r) (l_dag r).
Definition first_locals (junk : ip_subnet) : locals :=
  mk_locals None false false false 0 3000 None junk None.

Definition EX_USAGE : Z := 64.
(** The program goes on, or exits. *)
Inductive going := On (l : locals) | Exit (status : Z).

(** [strrchr(s, ':')], the string cut there. *)
Fixpoint rcut (s : list Z) : option (list Z * list Z) :=
  match s with
  | [] => None
  | c :: s' =>
      match rcut s' with
      | Some (p, q) => Some (c :: p, q)
      | None => if c =? 58 then Some ([], s') else None
      end
  end.

Section sunshine.
Context `{EventHeap, PrefixMapSem, Fnmatch, InetPton, Startup, Mbedtls}.

(** [check_dag]: an option for a DAG, before there is one, ends in [usage]. *)
Definition on_dag (l : locals) (body : nat -> M world going) : M world going :=
  match l_dag l with None => mret (Exit EX_USAGE) | Some k => body k end.
Definition dag_try (f : dag_network -> outcome dag_network) : M ctx unit :=
  d ← dag_get id; d' ← lift (f d); dag_upd (fun _ => d').
Definition set_on_dag (l : locals) (f : dag_network -> dag_network) : M world going :=
  on_dag l (fun k => in_dag k (dag_upd f) ;; mret (On l)).

(** The address an option gives to [di.sn]. *)
Definition with_address (l : locals) (arg : list Z) (body : nat -> ip_subnet -> M ctx unit) : M world going :=
  on_dag l (fun k =>
    match ttoaddr host_lookup net_lookup arg 0 AF_INET6 (sn_addr (di_sn l)) with
    | Oops _ => mret (Exit EX_USAGE)
    | Good a =>
        let sn := {| sn_addr := a; maskbits := 128 |} in
        in_dag k (body k sn) ;; mret (On (l <| di_sn := sn |> <| loaded := 1 |>))
    end).

(** The case of [-i]. *)
Definition option_interface (l : locals) (name : string) : M world going :=
  found ← in_sys (find_by_name name);
  let l := l <| l_iface := found |> in
  match found with
  | None => mret (On l)
  | Some i =>
      in_sys (get_if_index i) ;;
      in_sys (setup i) ;;
      connected ← (match grasp_registrar l with
                   | Some r =>
                       in_sys (upd_iface i (fun n => n <| join_query_client := Some (mk_grasp 0 client_writes) |>)) ;;
                       mret (open_connection r)
                   | None => mret true
                   end);
      if negb connected then mret (Exit 21)
      else
        (match l_dag l with
         | Some k => when (negb (grounded l)) (in_dag k (send_dis i))
         | None => mret tt
         end) ;;
        mret (On l)
  end.

Definition option_prefix (l : locals) (arg : list Z) : M world going :=
  s ← in_sys get;
  match ttosubnet host_lookup net_lookup arg (zlen arg) AF_INET6 (sn_addr (mPrefix_ (junk_prefix s))) with
  | Oops _ => mret (Exit EX_USAGE)
  | Good (prefix, _) =>
      on_dag l (fun k =>
        in_dag k (dag_upd (dag_set_prefix prefix) ;; set_grounded true ;; dag_upd (set_dagrank 1)) ;;
        mret (On (l <| grounded := true |>)))
  end.

(** One turn of the loop over the options. *)
Definition option_step (o : cmd_option) (l : locals) : M world going :=
  match o with
  | OptUsage => mret (Exit EX_USAGE)
  | OptDaemon => mret (On (l <| bedaemon := true |>))
  | OptDieAfterInit => mret (On (l <| justkidding := true |>))
  | OptKill => mret (Exit kill_status)
  | OptVerbose => in_sys (modify (fun s => s <| verbose := true |>)) ;; mret (On l)
  | OptLog => mret (On l)
  | OptRegistrar arg =>
      match rcut arg with
      | Some (host, port) => mret (On (l <| grasp_portnum := u32 (atoi port) |> <| grasp_registrar := Some host |>))
      | None => mret (On (l <| grasp_registrar := Some arg |>))
      end
  | OptLdevid arg =>
      sn ← lift (load_ldevid arg);
      match sn with
      | None => mret (Exit EX_USAGE)
      | Some sn => on_dag l (fun k =>
          in_dag k (set_acp_identity sn) ;; mret (On (l <| di_sn := sn |> <| loaded := 0 |>)))
      end
  | OptIid arg => with_address l arg (fun k sn => dag_upd (set_explicit_iid sn))
  | OptIpv6 arg => with_address l arg (fun k sn => set_acp_identity sn)
  | OptPrefix arg => option_prefix l arg
  | OptIgnorePio => set_on_dag l (set_ignore_pio true)
  | OptIfFilter arg => on_dag l (fun k => in_dag k (dag_try (set_interface_wildcard arg)) ;; mret (On l))
  | OptAddrFilter arg => on_dag l (fun k =>
      s ← in_sys get;
      let junk := mPrefix_ (junk_prefix s) in
      in_dag k (dag_try (set_interface_filter_text host_lookup net_lookup arg junk (sn_addr junk))) ;; mret (On l))
  | OptInstance arg =>
      k ← new_dag_network (u16 (atoi arg)) None;
      in_dag k (dag_upd set_active ;; dag_upd (set_interval 5000)) ;;
      mret (On (l <| l_dag := Some k |>))
  | OptInterval arg => set_on_dag l (set_interval (atoi arg))
  | OptRank arg => set_on_dag l (fun d => set_sequence 1 (set_dagrank (u32 (atoi arg)) d))
  | OptDagid arg => on_dag l (fun k =>
      s ← in_sys get;
      in_dag k (dag_upd (set_dagid_text (default 0 (junk_bytes s !! 0%nat)) (take 16 (junk_bytes s)) arg)) ;;
      mret (On l))
  | OptInterface name => option_interface l name
  | OptNomulticast => set_on_dag l set_nomulticast
  end.

Fixpoint option_loop (os : list cmd_option) (l : locals) : M world going :=
  match os with
  | [] => mret (On l)
  | o :: os' =>
      r ← option_step o l;
      match r with On l' => option_loop os' l' | Exit status => mret (Exit status) end
  end.

(** What follows the options: [None] when the main loop is reached. *)
Definition start_dag (l : locals) : M world (option Z) :=
  (match l_iface l with
   | None => match l_dag l with
             | Some k => in_dag k add_all_interfaces
             | None => fail NullDeref
             end
   | Some i => when (grounded l && negb (loaded l =? 0))
       (match l_dag l with Some k => in_dag k (addselfprefix i) | None => fail NullDeref end)
   end) ;;
  when (match l_iface l with None => true | Some _ => false end) (in_sys setup_all_if) ;;
  match l_dag l with
  | None => mret (Some EX_USAGE)
  | Some k =>
      when ((loaded l =? 0) && grounded l) (in_dag k add_all_interfaces) ;;
      if bedaemon l && negb daemon_ok then mret (Some 5)
      else if negb pid_dir_ok then mret (Some 10)
      else
        in_dag k (schedule_dio 1) ;;
        mret (if justkidding l then Some 0 else None)
  end.

(** [main] up to the loop: the answers of [scan_devices], and the options. *)
Definition start (open_netlink : bool) (links addrs : option (list nlmsg)) (os : list cmd_option) : M world (option Z) :=
  scanned ← scan_devices open_netlink links addrs;
  if negb scanned then mret (Some 10)
  else
    s ← in_sys get;
    r ← option_loop os (first_locals (mPrefix_ (junk_prefix s)));
    match r with On l => start_dag l | Exit status => mret (Some status) end.

Definition sunshine (open_netlink : bool) (links addrs : option (list nlmsg)) (os : list cmd_option) (ts : list turn)
  : M world (option Z) :=
  r ← start open_netlink links addrs os;
  match r with Some status => mret (Some status) | None => main_loop ts ;; mret None end.
End sunshine.
