(* ===== verification/Worlds.v ===== *)
(** The whole program: the invariant of the world that every packet keeps, the
    timers the main loop runs, and what happens when an interface goes away. *)

From Stdlib Require Import ZArith Lia String.
From stdpp Require Import base list gmap numbers strings.
From S2P Require Import Prelude Wire Subopt Event Prefix State Iface Build Dag DagFacts Safety Handlers.
From S2P Require Import Routes Neighbour World Netlink MainLoop.
#[local] Open Scope Z_scope.

(** * Events are never freed by handling messages *)
Definition live_mono (t t' : timers) : Prop := forall j, live t j -> live t' j.
Definition live_mono_sys (s s' : sys) : Prop := live_mono (things_to_do s) (things_to_do s').
(** ... and the object the method runs on stays the same. *)
Definition live_mono_ctx (c c' : ctx) : Prop :=
  live_mono_sys (shared c) (shared c') /\ dag_self (this c') = dag_self (this c).

#[global] Instance live_mono_preorder : PreOrder live_mono.
Proof. split; [by intros t j|]. intros a b c Hab Hbc j Hj. by apply Hbc, Hab. Qed.
#[global] Instance live_mono_sys_preorder : PreOrder live_mono_sys.
Proof. split; [by intros s j|]. intros a b c ? ?. unfold live_mono_sys in *. by etransitivity. Qed.
#[global] Instance live_mono_ctx_preorder : PreOrder live_mono_ctx.
Proof. split; [by intros c; split; [intros j|]|]. intros a b c [H1 H2] [H3 H4]. split; [by etransitivity|congruence]. Qed.

Section live.
Context `{EventHeap, PrefixMapSem}.

Lemma lm_set_event i f : (forall e, deleted (f e) = deleted e) -> keeps live_mono (set_event i f).
Proof. intros Hf. apply keeps_modify. intros t j. by apply live_alter. Qed.
Lemma lm_get_event i : keeps live_mono (get_event i).
Proof. intros t e t'. unfold get_event. repeat case_match; try done. by intros [= _ <-]. Qed.
Lemma lm_new_event sec msec ty : keeps live_mono (new_event sec msec ty).
Proof.
  intros t e t' [= _ <-] j (x & Hx & Hd). exists x. split; [|done]. cbn. by apply lookup_app_l_Some.
Qed.
Lemma lm_set_alarm i t rel sec msec : keeps live_mono (set_event i (set_alarm t rel sec msec)).
Proof. apply lm_set_event. intros e. apply set_alarm_keeps. Qed.
Lemma lm_queue f : keeps live_mono (modify (fun t : timers => t <| queue ::= f |>)).
Proof. apply keeps_modify. by intros t j. Qed.
Hint Resolve lm_get_event lm_set_alarm lm_queue : keep.
Hint Extern 2 (keeps live_mono (set_event _ _)) => (apply lm_set_event; done) : keep.
Lemma lm_requeue i : keeps live_mono (requeue i).
Proof. unfold requeue, _requeue, add_event. keep. Qed.
Hint Resolve lm_requeue : keep.
Lemma lm_alarm_event i now sec msec : keeps live_mono (alarm_event i now sec msec).
Proof. unfold alarm_event. keep. Qed.
Hint Resolve lm_alarm_event : keep.
Lemma lm_arm_event i ty dag msec : keeps live_mono (arm_event i ty dag msec).
Proof. unfold arm_event, gettimeofday. keep. Qed.

Lemma lm_with_timers {A} (m : M timers A) : keeps live_mono m -> keeps live_mono_sys (with_timers m).
Proof.
  intros Hm s a s'. unfold with_timers, zoom. destruct (m _) as [[b t]|] eqn:E; [|done].
  intros [= _ <-]. exact (Hm _ _ _ E).
Qed.
Lemma lm_quiet_sys {A} (m : M sys A) : keeps (sys_same things_to_do) m -> keeps live_mono_sys m.
Proof. intros Hm s a s' E. apply Hm in E. unfold sys_same in E. unfold live_mono_sys. by rewrite E. Qed.
Lemma lm_with_sys {A} (m : M sys A) : keeps live_mono_sys m -> keeps live_mono_ctx (with_sys m).
Proof.
  intros Hm c a c'. unfold with_sys, zoom. destruct (m _) as [[b s]|] eqn:E; [|done].
  intros [= _ <-]. split; [exact (Hm _ _ _ E)|done].
Qed.
Lemma lm_dag_upd g : (forall d, dag_self (g d) = dag_self d) -> keeps live_mono_ctx (dag_upd g).
Proof. intros Hg c a c' [= _ <-]. split; [done|apply Hg]. Qed.
Lemma lm_dag_get {A} (g : dag_network -> A) : keeps live_mono_ctx (dag_get g).
Proof. intros c a c' [= _ <-]. done. Qed.
Lemma lm_with_member a g : keeps live_mono_ctx (with_member a g).
Proof. intros c x c' [= _ <-]. done. Qed.
Lemma lm_deref a : keeps live_mono_ctx (deref_peer a).
Proof. intros c x c'. unfold deref_peer. case_match; [|done]. by intros [= _ <-]. Qed.
Lemma lm_read_me : keeps live_mono_ctx read_me.
Proof. intros c x c'. unfold read_me. repeat case_match; try done; by intros [= _ <-]. Qed.
Lemma lm_read_pm w h : keeps live_mono_ctx (read_pm w h).
Proof. intros c x c'. unfold read_pm. repeat case_match; try done; by intros [= _ <-]. Qed.
End live.
#[export] Hint Resolve lm_new_event lm_arm_event lm_with_timers lm_quiet_sys lm_with_sys lm_dag_get lm_with_member
  lm_deref lm_read_me lm_read_pm : keep.
#[export] Hint Extern 2 (keeps live_mono_ctx (dag_upd _)) =>
  (apply lm_dag_upd; intros []; try reflexivity; (repeat case_match); reflexivity) : keep.

(** * The interface leaves the timers alone *)
Section sys_frames.
Lemma td_upd i g : keeps (sys_same things_to_do) (upd_iface i g).
Proof. unfold upd_iface. keep. Qed.
Lemma td_emit o : keeps (sys_same things_to_do) (emit o).
Proof. unfold emit. keep. Qed.
Hint Resolve td_upd td_emit : keep.
Lemma td_index i : keeps (sys_same things_to_do) (get_if_index i).
Proof. unfold get_if_index. keep. Qed.
Hint Resolve td_index : keep.
Lemma td_join i : keeps (sys_same things_to_do) (join_group i).
Proof. unfold join_group. keep. Qed.
Hint Resolve td_join : keep.
Lemma td_add i : keeps (sys_same things_to_do) (add_to_list i).
Proof. unfold add_to_list. keep. Qed.
Hint Resolve td_add : keep.
Lemma td_setup i : keeps (sys_same things_to_do) (setup i).
Proof. unfold setup. keep. Qed.
Lemma td_check i : keeps (sys_same things_to_do) (check_allrouters_membership i).
Proof. unfold check_allrouters_membership. keep. Qed.
Hint Resolve td_setup td_check : keep.
Lemma td_send i d s b : keeps (sys_same things_to_do) (send_raw_icmp i d s b).
Proof. unfold send_raw_icmp. keep. Qed.
Lemma td_addprefix i p : keeps (sys_same things_to_do) (addprefix i p).
Proof. unfold addprefix, ni_route_show, nisystem. keep. Qed.
Lemma td_parent i p src pn : keeps (sys_same things_to_do) (add_parent_route_to_prefix i p src pn).
Proof. unfold add_parent_route_to_prefix, ni_route_show, nisystem. keep. Qed.
Hint Resolve td_parent : keep.
Lemma td_default i src pn : keeps (sys_same things_to_do) (add_parent_route_to_default i src pn).
Proof. unfold add_parent_route_to_default. keep. Qed.
Lemma td_node `{PrefixMapSem} i p pn src : keeps (sys_same things_to_do) (add_route_to_node i p pn src).
Proof. unfold add_route_to_node, ni_route_show, nisystem. keep. Qed.
End sys_frames.
#[export] Hint Resolve td_upd td_emit td_index td_add td_setup td_send td_addprefix td_parent td_default td_node : keep.

Section dag_frames.
Context `{EventHeap, PrefixMapSem}.

Lemma lm_count x : keeps live_mono_ctx (dag_count x).
Proof. unfold dag_count. keep. Qed.
Lemma lm_seq seq : keeps live_mono_ctx (dag_upd (seq_update seq)).
Proof. apply lm_dag_upd. intros d. unfold seq_update. by repeat case_bool. Qed.
Lemma lm_schedule_dio ms : keeps live_mono_ctx (schedule_dio ms).
Proof. unfold schedule_dio, arm_dag_event. keep. Qed.
Lemma lm_schedule_dao : keeps live_mono_ctx schedule_dao.
Proof. unfold schedule_dao, arm_dag_event. keep. Qed.
Hint Resolve lm_count lm_seq lm_schedule_dio lm_schedule_dao : keep.
Lemma lm_maybe_dio : keeps live_mono_ctx maybe_schedule_dio.
Proof. unfold maybe_schedule_dio. keep. Qed.
Lemma lm_maybe_dao : keeps live_mono_ctx maybe_send_dao.
Proof. unfold maybe_send_dao. keep. Qed.
Lemma lm_upd_pm w h f : keeps live_mono_ctx (upd_pm w h f).
Proof. unfold upd_pm. apply lm_dag_upd. intros []. by destruct w. Qed.
Hint Resolve lm_maybe_dio lm_maybe_dao lm_upd_pm : keep.
Lemma lm_configureip w h i : keeps live_mono_ctx (configureip w h i).
Proof. unfold configureip. keep. Qed.
Hint Resolve lm_configureip : keep.
Lemma lm_cfg w h i p : keeps live_mono_ctx (cfg_new_node w h i p).
Proof. unfold cfg_new_node. keep. Qed.
Lemma lm_add_address p : keeps live_mono_ctx (add_address p).
Proof. unfold add_address. keep. Qed.
Hint Resolve lm_cfg lm_add_address : keep.
Lemma lm_add_prefix i p : keeps live_mono_ctx (add_prefix i p).
Proof. unfold add_prefix. keep. Qed.
Lemma lm_announcer a : keeps live_mono_ctx (deref_announcer a).
Proof. destruct a; cbn [deref_announcer]; keep. Qed.
Hint Resolve lm_add_prefix lm_announcer : keep.
Lemma lm_via h i : keeps live_mono_ctx (add_route_via_node h i).
Proof. unfold add_route_via_node. keep. Qed.
Hint Resolve lm_via : keep.
Lemma lm_child peer i p : keeps live_mono_ctx (add_childnode peer i p).
Proof. unfold add_childnode, add_childnode_of. keep. Qed.
Hint Resolve lm_child : keep.
Lemma lm_pio_loop fuel i m : keeps live_mono_ctx (pio_loop fuel i m).
Proof. revert m. induction fuel; intros m; cbn [pio_loop]; keep. Qed.
Lemma lm_target_loop fuel peer i m : keeps live_mono_ctx (target_loop fuel peer i m).
Proof. revert m. induction fuel; intros m; cbn [target_loop]; keep. Qed.
Lemma lm_update_node i from now : keeps live_mono_ctx (update_node i from now).
Proof. unfold update_node. keep. Qed.
Lemma lm_daoack_out i child s : keeps live_mono_ctx (send_daoack i child s).
Proof. unfold send_daoack. keep. Qed.
Lemma lm_commit : keeps live_mono_ctx commit_parent.
Proof. unfold commit_parent. keep. Qed.
Hint Resolve lm_pio_loop lm_target_loop lm_update_node lm_daoack_out lm_commit : keep.
Lemma lm_choose peer i dio m : keeps live_mono_ctx (potentially_lower_rank peer i dio m).
Proof. unfold potentially_lower_rank. keep. Qed.
Hint Resolve lm_choose : keep.
Lemma lm_receive_dio i from now dat len : keeps live_mono_ctx (dag_receive_dio i from now dat len).
Proof. unfold dag_receive_dio. keep. Qed.
Lemma lm_receive_dis : keeps live_mono_ctx dag_receive_dis.
Proof. unfold dag_receive_dis. keep. Qed.
Lemma lm_receive_dao i from now dao dat off len : keeps live_mono_ctx (dag_receive_dao i from now dao dat off len).
Proof. unfold dag_receive_dao. keep. Qed.
Lemma lm_receive_daoack from ack : keeps live_mono_ctx (dag_receive_daoack from ack).
Proof. unfold dag_receive_daoack. keep. Qed.
End dag_frames.
#[export] Hint Resolve lm_count lm_schedule_dio lm_schedule_dao lm_maybe_dio lm_maybe_dao lm_upd_pm lm_configureip
  lm_cfg lm_add_address lm_add_prefix : keep.

(** * The invariant of the world

    Every DAG is good, in the sense of [dag_ok], with respect to the one queue of
    events; the lists name objects that exist.  [F] is one more fact about every
    DAG. *)
Definition world_with (n : nat) (F : dag_network -> Prop) (w : world) : Prop :=
  exists t, queue_ok t /\ env n t (wsys w) /\
    (forall k d, dags w !! k = Some d -> dag_self d = k /\ dag_ok n t d /\ F d) /\
    Forall (fun k => k < length (dags w))%nat (all_dag w).
Definition world_ok (n : nat) : world -> Prop := world_with n (fun _ => True).

Section invariant.
Context `{EventHeapLaws, PrefixMapLaws} (n : nat).

Lemma world_weaken F w : world_with n F w -> world_ok n w.
Proof. intros (t & ? & ? & Hd & ?). exists t. split_and!; try done. intros k d Hk. by destruct (Hd k d Hk) as (? & ? & _). Qed.

Lemma in_sys_ok {A} F (m : M sys A) : (forall t, safe (env n t) m (fun _ => env n t)) ->
  safe (world_with n F) (in_sys m) (fun _ => world_with n F).
Proof.
  intros Hm w (t & Hq & He & Hd & Ha). destruct (Hm t _ He) as (a & s & E & He').
  exists a, (w <| wsys := s |>). unfold in_sys, zoom. rewrite E. split; [done|]. by exists t.
Qed.

(** A method of a DAG: [P] is what it needs, [G] what it leaves of the DAG. *)
Lemma in_dag_from {A} F (P : ctx -> Prop) (G : dag_network -> Prop) k (m : M ctx A) w d : (forall d, F d -> G d) ->
  safe (fun c => ctx_ok n c /\ P c) m (fun _ c => ctx_ok n c /\ G (this c)) -> keeps live_mono_ctx m ->
  world_with n F w -> dags w !! k = Some d -> P (mk_ctx d (wsys w)) ->
  exists a w', in_dag k m w = Ok (a, w') /\ world_with n G w' /\ length (dags w') = length (dags w).
Proof.
  intros HFG Hm Hlm (t & Hq & He & Hd & Ha) Hk HP. unfold in_dag. rewrite Hk.
  destruct (Hd k d Hk) as (Hself & Hok & _).
  assert (ctx_ok n (mk_ctx d (wsys w))) as Hc by by exists t.
  destruct (Hm _ (conj Hc HP)) as (a & c' & E & (t' & Hq' & He' & Hok') & HG). rewrite E.
  pose proof (Hlm _ _ _ E) as [Hlive Hs']. eexists _, _. split; [done|].
  split; [|by cbn; rewrite length_insert]. exists t'. split; [done|].
  split; [done|]. cbn [dags all_dag upd]. split.
  - intros j d' Hj. destruct (decide (k = j)) as [->|Hne].
    + rewrite list_lookup_insert_eq in Hj by by eapply lookup_lt_Some. injection Hj as <-.
      split; [|done]. by rewrite Hs'.
    + rewrite list_lookup_insert_ne in Hj by done. destruct (Hd j d' Hj) as (? & Hdok & ?).
      split; [done|]. split; [|by apply HFG]. eapply dag_ok_mono; [|done].
      destruct He as [<- _], He' as [<- _]. exact Hlive.
  - cbn. rewrite length_insert. exact Ha.
Qed.
Lemma in_dag_to {A} F (P G : dag_network -> Prop) k (m : M ctx A) w d : (forall d, F d -> G d) ->
  safe (fun c => ctx_ok n c /\ P (this c)) m (fun _ c => ctx_ok n c /\ G (this c)) -> keeps live_mono_ctx m ->
  world_with n F w -> dags w !! k = Some d -> P d ->
  exists a w', in_dag k m w = Ok (a, w') /\ world_with n G w' /\ length (dags w') = length (dags w).
Proof. intros HFG Hm Hlm Hw Hk HP. by apply (in_dag_from F (fun c => P (this c)) G k m w d). Qed.
Lemma in_dag_ok {A} F (P : dag_network -> Prop) k (m : M ctx A) w d :
  safe (fun c => ctx_ok n c /\ P (this c)) m (fun _ => ctx_ok n) -> keeps live_mono_ctx m ->
  world_with n F w -> dags w !! k = Some d -> P d ->
  exists a w', in_dag k m w = Ok (a, w') /\ world_ok n w'.
Proof.
  intros Hm Hlm Hw Hk HP.
  destruct (in_dag_to F P (fun _ => True) k m w d) as (a & w' & E & Hw' & _); [done| |done..|by exists a, w'].
  by eapply safe_weaken.
Qed.

Lemma in_dag_get {T} (f : dag_network -> T) k w d : dags w !! k = Some d ->
  in_dag k (dag_get f) w = Ok (f d, w).
Proof.
  intros Hd. unfold in_dag. rewrite Hd.
  change (Ok (f d, w <| dags ::= <[k := d]> |> <| wsys := wsys w |>) = Ok (f d, w)).
  destruct w. unfold upd. cbn -[insert] in *. by rewrite list_insert_id.
Qed.

(** Looking a DAG up changes nothing. *)
Lemma find_dag_run num l w : Forall (fun k => k < length (dags w))%nat l ->
  exists r, find_dag num l w = Ok (r, w) /\ (forall k, r = Some k -> is_Some (dags w !! k)).
Proof.
  induction l as [|k l IH]; intros Hl; [by exists None|].
  apply Forall_cons in Hl as [Hk Hl]. destruct (lookup_lt_is_Some_2 (dags w) k Hk) as [d Hd].
  cbn [find_dag]. rewrite (bind_ok _ _ w d w) by by apply (in_dag_get id).
  case_bool; [|by apply IH]. exists (Some k). split; [done|]. by intros j [= <-].
Qed.

Lemma find_by_run F num w : world_with n F w ->
  exists r, find_by_instanceid num w = Ok (r, w) /\ (forall k, r = Some k -> is_Some (dags w !! k)).
Proof. intros (t & _ & _ & _ & Ha). unfold find_by_instanceid. rewrite (bind_ok _ _ w w w) by done. by apply find_dag_run. Qed.

Lemma fresh_dag_ok t junk k num id :
  let d := fresh_dag junk k num id <| mActive := false |> in dag_self d = k /\ dag_ok n t d.
Proof. destruct junk, id; cbn; by split_and!. Qed.

(** A DAG that is made for watching is not active. *)
Lemma find_or_make_ok F num id b w : (forall d, mActive d = false -> F d) -> world_with n F w ->
  exists k w', find_or_make_by_instanceid num id b w = Ok (k, w') /\ world_with n F w' /\ is_Some (dags w' !! k).
Proof.
  intros HF Hw. unfold find_or_make_by_instanceid.
  destruct (find_by_run F num w Hw) as (r & E & Hr).
  rewrite (bind_ok _ _ w r w) by exact E. destruct r as [k|]; [by exists k, w; auto|].
  unfold new_dag_network. rewrite (bind_ok _ _ w (length (dags w))
    (w <| dags ::= (fun l => l ++ [fresh_dag (junk_dag w) (length (dags w)) num (Some id)]) |>
       <| all_dag ::= cons (length (dags w)) |>)) by done.
  pose proof (fun t => fresh_dag_ok t (junk_dag w) (length (dags w)) num (Some id)) as Hfresh.
  set (d0 := fresh_dag _ _ _ _) in *. clearbody d0. set (w1 := w <| dags ::= _ |> <| all_dag ::= _ |>).
  set (w2 := if b then w1 <| wsys ::= (fun s => s <| globalStats ::= bump (ps PS_DAG_CREATED_FOR_WATCHING) |>) |> else w1).
  rewrite (bind_ok _ _ w1 tt w2) by (subst w2; destruct b; [by destruct w as [? ? [] ?]|done]).
  assert (dags w2 = dags w ++ [d0]) as Hdags by (subst w2; by destruct b).
  set (w3 := w2 <| dags := dags w ++ [d0 <| mActive := false |>] |>).
  rewrite (bind_ok _ _ w2 tt w3); cycle 1.
  { unfold in_dag. rewrite Hdags, lookup_app_r, Nat.sub_diag by done. cbn [lookup list_lookup].
    change (Ok (tt, w2 <| dags ::= <[length (dags w) := d0 <| mActive := false |>]> |> <| wsys := wsys w2 |>) = Ok (tt, w3)).
    subst w3. clearbody w2. destruct w2. unfold upd. cbn -[insert] in *.
    by rewrite Hdags, insert_app_r_alt, Nat.sub_diag by done. }
  exists (length (dags w)), w3. split; [done|]. split.
  - destruct Hw as (t & Hq & He & Hd & Ha). exists t. split; [done|]. split.
    { subst w3 w2 w1. destruct b; done. }
    split.
    + intros j d Hj. cbn in Hj. apply lookup_app_Some in Hj as [Hj|[Hle Hj]]; [by apply Hd|].
      apply list_lookup_singleton_Some in Hj as [Hj <-]. destruct (Hfresh t) as [Hself Hok].
      split; [rewrite Hself; lia|]. split; [exact Hok|by apply HF].
    + replace (all_dag w3) with (length (dags w) :: all_dag w) by (subst w3 w2 w1; by destruct b).
      cbn. rewrite length_app. cbn. constructor; [lia|]. eapply Forall_impl; [exact Ha|]. intros x Hx. cbn in *. lia.
  - cbn. rewrite lookup_app_r, Nat.sub_diag by done. by eexists.
Qed.
End invariant.

(** * Well-formed RPL messages

    [rpl_message code dat len]: [dat] is what follows the ICMPv6 header in memory,
    of which [len] bytes are the message. *)
Definition solicited_ok (data : list Z) : Prop := 2 <= zlen data.
Inductive rpl_message : Z -> list Z -> Z -> Prop :=
| msg_dio dio os post :
    Dio.wf dio -> Forall tlv_wf os -> Forall pio_ok (select RPL_DIO_DESTPREFIX os) -> zlen (enc os) <= 2048 ->
    rpl_message ND_RPL_DAG_IO (Dio.encode dio ++ enc os ++ post) (Dio.size + zlen (enc os))
| msg_dao dao dagid os post :
    zlen dagid = (if RPL_DAO_D (Dao.rpl_flags dao) =? 0 then 0 else 16) ->
    Forall tlv_wf os -> Forall target_ok (select RPL_DAO_RPLTARGET os) -> zlen (enc os) <= 2048 ->
    rpl_message ND_RPL_DAO ((Dao.encode dao ++ dagid) ++ enc os ++ post)
      (zlen (Dao.encode dao ++ dagid) + zlen (enc os))
| msg_daoack ack dagid post len :
    zlen dagid = (if RPL_DAOACK_D (DaoAck.rpl_flags ack) =? 0 then 0 else 16) ->
    DaoAck.size <= len ->
    rpl_message ND_RPL_DAO_ACK (DaoAck.encode ack ++ dagid ++ post) len
| msg_dis a b os post :
    Forall tlv_wf os -> Forall solicited_ok (select RPL_DIS_SOLICITEDINFO os) -> zlen (enc os) <= 2048 ->
    rpl_message ND_RPL_DAG_IS ([a; b] ++ enc os ++ post) (Dis.size + zlen (enc os)).

Section receiving.
Context `{EventHeapLaws, PrefixMapLaws} (n : nat).

Lemma long_enough F i a b w : b <= a ->
  world_with n F w -> in_sys (packet_too_short i a b) w = Ok (false, w).
Proof.
  intros Hab _. unfold in_sys, zoom, packet_too_short. rewrite (proj2 (Z.ltb_ge _ _)) by lia. by destruct w.
Qed.

Lemma world_count_ok F x : safe (world_with n F) (world_count x) (fun _ => world_with n F).
Proof. apply in_sys_ok. intros. apply global_count_safe. Qed.

(** Finding the DAG of a message and giving it the message. *)
Lemma deliver_ok F (P : dag_network -> Prop) (find : M world (option nat)) x (m : M ctx unit) w :
  (forall d, F d -> P d) ->
  (exists r w', find w = Ok (r, w') /\ world_with n F w' /\ forall k, r = Some k -> is_Some (dags w' !! k)) ->
  safe (fun c => ctx_ok n c /\ P (this c)) m (fun _ => ctx_ok n) -> keeps live_mono_ctx m ->
  exists w', (dn ← find; match dn with Some k => in_dag k m | None => world_count x end) w = Ok (tt, w') /\
    world_ok n w'.
Proof.
  intros HFP (r & w1 & E & Hw1 & Hr) Hm Hlm. rewrite (bind_ok _ _ w r w1 E). destruct r as [k|].
  - destruct (Hr k eq_refl) as [d Hd]. pose proof Hw1 as (t & _ & _ & Hds & _).
    destruct (Hds k d Hd) as (_ & _ & HF).
    destruct (in_dag_ok n F P k m w1 d Hm Hlm Hw1 Hd (HFP d HF)) as ([] & w' & E' & Hw'). by exists w'.
  - destruct (world_count_ok F x w1 Hw1) as ([] & w' & E' & Hw'). exists w'. split; [done|]. by eapply world_weaken.
Qed.

Lemma find_dag_for_ok F i num id w : (i < n)%nat -> (forall d, mActive d = false -> F d) -> world_with n F w ->
  exists r w', find_dag_for i num id w = Ok (r, w') /\ world_with n F w' /\
    forall k, r = Some k -> is_Some (dags w' !! k).
Proof.
  intros Hi HF Hw. unfold find_dag_for.
  destruct (in_sys_ok n F (get_iface i) (fun t => get_iface_safe n t i Hi) w Hw) as (ni & w0 & E & Hw0).
  rewrite (bind_ok _ _ w ni w0 E). destruct (watching ni).
  - destruct (find_or_make_ok n F num id true w0 HF Hw0) as (k & w' & E' & Hw' & Hk).
    rewrite (bind_ok _ _ w0 k w' E'). exists (Some k), w'. split; [done|]. split; [done|]. by intros j [= <-].
  - destruct (find_by_run n F num w0 Hw0) as (r & E' & Hr). exists r, w0. by split.
Qed.

Lemma receive_dio_ok i from now dio os post w : (i < n)%nat ->
  Dio.wf dio -> Forall tlv_wf os -> Forall pio_ok (select RPL_DIO_DESTPREFIX os) -> zlen (enc os) <= 2048 ->
  world_ok n w ->
  exists w', receive_dio i from now (Dio.encode dio ++ enc os ++ post) (Dio.size + zlen (enc os)) w = Ok (tt, w') /\
    world_ok n w'.
Proof.
  intros Hi Hwf Hos Hpio Hlen Hw. unfold receive_dio. pose proof (zlen_nonneg (enc os)).
  rewrite (bind_ok _ _ w false w) by (eapply long_enough; [lia|exact Hw]).
  rewrite (bind_ok _ _ w dio w) by (unfold lift; by rewrite overlay_dio).
  apply (deliver_ok (fun _ => True) (fun _ => True)); [done|by apply find_dag_for_ok| |apply lm_receive_dio].
  eapply safe_weaken; [by apply (dag_receive_dio_returns n i from now dio os post)|by intros c []|done].
Qed.

Lemma overlay_at0 {A} size bs rest (f : list Z -> A) : zlen bs = size ->
  (b ← rd_range (bs ++ rest) 0 size; Ok (f b)) = Ok (f bs).
Proof. intros Hs. exact (overlay_block size f [] bs rest Hs). Qed.

Lemma read_dagid_run F dat flag size bs dagid rest w : dat = bs ++ dagid ++ rest -> zlen bs = size ->
  zlen dagid = (if flag =? 0 then 0 else 16) -> world_with n F w ->
  exists id, read_dagid dat flag size w = Ok (id, w).
Proof.
  intros -> Hs Hd _. unfold read_dagid. rewrite (bind_ok _ _ w (wsys w) w) by (by destruct w).
  destruct (flag =? 0); [by eexists|]. unfold lift. rewrite <-Hs, <-Hd, rd_range_app. by eexists.
Qed.

Lemma receive_dao_ok i from now dao dagid os post w : (i < n)%nat ->
  zlen dagid = (if RPL_DAO_D (Dao.rpl_flags dao) =? 0 then 0 else 16) ->
  Forall tlv_wf os -> Forall target_ok (select RPL_DAO_RPLTARGET os) -> zlen (enc os) <= 2048 ->
  world_with n identified w ->
  exists w', receive_dao i from now ((Dao.encode dao ++ dagid) ++ enc os ++ post)
      (zlen (Dao.encode dao ++ dagid) + zlen (enc os)) w = Ok (tt, w') /\ world_ok n w'.
Proof.
  intros Hi Hid Hos Htg Hlen Hw. unfold receive_dao. pose proof (zlen_nonneg (enc os)). pose proof (zlen_nonneg dagid).
  assert (zlen (Dao.encode dao) = Dao.size) as He by done.
  rewrite (bind_ok _ _ w false w) by (eapply long_enough; [rewrite zlen_app; lia|exact Hw]).
  rewrite (bind_ok _ _ w dao w); cycle 1.
  { unfold lift, Dao.overlay. rewrite <-app_assoc, overlay_at0 by done. by destruct dao. }
  destruct (read_dagid_run identified ((Dao.encode dao ++ dagid) ++ enc os ++ post) (RPL_DAO_D (Dao.rpl_flags dao))
    Dao.size (Dao.encode dao) dagid (enc os ++ post) w) as [id E]; [by rewrite <-app_assoc|done..|].
  cbv zeta. rewrite (bind_ok _ _ w id w E).
  assert (option_start (RPL_DAO_D (Dao.rpl_flags dao)) Dao.size = zlen (Dao.encode dao ++ dagid)) as ->.
  { rewrite zlen_app, He, Hid. unfold option_start. case_bool; lia. }
  replace (zlen (Dao.encode dao ++ dagid) + zlen (enc os) - zlen (Dao.encode dao ++ dagid)) with (zlen (enc os)) by lia.
  rewrite s32_u32 by lia.
  apply (deliver_ok identified identified); [done| | |apply lm_receive_dao].
  - apply find_dag_for_ok; [done|by intros d Hd; unfold identified; rewrite Hd|done].
  - by apply dag_receive_dao_returns.
Qed.

Lemma receive_daoack_ok i from now ack dagid post len w :
  zlen dagid = (if RPL_DAOACK_D (DaoAck.rpl_flags ack) =? 0 then 0 else 16) ->
  DaoAck.size <= len -> world_ok n w ->
  exists w', receive_daoack i from now (DaoAck.encode ack ++ dagid ++ post) len w = Ok (tt, w') /\ world_ok n w'.
Proof.
  intros Hid Hlen Hw. unfold receive_daoack.
  rewrite (bind_ok _ _ w false w) by (eapply long_enough; [lia|exact Hw]).
  rewrite (bind_ok _ _ w ack w).
  2:{ unfold lift, DaoAck.overlay. rewrite overlay_at0 by done. by destruct ack. }
  destruct (read_dagid_run (fun _ => True) (DaoAck.encode ack ++ dagid ++ post) (RPL_DAOACK_D (DaoAck.rpl_flags ack))
    DaoAck.size (DaoAck.encode ack) dagid post w) as [id E]; [done..|].
  cbv zeta. rewrite (bind_ok _ _ w id w E).
  case_bool.
  { destruct (world_count_ok (fun _ => True) PS_DAOACK_NO_DAGID_IGNORED w Hw) as ([] & w' & E' & ?). by exists w'. }
  apply (deliver_ok (fun _ => True) (fun _ => True)); [done| | |apply lm_receive_daoack].
  - destruct (find_by_run n (fun _ => True) (DaoAck.rpl_instanceid ack) w Hw) as (r & E' & Hr). by exists r, w.
  - eapply safe_weaken; [apply (dag_receive_daoack_returns n from ack)|by intros c []|done].
Qed.
Lemma find_solicited_ok o num w (b c : bool) : o = Ok num -> world_ok n w ->
  exists r w', (if b then _ ← lift o; find_by_instanceid num
                else if c then _ ← lift o; find_by_instanceid num else mret None) w = Ok (r, w') /\
    world_ok n w' /\ forall k, r = Some k -> is_Some (dags w' !! k).
Proof.
  intros -> Hw. destruct (find_by_run n (fun _ => True) num w Hw) as (r & E & Hr).
  destruct b; [|destruct c]; [by exists r, w..|by exists None, w].
Qed.

Lemma receive_dis_safe : safe (fun c => ctx_ok n c /\ True) dag_receive_dis (fun _ => ctx_ok n).
Proof.
  apply (safe_weaken _ (ctx_ok n) _ _ (fun _ => ctx_ok n)); [|by intros c []|done].
  unfold dag_receive_dis. repeat (apply keep_bind; [apply dag_count_safe|intros _]). apply schedule_dio_safe.
Qed.

Lemma solicited_loop_ok fuel : forall m os1 os2 w,
  searching m RPL_DIS_SOLICITEDINFO os1 os2 -> Forall solicited_ok (select RPL_DIS_SOLICITEDINFO os2) ->
  (length (select RPL_DIS_SOLICITEDINFO os2) < fuel)%nat -> world_ok n w ->
  exists w', solicited_loop fuel m w = Ok (tt, w') /\ world_ok n w'.
Proof.
  induction fuel as [|fuel IH]; intros m os1 os2 w Hs Hok Hf Hw; [lia|].
  cbn [solicited_loop]. unfold rplsolicitedinfo.
  destruct (search_next m RPL_DIS_SOLICITEDINFO os1 os2 ltac:(by compute) Hs)
    as [(Hnil & m' & Hrun)|(pre & data & post & m' & -> & Hpre & Hrun & Hs' & Hmb & [q Hq])].
  { rewrite (bind_ok _ _ w (m', None) w) by (unfold lift; by rewrite Hrun). by exists w. }
  rewrite select_app, Hpre, select_hit in Hok, Hf. apply Forall_cons_1 in Hok as [Hlen Hok]. unfold solicited_ok in Hlen.
  rewrite (bind_ok _ _ w (m', Some (zlen (enc (os1 ++ pre)))) w) by (unfold lift; by rewrite Hrun).
  cbn beta iota.
  assert (forall k, 0 <= k < 2 -> exists v, rd (mBytes m') (zlen (enc (os1 ++ pre)) + (k + 2)) = Ok v) as Hrd.
  { intros k Hk. rewrite Hmb, Hq, rd_mid by (rewrite !zlen_cons; lia). by eexists. }
  destruct (Hrd 1) as [flags Ef]; [lia|]. destruct (Hrd 0) as [num En]; [lia|].
  rewrite (bind_ok _ _ w flags w) by (unfold lift; change 3 with (1 + 2); by rewrite Ef).
  assert (exists w', (dn ← (if Z.land flags (Z.lor RPL_DIS_SI_I RPL_DIS_SI_D) =? Z.lor RPL_DIS_SI_I RPL_DIS_SI_D then
                  num ← lift (rd (mBytes m') (zlen (enc (os1 ++ pre)) + 2));
                  find_by_instanceid_dagid num (take 16 (drop (Z.to_nat (zlen (enc (os1 ++ pre)) + 4)) (mBytes m')))
                else if negb (Z.land flags RPL_DIS_SI_I =? 0) then
                  num ← lift (rd (mBytes m') (zlen (enc (os1 ++ pre)) + 2));
                  find_by_instanceid num
                else mret None);
          (match dn with
           | Some k => in_dag k dag_receive_dis
           | None => world_count PS_DIS_PACKET_IGNORED
           end)) w = Ok (tt, w') /\ world_ok n w') as (w1 & E & Hw1).
  { apply (deliver_ok (fun _ => True) (fun _ => True)); [done| |apply receive_dis_safe|apply lm_receive_dis].
    unfold find_by_instanceid_dagid.
    destruct (find_solicited_ok _ num w (Z.land flags (Z.lor RPL_DIS_SI_I RPL_DIS_SI_D) =? Z.lor RPL_DIS_SI_I RPL_DIS_SI_D)
      (negb (Z.land flags RPL_DIS_SI_I =? 0)) En Hw) as (r & w1 & E & H'). exists r, w1. split; [|exact H'].
    rewrite <-E. unfold lift. change 2 with (0 + 2) at 1 2. rewrite En. by repeat case_match. }
  revert E. unfold mbind, M_bind. intros E.
  match type of E with match ?x with _ => _ end = _ => destruct x as [[dn w0]|]; [|done] end.
  rewrite E. by apply (IH _ _ _ _ Hs' Hok); [cbn in Hf; lia|].
Qed.

Lemma receive_dis_ok i a b os post w :
  Forall tlv_wf os -> Forall solicited_ok (select RPL_DIS_SOLICITEDINFO os) -> zlen (enc os) <= 2048 ->
  world_ok n w ->
  exists w', receive_dis i ([a; b] ++ enc os ++ post) (Dis.size + zlen (enc os)) w = Ok (tt, w') /\ world_ok n w'.
Proof.
  intros Hos Hsi Hlen Hw.
  assert (length (junk_bytes (wsys w)) = 2048%nat) as Hj by (by destruct Hw as (t & _ & (_ & _ & _ & ? & _) & _)).
  unfold receive_dis. pose proof (zlen_nonneg (enc os)).
  rewrite (bind_ok _ _ w false w) by (eapply long_enough; [lia|exact Hw]).
  rewrite (bind_ok _ _ w (wsys w) w) by (by destruct w).
  replace (Dis.size + zlen (enc os) - Dis.size) with (zlen (enc os)) by lia. rewrite s32_u32 by lia.
  destruct (init_msg_of (junk_bytes (wsys w)) [a; b] os post RPL_DIS_SOLICITEDINFO Hj Hos Hlen ltac:(by compute))
    as (m & E & Hs & Hf).
  rewrite (bind_ok _ _ w m w) by (unfold lift; change Dis.size with (zlen [a; b]); by rewrite E).
  by apply (solicited_loop_ok _ m [] os).
Qed.
(** Every well-formed RPL message, whole. *)
Lemma receive_packet_returns i src dst now c1 c2 code dat len w : (i < n)%nat -> rpl_message code dat len ->
  world_ok n w -> (code = ND_RPL_DAO -> world_with n identified w) ->
  exists w', receive_packet i src dst now ([ND_RPL_MESSAGE; code; c1; c2] ++ dat) (4 + len) w = Ok (tt, w') /\
    world_ok n w'.
Proof.
  intros Hi Hmsg Hw Hid. unfold receive_packet.
  assert (exists w0, in_sys (upd_iface i (fun x => x <| recv_cnt ::= (fun c => c + 1) |>)) w = Ok (tt, w0) /\
      world_ok n w0 /\ (code = ND_RPL_DAO -> world_with n identified w0)) as (w0 & E0 & Hw0 & Hid0).
  { destruct (in_sys_ok n _ _ (fun t => upd_iface_safe n t i (fun x => x <| recv_cnt ::= (fun c => c + 1) |>)) w Hw)
      as ([] & w0 & E0 & Hw0). exists w0. split; [done|]. split; [done|]. intros Hc.
    destruct (in_sys_ok n _ _ (fun t => upd_iface_safe n t i (fun x => x <| recv_cnt ::= (fun c => c + 1) |>)) w (Hid Hc))
      as ([] & w0' & E0' & Hw0'). congruence. }
  rewrite (bind_ok _ _ w tt w0 E0). rewrite (bind_ok _ _ w0 ND_RPL_MESSAGE w0) by done.
  cbv zeta. rewrite Z.eqb_refl, (bind_ok _ _ w0 code w0) by done.
  replace (4 + len - 4) with len by lia. change (drop 4 ([ND_RPL_MESSAGE; code; c1; c2] ++ dat)) with dat.
  destruct Hmsg as [dio os post|dao dagid os post|ack dagid post len|a b os post].
  - by apply receive_dio_ok.
  - apply receive_dao_ok; auto.
  - by apply receive_daoack_ok.
  - change (exists w', (world_count PS_DIS_PACKET_IGNORED ;;
      receive_dis i ([a; b] ++ enc os ++ post) (Dis.size + zlen (enc os))) w0 = Ok (tt, w') /\ world_ok n w').
    destruct (world_count_ok (fun _ => True) PS_DIS_PACKET_IGNORED w0 Hw0) as ([] & w1 & E1 & Hw1).
    rewrite (bind_ok _ _ w0 tt w1 E1). by apply receive_dis_ok.
Qed.

Lemma receive_many_returns msgs : forall w, world_ok n w ->
  Forall (fun p => (p.1 < n)%nat /\ p.2.1.1 <> ND_RPL_DAO /\ rpl_message p.2.1.1 p.2.1.2 p.2.2) msgs -> forall src dst now,
  exists w', for_each msgs (fun p =>
      receive_packet p.1 src dst now ([ND_RPL_MESSAGE; p.2.1.1; 0; 0] ++ p.2.1.2) (4 + p.2.2)) w = Ok (tt, w') /\
    world_ok n w'.
Proof.
  induction msgs as [|[i [[code dat] len]] msgs IH]; intros w Hw Hm src dst now; [by exists w|].
  apply Forall_cons in Hm as [(Hi & Hne & Hmsg) Hm]. cbn [for_each].
  destruct (receive_packet_returns i src dst now 0 0 code dat len w Hi Hmsg Hw) as (w1 & E & Hw1); [done|].
  rewrite (bind_ok _ _ w tt w1 E). by apply IH.
Qed.
End receiving.

(** * The program receives *)
Section theorems.
Context `{EventHeapLaws, PrefixMapLaws} (n : nat).

(** C3: No well-formed RPL message can make the receiver fault: whatever the
    interface, the lists of DAGs and the state of the timers are, a DIO, a DAO
    (when the active DAGs have an identity), a DAO-ACK or a DIS whose options
    are well formed is handled to the end, over the whole path from the ICMPv6
    header to the DAG, and the invariant of the world holds again. *)
Theorem receive_packet_safe i src dst now c1 c2 code dat len w : (i < n)%nat -> rpl_message code dat len ->
  world_ok n w -> (code = ND_RPL_DAO -> world_with n identified w) ->
  exists w', receive_packet i src dst now ([ND_RPL_MESSAGE; code; c1; c2] ++ dat) (4 + len) w = Ok (tt, w') /\
    world_ok n w'.
Proof. apply receive_packet_returns. Qed.

(** The receiver survives any number of well-formed DIOs, DAO-ACKs and DISs
    on any of its interfaces, one after the other. *)
Lemma receive_sequence_safe src dst now msgs w : world_ok n w ->
  Forall (fun p => (p.1 < n)%nat /\ p.2.1.1 <> ND_RPL_DAO /\ rpl_message p.2.1.1 p.2.1.2 p.2.2) msgs ->
  exists w', for_each msgs (fun p =>
      receive_packet p.1 src dst now ([ND_RPL_MESSAGE; p.2.1.1; 0; 0] ++ p.2.1.2) (4 + p.2.2)) w = Ok (tt, w') /\
    world_ok n w'.
Proof. intros Hw Hm. by apply receive_many_returns. Qed.
End theorems.

(** One DAG, one interface. *)
Definition example_world : world := mk_world [Example.dag] [0%nat] Example.sys Example.dag.

Section witnesses.
#[local] Existing Instance libstdcxx_map.

Lemma example_world_with F : F Example.dag -> world_with 1 F example_world.
Proof.
  intros HF. destruct (example_ctx_ok) as (t & Hq & He & Hd). exists t. split; [done|]. split; [exact He|].
  split; [|by repeat constructor].
  intros k d Hk. apply list_lookup_singleton_Some in Hk as [-> <-]. by split.
Qed.

Lemma receive_packet_safe_witness :
  exists w', receive_packet 0 Example.peer_addr Example.link_addr 1000
      ([ND_RPL_MESSAGE; ND_RPL_DAG_IO; 0; 0] ++ Dio.encode (example_dio 256) ++ enc [example_pio; Pad0] ++ [9])
      (4 + (Dio.size + zlen (enc [example_pio; Pad0]))) example_world = Ok (tt, w') /\ world_ok 1 w'.
Proof.
  apply (receive_packet_safe 1 0 Example.peer_addr Example.link_addr 1000 0 0 ND_RPL_DAG_IO);
    [lia| |by apply example_world_with|done].
  constructor; [by apply example_dio_wf|by repeat constructor|by repeat constructor|by compute].
Defined.

Lemma receive_sequence_safe_witness :
  exists w', for_each [(0%nat, (ND_RPL_DAG_IO, Dio.encode (example_dio 256) ++ enc [example_pio] ++ [], Dio.size + 32));
                       (0%nat, (ND_RPL_DAG_IS, [0; 0] ++ enc [Tlv RPL_DIS_SOLICITEDINFO (1 :: 128 :: zeros 17)] ++ [], Dis.size + 21))]
      (fun p => receive_packet p.1 Example.peer_addr Example.link_addr 1000 ([ND_RPL_MESSAGE; p.2.1.1; 0; 0] ++ p.2.1.2)
                  (4 + p.2.2)) example_world = Ok (tt, w') /\ world_ok 1 w'.
Proof.
  apply (receive_sequence_safe 1); [by apply example_world_with|].
  constructor; [|constructor; [|constructor]]; (split; [cbn; lia|]); (split; [done|]).
  - apply (msg_dio (example_dio 256) [example_pio] []);
      [by apply example_dio_wf|by repeat constructor|by repeat constructor|by compute].
  - apply (msg_dis 0 0 [Tlv RPL_DIS_SOLICITEDINFO (1 :: 128 :: zeros 17)] []);
      [by repeat constructor|by repeat constructor|by compute].
Defined.
End witnesses.
