(* ===== verification/Timers.v ===== *)
(** The timers in the main loop: what fires never faults, the inner loop of
    [network_interface::main_loop] comes to an end and leaves nothing that is
    due, and what stops it from doing so. *)

From Stdlib Require Import ZArith Lia String.
From stdpp Require Import base list gmap numbers strings.
From S2P Require Import Prelude Wire Subopt Event Prefix State Iface Build Dag DagFacts Safety Handlers.
From S2P Require Import Routes Neighbour World Netlink MainLoop Worlds.
#[local] Open Scope Z_scope.

(** * Building a DAO never faults

    However many children the DAG has: the targets that do not fit are left out,
    and the end of the message stays inside the buffer. *)
Definition addressed (pms : list prefix_node) : Prop := Forall (fun pm => length (pm_addr pm) = 16%nat) pms.

Section build.
Lemma wr_range_inside buff off bs : 0 <= off -> off + zlen bs <= zlen buff ->
  exists buff', wr_range buff off bs = Ok buff' /\ length buff' = length buff.
Proof.
  intros Ho Hl. unfold wr_range. rewrite (proj2 (Z.leb_le 0 off)), (proj2 (Z.leb_le _ (zlen buff))) by lia.
  eexists. split; [done|]. rewrite !length_app, length_take_le, length_drop by (unfold zlen in *; lia).
  unfold zlen in *. lia.
Qed.

Lemma build_target_opt_run sn : length (ip_bytes (sn_addr sn)) = 16%nat ->
  exists optbuff, build_target_opt sn = Ok (optbuff, 20) /\ length optbuff = 256%nat.
Proof.
  intros Hl. unfold build_target_opt. change (Z.quot (128 + 7) 8) with 16.
  rewrite rd_range_take by (unfold zlen; lia). rewrite take_ge by lia. cbn [mbind outcome_bind].
  rewrite wr_zeros by (cbn [length app]; lia). cbn [mbind outcome_bind]. eexists. split; [done|].
  rewrite filled_length. cbn [length app]. lia.
Qed.

Lemma append_target_inside buff off optbuff : length buff = 2048%nat -> length optbuff = 256%nat -> 24 <= off <= 2048 ->
  exists buff' k, append_optbuff buff off (2048 - off) RPL_DAO_RPLTARGET optbuff 20 = Ok (buff', k) /\
    length buff' = 2048%nat /\ 24 <= off + k <= 2048.
Proof.
  intros Hb Ho Hoff. unfold append_optbuff, append_suboption. change (20 - 2) with 18.
  change (u32 (18 + 2)) with 20. rewrite u32_small by lia.
  case_bool; zbool; [exists buff, (-1); split_and!; [done..|lia|lia]|].
  rewrite rd_range_take by (unfold zlen; rewrite length_drop; lia). cbn [mbind outcome_bind].
  destruct (wr_range_inside buff off ([u8 RPL_DAO_RPLTARGET; u8 18] ++ take (Z.to_nat 18) (drop 2 optbuff)))
    as (buff' & -> & Hl'); [lia| |].
  { rewrite zlen_app. unfold zlen. rewrite length_take, length_drop. cbn [length]. lia. }
  cbn [mbind outcome_bind]. exists buff', 20. split_and!; [done|lia..].
Qed.

Lemma append_targets_inside pms : forall buff off, addressed pms -> length buff = 2048%nat -> 24 <= off <= 2048 ->
  exists buff' off', append_targets buff 2048 off pms = Ok (buff', off') /\ length buff' = 2048%nat /\
    24 <= off' <= 2048.
Proof.
  induction pms as [|pm pms IH]; intros buff off Hp Hb Ho; [by exists buff, off|].
  apply Forall_cons in Hp as [Hpm Hp]. cbn [append_targets].
  destruct (build_target_opt_run (mPrefix_ pm) Hpm) as (ob & -> & Hob). cbn [mbind outcome_bind].
  destruct (append_target_inside buff off ob Hb Hob Ho) as (buff' & k & -> & Hb' & Hk). cbn [mbind outcome_bind].
  by apply IH.
Qed.

Lemma round8_fits off : 0 <= off <= 2048 -> 0 <= round8 off <= 2048.
Proof.
  intros H. destruct (round8_spec off) as [Hr Hm]; [lia|]. split; [lia|].
  Z.to_euclidean_division_equations; lia.
Qed.

Lemma build_dao_returns `{PrefixMapSem} d : length (mDagid d) = 16%nat ->
  addressed (pm_values (dag_children d)) -> addressed (pm_values (dag_announced d)) ->
  exists buff len, build_dao d 2048 = Ok (dao_next d, buff, len) /\ length buff = 2048%nat /\ 0 <= len <= 2048.
Proof.
  intros Hid Hc Ha. unfold build_dao. rewrite header_filled by lia. cbn [mbind outcome_bind].
  rewrite wr_filled by (done || (cbn; lia)). cbn [mbind outcome_bind].
  fold (dao_next d). change (mDagid (dao_next d)) with (mDagid d).
  rewrite wr_filled by (done || (rewrite Hid; cbn [length Dao.encode]; lia)). cbn [mbind outcome_bind].
  match goal with |- context [append_targets ?b _ _ (pm_values (dag_children (dao_next d)))] => set (b0 := b) end.
  assert (length b0 = 2048%nat) as Hb0 by (subst b0; rewrite filled_length, !length_app, Hid; done). clearbody b0.
  change (Z.of_nat 2048) with 2048. change (icmp6_hdr_size + Dao.size + DAGID_LEN) with 24.
  destruct (append_targets_inside (pm_values (dag_children (dao_next d))) b0 24 Hc Hb0) as (b1 & o1 & -> & Hb1 & Ho1); [lia|].
  cbn [mbind outcome_bind].
  destruct (append_targets_inside (pm_values (dag_announced (dao_next d))) b1 o1 Ha Hb1 Ho1) as (b2 & o2 & -> & Hb2 & Ho2).
  cbn [mbind outcome_bind]. exists b2, (round8 o2). split; [done|]. split; [done|]. apply round8_fits. lia.
Qed.
End build.

(** * What a DAG needs to send *)
Definition sendable `{PrefixMapSem} (d : dag_network) : Prop :=
  dag_sized d /\ (exists bs bits, mPrefix d = subnet6 bs bits /\ length bs = 16%nat /\ 0 <= bits <= 128) /\
  addressed (pm_values (dag_children d)) /\ addressed (pm_values (dag_announced d)).

Section sending.
Context `{EventHeapLaws, PrefixMapLaws} (n : nat).

Lemma build_dio_returns d : sendable d ->
  exists buff, build_dio d 2048 (mPrefix d) = Ok (d <| mDTSN ::= (fun k => u16 (k + 1)) |>, buff, 64) /\
    length buff = 2048%nat.
Proof.
  intros (Hd & (bs & bits & Hp & Hl & Hb) & _). rewrite Hp, build_dio_image by (done || lia).
  eexists. split; [done|]. pose proof (Dio.encode_len _ (dio_of_wf d Hd)) as He.
  destruct (dio_options d bs bits Hl Hb) as (_ & Ho & _). unfold zlen, Dio.size in *.
  rewrite !length_app, length_zeros. cbn [length header]. lia.
Qed.

Lemma send_body_ok F i dst buff len c : (i < n)%nat -> ok n F c -> length buff = 2048%nat -> 0 <= len <= 2048 ->
  exists c', (body ← lift (rd_range buff 0 len); with_sys (send_raw_icmp i dst None body)) c = Ok (tt, c') /\
    ok n F c'.
Proof.
  intros Hi Hc Hb Hl. rewrite (bind_ok _ _ c (take (Z.to_nat len) buff) c); cycle 1.
  { unfold lift. by rewrite rd_range_take by (unfold zlen; lia). }
  destruct (with_sys_ok n F (send_raw_icmp i dst None (take (Z.to_nat len) buff))
    (fun t => send_raw_icmp_safe n t i dst None _ Hi) c Hc) as ([] & c' & E & Hc'). by exists c'.
Qed.

Lemma send_dio_ok i : (i < n)%nat -> safe (ok n sendable) (send_dio i) (fun _ => ok n sendable).
Proof.
  intros Hi c [Hc Hs]. unfold send_dio. rewrite (bind_ok _ _ c (this c) c) by done. unfold id.
  destruct (build_dio_returns (this c) Hs) as (buff & E & Hb). unfold icmp_body_size.
  rewrite (bind_ok _ _ c (this c <| mDTSN ::= (fun k => u16 (k + 1)) |>, buff, 64) c) by (unfold lift; by rewrite E).
  cbn beta iota. set (d' := this c <| mDTSN ::= _ |>).
  rewrite (bind_ok _ _ c tt (c <| this := d' |>)) by done.
  destruct (send_body_ok sendable i None buff 64 (c <| this := d' |>)) as (c' & E' & Hc'); [done| |done|lia|].
  { split; [|exact Hs]. destruct Hc as (t & ? & ? & ?). by exists t. }
  exists tt, c'. by split.
Qed.

Lemma send_dao_ok : safe (ok n sendable) send_dao (fun _ => ok n sendable).
Proof.
  intros c [Hc Hs]. unfold send_dao. rewrite (bind_ok _ _ c (this c) c) by done. unfold id.
  destruct (dag_bestparent (this c)) as [parent|] eqn:Hp; [|by exists tt, c].
  destruct (dag_bestparentif (this c)) as [i|] eqn:Hi; [|by exists tt, c].
  pose proof Hc as (t & Hq & He & Hdok). pose proof Hdok as (_ & _ & Hbest & _ & Hif & _).
  destruct (Hbest parent Hp) as [[nd Hnd] _]. pose proof Hs as (Hd & Hpx & Hch & Han).
  unfold iface_send_dao. rewrite (bind_ok _ _ c (this c) c) by done. unfold id, icmp_body_size.
  destruct (build_dao_returns (this c)) as (buff & len & E & Hb & Hl); [by destruct Hd|done..|].
  rewrite (bind_ok _ _ c (dao_next (this c), buff, len) c) by (unfold lift; by rewrite E).
  cbn beta iota. set (c1 := c <| this := dao_next (this c) |>).
  rewrite (bind_ok _ _ c tt c1) by done.
  rewrite (bind_ok _ _ c1 nd c1) by (unfold deref_peer; cbn; by rewrite Hnd).
  rewrite u32_small by lia.
  destruct (send_body_ok sendable i (Some (node_number nd)) buff len c1) as (c' & E' & Hc'); [|split; [|exact Hs]|done..|].
  { by apply Hif. }
  { by exists t. }
  exists tt, c'. by split.
Qed.
End sending.

(** * What is sent

    With the socket open, or with one that opens when the interface is set up, the
    message goes to the interface, from the address the interface then has. *)
Definition can_send (i : nat) (s : sys) : Prop :=
  nd_socket_open s = true \/
  socket_result s = SockOk /\ exists x, ifaces s !! i = Some x /\ alive x = false.
Definition icmp_sent (i : nat) (dest : option in6_addr) (body : list Z) (s s' : sys) : Prop :=
  can_send i s -> exists x, ifaces s' !! i = Some x /\
    out s' = OIcmp i (default all_rpl_addr dest) (if_addr x) body :: out s /\ nd_socket_open s' = true.
(** The socket stays as it is and nothing is put out. *)
Definition silent (s s' : sys) : Prop :=
  (out s', nd_socket_open s', socket_result s') = (out s, nd_socket_open s, socket_result s).
#[global] Instance silent_preorder : PreOrder silent.
Proof. split; [by intros s|]. intros a b c ? ?. unfold silent in *. congruence. Qed.

(** The DIO of the DAG [k], over one interface: the 64 bytes [build_dio] writes,
    to the RPL group; the DAG counts its DTSN. *)
Definition dio_sent `{PrefixMapSem} (k i : nat) (w w' : world) : Prop :=
  exists d d' buff, dags w !! k = Some d /\ build_dio d 2048 (mPrefix d) = Ok (d', buff, 64) /\
    dags w' = <[k := d']> (dags w) /\ icmp_sent i None (take 64 buff) (wsys w) (wsys w').
(** One DIO over every interface of the list that is active and not a loopback,
    in the order of the list. *)
Inductive dios_sent `{PrefixMapSem} (k : nat) : list nat -> world -> world -> Prop :=
| dios_end w : dios_sent k [] w w
| dios_skip i x l w w' : ifaces (wsys w) !! i = Some x -> is_active x && negb (loopback x) = false ->
    dios_sent k l w w' -> dios_sent k (i :: l) w w'
| dios_over i x l w w1 w' : ifaces (wsys w) !! i = Some x -> is_active x && negb (loopback x) = true ->
    dio_sent k i w w1 -> dios_sent k l w1 w' -> dios_sent k (i :: l) w w'.
(** The DAO of the DAG [k]: what [build_dao] writes, to the best parent over the
    interface it was heard on; nothing while there is no parent. *)
Definition dao_sent `{PrefixMapSem} (k : nat) (w w' : world) : Prop :=
  exists d, dags w !! k = Some d /\
  match dag_bestparent d, dag_bestparentif d with
  | Some parent, Some i => exists d' buff len nd, build_dao d 2048 = Ok (d', buff, len) /\
      dag_members d !! parent = Some nd /\ dags w' = <[k := d']> (dags w) /\
      icmp_sent i (Some (node_number nd)) (take (Z.to_nat len) buff) (wsys w) (wsys w')
  | _, _ => dags w' = dags w /\ wsys w' = wsys w
  end.
(** What an event sends. *)
Definition event_sends `{PrefixMapSem} (e : rpl_event) (w w' : world) : Prop :=
  exists k, event_mDag e = Some k /\
  match event_type e with
  | rpl_send_dio => dios_sent k (all_if (wsys w)) w w'
  | rpl_send_dao => dao_sent k w w'
  | rpl_event_max => False
  end.

Section sends.
Context `{EventHeap, PrefixMapSem}.

Lemma silent_upd_iface i f : keeps silent (upd_iface i f).
Proof. by apply keeps_modify. Qed.
Lemma silent_get_iface i : keeps silent (get_iface i).
Proof. intros s a s'. unfold get_iface. case_decide; [done|]. case_match; [|done]. by intros [= <- <-]. Qed.
Hint Resolve silent_upd_iface silent_get_iface : keep.
Lemma silent_get_if_index i : keeps silent (get_if_index i).
Proof. unfold get_if_index. keep. Qed.
Hint Resolve silent_get_if_index : keep.
Lemma silent_join_group i : keeps silent (join_group i).
Proof. unfold join_group. keep. Qed.
Lemma silent_add_to_list i : keeps silent (add_to_list i).
Proof. unfold add_to_list. keep. by apply keeps_modify. Qed.
Hint Resolve silent_join_group : keep.
Lemma silent_check i : keeps silent (check_allrouters_membership i).
Proof. unfold check_allrouters_membership. keep. Qed.

Lemma get_iface_found i s n s' : get_iface i s = Ok (n, s') -> s' = s /\ ifaces s !! i = Some n.
Proof. unfold get_iface. case_decide; [done|]. by destruct (ifaces s !! i) as [x|]; intros [= <- <-]. Qed.
Lemma setup_open i s b s' : setup i s = Ok (b, s') -> can_send i s ->
  b = true /\ out s' = out s /\ nd_socket_open s' = true.
Proof.
  unfold setup. intros (n & s1 & E1 & E)%bind_inv Hs. apply get_iface_found in E1 as [-> Hn].
  destruct (alive n) eqn:Ha.
  { injection E as <- <-. destruct Hs as [Hs|(_ & x & Hx & Hd)]; [done|]. rewrite Hn in Hx. injection Hx as <-. by rewrite Ha in Hd. }
  apply bind_inv in E as ([] & s2 & E2 & E). pose proof (silent_upd_iface i _ s tt s2 E2) as Hq2.
  apply bind_inv in E as ([] & s3 & E3 & E). pose proof (silent_add_to_list i s2 tt s3 E3) as Hq3.
  apply bind_inv in E as (s4 & s5 & [= <- <-] & E).
  assert (silent s s3) as Hq by by etransitivity. injection Hq as Ho Hop Hr.
  assert (forall s4 s', (join_group i ;; mret true) s4 = Ok (b, s') -> nd_socket_open s4 = true -> out s4 = out s3 ->
    b = true /\ out s' = out s /\ nd_socket_open s' = true) as Hend.
  { intros s4 s5 ([] & s6 & E6 & [= <- <-])%bind_inv Hopen Hout.
    injection (silent_join_group i s4 tt s6 E6) as -> -> _. split_and!; congruence. }
  destruct (nd_socket_open s3) eqn:H3; [by apply (Hend s3)|].
  destruct Hs as [Hs|(Hs & _)]; [congruence|]. rewrite Hr, Hs in E.
  apply bind_inv in E as ([] & s4 & [= <-] & E). by apply Hend in E.
Qed.

Lemma send_raw_icmp_sends i dest src body s s' : send_raw_icmp i dest src body s = Ok (tt, s') ->
  icmp_sent i dest body s s'.
Proof.
  intros E Hs. unfold send_raw_icmp in E. apply bind_inv in E as (b & s1 & E1 & E).
  destruct (setup_open i s b s1 E1 Hs) as (-> & Hout & Hopen). cbn [negb] in E.
  apply bind_inv in E as ([] & s2 & E2 & E). pose proof (silent_check i s1 tt s2 E2) as Hq2.
  apply bind_inv in E as ([] & s3 & E3 & E).
  assert (silent s2 s3) as Hq3.
  { match type of E3 with ?m _ = _ => assert (keeps silent m) as HK by (destruct dest; keep) end. exact (HK _ _ _ E3). }
  apply bind_inv in E as (idx & s4 & E4 & E). pose proof (silent_get_if_index i s3 idx s4 E4) as Hq4.
  apply bind_inv in E as (n & s5 & [-> Hn]%get_iface_found & E).
  assert (silent s1 s4) as Hq by (do 2 (etransitivity; [eassumption|]); done).
  apply bind_inv in E as (s6 & s7 & [= <- <-] & E). injection Hq as Ho Hop _.
  rewrite Hop, Hopen in E. injection E as <-. exists n. cbn. by rewrite Ho, Hop, Hout.
Qed.
End sends.

(** * What a timer does *)
Definition world_td (w w' : world) : Prop := things_to_do (wsys w') = things_to_do (wsys w).
#[global] Instance world_td_preorder : PreOrder world_td.
Proof. split; [by intros w|]. intros a b c ? ?. unfold world_td in *. congruence. Qed.

Section td.
Context `{EventHeap, PrefixMapSem}.

Lemma td_in_dag {A} k (m : M ctx A) : keeps (shared_same things_to_do) m -> keeps world_td (in_dag k m).
Proof.
  intros Hm w a w'. unfold in_dag. destruct (dags w !! k) as [d|]; [|done].
  destruct (m _) as [[b c]|] eqn:E; [|done]. intros [= _ <-]. exact (Hm _ _ _ E).
Qed.
Lemma td_in_sys {A} (m : M sys A) : keeps (sys_same things_to_do) m -> keeps world_td (in_sys m).
Proof.
  intros Hm w a w'. unfold in_sys, zoom. destruct (m _) as [[b c]|] eqn:E; [|done].
  intros [= _ <-]. exact (Hm _ _ _ E).
Qed.
Lemma td_send_dio i : keeps (shared_same things_to_do) (send_dio i).
Proof. unfold send_dio. keep. Qed.
Lemma td_send_dao : keeps (shared_same things_to_do) send_dao.
Proof. unfold send_dao, iface_send_dao. keep. Qed.
Hint Resolve td_in_dag td_in_sys td_send_dio td_send_dao : keep.
Lemma td_send_dio_all k : keeps world_td (send_dio_all k).
Proof. unfold send_dio_all. keep. Qed.
End td.

Section firing.
Context `{EventHeapLaws, PrefixMapLaws} (n : nat).

Lemma in_iface_ok F i w : (i < n)%nat -> world_with n F w -> exists x, in_sys (get_iface i) w = Ok (x, w).
Proof.
  intros Hi (t & _ & (_ & _ & Hl & _ & Hf) & _). unfold in_sys, zoom, get_iface. rewrite Hf. cbn.
  destruct (lookup_lt_is_Some_2 (ifaces (wsys w)) i) as [x ->]; [lia|]. exists x. by destruct w.
Qed.

Lemma lm_send_dio i : keeps live_mono_ctx (send_dio i).
Proof.
  apply (keeps_build live_mono_ctx (fun d => build_dio d icmp_body_size (mPrefix d)) (fun buff len => _)); [|intros b l; keep].
  intros c d' b l ->%build_dio_dag. by split; [intros j|].
Qed.
Lemma lm_send_dao : keeps live_mono_ctx send_dao.
Proof.
  unfold send_dao. apply keeps_bind; [apply _|apply lm_dag_get|intros d].
  destruct (dag_bestparent d) as [a|]; [|keep]. destruct (dag_bestparentif d) as [i|]; [|keep].
  apply (keeps_build live_mono_ctx (fun d => build_dao d icmp_body_size) (fun buff len => _)); [|intros b l; keep].
  intros c d' b l ->%build_dao_dag. by split; [intros j|].
Qed.

(** What [send_dio] and [send_dao] send when they return. *)
Lemma send_dio_sends i c c' : sendable (this c) -> send_dio i c = Ok (tt, c') ->
  exists buff, build_dio (this c) 2048 (mPrefix (this c)) = Ok (this c', buff, 64) /\
    icmp_sent i None (take 64 buff) (shared c) (shared c').
Proof.
  intros Hs E. destruct (build_dio_returns (this c) Hs) as (buff & Eb & Hb). exists buff.
  unfold send_dio in E. rewrite (bind_ok _ _ c (this c) c) in E by done. unfold id, icmp_body_size in E.
  rewrite (bind_ok _ _ c _ c) in E by (unfold lift; by rewrite Eb). cbn beta iota in E.
  set (d' := this c <| mDTSN ::= _ |>) in *. rewrite (bind_ok _ _ c tt (c <| this := d' |>)) in E by done.
  change (64 >? 0) with true in E. unfold when in E.
  rewrite (bind_ok _ _ _ (take 64 buff) (c <| this := d' |>)) in E.
  2:{ unfold lift. by rewrite rd_range_take by (unfold zlen; lia). }
  unfold with_sys, zoom in E. destruct (send_raw_icmp _ _ _ _ _) as [[[] s']|] eqn:Es; [|done].
  injection E as <-. split; [by rewrite Eb|]. exact (send_raw_icmp_sends _ _ _ _ _ _ Es).
Qed.

Lemma send_dao_sends c c' : sendable (this c) -> send_dao c = Ok (tt, c') ->
  match dag_bestparent (this c), dag_bestparentif (this c) with
  | Some parent, Some i => exists buff len nd, build_dao (this c) 2048 = Ok (this c', buff, len) /\
      dag_members (this c) !! parent = Some nd /\
      icmp_sent i (Some (node_number nd)) (take (Z.to_nat len) buff) (shared c) (shared c')
  | _, _ => c' = c
  end.
Proof.
  intros Hs E. pose proof Hs as (Hd & _ & Hch & Han). unfold send_dao in E.
  rewrite (bind_ok _ _ c (this c) c) in E by done. unfold id in E.
  destruct (dag_bestparent (this c)) as [parent|]; [|by injection E].
  destruct (dag_bestparentif (this c)) as [i|]; [|by injection E].
  destruct (build_dao_returns (this c)) as (buff & len & Eb & Hb & Hl); [by destruct Hd|done..|].
  unfold iface_send_dao in E. rewrite (bind_ok _ _ c (this c) c) in E by done. unfold id, icmp_body_size in E.
  rewrite (bind_ok _ _ c _ c) in E by (unfold lift; by rewrite Eb). cbn beta iota in E.
  set (c1 := c <| this := dao_next (this c) |>) in *. rewrite (bind_ok _ _ c tt c1) in E by done.
  apply bind_inv in E as (nd & c2 & En & E).
  assert (c2 = c1 /\ dag_members (this c) !! parent = Some nd) as [-> Hnd].
  { revert En. unfold deref_peer. cbn. destruct (dag_members (this c) !! parent); [|done]. by intros [= <- <-]. }
  rewrite u32_small in E by lia. rewrite (bind_ok _ _ _ (take (Z.to_nat len) buff) c1) in E.
  2:{ unfold lift. by rewrite rd_range_take by (unfold zlen; lia). }
  unfold with_sys, zoom in E. destruct (send_raw_icmp _ _ _ _ _) as [[[] s']|] eqn:Es; [|done].
  injection E as <-. exists buff, len, nd. split; [done|]. split; [done|]. exact (send_raw_icmp_sends _ _ _ _ _ _ Es).
Qed.

Lemma in_dag_inv {A} k (m : M ctx A) w a w' : in_dag k m w = Ok (a, w') ->
  exists d c', dags w !! k = Some d /\ m (mk_ctx d (wsys w)) = Ok (a, c') /\
    dags w' = <[k := this c']> (dags w) /\ wsys w' = shared c'.
Proof.
  unfold in_dag. destruct (dags w !! k) as [d|]; [|done]. destruct (m _) as [[b c']|] eqn:E; [|done].
  intros [= <- <-]. by exists d, c'.
Qed.

Lemma world_sendable w k d : world_with n sendable w -> dags w !! k = Some d -> sendable d.
Proof. intros (? & _ & _ & Hds & _) Hd. by destruct (Hds k d Hd) as (_ & _ & ?). Qed.

Lemma send_dio_one_ok k i w : (i < n)%nat -> world_with n sendable w -> (k < length (dags w))%nat ->
  exists x w', (x ← in_sys (get_iface i); when (is_active x && negb (loopback x)) (in_dag k (send_dio i))) w
    = Ok (tt, w') /\ world_with n sendable w' /\ length (dags w') = length (dags w) /\
    ifaces (wsys w) !! i = Some x /\
    if is_active x && negb (loopback x) then dio_sent k i w w' else w' = w.
Proof.
  intros Hi Hw Hk. destruct (in_iface_ok sendable i w Hi Hw) as [x Hx]. exists x.
  assert (ifaces (wsys w) !! i = Some x) as Hxi.
  { revert Hx. unfold in_sys, zoom, get_iface. case_decide; [done|]. by destruct (ifaces (wsys w) !! i); [intros [= -> _]|]. }
  rewrite (bind_ok _ _ w x w Hx). destruct (is_active x && negb (loopback x)); [|by exists w].
  destruct (lookup_lt_is_Some_2 _ _ Hk) as [d Hd].
  destruct (in_dag_to n sendable sendable sendable k (send_dio i) w d) as ([] & w1 & E & ? & ?);
    [done|by apply send_dio_ok|apply lm_send_dio|done|done|by eapply world_sendable|].
  exists w1. split_and!; try done. destruct (in_dag_inv _ _ _ _ _ E) as (d0 & c' & Hd0 & Em & Hdags & Hsys).
  destruct (send_dio_sends i (mk_ctx d0 (wsys w)) _ (world_sendable w k d0 Hw Hd0) Em) as (buff & Eb & Hs).
  exists d0, (this c'), buff. by rewrite Hsys.
Qed.

Lemma send_dio_all_ok k w : world_with n sendable w -> (k < length (dags w))%nat ->
  exists w', send_dio_all (Some k) w = Ok (tt, w') /\ world_with n sendable w' /\ length (dags w') = length (dags w) /\
    dios_sent k (all_if (wsys w)) w w'.
Proof.
  intros Hw Hk. unfold send_dio_all. rewrite (bind_ok _ _ w (wsys w) w) by (by destruct w).
  assert (Forall (fun i => (i < n)%nat) (all_if (wsys w))) as Hall by (by destruct Hw as (t & _ & (_ & ? & _) & _)).
  revert Hall. generalize (all_if (wsys w)). intros l Hall. revert w Hw Hk.
  induction Hall as [|i l Hi _ IH]; intros w Hw Hk; [exists w; by repeat (split; [done|]); constructor|].
  cbn [for_each]. destruct (send_dio_one_ok k i w Hi Hw Hk) as (x & w1 & E & Hw1 & Hlen & Hx & Hsent).
  rewrite (bind_ok _ _ w tt w1 E). destruct (IH w1 Hw1) as (w2 & E2 & ? & ? & Hl); [lia|].
  exists w2. split_and!; [done..|lia|]. destruct (is_active x && negb (loopback x)) eqn:Ha.
  - by eapply dios_over.
  - subst w1. by eapply dios_skip.
Qed.

(** An event the program makes: for a DAG that exists. *)
Definition fires (m : nat) (ev : rpl_event) : Prop :=
  event_type ev <> rpl_event_max /\ exists k, event_mDag ev = Some k /\ (k < m)%nat.

Lemma doit_ok e ev w : world_with n sendable w -> events (things_to_do (wsys w)) !! e = Some ev ->
  deleted ev = false -> fires (length (dags w)) ev ->
  exists w', doit e w = Ok (true, w') /\ world_with n sendable w' /\ length (dags w') = length (dags w) /\
    things_to_do (wsys w') = things_to_do (wsys w) /\ event_sends ev w w'.
Proof.
  intros Hw He Hd (Hty & k & Hk & Hlt). unfold doit.
  rewrite (bind_ok _ _ w ev w); cycle 1.
  { unfold in_sys, with_timers, zoom. rewrite (get_event_live _ _ ev) by done. by destruct w as [? ? [] ?]. }
  unfold event_sends. rewrite Hk. destruct (event_type ev); [| |done].
  - destruct (send_dio_all_ok k w Hw Hlt) as (w' & E & Hw' & Hlen & Hs). rewrite (bind_ok _ _ w tt w' E).
    exists w'. split_and!; try done; [exact (td_send_dio_all (Some k) w tt w' E)|by exists k].
  - destruct (lookup_lt_is_Some_2 _ _ Hlt) as [d Hdd].
    destruct (in_dag_to n sendable sendable sendable k send_dao w d) as ([] & w' & E & Hw' & Hlen);
      [done|apply send_dao_ok|apply lm_send_dao|done|done|by eapply world_sendable|].
    rewrite (bind_ok _ _ w tt w' E). exists w'. split_and!; try done;
      [exact (td_in_dag k send_dao td_send_dao w tt w' E)|exists k; split; [done|]].
    destruct (in_dag_inv _ _ _ _ _ E) as (d0 & c' & Hd0 & Em & Hdags & Hsys). exists d0. split; [done|].
    pose proof (send_dao_sends (mk_ctx d0 (wsys w)) _ (world_sendable w k d0 Hw Hd0) Em) as Hs. cbn in Hs.
    destruct (dag_bestparent d0) as [parent|]; [|subst c'; by rewrite Hdags, Hsys, list_insert_id].
    destruct (dag_bestparentif d0) as [i|]; [|subst c'; by rewrite Hdags, Hsys, list_insert_id].
    destruct Hs as (buff & len & nd & ? & ? & ?). exists (this c'), buff, len, nd. by rewrite Hsys.
Qed.
End firing.

(** * The queue in the main loop *)

(** The events that wait are for DAGs that exist, with a repeat interval that
    does not wrap (the program only uses milliseconds; 400000 seconds are four
    days) and an alarm before 2038. *)
Definition armed (m : nat) (t : timers) : Prop :=
  forall i e, i ∈ queue t -> events t !! i = Some e ->
    fires m e /\ alarm_ok e /\ 0 <= repeat_sec e <= 400000 /\ 0 <= repeat_msec e < 4294968.
(** Every event that waits repeats after a while. *)
Definition repeating (t : timers) : Prop :=
  forall i e, i ∈ queue t -> events t !! i = Some e -> 0 < repeat_sec e * 1000000 + repeat_msec e * 1000.

Definition due (t : timers) (now : timeval) (i : nat) : bool :=
  match events t !! i with Some e => passed e now | None => false end.

(** What [requeue_at] makes of an event. *)
Definition rearmed (t : timers) (now : timeval) (e : rpl_event) : rpl_event :=
  set_alarm t now (repeat_sec e) (repeat_msec e) (e <| inQueue := false |>) <| inQueue := true |>.

Section queue.
Context `{EventHeapLaws}.

(** Taking the first event off, and putting it back, on the timers alone. *)
Definition taken (i : nat) (t : timers) : timers :=
  t <| queue ::= remove_id i |> <| events ::= alter (fun e => e <| inQueue := false |>) i |>.

Lemma taken_ok t i : queue_ok t -> heap_top (events t) (queue t) = Some i -> queue_ok (taken i t).
Proof.
  intros Hq Ht. destruct (next_event_earliest t Hq) as (r & t' & E & Hq' & _).
  revert E. unfold next_event, eat_event, mbind, M_bind, get, modify. cbn. rewrite Ht. cbn. rewrite Ht. cbn.
  by intros [= <- <-].
Qed.

Lemma requeue_at_run t i e now : queue_ok t -> heap_top (events t) (queue t) = Some i -> events t !! i = Some e ->
  exists t', requeue_at i now (taken i t) = Ok (tt, t') /\ queue_ok t' /\ queue t' = i :: remove_id i (queue t) /\
    events t' !! i = Some (rearmed t now e) /\ (forall j, j <> i -> events t' !! j = events t !! j) /\
    (forall j, live t j -> live t' j) /\ faked_time t' = faked_time t /\ clock t' = clock t.
Proof.
  intros Hq Ht He. pose proof (taken_ok t i Hq Ht) as Hq1.
  destruct (proj1 (proj2 Hq) i (heap_top_in _ _ _ Ht)) as (e0 & He0 & _ & Hd).
  assert (e0 = e) as -> by congruence. clear He0.
  set (e1 := e <| inQueue := false |>).
  assert (events (taken i t) !! i = Some e1) as He1 by (cbn; by rewrite list_lookup_alter_eq, He).
  unfold requeue_at. rewrite (bind_ok _ _ _ e1 (taken i t)) by by apply get_event_live.
  rewrite (bind_ok _ _ _ (taken i t) (taken i t)) by done.
  set (f := set_alarm (taken i t) now (repeat_sec e1) (repeat_msec e1)).
  set (t2 := taken i t <| events ::= alter f i |>). rewrite (bind_ok _ _ _ tt t2) by done.
  assert (queue_ok t2) as Hq2 by (apply set_event_keeps; [done|apply set_alarm_keeps]).
  assert (events t2 !! i = Some (f e1)) as He2.
  { change (alter f i (events (taken i t)) !! i = Some (f e1)). by rewrite list_lookup_alter_eq, He1. }
  destruct (set_alarm_keeps (taken i t) now (repeat_sec e1) (repeat_msec e1) e1) as [Hf1 Hf2]. fold f in Hf1, Hf2.
  change (deleted (f e1) = deleted e) in Hf2.
  unfold _requeue. rewrite (bind_ok _ _ _ (f e1) t2) by (apply get_event_live; [done|by rewrite Hf2]).
  rewrite Hf1. change (inQueue e1) with false. cbn iota.
  destruct (add_event_ok t2 i (f e1) Hq2 He2 Hf1) as [-> Hq3]; [by rewrite Hf2|].
  eexists. split; [done|]. split; [exact Hq3|]. split; [done|].
  split; [|split; [|split; [|by split]]].
  - change (alter (fun e => e <| inQueue := true |>) i (events t2) !! i = Some (rearmed t now e)).
    by rewrite list_lookup_alter_eq, He2.
  - intros j Hj.
    change (alter (fun e => e <| inQueue := true |>) i (alter f i (alter (fun e => e <| inQueue := false |>) i (events t))) !! j
      = events t !! j). by rewrite !list_lookup_alter_ne.
  - intros j Hj. apply (live_alter t2 _ i); [done|]. apply (live_alter (taken i t) f i); [intros x; apply set_alarm_keeps|].
    by apply (live_alter t _ i).
Qed.
End queue.

Section counting.
Lemma filter_due_ext t t' now (q : list nat) : (forall j, j ∈ q -> due t' now j = due t now j) ->
  filter (fun i => due t' now i = true) q = filter (fun i => due t now i = true) q.
Proof.
  induction q as [|j q IH]; intros Hq; [done|]. rewrite !filter_cons, Hq by by left.
  rewrite IH; [done|]. intros k Hk. apply Hq. by right.
Qed.

Lemma rearmed_spec t now e : faked_time t = false -> tv_normal now -> 0 <= repeat_sec e <= 400000 ->
  0 <= repeat_msec e < 4294968 ->
  tv_total (alarm_time (rearmed t now e)) = tv_total now + repeat_sec e * 1000000 + repeat_msec e * 1000 /\
  alarm_ok (rearmed t now e) /\
  repeat_sec (rearmed t now e) = repeat_sec e /\ repeat_msec (rearmed t now e) = repeat_msec e /\
  event_type (rearmed t now e) = event_type e /\ event_mDag (rearmed t now e) = event_mDag e.
Proof.
  intros Hf Hn Hs Hm. unfold rearmed.
  destruct (set_alarm_total t now (repeat_sec e) (repeat_msec e) (e <| inQueue := false |>)) as [Ht _];
    rewrite ?Hf; [apply Hn|done|]. rewrite Hf in Ht.
  pose proof (set_alarm_ok t now (repeat_sec e) (repeat_msec e) (e <| inQueue := false |>)) as Hok.
  rewrite Hf in Hok. specialize (Hok Hn Hs Hm). split; [exact Ht|]. split; [exact Hok|]. unfold set_alarm. by destruct (carry _ _ _).
Qed.
End counting.

Section turns.
Context `{EventHeapLaws, PrefixMapLaws} (n : nat).

Definition td (w : world) : timers := things_to_do (wsys w).
Definition put_td (t : timers) (w : world) : world := w <| wsys ::= (fun s => s <| things_to_do := t |>) |>.
Definition loop_ok (w : world) : Prop :=
  world_with n sendable w /\ armed (length (dags w)) (td w) /\ faked_time (td w) = false.

Lemma timers_run {A} (m : M timers A) w a t' : m (td w) = Ok (a, t') ->
  in_sys (with_timers m) w = Ok (a, put_td t' w).
Proof. intros E. unfold in_sys, with_timers, zoom. unfold td in E. rewrite E. by destruct w. Qed.
Lemma put_td_id w : put_td (td w) w = w.
Proof. by destruct w as [? ? [] ?]. Qed.

Lemma put_td_ok F w t' : queue_ok t' -> (forall j, live (td w) j -> live t' j) ->
  world_with n F w -> world_with n F (put_td t' w).
Proof.
  intros Hq' Hl (t & Hq & (<- & He) & Hd & Ha). exists t'. split; [done|]. split; [split; [done|exact He]|].
  split; [|exact Ha]. intros k d Hk. destruct (Hd k d Hk) as (? & Hok & ?). split; [done|]. split; [|done].
  by eapply dag_ok_mono.
Qed.
Lemma world_queue_ok F w : world_with n F w -> queue_ok (td w).
Proof. by intros (t & Hq & (<- & _) & _). Qed.

(** The result of running one event: [i] at the front of the queue, rearmed. *)
Definition after (now : timeval) (i : nat) (e : rpl_event) (w w' : world) : Prop :=
  queue (td w') = i :: remove_id i (queue (td w)) /\ events (td w') !! i = Some (rearmed (td w) now e) /\
  (forall j, j <> i -> events (td w') !! j = events (td w) !! j) /\ clock (td w') = clock (td w) /\
  (exists w2, doit i (put_td (taken i (td w)) w) = Ok (true, w2) /\ w' = put_td (td w') w2 /\
    event_sends e (put_td (taken i (td w)) w) w2).

(** The events of the list run one after the other, each of them due. *)
Inductive fired (now : timeval) : list nat -> world -> world -> Prop :=
| fired_end w : fired now [] w w
| fired_cons i e l w w1 w' : i ∈ queue (td w) -> events (td w) !! i = Some e -> passed e now = true ->
    after now i e w w1 -> fired now l w1 w' -> fired now (i :: l) w w'.
(** The events that are due. *)
Definition due_events (now : timeval) (w : world) : list nat := filter (fun i => due (td w) now i = true) (queue (td w)).

Lemma run_due_step fuel now w i e : loop_ok w -> tv_normal now ->
  heap_top (events (td w)) (queue (td w)) = Some i -> events (td w) !! i = Some e -> passed e now = true ->
  exists w', run_due (S fuel) now w = run_due fuel now w' /\ loop_ok w' /\ after now i e w w'.
Proof.
  intros (Hw & Harm & Hfk) Hnow Ht He Hp. pose proof (world_queue_ok _ _ Hw) as Hq.
  pose proof (heap_top_in _ _ _ Ht) as Hi. destruct (proj1 (proj2 Hq) i Hi) as (e0 & He0 & _ & Hdel).
  assert (e0 = e) as -> by congruence. clear He0. destruct (Harm i e Hi He) as (Hfire & _ & Hrs & Hrm).
  cbn [run_due]. rewrite (bind_ok _ _ w (zlen (queue (td w))) w) by (erewrite timers_run by done; by rewrite put_td_id).
  assert ((zlen (queue (td w)) >? 0) = true) as ->.
  { destruct (queue (td w)); [by apply elem_of_nil in Hi|]. rewrite zlen_cons. apply Z.gtb_lt. pose proof (zlen_nonneg l). lia. }
  cbn [negb]. rewrite (bind_ok _ _ w (Some i) w); cycle 1.
  { erewrite timers_run by (unfold peek_event, gets; by rewrite Ht). by rewrite put_td_id. }
  rewrite (bind_ok _ _ w e w) by (erewrite timers_run by (by apply get_event_live); by rewrite put_td_id).
  rewrite Hp. set (t0 := td w <| queue ::= remove_id i |>).
  rewrite (bind_ok _ _ w tt (put_td t0 w)) by (apply timers_run; unfold eat_event, modify; by rewrite Ht).
  rewrite (bind_ok _ _ _ tt (put_td (taken i (td w)) w)) by by (erewrite timers_run by done; by destruct w as [? ? [] ?]).
  set (e1 := e <| inQueue := false |>). set (w1 := put_td (taken i (td w)) w).
  assert (world_with n sendable w1) as Hw1.
  { apply put_td_ok; [by apply taken_ok| |done]. intros j Hj. by apply (live_alter (td w) _ i). }
  destruct (doit_ok n i e1 w1) as (w2 & E2 & Hw2 & Hlen & Htd & Hsends); [done| |done|done|].
  { change (alter (fun e => e <| inQueue := false |>) i (events (td w)) !! i = Some e1).
    by rewrite list_lookup_alter_eq, He. }
  rewrite (bind_ok _ _ w1 true w2 E2).
  destruct (requeue_at_run (td w) i e now Hq Ht He) as (t' & E3 & Hq' & Hqueue & Hev & Hoth & Hlive & Hfk' & Hck).
  assert (td w2 = taken i (td w)) as Htd2 by done.
  rewrite (bind_ok _ _ w2 tt (put_td t' w2)) by (apply timers_run; by rewrite Htd2).
  exists (put_td t' w2). split; [done|].
  assert (after now i e w (put_td t' w2)) as Hafter by (split_and!; try done; by exists w2). split; [|done].
  split; [|split]; [| |change (faked_time t' = false); congruence].
  - apply put_td_ok; [done| |done]. intros j (x & Hx & Hdx). rewrite Htd2 in Hx.
    change (alter (fun e => e <| inQueue := false |>) i (events (td w)) !! j = Some x) in Hx.
    apply Hlive. destruct (decide (i = j)) as [->|Hne]; [by exists e|].
    rewrite list_lookup_alter_ne in Hx by done. by exists x.
  - change (armed (length (dags w2)) t'). rewrite Hlen. change (armed (length (dags w)) t'). intros j x Hj Hx.
    rewrite Hqueue in Hj. destruct (decide (j = i)) as [->|Hne].
    + rewrite Hev in Hx. injection Hx as <-.
      destruct (rearmed_spec (td w) now e Hfk Hnow Hrs Hrm) as (_ & Hb & -> & -> & Hty & Hdg).
      split_and!; try done; try lia. unfold fires. by rewrite Hty, Hdg.
    + rewrite Hoth in Hx by done. apply elem_of_cons in Hj as [->|Hj]; [done|].
      apply elem_of_remove_id in Hj as [Hj _]. by apply (Harm j).
Qed.

(** When the first event is not due, or there is none, the loop is over. *)
Definition rested (now : timeval) (w : world) (timeout : Z) : Prop :=
  (forall j, j ∈ queue (td w) -> due (td w) now j = false) /\ 0 <= timeout <= poll_timeout_max /\
  (forall j, j ∈ queue (td w) -> timeout * 1000 < ev_alarm (events (td w)) j - tv_total now + 1000).

Lemma armed_alarms m t : queue_ok t -> armed m t -> alarms_ok (events t) (queue t).
Proof.
  intros Hq Ha i Hi. destruct (proj1 (proj2 Hq) i Hi) as (e & He & _). exists e. split; [done|]. by destruct (Ha i e Hi He) as (_ & ? & _).
Qed.

Lemma next_timeout_spec e now : 0 <= tv_usec (alarm_time e) <= 1000000 -> tv_normal now -> passed e now = false ->
  0 <= next_timeout e now <= poll_timeout_max /\
  next_timeout e now * 1000 < tv_total (alarm_time e) - tv_total now + 1000.
Proof.
  intros Hu Hn Hp. assert (tv_total now < tv_total (alarm_time e)) as Hlt.
  { destruct (Z.le_gt_cases (tv_total (alarm_time e)) (tv_total now)) as [Hle|]; [|lia].
    apply (passed_iff e now Hu Hn) in Hle. congruence. }
  unfold next_timeout, poll_timeout_max.
  assert (tv_total (alarm_time e) - tv_total now < 2147483000000 -> miliseconds_util e now * 1000 <
    tv_total (alarm_time e) - tv_total now + 1000 /\ 0 <= miliseconds_util e now) as Hms.
  { intros Hs. pose proof (miliseconds_util_spec e now Hu Hn). lia. }
  repeat (case_bool; zbool); lia.
Qed.

Lemma run_due_rest fuel now w : loop_ok w -> tv_normal now ->
  (forall i e, heap_top (events (td w)) (queue (td w)) = Some i -> events (td w) !! i = Some e -> passed e now = false) ->
  exists timeout, run_due (S fuel) now w = Ok (timeout, w) /\ rested now w timeout.
Proof.
  intros (Hw & Harm & _) Hnow Hrest. pose proof (world_queue_ok _ _ Hw) as Hq. cbn [run_due].
  rewrite (bind_ok _ _ w (zlen (queue (td w))) w) by (erewrite timers_run by done; by rewrite put_td_id).
  destruct (decide (queue (td w) = [])) as [Hnil|Hne].
  { rewrite Hnil. exists poll_timeout_max. split; [done|]. split_and!; [intros j Hj; rewrite Hnil in Hj; by apply elem_of_nil in Hj|done..|].
    intros j Hj. rewrite Hnil in Hj. by apply elem_of_nil in Hj. }
  destruct (heap_top_some (events (td w)) (queue (td w)) Hne) as [i Ht]. pose proof (heap_top_in _ _ _ Ht) as Hi.
  assert ((zlen (queue (td w)) >? 0) = true) as ->.
  { destruct (queue (td w)); [done|]. rewrite zlen_cons. apply Z.gtb_lt. pose proof (zlen_nonneg l). lia. }
  destruct (proj1 (proj2 Hq) i Hi) as (e & He & _ & Hdel). specialize (Hrest i e Ht He).
  cbn [negb]. rewrite (bind_ok _ _ w (Some i) w); cycle 1.
  { erewrite timers_run by (unfold peek_event, gets; by rewrite Ht). by rewrite put_td_id. }
  rewrite (bind_ok _ _ w e w) by (erewrite timers_run by (by apply get_event_live); by rewrite put_td_id).
  rewrite Hrest. destruct (Harm i e Hi He) as (_ & [Hu _] & _).
  destruct (next_timeout_spec e now Hu Hnow Hrest) as [Hb Hlt].
  exists (next_timeout e now). split; [done|].
  assert (forall j x, j ∈ queue (td w) -> events (td w) !! j = Some x ->
    tv_total (alarm_time e) <= tv_total (alarm_time x)) as Hmin.
  { intros j x Hj Hx. pose proof (heap_earliest _ _ _ j (armed_alarms _ _ Hq Harm) Ht Hj) as Hle. unfold ev_alarm in Hle. by rewrite He, Hx in Hle. }
  split_and!; [|lia|lia|]; intros j Hj; destruct (proj1 (proj2 Hq) j Hj) as (x & Hx & _); specialize (Hmin j x Hj Hx).
  - unfold due. rewrite Hx. destruct (Harm j x Hj Hx) as (_ & [Hux _] & _).
    apply not_true_iff_false. rewrite (passed_iff x now Hux Hnow). apply not_true_iff_false in Hrest.
    rewrite (passed_iff e now Hu Hnow) in Hrest. lia.
  - unfold ev_alarm. rewrite Hx. lia.
Qed.

Lemma after_due now i e w w' : after now i e w w' -> passed (rearmed (td w) now e) now = false ->
  NoDup (queue (td w)) -> i ∈ queue (td w) -> due (td w) now i = true ->
  i :: due_events now w' ≡ₚ due_events now w.
Proof.
  intros (Hqueue & Hev & Hoth & _) Hnp Hnd Hi Hdue. unfold due_events. rewrite Hqueue.
  rewrite (filter_cons_False (fun j => due (td w') now j = true)) by (unfold due; by rewrite Hev, Hnp).
  rewrite <-(remove_id_perm i (queue (td w)) Hnd Hi) at 2. rewrite filter_cons_True by done. f_equiv.
  apply reflexive_eq, filter_due_ext. intros j Hj. apply elem_of_remove_id in Hj as [_ Hne].
  unfold due. by rewrite Hoth.
Qed.

Lemma rested_end now w timeout : rested now w timeout -> exists l, l ≡ₚ due_events now w /\ fired now l w w.
Proof.
  intros [Hr _]. exists []. split; [|constructor]. apply reflexive_eq. unfold due_events. symmetry.
  apply elem_of_nil_inv. intros j [Hd Hj]%list_elem_of_filter. specialize (Hr j Hj). congruence.
Qed.

Lemma run_due_ends (J : world -> Prop) fuel now :
  (forall i e w w', loop_ok w -> J w -> heap_top (events (td w)) (queue (td w)) = Some i ->
    events (td w) !! i = Some e -> after now i e w w' -> loop_ok w' -> J w') ->
  forall w, loop_ok w -> J w -> repeating (td w) -> tv_normal now ->
  (length (due_events now w) < fuel)%nat ->
  exists timeout w', run_due fuel now w = Ok (timeout, w') /\ loop_ok w' /\ J w' /\
    queue (td w') ≡ₚ queue (td w) /\ rested now w' timeout /\
    exists l, l ≡ₚ due_events now w /\ fired now l w w'.
Proof.
  intros HJ. induction fuel as [|fuel IH]; intros w Hok HJw Hrep Hnow Hf; [lia|].
  pose proof (world_queue_ok _ _ (proj1 Hok)) as Hq.
  destruct (heap_top (events (td w)) (queue (td w))) as [i|] eqn:Ht; cycle 1.
  { destruct (run_due_rest fuel now w Hok Hnow) as (timeout & E & Hr); [congruence|]. exists timeout, w.
    split_and!; try done. by apply (rested_end now w timeout). }
  pose proof (heap_top_in _ _ _ Ht) as Hi. destruct (proj1 (proj2 Hq) i Hi) as (e & He & _ & Hdel).
  destruct (passed e now) eqn:Hp; cycle 1.
  { destruct (run_due_rest fuel now w Hok Hnow) as (timeout & E & Hr); [congruence|]. exists timeout, w.
    split_and!; try done. by apply (rested_end now w timeout). }
  destruct (run_due_step fuel now w i e Hok Hnow Ht He Hp) as (w1 & E & Hok1 & Hafter).
  pose proof Hafter as (Hqueue & Hev & Hoth & _). pose proof Hok as (_ & Harm & Hfk).
  destruct (Harm i e Hi He) as (_ & _ & Hrs0 & Hrm). pose proof (Hrep i e Hi He) as Hpos.
  destruct (rearmed_spec (td w) now e Hfk Hnow Hrs0 Hrm) as (Htot & [Hb _] & Hrs & Hrms & _).
  assert (passed (rearmed (td w) now e) now = false) as Hnp
    by (apply not_true_iff_false; rewrite passed_iff by done; lia).
  pose proof (after_due now i e w w1 Hafter Hnp (proj1 Hq) Hi ltac:(unfold due; by rewrite He)) as Hcount.
  pose proof (Permutation_length Hcount) as Hlen. cbn [length] in Hlen.
  destruct (IH w1 Hok1) as (timeout & w' & E' & Hok' & HJ' & Hperm & Hrest & l & Hl & Hfired); [exact (HJ i e w w1 Hok HJw Ht He Hafter Hok1)| |done|lia|].
  { intros j x Hj Hx. rewrite Hqueue in Hj. destruct (decide (j = i)) as [->|Hne].
    - rewrite Hev in Hx. injection Hx as <-. rewrite Hrs, Hrms. exact Hpos.
    - rewrite Hoth in Hx by done. apply elem_of_cons in Hj as [->|Hj]; [done|].
      apply elem_of_remove_id in Hj as [Hj _]. by apply (Hrep j). }
  exists timeout, w'. rewrite E, E'. split_and!; try done.
  - rewrite Hperm, Hqueue. apply remove_id_perm; [apply Hq|done].
  - exists (i :: l). split; [by rewrite Hl|]. by eapply fired_cons.
Qed.

(** An event of period zero is due again as soon as it has run. *)
Definition spinning (now : timeval) (w : world) : Prop :=
  exists i e, i ∈ queue (td w) /\ events (td w) !! i = Some e /\ passed e now = true /\
    repeat_sec e = 0 /\ repeat_msec e = 0.

Lemma run_due_spinning fuel now : forall w, loop_ok w -> tv_normal now -> spinning now w ->
  run_due fuel now w = Fault OutOfFuel.
Proof.
  induction fuel as [|fuel IH]; intros w Hok Hnow (i & e & Hi & He & Hp & Hs & Hm); [done|].
  pose proof (world_queue_ok _ _ (proj1 Hok)) as Hq. pose proof Hok as (_ & Harm & Hfk).
  destruct (heap_top_some (events (td w)) (queue (td w))) as [k Ht]; [by intros Hnil; rewrite Hnil in Hi; apply elem_of_nil in Hi|].
  pose proof (heap_top_in _ _ _ Ht) as Hk. destruct (proj1 (proj2 Hq) k Hk) as (x & Hx & _ & Hdel).
  destruct (Harm k x Hk Hx) as (_ & [Hux _] & _ & Hrmx). destruct (Harm i e Hi He) as (_ & [Hue _] & Hrse & Hrme).
  assert (passed x now = true) as Hpx.
  { pose proof (heap_earliest _ _ _ i (armed_alarms _ _ Hq Harm) Ht Hi) as Hle. unfold ev_alarm in Hle. rewrite Hx, He in Hle.
    rewrite passed_iff in * by done. lia. }
  destruct (run_due_step fuel now w k x Hok Hnow Ht Hx Hpx) as (w1 & E & Hok1 & Hqueue & Hev & Hoth & _).
  rewrite E. apply IH; [done..|]. exists i. destruct (decide (i = k)) as [->|Hne].
  - assert (x = e) as -> by congruence. exists (rearmed (td w) now e).
    destruct (rearmed_spec (td w) now e Hfk Hnow Hrse Hrme) as (Htot & [Hb _] & -> & -> & _).
    split; [rewrite Hqueue; by left|]. split_and!; try done. rewrite passed_iff by done. lia.
  - exists e. rewrite Hqueue, Hoth by done. split_and!; try done. right. by apply elem_of_remove_id.
Qed.
End turns.

(** * Theorems *)
Section theorems.
Context `{EventHeapLaws, PrefixMapLaws} (n : nat).

(** C4: The timers of a turn of the main loop do their work and come to an end.
    When every event that waits is for a DAG that can send, repeats after some
    time and has an alarm before 2038, as many turns of the inner loop as there
    are events, and one more, run exactly the events that are due, each of them
    once: an event for DIOs sends the DIO [build_dio] writes to the RPL group over
    every interface of the list that is active and no loopback, an event for DAOs
    sends the DAO [build_dao] writes to the best parent over the interface it was
    heard on (with the socket open; nothing without a parent), and the event is
    put back with its period.  Nothing faults, the same events wait afterwards and
    none of them is due, and the loop then sleeps at most a minute and at most a
    millisecond past the first alarm. *)
Theorem run_due_terminates now w : loop_ok n w -> repeating (td w) -> tv_normal now ->
  exists timeout w', run_due (S (length (queue (td w)))) now w = Ok (timeout, w') /\
    (exists l, l ≡ₚ due_events now w /\ fired now l w w') /\
    loop_ok n w' /\ queue (td w') ≡ₚ queue (td w) /\ rested now w' timeout.
Proof.
  intros Hok Hrep Hnow.
  destruct (run_due_ends n (fun _ => True) (S (length (queue (td w)))) now ltac:(done) w Hok I Hrep Hnow)
    as (timeout & w' & E & ? & _ & ? & ? & ?).
  { unfold due_events. pose proof (length_filter (fun i => due (td w) now i = true) (queue (td w))). lia. }
  by exists timeout, w'.
Qed.

(** C38: An event of period zero, which is what a DIO interval of zero makes,
    keeps the inner loop of the main loop busy for ever: no number of turns is
    enough, and nothing is received any more. *)
Theorem zero_interval_spins fuel now w : loop_ok n w -> tv_normal now -> spinning now w ->
  run_due fuel now w = Fault OutOfFuel.
Proof. apply run_due_spinning. Qed.
End theorems.

Definition example_event (alarm msec : Z) : rpl_event :=
  mk_event rpl_send_dio 1 (mk_timeval alarm 0) (mk_timeval 0 0) 0 msec (Some 0%nat) true false.
(** Two DIOs wait: one is due at 999 s, the other at 1200 s. *)
Definition example_timers (msec : Z) : timers :=
  mk_timers [example_event 999 msec; example_event 1200 msec] [0; 1]%nat 3 false (mk_timeval 0 0) (mk_timeval 1000 250000).
Definition example_timed (msec : Z) : world :=
  mk_world [Example.dag] [0%nat] (Example.sys <| things_to_do := example_timers msec |>) Example.dag.

Section witnesses.
#[local] Existing Instance libstdcxx_map.

Lemma example_events msec i e : i ∈ [0; 1]%nat -> events (example_timers msec) !! i = Some e ->
  exists alarm, e = example_event alarm msec /\ 0 <= alarm <= 1200.
Proof.
  intros Hi He. repeat (apply elem_of_cons in Hi as [->|Hi]; [injection He as <-; eexists; split; [done|lia]|]).
  by apply elem_of_nil in Hi.
Qed.

Lemma example_sendable : sendable Example.dag.
Proof.
  split_and!.
  - split_and!; try done. by apply (bool_decide_unpack _); vm_compute.
  - by exists Example.prefix64, 64.
  - by repeat constructor.
  - by repeat constructor.
Qed.

Lemma example_loop_ok msec : 0 <= msec < 4294968 -> loop_ok 1 (example_timed msec).
Proof.
  intros Hm. split; [|split; [|done]].
  - exists (example_timers msec). split; [|split; [|split; [|by repeat constructor]]].
    + split_and!; [by apply (bool_decide_unpack _)| |].
      * intros i Hi. repeat (apply elem_of_cons in Hi as [->|Hi]; [by eexists|]). by apply elem_of_nil in Hi.
      * intros i e He _. do 2 (destruct i as [|i]; [cbn; auto using list_elem_of_here, list_elem_of_further|]). done.
    + split_and!; try done. by repeat constructor.
    + intros k d Hk. apply list_lookup_singleton_Some in Hk as [-> <-]. split; [done|].
      split; [|exact example_sendable]. destruct example_ctx_ok as (t & _ & _ & Hd).
      destruct Hd as (_ & _ & Hr). split_and!; [done|done|apply Hr..].
  - intros i e Hi He. destruct (example_events msec i e Hi He) as (alarm & -> & Hal).
    split_and!; try done; try (cbn; lia); [|split; cbn; lia]. split; [done|]. exists 0%nat. split; [done|]. cbn. lia.
Qed.

Lemma run_due_terminates_witness :
  exists timeout w', run_due 3 (mk_timeval 1000 0) (example_timed 5000) = Ok (timeout, w') /\
    (exists l, l ≡ₚ [0]%nat /\ fired (mk_timeval 1000 0) l (example_timed 5000) w') /\
    loop_ok 1 w' /\ queue (td w') ≡ₚ [0; 1]%nat /\ rested (mk_timeval 1000 0) w' timeout.
Proof.
  apply (run_due_terminates 1 (mk_timeval 1000 0) (example_timed 5000));
    [by apply example_loop_ok| |by unfold tv_normal; cbn; lia].
  intros i e Hi He. destruct (example_events 5000 i e Hi He) as (alarm & -> & _). done.
Defined.

Lemma zero_interval_spins_witness :
  run_due 1000 (mk_timeval 1000 0) (example_timed 0) = Fault OutOfFuel.
Proof.
  apply (zero_interval_spins 1 1000 (mk_timeval 1000 0) (example_timed 0));
    [by apply example_loop_ok|by unfold tv_normal; cbn; lia|].
  exists 0%nat, (example_event 999 0). split; [by left|]. done.
Defined.
End witnesses.
