(* ===== verification/Links.v ===== *)
(** Interfaces that come and go: what the kernel's announcements make of the list
    of interfaces, and what is left of the timers when an interface goes away. *)

From Stdlib Require Import ZArith Lia String.
From stdpp Require Import base list gmap numbers strings.
From S2P Require Import Prelude Wire Subopt Event Prefix State Iface Build Dag DagFacts Safety Handlers.
From S2P Require Import Routes Neighbour World Netlink MainLoop Worlds Timers.
#[local] Open Scope Z_scope.

(** * Deleting events *)

(** What [clear_event] does to a DAG: nothing, or it forgets the DAO event. *)
Definition forgets (d d' : dag_network) : Prop := d' = d \/ d' = d <| mSendDaoEvent := None |>.
#[global] Instance forgets_preorder : PreOrder forgets.
Proof. split; [by left|]. intros a b c [->| ->] [->| ->]; [by left|by right|by right|right; by destruct a]. Qed.

Definition gone (t : timers) (i : nat) : Prop := exists e, events t !! i = Some e /\ deleted e = true.
(** The events that wait are for no DAG, or for one that exists. *)
Definition owned (m : nat) (t : timers) : Prop :=
  forall i e k, i ∈ queue t -> events t !! i = Some e -> event_mDag e = Some k -> (k < m)%nat.

(** What remains of a world from which events were deleted. *)
Definition cleared (w w' : world) : Prop :=
  Forall2 forgets (dags w) (dags w') /\ all_dag w' = all_dag w /\
  wsys w' = wsys w <| things_to_do := td w' |> /\ (forall i, gone (td w) i -> gone (td w') i).
#[global] Instance cleared_preorder : PreOrder cleared.
Proof.
  split; [intros w; split_and!; [reflexivity|done| |done]; by destruct w as [? ? [] ?]|].
  intros a b c (H1 & H2 & H3 & H4) (H5 & H6 & H7 & H8). split_and!; [by etransitivity|congruence| |auto].
  rewrite H7, H3. by destruct a as [? ? [] ?].
Qed.

Section clearing.
Context `{EventHeapLaws, PrefixMapSem}.

Lemma next_event_taken t i : heap_top (events t) (queue t) = Some i -> next_event t = Ok (Some i, taken i t).
Proof.
  intros Ht. unfold next_event, eat_event, mbind, M_bind, get, modify. cbn. rewrite Ht. cbn. by rewrite Ht.
Qed.

(** The event [i] freed, once it is off the queue. *)
Definition freed (i : nat) (t : timers) : timers := taken i t <| events ::= alter (fun e => e <| deleted := true |>) i |>.

Lemma freed_other i j t : j <> i -> events (freed i t) !! j = events t !! j.
Proof.
  intros Hj. change (alter (fun e => e <| deleted := true |>) i (alter (fun e => e <| inQueue := false |>) i (events t)) !! j
    = events t !! j). by rewrite !list_lookup_alter_ne.
Qed.
Lemma freed_self i t e : events t !! i = Some e ->
  events (freed i t) !! i = Some (e <| inQueue := false |> <| deleted := true |>).
Proof.
  intros He. change (alter (fun e => e <| deleted := true |>) i (alter (fun e => e <| inQueue := false |>) i (events t)) !! i
    = Some (e <| inQueue := false |> <| deleted := true |>)). by rewrite !list_lookup_alter_eq, He.
Qed.
Lemma freed_queue i t : queue (freed i t) = remove_id i (queue t).
Proof. done. Qed.

Lemma freed_ok i t : queue_ok t -> queue_ok (freed i t).
Proof.
  intros (Hnd & Hin & Hout). split_and!.
  - by apply list.NoDup_filter.
  - intros j [Hj Hne]%elem_of_remove_id. rewrite freed_other by done. by apply Hin.
  - intros j e Hj Hq. apply elem_of_remove_id. destruct (decide (j = i)) as [->|Hne].
    + destruct (events t !! i) as [e'|] eqn:Ei.
      * rewrite (freed_self i t e' Ei) in Hj. by injection Hj as <-.
      * change (alter (fun e => e <| deleted := true |>) i (alter (fun e => e <| inQueue := false |>) i (events t)) !! i = Some e) in Hj.
        by rewrite !list_lookup_alter_eq, Ei in Hj.
    + rewrite freed_other in Hj by done. split; [by eapply Hout|done].
Qed.

Lemma freed_gone i j t : gone t j -> gone (freed i t) j.
Proof.
  intros (e & He & Hd). destruct (decide (j = i)) as [->|Hne]; [|exists e; by rewrite freed_other].
  eexists. by rewrite (freed_self i t e He).
Qed.

Lemma clear_event_world k i w : (k < length (dags w))%nat ->
  exists w', in_dag k (clear_event (Some i)) w = Ok (tt, w') /\ cleared w w' /\ td w' = td w.
Proof.
  intros Hk. destruct (lookup_lt_is_Some_2 _ _ Hk) as [d Hd]. unfold in_dag. rewrite Hd.
  eexists. split; [done|]. split; [|done]. split_and!; [|done|by destruct w as [? ? [] ?]|done].
  cbn -[insert]. apply Forall2_same_length_lookup. split; [by rewrite length_insert|].
  intros j x y Hx Hy. destruct (decide (k = j)) as [->|Hne].
  - rewrite list_lookup_insert_eq in Hy by done. injection Hy as <-. simplify_eq.
    case_decide; [by right|by left].
  - rewrite list_lookup_insert_ne in Hy by done. simplify_eq. by left.
Qed.

(** One turn of [clear_events]. *)
Lemma delete_next w i : queue_ok (td w) -> owned (length (dags w)) (td w) ->
  heap_top (events (td w)) (queue (td w)) = Some i ->
  exists w1 w', in_sys (with_timers next_event) w = Ok (Some i, w1) /\ delete_event i w1 = Ok (tt, w') /\
    cleared w w' /\ td w' = freed i (td w).
Proof.
  intros Hq Hown Ht. pose proof (heap_top_in _ _ _ Ht) as Hi.
  destruct (proj1 (proj2 Hq) i Hi) as (e & He & _ & Hd).
  set (w1 := put_td (taken i (td w)) w). set (e1 := e <| inQueue := false |>).
  assert (events (td w1) !! i = Some e1) as He1.
  { change (alter (fun e => e <| inQueue := false |>) i (events (td w)) !! i = Some e1). by rewrite list_lookup_alter_eq, He. }
  exists w1. unfold delete_event.
  rewrite (bind_ok _ _ w1 e1 w1) by (erewrite timers_run by (by apply get_event_live); by rewrite put_td_id).
  assert (exists w2, (match event_mDag e1 with Some k => in_dag k (clear_event (Some i)) | None => mret tt end) w1 = Ok (tt, w2)
    /\ cleared w1 w2 /\ td w2 = td w1) as (w2 & E2 & Hc2 & Htd2).
  { change (event_mDag e1) with (event_mDag e). destruct (event_mDag e) as [k|] eqn:Hk; [|by exists w1].
    apply clear_event_world. exact (Hown i e k Hi He Hk). }
  rewrite (bind_ok _ _ w1 tt w2 E2). exists (put_td (freed i (td w)) w2).
  split; [by apply timers_run, next_event_taken|]. split; [apply timers_run; by rewrite Htd2|]. split; [|done]. destruct Hc2 as (Hf & Ha & Hs & _).
  split; [exact Hf|]. split; [exact Ha|]. split; [|intros j; exact (freed_gone i j (td w))].
  change (wsys w2 <| things_to_do := freed i (td w) |> = wsys w <| things_to_do := freed i (td w) |>).
  rewrite Hs. by destruct w as [? ? [] ?].
Qed.

Lemma clear_events_run fuel : forall w, queue_ok (td w) -> owned (length (dags w)) (td w) ->
  (length (queue (td w)) < fuel)%nat ->
  exists w', clear_events_loop fuel w = Ok (tt, w') /\ cleared w w' /\ queue (td w') = [] /\
    (forall i, i ∈ queue (td w) -> gone (td w') i).
Proof.
  induction fuel as [|fuel IH]; intros w Hq Hown Hf; [lia|]. cbn [clear_events_loop].
  destruct (heap_top (events (td w)) (queue (td w))) as [i|] eqn:Ht; cycle 1.
  { destruct (decide (queue (td w) = [])) as [Hnil|Hne]; [|destruct (heap_top_some (events (td w)) _ Hne); congruence].
    exists w. split; [|split; [reflexivity|]].
    - rewrite (bind_ok _ _ w None w); [done|]. erewrite timers_run; [by rewrite put_td_id|].
      unfold next_event, mbind, M_bind, get. by rewrite Ht.
    - split; [done|]. intros i. rewrite Hnil. by intros ?%elem_of_nil. }
  pose proof (heap_top_in _ _ _ Ht) as Hi.
  destruct (delete_next w i Hq Hown Ht) as (w0 & w1 & E0 & E1 & Hc1 & Htd1).
  assert (length (dags w1) = length (dags w)) as Hlen by (symmetry; apply (Forall2_length _ _ _ (proj1 Hc1))).
  destruct (IH w1) as (w' & E' & Hc' & Hnil & Hgone).
  - rewrite Htd1. by apply freed_ok.
  - rewrite Hlen, Htd1. intros j e k [Hj Hne]%elem_of_remove_id He Hk. rewrite freed_other in He by done. by apply (Hown j e k).
  - rewrite Htd1, freed_queue. pose proof (remove_id_length i _ (proj1 Hq) Hi). lia.
  - exists w'. split; [|split; [by etransitivity|split; [done|]]].
    + rewrite (bind_ok _ _ w (Some i) w0 E0). by rewrite (bind_ok _ _ w0 tt w1 E1).
    + intros j Hj. destruct (decide (j = i)) as [->|Hne].
      * destruct (proj1 (proj2 Hq) i Hi) as (e & He & _). apply (proj2 (proj2 (proj2 Hc'))). rewrite Htd1.
        eexists. by rewrite (freed_self i _ e He).
      * apply Hgone. rewrite Htd1. by apply elem_of_remove_id.
Qed.
End clearing.

Section links.
Context `{EventHeapLaws, PrefixMapSem, Fnmatch}.

(** The walk over the list of interfaces finds one of them and changes nothing. *)
Lemma find_iface_found p l s i s' : find_iface p l s = Ok (Some i, s') ->
  s' = s /\ i ∈ l /\ exists x, get_iface i s = Ok (x, s) /\ p x = true.
Proof.
  induction l as [|j l IH]; cbn [find_iface]; [done|]. intros E.
  apply bind_inv in E as (x & s1 & Ex & E). assert (s1 = s) as -> by (by apply (sys_get_iface id j) in Ex).
  destruct (p x) eqn:Hp; [injection E as -> <-; split_and!; [done|by left|by exists x]|].
  destruct (IH E) as (-> & Hi & Hx). split_and!; [done|by right|done].
Qed.

Lemma unlink_found i l : i ∈ l -> exists l', unlink i l = Ok l'.
Proof.
  induction l as [|j l IH]; intros Hi; [by apply elem_of_nil in Hi|]. cbn [unlink].
  case_decide; [by eexists|]. apply elem_of_cons in Hi as [->|Hi]; [done|].
  destruct (IH Hi) as [l' ->]. by eexists.
Qed.

Lemma remove_from_list_run i x s : get_iface i s = Ok (x, s) -> i ∈ all_if s ->
  exists s', remove_from_list i s = Ok (tt, s') /\ things_to_do s' = things_to_do s.
Proof.
  intros Hx Hi. unfold remove_from_list. rewrite (bind_ok _ _ s x s Hx).
  destruct (on_list x); [|by exists s]. cbn [negb]. rewrite (bind_ok _ _ s s s) by done.
  destruct (unlink_found i (all_if s) Hi) as [l Hl]. rewrite (bind_ok _ _ s l s) by (unfold lift; by rewrite Hl).
  by eexists.
Qed.

(** ** Unplugging an interface *)
Lemma delete_iface_run i x w : get_iface i (wsys w) = Ok (x, wsys w) -> i ∈ all_if (wsys w) ->
  queue_ok (td w) -> owned (length (dags w)) (td w) ->
  exists w', delete_iface i w = Ok (tt, w') /\ Forall2 forgets (dags w) (dags w') /\ queue (td w') = [] /\
    (forall e, e ∈ queue (td w) -> gone (td w') e).
Proof.
  intros Hx Hi Hq Hown. destruct (remove_from_list_run i x (wsys w) Hx Hi) as (s1 & E1 & Ht1). unfold delete_iface.
  set (w1 := w <| wsys := s1 |>). assert (td w1 = td w) as Htd1 by done.
  rewrite (bind_ok _ _ w tt w1) by (unfold in_sys, zoom; by rewrite E1).
  destruct (clear_events_run (S (length (queue (td w1)))) w1) as (w2 & E2 & Hc & Hnil & Hgone);
    rewrite ?Htd1; [done..|lia|].
  assert (clear_events w1 = Ok (tt, w2)) as E2'.
  { unfold clear_events. rewrite (bind_ok _ _ w1 (wsys w1) w1) by (by destruct w1). exact E2. }
  rewrite (bind_ok _ _ w1 tt w2 E2'). eexists. split; [done|]. split; [apply Hc|]. split; [exact Hnil|].
  intros e He. assert (gone (td w2) e) as Hg by (apply Hgone; by rewrite Htd1). exact Hg.
Qed.

Lemma schedule_dio_dangling ms e c : mBestRank (this c) < RANK_INFINITE -> mSendDioEvent (this c) = Some e ->
  gone (things_to_do (shared c)) e -> schedule_dio ms c = Fault UseAfterFree.
Proof.
  intros Hr He (ev & Hev & Hd). unfold schedule_dio. rewrite (bind_ok _ _ c (this c) c) by done. unfold id, dag_rank_infinite.
  rewrite Z.geb_leb, (proj2 (Z.leb_gt _ _)) by lia. rewrite (bind_ok _ _ c e c) by (by rewrite He).
  unfold arm_dag_event. rewrite (bind_ok _ _ c (dag_self (this c)) c) by done.
  unfold with_sys, with_timers, zoom, arm_event. rewrite bind_fault with (f := UseAfterFree); [done|].
  unfold get_event. by rewrite Hev, Hd.
Qed.

Lemma found_iface m name i (w : world) : ifla_ifname m = Some name ->
  in_sys (find_by_ifindex (ifi_index m)) w = Ok (Some i, w) ->
  i ∈ all_if (wsys w) /\ exists x, get_iface i (wsys w) = Ok (x, wsys w).
Proof.
  intros _ E. unfold in_sys, zoom, find_by_ifindex in E.
  rewrite (bind_ok _ _ (wsys w) (wsys w) (wsys w)) in E by done.
  destruct (find_iface _ _ _) as [[r s]|] eqn:Ef; [|done]. injection E as -> _.
  apply find_iface_found in Ef as (_ & Hi & x & Hx & _). split; [done|]. by exists x.
Qed.

(** C34: When the kernel says that one interface is gone, every timer of the
    program is deleted with it, and a DAG keeps the pointer to its DIO event:
    the next packet that makes it schedule a DIO, on whatever interface, uses
    memory that has been freed. *)
Theorem unplug_breaks_dio m name w i k d e ms :
  ifla_ifname m = Some name -> in_sys (find_by_ifindex (ifi_index m)) w = Ok (Some i, w) ->
  queue_ok (td w) -> owned (length (dags w)) (td w) ->
  dags w !! k = Some d -> mSendDioEvent d = Some e -> e ∈ queue (td w) -> mBestRank d < RANK_INFINITE ->
  exists w', gather_linkinfo (DelLink m) w = Ok (tt, w') /\ queue (td w') = [] /\
    in_dag k (schedule_dio ms) w' = Fault UseAfterFree.
Proof.
  intros Hname Hfind Hq Hown Hk He Hin Hr. destruct (found_iface m name i w Hname Hfind) as [Hi [x Hx]].
  destruct (delete_iface_run i x w Hx Hi Hq Hown) as (w' & E & Hdags & Hnil & Hgone).
  exists w'. split; [|split; [done|]].
  - cbn [gather_linkinfo]. unfold del_linkinfo. rewrite Hname. by rewrite (bind_ok _ _ w (Some i) w Hfind).
  - destruct (Forall2_lookup_l _ _ _ _ _ Hdags Hk) as (d' & Hd' & Hf). unfold in_dag. rewrite Hd'.
    rewrite (schedule_dio_dangling ms e); [done| | |by apply Hgone]; by destruct Hf as [->| ->].
Qed.

(** An announcement that an interface is gone which the program does not
    know reads the index of the interface through a null pointer. *)
Lemma unknown_link_faults m name w :
  ifla_ifname m = Some name -> in_sys (find_by_ifindex (ifi_index m)) w = Ok (None, w) ->
  gather_linkinfo (DelLink m) w = Fault NullDeref.
Proof.
  intros Hname Hfind. cbn [gather_linkinfo]. unfold del_linkinfo. rewrite Hname. by rewrite (bind_ok _ _ w None w Hfind).
Qed.

(** ** Announced links *)
Lemma get_iface_run i n (s : sys) : i ∉ freed_if s -> ifaces s !! i = Some n -> get_iface i s = Ok (n, s).
Proof. intros Hf Hi. unfold get_iface. by rewrite decide_False, Hi. Qed.
Lemma get_iface_inv i n (s s' : sys) : get_iface i s = Ok (n, s') -> s' = s /\ (i ∉ freed_if s) /\ ifaces s !! i = Some n.
Proof. unfold get_iface. case_decide; [done|]. case_match; [|done]. by intros [= <- <-]. Qed.
Lemma upd_iface_get i f n (s : sys) : get_iface i s = Ok (n, s) ->
  let s' := s <| ifaces ::= alter f i |> in upd_iface i f s = Ok (tt, s') /\ get_iface i s' = Ok (f n, s').
Proof.
  intros (_ & Hf & Hi)%get_iface_inv. split; [done|]. apply get_iface_run; [done|].
  change (alter f i (ifaces s) !! i = Some (f n)). by rewrite list_lookup_alter_eq, Hi.
Qed.

(** An Ethernet link that is announced without an address (its case of the
    switch falls through) is taken for the loopback interface. *)
Lemma addressless_ethernet_is_loopback m name i x s :
  ifla_ifname m = Some name -> ifi_up m = true -> ifi_running m = true ->
  lm_type m = ARPHRD_ETHER -> ifla_address m = None ->
  find_by_ifindex (ifi_index m) s = Ok (Some i, s) -> get_iface i s = Ok (x, s) -> on_list x = true ->
  strcaseeq (if_name x) "dummy0" = false -> disable_ipv6 s (if_name x) = false ->
  exists s', add_linkinfo m s = Ok (tt, s') /\ loopback_interface s' = Some i /\
    exists x', get_iface i s' = Ok (x', s') /\ loopback x' = true /\ ifi_type x' = ARPHRD_ETHER /\ eui48 x' = eui48 x.
Proof.
  intros Hname Hup Hrun Hty Haddr Hfind Hx Hon Hd0 Hdis. unfold add_linkinfo, link_found. rewrite Hname, Hup, Hrun. cbn [negb].
  rewrite (bind_ok _ _ s (Some i) s Hfind), (bind_ok _ _ s i s) by done.
  rewrite (bind_ok _ _ s tt s) by (unfold add_to_list; rewrite (bind_ok _ _ s x s Hx); by rewrite Hon).
  rewrite (bind_ok _ _ s x s Hx), (bind_ok _ _ s s s) by done. rewrite Hd0, Hdis, Hty.
  set (f := fun n : network_interface => n <| ifi_type := ARPHRD_ETHER |>).
  destruct (upd_iface_get i f x s Hx) as [E1 Hx1]. rewrite (bind_ok _ _ s tt _ E1). set (s1 := s <| ifaces ::= _ |>) in *.
  set (s2 := s1 <| loopback_interface := Some i |>).
  assert (get_iface i s2 = Ok (f x, s2)) as Hx2 by (apply get_iface_inv in Hx1 as (_ & ? & ?); by apply get_iface_run).
  destruct (upd_iface_get i (fun n => n <| loopback := true |>) (f x) s2 Hx2) as [E3 Hx3].
  set (s3 := s2 <| ifaces ::= _ |>) in *.
  rewrite (bind_ok _ _ s1 None s3).
  - exists s3. split; [done|]. split; [done|]. eexists. split; [exact Hx3|done].
  - unfold link_type. cbn [Z.eqb ARPHRD_ETHER Pos.eqb]. rewrite Haddr. unfold make_loopback.
    rewrite (bind_ok _ _ s1 tt s2) by done. by rewrite (bind_ok _ _ s2 tt s3 E3).
Qed.

Lemma new_iface_run name s : length (ifaces s) ∉ freed_if s ->
  exists s' n, new_network_interface name s = Ok (length (ifaces s), s') /\
    get_iface (length (ifaces s)) s' = Ok (n, s') /\ all_if s' = all_if s /\ disable_ipv6 s' = disable_ipv6 s /\
    on_list n = false /\ if_name n = String.substring 0 15 name /\ eui48 n = zeros 6 /\ alive n = false /\ disabled n = false /\
    ipv6_link_addr n = ipv6_link_addr (junk_iface s).
Proof.
  intros Hf. eexists _, _. split; [done|].
  split; [apply get_iface_run; [done|]; cbn; by rewrite lookup_app_r, Nat.sub_diag by done|done].
Qed.

Lemma add_to_list_run i n s : get_iface i s = Ok (n, s) -> on_list n = false ->
  exists s', add_to_list i s = Ok (tt, s') /\ get_iface i s' = Ok (n <| on_list := true |>, s') /\
    all_if s' = i :: all_if s /\ disable_ipv6 s' = disable_ipv6 s.
Proof.
  intros Hn Hon. unfold add_to_list. rewrite (bind_ok _ _ s n s Hn), Hon.
  set (s1 := s <| all_if ::= cons i |>). rewrite (bind_ok _ _ s tt s1) by done.
  assert (get_iface i s1 = Ok (n, s1)) as Hn1 by (apply get_iface_inv in Hn as (_ & ? & ?); by apply get_iface_run).
  destruct (upd_iface_get i (fun n => n <| on_list := true |>) n s1 Hn1) as [E Hn2]. by eexists.
Qed.

Lemma set_eui48_run addr n : length addr = 6%nat -> length (eui48 n) = 6%nat ->
  exists n', set_eui48 addr (zlen addr) n = Ok n' /\ eui48 n' = addr /\ eui64 n' = eui64_of_eui48 addr /\
    eui64set n' = true /\ ipv6_link_addr n' = [254; 128] ++ zeros 6 ++ eui64_of_eui48 addr /\
    if_index n' = if_index n /\ if_name n' = if_name n /\ on_list n' = on_list n /\ disabled n' = disabled n.
Proof.
  intros Ha Hn. unfold set_eui48. rewrite rd_range_all by done. cbn [mbind outcome_bind].
  unfold wr_range. rewrite !(proj2 (Z.leb_le _ _)) by (unfold zlen; lia). cbn [andb].
  cbn [Z.to_nat take app Nat.add]. rewrite drop_ge, app_nil_r by lia. cbn [mbind outcome_bind]. by eexists.
Qed.


(** ** What the main loop polls *)
Definition outstanding (s : sys) (i : nat) : bool :=
  match ifaces s !! i with
  | Some n => match join_query_client n with Some g => poll_setup g | None => false end
  | None => false
  end.

Lemma grasp_sources_run limit s : freed_if s = [] -> forall l pollnum, Forall (fun i => i < length (ifaces s))%nat l ->
  grasp_sources limit pollnum l s =
    if decide (filter (fun i => outstanding s i = true) l = [] \/
               pollnum + zlen (filter (fun i => outstanding s i = true) l) <= limit)
    then Ok (filter (fun i => outstanding s i = true) l, s) else Fault OutOfBounds.
Proof.
  intros Hf l. induction l as [|i l IH]; intros pollnum Hl; cbn [grasp_sources]; [by rewrite decide_True by by left|].
  apply Forall_cons in Hl as [Hi Hl]. destruct (lookup_lt_is_Some_2 _ _ Hi) as [n Hn].
  rewrite (bind_ok _ _ s n s) by (apply get_iface_run; [rewrite Hf; apply not_elem_of_nil|done]).
  assert (outstanding s i = match join_query_client n with Some g => poll_setup g | None => false end) as Ho
    by (unfold outstanding; by rewrite Hn).
  destruct (join_query_client n) as [g|]; [|rewrite filter_cons_False by (by rewrite Ho); by apply IH].
  destruct (poll_setup g); [|rewrite filter_cons_False by (by rewrite Ho); by apply IH].
  rewrite filter_cons_True by done. set (fl := filter _ l) in *. pose proof (zlen_nonneg fl).
  rewrite zlen_cons. case_bool; zbool.
  - unfold mbind, M_bind. rewrite (IH (pollnum + 1) Hl). fold fl.
    destruct (decide (fl = [] \/ pollnum + 1 + zlen fl <= limit)) as [Hd|Hd].
    + rewrite decide_True; [done|]. right. destruct Hd as [Hd|Hd]; [rewrite Hd; change (zlen (@nil nat)) with 0|]; lia.
    + rewrite decide_False; [done|]. intros [|]; [done|]. apply Hd. right. lia.
  - rewrite decide_False; [done|]. intros [|]; [done|lia].
Qed.

Lemma poll_sources_run n t s : env n t s ->
  let l := filter (fun i => outstanding s i = true) (all_if s) in
  poll_sources (1 + zlen (all_if s)) s = if decide (l = [] \/ 2 + zlen l <= 1 + zlen (all_if s)) then Ok (l, s) else Fault OutOfBounds.
Proof.
  intros (_ & Hall & Hl & _ & Hf) l. unfold poll_sources. rewrite (bind_ok _ _ s s s) by done.
  apply grasp_sources_run; [done|]. by rewrite Hl.
Qed.

Lemma filter_all {A} (P : A -> Prop) `{!forall x, Decision (P x)} (l : list A) :
  length (filter P l) = length l -> Forall P l.
Proof.
  induction l as [|x l IH]; [done|]. rewrite filter_cons. pose proof (length_filter P l).
  destruct (decide (P x)); cbn; intros; [constructor; [done|apply IH; lia]|lia].
Qed.

Lemma poll_array_run n t s : env n t s ->
  poll_sources (1 + zlen (all_if s)) s =
    if decide (all_if s <> [] /\ Forall (fun i => outstanding s i = true) (all_if s)) then Fault OutOfBounds
    else Ok (filter (fun i => outstanding s i = true) (all_if s), s).
Proof.
  intros Henv. rewrite (poll_sources_run n t s Henv). set (l := filter _ _).
  pose proof (length_filter (fun i => outstanding s i = true) (all_if s)) as Hle. fold l in Hle.
  destruct (decide (all_if s <> [] /\ _)) as [[Hne Hall]|Hno].
  - assert (l = all_if s) as Hl by (subst l; clear -Hall; induction Hall; [done|]; rewrite filter_cons_True by done; by f_equal).
    rewrite decide_False; [done|]. rewrite Hl. intros [|]; [done|lia].
  - rewrite decide_True; [done|]. destruct (decide (l = [])) as [|Hl]; [by left|right].
    destruct (decide (length l = length (all_if s))) as [Heq|]; [|unfold zlen; lia].
    exfalso. apply Hno. split; [intros Hnil; rewrite Hnil in Heq; by apply nil_length_inv in Heq|by apply (filter_all (fun i => outstanding s i = true))].
Qed.

(** The descriptors the main loop polls are those of the listed interfaces
    whose join client waits for an answer; the array for them is one element
    short, so the write is out of bounds exactly when every listed interface
    waits for one. *)
Lemma poll_array_one_short n t s : env n t s ->
  poll_sources (1 + zlen (all_if s)) s =
    if decide (all_if s <> [] /\ Forall (fun i => outstanding s i = true) (all_if s)) then Fault OutOfBounds
    else Ok (filter (fun i => outstanding s i = true) (all_if s), s).
Proof. apply poll_array_run. Qed.
End links.

Section witnesses.
#[local] Existing Instance libstdcxx_map.
#[local] Instance any_name : Fnmatch := fun row name => true.

(** The interface of the example is unplugged while a DIO waits. *)
Definition example_plugged : world := example_timed 5000 <| dags ::= alter (fun d => d <| mSendDioEvent := Some 0%nat |> <| mBestRank := 256 |>) 0%nat |>.
Definition example_link (name : string) (index : Z) (address : option (list Z)) : link_msg :=
  mk_link index ARPHRD_ETHER true true (Some name) address.

Lemma example_queue : queue_ok (td example_plugged) /\ owned 1 (td example_plugged).
Proof.
  split; [exact (world_queue_ok 1 sendable _ (proj1 (example_loop_ok 5000 ltac:(lia))))|].
  intros i e k Hi He Hk. destruct (example_events 5000 i e Hi He) as (alarm & -> & _). injection Hk as <-. lia.
Qed.

Lemma unplug_breaks_dio_witness :
  exists w', gather_linkinfo (DelLink (example_link "eth0" 2 None)) example_plugged = Ok (tt, w') /\ queue (td w') = [] /\
    in_dag 0 (schedule_dio 1) w' = Fault UseAfterFree.
Proof.
  apply (unplug_breaks_dio (example_link "eth0" 2 None) "eth0" example_plugged 0 0
    (Example.dag <| mSendDioEvent := Some 0%nat |> <| mBestRank := 256 |>) 0 1);
    [done|done|apply example_queue|apply example_queue|done|done|by left|done].
Defined.

Lemma unknown_link_faults_witness :
  gather_linkinfo (DelLink (example_link "wlan0" 5 None)) example_plugged = Fault NullDeref.
Proof. by apply (unknown_link_faults (example_link "wlan0" 5 None) "wlan0"). Defined.

Lemma addressless_ethernet_is_loopback_witness :
  exists s', add_linkinfo (example_link "eth0" 2 None) Example.sys = Ok (tt, s') /\ loopback_interface s' = Some 0%nat /\
    exists x', get_iface 0 s' = Ok (x', s') /\ loopback x' = true /\ ifi_type x' = ARPHRD_ETHER /\ eui48 x' = Example.eui.
Proof.
  by apply (addressless_ethernet_is_loopback (example_link "eth0" 2 None) "eth0" 0 Example.iface Example.sys).
Defined.


Lemma poll_array_one_short_witness :
  let s := Example.sys <| ifaces := [Example.iface <| join_query_client := Some (mk_grasp 1 true) |>] |> in
  poll_sources (1 + zlen (all_if s)) s = Fault OutOfBounds.
Proof.
  intros s. rewrite (poll_array_one_short 1 Example.timers s).
  - by rewrite decide_True by (split; [done|by repeat constructor]).
  - split_and!; try done. by repeat constructor.
Defined.
End witnesses.
