(* ===== verification/Sound.v ===== *)
(** What the handlers of the messages leave true, besides the pointers that
    [Safety] is about: the sizes of the addresses a DAG holds, which the builders
    need, and the shape of the timers, which the main loop needs.

    The invariants are kept whenever a method returns ([holds]); that it returns
    is proved in [Safety] and [Worlds]. *)

From Stdlib Require Import ZArith Lia String.
From stdpp Require Import base list gmap numbers strings.
From S2P Require Import Prelude Wire Subopt Event Prefix State Iface Build Dag DagFacts Safety Handlers.
From S2P Require Import Routes Neighbour World Netlink MainLoop Worlds Timers.
#[local] Open Scope Z_scope.

(** * The timers

    Every event ever made repeats after a while; those that wait are for DAGs
    that exist ([fires]), with an alarm [set_alarm] made; the clock is real. *)
Definition period_ok (e : rpl_event) : Prop :=
  0 <= repeat_sec e <= 400000 /\ 0 <= repeat_msec e < 4294968 /\ 0 < repeat_sec e * 1000000 + repeat_msec e * 1000.
Definition timed `{EventHeap} (m : nat) (t : timers) : Prop :=
  queue_ok t /\ (forall i e, events t !! i = Some e -> period_ok e) /\
  (forall i e, i ∈ queue t -> events t !! i = Some e -> fires m e /\ alarm_ok e) /\
  faked_time t = false /\ tv_normal (clock t).

Section timed.
Context `{EventHeapLaws} (m : nat).

Lemma timed_armed t : timed m t -> armed m t.
Proof.
  intros (_ & Hp & Ha & _) i e Hi He. destruct (Ha i e Hi He), (Hp i e He) as (? & ? & _). by split_and!; try lia.
Qed.
Lemma timed_repeating t : timed m t -> repeating t.
Proof. intros (_ & Hp & _) i e Hi He. by destruct (Hp i e He) as (_ & _ & ?). Qed.

Lemma timed_get_event i : holds_ (timed m) (get_event i).
Proof. intros t e t' Ht. unfold get_event. repeat case_match; try done. by intros [= <- <-]. Qed.

Lemma timed_new_event msec ty : 0 < msec < 4294968 -> holds_ (timed m) (new_event 0 msec ty).
Proof.
  intros Hms t e t' (Hq & Hp & Ha & Hf & Hc) E. split; [|done].
  destruct (new_event_spec 0 msec ty t Hq) as (t1 & E1 & Hq' & Hqueue & _ & _ & Hold & Hcl & Hfk & _).
  rewrite E in E1. injection E1 as -> <-. split; [exact Hq'|].
  split; [|split_and!; [|congruence|by rewrite Hcl]].
  - injection E as <-. intros i x Hx. cbn in Hx. apply lookup_app_Some in Hx as [Hx|[_ Hx]]; [by eapply Hp|].
    apply list_lookup_singleton_Some in Hx as [_ <-]. unfold period_ok, init_event, set_alarm.
    destruct (carry _ _ _). cbn. lia.
  - intros i x Hi Hx. rewrite Hqueue in Hi. destruct (proj1 (proj2 Hq) i Hi) as (y & Hy & _).
    apply (Ha i x Hi). pose proof (Hold i y Hy). congruence.
Qed.

Lemma timed_arm_event i ty dag msec : (dag < m)%nat -> ty <> rpl_event_max -> 0 <= msec < 4294968 ->
  holds_ (timed m) (arm_event i ty dag msec).
Proof.
  intros Hdag Hty Hms t [] t' (Hq & Hp & Ha & Hf & Hc) E. split; [|done].
  assert (exists e, events t !! i = Some e /\ deleted e = false) as (e & He & Hd).
  { unfold arm_event in E. apply bind_inv in E as (e & t1 & E & _). unfold get_event in E.
    destruct (events t !! i) as [x|]; [|done]. exists x. by destruct (deleted x). }
  destruct (arm_event_run i ty dag msec t e Hq He Hd) as (t1 & e' & E1 & Hq' & _ & He' & Hty' & Hdag' & Hal & _ &
    Hoth & _ & Hcl & Hfk & _ & Hin & Hrs & Hrm).
  rewrite E in E1. injection E1 as <-. split; [exact Hq'|].
  split; [|split_and!; [|congruence|by rewrite Hcl]].
  - intros j x Hx. destruct (decide (j = i)) as [->|Hne]; [|rewrite Hoth in Hx by done; by eapply Hp].
    assert (x = e') as -> by congruence. unfold period_ok. rewrite Hrs, Hrm. by eapply Hp.
  - intros j x Hj Hx. destruct (decide (j = i)) as [->|Hne].
    + assert (x = e') as -> by congruence. split; [split; [by rewrite Hty'|by exists dag]|]. unfold alarm_ok. rewrite Hal.
      apply (set_alarm_ok t (clock t) 0 msec e); [by rewrite Hf|lia|done].
    + rewrite Hoth in Hx by done. destruct (Hin j Hj) as [->|Hj']; [done|]. by eapply Ha.
Qed.
End timed.

(** * The interfaces

    An interface of a daemon that does not watch; its addresses and identifiers,
    and the addresses of its neighbours, have their sizes. *)
Definition node_fine (nd : rpl_node) : Prop := length (node_number nd) = 16%nat.
Definition iface_sized (x : network_interface) : Prop :=
  watching x = false /\ length (eui48 x) = 6%nat /\ length (eui64 x) = 8%nat /\ length (ipv6_link_addr x) = 16%nat /\
  length (if_addr x) = 16%nat /\ map_Forall (fun _ nd => node_fine nd) (neighbours x).
(** Between two messages every interface is on the list. *)
Definition iface_fine (x : network_interface) : Prop := on_list x = true /\ iface_sized x.

(** The names the command line gives to [-i], once they are known.  From then on
    there is an interface that has none of them and no client of a registrar: the
    array the main loop makes for the clients has room for all but one. *)
Class Reserved := reserved : option (list string).
Definition unreserved (names : list string) (x : network_interface) : Prop :=
  join_query_client x = None /\ Forall (fun name => strcaseeq name (if_name x) = false) names.
Definition spare_of (names : list string) (s : sys) : Prop :=
  exists i x, i ∈ all_if s /\ ifaces s !! i = Some x /\ unreserved names x.
Definition spare `{Reserved} (s : sys) : Prop :=
  match reserved with Some names => spare_of names s | None => True end.

Lemma spare_nonempty names s : spare_of names s -> all_if s <> [].
Proof. intros (i & x & Hi & _) E. rewrite E in Hi. by apply elem_of_nil in Hi. Qed.

Definition sys_fine `{EventHeap, Reserved} (m : nat) (s : sys) : Prop :=
  timed m (things_to_do s) /\ Forall iface_fine (ifaces s) /\ spare s /\
  length (pm_addr (junk_prefix s)) = 16%nat /\ length (junk_bytes s) = 2048%nat /\ bytes_ok (junk_bytes s) /\
  iface_sized (junk_iface s) /\ node_fine (junk_node s) /\
  (forall lines, if_inet6 s = Some lines -> Forall (fun l => length l.2 = 16%nat) lines).

(** A change of an interface that keeps it fine, and its name and client. *)
Definition iface_kept (f : network_interface -> network_interface) : Prop :=
  forall x, iface_fine x -> iface_fine (f x) /\ if_name (f x) = if_name x /\
    (join_query_client x = None -> join_query_client (f x) = None).

Lemma get_iface_same i s x s' : get_iface i s = Ok (x, s') -> s' = s.
Proof. unfold get_iface. destruct (decide _); [done|]. destruct (ifaces s !! i); [|done]. by intros [= _ <-]. Qed.

Section ifaces.
Context `{EventHeapLaws, PrefixMapLaws, Reserved} (m : nat).
#[local] Abbreviation fine := (sys_fine m).

Lemma generate_eui64_fine x : iface_fine x -> iface_fine (generate_eui64 x).
Proof.
  intros (Hon & Hw & H48 & H64 & Hl & Ha & Hn). unfold generate_eui64, iface_fine, iface_sized.
  assert (length (eui64_of_eui48 (eui48 x)) = 8%nat) as He by (by destruct (eui48 x) as [|? [|? [|? [|? [|? [|? [|]]]]]]]).
  destruct (eui64set x); cbn; rewrite ?length_app; cbn; (split; [done|]); (split; [done|]); (split; [done|]); (split; [lia|]);
    (split; [lia|]); by split.
Qed.
Lemma generate_eui64_kept : iface_kept generate_eui64.
Proof.
  intros x Hx. split; [by apply generate_eui64_fine|]. unfold generate_eui64. by destruct (eui64set x).
Qed.
Lemma link_local_fine x : iface_fine x -> iface_fine (link_local x).1 /\ length (link_local x).2 = 16%nat.
Proof.
  intros Hx. unfold link_local. destruct (eui64set x); [by split; [|apply Hx]|].
  pose proof (generate_eui64_fine x Hx) as Hg. by split; [|apply Hg].
Qed.

Lemma link_local_kept : iface_kept (fun x => (link_local x).1).
Proof.
  intros x Hx. split; [by apply link_local_fine|]. unfold link_local.
  destruct (eui64set x) eqn:E; [done|]. unfold generate_eui64. by rewrite E.
Qed.

Lemma fine_emit o : holds_ fine (emit o).
Proof. by apply holds_modify. Qed.
Lemma fine_count x : holds_ fine (global_count x).
Proof. by apply holds_modify. Qed.
Lemma spare_upd i f s : iface_kept f -> Forall iface_fine (ifaces s) -> spare s -> spare (s <| ifaces ::= alter f i |>).
Proof.
  intros Hf Hi. unfold spare. destruct reserved as [names|]; [|done]. intros (j & y & Hj & Hy & Hc & Hn).
  pose proof (Forall_lookup_1 _ _ _ _ Hi Hy) as Hfine. destruct (Hf y Hfine) as (_ & Hname & Hclient).
  exists j. cbn. destruct (decide (i = j)) as [->|Hne].
  - exists (f y). rewrite list_lookup_alter_eq, Hy. unfold unreserved. rewrite Hname. auto.
  - exists y. by rewrite list_lookup_alter_ne.
Qed.
Lemma fine_upd i f : iface_kept f -> holds_ fine (upd_iface i f).
Proof.
  intros Hf. apply holds_modify. intros s (Ht & Hi & Hsp & Hr). split; [done|].
  split; [|split; [by apply spare_upd|done]]. cbn. apply Forall_alter; [done|]. intros x _ Hx. by apply Hf.
Qed.
(** The interface that was just read is put back changed. *)
Lemma fine_put_iface i x x' s : fine s -> get_iface i s = Ok (x, s) -> iface_fine x' -> if_name x' = if_name x ->
  (join_query_client x = None -> join_query_client x' = None) -> fine (s <| ifaces ::= alter (fun _ => x') i |>).
Proof.
  intros (Ht & Hi & Hsp & Hr) Hx Hx' Hn Hc. unfold get_iface in Hx. destruct (decide _); [done|].
  destruct (ifaces s !! i) as [y|] eqn:Ei; [|done]. injection Hx as ->.
  split; [done|]. split; [by apply Forall_alter|]. split; [|done]. revert Hsp. unfold spare.
  destruct reserved as [names|]; [|done]. intros (j & y & Hj & Hy & Hcy & Hny). exists j. cbn.
  destruct (decide (i = j)) as [<-|Hne]; [|exists y; by rewrite list_lookup_alter_ne].
  exists x'. rewrite list_lookup_alter_eq, Ei. rewrite Ei in Hy. injection Hy as <-. unfold unreserved. rewrite Hn. auto.
Qed.
Lemma fine_put_back i f x s : iface_kept f -> fine s -> get_iface i s = Ok (x, s) -> fine (s <| ifaces ::= alter (fun _ => f x) i |>).
Proof.
  intros Hf Hs Hx. destruct (Hf x) as (Hx' & Hn & Hc); [|by apply (fine_put_iface i x)].
  unfold get_iface in Hx. destruct (decide _); [done|]. destruct (ifaces s !! i) as [y|] eqn:Ei; [|done]. injection Hx as ->.
  destruct Hs as (_ & Hi & _). by eapply Forall_lookup_1.
Qed.
Lemma fine_iface i : holds fine (get_iface i) iface_fine.
Proof.
  intros s x s' Hs. unfold get_iface. case_decide; [done|]. destruct (ifaces s !! i) as [y|] eqn:Ei; [|done].
  intros [= <- <-]. split; [done|]. by eapply Forall_lookup_1; [apply Hs|].
Qed.
Lemma fine_touch {A} i f (k : network_interface -> M sys A) Q : iface_kept f ->
  (forall x, iface_fine x -> holds fine (k x) Q) ->
  holds fine (x ← get_iface i; upd_iface i (fun _ => f x) ;; k x) Q.
Proof.
  intros Hf Hk s a s' Hs E. apply bind_inv in E as (x & s1 & Ex & E). destruct (fine_iface i s x s1 Hs Ex) as [Hs1 Hx].
  pose proof (get_iface_same _ _ _ _ Ex) as ->.
  apply (Hk x Hx (s <| ifaces ::= alter (fun _ => f x) i |>) a s'); [by apply fine_put_back|exact E].
Qed.
Lemma fine_timers {A} (k : M timers A) Q : holds (timed m) k Q -> holds fine (with_timers k) Q.
Proof.
  intros Hk s a s' (Ht & Hi & Hj). unfold with_timers, zoom. destruct (k _) as [[b t]|] eqn:E; [|done].
  intros [= <- <-]. destruct (Hk _ _ _ Ht E). by split; [split|].
Qed.
End ifaces.
#[export] Hint Resolve fine_emit fine_count fine_iface : holds.
#[export] Hint Extern 2 (holds (sys_fine _) (upd_iface _ _) _) => (apply fine_upd; intros ? ?; split; [assumption|by split]) : holds.

(** The operations of an interface. *)
Section iface_operations.
Context `{EventHeapLaws, PrefixMapLaws, Reserved} (m : nat).
#[local] Abbreviation fine := (sys_fine m).

Lemma fine_index i : holds_ fine (get_if_index i).
Proof.
  unfold get_if_index. eapply holds_bind; [apply fine_iface|intros x _]. case_bool; [by apply holds_ret|].
  eapply holds_bind; [apply holds_get|intros s (_ & _ & _ & _ & _ & _ & _ & _ & Hlines)].
  destruct (if_inet6 s) as [lines|]; [|by apply holds_ret].
  destruct (list_find _ lines) as [[k [[name idx] addr]]|] eqn:Ef; [|by apply holds_ret].
  apply list_find_Some in Ef as (Hk & _). pose proof (Forall_lookup_1 _ _ _ _ (Hlines lines eq_refl) Hk) as Ha.
  eapply holds_bind; [|intros _ _; by apply holds_ret]. apply fine_upd.
  intros y (Hon & Hw & H48 & H64 & Hl & _ & Hn). split; [|by split]. split; [done|]. split; [done|]. by split_and!.
Qed.
Hint Resolve fine_index : holds.
Lemma fine_join i : holds_ fine (join_group i).
Proof. unfold join_group. holding. Qed.
Hint Resolve fine_join : holds.
Lemma fine_all_if i : holds_ fine (modify (fun s => s <| all_if ::= cons i |>)).
Proof.
  apply holds_modify. intros s (Ht & Hi & Hsp & Hs). split; [done|]. split; [done|]. split; [|done].
  revert Hsp. unfold spare. destruct reserved as [names|]; [|done]. intros (j & y & Hj & Hr). exists j, y. split; [by right|done].
Qed.
Lemma fine_socket b : holds_ fine (modify (fun s => s <| nd_socket_open := b |>)).
Proof. by apply holds_modify. Qed.
Hint Resolve fine_all_if fine_socket : holds.
Lemma fine_add i : holds_ fine (add_to_list i).
Proof.
  assert (holds_ fine (upd_iface i (fun x => x <| on_list := true |>))) by (apply fine_upd; by intros x [_ Hx]).
  unfold add_to_list. holding.
Qed.
Hint Resolve fine_add : holds.
Lemma fine_wake i : holds_ fine (upd_iface i (fun n => generate_eui64 n <| alive := true |>)).
Proof. apply fine_upd. exact generate_eui64_kept. Qed.
Hint Resolve fine_wake : holds.
Lemma fine_setup i : holds_ fine (setup i).
Proof. unfold setup. holding. Qed.
Lemma fine_check i : holds_ fine (check_allrouters_membership i).
Proof. unfold check_allrouters_membership. holding. Qed.
Hint Resolve fine_setup fine_check : holds.
Lemma fine_send i dest src body : holds_ fine (send_raw_icmp i dest src body).
Proof. unfold send_raw_icmp. holding. Qed.
Lemma fine_addprefix i p : holds_ fine (addprefix i p).
Proof. unfold addprefix, ni_route_show, nisystem. holding. Qed.
Lemma fine_parent i p src pn : holds_ fine (add_parent_route_to_prefix i p src pn).
Proof. unfold add_parent_route_to_prefix, ni_route_show, nisystem. holding. Qed.
Lemma fine_default i src pn : holds_ fine (add_parent_route_to_default i src pn).
Proof. apply fine_parent. Qed.
Lemma fine_node i p pn src : holds_ fine (add_route_to_node i p pn src).
Proof. unfold add_route_to_node, ni_route_show, nisystem. holding. Qed.
Lemma fine_short i a b : holds_ fine (packet_too_short i a b).
Proof. unfold packet_too_short. holding. Qed.
End iface_operations.
#[export] Hint Resolve fine_index fine_send fine_addprefix fine_parent fine_default fine_node fine_short : holds.

(** * The DAG

    [named]: whether the DAG has an address of its own. *)
Definition pm_fine (pm : prefix_map) : Prop := Forall (fun kv => length (pm_addr kv.2) = 16%nat) pm.
Definition subnet_fine (p : ip_subnet) : Prop :=
  exists bs bits, p = subnet6 bs bits /\ length bs = 16%nat /\ 0 <= bits <= 128.
Definition dag_fine (m : nat) (named : bool) (d : dag_network) : Prop :=
  (dag_self d < m)%nat /\ 0 < mInterval_msec d < 4294968 /\ dag_sized d /\ subnet_fine (mPrefix d) /\
  (forall w, pm_fine (sel_get w d)) /\ pm_fine (dag_children d) /\
  (forall sn, myDeviceIdentity d = Some sn -> length (ip_bytes (sn_addr sn)) = 16%nat) /\
  (mIID_is_set d = true -> length (ip_bytes (mIID d)) = 16%nat) /\ (named = true -> is_Some (dag_me d)).
Definition ctx_fine `{EventHeap, Reserved} (m : nat) (named : bool) (c : ctx) : Prop :=
  sys_fine m (shared c) /\ dag_fine m named (this c).

Section maps.
Context `{PrefixMapLaws}.

Lemma pm_values_fine pm : pm_fine pm -> addressed (pm_values pm).
Proof.
  intros Hp. apply list.Forall_forall. intros x Hx. unfold pm_values in Hx.
  apply list_elem_of_omap in Hx as (h & _ & Hh). unfold pm_get in Hh.
  destruct (pm !! h) as [kv|] eqn:E; [|done]. injection Hh as <-. exact (Forall_lookup_1 _ _ _ _ Hp E).
Qed.
Lemma pm_index_fine junk k pm : length (pm_addr junk) = 16%nat -> pm_fine pm -> pm_fine (pm_index junk k pm).2.
Proof.
  intros Hj Hp. unfold pm_index. destruct (pm_find _ _); [done|]. apply Forall_app. split; [done|]. by constructor.
Qed.
Lemma pm_upd_fine h f pm : (forall p, length (pm_addr p) = 16%nat -> length (pm_addr (f p)) = 16%nat) ->
  pm_fine pm -> pm_fine (pm_upd h f pm).
Proof. intros Hf Hp. apply Forall_alter; [done|]. intros [k p] _ Hx. by apply Hf. Qed.

Lemma dag_fine_sendable m named d : dag_fine m named d -> sendable d.
Proof.
  intros (_ & _ & Hs & (bs & bits & Hp) & Hw & Hc & _). split; [done|]. split; [by exists bs, bits|].
  split; apply pm_values_fine; [done|apply (Hw Announced)].
Qed.
End maps.

Section dag_methods.
Context `{EventHeapLaws, PrefixMapLaws, Reserved} (m : nat) (named : bool).
#[local] Abbreviation fine := (ctx_fine m named).
#[local] Abbreviation dfine := (dag_fine m named).

Lemma fine_sys {A} (k : M sys A) Q : holds (sys_fine m) k Q -> holds fine (with_sys k) Q.
Proof.
  intros Hk c a c' [Hs Hd]. unfold with_sys, zoom. destruct (k _) as [[b s]|] eqn:E; [|done].
  intros [= <- <-]. destruct (Hk _ _ _ Hs E). by split; [split|].
Qed.
Lemma fine_dag_upd g : (forall d, dfine d -> dfine (g d)) -> holds_ fine (dag_upd g).
Proof. intros Hg. apply holds_modify. intros c [Hs Hd]. split; [done|]. by apply Hg. Qed.
Lemma fine_dag_get {A} (f : dag_network -> A) : holds fine (dag_get f) (fun a => exists d, dfine d /\ a = f d).
Proof. intros c a c' Hc [= <- <-]. split; [done|]. exists (this c). split; [apply Hc|done]. Qed.
Lemma fine_dag : holds fine (dag_get id) dfine.
Proof. eapply holds_weaken; [apply fine_dag_get|]. by intros d (d' & ? & ->). Qed.
Lemma fine_shared : holds fine (with_sys get) (sys_fine m).
Proof. apply fine_sys, holds_get. Qed.
Lemma fine_member a g : holds_ fine (with_member a g).
Proof. by intros c x c' Hc [= _ <-]. Qed.
Lemma fine_deref a : holds_ fine (deref_peer a).
Proof. intros c x c' Hc. unfold deref_peer. case_match; [|done]. by intros [= _ <-]. Qed.
Lemma fine_read_me : holds_ fine read_me.
Proof. intros c x c' Hc. unfold read_me. repeat case_match; try done; by intros [= _ <-]. Qed.
Lemma fine_announcer a : holds_ fine (deref_announcer a).
Proof. destruct a; cbn [deref_announcer]; [apply holds_fail|apply fine_deref|by apply holds_ret|apply holds_fail]. Qed.
Lemma fine_read_pm w h : holds_ fine (read_pm w h).
Proof. intros c x c' Hc. unfold read_pm. case_match; [|done]. by intros [= _ <-]. Qed.
Lemma fine_upd_pm w h f : (forall p, length (pm_addr p) = 16%nat -> length (pm_addr (f p)) = 16%nat) ->
  holds_ fine (upd_pm w h f).
Proof.
  intros Hf. apply fine_dag_upd. intros d (Hm & Hi & Hs & Hp & Hw & Hc & Hid & Hiid & Hn).
  assert (forall v, pm_fine (sel_get v (sel_upd w (pm_upd h f) d))) as Hv.
  { intros v. specialize (Hw v). destruct w, v; cbn; try exact Hw; by apply pm_upd_fine. }
  destruct w; exact (conj Hm (conj Hi (conj Hs (conj Hp (conj Hv (conj Hc (conj Hid (conj Hiid Hn)))))))).
Qed.
Lemma fine_clock_event msec ty : 0 < msec < 4294968 -> holds_ fine (with_sys (with_timers (new_event 0 msec ty))).
Proof. intros. by apply fine_sys, fine_timers, timed_new_event. Qed.
Lemma fine_arm e ty msec : ty <> rpl_event_max -> 0 <= msec < 4294968 -> holds_ fine (arm_dag_event e ty msec).
Proof.
  intros. eapply holds_bind; [apply fine_dag_get|]. intros k (d & (Hk & _) & ->).
  by apply fine_sys, fine_timers, timed_arm_event.
Qed.
End dag_methods.
#[export] Hint Resolve fine_dag_get | 10 : holds.
#[export] Hint Resolve fine_sys fine_dag fine_shared fine_member fine_deref fine_read_me fine_announcer
  fine_read_pm : holds.
#[export] Hint Extern 2 (holds (ctx_fine _ _) (dag_upd _) _) =>
  (apply fine_dag_upd; intros ? ?; (repeat case_match); assumption) : holds.
#[export] Hint Extern 2 (holds (ctx_fine _ _) (upd_pm _ _ _) _) => (apply fine_upd_pm; done) : holds.

Section dag_operations.
Context `{EventHeapLaws, PrefixMapLaws, Reserved} (m : nat) (named : bool).
#[local] Abbreviation fine := (ctx_fine m named).

Lemma fine_count_dag x : holds_ fine (dag_count x).
Proof. unfold dag_count. holding. Qed.
Hint Resolve fine_count_dag : holds.
Lemma fine_schedule_dio ms : 0 <= ms < 4294967 -> holds_ fine (schedule_dio ms).
Proof.
  intros Hms. unfold schedule_dio. eapply holds_bind; [apply fine_dag|intros d (_ & Hi & _)].
  case_bool; [by apply holds_ret|].
  apply (holds_bind _ _ _ (fun _ => True)); [|intros e _; apply fine_arm; [done|rewrite u32_small; lia]].
  destruct (mSendDioEvent d); [by apply holds_ret|].
  eapply holds_bind; [by apply fine_clock_event|intros e _]. holding.
Qed.
Lemma fine_schedule_dao : holds_ fine schedule_dao.
Proof.
  unfold schedule_dao. eapply holds_bind; [apply fine_shared|intros s _].
  eapply holds_bind; [apply fine_dag|intros d (_ & Hi & _)].
  case_bool; [by apply holds_ret|].
  apply (holds_bind _ _ _ (fun _ => True)); [|intros e _; apply fine_arm; [done|lia]].
  destruct (mSendDaoEvent d); [by apply holds_ret|].
  eapply holds_bind; [by apply fine_clock_event|intros e _]. holding.
Qed.
Hint Resolve fine_schedule_dao : holds.
Lemma fine_maybe_dao : holds_ fine maybe_send_dao.
Proof. unfold maybe_send_dao. holding. Qed.
Lemma fine_maybe_dio : holds_ fine maybe_schedule_dio.
Proof.
  unfold maybe_schedule_dio. eapply holds_bind; [apply fine_dag|intros d _].
  case_match; [by apply holds_ret|]. eapply holds_bind; [by apply fine_schedule_dio|intros _ _]. holding.
Qed.
Hint Resolve fine_maybe_dao fine_maybe_dio : holds.

Lemma fine_me h w : holds_ fine (dag_upd (fun d => match dag_me d with
    | None => d <| dag_me := Some (sel_ref w h) |>
    | Some _ => d end)).
Proof.
  apply fine_dag_upd. intros d (Hm & Hi & Hs & Hp & Hw & Hc & Hid & Hiid & Hn). destruct (dag_me d) eqn:E.
  - unfold dag_fine. by rewrite E.
  - exact (conj Hm (conj Hi (conj Hs (conj Hp (conj Hw (conj Hc (conj Hid (conj Hiid (fun _ => mk_is_Some _ _ eq_refl))))))))).
Qed.
Hint Resolve fine_me : holds.

(** The address [configureip] makes is as long as its parts. *)
Lemma fine_configureip w h i : holds_ fine (configureip w h i).
Proof.
  unfold configureip. eapply holds_bind; [apply fine_dag|intros d (_ & _ & _ & (bs & bits & Hp & Hb & _) & _ & _ & Hid & Hiid & _)].
  case_bool; [by apply holds_ret|]. eapply holds_bind; [apply fine_read_pm|intros p _].
  case_bool; [by apply holds_ret|]. apply (holds_bind _ _ _ (fun link => length link = 16%nat)).
  - destruct (mIID_is_set d) eqn:E'; [by apply holds_ret, Hiid|].
    intros c ll c' [Hs Hd] Erun. apply bind_inv in Erun as (x & c1 & Ex & Erun). unfold with_sys, zoom in Ex.
    destruct (get_iface i (shared c)) as [[y s1]|] eqn:Eg; [|done]. injection Ex as -> <-.
    destruct (fine_iface m i _ _ _ Hs Eg) as [_ Hx].
    pose proof (get_iface_same _ _ _ _ Eg) as ->.
    destruct (link_local x) as [x' ll'] eqn:El. injection Erun as <- <-. split; [split; [|done]|].
    + pose proof (fine_put_back m i _ x _ link_local_kept Hs Eg) as Hback. cbv beta in Hback. rewrite El in Hback. exact Hback.
    + pose proof (proj2 (link_local_fine x Hx)) as Hll. by rewrite El in Hll.
  - intros link Hl. cbv zeta. eapply holds_bind; [apply fine_upd_pm|intros _ _; holding].
    intros q _. destruct (myDeviceIdentity d) as [sn|]; [exact (Hid sn eq_refl)|].
    unfold pm_addr. cbn. rewrite Hp. cbn. rewrite length_app, length_take, length_drop. lia.
Qed.
Hint Resolve fine_configureip : holds.
Lemma fine_cfg w h i p : subnet_fine p -> holds_ fine (cfg_new_node w h i p).
Proof.
  intros (bs & bits & -> & Hl & _). unfold cfg_new_node.
  assert (holds_ fine (upd_pm w h (set_prefix (subnet6 bs bits)))) by by apply fine_upd_pm.
  holding.
Qed.

(** Putting another map in the place of one of the maps. *)
Lemma fine_put w mp : pm_fine mp -> holds_ fine (dag_upd (sel_upd w (fun _ => mp))).
Proof.
  intros Hmp. apply fine_dag_upd. intros d (Hm & Hi & Hs & Hp & Hw & Hc & Hid & Hiid & Hn).
  assert (forall v, pm_fine (sel_get v (sel_upd w (fun _ => mp) d))) as Hv
    by (intros v; specialize (Hw v); destruct w, v; assumption).
  destruct w; exact (conj Hm (conj Hi (conj Hs (conj Hp (conj Hv (conj Hc (conj Hid (conj Hiid Hn)))))))).
Qed.
Lemma fine_children f : (forall pm, pm_fine pm -> pm_fine (f pm)) ->
  holds_ fine (dag_upd (fun d => d <| dag_children ::= f |>)).
Proof.
  intros Hf. apply fine_dag_upd. intros d (Hm & Hi & Hs & Hp & Hw & Hc & Hr).
  exact (conj Hm (conj Hi (conj Hs (conj Hp (conj Hw (conj (Hf _ Hc) Hr)))))).
Qed.

(** The mask of the key need not be one. *)
Lemma fine_add_address_of p : length (ip_bytes (sn_addr p)) = 16%nat -> holds_ fine (add_address p).
Proof.
  intros Hl. unfold add_address.
  eapply holds_bind; [apply fine_shared|intros s (_ & _ & _ & Hj & _)].
  eapply holds_bind; [apply fine_dag|intros d (_ & _ & _ & _ & Hw & _)].
  pose proof (pm_index_fine (junk_prefix s) p _ Hj (Hw Announced)) as Hpm. cbn [sel_get] in Hpm.
  destruct (pm_index _ _ _) as [h mp]. eapply holds_bind; [|intros _ _; by apply holds_ret].
  apply (fine_put Announced). by apply pm_upd_fine.
Qed.
Lemma fine_add_address p : subnet_fine p -> holds_ fine (add_address p).
Proof. intros (bs & bits & -> & Hl & _). by apply fine_add_address_of. Qed.

Lemma fine_set_prefix p : subnet_fine p -> holds_ fine (dag_upd (dag_set_prefix p)).
Proof.
  intros (bs & bits & -> & Hl & Hb). apply fine_dag_upd. intros d (Hm & Hi & Hs & _ & Hr).
  refine (conj Hm (conj Hi (conj Hs (conj _ Hr)))). by exists bs, bits.
Qed.

Lemma fine_add_prefix i p : subnet_fine p -> holds_ fine (add_prefix i p).
Proof.
  intros Hsub. pose proof Hsub as (bs & bits & E & Hl & _). unfold add_prefix.
  eapply holds_bind; [apply fine_shared|intros s (_ & _ & _ & Hj & _)].
  eapply holds_bind; [apply fine_dag|intros d (_ & _ & _ & _ & Hw & _)].
  pose proof (pm_index_fine (junk_prefix s) p _ Hj (Hw Prefixes)) as Hpm. cbn [sel_get] in Hpm.
  destruct (pm_index _ _ _) as [h mp].
  assert (holds_ fine (upd_pm Prefixes h (fun q => set_announcer Expired (set_installed true (set_prefix p q)))))
    by (apply fine_upd_pm; intros q _; by rewrite E).
  pose proof (fine_set_prefix p Hsub). pose proof (fine_add_address p Hsub).
  pose proof (fun w h i => fine_cfg w h i p Hsub).
  eapply holds_bind; [by apply (fine_put Prefixes)|intros _ _]. holding.
Qed.

(** ** Children and members *)
Lemma fine_via h i : holds_ fine (add_route_via_node h i).
Proof.
  unfold add_route_via_node.
  assert (holds_ fine (dag_upd (fun d => d <| dag_children ::= pm_upd h (fun p => p <| installed := true |>) |>)))
    by (apply fine_children; intros pm; by apply pm_upd_fine).
  eapply holds_bind; [apply fine_dag_get|intros ch _]. holding.
Qed.
Lemma fine_child peer i p : subnet_fine p -> holds_ fine (add_childnode peer i p).
Proof.
  intros (bs & bits & -> & Hl & _). unfold add_childnode, add_childnode_of.
  eapply holds_bind; [apply fine_shared|intros s (_ & _ & _ & Hj & _)].
  eapply holds_bind; [apply fine_dag|intros d (_ & _ & _ & _ & _ & Hc & _)].
  pose proof (pm_index_fine (junk_prefix s) (subnet6 bs bits) _ Hj Hc) as Hpm.
  destruct (pm_index _ _ _) as [h mp].
  eapply holds_bind; [by apply (fine_children (fun _ => mp))|intros _ _].
  pose proof (fine_via h i).
  assert (holds_ fine (dag_upd (fun d0 => d0 <| dao_needed := true |> <| dag_children ::= pm_upd h (fun q =>
    set_dn (Some (dag_self d0)) (set_announcer (Member peer) (set_prefix (subnet6 bs bits) q))) |>))).
  { apply fine_dag_upd. intros d' (Hm & Hi & Hs & Hp & Hw & Hc' & Hr).
    refine (conj Hm (conj Hi (conj Hs (conj Hp (conj Hw (conj _ Hr)))))). by apply pm_upd_fine. }
  holding.
Qed.
Lemma fine_update_node i from now : holds_ fine (update_node i from now).
Proof. unfold update_node. eapply holds_bind; [apply fine_member|intros peer _]. holding. Qed.
Lemma fine_daoack_out i child s : holds_ fine (send_daoack i child s).
Proof. unfold send_daoack. holding. Qed.
Lemma fine_commit : holds_ fine commit_parent.
Proof. unfold commit_parent. holding. Qed.
Lemma fine_seq seq : holds_ fine (dag_upd (seq_update seq)).
Proof. apply fine_dag_upd. intros d Hd. unfold seq_update. repeat case_bool; exact Hd. Qed.
End dag_operations.
#[export] Hint Resolve fine_count_dag fine_maybe_dao fine_maybe_dio fine_update_node fine_daoack_out fine_commit
  fine_seq : holds.

(** * The handlers of the messages *)
Section dag_handlers.
Context `{EventHeapLaws, PrefixMapLaws, Reserved} (m : nat) (named : bool).
#[local] Abbreviation fine := (ctx_fine m named).

Lemma cut_prefix_fine bs bits : 0 <= bits <= 128 -> (bits + 7) / 8 <= zlen bs -> subnet_fine (cut_prefix bs bits).
Proof.
  intros Hb Hl. eexists _, bits. split; [done|]. split; [|done]. unfold zlen in Hl.
  rewrite length_app, length_zeros, length_take. Z.to_euclidean_division_equations; lia.
Qed.
Lemma pio_subnet_fine data : pio_ok data -> subnet_fine (pio_subnet data).
Proof.
  intros [Hl Hb]. apply cut_prefix_fine; [done|]. unfold zlen in *. rewrite length_drop.
  Z.to_euclidean_division_equations; lia.
Qed.
Lemma target_subnet_fine data : target_ok data -> subnet_fine (target_subnet data).
Proof. intros (_ & Hb & Hl). apply cut_prefix_fine; [done|]. unfold zlen in *. rewrite length_drop. lia. Qed.

(** A loop over options that [refines] a loop over their subnets. *)
Lemma fine_subnets (P : list Z -> Prop) (sub : list Z -> ip_subnet) l (body : ip_subnet -> M ctx unit) :
  (forall data, P data -> subnet_fine (sub data)) -> (forall p, subnet_fine p -> holds_ fine (body p)) ->
  Forall P l -> holds_ fine (for_each (sub <$> l) body).
Proof.
  intros Hsub Hbody Hl. apply holds_for_each. intros p (data & -> & Hd)%list_elem_of_fmap.
  apply Hbody, Hsub. by eapply list.Forall_forall in Hl.
Qed.

Lemma fine_pio_loop i mm os : searching mm RPL_DIO_DESTPREFIX [] os ->
  Forall pio_ok (select RPL_DIO_DESTPREFIX os) -> (length (select RPL_DIO_DESTPREFIX os) < scan_fuel)%nat ->
  holds_ fine (pio_loop scan_fuel i mm).
Proof.
  intros Hs Hpio Hf c a c' Hc E. rewrite (pio_loop_refines i scan_fuel mm [] os c Hs Hpio Hf) in E.
  exact (fine_subnets pio_ok pio_subnet _ _ pio_subnet_fine (fine_add_prefix m named i) Hpio c a c' Hc E).
Qed.

Lemma follow_fine peer i dio d : Dio.wf dio -> dag_fine m named d -> dag_fine m named (follow peer i dio d).
Proof.
  intros (?&?&?&?&?&?&?&?&?) (Hm & Hi & (_ & _ & _ & Hd) & Hr). split; [exact Hm|]. split; [exact Hi|].
  split; [|exact Hr]. split; [done|]. split; [done|]. split; [by apply RPL_DIO_MOP_range|exact Hd].
Qed.

Lemma fine_lower_rank peer i dio mm os : Dio.wf dio -> msg_of mm RPL_DIO_DESTPREFIX os ->
  Forall pio_ok (select RPL_DIO_DESTPREFIX os) -> holds_ fine (potentially_lower_rank peer i dio mm).
Proof.
  intros Hwf (m' & -> & Hs & Hf) Hpio. unfold potentially_lower_rank.
  eapply holds_bind; [apply fine_dag|intros d _]. eapply holds_bind; [apply fine_count_dag|intros _ _].
  repeat (case_bool; [apply fine_count_dag|]).
  eapply holds_bind; [apply (fine_dag_upd m named (follow peer i dio)); intros ? ?; by apply follow_fine|intros _ _].
  eapply holds_bind; [apply holds_lift|intros x [= <-]].
  eapply holds_bind; [by eapply fine_pio_loop|intros _ _]. eapply holds_bind; [apply fine_dag|intros d' _].
  apply (holds_bind _ _ _ (fun _ => True)); [|intros _ _; apply fine_maybe_dao].
  destruct (dag_parent d'); [apply fine_maybe_dio|by apply holds_ret].
Qed.

Lemma fine_receive_dio i from now dio os post : Dio.wf dio -> Forall tlv_wf os ->
  Forall pio_ok (select RPL_DIO_DESTPREFIX os) -> zlen (enc os) <= 2048 ->
  holds_ fine (dag_receive_dio i from now (Dio.encode dio ++ enc os ++ post) (Dio.size + zlen (enc os))).
Proof.
  intros Hwf Hos Hpio Hlen. unfold dag_receive_dio.
  eapply holds_bind; [apply holds_lift|intros dio' Eo]. rewrite overlay_dio in Eo by done. injection Eo as <-.
  eapply holds_bind; [apply fine_count_dag|intros _ _]. eapply holds_bind; [apply fine_count_dag|intros _ _].
  eapply holds_bind; [apply fine_dag|intros d _]. case_bool; [apply fine_count_dag|].
  eapply holds_bind; [apply fine_update_node|intros [peer|] _]; [|by apply holds_ret].
  eapply holds_bind; [apply fine_seq|intros _ _]. eapply holds_bind; [apply fine_dag|intros d' _].
  case_bool; [apply fine_count_dag|]. eapply holds_bind; [apply fine_shared|intros s (_ & _ & _ & _ & Hj & _)].
  eapply holds_bind; [|intros _ _; apply fine_count_dag].
  apply (fine_lower_rank peer i dio _ os); [done| |done].
  replace (Dio.size + zlen (enc os) - Dio.size) with (zlen (enc os)) by lia. rewrite <-(Dio.encode_len _ Hwf).
  by apply init_msg_of.
Qed.

Lemma fine_target_loop peer i mm os : searching mm RPL_DAO_RPLTARGET [] os ->
  Forall target_ok (select RPL_DAO_RPLTARGET os) -> (length (select RPL_DAO_RPLTARGET os) < scan_fuel)%nat ->
  holds_ fine (target_loop scan_fuel peer i mm).
Proof.
  intros Hs Htg Hf c a c' Hc E. rewrite (target_loop_refines peer i scan_fuel mm [] os c Hs Htg Hf) in E.
  exact (fine_subnets target_ok target_subnet _ _ target_subnet_fine (fine_child m named peer i) Htg c a c' Hc E).
Qed.
Lemma fine_receive_dao i from now dao pre os post : Forall tlv_wf os ->
  Forall target_ok (select RPL_DAO_RPLTARGET os) -> zlen (enc os) <= 2048 ->
  holds_ fine (dag_receive_dao i from now dao (pre ++ enc os ++ post) (zlen pre) (zlen (enc os))).
Proof.
  intros Hos Htg Hlen. unfold dag_receive_dao.
  eapply holds_bind; [apply fine_count_dag|intros _ _]. eapply holds_bind; [apply fine_count_dag|intros _ _].
  eapply holds_bind; [apply fine_update_node|intros [peer|] _]; [|by apply holds_ret].
  eapply holds_bind; [apply fine_dag|intros d _]. case_bool; [apply fine_count_dag|].
  eapply holds_bind; [apply fine_shared|intros s (_ & _ & _ & _ & Hj & _)].
  destruct (init_msg_of (junk_bytes s) pre os post RPL_DAO_RPLTARGET Hj Hos Hlen ltac:(by compute))
    as (mm & -> & Hs & Hf).
  eapply holds_bind; [apply holds_lift|intros mm' [= <-]].
  eapply holds_bind; [by eapply fine_target_loop|intros _ _]. holding.
Qed.

Lemma fine_receive_daoack from ack : holds_ fine (dag_receive_daoack from ack).
Proof. unfold dag_receive_daoack. holding. Qed.
Lemma fine_receive_dis : holds_ fine dag_receive_dis.
Proof. unfold dag_receive_dis. pose proof (fine_schedule_dio m named 1 ltac:(lia)). holding. Qed.
End dag_handlers.
#[export] Hint Resolve fine_receive_daoack fine_receive_dis : holds.

(** * The world *)
Definition world_fine `{EventHeap, Reserved} (m : nat) (named : bool) (w : world) : Prop :=
  length (dags w) = m /\ sys_fine m (wsys w) /\ (forall k d, dags w !! k = Some d -> dag_fine m named d).

Section world_operations.
Context `{EventHeapLaws, PrefixMapLaws, Reserved} (m : nat) (named : bool).
#[local] Abbreviation fine := (world_fine m named).

Lemma world_in_sys {A} (k : M sys A) Q : holds (sys_fine m) k Q -> holds fine (in_sys k) Q.
Proof.
  intros Hk w a w' (Hl & Hs & Hd). unfold in_sys, zoom. destruct (k _) as [[b s]|] eqn:E; [|done].
  intros [= <- <-]. by destruct (Hk _ _ _ Hs E).
Qed.
Lemma world_in_dag {A} k (p : M ctx A) Q : holds (ctx_fine m named) p Q -> holds fine (in_dag k p) Q.
Proof.
  intros Hp w a w' (Hl & Hs & Hd). unfold in_dag. destruct (dags w !! k) as [d|] eqn:Ek; [|done].
  destruct (p _) as [[b c]|] eqn:E; [|done]. intros [= <- <-].
  destruct (Hp (mk_ctx d (wsys w)) _ _ (conj Hs (Hd k d Ek)) E) as [[Hs' Hd'] HQ]. split; [|done]. split; [|split; [exact Hs'|]].
  - cbn. by rewrite length_insert.
  - intros j x Hj. cbn in Hj. apply list_lookup_insert_Some in Hj as [(<- & <- & _)|[_ Hj]]; [done|by eapply Hd].
Qed.
Lemma world_count_fine x : holds_ fine (world_count x).
Proof. apply world_in_sys, fine_count. Qed.
Hint Resolve world_in_sys world_in_dag world_count_fine : holds.
Lemma world_find num l : holds_ fine (find_dag num l).
Proof.
  induction l as [|k l IH]; cbn [find_dag]; [by apply holds_ret|].
  eapply holds_bind; [apply world_in_dag, fine_dag|intros d _]. case_bool; [by apply holds_ret|done].
Qed.
Hint Resolve world_find : holds.
Lemma world_find_by num : holds_ fine (find_by_instanceid num).
Proof. unfold find_by_instanceid. holding. Qed.
Lemma world_find_dagid num id : holds_ fine (find_by_instanceid_dagid num id).
Proof. unfold find_by_instanceid_dagid. holding. Qed.
Hint Resolve world_find_by world_find_dagid : holds.
(** Nothing is watched, so no DAG is made. *)
Lemma world_find_for i num id : holds_ fine (find_dag_for i num id).
Proof.
  unfold find_dag_for. eapply holds_bind; [apply world_in_sys, fine_iface|intros x (_ & -> & _)]. holding.
Qed.
Lemma world_read_dagid dat flag size : holds_ fine (read_dagid dat flag size).
Proof.
  unfold read_dagid. eapply holds_bind; [apply world_in_sys, holds_get|intros s _]. case_bool; [by apply holds_ret|].
  eapply holds_weaken; [apply holds_lift|done].
Qed.
Hint Resolve world_find_for world_read_dagid : holds.

Lemma world_receive_dio i from now dio os post : Dio.wf dio -> Forall tlv_wf os ->
  Forall pio_ok (select RPL_DIO_DESTPREFIX os) -> zlen (enc os) <= 2048 ->
  holds_ fine (receive_dio i from now (Dio.encode dio ++ enc os ++ post) (Dio.size + zlen (enc os))).
Proof.
  intros Hwf Hos Hpio Hlen. unfold receive_dio.
  pose proof (fine_receive_dio m named i from now dio os post Hwf Hos Hpio Hlen).
  eapply holds_bind; [apply world_in_sys, fine_short|intros short _]. holding.
Qed.
Lemma world_receive_dao i from now dao dagid os post :
  zlen dagid = (if RPL_DAO_D (Dao.rpl_flags dao) =? 0 then 0 else 16) ->
  Forall tlv_wf os -> Forall target_ok (select RPL_DAO_RPLTARGET os) -> zlen (enc os) <= 2048 ->
  holds_ fine (receive_dao i from now ((Dao.encode dao ++ dagid) ++ enc os ++ post)
    (zlen (Dao.encode dao ++ dagid) + zlen (enc os))).
Proof.
  intros Hid Hos Htg Hlen. unfold receive_dao. assert (zlen (Dao.encode dao) = Dao.size) as He by done.
  eapply holds_bind; [apply world_in_sys, fine_short|intros short _]. case_bool; [by apply holds_ret|].
  eapply holds_bind; [apply holds_lift|intros dao' Eo].
  assert (dao' = dao) as ->.
  { unfold Dao.overlay in Eo. rewrite <-app_assoc, overlay_at0 in Eo by done. by destruct dao; injection Eo as <-. }
  cbv zeta. eapply holds_bind; [apply world_read_dagid|intros id _].
  eapply holds_bind; [apply world_find_for|intros [k|] _]; [|apply world_count_fine].
  assert (option_start (RPL_DAO_D (Dao.rpl_flags dao)) Dao.size = zlen (Dao.encode dao ++ dagid)) as ->.
  { rewrite zlen_app, He, Hid. unfold option_start. case_bool; lia. }
  replace (zlen (Dao.encode dao ++ dagid) + zlen (enc os) - zlen (Dao.encode dao ++ dagid)) with (zlen (enc os)) by lia.
  pose proof (zlen_nonneg (enc os)). rewrite s32_u32 by lia. by apply world_in_dag, fine_receive_dao.
Qed.
Lemma world_receive_daoack i from now dat len : holds_ fine (receive_daoack i from now dat len).
Proof. unfold receive_daoack. eapply holds_bind; [apply world_in_sys, fine_short|intros short _]. holding. Qed.
Lemma world_solicited fuel mm : holds_ fine (solicited_loop fuel mm).
Proof. revert mm. induction fuel; intros mm; cbn [solicited_loop]; holding. Qed.
Lemma world_receive_dis i dat len : holds_ fine (receive_dis i dat len).
Proof.
  unfold receive_dis. pose proof world_solicited. eapply holds_bind; [apply world_in_sys, fine_short|intros short _].
  holding.
Qed.

(** A well-formed RPL message, whole. *)
Lemma world_receive_packet i src dst now c1 c2 code dat len : rpl_message code dat len ->
  holds_ fine (receive_packet i src dst now ([ND_RPL_MESSAGE; code; c1; c2] ++ dat) (4 + len)).
Proof.
  intros Hmsg. unfold receive_packet. eapply holds_bind; [by apply world_in_sys, fine_upd|intros _ _].
  eapply holds_bind; [apply holds_lift|intros ty [= <-]]. cbv zeta. rewrite Z.eqb_refl.
  eapply holds_bind; [apply holds_lift|intros c [= <-]].
  replace (4 + len - 4) with len by lia. change (drop 4 ([ND_RPL_MESSAGE; code; c1; c2] ++ dat)) with dat.
  destruct Hmsg as [dio os post|dao dagid os post|ack dagid post len|a b os post].
  - by apply world_receive_dio.
  - by apply world_receive_dao.
  - apply world_receive_daoack.
  - change (holds_ fine (world_count PS_DIS_PACKET_IGNORED ;;
      receive_dis i ([a; b] ++ enc os ++ post) (Dis.size + zlen (enc os)))).
    eapply holds_bind; [apply world_count_fine|intros _ _]. apply world_receive_dis.
Qed.

(** ** Timers that fire *)
Lemma fine_build {A} (build : dag_network -> outcome (dag_network * list Z * Z)) (k : list Z -> Z -> M ctx A) :
  (forall d d' b l, dag_fine m named d -> build d = Ok (d', b, l) -> dag_fine m named d') ->
  (forall b l, holds_ (ctx_fine m named) (k b l)) ->
  holds_ (ctx_fine m named) (d ← dag_get id; '(d', b, l) ← lift (build d); dag_upd (fun _ => d') ;; k b l).
Proof.
  intros Hb Hk. eapply holds_bind; [apply fine_dag|intros d Hd].
  eapply holds_bind; [apply holds_lift|intros [[d' b] l] E].
  eapply holds_bind; [apply fine_dag_upd; intros _ _; by eapply Hb|intros _ _]. apply Hk.
Qed.
Lemma fine_send_dio i : holds_ (ctx_fine m named) (send_dio i).
Proof.
  apply (fine_build (fun d => build_dio d icmp_body_size (mPrefix d)) (fun buff len => _)).
  - by intros d d' b l Hd ->%build_dio_dag.
  - intros b l. holding.
Qed.
Lemma fine_send_dao : holds_ (ctx_fine m named) send_dao.
Proof.
  unfold send_dao. eapply holds_bind; [apply fine_dag|intros d _].
  destruct (dag_bestparent d) as [a|]; [|by apply holds_ret]. destruct (dag_bestparentif d) as [i|]; [|by apply holds_ret].
  apply (fine_build (fun d => build_dao d icmp_body_size) (fun buff len => _)).
  - by intros d0 d' b l Hd ->%build_dao_dag.
  - intros b l. holding.
Qed.
Lemma world_doit e : holds_ fine (doit e).
Proof.
  unfold doit. pose proof (fun i => fine_send_dio i). pose proof fine_send_dao.
  eapply holds_bind; [apply world_in_sys, fine_timers, timed_get_event|intros ev _].
  assert (forall k, holds_ fine (send_dio_all k)).
  { intros k. unfold send_dio_all. eapply holds_bind; [apply world_in_sys, holds_get|intros s _].
    apply holds_for_each. intros i _. eapply holds_bind; [apply world_in_sys, fine_iface|intros x _]. holding. }
  holding.
Qed.
End world_operations.
#[export] Hint Resolve world_in_sys world_in_dag world_count_fine world_doit : holds.
