(* ===== verification/Solicit.v ===== *)
(** Neighbour discovery while the daemon serves: that the handlers of a
    solicitation and of a registrar's answer return, whatever the neighbours
    send, and keep the invariant of [Sound]. *)

From Stdlib Require Import ZArith Lia String.
From stdpp Require Import base list gmap numbers strings sorting.
From S2P Require Import Prelude Wire Event Prefix State Iface Build Dag Safety.
From S2P Require Import Neighbour World Join Sound.
#[local] Open Scope Z_scope.

(** A solicitation as it is received: one that is too short, or one with
    well-formed options, in a buffer that goes on. *)
Definition solicit_ok (dat : list Z) (nd_len : Z) : Prop :=
  nd_len < Nd.ns_size \/
  exists hdr target os post, zlen hdr = 8 /\ length target = 16%nat /\ Forall opt_wf os /\
    dat = solicitation hdr target os post /\ nd_len = Nd.ns_size + zlen (opts_enc os).

(** An answer that [libcbor] can take apart: the items that are read are there,
    and the numbers are numbers. *)
Definition answer_ok (reply : cbor) : Prop :=
  match reply with
  | CArray (CUint ty :: rest) =>
      u32 ty = M_END ->
      match rest with
      | CUint _ :: CArray opts :: _ => exists o opts', opts = CUint o :: opts'
      | CUint _ :: _ :: _ => True
      | _ => False
      end
  | CArray _ => False
  | _ => True
  end.

Section solicit.
Context `{EventHeapLaws, PrefixMapLaws, Reserved} (n : nat) (t : timers) (m : nat).

(** What every method here needs and leaves. *)
Definition sound_sys (s : sys) : Prop := env n t s /\ sys_fine m s.
Definition stays {A} (p : M sys A) (Q : A -> Prop) : Prop := safe sound_sys p (fun a s => sound_sys s /\ Q a).
#[local] Abbreviation stays_ p := (stays p (fun _ => True)).

Lemma stays_of {A} (p : M sys A) Q : safe (env n t) p (fun _ => env n t) -> holds (sys_fine m) p Q -> stays p Q.
Proof.
  intros Hs Hh s [He Hf]. destruct (Hs s He) as (a & s' & E & He'). destruct (Hh _ _ _ Hf E) as [Hf' HQ].
  by exists a, s'.
Qed.
Lemma stays_bind {A B} (p : M sys A) (k : A -> M sys B) Q R :
  stays p Q -> (forall a, Q a -> stays (k a) R) -> stays (p ≫= k) R.
Proof.
  intros Hp Hk s Hs. destruct (Hp s Hs) as (a & s1 & E & Hs1 & Ha). destruct (Hk a Ha s1 Hs1) as (b & s' & E' & ?).
  exists b, s'. by rewrite (bind_ok _ _ s a s1 E).
Qed.
Lemma stays_ret {A} (a : A) (Q : A -> Prop) : Q a -> stays (mret a) Q.
Proof. intros Ha s Hs. by exists a, s. Qed.
Lemma stays_lift {A} (o : outcome A) (a : A) (Q : A -> Prop) : o = Ok a -> Q a -> stays (lift o) Q.
Proof. intros -> Ha s Hs. by exists a, s. Qed.
Lemma stays_when b p : stays_ p -> stays_ (when b p).
Proof. intros. destruct b; [done|]. by apply stays_ret. Qed.
Lemma stays_get : stays get sound_sys.
Proof. intros s Hs. by exists s, s. Qed.
Lemma stays_gets {A} (f : sys -> A) : stays_ (gets f).
Proof. intros s Hs. by exists (f s), s. Qed.
Lemma stays_count x : stays_ (global_count x).
Proof. apply stays_of; [apply global_count_safe|apply fine_count]. Qed.
Lemma stays_iface i : (i < n)%nat -> stays (get_iface i) iface_fine.
Proof. intros. apply stays_of; [by apply get_iface_safe|apply fine_iface]. Qed.
Lemma stays_index i : (i < n)%nat -> stays_ (get_if_index i).
Proof. intros. apply stays_of; [by apply get_if_index_safe|apply fine_index]. Qed.
Lemma stays_upd i f : iface_kept f -> stays_ (upd_iface i f).
Proof. intros. apply stays_of; [apply upd_iface_safe|by apply fine_upd]. Qed.
Lemma stays_short i a b : (i < n)%nat -> stays (packet_too_short i a b) (fun r => r = (a <? b)).
Proof.
  intros Hi. unfold packet_too_short. destruct (a <? b); [|by apply stays_ret].
  eapply stays_bind; [|intros _ _; by apply stays_ret]. by apply stays_upd; intros x Hx.
Qed.
Lemma stays_send i dest src body : (i < n)%nat -> stays_ (send_raw_icmp i dest src body).
Proof. intros. apply stays_of; [by apply send_raw_icmp_safe|apply fine_send]. Qed.

(** ** The neighbour table *)
Lemma node_at_fine junk (x : network_interface) a : node_fine junk -> iface_fine x -> node_fine (node_at junk (neighbours x) a).
Proof.
  intros Hj (_ & _ & _ & _ & _ & _ & Hn). unfold node_at. destruct (neighbours x !! a) as [nd|] eqn:E; [|exact Hj].
  exact (map_Forall_lookup_1 _ _ _ _ Hn E).
Qed.
Lemma stays_neighbour i a f : (i < n)%nat -> (forall nd, node_fine nd -> node_fine (f nd)) ->
  stays (upd_neighbour i a f) node_fine.
Proof.
  intros Hi Hf. unfold upd_neighbour. eapply stays_bind; [by apply stays_iface|intros x Hx].
  eapply stays_bind; [apply stays_get|intros s [_ (_ & _ & _ & _ & _ & _ & _ & Hj & _)]]. cbv zeta.
  assert (node_fine (f (node_at (junk_node s) (neighbours x) a))) as Hnd by (apply Hf; by apply node_at_fine).
  eapply stays_bind; [|intros _ _; by apply stays_ret]. apply stays_upd.
  intros y (Hon & Hw & H48 & H64 & Hl & Ha & Hn). split; [|done]. split; [done|]. split_and!; try done. by apply map_Forall_insert_2.
Qed.
Lemma stays_mark i a f : (i < n)%nat -> (forall nd, node_fine nd -> node_fine (f nd)) -> stays_ (upd_neighbour i a f).
Proof. intros. eapply safe_weaken; [by apply (stays_neighbour i a f)|done|]. by intros nd s [? _]. Qed.
Lemma markvalid_fine idx a nd : length a = 16%nat -> node_fine (markvalid idx a nd).
Proof. done. Qed.

Lemma stays_find i a : (i < n)%nat -> length a = 16%nat -> stays_ (find_neighbour i a).
Proof.
  intros Hi Ha. unfold find_neighbour. eapply stays_bind; [by apply stays_mark|intros nd _].
  case_bool; [by apply stays_ret|]. eapply stays_bind; [by apply stays_index|intros idx _].
  apply stays_mark; [done|]. intros. by apply markvalid_fine.
Qed.
Lemma stays_stamp i a : (i < n)%nat -> stays_ (update_nce_stamp i a).
Proof.
  intros Hi. unfold update_nce_stamp. eapply stays_bind; [apply stays_get|intros s _]. by apply stays_mark.
Qed.

(** ** Messages that are sent *)
Lemma na_start_runs flags target : length target = 16%nat ->
  exists buff, na_start flags target = Ok buff /\ length buff = 2048%nat.
Proof.
  intros Ht. unfold na_start.
  destruct (wr_range_in (zeros 2048) 0 [Nd.ND_NEIGHBOR_ADVERT; 0; 0; 0; flags]) as (b & -> & Hb);
    [done|rewrite zlen_zeros; change (zlen [_; _; _; _; _]) with 5; lia|]. cbn [mbind outcome_bind]. rewrite length_zeros in Hb.
  destruct (wr_range_in b 8 target) as (b' & E & Hb'); [done|unfold zlen; rewrite Hb, Ht; lia|]. exists b'. by rewrite Hb', Hb.
Qed.
Lemma join_reply_runs nd success : node_fine nd -> exists body, join_reply nd success = Ok body.
Proof.
  intros Hnd. unfold join_reply.
  destruct (na_start_runs (Z.lor Nd.ND_NA_FLAG_OVERRIDE Nd.ND_NA_FLAG_SOLICITED) (node_number nd) Hnd) as (b & -> & Hb).
  cbn [mbind outcome_bind]. set (a := Nd.aro_encode _).
  assert (length a = 16%nat) as Ha by (unfold a, Nd.aro_encode; cbn; rewrite ?length_app, ?length_drop, Hnd; done).
  destruct (wr_range_in b Nd.ns_size a) as (b' & -> & Hb'); [done|unfold zlen, Nd.ns_size; rewrite Hb, Ha; lia|].
  cbn [mbind outcome_bind]. rewrite rd_range_take; [by eexists|]. unfold zlen. rewrite Hb', Hb. done.
Qed.
Lemma stays_reply_join i nd success : (i < n)%nat -> node_fine nd -> stays_ (reply_join i nd success).
Proof.
  intros Hi Hnd. destruct (join_reply_runs nd success Hnd) as [body E]. unfold reply_join.
  eapply stays_bind; [by apply (stays_lift _ body (fun _ => True))|intros x _]. by apply stays_send.
Qed.

Lemma stays_basic_advert i solicited : (i < n)%nat -> stays_ (build_basic_neighbour_advert i solicited).
Proof.
  intros Hi s [He Hf]. unfold build_basic_neighbour_advert.
  destruct (stays_iface i Hi s (conj He Hf)) as (x & s1 & Ex & _ & Hx).
  pose proof (get_iface_same _ _ _ _ Ex) as ->. rewrite (bind_ok _ _ s x s Ex).
  pose proof (fine_put_back m i _ x s link_local_kept Hf Ex) as Hback. cbv beta in Hback.
  pose proof (proj2 (link_local_fine x Hx)) as Hll. destruct (link_local x) as [x' ll]. cbn [fst snd] in Hback, Hll.
  destruct (upd_iface_safe n t i (fun _ => x') s He) as ([] & s2 & E2 & He2). rewrite (bind_ok _ _ s tt s2 E2).
  assert (s2 = s <| ifaces ::= alter (fun _ => x') i |>) as -> by (by injection E2 as <-).
  set (flags := if solicited then _ else _). destruct (na_start_runs flags ll Hll) as (buff & -> & Hb).
  set (s2 := _ <| ifaces ::= _ |>) in *. rewrite (bind_ok _ _ s2 buff s2) by done.
  unfold lift. rewrite rd_range_take by (unfold zlen; rewrite Hb; done). by eexists _, s2.
Qed.
Lemma stays_mcast_advert i this from : (i < n)%nat -> stays_ (reply_mcast_neighbour_advert i this from).
Proof.
  intros Hi. unfold reply_mcast_neighbour_advert. eapply stays_bind; [by apply stays_stamp|intros _ _].
  eapply stays_bind; [by apply stays_basic_advert|intros body _]. by apply stays_send.
Qed.

(** ** The join assistant *)
Lemma first_aro_readable hdr os post base off : zlen hdr = base -> Forall opt_wf os -> first_aro base os = Some off ->
  exists eui, rd_range (hdr ++ opts_enc os ++ post) (off + 8) 8 = Ok eui.
Proof.
  intros Hh Hos. revert hdr base Hh. induction Hos as [|o os Ho _ IH]; intros hdr base Hh; [done|]. cbn [first_aro].
  rewrite opts_enc_cons, <-app_assoc. destruct (Z.eqb_spec (opt_type o) Nd.ND_OPT_ARO) as [Hty|_].
  - intros [= <-]. destruct (opt_enc_len o Ho) as [Hl _]. pose proof (proj2 Ho Hty). rewrite <-Hh.
    rewrite rd_range_mid by lia. by eexists.
  - intros Hoff. rewrite app_assoc. by apply (IH (hdr ++ opt_enc o) (base + zlen (opt_enc o))); [rewrite zlen_app, Hh|].
Qed.

Lemma client_kept (f : grasp_client -> grasp_client) : iface_kept (fun x => x <| join_query_client ::= fmap f |>).
Proof. intros x Hx. split; [done|]. split; [done|]. cbn. by intros ->. Qed.
Lemma stays_session : stays_ generate_random_sessionid.
Proof.
  unfold generate_random_sessionid. eapply (stays_bind _ _ (fun _ => True)); [|intros _ _; apply stays_gets].
  intros s Hs. by eexists tt, _.
Qed.
Lemma stays_query i g eui : stays_ (start_query_for_aro i g eui).
Proof.
  unfold start_query_for_aro. eapply stays_bind; [apply stays_session|intros gsi _].
  eapply (stays_bind _ _ (fun _ => True)); [|intros b _; by apply stays_ret]. unfold send_cbor, upd_client.
  case_bool; [|by apply stays_ret].
  eapply (stays_bind _ _ (fun _ => True)); [apply stays_of; [apply emit_safe|apply fine_emit]|intros _ _].
  eapply stays_bind; [apply stays_upd, client_kept|intros _ _]. by apply stays_ret.
Qed.

Lemma stays_join i this hdr target os post : (i < n)%nat -> zlen (hdr ++ target) = Nd.ns_size -> Forall opt_wf os ->
  stays_ (reply_mcast_neighbour_join i this (solicitation hdr target os post) (Nd.ns_size + zlen (opts_enc os))).
Proof.
  intros Hi Hh Hos. unfold reply_mcast_neighbour_join, solicitation.
  eapply stays_bind; [eapply (stays_lift _ _ (fun r => r = first_aro Nd.ns_size os)); [by apply find_aro_run|done]|].
  intros r ->. destruct (first_aro Nd.ns_size os) as [off|] eqn:Eoff; [|by apply stays_ret].
  destruct (first_aro_readable (hdr ++ target) os post _ off Hh Hos Eoff) as [eui Heui].
  eapply stays_bind; [apply stays_count|intros _ _].
  eapply stays_bind; [by apply (stays_neighbour i this id)|intros nd Hnd].
  case_bool; [eapply stays_bind; [apply stays_count|intros _ _]; by apply stays_reply_join|].
  case_bool; [apply stays_count|].
  case_bool; [eapply stays_bind; [apply stays_count|intros _ _]; by apply stays_reply_join|].
  eapply stays_bind; [apply stays_count|intros _ _]. eapply stays_bind; [by apply stays_iface|intros x _].
  destruct (join_query_client x) as [g|].
  - eapply stays_bind; [by apply (stays_lift _ eui (fun _ => True))|intros ? _].
    eapply stays_bind; [apply stays_query|intros gsi _].
    eapply stays_bind; [by apply stays_mark|intros _ _]. by apply stays_ret.
  - eapply stays_bind; [apply stays_count|intros _ _]. by apply stays_reply_join.
Qed.

Lemma stays_unicast i from : (i < n)%nat -> length from = 16%nat -> stays_ (reply_unicast_solicit i from).
Proof.
  intros Hi Hfrom. unfold reply_unicast_solicit. case_bool; [apply stays_count|].
  eapply stays_bind; [by apply stays_mark|intros _ _]. eapply stays_bind; [by apply stays_index|intros idx _].
  eapply stays_bind; [apply stays_mark; [done|]; intros; by apply markvalid_fine|intros _ _].
  eapply stays_bind; [by apply stays_stamp|intros _ _]. by apply stays_ret.
Qed.

Lemma stays_solicit i from ip6_to dat nd_len : (i < n)%nat -> length from = 16%nat -> solicit_ok dat nd_len ->
  stays_ (receive_neighbour_solicit i from ip6_to dat nd_len).
Proof.
  intros Hi Hfrom Hdat. unfold receive_neighbour_solicit. eapply stays_bind; [apply stays_count|intros _ _].
  eapply stays_bind; [by apply stays_short|]. intros r ->.
  destruct (Z.ltb_spec nd_len Nd.ns_size) as [|Hge]; [by apply stays_ret|].
  destruct Hdat as [|(hdr & target & os & post & Hh & Ht & Hos & -> & ->)]; [lia|].
  assert (zlen (hdr ++ target) = Nd.ns_size) as Hht by (rewrite zlen_app, Hh; unfold zlen; by rewrite Ht).
  eapply stays_bind; [apply (stays_lift _ target (fun a => a = target)); [|done]|intros ? ->].
  { unfold solicitation. rewrite <-app_assoc, <-Hh. replace 16 with (zlen target) by (unfold zlen; by rewrite Ht). apply rd_range_app. }
  eapply stays_bind; [by apply stays_find|intros _ _]. eapply stays_bind; [by apply stays_iface|intros x _].
  case_bool.
  - eapply stays_bind; [apply stays_when, stays_count|intros _ _]. eapply stays_bind; [apply stays_count|intros _ _].
    by apply stays_unicast.
  - case_bool; [|apply stays_count]. eapply stays_bind; [by apply stays_index|intros idx _].
    eapply stays_bind; [apply stays_mark; [done|]; intros; by apply markvalid_fine|intros _ _].
    case_bool; (eapply stays_bind; [apply stays_count|intros _ _]); [by apply stays_join|by apply stays_mcast_advert].
Qed.

(** ** The registrar's answer *)
Lemma stays_process i gsi success : (i < n)%nat -> stays_ (process_grasp_reply i gsi success).
Proof.
  intros Hi. unfold process_grasp_reply. eapply stays_bind; [by apply stays_iface|intros x _].
  destruct (find_by_sessionid _ _) as [[a nd]|]; [|by apply stays_ret].
  eapply stays_bind; [apply stays_neighbour; [done|]; intros y Hy; unfold set_accepted; by destruct success|intros rn Hrn].
  by apply stays_reply_join.
Qed.
Lemma stays_answer i reply : (i < n)%nat -> (forall r, reply = Some r -> answer_ok r) -> stays_ (client_reply i reply).
Proof.
  intros Hi Hr. unfold client_reply. destruct reply as [r|]; [|by apply stays_ret]. specialize (Hr r eq_refl).
  eapply stays_bind; [apply stays_upd, client_kept|intros _ _]. unfold decode_grasp_reply.
  destruct r as [| | |[|[ty| | |] rest]]; try done; try by apply stays_ret.
  eapply stays_bind; [by apply (stays_lift _ (CUint ty) (fun c => c = CUint ty))|intros ? ->].
  eapply stays_bind; [by apply (stays_lift _ ty (fun c => c = ty))|intros ? ->].
  destruct (Z.eqb_spec (u32 ty) M_END) as [Hend|]; cbn [negb]; [|by apply stays_ret].
  specialize (Hr Hend). destruct rest as [|[sid| | |] [|result rest]]; try done.
  eapply stays_bind; [by apply (stays_lift _ (CUint sid) (fun c => c = CUint sid))|intros ? ->].
  eapply stays_bind; [by apply (stays_lift _ sid (fun c => c = sid))|intros ? ->].
  eapply stays_bind; [by apply (stays_lift _ result (fun c => c = result))|intros ? ->].
  destruct result as [| | |opts]; try by apply stays_ret. destruct Hr as (o & opts' & ->).
  eapply stays_bind; [by apply (stays_lift _ (CUint o) (fun c => c = CUint o))|intros ? ->].
  eapply stays_bind; [by apply (stays_lift _ o (fun c => c = o))|intros ? ->].
  eapply stays_bind; [by apply stays_process|intros _ _]. by apply stays_ret.
Qed.
End solicit.
