(* ===== verification/Total.v ===== *)
(** The methods of a DAG that the options of the command line call: each returns
    from a sound state, leaves one, and keeps the events of the others; and the
    first prefix of a node's own gives its DAG an address. *)

From Stdlib Require Import ZArith Lia String.
From stdpp Require Import base list gmap numbers strings.
From S2P Require Import Prelude Wire Subopt Event Prefix Text State Iface Build Dag Filters DagFacts Safety.
From S2P Require Import Handlers Routes Neighbour World Netlink Worlds Timers Sound Solicit.
#[local] Open Scope Z_scope.

(** * Methods that return and keep everything

    [total p]: from a state in which the pointers are good and the sizes right,
    [p] returns such a state, and it deletes no event. *)
Section total.
Context `{EventHeapLaws, PrefixMapLaws, Reserved} (n m : nat) (named : bool).

Definition sound_ctx (c : ctx) : Prop := ctx_ok n c /\ ctx_fine m named c.
Definition total {A} (p : M ctx A) : Prop :=
  safe sound_ctx p (fun _ => sound_ctx) /\ keeps live_mono_ctx p.

Lemma total_of {A} (p : M ctx A) (F : dag_network -> Prop) : (forall d, dag_fine m named d -> F d) ->
  safe (ok n F) p (fun _ => ctx_ok n) -> keeps live_mono_ctx p -> holds_ (ctx_fine m named) p -> total p.
Proof.
  intros HF Hs Hk Hh. split; [|done]. intros c [Hok Hf].
  destruct (Hs c (conj Hok (HF _ (proj2 Hf)))) as (a & c' & E & Hok'). exists a, c'.
  split; [done|]. split; [done|]. by destruct (Hh _ _ _ Hf E).
Qed.
Lemma total_safe {A} (p : M ctx A) : safe (ctx_ok n) p (fun _ => ctx_ok n) -> keeps live_mono_ctx p ->
  holds_ (ctx_fine m named) p -> total p.
Proof.
  intros Hs Hk Hh. apply (total_of p (fun _ => True)); [done| |done..].
  eapply safe_weaken; [exact Hs|by intros c []|done].
Qed.
Lemma total_bind {A B} (p : M ctx A) (k : A -> M ctx B) : total p -> (forall a, total (k a)) -> total (p ≫= k).
Proof.
  intros [Hs Hk] Hr. split; [eapply safe_bind; [exact Hs|intros a; apply Hr]|].
  apply keeps_bind; [apply _|done|]. intros a. apply Hr.
Qed.
Lemma total_ret {A} (a : A) : total (mret a).
Proof. split; [apply keep_ret|]. apply keeps_ret. apply _. Qed.
Lemma total_when b (p : M ctx unit) : total p -> total (when b p).
Proof. intros. destruct b; [done|]. apply total_ret. Qed.

(** A setter that touches no pointer and keeps the sizes. *)
Lemma total_upd g : (forall t d, dag_ok n t d -> dag_ok n t (g d)) -> (forall d, dag_self (g d) = dag_self d) ->
  (forall d, dag_fine m named d -> dag_fine m named (g d)) -> total (dag_upd g).
Proof. intros Hs Hl Hf. apply total_safe; [by apply dag_upd_safe|by apply lm_dag_upd|by apply fine_dag_upd]. Qed.

Lemma total_dao_needed b : total (dag_upd (fun d => d <| dao_needed := b |>)).
Proof. by apply total_upd. Qed.

(** ** Identity and prefix *)
Lemma set_acp_identity_total sn : subnet_fine sn -> total (set_acp_identity sn).
Proof.
  intros Hsn. unfold set_acp_identity. apply total_bind.
  { apply total_upd; [done..|]. intros d (Hm & Hi & Hs & Hp & Hw & Hc & _ & Hr).
    refine (conj Hm (conj Hi (conj Hs (conj Hp (conj Hw (conj Hc (conj _ Hr))))))).
    destruct Hsn as (bs & bits & -> & Hl & _). by intros sn [= <-]. }
  intros _. apply total_safe.
  - eapply safe_bind; [apply add_address_ok|intros h].
    eapply safe_weaken; [by apply (cfg_new_node_ok n Announced h None)|done|by intros _ c []].
  - apply keeps_bind; [apply _|apply lm_add_address|intros h; apply lm_cfg].
  - eapply holds_bind; [by apply fine_add_address|intros h _; by apply fine_cfg].
Qed.

Lemma addselfprefix_safe i : (i < n)%nat -> safe (ctx_ok n) (addselfprefix i) (fun _ => ctx_ok n).
Proof.
  intros Hi. unfold addselfprefix.
  assert (forall a f, safe (ctx_ok n) (with_member a f) (fun _ => ctx_ok n)) as Hmem.
  { intros a f. eapply safe_weaken; [by apply (with_member_ok n a f (fun _ => True) (fun _ => True))|by split|by intros ? ? []]. }
  apply keep_bind; [apply with_sys_safe; eauto with safe|intros x].
  apply keep_bind; [apply keep_gets|intros dn]. apply keep_bind; [apply Hmem|intros _].
  apply keep_bind; [apply with_sys_safe; eauto with safe|intros idx]. apply keep_bind; [apply Hmem|intros _].
  intros c Hc. rewrite (bind_ok _ _ c (shared c) c) by (unfold with_sys, zoom, get; by destruct c).
  rewrite (bind_ok _ _ c (this c) c) by done.
  destruct (pm_index _ _ _) as [h mp] eqn:Ei.
  assert (safe (fun c' => c' = c) (dag_upd (fun d => d <| dag_prefixes := mp |>)) (fun _ => ok n (has Prefixes h))) as Hput
    by by eapply put_prefixes_ok.
  refine ((safe_bind _ _ _ _ (fun _ => ctx_ok n) Hput _) c eq_refl). intros _.
  apply (safe_weaken _ (ok n (has Prefixes h)) _ _ (fun _ => ok n (has Prefixes h))); [|done|by intros ? ? []].
  apply keep_bind; [by apply read_pm_ok|intros pre]. case_bool; [apply keep_ret|].
  apply keep_bind; [by apply dag_upd_ok|intros _]. apply keep_bind; [apply upd_pm_ok|intros _].
  apply keep_bind; [by apply configureip_ok|intros _]. by apply (set_me_ok n Prefixes h).
Qed.
Lemma addselfprefix_live i : keeps live_mono_ctx (addselfprefix i).
Proof. unfold addselfprefix. keep. Qed.
Lemma addselfprefix_fine i : holds_ (ctx_fine m named) (addselfprefix i).
Proof.
  unfold addselfprefix. eapply holds_bind; [apply fine_sys, fine_iface|intros x _].
  eapply holds_bind; [apply fine_dag_get|intros dn _]. eapply holds_bind; [apply fine_member|intros _ _].
  eapply holds_bind; [apply fine_sys, fine_index|intros idx _]. eapply holds_bind; [apply fine_member|intros _ _].
  eapply holds_bind; [apply fine_shared|intros s (_ & _ & _ & Hj & _)].
  eapply holds_bind; [apply fine_dag|intros d (_ & _ & _ & (bs & bits & Hp & Hl & _) & Hw & _)].
  pose proof (pm_index_fine (junk_prefix s) (mPrefix d) _ Hj (Hw Prefixes)) as Hpm. cbn [sel_get] in Hpm.
  destruct (pm_index _ _ _) as [h mp]. eapply holds_bind; [by apply (fine_put m named Prefixes)|intros _ _].
  pose proof (fine_configureip m named Prefixes h i). pose proof (fine_me m named h Prefixes).
  assert (holds_ (ctx_fine m named) (upd_pm Prefixes h (fun q =>
    set_announcer (Member (if_addr x)) (set_prefix (mPrefix d) q)))) by (apply fine_upd_pm; intros q _; by rewrite Hp).
  holding.
Qed.
Lemma addselfprefix_total i : (i < n)%nat -> total (addselfprefix i).
Proof. intros. apply total_safe; [by apply addselfprefix_safe|apply addselfprefix_live|apply addselfprefix_fine]. Qed.

Lemma each_self_total l : Forall (fun i => i < n)%nat l -> forall r,
  total (foreach_list (fun i => addselfprefix i ;; mret 1) r l).
Proof.
  induction 1 as [|i l Hi _ IH]; intros r; cbn [foreach_list]; [apply total_ret|].
  apply total_bind; [apply total_bind; [by apply addselfprefix_total|intros _; apply total_ret]|].
  intros r'. case_bool; [apply total_ret|apply IH].
Qed.
Lemma add_all_interfaces_total : total add_all_interfaces.
Proof.
  split.
  - intros c Hc. unfold add_all_interfaces. pose proof Hc as [(t & _ & (_ & Hall & _) & _) _].
    rewrite (bind_ok _ _ c (shared c) c) by (unfold with_sys, zoom, get; by destruct c).
    destruct (proj1 (each_self_total _ Hall (-1)) c Hc) as (r & c' & E & Hc'). exists tt, c'.
    by rewrite (bind_ok _ _ c r c' E).
  - pose proof addselfprefix_live. unfold add_all_interfaces. apply keeps_bind; [apply _|keep|intros s].
    apply keeps_bind; [apply _|keep|intros; keep].
Qed.

(** ** Sending, and the other options *)
Lemma send_dis_total i : (i < n)%nat -> total (send_dis i).
Proof.
  intros Hi. unfold send_dis. apply total_safe; [|keep|holding].
  apply keep_bind; [apply keep_gets|intros d].
  apply (safe_bind _ _ (fun r c => r = ((header ND_RPL_DAG_IS ++ zeros 2) ++ enc (solicited d :: pads 27) ++ zeros 2016, 32)
    /\ ctx_ok n c)).
  { intros c Hc. unfold lift. rewrite build_dis_image by (unfold icmp_body_size; lia). by eexists _, c. }
  intros [buff len] c [[-> ->]%pair_eq Hc]. change (32 >? 0) with true. cbn [when].
  rewrite (bind_ok _ _ c (take 32 ((header ND_RPL_DAG_IS ++ zeros 2) ++ enc (solicited d :: pads 27) ++ zeros 2016)) c).
  2:{ unfold lift. rewrite rd_range_take; [done|]. unfold zlen. rewrite !length_app, !length_zeros. lia. }
  apply (with_sys_safe n); [|done]. intros t. by apply send_raw_icmp_safe.
Qed.
Lemma schedule_dio_total ms : 0 <= ms < 4294967 -> total (schedule_dio ms).
Proof. intros. apply total_safe; [apply schedule_dio_safe|apply lm_schedule_dio|by apply fine_schedule_dio]. Qed.
Lemma set_grounded_total b : total (set_grounded b).
Proof.
  unfold set_grounded. destruct b; [|by apply total_upd].
  apply total_bind; [by apply total_upd|intros _].
  apply total_safe.
  - apply keep_bind; [apply with_sys_safe; intros; apply keep_get|intros s].
    apply keep_bind; [apply keep_gets|intros d]. case_match; [|apply keep_ret]. apply safe_when.
    apply keep_bind; [apply with_sys_safe; intros; apply add_null_route_safe|intros _; apply keep_ret].
  - assert (forall p, keeps (sys_same things_to_do) (add_null_route_to_prefix p))
      by (intros p; unfold add_null_route_to_prefix, ni_route_show, nisystem; keep).
    keep.
  - assert (forall p, holds_ (sys_fine m) (add_null_route_to_prefix p))
      by (intros p; unfold add_null_route_to_prefix, ni_route_show, nisystem; holding).
    holding.
Qed.
End total.

(** ** The node's own address

    The first prefix of one's own gives the DAG the address it goes by. *)
Section names.
Context `{EventHeapLaws, PrefixMapLaws, Reserved} (n m : nat).

Lemma dag_fine_named d : dag_fine m false d -> is_Some (dag_me d) -> dag_fine m true d.
Proof.
  intros (Hm & Hi & Hs & Hp & Hw & Hc & Hid & Hiid & _) Hme.
  exact (conj Hm (conj Hi (conj Hs (conj Hp (conj Hw (conj Hc (conj Hid (conj Hiid (fun _ => Hme))))))))).
Qed.
Lemma sound_unnamed c : sound_ctx n m true c -> sound_ctx n m false c.
Proof.
  intros (Hok & Hs & Hm & Hi & Hz & Hp & Hw & Hc & Hid & Hiid & _).
  exact (conj Hok (conj Hs (conj Hm (conj Hi (conj Hz (conj Hp (conj Hw (conj Hc (conj Hid (conj Hiid (fun E => False_ind _ (diff_false_true E)))))))))))).
Qed.

Lemma addselfprefix_names i c : (i < n)%nat -> sound_ctx n m false c -> dag_prefixes (this c) = [] ->
  exists c', addselfprefix i c = Ok (tt, c') /\ sound_ctx n m true c'.
Proof.
  intros Hi Hc Hnil. destruct (proj1 (addselfprefix_total n m false i Hi) c Hc) as ([] & c' & E & Hok & Hs & Hd).
  exists c'. split; [done|]. refine (conj Hok (conj Hs (dag_fine_named _ Hd _))). clear Hok Hs Hd Hc.
  unfold addselfprefix in E. apply bind_inv in E as (x & c1 & E1 & E). apply bind_inv in E as (dn & c2 & E2 & E).
  apply bind_inv in E as (y & c3 & E3 & E). apply bind_inv in E as (idx & c4 & E4 & E).
  apply bind_inv in E as (z & c5 & E5 & E). apply bind_inv in E as (s & c6 & E6 & E).
  apply bind_inv in E as (d & c7 & E7 & E).
  assert (dag_prefixes (this c7) = []) as Hnil'.
  { injection E7 as _ <-. injection E3 as _ <-. injection E5 as _ <-. injection E2 as _ <-.
    pose proof (same_with_sys dag_prefixes _ _ _ _ E6) as H6. unfold same in H6. rewrite H6. cbn.
    pose proof (same_with_sys dag_prefixes _ _ _ _ E4) as H4. unfold same in H4. rewrite H4. cbn.
    pose proof (same_with_sys dag_prefixes _ _ _ _ E1) as H1'. unfold same in H1'. by rewrite H1'. }
  clear E1 E2 E3 E4 E5 E6. injection E7 as <- <-. cbn [id] in E. rewrite Hnil' in E.
  destruct (pm_index _ _ _) as [h mp] eqn:Ei. apply pm_index_get in Ei as (pre' & Hpre & [->|[-> _]]); [done|].
  apply bind_inv in E as ([] & c8 & E8 & E). apply bind_inv in E as (pre & c9 & E9 & E).
  injection E8 as <-. unfold read_pm in E9. cbn in E9. rewrite Hpre in E9. injection E9 as <- <-.
  cbn [installed new_prefix_node] in E.
  apply bind_inv in E as ([] & c10 & _ & E). apply bind_inv in E as ([] & c11 & _ & E).
  apply bind_inv in E as ([] & c12 & _ & E). injection E as <-. cbn.
  destruct (dag_me (this c12)) eqn:Hme; [by rewrite Hme|by eexists].
Qed.

(** The interfaces there are, at least one. *)
Lemma add_all_interfaces_names c : all_if (shared c) <> [] -> sound_ctx n m false c -> dag_prefixes (this c) = [] ->
  exists c', add_all_interfaces c = Ok (tt, c') /\ sound_ctx n m true c'.
Proof.
  intros Hne Hc Hnil. unfold add_all_interfaces.
  rewrite (bind_ok _ _ c (shared c) c) by (unfold with_sys, zoom, get; by destruct c).
  pose proof Hc as [(t & _ & (_ & Hall & _) & _) _].
  destruct (all_if (shared c)) as [|i l]; [done|]. apply Forall_cons in Hall as [Hi Hl]. cbn [foreach_list].
  destruct (addselfprefix_names i c Hi Hc Hnil) as (c1 & E1 & Hc1).
  assert ((addselfprefix i ;; mret 1) c = Ok (1, c1)) as E by (by rewrite (bind_ok _ _ c tt c1 E1)).
  destruct (proj1 (each_self_total n m true l Hl 1) c1 Hc1) as (r & c2 & E2 & Hc2).
  exists c2. split; [|done]. rewrite (bind_ok _ _ c r c2); [done|]. by rewrite (bind_ok _ _ c 1 c1 E).
Qed.
End names.
