(* ===== verification/Serving.v ===== *)
(** What the program is while it serves, and the ways to run a part of it: a
    method of an interface, a method of a DAG, a loop. *)

From Stdlib Require Import ZArith Lia String.
From stdpp Require Import base list gmap numbers strings.
From S2P Require Import Prelude Wire Subopt Event Prefix State Iface Build Dag DagFacts Safety Handlers.
From S2P Require Import Routes Neighbour World Netlink Worlds Timers Sound Solicit Total.
#[local] Open Scope Z_scope.

(** The pointers are good, what is stored has its size, the timers are in
    order; there are [n] interfaces.  [named] says that every DAG has an address
    of its own. *)
Definition serving `{EventHeap, PrefixMapSem, R : Reserved} (n : nat) (named : bool) (w : world) : Prop :=
  world_ok n w /\ world_fine (length (dags w)) named w.

(** The DAGs are as many as before, and so is the list of them. *)
Definition framed (w w' : world) : Prop :=
  length (dags w') = length (dags w) /\ all_dag w' = all_dag w /\ junk_dag w' = junk_dag w.
#[global] Instance framed_preorder : PreOrder framed.
Proof. split; [done|]. intros a b c (? & ? & ?) (? & ? & ?). split_and!; congruence. Qed.

Section serving.
Context `{EventHeapLaws, PrefixMapLaws, Reserved} (n : nat) (named : bool).

Lemma serving_with (F : dag_network -> Prop) w : serving n named w ->
  (forall d, dag_fine (length (dags w)) named d -> F d) -> world_with n F w.
Proof.
  intros [(t & Hq & He & Hd & Ha) (_ & _ & Hfine)] HF. exists t. split_and!; try done.
  intros k d Hk. destruct (Hd k d Hk) as (? & ? & _). split_and!; try done. by eapply HF, Hfine.
Qed.
Lemma serving_timed w : serving n named w -> timed (length (dags w)) (td w).
Proof. by intros [_ (_ & [Ht _] & _)]. Qed.
Lemma serving_identified w : named = true -> serving n named w -> world_with n identified w.
Proof.
  intros Hn Hw. apply serving_with; [done|].
  intros d (_ & _ & (Hl & _) & _ & _ & _ & _ & _ & Hme) _. split; [by apply Hme|done].
Qed.

Lemma put_td_fine m t w : timed m t -> world_fine m named w -> world_fine m named (put_td t w).
Proof. intros Ht (Hl & (_ & Hr) & Hd). by split_and!. Qed.
Lemma find_iface_ok p l : forall s t, env n t s -> Forall (fun i => i < n)%nat l ->
  exists r, find_iface p l s = Ok (r, s) /\ forall i, r = Some i -> (i < n)%nat.
Proof.
  induction l as [|i l IH]; intros s t He Hl; [by exists None|]. apply Forall_cons in Hl as [Hi Hl].
  destruct (get_iface_safe n t i Hi s He) as (x & s' & E & _). cbn [find_iface].
  assert (s' = s) as ->.
  { revert E. unfold get_iface. case_decide; [done|]. case_match; [|done]. by intros [= _ <-]. }
  rewrite (bind_ok _ _ s x s E). case_bool; [|by eapply IH]. exists (Some i). split; [done|]. by intros j [= <-].
Qed.

(** ** Methods of an interface *)
Lemma in_sys_serving {A} (k : M sys A) Q w : (forall t m, stays n t m k Q) -> serving n named w ->
  exists a w', in_sys k w = Ok (a, w') /\ Q a /\ serving n named w' /\ dags w' = dags w /\ framed w w'.
Proof.
  intros Hk [(t & Hq & He & Hd & Ha) (Hl & Hs & Hds)].
  destruct (Hk t (length (dags w)) (wsys w) (conj He Hs)) as (a & s & E & [He' Hs'] & HQ).
  exists a, (w <| wsys := s |>). unfold in_sys, zoom. rewrite E. split; [done|]. split; [done|]. split; [|done].
  split; [by exists t|]. by split; [|split].
Qed.
Lemma in_sys_serves {A} (k : M sys A) w : (forall t, safe (env n t) k (fun _ => env n t)) ->
  (forall m, holds_ (sys_fine m) k) -> serving n named w ->
  exists a w', in_sys k w = Ok (a, w') /\ serving n named w' /\ dags w' = dags w /\ framed w w'.
Proof.
  intros Hs Hh Hw. destruct (in_sys_serving k (fun _ => True) w) as (a & w' & E & _ & Hw'); [|done|by exists a, w'].
  intros t m. by apply stays_of.
Qed.
Lemma short_serving i a b w : (i < n)%nat -> serving n named w ->
  exists w', in_sys (packet_too_short i a b) w = Ok (a <? b, w') /\ serving n named w' /\ (b <= a -> w' = w).
Proof.
  intros Hi Hw.
  destruct (in_sys_serving (packet_too_short i a b) (fun r => r = (a <? b)) w) as (r & w' & E & -> & Hw' & _);
    [intros; by apply stays_short|done|]. exists w'. split; [done|]. split; [done|]. intros Hle. revert E.
  unfold packet_too_short. rewrite (proj2 (Z.ltb_ge _ _)) by done. intros [= <-]. by destruct w.
Qed.

(** ** Methods of a DAG *)
Lemma in_dag_serving {A} k (p : M ctx A) w d : total n (length (dags w)) named p -> dags w !! k = Some d ->
  serving n named w ->
  exists a w', in_dag k p w = Ok (a, w') /\ serving n named w' /\ framed w w'.
Proof.
  intros [Hs Hk] Hd [Hok Hfine].
  destruct (in_dag_from n (fun _ => True) (ctx_fine (length (dags w)) named) (fun _ => True) k p w d)
    as (a & w' & E & Hok' & Hlen); [done| |done..| |].
  - eapply safe_weaken; [exact Hs|by intros c|by intros a c []].
  - split; [apply Hfine|]. by eapply Hfine.
  - assert (all_dag w' = all_dag w /\ junk_dag w' = junk_dag w) as [Hall Hjunk].
    { unfold in_dag in E. rewrite Hd in E. destruct (p _) as [[b c]|]; [|done]. by injection E as _ <-. }
    exists a, w'. split; [done|]. split; [|by split]. split; [done|]. destruct Hfine as (Hl & Hsys & Hds).
    unfold in_dag in E. rewrite Hd in E.
    destruct (Hs (mk_ctx d (wsys w))) as (b & c & E' & [_ [Hs' Hd']]).
    { split; [|by split; [|by eapply Hds]]. destruct Hok as (t & Hq & He & Hdok & _). exists t.
      destruct (Hdok k d Hd) as (_ & ? & _). by split_and!. }
    rewrite E' in E. injection E as <- <-. rewrite Hlen. split; [cbn; by rewrite length_insert|]. split; [done|].
    intros j x Hj. cbn in Hj. apply list_lookup_insert_Some in Hj as [(<- & <- & _)|[_ Hj]]; [done|by eapply Hds].
Qed.

End serving.
