(* ===== verification/Announce.v ===== *)
(** The kernel's announcements while the daemon serves: that a link or an
    address that appears is taken in without a fault, and the invariant holds
    again, with one more interface when the link is new. *)

From Stdlib Require Import ZArith Lia String.
From stdpp Require Import base list gmap numbers strings.
From S2P Require Import Prelude Wire Subopt Event Prefix State Iface Build Dag DagFacts Safety Handlers.
From S2P Require Import Routes Neighbour World Netlink Worlds Timers Sound Solicit Total Serving.
#[local] Open Scope Z_scope.

(** The hardware address has the size that goes with the type of the link. *)
Definition link_ok (m : link_msg) : Prop :=
  match ifla_address m with
  | Some addr => (lm_type m = ARPHRD_ETHER -> length addr = 6%nat) /\
                 (lm_type m = ARPHRD_IEEE802154 \/ lm_type m = ARPHRD_6LOWPAN -> length addr = 8%nat)
  | None => True
  end.
(** Everything but the end of a link: see [unplug_breaks_dio]. *)
Definition announce_ok (m : nlmsg) : Prop :=
  match m with
  | NewLink l => link_ok l
  | DelLink l => ifla_ifname l = None
  | NewAddr _ | DelAddr | TooShort | OtherMsg => True
  end.

Section interfaces.
Context `{EventHeapLaws, PrefixMapLaws, Reserved} (n : nat) (t : timers) (m : nat).
#[local] Abbreviation sound := (sound_sys n t m).
#[local] Abbreviation stays_ p := (stays n t m p (fun _ => True)).

(** What follows a method may use what it left of the state. *)
Lemma stays_then {A} (p : M sys A) Q (k : A -> M sys unit) :
  safe sound p (fun a s => sound s /\ Q a s) -> (forall a s, sound s -> Q a s -> exists s', k a s = Ok (tt, s') /\ sound s') ->
  stays_ (p ≫= k).
Proof.
  intros Hp Hk s Hs. destruct (Hp s Hs) as (a & s1 & E & Hs1 & Ha). destruct (Hk a s1 Hs1 Ha) as (s' & E' & Hs').
  exists tt, s'. by rewrite (bind_ok _ _ s a s1 E).
Qed.

(** An interface that changes itself. *)
Lemma try_iface_sound i f P : (i < n)%nat ->
  (forall x, iface_fine x -> exists x', f x = Ok x' /\ iface_fine x' /\ if_name x' = if_name x /\
     join_query_client x' = join_query_client x /\ P x') ->
  safe sound (try_iface i f) (fun _ s => sound s /\ exists x, get_iface i s = Ok (x, s) /\ P x).
Proof.
  intros Hi Hf s Hs. destruct (stays_iface n t m i Hi s Hs) as (x & s1 & Ex & _ & Hx).
  pose proof (get_iface_same _ _ _ _ Ex) as ->. destruct (Hf x Hx) as (x' & E & Hx' & Hname & Hc & HP).
  exists tt, (s <| ifaces ::= alter (fun _ => x') i |>). split.
  - unfold try_iface. rewrite (bind_ok _ _ s x s Ex). unfold lift. by rewrite E.
  - destruct Hs as [He Hfine]. split; [split|].
    + by destruct (upd_iface_safe n t i (fun _ => x') s He) as (? & ? & [= <- <-] & ?).
    + apply (fine_put_iface m i x); try done. by rewrite Hc.
    + exists x'. split; [|done]. unfold get_iface in *. cbn. destruct (decide _); [done|].
      destruct (ifaces s !! i) as [y|] eqn:Ey; [|done]. by rewrite list_lookup_alter_eq, Ey.
Qed.

Lemma set_eui48_fine addr x : length addr = 6%nat -> iface_fine x ->
  exists x', set_eui48 addr (zlen addr) x = Ok x' /\ iface_fine x' /\ if_name x' = if_name x /\
    join_query_client x' = join_query_client x /\ eui64set x' = true.
Proof.
  intros Ha (Hon & Hw & H48 & H64 & Hl & Hia & Hn). unfold set_eui48. rewrite rd_range_all by done. cbn [mbind outcome_bind].
  destruct (wr_range_in (eui48 x) 0 addr) as (e & -> & He); [done|unfold zlen; lia|]. cbn [mbind outcome_bind].
  eexists. split; [done|]. split; [|done]. apply generate_eui64_fine. split; [done|]. split; [done|]. split; [cbn; lia|]. by split_and!.
Qed.
Lemma set_eui64_fine addr x : length addr = 8%nat -> iface_fine x ->
  exists x', set_eui64 addr (zlen addr) x = Ok x' /\ iface_fine x' /\ if_name x' = if_name x /\
    join_query_client x' = join_query_client x /\ eui64set x' = true.
Proof.
  intros Ha (Hon & Hw & H48 & H64 & Hl & Hia & Hn). unfold set_eui64. rewrite rd_range_all by done. cbn [mbind outcome_bind].
  destruct (wr_range_in (eui64 x) 0 addr) as (e & -> & He); [done|unfold zlen; lia|]. cbn [mbind outcome_bind].
  eexists. split; [done|]. split; [|done]. unfold generate_linkaddr. split; [done|]. split; [done|]. split; [done|].
  assert (length (alter (fun b => Z.lor b 2) 0%nat e) = 8%nat) as Hal by (rewrite length_alter; lia).
  split; [exact Hal|]. split; [|by split]. cbn -[alter]. by rewrite Hal.
Qed.

Lemma stays_loopback i : (i < n)%nat -> stays n t m (make_loopback i) (fun r => r = None).
Proof.
  intros Hi. unfold make_loopback. eapply (stays_bind _ _ _ _ _ (fun _ => True)); [intros s Hs; by eexists tt, _|intros _ _].
  eapply stays_bind; [by apply stays_upd; intros x Hx|intros _ _]. by apply stays_ret.
Qed.

(** A link that has an address leaves the interface with its EUI-64. *)
Definition addressed_iface (i : nat) (r : option bool) (s : sys) : Prop :=
  r = Some true -> exists x, get_iface i s = Ok (x, s) /\ eui64set x = true.
Lemma link_type_sound i l : (i < n)%nat -> link_ok l ->
  safe sound (link_type i (lm_type l) (ifla_address l)) (fun r s => sound s /\ addressed_iface i r s).
Proof.
  intros Hi Hl. unfold link_type.
  assert (safe sound (make_loopback i) (fun r s => sound s /\ addressed_iface i r s)) as Hlo.
  { intros s Hs. destruct (stays_loopback i Hi s Hs) as (r & s' & E & Hs' & ->). by exists None, s'. }
  assert (forall f, (forall x, iface_fine x -> exists x', f x = Ok x' /\ iface_fine x' /\ if_name x' = if_name x /\
      join_query_client x' = join_query_client x /\ eui64set x' = true) ->
    safe sound (try_iface i f ;; mret (Some true)) (fun r s => sound s /\ addressed_iface i r s)) as Htry.
  { intros f Hf s Hs. destruct (try_iface_sound i f _ Hi Hf s Hs) as ([] & s' & E & Hs' & Hx).
    exists (Some true), s'. rewrite (bind_ok _ _ s tt s' E). split; [done|]. split; [done|]. by intros _. }
  unfold link_ok in Hl. case_bool; [destruct (ifla_address l) as [addr|]; [|done]|].
  - apply Htry. intros x. apply set_eui48_fine. apply Hl. lia.
  - case_bool.
    + destruct (ifla_address l) as [addr|]; [|done]. apply Htry. intros x. apply set_eui64_fine, Hl.
      apply orb_prop in E0 as [?|?]; [left|right]; lia.
    + case_bool; [done|]. case_bool; intros s Hs; eexists _, s; (split; [done|]); by split.
Qed.

Lemma stays_add i : (i < n)%nat -> stays_ (add_to_list i).
Proof. intros. apply stays_of; [by apply add_to_list_safe|apply fine_add]. Qed.
Lemma stays_found i l : (i < n)%nat -> link_ok l -> stays_ (link_found i l).
Proof.
  intros Hi Hl. unfold link_found. eapply stays_bind; [by apply stays_add|intros _ _].
  eapply stays_bind; [by apply stays_iface|intros x _]. eapply stays_bind; [apply stays_get|intros s _].
  case_bool; [by apply stays_ret|]. case_bool; [by apply stays_upd; intros y Hy|].
  eapply stays_bind; [by apply stays_upd; intros y Hy|intros _ _].
  apply (stays_then _ _ _ (link_type_sound i l Hi Hl)). clear x s E E0. intros [hasL2|] s Hs Hr; [|by exists s].
  destruct (stays_iface n t m i Hi s Hs) as (x & s1 & Ex & _ & Hx). pose proof (get_iface_same _ _ _ _ Ex) as ->.
  exists s. rewrite (bind_ok _ _ s x s Ex). split; [|done].
  destruct hasL2; [|by rewrite andb_false_r]. destruct (Hr eq_refl) as (y & Ey & Hset).
  rewrite Ex in Ey. injection Ey as <-. by rewrite Hset.
Qed.

(** A new interface, once it is on the list. *)
Definition blank_iface (name : string) (s : sys) : network_interface :=
  junk_iface s <| alive := false |> <| disabled := false |> <| if_node := None |>
    <| on_list := false |> <| eui48 := zeros 6 |> <| eui64 := zeros 8 |>
    <| join_query_client := None |> <| if_name := String.substring 0 15 name |>
    <| recv_cnt := 0 |> <| error_cnt := 0 |> <| ipv6_prefix_list := [] |> <| neighbours := ∅ |>.
Definition made_iface (name : string) (idx : Z) (s : sys) : network_interface :=
  blank_iface name s <| if_index := idx |>.
Definition with_made (name : string) (idx : Z) (f : network_interface -> network_interface) (s : sys) : sys :=
  s <| ifaces := ifaces s ++ [f (made_iface name idx s)] |>.
#[local] Abbreviation listed := (fun x : network_interface => x <| on_list := true |>).
Lemma made_sound name idx s : sound s ->
  sound_sys (S n) t m (with_made name idx listed s <| all_if ::= cons n |>).
Proof.
  intros [(Ht & Ha & Hl & Hj & Hf) (Hti & Hi & Hsp & Hp & Hjb & Hjk & Hji & Hnode & Hlines)]. split.
  - split; [done|]. split; [|split; [cbn; rewrite length_app; cbn; lia|by split]]. constructor; [lia|].
    eapply Forall_impl; [exact Ha|]. intros j Hj'. cbn in *. lia.
  - split; [done|]. split; [|split; [|done]].
    + apply Forall_app. split; [done|]. apply Forall_singleton. destruct Hji as (Hw & _ & _ & Hll & Had & _).
      split; [done|]. split; [exact Hw|]. by split_and!.
    + revert Hsp. unfold spare. destruct reserved as [names|]; [|done]. intros (j & x & Hj' & Hx & Hun).
      exists j, x. split; [by right|]. split; [|done]. cbn. by apply lookup_app_l_Some.
Qed.
Lemma alter_last {B} (g : B -> B) (l : list B) y : alter g (length l) (l ++ [y]) = l ++ [g y].
Proof. by induction l as [|x l IH]; [|cbn; f_equal]. Qed.
Lemma put_ifaces l l' s : s <| ifaces := l |> <| ifaces := l' |> = s <| ifaces := l' |>.
Proof. by destruct s. Qed.
Lemma put_ifaces_list l l' k s : s <| ifaces := l |> <| all_if ::= cons k |> <| ifaces := l' |> = s <| ifaces := l' |> <| all_if ::= cons k |>.
Proof. by destruct s. Qed.
Lemma upd_last f i s l y : ifaces s = l ++ [y] -> i = length l ->
  upd_iface i f s = Ok (tt, s <| ifaces := l ++ [f y] |>).
Proof.
  intros Hl ->. change (Ok (tt, s <| ifaces := alter f (length l) (ifaces s) |>) = Ok (tt, s <| ifaces := l ++ [f y] |>)).
  by rewrite Hl, alter_last.
Qed.
Lemma made_iface_run name idx s : sound s ->
  (i ← new_network_interface name; upd_iface i (fun x => x <| if_index := idx |>) ;; mret i) s =
    Ok (n, with_made name idx id s) /\
  add_to_list n (with_made name idx id s) = Ok (tt, with_made name idx listed s <| all_if ::= cons n |>) /\
  add_to_list n (with_made name idx listed s <| all_if ::= cons n |>) = Ok (tt, with_made name idx listed s <| all_if ::= cons n |>).
Proof.
  intros [(Ht & Ha & Hl & Hj & Hf) _].
  assert (forall f s0, freed_if s0 = [] -> ifaces s0 = ifaces s ++ [f (made_iface name idx s)] ->
    get_iface n s0 = Ok (f (made_iface name idx s), s0)) as Hget.
  { intros f s0 Hf0 Hi0. unfold get_iface. rewrite Hf0, Hi0, decide_False by apply not_elem_of_nil.
    by rewrite <-Hl, lookup_app_r, Nat.sub_diag by done. }
  split; [|split].
  - set (s1 := s <| ifaces := ifaces s ++ [blank_iface name s] |>).
    assert (new_network_interface name s = Ok (n, s1)) as E by (rewrite <-Hl; reflexivity).
    rewrite (bind_ok _ _ s n s1 E).
    rewrite (bind_ok _ _ s1 tt _ (upd_last (fun x => x <| if_index := idx |>) n s1 (ifaces s) (blank_iface name s) eq_refl (eq_sym Hl))).
    unfold s1, with_made, made_iface. rewrite put_ifaces. unfold id, mret, M_ret. cbv beta. reflexivity.
  - unfold add_to_list. rewrite (bind_ok _ _ _ _ _ (Hget id (with_made name idx id s) Hf eq_refl)).
    change (on_list (id (made_iface name idx s))) with false. cbv iota.
    set (s1 := with_made name idx id s <| all_if ::= cons n |>). rewrite (bind_ok _ _ _ tt s1) by done.
    rewrite (upd_last _ n s1 (ifaces s) (made_iface name idx s)) by done.
    unfold s1, with_made. rewrite put_ifaces_list. reflexivity.
  - unfold add_to_list. set (s1 := with_made name idx listed s <| all_if ::= cons n |>).
    assert (ifaces s1 = ifaces s ++ [listed (made_iface name idx s)]) as E by (unfold s1, with_made; cbv beta; reflexivity).
    rewrite (bind_ok _ _ _ _ _ (Hget listed s1 Hf E)).
    reflexivity.
Qed.
End interfaces.

(** [find_by_ifindex] answers an interface there is, and changes nothing. *)
Lemma find_index_run `{EventHeapLaws, Reserved} n t m index s : sound_sys n t m s ->
  exists r, find_by_ifindex index s = Ok (r, s) /\ forall i, r = Some i -> (i < n)%nat.
Proof.
  intros [He _]. destruct (find_iface_ok n (fun x => if_index x =? index) (all_if s) s t He) as (r & E & Hr); [apply He|].
  exists r. split; [|done]. unfold find_by_ifindex. by rewrite (bind_ok _ _ s s s).
Qed.

Section announcements.
Context `{EventHeapLaws, PrefixMapLaws, Reserved}.

Lemma add_linkinfo_sound n t m l s : link_ok l -> sound_sys n t m s ->
  exists n' s', add_linkinfo l s = Ok (tt, s') /\ (n <= n')%nat /\ sound_sys n' t m s'.
Proof.
  intros Hl Hs. unfold add_linkinfo. destruct (ifla_ifname l) as [name|]; [|by exists n, s].
  case_bool; [by exists n, s|]. case_bool; [by exists n, s|].
  destruct (find_index_run n t m (ifi_index l) s Hs) as (r & Er & Hr). rewrite (bind_ok _ _ s r s Er).
  destruct r as [i|].
  - rewrite (bind_ok _ _ s i s) by done. destruct (stays_found n t m i l (Hr i eq_refl) Hl s Hs) as ([] & s' & E' & Hs' & _).
    by exists n, s'.
  - destruct (made_iface_run n t m name (ifi_index l) s Hs) as (E1 & E2 & E3).
    pose proof (made_sound n t m name (ifi_index l) s Hs) as Hs2.
    destruct (stays_found (S n) t m n l ltac:(lia) Hl _ Hs2) as ([] & s' & E' & Hs' & _).
    exists (S n), s'. split; [|split; [lia|done]]. rewrite (bind_ok _ _ s n _ E1). revert E'. unfold link_found.
    by rewrite (bind_ok _ _ _ _ _ E3), (bind_ok _ _ _ _ _ E2).
Qed.

(** ** The world *)
Lemma dag_ok_more n n' t d : (n <= n')%nat -> dag_ok n t d -> dag_ok n' t d.
Proof.
  intros Hn (H1' & H2' & H3' & H4' & Hi & H6'). split_and!; try done. intros i E. specialize (Hi i E). lia.
Qed.
Lemma in_sys_grows named k n w : (forall t m s, sound_sys n t m s ->
    exists n' s', k s = Ok (tt, s') /\ (n <= n')%nat /\ sound_sys n' t m s') -> serving n named w ->
  exists n' w', in_sys k w = Ok (tt, w') /\ (n <= n')%nat /\ serving n' named w' /\ dags w' = dags w /\ framed w w'.
Proof.
  intros Hk [(t & Hq & He & Hd & Ha) (Hl & Hs & Hds)].
  destruct (Hk t (length (dags w)) (wsys w) (conj He Hs)) as (n' & s & E & Hn & He' & Hs').
  exists n', (w <| wsys := s |>). unfold in_sys, zoom. rewrite E. split; [done|]. split; [done|]. split; [|done].
  split; [|by split; [|split]]. exists t. split; [done|]. split; [done|]. split; [|done].
  intros j d Hj. destruct (Hd j d Hj) as (? & ? & _). split; [done|]. split; [by eapply dag_ok_more|done].
Qed.
End announcements.

(** ** Addresses *)
Section addresses.
Context `{EventHeapLaws, PrefixMapLaws, Fnmatch, Reserved} (n : nat) (named : bool).

(** The interface has a node, of its address. *)
Definition has_node (i : nat) (l : list network_interface) : Prop :=
  exists x nd, l !! i = Some x /\ if_node x = Some nd /\ node_fine nd.

Lemma add_own_address_total m addr v6 : length (ip_bytes addr) = 16%nat -> length v6 = 16%nat ->
  total n m named (h ← add_address_ip addr;
    upd_pm Announced h (set_prefix6 v6 128) ;; dag_upd (fun d => d <| dao_needed := true |>) ;; maybe_send_dao).
Proof.
  intros Ha Hv. apply total_safe.
  - apply (safe_bind _ _ (fun h => ok n (has Announced h))).
    + unfold add_address_ip. apply (safe_bind _ _ (fun _ => ctx_ok n)); [apply with_sys_safe; intros; apply keep_get|intros s].
      destruct (initsubnet _ _ _ _) as [b vs]. apply add_address_ok.
    + intros h. apply (safe_bind _ _ (fun _ => ok n (has Announced h))); [apply upd_pm_ok|intros _].
      eapply safe_weaken; [apply (keep_bind (ctx_ok n)); [by apply dag_upd_safe|intros _; apply maybe_send_dao_safe]|by intros c []|done].
  - unfold add_address_ip. keep.
  - unfold add_address_ip. apply (holds_bind _ _ _ (fun _ => True)); [|intros h _].
    + eapply holds_bind; [apply fine_shared|intros s _]. unfold initsubnet. cbv zeta.
      destruct (negb _ && negb _); by apply fine_add_address_of.
    + pose proof (fine_maybe_dao m named). pose proof (fine_upd_pm m named Announced h (set_prefix6 v6 128)) as Hupd.
      assert (holds_ (ctx_fine m named) (upd_pm Announced h (set_prefix6 v6 128))) by (apply Hupd; by intros).
      holding.
Qed.

Lemma own_address_keeps addr v6 : keeps (shared_same ifaces) (h ← add_address_ip addr;
    upd_pm Announced h (set_prefix6 v6 128) ;; dag_upd (fun d => d <| dao_needed := true |>) ;; maybe_send_dao).
Proof.
  assert (forall {A} (p : M timers A), keeps (sys_same ifaces) (with_timers p)) as Hw.
  { intros A p s a s'. unfold with_timers, zoom. destruct (p _) as [[b t]|]; [|done]. by intros [= _ <-]. }
  unfold add_address_ip, add_address, upd_pm, maybe_send_dao, schedule_dao, arm_dag_event.
  keep. all: try (destruct (initsubnet _ _ _ _)). all: keep. all: destruct (pm_index _ _ _). all: keep.
Qed.

(** A loop over the DAGs. *)
Lemma all_dags_serving body (P : world -> Prop) w :
  (forall k w, serving n named w -> P w -> (k < length (dags w))%nat ->
     exists w', body k w = Ok (tt, w') /\ serving n named w' /\ P w' /\ framed w w') ->
  serving n named w -> P w ->
  exists w', all_dags body w = Ok (tt, w') /\ serving n named w' /\ P w' /\ framed w w'.
Proof.
  intros Hbody Hw HP. unfold all_dags. rewrite (bind_ok _ _ w w w) by done.
  assert (Forall (fun k => k < length (dags w))%nat (all_dag w)) as Hall by (by destruct Hw as [(? & _ & _ & _ & ?) _]).
  revert Hall. generalize (all_dag w). intros l Hl. remember (length (dags w)) as len eqn:Hlen. symmetry in Hlen.
  revert w Hw HP Hlen. induction Hl as [|k l Hk _ IH]; intros w Hw HP Hlen; [by exists w|]. cbn [for_each].
  destruct (Hbody k w Hw HP) as (w1 & E1 & Hw1 & HP1 & Hl1); [by rewrite Hlen|].
  destruct (IH w1 Hw1 HP1) as (w2 & E2 & Hw2 & HP2 & Hl2); [by rewrite (proj1 Hl1)|]. exists w2.
  rewrite (bind_ok _ _ w tt w1 E1). split_and!; try done. by etrans.
Qed.

Lemma node_lookup i w : serving n named w -> has_node i (ifaces (wsys w)) ->
  exists x nd, in_sys (get_iface i) w = Ok (x, w) /\ iface_fine x /\ if_node x = Some nd /\ node_fine nd.
Proof.
  intros [(t & _ & He & _) (_ & (_ & Hi & _) & _)] (x & nd & Hx & Hnd & Hf). exists x, nd.
  split; [|split; [by eapply Forall_lookup_1|done]]. unfold in_sys, zoom, get_iface.
  destruct He as (_ & _ & _ & _ & ->). rewrite decide_False by apply not_elem_of_nil. rewrite Hx. by destruct w.
Qed.

Lemma notify_serving i w : serving n named w -> has_node i (ifaces (wsys w)) ->
  exists w', notify_new_interface i w = Ok (tt, w') /\ serving n named w' /\ framed w w'.
Proof.
  intros Hw Hi. destruct (all_dags_serving (fun k =>
    x ← in_sys (get_iface i);
    in_dag k (
      d ← dag_get id;
      when (matchesIfWildcard d (if_name x) && matchesIfPrefix d (ip6 (if_addr x)))
        (match if_node x with
         | None => fail NullDeref
         | Some node =>
             h ← add_address_ip (nodeip node);
             upd_pm Announced h (set_prefix6 (if_addr x) 128) ;;
             dag_upd (fun d => d <| dao_needed := true |>) ;;
             maybe_send_dao
         end))) (fun w => has_node i (ifaces (wsys w))) w) as (w' & E & Hw' & _ & Hl); [|done|done|by exists w'].
  clear w Hw Hi. intros k w Hw Hi Hk. destruct (node_lookup i w Hw Hi) as (x & nd & Ex & Hx & Hnd & Hf).
  rewrite (bind_ok _ _ w x w Ex). rewrite Hnd. destruct (lookup_lt_is_Some_2 _ _ Hk) as [d Hd].
  set (own := h ← add_address_ip (nodeip nd); _).
  set (p := d ← dag_get id; when (matchesIfWildcard d (if_name x) && matchesIfPrefix d (ip6 (if_addr x))) own).
  assert (total n (length (dags w)) named p) as Hp.
  { apply total_bind; [split; [by apply keep_gets|apply lm_dag_get]|intros d']. apply total_when.
    apply add_own_address_total; [exact Hf|]. by destruct Hx as (_ & _ & _ & _ & _ & ? & _). }
  assert (keeps (shared_same ifaces) p) as Hkeep.
  { apply keeps_bind; [apply _|apply shared_dag_get|intros d'].
    destruct (_ && _); [apply own_address_keeps|apply keeps_ret, _]. }
  destruct (in_dag_serving n named k p w d Hp Hd Hw) as ([] & w' & E & Hw' & Hl).
  exists w'. split; [exact E|]. split; [done|]. split; [|done]. unfold in_dag in E. rewrite Hd in E.
  destruct (p (mk_ctx d (wsys w))) as [[b c]|] eqn:Ec; [|done]. injection E as _ <-.
  specialize (Hkeep _ _ _ Ec). unfold shared_same in Hkeep. cbn in Hkeep. cbn. by rewrite Hkeep.
Qed.

(** The interface as it was, with a new address and scope. *)
Lemma readdress_sound t m i addr scope : (i < n)%nat ->
  stays n t m (try_iface i (fun x =>
    a ← wr_range (if_addr x) 0 (take 16 addr); Ok (x <| if_addr := a |> <| ifa_scope := scope |>))) (fun _ => True).
Proof.
  intros Hi. eapply safe_weaken; [apply (try_iface_sound n t m i _ (fun _ => True) Hi)|done|by intros ? ? []].
  intros x (Hon & Hw & H48 & H64 & Hl & Ha & Hn).
  destruct (wr_range_in (if_addr x) 0 (take 16 addr)) as (a & -> & Hla); [done|unfold zlen; rewrite length_take; lia|].
  cbn [mbind outcome_bind]. eexists. split; [done|]. split; [|done].
  split; [done|]. split; [done|]. split; [done|]. split; [done|]. split; [done|]. split; [cbn; lia|done].
Qed.
Lemma update_serving i w : (i < n)%nat -> serving n named w ->
  exists w', update_addr i w = Ok (tt, w') /\ serving n named w' /\ framed w w'.
Proof.
  intros Hi Hw. unfold update_addr. rewrite (bind_ok _ _ w (wsys w) w) by by destruct w.
  set (f := fun x => x <| if_node := Some (rpl_node_of_addr (junk_node (wsys w)) (if_addr x)) |>).
  destruct (in_sys_serving n named (upd_iface i f) (fun _ => True) w) as ([] & w1 & E1 & _ & Hw1 & _ & Hf1);
    [intros; by apply stays_upd; intros x Hx|done|].
  rewrite (bind_ok _ _ w tt w1 E1).
  assert (has_node i (ifaces (wsys w1))) as Hnode.
  { injection E1 as <-. pose proof Hw as [(t & _ & (_ & _ & Hl & _) & _) (_ & (_ & Hfine & _) & _)].
    destruct (lookup_lt_is_Some_2 (ifaces (wsys w)) i) as [x Hx]; [lia|]. exists (f x), (rpl_node_of_addr (junk_node (wsys w)) (if_addr x)).
    cbn. split; [by rewrite list_lookup_alter_eq, Hx|]. split; [done|].
    pose proof (Forall_lookup_1 _ _ _ _ Hfine Hx) as (_ & _ & _ & _ & _ & Ha & _). exact Ha. }
  destruct (node_lookup i w1 Hw1 Hnode) as (x & nd & Ex & _). rewrite (bind_ok _ _ w1 x w1 Ex).
  destruct (ifa_scope x <=? RT_SCOPE_LINK); [|by exists w1].
  destruct (notify_serving i w1 Hw1 Hnode) as (w2 & E2 & Hw2 & Hf2). exists w2. split_and!; try done. by eapply transitivity.
Qed.

Lemma adddel_serving a w : serving n named w ->
  exists w', adddel_ipinfo a w = Ok (tt, w') /\ serving n named w' /\ framed w w'.
Proof.
  intros Hw. unfold adddel_ipinfo. destruct (match ifa_local a with Some x => Some x | None => ifa_address a end) as [addr|];
    [|by exists w].
  pose proof Hw as [(t & _ & He & _) (_ & Hs & _)].
  destruct (find_index_run n t (length (dags w)) (ifa_index a) (wsys w) (conj He Hs)) as (r & Er & Hr).
  rewrite (bind_ok _ _ w r w) by (unfold in_sys, zoom; rewrite Er; by destruct w).
  destruct r as [i|]; [|by exists w]. specialize (Hr i eq_refl). case_bool; [|by exists w].
  destruct (in_sys_serving n named _ (fun _ => True) w (fun t m => readdress_sound t m i addr (am_scope a) Hr) Hw)
    as ([] & w1 & E1 & _ & Hw1 & _ & Hf1).
  rewrite (bind_ok _ _ w tt w1 E1). destruct (update_serving i w1 Hr Hw1) as (w2 & E2 & Hw2 & Hf2).
  exists w2. split_and!; try done. by eapply transitivity.
Qed.
End addresses.

(** * Whole announcements *)
Section announcing.
Context `{EventHeapLaws, PrefixMapLaws, Fnmatch, Reserved} (named : bool).

(** [w'] serves as [w] did, with no interface fewer. *)
Definition served (n : nat) (w w' : world) : Prop :=
  exists n', (n <= n')%nat /\ serving n' named w' /\ framed w w'.
Lemma served_trans n w w1 w2 : served n w w1 -> (forall n1, serving n1 named w1 -> served n1 w1 w2) -> served n w w2.
Proof.
  intros (n1 & Hn1 & Hw1 & Hf1) H2'. destruct (H2' n1 Hw1) as (n2 & Hn2 & Hw2 & Hf2).
  exists n2. split; [lia|]. split; [done|by eapply transitivity].
Qed.

Lemma gather_serving n a w : announce_ok a -> serving n named w ->
  exists w', gather_linkinfo a w = Ok (tt, w') /\ served n w w'.
Proof.
  intros Ha Hw. assert (served n w w) as Hsame by by exists n.
  destruct a as [l|l|a| | |]; cbn [gather_linkinfo]; try by exists w.
  - destruct (in_sys_grows named (add_linkinfo l) n w) as (n' & w' & E & Hn & Hw' & _ & Hf); [|done|].
    + intros t m s. by apply add_linkinfo_sound.
    + exists w'. split; [done|]. by exists n'.
  - unfold del_linkinfo. cbn in Ha. rewrite Ha. by exists w.
  - destruct (adddel_serving n named a w Hw) as (w' & E & Hw' & Hl). exists w'. split; [done|]. by exists n.
Qed.
Lemma gather_all_serving n l w : Forall announce_ok l -> serving n named w ->
  exists w', for_each l gather_linkinfo w = Ok (tt, w') /\ served n w w'.
Proof.
  intros Hl. revert n w. induction Hl as [|a l Ha _ IH]; intros n w Hw; [exists w; split; [done|by exists n]|].
  cbn [for_each]. destruct (gather_serving n a w Ha Hw) as (w1 & E1 & n1 & Hn1 & Hw1 & Hl1).
  destruct (IH n1 w1 Hw1) as (w2 & E2 & n2 & Hn2 & Hw2 & Hl2). exists w2.
  rewrite (bind_ok _ _ w tt w1 E1). split; [done|]. exists n2. split; [lia|]. split; [done|by eapply transitivity].
Qed.

(** A method of every DAG. *)
Lemma every_dag_serving n (p : M ctx unit) w : (forall m, total n m named p) -> serving n named w ->
  exists w', all_dags (fun k => in_dag k p) w = Ok (tt, w') /\ serving n named w' /\ framed w w'.
Proof.
  intros Hp Hw. destruct (all_dags_serving n named (fun k => in_dag k p) (fun _ => True) w)
    as (w' & E & Hw' & _ & Hl); [|done|done|by exists w'].
  intros k w1 Hw1 _ Hk. destruct (lookup_lt_is_Some_2 _ _ Hk) as [d Hd].
  destruct (in_dag_serving n named k p w1 d (Hp _) Hd Hw1) as ([] & w2 & E & Hw2 & Hl). by exists w2.
Qed.
Lemma maybe_dao_total n m : total n m named maybe_send_dao.
Proof. apply total_safe; [apply maybe_send_dao_safe|apply lm_maybe_dao|apply fine_maybe_dao]. Qed.
Lemma repair_serving n w : serving n named w ->
  exists w', repair_dao_send w = Ok (tt, w') /\ serving n named w' /\ framed w w'.
Proof.
  intros Hw. apply every_dag_serving; [|done]. intros m.
  apply total_bind; [apply total_dao_needed|intros _; apply maybe_dao_total].
Qed.

(** The interfaces that have come up are set up, and solicit every DAG. *)
Lemma look_serving n w : serving n named w ->
  exists w', look_for_new_interfaces w = Ok (tt, w') /\ serving n named w' /\ framed w w'.
Proof.
  intros Hw. unfold look_for_new_interfaces. rewrite (bind_ok _ _ w (wsys w) w) by by destruct w.
  assert (Forall (fun i => i < n)%nat (all_if (wsys w))) as Hall by (by destruct Hw as [(? & _ & (_ & ? & _) & _) _]).
  revert Hall. generalize (all_if (wsys w)). intros l Hl. revert w Hw.
  induction Hl as [|i l Hi _ IH]; intros w Hw; [by exists w|]. cbn [for_each].
  destruct (in_sys_serving n named (get_iface i) (fun _ => True) w) as (x & w0 & E0 & _ & Hw0 & _ & Hf0); [|done|].
  { intros t m. eapply safe_weaken; [by apply (stays_iface n t m i)|done|by intros ? ? []]. }
  assert (exists w1, when (negb (is_active x) && negb (loopback x) && negb (disabled x))
      (in_sys (setup i) ;; send_all_dag i) w0 = Ok (tt, w1) /\ serving n named w1 /\ framed w0 w1)
    as (w1 & E1 & Hw1 & Hl1).
  { destruct (_ && _); [|by exists w0]. cbn [when].
    destruct (in_sys_serves n named (setup i) w0) as (b & w2 & E2 & Hw2 & _ & Hf2);
      [intros; by apply setup_safe|intros; apply fine_setup|done|].
    rewrite (bind_ok _ _ w0 b w2 E2).
    destruct (every_dag_serving n (send_dis i) w2) as (w3 & E3 & Hw3 & Hf3); [intros; by apply send_dis_total|done|].
    exists w3. split_and!; try done. by eapply transitivity. }
  destruct (IH w1 Hw1) as (w2 & E2 & Hw2 & Hl2). exists w2. split; [|split; [done|transitivity w0; [done|by transitivity w1]]].
  rewrite (bind_ok _ _ w tt w1); [done|]. by rewrite (bind_ok _ _ w x w0 E0).
Qed.

Lemma marks_serving n w : serving n named w ->
  exists r w', in_sys remove_marks w = Ok (r, w') /\ serving n named w' /\ framed w w'.
Proof.
  intros Hw. destruct (in_sys_serving n named remove_marks (fun _ => True) w) as (r & w' & E & _ & Hw' & _ & Hf); [|done|by exists r, w'].
  intros t m. unfold remove_marks, foreach_if. eapply stays_bind; [apply stays_get|intros s _].
  generalize (-1). induction (all_if s) as [|i l IH]; intros r; cbn [foreach_list]; [by apply stays_ret|].
  eapply stays_bind; [eapply stays_bind; [by apply stays_upd; intros x Hx|intros _ _]; by apply (stays_ret _ _ _ 1 (fun _ => True))|].
  intros r' _. case_bool; [by apply stays_ret|apply IH].
Qed.

(** The scan of the devices, whatever it answers. *)
Lemma scan_serving n open links addrs w : (forall l, links = Some l -> Forall announce_ok l) ->
  (forall l, addrs = Some l -> Forall announce_ok l) -> serving n named w ->
  exists r w', scan_devices open links addrs w = Ok (r, w') /\ served n w w'.
Proof.
  intros Hl Ha Hw. assert (served n w w) as Hsame by by exists n.
  unfold scan_devices. destruct open; cbn [negb]; [|by exists true, w].
  destruct (marks_serving n w Hw) as (r & w1 & E1 & Hw1 & Hf1). rewrite (bind_ok _ _ w r w1 E1).
  assert (served n w w1) as Hs1 by by exists n.
  destruct links as [links|]; [|by exists false, w1].
  destruct (gather_all_serving n links w1 (Hl _ eq_refl) Hw1) as (w2 & E2 & n2 & Hn2 & Hw2 & Hl2).
  rewrite (bind_ok _ _ w1 tt w2 E2).
  destruct addrs as [addrs|]; [|exists false, w2; split; [done|]; exists n2; split_and!; try done; by eapply transitivity].
  destruct (gather_all_serving n2 addrs w2 (Ha _ eq_refl) Hw2) as (w3 & E3 & n3 & Hn3 & Hw3 & Hl3).
  rewrite (bind_ok _ _ w2 tt w3 E3). exists true, w3. split; [done|]. exists n3. split; [lia|]. split; [done|transitivity w1; [done|by transitivity w2]].
Qed.
End announcing.
