(* ===== verification/Loop.v ===== *)
(** The main loop as a whole: what the program is while it serves, and that every
    turn of [network_interface::main_loop] on well-formed messages ends, without
    a fault, in a state in which it still serves. *)

From Stdlib Require Import ZArith Lia String.
From stdpp Require Import base list gmap numbers strings.
From S2P Require Import Prelude Wire Subopt Event Prefix State Iface Build Dag DagFacts Safety Handlers.
From S2P Require Import Routes Neighbour World Join Netlink MainLoop Worlds Timers Links Sound.
From S2P Require Import Solicit Total Serving Announce.
#[local] Open Scope Z_scope.

(** * What a turn is given

    The packet is a well-formed RPL message, a solicitation that is too short or
    has well-formed options, an RPL message of a code that is not known, or any
    bytes that are neither RPL nor a solicitation of a neighbour or a router; these
    bytes are at most 2016, so that the prefix of an option is in the buffer. *)
Definition rpl_datagram (named : bool) (g : datagram) : Prop :=
  exists code c1 c2 body, rx_data g = [ND_RPL_MESSAGE; code; c1; c2] ++ body /\ zlen (rx_data g) <= 2048 /\
    (forall post, rpl_message code (body ++ post) (zlen body)) /\ (code = ND_RPL_DAO -> named = true).
Definition solicit_datagram (g : datagram) : Prop :=
  exists rest, rx_data g = Nd.ND_NEIGHBOR_SOLICIT :: rest /\ zlen (rx_data g) <= 2048 /\
    length (rx_from g) = 16%nat /\ forall post, solicit_ok (rx_data g ++ post) (zlen (rx_data g)).
Definition other_datagram (g : datagram) : Prop :=
  exists ty code rest, rx_data g = ty :: code :: rest /\ zlen (rx_data g) <= 2016 /\
    ty <> Nd.ND_NEIGHBOR_SOLICIT /\ ty <> Nd.ND_ROUTER_SOLICIT /\
    (ty = ND_RPL_MESSAGE -> code <> ND_RPL_DAG_IO /\ code <> ND_RPL_DAO /\ code <> ND_RPL_DAO_ACK /\ code <> ND_RPL_DAG_IS).
Definition datagram_ok (named : bool) (g : datagram) : Prop :=
  rpl_datagram named g \/ solicit_datagram g \/ other_datagram g.

(** No link ends, the registrars answer what [libcbor] can take apart. *)
Definition dump_ok (dump : option (list nlmsg)) : Prop := forall l, dump = Some l -> Forall announce_ok l.
Definition turn_ok (named : bool) (t : turn) : Prop :=
  tv_normal (t_clock t) /\ tv_normal (t_woken t) /\ dump_ok (netlink_ready t) /\
  (forall g, packet_ready t = Some g -> datagram_ok named g) /\
  (forall i r, grasp_ready t i = Some (Some r) -> answer_ok r) /\
  (forall open links addrs, signal_usr1 t = Some (open, links, addrs) -> dump_ok links /\ dump_ok addrs).

(** * The timers leave the list of interfaces alone

    and their names, as long as every interface is on the list. *)
Definition listed (s : sys) : Prop := Forall (fun x => on_list x = true) (ifaces s).
Definition same_list (s s' : sys) : Prop :=
  listed s -> listed s' /\ all_if s' = all_if s /\ if_name <$> ifaces s' = if_name <$> ifaces s.
#[global] Instance same_list_preorder : PreOrder same_list.
Proof.
  split; [by intros s|]. intros a b c Hab Hbc Ha. destruct (Hab Ha) as (Hb & ? & ?). destruct (Hbc Hb) as (Hc & ? & ?). split; [done|split; congruence].
Qed.
Definition ctx_list (c c' : ctx) : Prop := same_list (shared c) (shared c').
#[global] Instance ctx_list_preorder : PreOrder ctx_list.
Proof. split; [by intros c|]. intros a b c Hab Hbc. unfold ctx_list in *. by etrans. Qed.
Definition world_list (w w' : world) : Prop := same_list (wsys w) (wsys w').
#[global] Instance world_list_preorder : PreOrder world_list.
Proof. split; [by intros c|]. intros a b c Hab Hbc. unfold ctx_list, world_list in *. by etrans. Qed.

Section same_list.
Context `{EventHeap, PrefixMapSem}.

Lemma list_with_timers {A} (p : M timers A) : keeps same_list (with_timers p).
Proof. intros s a s'. unfold with_timers, zoom. destruct (p _) as [[b t]|]; [|done]. by intros [= _ <-]. Qed.
Lemma list_get_iface i : keeps same_list (get_iface i).
Proof. intros s a s' E. by rewrite (get_iface_same _ _ _ _ E). Qed.
Lemma list_upd i g : (forall x, (on_list x = true -> on_list (g x) = true) /\ if_name (g x) = if_name x) ->
  keeps same_list (upd_iface i g).
Proof.
  intros Hg s a s' [= _ <-] Hl. split; [|split; [done|]].
  - apply Forall_alter; [done|]. intros x _ Hx. by apply Hg.
  - apply list_eq. intros j. cbn. rewrite !list_lookup_fmap. destruct (decide (i = j)) as [->|].
    + rewrite list_lookup_alter_eq. destruct (ifaces s !! j); [|done]. cbn. f_equal. apply Hg.
    + by rewrite list_lookup_alter_ne.
Qed.
Lemma list_add i : keeps same_list (add_to_list i).
Proof.
  intros s a s' E Hl. unfold add_to_list in E. apply bind_inv in E as (x & s0 & E0 & E).
  pose proof (get_iface_same _ _ _ _ E0) as ->. unfold get_iface in E0. destruct (decide _); [done|].
  destruct (ifaces s !! i) as [y|] eqn:Ei; [|done]. injection E0 as ->.
  rewrite (Forall_lookup_1 _ _ _ _ Hl Ei) in E. by injection E as _ <-.
Qed.
Hint Resolve list_with_timers list_get_iface list_add : keep.
Hint Extern 1 (keeps same_list (upd_iface _ _)) => (apply list_upd; intros ?; split; done) : keep.
Hint Extern 1 (keeps same_list (modify _)) => (apply keeps_modify; intros ? ?; done) : keep.
Lemma list_eui i : keeps same_list (upd_iface i (fun x => generate_eui64 x <| alive := true |>)).
Proof. apply list_upd. intros x. unfold generate_eui64. by destruct (eui64set x). Qed.
Hint Resolve list_eui : keep.
Lemma list_emit o : keeps same_list (emit o).
Proof. unfold emit. keep. Qed.
Lemma list_index i : keeps same_list (get_if_index i).
Proof. unfold get_if_index. keep. Qed.
Hint Resolve list_emit list_index : keep.
Lemma list_join i : keeps same_list (join_group i).
Proof. unfold join_group. keep. Qed.
Hint Resolve list_join : keep.
Lemma list_setup i : keeps same_list (setup i).
Proof. unfold setup. keep. Qed.
Lemma list_check i : keeps same_list (check_allrouters_membership i).
Proof. unfold check_allrouters_membership. keep. Qed.
Hint Resolve list_setup list_check : keep.
Lemma list_send i d src b : keeps same_list (send_raw_icmp i d src b).
Proof. unfold send_raw_icmp. keep. Qed.
Hint Resolve list_send : keep.

Lemma list_with_sys {A} (p : M sys A) : keeps same_list p -> keeps ctx_list (with_sys p).
Proof.
  intros Hp c a c'. unfold with_sys, zoom. destruct (p _) as [[b s]|] eqn:E; [|done]. intros [= _ <-]. exact (Hp _ _ _ E).
Qed.
Lemma list_dag_upd g : keeps ctx_list (dag_upd g).
Proof. by intros c a c' [= _ <-]. Qed.
Lemma list_dag_get {A} (g : dag_network -> A) : keeps ctx_list (dag_get g).
Proof. by intros c a c' [= _ <-]. Qed.
Lemma list_deref a : keeps ctx_list (deref_peer a).
Proof. intros c x c'. unfold deref_peer. case_match; [|done]. by intros [= _ <-]. Qed.
Hint Resolve list_with_sys list_dag_upd list_dag_get list_deref : keep.
Lemma list_in_sys {A} (p : M sys A) : keeps same_list p -> keeps world_list (in_sys p).
Proof.
  intros Hp w a w'. unfold in_sys, zoom. destruct (p _) as [[b s]|] eqn:E; [|done]. intros [= _ <-]. exact (Hp _ _ _ E).
Qed.
Lemma list_in_dag {A} k (p : M ctx A) : keeps ctx_list p -> keeps world_list (in_dag k p).
Proof.
  intros Hp w a w'. unfold in_dag. destruct (dags w !! k); [|done]. destruct (p _) as [[b c]|] eqn:E; [|done].
  intros [= _ <-]. exact (Hp _ _ _ E).
Qed.
Hint Resolve list_in_sys list_in_dag : keep.
Lemma list_doit e : keeps world_list (doit e).
Proof.
  assert (forall i, keeps ctx_list (send_dio i)) by (intros; unfold send_dio; keep).
  assert (keeps ctx_list send_dao) by (unfold send_dao, iface_send_dao; keep).
  unfold doit, send_dio_all. keep.
Qed.
End same_list.

Section turns.
Context `{EventHeapLaws, PrefixMapLaws, Fnmatch} (names : list string) (named : bool).
(** The names on which the command line asks a registrar are known. *)
#[local] Instance known : Reserved := Some names.

Section interfaces.
Context (n : nat).

Lemma serving_loop w : serving n named w -> loop_ok n w /\ repeating (td w).
Proof.
  intros Hw. pose proof (serving_timed n named w Hw) as Ht. split; [|by eapply timed_repeating].
  split; [|split; [by apply timed_armed|apply Ht]].
  apply (serving_with n named); [done|]. intros d. apply dag_fine_sendable.
Qed.
Lemma set_clock_serving t w : tv_normal t -> serving n named w ->
  exists w', set_clock t w = Ok (tt, w') /\ serving n named w' /\ queue (td w') = queue (td w).
Proof.
  intros Hn Hw. pose proof (serving_timed n named w Hw) as (Hq & Hp & Ha & Hf & _). destruct Hw as [Hok Hfine].
  exists (put_td (td w <| clock := t |>) w). split; [by apply timers_run|]. split; [|done].
  split; [by apply put_td_ok|]. by apply put_td_fine.
Qed.

(** ** The timers *)
Lemma taken_timed m i t : timed m t -> heap_top (events t) (queue t) = Some i -> timed m (taken i t).
Proof.
  intros (Hq & Hp & Ha & Hf & Hc) Ht. split; [by apply taken_ok|]. split; [|split; [|by split]].
  - intros j e Hj. cbn in Hj. destruct (decide (i = j)) as [->|Hne]; [|rewrite list_lookup_alter_ne in Hj by done; by eapply Hp].
    rewrite list_lookup_alter_eq in Hj. destruct (events t !! j) as [x|] eqn:E; [|done]. injection Hj as <-. exact (Hp j x E).
  - intros j e Hj He. cbn in Hj, He. apply elem_of_remove_id in Hj as [Hj Hne].
    rewrite list_lookup_alter_ne in He by done. by eapply Ha.
Qed.
Lemma after_fine m now i e w w' : tv_normal now -> loop_ok n w -> world_fine m named w ->
  heap_top (events (td w)) (queue (td w)) = Some i -> events (td w) !! i = Some e ->
  after now i e w w' -> loop_ok n w' -> world_fine m named w'.
Proof.
  intros Hnow Hok Hw Ht He (Hqueue & Hev & Hoth & Hck & w2 & Hdo & Hput & _) Hok'.
  pose proof Hw as (Hl & [Htimed _] & _). pose proof (taken_timed m i (td w) Htimed Ht) as Htk.
  destruct (world_doit m named i _ _ _ (put_td_fine named m _ w Htk Hw) Hdo) as [Hw2 _].
  assert (length (dags w') = m) as Hl' by (rewrite Hput; apply Hw2).
  rewrite Hput. apply put_td_fine; [|done]. destruct Htimed as (Hq & Hp & _ & Hf & Hc).
  destruct Hok' as (Hwith & Harm & Hfk). split; [by eapply world_queue_ok|]. split; [|split; [|split; [done|by rewrite Hck]]].
  - intros j x Hx. destruct (decide (j = i)) as [->|Hne]; [|rewrite Hoth in Hx by done; by eapply Hp].
    rewrite Hev in Hx. injection Hx as <-. destruct Hok as (_ & _ & Hfk0).
    destruct (Hp i e He) as (? & ? & ?). unfold period_ok. destruct (rearmed_spec (td w) now e Hfk0 Hnow) as (_ & _ & -> & -> & _); done.
  - intros j x Hj Hx. rewrite <-Hl'. destruct (Harm j x Hj Hx) as (? & ? & _). by split.
Qed.

(** The invariant of the loop over the timers that are due. *)
Definition still (m : nat) (l : list nat) (w : world) : Prop := world_fine m named w /\ all_if (wsys w) = l.
Lemma after_still m l now i e w w' : tv_normal now -> loop_ok n w -> still m l w ->
  heap_top (events (td w)) (queue (td w)) = Some i -> events (td w) !! i = Some e ->
  after now i e w w' -> loop_ok n w' -> still m l w'.
Proof.
  intros Hnow Hok [Hw Hall] Ht He Ha Hok'. split; [exact (after_fine m now i e w w' Hnow Hok Hw Ht He Ha Hok')|].
  destruct Ha as (_ & _ & _ & _ & w2 & Hdo & E & _). rewrite E, <-Hall. apply (list_doit _ _ _ _ Hdo).
  destruct Hw as (_ & (_ & Hif & _) & _). eapply Forall_impl; [exact Hif|]. by intros x [? _].
Qed.
Lemma run_due_serving now w : tv_normal now -> serving n named w ->
  exists timeout w', run_due (S (length (queue (td w)))) now w = Ok (timeout, w') /\ serving n named w' /\
    all_if (wsys w') = all_if (wsys w) /\ 0 <= timeout <= poll_timeout_max.
Proof.
  intros Hnow Hw. destruct (serving_loop w Hw) as [Hok Hrep]. destruct Hw as [_ Hfine].
  destruct (run_due_ends n (still (length (dags w)) (all_if (wsys w))) (S (length (queue (td w)))) now) with w
    as (timeout & w' & E & Hok' & [Hfine' Hall] & _ & Hrest & _); try done.
  - intros i e x x' Hx HJ Ht He Ha Hx'. exact (after_still _ _ now i e x x' Hnow Hx HJ Ht He Ha Hx').
  - unfold due_events. pose proof (length_filter (fun i => due (td w) now i = true) (queue (td w))). lia.
  - exists timeout, w'. split; [done|]. split; [|split; [done|apply Hrest]]. split; [by eapply world_weaken, Hok'|].
    replace (length (dags w')) with (length (dags w)); [done|]. symmetry. apply Hfine'.
Qed.

(** The options of router and neighbour advertisements, whatever they are: an
    option that is short or empty ends the loop, and the offset stays even, so
    that the two bytes of an option's header are in the buffer. *)
Lemma nd_options_serving i bytes len fuel : forall off w, (i < n)%nat -> length bytes = 2048%nat -> len <= 2016 ->
  0 <= off -> off mod 2 = 0 -> Z.max 0 (len - off) < Z.of_nat fuel -> serving n named w ->
  exists w', nd_options_loop fuel i bytes len off w = Ok (tt, w') /\ serving n named w'.
Proof.
  induction fuel as [|fuel IH]; intros off w Hi Hb Hl Ho He Hf Hw; [lia|]. cbn [nd_options_loop].
  destruct (Z.ltb_spec off len) as [Hlt|]; cbn [negb]; [|by exists w].
  destruct (rd_in bytes off) as (ty & Hty & _); [unfold zlen; lia|].
  rewrite (bind_ok _ _ w ty w) by (unfold lift; by rewrite Hty). case_bool; [by exists w|].
  destruct (rd_in bytes (off + 1)) as (l & Hl1 & _); [unfold zlen; Z.to_euclidean_division_equations; lia|].
  rewrite (bind_ok _ _ w l w) by (unfold lift; by rewrite Hl1). cbv zeta. rewrite Z.shiftl_mul_pow2 by lia.
  change (2 ^ 3) with 8.
  destruct (short_serving n named i (l * 8) Nd.opt_hdr_size w Hi Hw) as (w1 & E1 & Hw1 & Hs1).
  rewrite (bind_ok _ _ w _ w1 E1). destruct (Z.ltb_spec (l * 8) Nd.opt_hdr_size) as [|Hge]; [by exists w1|].
  destruct (short_serving n named i len (l * 8) w1 Hi Hw1) as (w2 & E2 & Hw2 & _).
  rewrite (bind_ok _ _ w1 _ w2 E2). case_bool; [by exists w2|].
  assert (exists b w3, (if ty =? Nd.ND_OPT_PREFIX_INFORMATION then in_sys (packet_too_short i (l * 8) Nd.prefix_info_size)
    else mret false) w2 = Ok (b, w3) /\ serving n named w3) as (b & w3 & E3 & Hw3).
  { case_bool; [|by exists false, w2].
    destruct (short_serving n named i (l * 8) Nd.prefix_info_size w2 Hi Hw2) as (w3 & ? & ? & _). by eexists _, w3. }
  rewrite (bind_ok _ _ w2 b w3 E3). destruct b; [by exists w3|]. unfold Nd.opt_hdr_size in Hge.
  rewrite (bind_ok _ _ w3 (wsys w3) w3) by (by destruct w3). rewrite (bind_ok _ _ w3 tt w3); cycle 1.
  { unfold when. destruct (_ && _); [|done]. unfold Nd.prefix_info_size, lift, rd_range.
    by rewrite !(proj2 (Z.leb_le _ _)) by (unfold zlen; lia). }
  apply IH; try done; [lia| |lia]. Z.to_euclidean_division_equations; lia.
Qed.

Lemma rpl_serving i src dst now c1 c2 code dat len w : (i < n)%nat -> rpl_message code dat len ->
  (code = ND_RPL_DAO -> named = true) -> serving n named w ->
  exists w', receive_packet i src dst now ([ND_RPL_MESSAGE; code; c1; c2] ++ dat) (4 + len) w = Ok (tt, w') /\
    serving n named w'.
Proof.
  intros Hi Hmsg Hdao Hw. pose proof Hw as [Hok Hfine].
  destruct (receive_packet_returns n i src dst now c1 c2 code dat len w) as (w' & E & Hok'); try done.
  { intros Hc. by apply (serving_identified n named); [apply Hdao|]. }
  exists w'. split; [done|]. split; [done|].
  destruct (world_receive_packet (length (dags w)) named i src dst now c1 c2 code _ _ Hmsg w tt w' Hfine E) as [Hf _].
  replace (length (dags w')) with (length (dags w)); [done|]. symmetry. apply Hf.
Qed.

(** A solicitation. *)
Lemma solicit_serving i src dst now rest len w : (i < n)%nat -> length src = 16%nat ->
  solicit_ok (Nd.ND_NEIGHBOR_SOLICIT :: rest) len -> serving n named w ->
  exists w', receive_packet i src dst now (Nd.ND_NEIGHBOR_SOLICIT :: rest) len w = Ok (tt, w') /\ serving n named w'.
Proof.
  intros Hi Hsrc Hdat Hw. unfold receive_packet.
  destruct (in_sys_serving n named (upd_iface i (fun x => x <| recv_cnt ::= (fun c => c + 1) |>)) (fun _ => True) w)
    as ([] & w1 & E1 & _ & Hw1 & _); [intros; by apply stays_upd; intros x Hx|done|].
  rewrite (bind_ok _ _ w tt w1 E1), (bind_ok _ _ w1 Nd.ND_NEIGHBOR_SOLICIT w1) by done. cbv zeta.
  change (Nd.ND_NEIGHBOR_SOLICIT =? ND_RPL_MESSAGE) with false. change (Nd.ND_NEIGHBOR_SOLICIT =? Nd.ND_ROUTER_SOLICIT) with false.
  change (Nd.ND_NEIGHBOR_SOLICIT =? Nd.ND_ROUTER_ADVERT) with false. rewrite Z.eqb_refl. cbv iota.
  destruct (in_sys_serving n named (receive_neighbour_solicit i src dst (Nd.ND_NEIGHBOR_SOLICIT :: rest) len) (fun _ => True) w1)
    as ([] & w2 & E2 & _ & Hw2 & _); [intros; by apply stays_solicit|done|]. by exists w2.
Qed.

(** A router solicitation that is not logged in verbose mode: the text of the
    sender's address was never written, and when the stack holds no NUL where it
    should be, the read goes on past it. *)
Lemma router_solicit_unwritten i src dst now rest len w : verbose (wsys w) = false ->
  Forall (fun b => b <> 0) (take INET6_ADDRSTRLEN (junk_bytes (wsys w))) ->
  receive_packet i src dst now (Nd.ND_ROUTER_SOLICIT :: rest) len w = Fault OutOfBounds.
Proof.
  intros Hv Hj. assert (forall m, Forall (fun b => b <> 0) m -> rd_string m = Fault OutOfBounds) as Hrd.
  { induction 1 as [|b m Hb _ IH]; [done|]. cbn [rd_string]. by rewrite (proj2 (Z.eqb_neq _ _) Hb). }
  unfold receive_packet.
  set (w1 := w <| wsys ::= (fun s => s <| ifaces ::= alter (fun x => x <| recv_cnt ::= (fun c => c + 1) |>) i |>) |>).
  rewrite (bind_ok _ _ w tt w1) by done. rewrite (bind_ok _ _ w1 Nd.ND_ROUTER_SOLICIT w1) by done. cbv zeta.
  change (Nd.ND_ROUTER_SOLICIT =? ND_RPL_MESSAGE) with false. rewrite Z.eqb_refl. cbv iota.
  assert (warn_solicitation w1 = Fault OutOfBounds) as E.
  { unfold warn_solicitation. rewrite (bind_ok _ _ w1 (wsys w1) w1) by done.
    change (verbose (wsys w1)) with (verbose (wsys w)). rewrite Hv. unfold lift.
    change (junk_bytes (wsys w1)) with (junk_bytes (wsys w)). by rewrite (Hrd _ Hj). }
  unfold mbind, M_bind. by rewrite E.
Qed.
(** In verbose mode a prefix option that starts near the end of the buffer is
    read past it: its length is compared with that of the packet, not with what
    is left of it. *)
Lemma prefix_option_overruns fuel i bytes len off w : verbose (wsys w) = true ->
  length bytes = 2048%nat -> bytes !! Z.to_nat off = Some Nd.ND_OPT_PREFIX_INFORMATION ->
  bytes !! Z.to_nat (off + 1) = Some 4 -> 2016 < off < len -> len <= 2048 ->
  nd_options_loop (S fuel) i bytes len off w = Fault OutOfBounds.
Proof.
  intros Hv Hb Hty Hl Hoff Hlen. cbn [nd_options_loop]. rewrite (proj2 (Z.ltb_lt off len)) by lia. cbn [negb].
  rewrite (bind_ok _ _ w Nd.ND_OPT_PREFIX_INFORMATION w); cycle 1.
  { unfold lift, rd. rewrite (proj2 (Z.ltb_ge _ _)) by lia. by rewrite Hty. }
  change (Nd.ND_OPT_PREFIX_INFORMATION =? 0) with false. cbv iota.
  rewrite (bind_ok _ _ w 4 w); cycle 1.
  { unfold lift, rd. rewrite (proj2 (Z.ltb_ge _ _)) by lia. by rewrite Hl. }
  cbv zeta. change (Z.shiftl 4 3) with 32.
  assert (forall a b, (a <? b) = false -> in_sys (packet_too_short i a b) w = Ok (false, w)) as Hshort.
  { intros a b E. unfold in_sys, zoom, packet_too_short. rewrite E. by destruct w. }
  rewrite (bind_ok _ _ w false w) by by apply Hshort. cbv iota.
  rewrite (bind_ok _ _ w false w) by (apply Hshort, Z.ltb_ge; lia). cbv iota. rewrite Z.eqb_refl.
  rewrite (bind_ok _ _ w false w) by by apply Hshort. cbv iota.
  rewrite (bind_ok _ _ w (wsys w) w) by by destruct w. rewrite Hv. cbn [andb]. unfold when, mbind at 1, M_bind at 1.
  unfold mbind at 1, M_bind at 1, lift, rd_range, Nd.prefix_info_size.
  rewrite (proj2 (Z.leb_gt (off + 32) _)) by (unfold zlen; lia). by rewrite andb_false_r.
Qed.

(** Any packet that is neither RPL nor a solicitation. *)
Lemma other_serving i src dst now ty code rest len w : (i < n)%nat -> length (ty :: code :: rest) = 2048%nat ->
  len <= 2016 -> ty <> Nd.ND_NEIGHBOR_SOLICIT -> ty <> Nd.ND_ROUTER_SOLICIT ->
  (ty = ND_RPL_MESSAGE -> code <> ND_RPL_DAG_IO /\ code <> ND_RPL_DAO /\ code <> ND_RPL_DAO_ACK /\ code <> ND_RPL_DAG_IS) ->
  serving n named w ->
  exists w', receive_packet i src dst now (ty :: code :: rest) len w = Ok (tt, w') /\ serving n named w'.
Proof.
  intros Hi Hb Hl Hns Hrs Hrpl Hw. unfold receive_packet.
  destruct (in_sys_serving n named (upd_iface i (fun x => x <| recv_cnt ::= (fun c => c + 1) |>)) (fun _ => True) w)
    as ([] & w1 & E1 & _ & Hw1 & _); [intros; by apply stays_upd; intros x Hx|done|].
  rewrite (bind_ok _ _ w tt w1 E1), (bind_ok _ _ w1 ty w1) by done. cbv zeta.
  assert (forall off, 0 <= off -> off mod 2 = 0 -> exists w', nd_options_loop (nd_fuel len) i (ty :: code :: rest) len off w1
    = Ok (tt, w') /\ serving n named w') as Hopts.
  { intros off Ho He. apply nd_options_serving; try done. unfold nd_fuel. lia. }
  destruct (Z.eqb_spec ty ND_RPL_MESSAGE) as [->|].
  { rewrite (bind_ok _ _ w1 code w1) by done. destruct (Hrpl eq_refl) as (H1' & H2' & H3' & H4').
    rewrite !(proj2 (Z.eqb_neq _ _)) by done.
    destruct (in_sys_serving n named (global_count PS_RPL_UNKNOWN_CODE) (fun _ => True) w1) as ([] & w2 & E2 & _ & Hw2 & _);
      [intros; apply stays_count|done|]. by exists w2. }
  rewrite (proj2 (Z.eqb_neq _ _) Hrs). case_bool; [by apply Hopts|]. rewrite (proj2 (Z.eqb_neq _ _) Hns).
  case_bool; [by apply Hopts|by exists w1].
Qed.

Lemma receive_serving now g w : serving n named w -> datagram_ok named g ->
  exists w', receive now g w = Ok (tt, w') /\ serving n named w'.
Proof.
  intros Hw Hg. unfold receive.
  destruct (scan_control (rx_control g) None) as [info|]; [|by exists w].
  destruct (default (zeros 16, -1) info) as [dst ifindex].
  pose proof Hw as [(t & _ & He & _) (_ & Hs & _)].
  destruct (find_index_run n t _ ifindex (wsys w) (conj He Hs)) as (r & E & Hr).
  rewrite (bind_ok _ _ w r w) by (unfold in_sys, zoom; rewrite E; by destruct w).
  destruct r as [i|]; [|by exists w]. specialize (Hr i eq_refl).
  rewrite (bind_ok _ _ w (wsys w) w) by (by destruct w). cbv zeta.
  destruct Hg as [(code & c1 & c2 & body & Hdata & Hlen & Hmsg & Hdao)
    |[(rest & Hdata & Hlen & Hsrc & Hsol)|(ty & code & rest & Hdata & Hlen & Hns & Hrs & Hrpl)]].
  - rewrite take_ge by (unfold zlen in Hlen; lia). set (post := drop _ _).
    rewrite Hdata, <-app_assoc, zlen_app. change (zlen [ND_RPL_MESSAGE; code; c1; c2]) with 4.
    by apply rpl_serving.
  - rewrite take_ge by (unfold zlen in Hlen; lia). set (post := drop _ _). specialize (Hsol post).
    rewrite Hdata in Hsol |- *. by apply solicit_serving.
  - assert (length (junk_bytes (wsys w)) = 2048%nat) as Hj by apply He. rewrite Hdata.
    change (take 2048 (ty :: code :: rest)) with (ty :: code :: take 2046 rest).
    apply other_serving; try done.
    + cbn [length app]. rewrite length_app, length_drop. cbn [length]. rewrite length_take. lia.
    + rewrite Hdata in Hlen. revert Hlen. unfold zlen. cbn [length]. rewrite length_take. lia.
Qed.

(** The clients that wait are those of interfaces there are, and not all. *)
Lemma poll_serving w : serving n named w ->
  exists l, in_sys (poll_sources (1 + zlen (all_if (wsys w)))) w = Ok (l, w) /\ Forall (fun i => i < n)%nat l.
Proof.
  intros [(t & _ & He & _) (_ & (_ & _ & (i & x & Hi & Hx & Hc & _) & _) & _)].
  exists (filter (fun i => outstanding (wsys w) i = true) (all_if (wsys w))). split.
  - unfold in_sys, zoom. rewrite (poll_array_run n t (wsys w) He), decide_False; [by destruct w|].
    intros [_ Hall]. rewrite Forall_forall in Hall. specialize (Hall i Hi). revert Hall. unfold outstanding. by rewrite Hx, Hc.
  - apply Forall_forall. intros j [_ Hj]%list_elem_of_filter. destruct He as (_ & Hall & _).
    rewrite Forall_forall in Hall. by apply Hall.
Qed.
Lemma answers_serving reply l w : (forall i r, reply i = Some (Some r) -> answer_ok r) -> Forall (fun i => i < n)%nat l ->
  serving n named w ->
  exists w', for_each l (fun i => match reply i with Some r => in_sys (client_reply i r) ;; mret tt | None => mret tt end) w
    = Ok (tt, w') /\ serving n named w'.
Proof.
  intros Hr Hl. revert w. induction Hl as [|i l Hi _ IH]; intros w Hw; [by exists w|]. cbn [for_each].
  destruct (reply i) as [r|] eqn:Er; [|rewrite (bind_ok _ _ w tt w) by done; by apply IH].
  destruct (in_sys_serving n named (client_reply i r) (fun _ => True) w) as (b & w1 & E1 & _ & Hw1 & _);
    [intros t m; apply stays_answer; [done|]; intros x ->; by eapply Hr|done|].
  rewrite (bind_ok _ _ w tt w1); [by apply IH|]. by rewrite (bind_ok _ _ w b w1 E1).
Qed.
Lemma known_nonempty w : serving n named w -> (1 <? 1 + zlen (all_if (wsys w))) = true.
Proof.
  intros [_ (_ & (_ & _ & Hsp & _) & _)]. apply spare_nonempty in Hsp. apply Z.ltb_lt.
  destruct (all_if (wsys w)) as [|i l]; [done|]. rewrite zlen_cons. pose proof (zlen_nonneg l). lia.
Qed.
End interfaces.

(** ** One turn *)
Lemma turn_serving n t w : serving n named w -> turn_ok named t ->
  exists timeout n' w', loop_turn (S (length (queue (td w)))) t w = Ok (timeout, w') /\ (n <= n')%nat /\
    serving n' named w' /\ 0 <= timeout <= poll_timeout_max.
Proof.
  intros Hw (Hn1 & Hn2 & Hnl & Hpk & Hgr & Hsig). unfold loop_turn.
  destruct (set_clock_serving n (t_clock t) w Hn1 Hw) as (w1 & E1 & Hw1 & Hq). rewrite (bind_ok _ _ w tt w1 E1).
  rewrite (bind_ok _ _ w1 (zlen (all_if (wsys w1))) w1) by (by destruct w1). rewrite <-Hq, (known_nonempty n w1 Hw1).
  destruct (run_due_serving n (t_clock t) w1 Hn1 Hw1) as (timeout & w2 & E2 & Hw2 & Hif & Hb).
  rewrite (bind_ok _ _ w1 timeout w2 E2), <-Hif. destruct (poll_serving n w2 Hw2) as (l & El & Hl).
  rewrite (bind_ok _ _ w2 l w2 El).
  destruct (set_clock_serving n (t_woken t) w2 Hn2 Hw2) as (w3 & E3 & Hw3 & _). rewrite (bind_ok _ _ w2 tt w3 E3). cbv zeta.
  assert (exists n4 w4, (match netlink_ready t with Some msgs => empty_socket msgs ;; look_for_new_interfaces | None => mret tt end) w3
    = Ok (tt, w4) /\ (n <= n4)%nat /\ serving n4 named w4) as (n4 & w4 & E4 & Hn4 & Hw4).
  { destruct (netlink_ready t) as [msgs|]; [|by exists n, w3].
    destruct (gather_all_serving named n msgs w3 (Hnl msgs eq_refl) Hw3) as (w4 & E4 & n4 & Hn4 & Hw4 & _).
    destruct (look_serving named n4 w4 Hw4) as (w5 & E5 & Hw5 & _). exists n4, w5. by rewrite (bind_ok _ _ w3 tt w4 E4). }
  rewrite (bind_ok _ _ w3 tt w4 E4).
  assert (exists w5, (match packet_ready t with Some g => receive (tv_sec (t_woken t)) g | None => mret tt end) w4
    = Ok (tt, w5) /\ serving n4 named w5) as (w5 & E5 & Hw5).
  { destruct (packet_ready t) as [g|] eqn:Eg; [apply receive_serving; auto|by exists w4]. }
  rewrite (bind_ok _ _ w4 tt w5) by exact E5.
  destruct (answers_serving n4 (grasp_ready t) l w5) as (w6 & E6 & Hw6); [done|eapply Forall_impl; [exact Hl|cbn; lia]|done|].
  rewrite (bind_ok _ _ w5 tt w6) by exact E6.
  destruct (signal_usr1 t) as [[[open links] addrs]|]; [|by exists timeout, n4, w6].
  destruct (Hsig open links addrs eq_refl) as [Hlk Had].
  destruct (scan_serving named n4 open links addrs w6 Hlk Had Hw6) as (r & w7 & E7 & n7 & Hn7 & Hw7 & _).
  destruct (repair_serving named n7 w7 Hw7) as (w8 & E8 & Hw8 & _). exists timeout, n7, w8.
  rewrite (bind_ok _ _ w6 tt w8); [split_and!; try done; lia|]. by rewrite (bind_ok _ _ w6 r w7 E7).
Qed.

Lemma main_loop_runs n ts w : serving n named w -> Forall (turn_ok named) ts ->
  exists n' w', main_loop ts w = Ok (tt, w') /\ (n <= n')%nat /\ serving n' named w'.
Proof.
  intros Hw Hts. unfold main_loop. revert n w Hw. induction Hts as [|t ts Ht _ IH]; intros n w Hw; [by exists n, w|].
  cbn [for_each]. destruct (turn_serving n t w Hw Ht) as (timeout & n1 & w1 & E & Hn1 & Hw1 & _).
  destruct (IH n1 w1 Hw1) as (n' & w' & E' & Hn' & Hw'). exists n', w'. split; [|split; [lia|done]]. rewrite <-E'.
  rewrite (bind_ok _ _ w tt w1); [done|]. rewrite (bind_ok _ _ w w w) by done. by rewrite (bind_ok _ _ w timeout w1 E).
Qed.
End turns.

(** Six turns: a DIO; a DAO; a router advertisement that ends in the middle of an
    option; a new link and its address, with a solicitation to join; the
    registrar's answer, with a scan; and one in which nothing arrives. *)
Definition example_packet (data : list Z) : datagram :=
  mk_datagram Example.peer_addr [HopLimit true 255; PktInfo true all_rpl_addr 2] data.
Definition example_turn (sec : Z) (links : option (list nlmsg)) (packet : option (list Z)) (answer : option cbor)
    (usr1 : option (bool * option (list nlmsg) * option (list nlmsg))) : turn :=
  mk_turn (mk_timeval sec 0) (mk_timeval sec 500000) links (example_packet <$> packet)
    (fun i => if decide (i = 0%nat) then Some answer else None) usr1.
Definition example_news : list nlmsg :=
  [NewLink (example_link "wlan0" 7 (Some [2; 4; 6; 8; 10; 12]));
   NewAddr (mk_addr 7 128 253 (Some Example.link_addr) None)].
Definition example_turns : list turn :=
  [example_turn 1001 None (Some ([ND_RPL_MESSAGE; ND_RPL_DAG_IO; 0; 0] ++ Dio.encode (example_dio 256) ++ enc [example_pio])) None None;
   example_turn 1002 None (Some ([ND_RPL_MESSAGE; ND_RPL_DAO; 0; 0] ++ Dao.encode (Dao.mk 1 192 0 4) ++ Example.dagid ++
     enc [example_target])) None None;
   example_turn 1003 None (Some ([Nd.ND_ROUTER_ADVERT; 0; 0; 0] ++ zeros 12 ++ [3; 4; 0])) None None;
   example_turn 1004 (Some example_news) (Some (solicitation example_ns example_joiner [example_lladdr; example_aro] [])) None None;
   example_turn 1005 None None (Some (CArray [CUint 6; CUint 1; CArray [CUint 101]])) (Some (true, Some example_news, Some []));
   example_turn 1062 None None None None].
(** On [eth0] a neighbour waits for the registrar's answer. *)
Definition example_busy : world :=
  example_world <| wsys ::= (fun s =>
    s <| ifaces := [example_asked_iface <| join_query_client := Some (mk_grasp 1 true) |>; Example.iface <| if_name := "eth1" |> <| if_index := 3 |>] |> <| all_if := [0; 1]%nat |>) |>.

Section witnesses.
#[local] Existing Instance libstdcxx_map.
#[local] Instance any_pattern : Fnmatch := fun row name => true.
#[local] Instance asked_on : Reserved := known ["eth0"].

Lemma example_timers m : timed m Example.timers.
Proof.
  split; [split_and!; [by constructor|by intros i Hi; apply elem_of_nil in Hi|done]|].
  split; [done|]. split; [by intros i e Hi; apply elem_of_nil in Hi|]. split; [done|unfold tv_normal; cbn; lia].
Qed.
Lemma example_serving : serving 2 true example_busy.
Proof.
  split; [|split; [done|split]].
  - destruct (example_world_with (fun _ => True) I) as (t & Hq & (Ht & _ & _ & Hj & Hf) & Hd & Ha). exists t.
    split; [done|]. split; [split; [exact Ht|]; split; [by repeat constructor; lia|by split_and!]|]. split; [|done].
    intros k d Hk. destruct (Hd k d Hk) as (? & ? & _). split; [done|]. split; [eapply dag_ok_more, H0; lia|done].
  - split; [apply example_timers|].
    assert (forall a nd, node_fine nd -> map_Forall (fun _ nd => node_fine nd) ({[ a := nd ]} : node_map)) as Hone
      by (intros a nd Hnd; by apply map_Forall_singleton).
    split; [apply Forall_cons; split; [|apply Forall_cons; split; [|apply Forall_nil; done]]; (split; [done|]); split_and!; try done; by apply (Hone example_joiner)|].
    split; [exists 1%nat, (Example.iface <| if_name := "eth1" |> <| if_index := 3 |>); split_and!; try done; [by right; left|by repeat constructor]|].
    split; [done|]. split; [done|]. split; [exact (bytes_ok_zeros 2048)|]. by split_and!.
  - intros k d Hk. apply list_lookup_singleton_Some in Hk as [-> <-].
    split; [cbn; lia|]. split; [cbn; lia|]. split; [apply example_sendable|].
    split; [by exists Example.prefix64, 64|]. split; [by intros []; repeat constructor|].
    split; [by repeat constructor|]. done.
Qed.

Lemma example_news_ok : Forall announce_ok example_news.
Proof. constructor; [|by repeat constructor]. split; [done|]. by intros [|]. Qed.
Lemma example_turn_ok sec links packet answer usr1 : 0 <= sec < 2000000 -> dump_ok links ->
  (forall data, packet = Some data -> datagram_ok true (example_packet data)) ->
  (forall r, answer = Some r -> answer_ok r) ->
  (forall open links addrs, usr1 = Some (open, links, addrs) -> dump_ok links /\ dump_ok addrs) ->
  turn_ok true (example_turn sec links packet answer usr1).
Proof.
  intros Hs Hl Hp Ha Hu. split; [by unfold tv_normal; cbn; lia|]. split; [by unfold tv_normal; cbn; lia|]. split; [exact Hl|].
  split; [|split; [|exact Hu]].
  - intros g Hg. cbn in Hg. apply fmap_Some in Hg as (data & -> & ->). by apply Hp.
  - intros i r. cbn. destruct (decide _); [|done]. intros [= ->]. by apply Ha.
Qed.
Lemma example_turns_ok : Forall (turn_ok true) example_turns.
Proof.
  assert (dump_ok None) as Hnone by done.
  assert (dump_ok (Some example_news)) as Hnews by (intros l [= <-]; exact example_news_ok).
  unfold example_turns. rewrite !Forall_cons. split_and!; [apply example_turn_ok; try done; try lia..|by constructor].
  - intros ? [= <-]. left. exists ND_RPL_DAG_IO, 0, 0, (Dio.encode (example_dio 256) ++ enc [example_pio]).
    split; [done|]. split; [done|]. split; [|done]. intros post. rewrite <-app_assoc.
    apply (msg_dio (example_dio 256) [example_pio] post);
      [by apply example_dio_wf|by repeat constructor|by repeat constructor|by compute].
  - intros ? [= <-]. left. exists ND_RPL_DAO, 0, 0, (Dao.encode (Dao.mk 1 192 0 4) ++ Example.dagid ++ enc [example_target]).
    split; [done|]. split; [done|]. split; [|done]. intros post.
    apply (msg_dao (Dao.mk 1 192 0 4) Example.dagid [example_target] post);
      [done|by repeat constructor|by repeat constructor|by compute].
  - intros ? [= <-]. right. right. exists Nd.ND_ROUTER_ADVERT, 0, (zeros 14 ++ [3; 4; 0]). by split_and!.
  - intros ? [= <-]. right. left.
    exists (drop 1 (solicitation example_ns example_joiner [example_lladdr; example_aro] [])).
    split; [done|]. split; [done|]. split; [done|]. intros post. right.
    exists example_ns, example_joiner, [example_lladdr; example_aro], post.
    split; [done|]. split; [done|]. split; [exact example_opts_wf|]. split; [|done].
    unfold solicitation. cbn [rx_data example_packet]. by rewrite <-!app_assoc, app_nil_l.
  - intros r [= <-] _. by exists 101, [].
  - intros open links addrs [= <- <- <-]. split; [done|]. intros l [= <-]. constructor.
Qed.

End witnesses.
