(* ===== verification/Start.v ===== *)
(** From the command line to the main loop: the daemon that is given a sound
    command line reaches the main loop in a state in which it serves; and what
    the options with text in them say. *)

From Stdlib Require Import ZArith Lia String.
From stdpp Require Import base list gmap numbers strings.
From S2P Require Import Prelude Wire Subopt Event Prefix Text State Iface Build Dag Filters DagFacts Safety.
From S2P Require Import Handlers Routes Neighbour World Netlink MainLoop Devid Sunshine Worlds Timers Sound Total.
From S2P Require Import Solicit Serving Announce Loop.
#[local] Open Scope Z_scope.

(** * The program before the main loop *)
Section steps.
Context `{EventHeapLaws, PrefixMapLaws, Fnmatch, Reserved} (n : nat) (named : bool).

(** One DAG, which has no prefix yet. *)
Definition lone (w : world) : Prop := exists d, dags w = [d] /\ dag_prefixes d = [].

Lemma in_dag_lone {A} (p : M ctx A) w : total n 1 named p -> keeps (same dag_prefixes) p -> serving n named w -> lone w ->
  exists a w', in_dag 0 p w = Ok (a, w') /\ serving n named w' /\ lone w'.
Proof.
  intros Hp Hk Hw (d & Hd & Hnil). assert (length (dags w) = 1%nat) as Hlen by (by rewrite Hd).
  assert (dags w !! 0%nat = Some d) as Hd0 by (by rewrite Hd).
  destruct (in_dag_serving n named 0 p w d) as (a & w' & E & Hw' & _); [by rewrite Hlen|done..|].
  exists a, w'. split; [done|]. split; [done|]. unfold in_dag in E. rewrite Hd0 in E.
  destruct (p _) as [[b c]|] eqn:Ep; [|done]. injection E as <- <-. exists (this c). split; [cbn; by rewrite Hd|].
  rewrite <-Hnil. exact (Hk _ _ _ Ep).
Qed.
End steps.

(** * The options *)

(** One more DAG. *)
Lemma sys_fine_more `{EventHeap, Reserved} m m' s : (m <= m')%nat -> sys_fine m s -> sys_fine m' s.
Proof.
  intros Hm ((Hq & Hp & Ha & Ht) & Hr). split; [|done]. split; [done|]. split; [done|]. split; [|done].
  intros i e Hi He. destruct (Ha i e Hi He) as [[Hty (dag & Hd & Hlt)] Hu]. split; [|done].
  split; [done|]. exists dag. split; [done|lia].
Qed.

(** What a new DAG holds before it is set, as far as it is not set. *)
Definition junk_fine (d : dag_network) : Prop :=
  length (mDagid d) = 16%nat /\ bytes_ok (mDagid d) /\ 0 <= mDio_lifetime d < 4294967296 /\ subnet_fine (mPrefix d) /\ (mIID_is_set d = true -> length (ip_bytes (mIID d)) = 16%nat).
(** Before and after the option [-I]. *)
Definition place (o : option nat) (w : world) : Prop :=
  match o with
  | None => dags w = [] /\ all_dag w = [] /\ junk_fine (junk_dag w)
  | Some k => k = 0%nat /\ lone w
  end.

(** The names the command line gives to [-i]. *)
Definition interface_names (os : list cmd_option) : list string :=
  omap (fun o => match o with OptInterface name => Some name | _ => None end) os.

Section options.
Context `{EventHeapLaws, PrefixMapLaws, Fnmatch, InetPton, Startup, Mbedtls} (names : list string) (n : nat).
#[local] Instance known_here : Reserved := known names.

(** The variables of [main] name things that exist; the registrar answers. *)
Definition ready (l : locals) (w : world) : Prop :=
  serving n false w /\ place (l_dag l) w /\ (forall i, l_iface l = Some i -> (i < n)%nat) /\
  (forall r, grasp_registrar l = Some r -> open_connection r = true).

Definition address_text (arg : list Z) : Prop :=
  exists bs, length bs = 16%nat /\ forall dst, ttoaddr host_lookup net_lookup arg 0 AF_INET6 dst = Good (ip6 bs).
Definition subnet_text (arg : list Z) : Prop :=
  exists p port, subnet_fine p /\
    forall junk, ttosubnet host_lookup net_lookup arg (zlen arg) AF_INET6 junk = Good (p, port).
Definition is_instance (o : cmd_option) : bool := match o with OptInstance _ => true | _ => false end.
Definition is_prefix (o : cmd_option) : bool := match o with OptPrefix _ => true | _ => false end.

(** The options of a sound command line: what is read is what is meant. *)
Definition sound_option (dag : bool) (o : cmd_option) : Prop :=
  match o with
  | OptDaemon | OptVerbose | OptLog | OptInterface _ => True
  | OptRegistrar arg => open_connection (match rcut arg with Some (host, _) => host | None => arg end) = true
  | OptInstance _ => dag = false
  | OptIgnorePio | OptNomulticast | OptRank _ => dag = true
  | OptInterval arg => dag = true /\ 0 < u32 (atoi arg) < 4294968
  | OptLdevid arg => dag = true /\ exists sn, load_ldevid arg = Ok (Some sn) /\ subnet_fine sn
  | OptIid arg | OptIpv6 arg => dag = true /\ address_text arg
  | OptPrefix arg => dag = true /\ subnet_text arg
  | OptIfFilter arg => dag = true /\ zlen arg <= 30
  | OptDagid arg => dag = true /\ forall id, inet_pton6 arg = Some id -> length id = 16%nat /\ bytes_ok id
  | OptUsage | OptDieAfterInit | OptKill | OptAddrFilter _ => False
  end.
Fixpoint sound_line (dag : bool) (os : list cmd_option) : Prop :=
  match os with
  | [] => dag = true
  | o :: os' => sound_option dag o /\ sound_line (dag || is_instance o) os'
  end.
Definition has_dag (l : locals) : bool := match l_dag l with Some _ => true | None => false end.

(** What a step of the option loop has to leave. *)
Definition stepped (o : cmd_option) (l : locals) (w : world) : Prop :=
  exists l' w', option_step o l w = Ok (On l', w') /\ ready l' w' /\ has_dag l' = has_dag l || is_instance o /\
    grounded l' = grounded l || is_prefix o /\ justkidding l' = justkidding l.

(** ** One option *)
Lemma in_sys_ready {A} (k : M sys A) l w : (forall t m, stays n t m k (fun _ => True)) ->
  ready l w -> exists a w', in_sys k w = Ok (a, w') /\ ready l w'.
Proof.
  intros Hk (Hw & Hp & Hr). destruct (in_sys_serving n false k _ w Hk Hw) as (a & w' & E & _ & Hw' & Hd & _ & Ha & Hj).
  exists a, w'. split; [done|]. split; [done|]. split; [|done]. unfold place, lone. rewrite Hd, Ha, Hj. exact Hp.
Qed.
Lemma in_dag_ready {A} (p : M ctx A) l w : total n 1 false p -> keeps (same dag_prefixes) p ->
  ready l w -> has_dag l = true ->
  exists k a w', l_dag l = Some k /\ in_dag k p w = Ok (a, w') /\ ready l w'.
Proof.
  intros Hp Hk (Hw & Hpl & Hr) Hd. unfold has_dag in Hd. destruct (l_dag l) as [k|] eqn:El; [|done].
  destruct Hpl as [-> Hl]. destruct (in_dag_lone n false p w Hp Hk Hw Hl) as (a & w' & E & Hw' & Hl').
  exists 0%nat, a, w'. split; [done|]. split; [done|]. split; [done|]. by rewrite El.
Qed.
Lemma ready_locals l l' w : l_dag l' = l_dag l -> l_iface l' = l_iface l -> grasp_registrar l' = grasp_registrar l ->
  ready l w -> ready l' w.
Proof. unfold ready. by intros -> -> ->. Qed.

Lemma set_on_dag_ready l w f : (forall t d, dag_ok n t d -> dag_ok n t (f d)) -> (forall d, dag_self (f d) = dag_self d) ->
  (forall d, dag_fine 1 false d -> dag_fine 1 false (f d)) -> (forall d, dag_prefixes (f d) = dag_prefixes d) ->
  ready l w -> has_dag l = true -> exists w', set_on_dag l f w = Ok (On l, w') /\ ready l w'.
Proof.
  intros Hok Hself Hfine Hpre Hw Hd.
  destruct (in_dag_ready (dag_upd f) l w) as (k & [] & w' & El & E & Hw'); [by apply total_upd|by apply same_dag_upd|done..|].
  unfold set_on_dag, on_dag. rewrite El, (bind_ok _ _ w tt w' E). by exists w'.
Qed.
(** A setter that may fault, and does not. *)
Lemma dag_try_total f : (forall d, exists d', f d = Ok d' /\ (forall t, dag_ok n t d -> dag_ok n t d') /\
    dag_self d' = dag_self d /\ (dag_fine 1 false d -> dag_fine 1 false d')) -> total n 1 false (dag_try f).
Proof.
  intros Hf. assert (forall c, exists d', f (this c) = Ok d' /\ dag_try f c = Ok (tt, c <| this := d' |>)) as Hrun.
  { intros c. destruct (Hf (this c)) as (d' & E & _). exists d'. split; [done|]. unfold dag_try.
    rewrite (bind_ok _ _ c (this c) c), (bind_ok _ _ c d' c); [done| |done]. unfold lift. cbn. by rewrite E. }
  split.
  - intros c [(t & Hq & He & Hd) [Hs Hfine]]. destruct (Hrun c) as (d' & E & Er), (Hf (this c)) as (x & E' & Hok & _ & Hx).
    rewrite E in E'. injection E' as <-. exists tt, (c <| this := d' |>). split; [done|].
    split; [exists t; by auto|]. split; [done|by apply Hx].
  - intros c [] c' E. destruct (Hrun c) as (d' & E1 & Er), (Hf (this c)) as (x & E' & _ & Hself & _).
    rewrite E1 in E'. injection E' as <-. rewrite E in Er. injection Er as ->. by split.
Qed.

(** The bytes of the id stay bytes, whatever the digits. *)
Lemma hex_dagid_sized room : forall i junk digits id, bytes_ok id ->
  bytes_ok (hex_dagid room i junk digits id) /\ length (hex_dagid room i junk digits id) = length id.
Proof.
  induction room as [|room IH]; intros i junk digits id Hid; [done|]. cbn [hex_dagid].
  destruct digits as [|c digits]; [done|].
  assert (forall v, bytes_ok (<[i := u8 v]> id) /\ length (<[i := u8 v]> id) = length id) as Hset.
  { intros v. split; [|apply length_insert]. apply Forall_insert; [done|]. apply u8_ok. }
  destruct (scan_2x _); [|done|]; match goal with |- bytes_ok (hex_dagid _ _ _ _ (<[_ := u8 ?v]> _)) /\ _ =>
      destruct (IH (S i) junk (drop 1 digits) _ (proj1 (Hset v))) as [? Hl] end;
    (split; [done|]); rewrite Hl; apply length_insert.
Qed.

Lemma set_dagid_text_cases jv jid arg d :
  (exists digits, arg = 48 :: 120 :: digits /\ set_dagid_text jv jid arg d = d <| mDagid ::= hex_dagid 16 0 jv digits |>) \/
  set_dagid_text jv jid arg d = set_dagid (default jid (inet_pton6 arg)) d.
Proof. unfold set_dagid_text. repeat case_match; (by right) || (left; by eexists). Qed.
Lemma set_dagid_text_fine jv jid arg d : length jid = 16%nat -> bytes_ok jid ->
  (forall id, inet_pton6 arg = Some id -> length id = 16%nat /\ bytes_ok id) ->
  dag_fine 1 false d -> dag_fine 1 false (set_dagid_text jv jid arg d).
Proof.
  intros Hl Hb Hpton (Hm & Hi & (Hid & Hids & Hmode & Hlt) & Hp & Hw & Hr).
  assert (exists id, set_dagid_text jv jid arg d = d <| mDagid := id |> /\ length id = 16%nat /\ bytes_ok id)
    as (id & -> & Hl' & Hb').
  { assert (forall f, d <| mDagid ::= f |> = d <| mDagid := f (mDagid d) |>) as Hupd by done.
    assert (exists id, set_dagid (default jid (inet_pton6 arg)) d = d <| mDagid := id |> /\ length id = 16%nat /\ bytes_ok id)
      as Hset by (destruct (inet_pton6 arg) as [id|] eqn:E; eexists; split; [done|by apply Hpton|done|by split]).
    destruct (set_dagid_text_cases jv jid arg d) as [(digits & _ & ->)| ->]; [|exact Hset].
    rewrite (Hupd (hex_dagid 16 0 jv digits)). destruct (hex_dagid_sized 16 0 jv digits (mDagid d) Hids) as [? Hlen]. eexists. split; [done|]. by rewrite Hlen. }
  split; [done|]. split; [done|]. split; [done|]. split; [done|]. split; [|done]. intros w. exact (Hw w).
Qed.

Lemma set_interface_wildcard_runs wild d : zlen wild <= 30 ->
  exists l, set_interface_wildcard wild d = Ok (d <| mIfWildcard := l |>).
Proof.
  intros Hl. unfold set_interface_wildcard. case_bool; [|exists (mIfWildcard d); by destruct d].
  pose proof (zlen_nonneg wild). unfold DAG_IFWILDCARD_LEN. cbv zeta.
  assert ((zlen wild + 1 >? 32 - 1) = false) as -> by lia.
  replace (zlen wild + 1) with (zlen (wild ++ [0])) by by rewrite zlen_app.
  pose proof (rd_range_app [] (wild ++ [0]) []) as Hrd. rewrite app_nil_r in Hrd. cbn [app] in Hrd.
  change (zlen (@nil Z)) with 0 in Hrd. rewrite Hrd. cbn [mbind outcome_bind].
  destruct (wr_range_in (zeros 32) 0 (wild ++ [0])) as (row & -> & Hrow); [done|rewrite zlen_app, zlen_zeros; change (zlen [0]) with 1; lia|].
  cbn [mbind outcome_bind].
  destruct (wr_range_in row (zlen (wild ++ [0])) [0]) as (row' & -> & _);
    [rewrite zlen_app; change (zlen [0]) with 1; lia|unfold zlen in *; rewrite Hrow, length_app, length_zeros; cbn [length]; lia|]. by eexists.
Qed.

(** The interface [-i] names, whose name it has. *)
Definition named_so (name : string) (i : nat) (s : sys) : Prop :=
  exists x, ifaces s !! i = Some x /\ strcaseeq name (if_name x) = true.
Lemma find_iface_matches p l : forall s i s', find_iface p l s = Ok (Some i, s') ->
  exists x, ifaces s !! i = Some x /\ p x = true.
Proof.
  induction l as [|j l IH]; intros s i s' E; [done|]. cbn [find_iface] in E. apply bind_inv in E as (x & s1 & E1 & E).
  pose proof (get_iface_same _ _ _ _ E1) as ->. destruct (p x) eqn:Ep; [|by eapply IH].
  injection E as <- <-. exists x. split; [|done]. unfold get_iface in E1. destruct (decide _); [done|].
  destruct (ifaces s !! j); [|done]. by injection E1 as ->.
Qed.
Lemma find_by_name_ready name l w : ready l w ->
  exists r, in_sys (find_by_name name) w = Ok (r, w) /\ forall i, r = Some i -> (i < n)%nat /\ named_so name i (wsys w).
Proof.
  intros [[(t & _ & He & _) _] _].
  destruct (find_iface_ok n (fun x => strcaseeq name (if_name x)) (all_if (wsys w)) (wsys w) t He) as (r & E & Hr);
    [apply He|]. exists r. split.
  - unfold in_sys, zoom, find_by_name. rewrite (bind_ok _ _ (wsys w) (wsys w) (wsys w)), E by done. by destruct w.
  - intros i ->. split; [by apply Hr|]. by eapply find_iface_matches.
Qed.
Lemma named_so_kept {A} (k : M sys A) name i l w a w' : keeps same_list k -> ready l w ->
  in_sys k w = Ok (a, w') -> named_so name i (wsys w) -> named_so name i (wsys w').
Proof.
  intros Hk [[_ (_ & (_ & Hif & _) & _)] _] E (x & Hx & Hn). unfold in_sys, zoom in E.
  destruct (k (wsys w)) as [[b s]|] eqn:Ek; [|done]. injection E as <- <-. destruct (Hk _ _ _ Ek) as (_ & _ & Hnames).
  { eapply Forall_impl; [exact Hif|]. by intros y [? _]. }
  assert ((if_name <$> ifaces s) !! i = Some (if_name x)) as Hi by (by rewrite Hnames, list_lookup_fmap, Hx).
  rewrite list_lookup_fmap in Hi. cbn. apply fmap_Some in Hi as (y & Hy & Hxy). exists y. by rewrite <-Hxy.
Qed.

(** A client for the registrar: the interface is one of those named. *)
Lemma client_ready name i g l w : name ∈ names -> named_so name i (wsys w) -> ready l w ->
  exists w', in_sys (upd_iface i (fun x => x <| join_query_client := Some g |>)) w = Ok (tt, w') /\ ready l w'.
Proof.
  intros Hname (x & Hx & Hmatch) ([Hok (Hl & (Ht & Hif & Hsp & Hr) & Hd)] & Hp & Hrest).
  eexists. split; [done|]. split; [|by split]. split.
  - destruct Hok as (t & Hq & He & Hdok & Ha). exists t. split; [done|]. split; [|by split].
    by destruct (upd_iface_safe n t i (fun x => x <| join_query_client := Some g |>) _ He) as (? & ? & [= <- <-] & ?).
  - split; [done|]. split; [|done]. split; [done|]. split; [|split; [|done]].
    + apply Forall_alter; [done|]. by intros y _ Hy.
    + destruct Hsp as (j & y & Hj & Hy & Hc & Hn). exists j, y. split; [done|]. split; [|done]. cbn.
      rewrite list_lookup_alter_ne; [done|]. intros <-. cbn in Hx, Hy. rewrite Hx in Hy. injection Hy as <-.
      rewrite list.Forall_forall in Hn. rewrite Hn in Hmatch; done.
Qed.

Lemma option_interface_ready name l w : name ∈ names -> ready l w ->
  exists l' w', option_interface l name w = Ok (On l', w') /\ ready l' w' /\ l_dag l' = l_dag l /\
    grounded l' = grounded l /\ justkidding l' = justkidding l.
Proof.
  intros Hname Hw. unfold option_interface. destruct (find_by_name_ready name l w Hw) as (r & E & Hr).
  rewrite (bind_ok _ _ w r w E). cbv zeta. set (l' := l <| l_iface := r |>).
  assert (ready l' w) as Hw' by (destruct Hw as (? & ? & _ & ?); split_and!; try done; intros i Hi; by apply Hr).
  destruct r as [i|]; [|by exists l', w]. destruct (Hr i eq_refl) as [Hi Hso].
  destruct (in_sys_ready (get_if_index i) l' w) as (x & w1 & E1 & Hw1); [intros; by apply stays_index|done|].
  rewrite (bind_ok _ _ w x w1 E1). apply (named_so_kept _ name i l' w x w1 (list_index i) Hw' E1) in Hso.
  destruct (in_sys_ready (setup i) l' w1) as (y & w2 & E2 & Hw2);
    [intros; apply stays_of; [by apply setup_safe|apply fine_setup]|done|].
  rewrite (bind_ok _ _ w1 y w2 E2). apply (named_so_kept _ name i l' w1 y w2 (list_setup i) Hw1 E2) in Hso.
  assert (exists w3, (match grasp_registrar l' with
      | Some r => in_sys (upd_iface i (fun n => n <| join_query_client := Some (mk_grasp 0 client_writes) |>)) ;;
                  mret (open_connection r)
      | None => mret true end) w2 = Ok (true, w3) /\ ready l' w3) as (w3 & E3 & Hw3).
  { destruct (grasp_registrar l') as [r|] eqn:Er; [|by exists w2].
    destruct (client_ready name i (mk_grasp 0 client_writes) l' w2 Hname Hso Hw2) as (w3 & E3 & Hw3).
    rewrite (bind_ok _ _ w2 tt w3 E3). exists w3. split; [|done].
    destruct Hw3 as (_ & _ & _ & Hopen). by rewrite (Hopen r Er). }
  rewrite (bind_ok _ _ w2 true w3 E3). cbn [negb].
  assert (exists w4, (match l_dag l' with
      | Some k => when (negb (grounded l')) (in_dag k (send_dis i)) | None => mret tt end) w3 = Ok (tt, w4) /\
    ready l' w4) as (w4 & E4 & Hw4).
  { destruct (l_dag l') as [k|] eqn:El; [|by exists w3]. destruct (negb (grounded l')); [|by exists w3].
    destruct (in_dag_ready (send_dis i) l' w3) as (k' & [] & w4 & Hk & E4 & Hw4);
      [by apply send_dis_total|unfold send_dis; keep|done|unfold has_dag; by rewrite El|].
    rewrite El in Hk. injection Hk as <-. by exists w4. }
  rewrite (bind_ok _ _ w3 tt w4 E4). by exists l', w4.
Qed.

Lemma option_instance_ready arg l w : l_dag l = None -> ready l w -> stepped (OptInstance arg) l w.
Proof.
  intros El (Hw & Hp & Hi & Hr). rewrite El in Hp. destruct Hp as (Hds & Hall & (Hl & Hb & Hlt & Hpre & Hiid)).
  set (d := set_interval 5000 (set_active (fresh_dag (junk_dag w) 0 (u16 (atoi arg)) None))).
  set (w' := w <| dags := [d] |> <| all_dag := [0%nat] |>).
  exists (l <| l_dag := Some 0%nat |>), w'. split.
  { cbn [option_step]. unfold new_dag_network. rewrite (bind_ok _ _ w 0%nat
      (w <| dags := [fresh_dag (junk_dag w) 0 (u16 (atoi arg)) None] |> <| all_dag := [0%nat] |>)).
    - by destruct w.
    - destruct w. cbn in *. by subst. }
  split; [|split; [unfold has_dag; rewrite El; done|split; [cbn; by rewrite orb_false_r|done]]].
  destruct Hw as [(t & Hq & He & _) (_ & Hs & _)].
  assert (dag_fine 1 false d) as Hfine.
  { assert (dag_sized d) as Hz by (split; [exact Hl|]; split; [exact Hb|]; split; [done|exact Hlt]).
    refine (conj _ (conj _ (conj Hz (conj Hpre (conj _ (conj _ (conj _ (conj Hiid _)))))))); try done; [cbn; lia| |by constructor].
    by intros []; constructor. }
  split; [|split; [|by split]].
  - split; [exists t; split; [done|]; split; [done|]; split|].
    + intros k x Hk. apply list_lookup_singleton_Some in Hk as [-> <-]. by split_and!.
    + by repeat constructor.
    + split; [done|]. split; [eapply sys_fine_more; [|exact Hs]; rewrite Hds; cbn; lia|]. intros k x Hk. by apply list_lookup_singleton_Some in Hk as [-> <-].
  - split; [done|]. by exists d.
Qed.

(** A method of the DAG that ends an option. *)
Lemma on_dag_stepped {A} (p : M ctx A) l l' w : total n 1 false p -> keeps (same dag_prefixes) p ->
  l_dag l' = l_dag l -> l_iface l' = l_iface l -> grasp_registrar l' = grasp_registrar l ->
  ready l w -> has_dag l = true ->
  exists k w', l_dag l = Some k /\ (in_dag k p ;; mret (On l')) w = Ok (On l', w') /\ ready l' w' /\ has_dag l' = true.
Proof.
  intros Hp Hk Hd Hi Hr Hw Hdag. destruct (in_dag_ready p l w Hp Hk Hw Hdag) as (k & a & w' & El & E & Hw').
  exists k, w'. split; [done|]. rewrite (bind_ok _ _ w a w' E). split; [done|].
  split; [by apply (ready_locals l)|]. unfold has_dag in *. by rewrite Hd.
Qed.

Lemma with_address_ready arg l w body : address_text arg ->
  (forall k sn, subnet_fine sn -> total n 1 false (body k sn) /\ keeps (same dag_prefixes) (body k sn)) ->
  ready l w -> has_dag l = true ->
  exists l' w', with_address l arg body w = Ok (On l', w') /\ ready l' w' /\ has_dag l' = true /\
    grounded l' = grounded l /\ justkidding l' = justkidding l.
Proof.
  intros (bs & Hbs & Ha) Hbody Hw Hdag. unfold with_address, on_dag. rewrite Ha. cbv zeta.
  set (sn := {| sn_addr := ip6 bs; maskbits := 128 |}). set (l' := l <| di_sn := sn |> <| loaded := 1 |>).
  assert (exists k, l_dag l = Some k) as [k El] by (unfold has_dag in Hdag; destruct (l_dag l); [by eexists|done]).
  destruct (Hbody k sn) as [Ht Hk]; [by exists bs, 128|].
  destruct (on_dag_stepped (body k sn) l l' w Ht Hk) as (k' & w' & El' & E & Hw' & Hd'); [done..|].
  rewrite El in El'. injection El' as <-. rewrite El. by exists l', w'.
Qed.

Lemma set_acp_identity_prefixes sn : keeps (same dag_prefixes) (set_acp_identity sn).
Proof.
  assert (forall v h, keeps (same dag_prefixes) (read_pm v h))
    by (intros v h c x c'; unfold read_pm; case_match; [|done]; by intros [= _ <-]).
  unfold set_acp_identity, add_address, cfg_new_node, upd_pm. keep.
Qed.
Lemma prefix_total p : subnet_fine p ->
  total n 1 false (dag_upd (dag_set_prefix p) ;; set_grounded true ;; dag_upd (set_dagrank 1)).
Proof.
  intros (bs & bits & -> & Hl & Hb). apply total_bind; [apply total_upd; [done..|]|intros _].
  - intros d (Hm & Hi & Hs & _ & Hr). split; [done|]. split; [done|]. split; [done|]. split; [by exists bs, bits|exact Hr].
  - apply total_bind; [apply set_grounded_total|intros _]. by apply total_upd.
Qed.
Lemma nomulticast_fine d : dag_fine 1 false d -> dag_fine 1 false (set_nomulticast d).
Proof.
  unfold set_nomulticast. case_bool; [|done]. intros (Hm & Hi & (Hl & Hb & _ & Hlt) & Hr).
  split; [done|]. split; [done|]. split; [refine (conj Hl (conj Hb (conj _ Hlt))); cbn; unfold RPL_DIO_STORING_NO_MULTICAST; lia|exact Hr].
Qed.

Lemma stepped_by o l l' w w' : option_step o l w = Ok (On l', w') -> ready l' w' -> has_dag l' = has_dag l ->
  grounded l' = grounded l -> justkidding l' = justkidding l -> is_instance o = false -> is_prefix o = false ->
  stepped o l w.
Proof. intros E Hw Hd Hg Hj Hi Hp. exists l', w'. rewrite Hi, Hp, !orb_false_r. split; [done|]. by split; [|split]. Qed.
Lemma stepped_dag {A} (p : M ctx A) o l l' w : total n 1 false p -> keeps (same dag_prefixes) p ->
  l_dag l' = l_dag l -> l_iface l' = l_iface l -> grasp_registrar l' = grasp_registrar l ->
  justkidding l' = justkidding l -> grounded l' = grounded l || is_prefix o -> is_instance o = false ->
  (forall k, l_dag l = Some k -> option_step o l w = (in_dag k p ;; mret (On l')) w) ->
  ready l w -> has_dag l = true -> stepped o l w.
Proof.
  intros Hp Hk Hd Hi Hr Hj Hg Ho E Hw Hdag.
  destruct (on_dag_stepped p l l' w) as (k & w' & El & E' & Hw' & Hd'); try done.
  exists l', w'. rewrite (E k El), Hd', Hdag, Ho, orb_false_r. split; [done|]. by split; [|split].
Qed.
Lemma stepped_set f o l w : (forall t d, dag_ok n t d -> dag_ok n t (f d)) -> (forall d, dag_self (f d) = dag_self d) ->
  (forall d, dag_fine 1 false d -> dag_fine 1 false (f d)) -> (forall d, dag_prefixes (f d) = dag_prefixes d) ->
  is_instance o = false -> is_prefix o = false -> option_step o l = set_on_dag l f ->
  ready l w -> has_dag l = true -> stepped o l w.
Proof.
  intros H1' H2' H3' H4' Hi Hp Eo Hw Hd. apply (stepped_dag (dag_upd f) o l l w); try done;
    [by apply total_upd|by apply same_dag_upd|by rewrite Hp, orb_false_r|].
  intros k El. rewrite Eo. unfold set_on_dag, on_dag. by rewrite El.
Qed.

Lemma option_step_ready o l w : (forall name, o = OptInterface name -> name ∈ names) -> ready l w ->
  sound_option (has_dag l) o -> stepped o l w.
Proof.
  intros Hname Hw Ho. destruct o as [| | | | | |arg|arg|arg|arg|arg| |arg|arg|arg|arg|arg|arg|name|];
    cbn [sound_option] in Ho; try done.
  - by apply (stepped_by _ l (l <| bedaemon := true |>) w w).
  - destruct (in_sys_ready (modify (fun s => s <| verbose := true |>)) l w) as ([] & w' & E & Hw'); [|done|].
    { intros t m s Hs. eexists tt, _. split; [done|]. by split. }
    apply (stepped_by _ l l w w'); try done. cbn [option_step]. by rewrite (bind_ok _ _ w tt w' E).
  - by apply (stepped_by _ l l w w).
  - destruct Hw as (Hs & Hp & Hi & Hr).
    set (l' := match rcut arg with
      | Some (host, port) => l <| grasp_portnum := u32 (atoi port) |> <| grasp_registrar := Some host |>
      | None => l <| grasp_registrar := Some arg |> end).
    apply (stepped_by _ l l' w w); subst l'; cbn [option_step]; destruct (rcut arg) as [[host port]|]; try done;
      (split; [done|]); (split; [done|]); (split; [done|]); by intros r [= <-].
  - destruct Ho as [Hd (sn & Eload & Hsn)].
    apply (stepped_dag (set_acp_identity sn) _ l (l <| di_sn := sn |> <| loaded := 0 |>) w); try done;
      [by apply set_acp_identity_total|apply set_acp_identity_prefixes|by rewrite orb_false_r|].
    intros k El. cbn [option_step]. unfold on_dag. rewrite Eload, (bind_ok _ _ w (Some sn) w) by done. by rewrite El.
  - destruct Ho as [Hd Ha].
    destruct (with_address_ready arg l w (fun k sn => dag_upd (set_explicit_iid sn)) Ha) as (l' & w' & E & Hw' & Hd' & Hg & Hj);
      [|done..|by apply (stepped_by _ l l' w w'); rewrite ?Hd].
    intros k sn (bs & bits & -> & Hl & _). split; [|by apply same_dag_upd]. apply total_upd; [done..|].
    intros d (Hm & Hi & Hs & Hp & Hm' & Hc & Hid & _ & Hn). by refine (conj Hm (conj Hi (conj Hs (conj Hp (conj Hm' (conj Hc (conj Hid (conj _ Hn)))))))).
  - destruct Ho as [Hd Ha].
    destruct (with_address_ready arg l w (fun k sn => set_acp_identity sn) Ha) as (l' & w' & E & Hw' & Hd' & Hg & Hj);
      [|done..|by apply (stepped_by _ l l' w w'); rewrite ?Hd].
    intros k sn Hsn. split; [by apply set_acp_identity_total|apply set_acp_identity_prefixes].
  - destruct Ho as [Hd (p & port & Hp & Et)].
    apply (stepped_dag (dag_upd (dag_set_prefix p) ;; set_grounded true ;; dag_upd (set_dagrank 1))
             _ l (l <| grounded := true |>) w); try done; [by apply prefix_total|unfold set_grounded; keep|cbn; by rewrite orb_true_r|].
    intros k El. cbn [option_step]. unfold option_prefix, on_dag.
    rewrite (bind_ok _ _ w (wsys w) w) by by destruct w. by rewrite Et, El.
  - by apply (stepped_set (set_ignore_pio true) _ l w).
  - destruct Ho as [Hd Hl]. apply (stepped_dag (dag_try (set_interface_wildcard arg)) _ l l w); try done.
    + apply dag_try_total. intros d. destruct (set_interface_wildcard_runs arg d Hl) as [rows E]. by eexists.
    + intros c [] c' E. apply bind_inv in E as (d & c1 & [= <- <-] & E). apply bind_inv in E as (d' & c2 & E & [= <-]).
      destruct (set_interface_wildcard_runs arg (this c) Hl) as [rows Er]. unfold lift in E. cbn in E. rewrite Er in E.
      by injection E as <- <-.
    + by rewrite orb_false_r.
    + intros k El. cbn [option_step]. unfold on_dag. by rewrite El.
  - apply option_instance_ready; [|done]. unfold has_dag in Ho. by destruct (l_dag l).
  - destruct Ho as [Hd Hms]. apply (stepped_set (set_interval (atoi arg)) _ l w); try done.
    intros d (Hm & _ & Hr). by split.
  - by apply (stepped_set (fun d => set_sequence 1 (set_dagrank (u32 (atoi arg)) d)) _ l w).
  - destruct Ho as [Hd Hid]. pose proof Hw as [[(t & _ & He & _) (_ & (_ & _ & _ & _ & Hjl & Hjb & _) & _)] _].
    apply (stepped_dag (dag_upd (set_dagid_text (default 0 (junk_bytes (wsys w) !! 0%nat)) (take 16 (junk_bytes (wsys w))) arg))
             _ l l w); try done.
    + apply total_upd.
      * intros t' d Hok. by destruct (set_dagid_text_cases (default 0 (junk_bytes (wsys w) !! 0%nat)) (take 16 (junk_bytes (wsys w))) arg d) as [(? & _ & ->)| ->].
      * intros d. by destruct (set_dagid_text_cases (default 0 (junk_bytes (wsys w) !! 0%nat)) (take 16 (junk_bytes (wsys w))) arg d) as [(? & _ & ->)| ->].
      * intros d. apply set_dagid_text_fine; [rewrite length_take; lia|by apply Forall_take|done].
    + apply same_dag_upd. intros d. by destruct (set_dagid_text_cases (default 0 (junk_bytes (wsys w) !! 0%nat)) (take 16 (junk_bytes (wsys w))) arg d) as [(? & _ & ->)| ->].
    + by rewrite orb_false_r.
    + intros k El. cbn [option_step]. unfold on_dag. rewrite El. by rewrite (bind_ok _ _ w (wsys w) w) by by destruct w.
  - destruct (option_interface_ready name l w (Hname name eq_refl) Hw) as (l' & w' & E & Hw' & Hd & Hg & Hj).
    apply (stepped_by _ l l' w w'); try done. unfold has_dag. by rewrite Hd.
  - apply (stepped_set set_nomulticast _ l w); try done; [..|apply nomulticast_fine|];
      by (intros; unfold set_nomulticast; case_bool).
Qed.
End options.

(** * From the options to the main loop *)
Section start.
Context `{EventHeapLaws, PrefixMapLaws, Fnmatch, InetPton, Startup, Mbedtls} (names : list string) (n : nat).
#[local] Instance known_start : Reserved := known names.
#[local] Abbreviation ready := (ready names n).
#[local] Abbreviation single w := (length (dags w) = 1%nat).

Lemma option_loop_ready os : forall l w, interface_names os ⊆ names -> ready l w -> sound_line (has_dag l) os ->
  exists l' w', option_loop os l w = Ok (On l', w') /\ ready l' w' /\ has_dag l' = true /\
    grounded l' = grounded l || existsb is_prefix os /\ justkidding l' = justkidding l.
Proof.
  induction os as [|o os IH]; intros l w Hn Hw Ho; cbn [option_loop existsb].
  - exists l, w. rewrite orb_false_r. split; [done|]. by split; [|split].
  - destruct Ho as [Ho Hos]. destruct (option_step_ready names n o l w) as (l1 & w1 & E & Hw1 & Hd & Hg & Hj); [|done..|].
    { intros name ->. apply Hn. apply list_elem_of_here. }
    destruct (IH l1 w1) as (l' & w' & E' & Hw' & Hd' & Hg' & Hj'); [|done|by rewrite Hd|].
    { intros name Hin. apply Hn. unfold interface_names in *. cbn. destruct o; try done. by apply list_elem_of_further. }
    exists l', w'. rewrite (bind_ok _ _ w (On l1) w1 E). split; [done|]. split; [done|]. split; [done|].
    rewrite Hg', Hg, orb_assoc. split; [done|congruence].
Qed.

Lemma serving_weaken b w : serving n true w -> serving n b w.
Proof.
  destruct b; [done|]. intros [Hok (Hl & Hs & Hd)]. split; [done|]. split; [done|]. split; [done|].
  intros k d Hk. destruct (Hd k d Hk) as (Hm & Hi & Hz & Hp & Hw & Hc & Hid & Hiid & _).
  exact (conj Hm (conj Hi (conj Hz (conj Hp (conj Hw (conj Hc (conj Hid (conj Hiid (fun E => False_ind _ (diff_false_true E)))))))))).
Qed.

Lemma sound_listed c m b : sound_ctx n m b c -> all_if (shared c) <> [].
Proof. intros (_ & (_ & _ & Hsp & _) & _). exact (spare_nonempty names _ Hsp). Qed.

(** The DAG gets its address. *)
Lemma in_dag_names (p : M ctx unit) w : (forall c, sound_ctx n 1 false c -> dag_prefixes (this c) = [] ->
    exists c', p c = Ok (tt, c') /\ sound_ctx n 1 true c') -> keeps live_mono_ctx p ->
  serving n false w -> lone w -> exists w', in_dag 0 p w = Ok (tt, w') /\ serving n true w' /\ single w'.
Proof.
  intros Hp Hk [Hok (Hl & Hs & Hds)] (d & Hd & Hnil). assert (dags w !! 0%nat = Some d) as Hd0 by by rewrite Hd.
  rewrite Hd in Hl, Hs, Hds. cbn [length] in Hl, Hs, Hds. pose proof (Hds 0%nat d eq_refl) as Hfine.
  destruct (in_dag_from n (fun _ => True) (fun c => ctx_fine 1 false c /\ dag_prefixes (this c) = [])
    (fun _ => True) 0 p w d) as ([] & w' & E & Hok' & Hlen); [done| |done..|].
  { intros c [Hc [Hf Hn]]. destruct (Hp c (conj Hc Hf) Hn) as (c' & E & Hc' & _). by exists tt, c'. }
  rewrite Hd in Hlen. exists w'. split; [done|]. split; [|done]. split; [done|].
  assert (sound_ctx n 1 false (mk_ctx d (wsys w))) as Hc.
  { split; [|done]. destruct Hok as (t & Hq & He & Hdok & _). exists t. by destruct (Hdok 0%nat d Hd0) as (_ & ? & _). }
  destruct (Hp _ Hc Hnil) as (c' & E' & [_ [Hs' Hd']]). unfold in_dag in E. rewrite Hd0, E' in E. injection E as <-.
  split; [done|]. split; [by rewrite Hlen|]. rewrite Hlen. intros k x Hk'. cbn in Hk'. rewrite Hd in Hk'.
  by apply list_lookup_singleton_Some in Hk' as [_ <-].
Qed.
Lemma in_dag_single {A} (p : M ctx A) named w : total n 1 named p -> serving n named w -> single w ->
  exists a w', in_dag 0 p w = Ok (a, w') /\ serving n named w' /\ single w'.
Proof.
  intros Hp Hw Hl. destruct (lookup_lt_is_Some_2 (dags w) 0) as [d Hd]; [lia|].
  destruct (in_dag_serving n named 0 p w d) as (a & w' & E & Hw' & Hl' & _); [by rewrite Hl|done..|].
  exists a, w'. by rewrite Hl'.
Qed.

Lemma setup_all_if_serving named w : serving n named w -> single w ->
  exists w', in_sys setup_all_if w = Ok (tt, w') /\ serving n named w' /\ single w'.
Proof.
  intros Hw Hl. destruct (in_sys_serves n named setup_all_if w) as ([] & w' & E & Hw' & Hd & _); [| |done|].
  - intros t. unfold setup_all_if. apply keep_get_bind. intros s (_ & Hall & _). apply safe_for_each. intros i Hi.
    rewrite list.Forall_forall in Hall. pose proof (Hall i Hi). apply keep_bind; [by apply get_iface_safe|intros x].
    apply safe_when, keep_bind; [by apply setup_safe|intros; apply keep_ret].
  - intros m. unfold setup_all_if. pose proof (fine_setup m). holding.
  - exists w'. split; [done|]. split; [done|]. by rewrite Hd.
Qed.

(** The node names itself if it is a root, or runs on every interface; the rest
    of the way changes nothing of that. *)
Lemma identity_serving l w : ready l w -> has_dag l = true ->
  exists w1 w2 w3, l_dag l = Some 0%nat /\
    (match l_iface l with
     | None => match l_dag l with Some k => in_dag k add_all_interfaces | None => fail NullDeref end
     | Some i => when (grounded l && negb (loaded l =? 0))
         (match l_dag l with Some k => in_dag k (addselfprefix i) | None => fail NullDeref end)
     end) w = Ok (tt, w1) /\
    when (match l_iface l with None => true | Some _ => false end) (in_sys setup_all_if) w1 = Ok (tt, w2) /\
    when ((loaded l =? 0) && grounded l) (in_dag 0 add_all_interfaces) w2 = Ok (tt, w3) /\
    serving n (grounded l) w3 /\ single w3.
Proof.
  intros (Hw & Hp & Hi & _) Hd. unfold has_dag in Hd. destruct (l_dag l) as [k|]; [|done]. destruct Hp as [-> Hlone].
  assert (single w) as Hsingle by (destruct Hlone as (d & -> & _); done).
  pose proof (proj2 (add_all_interfaces_total n 1 true)) as Hkeep.
  destruct (l_iface l) as [i|] eqn:Ei.
  - destruct (grounded l) eqn:Eg; cbn [andb when negb].
    + destruct (Z.eqb_spec (loaded l) 0); cbn [andb negb when].
      * destruct (in_dag_names add_all_interfaces w) as (w' & E & Hw' & Hs'); [intros; apply add_all_interfaces_names; [by eapply sound_listed|done..]|done..|].
        by exists w, w, w'.
      * destruct (in_dag_names (addselfprefix i) w) as (w' & E & Hw' & Hs');
          [intros; apply addselfprefix_names; [by apply Hi|done..]|apply addselfprefix_live|done..|].
        by exists w', w', w'.
    + rewrite andb_false_r. by exists w, w, w.
  - destruct (in_dag_names add_all_interfaces w) as (w1 & E1 & Hw1 & Hs1); [intros; apply add_all_interfaces_names; [by eapply sound_listed|done..]|done..|].
    destruct (setup_all_if_serving true w1 Hw1 Hs1) as (w2 & E2 & Hw2 & Hs2). cbn [when].
    destruct ((loaded l =? 0) && grounded l).
    + destruct (in_dag_single add_all_interfaces true w2) as ([] & w3 & E3 & Hw3 & Hs3);
        [apply add_all_interfaces_total|done..|]. exists w1, w2, w3. split_and!; try done. by apply serving_weaken.
    + exists w1, w2, w2. split_and!; try done. by apply serving_weaken.
Qed.

Lemma start_dag_serving l w : ready l w -> has_dag l = true -> justkidding l = false ->
  daemon_ok = true -> pid_dir_ok = true ->
  exists w', start_dag l w = Ok (None, w') /\ serving n (grounded l) w'.
Proof.
  intros Hw Hd Hj Hdm Hpid. destruct (identity_serving l w Hw Hd) as (w1 & w2 & w3 & El & E1 & E2 & E3 & Hw3 & Hs3).
  unfold start_dag. rewrite (bind_ok _ _ w tt w1 E1), (bind_ok _ _ w1 tt w2 E2), El, (bind_ok _ _ w2 tt w3 E3).
  rewrite Hdm, Hpid, andb_false_r, Hj. cbn [negb].
  destruct (in_dag_single (schedule_dio 1) (grounded l) w3) as ([] & w4 & E4 & Hw4 & _);
    [by apply schedule_dio_total|done..|].
  rewrite (bind_ok _ _ w3 tt w4 E4). by exists w4.
Qed.
End start.

(** * Theorems *)

(** ** DAG ids in digits *)
(** C37: The id of a DAG is what its hexadecimal text says: [0x] and two digits for
    each of at most 16 bytes set exactly those bytes, from the first, whatever the
    stack held; the bytes after them stay as they were. *)
Theorem hex_text_sets_dagid `{InetPton} junk_value junk_id id d : bytes_ok id -> (length id <= 16)%nat ->
  length (mDagid d) = 16%nat ->
  set_dagid_text junk_value junk_id (hex_text id) d = set_dagid (id ++ drop (length id) (mDagid d)) d.
Proof.
  intros Hid Hl Hd. unfold hex_text. change (codes "0x") with [48; 120]. cbn [app set_dagid_text].
  pose proof (hex_dagid_run junk_value id 16 [] (mDagid d) Hid Hl) as Hrun. cbn [length app] in Hrun.
  unfold set_dagid, upd. rewrite Hrun by lia. done.
Qed.

(** ** The daemon *)

(** The options that are for a DAG, and those that are for none. *)
Definition needs_dag (o : cmd_option) : bool :=
  match o with
  | OptLdevid _ | OptIid _ | OptIpv6 _ | OptPrefix _ | OptIgnorePio | OptIfFilter _ | OptAddrFilter _ | OptInterval _
  | OptRank _ | OptDagid _ | OptNomulticast => true
  | _ => false
  end.
Definition plain (o : cmd_option) : bool :=
  match o with OptDaemon | OptDieAfterInit | OptLog | OptRegistrar _ => true | _ => false end.

(** Before the options are read, no name is known. *)
Definition unknown : Reserved := None.
Definition booted `{EventHeap, PrefixMapSem} (n : nat) (w : world) : Prop :=
  serving (R := unknown) n false w /\ place None w.
Lemma serving_known `{EventHeap, PrefixMapSem} n named names w : serving (R := unknown) n named w ->
  spare_of names (wsys w) -> serving (R := known names) n named w.
Proof. intros [Hok (Hl & (Ht & Hi & _ & Hr) & Hd)] Hsp. by split_and!. Qed.

Section theorems.
Context `{EventHeapLaws, PrefixMapLaws, Fnmatch, InetPton, Startup, Mbedtls}.


Lemma plain_loop os rest : forall l w, forallb plain os = true -> l_dag l = None -> l_iface l = None ->
  exists l', option_loop (os ++ rest) l w = option_loop rest l' w /\ l_dag l' = None /\ l_iface l' = None.
Proof.
  induction os as [|o os IH]; intros l w Hos Hd Hi; [by exists l|]. cbn [forallb] in Hos.
  apply andb_prop in Hos as [Ho Hos]. cbn [app option_loop].
  assert (exists l1, option_step o l w = Ok (On l1, w) /\ l_dag l1 = None /\ l_iface l1 = None) as (l1 & E & Hd1 & Hi1).
  { destruct o as [| | | | | |arg|arg|arg|arg|arg| |arg|arg|arg|arg|arg|arg|name|]; try done; cbn [option_step];
      try (by eexists). destruct (rcut arg) as [[host port]|]; by eexists. }
  rewrite (bind_ok _ _ w (On l1) w E). by apply IH.
Qed.
(** The certificate of the option is read without a fault. *)
Definition ldevid_reads (o : cmd_option) : bool := match o with OptLdevid arg => is_ok (load_ldevid arg) | _ => true end.
Lemma needs_dag_usage o l w : needs_dag o = true -> ldevid_reads o = true -> l_dag l = None -> option_step o l w = Ok (Exit EX_USAGE, w).
Proof.
  intros Ho Hr Hd. assert (forall body, on_dag l body w = Ok (Exit EX_USAGE, w)) as Hon by (intros; unfold on_dag; by rewrite Hd).
  destruct o as [| | | | | |arg|arg|arg|arg|arg| |arg|arg|arg|arg|arg|arg|name|]; try done; cbn [option_step];
    unfold with_address, set_on_dag; try apply Hon.
  - cbn [ldevid_reads] in Hr. destruct (load_ldevid arg) as [r|f]; [|done].
    rewrite (bind_ok _ _ w r w) by done. destruct r; [apply Hon|done].
  - unfold option_prefix. rewrite (bind_ok _ _ w (wsys w) w) by by destruct w.
    destruct (ttosubnet _ _ _ _ _ _) as [[]|]; [apply Hon|done].
Qed.

(** Without [-I] the program does not start: an option for a DAG before it
    ends in the usage message, as [check_dag] means (so does one for a certificate
    that is read); but a command line with
    neither [-I] nor [-i] (none at all, for one) goes through the null pointer
    before the test that there is a DAG is reached. *)
Lemma no_instance_never_starts open_netlink links addrs os w w1 :
  scan_devices open_netlink links addrs w = Ok (true, w1) -> forallb plain os = true ->
  (forall o os', needs_dag o = true -> ldevid_reads o = true -> start open_netlink links addrs (os ++ o :: os') w = Ok (Some EX_USAGE, w1)) /\
  start open_netlink links addrs os w = Fault NullDeref.
Proof.
  intros Hscan Hos.
  assert (forall os', start open_netlink links addrs os' w =
    (r ← option_loop os' (first_locals (mPrefix_ (junk_prefix (wsys w1))));
     match r with On l => start_dag l | Exit status => mret (Some status) end) w1) as Hstart.
  { intros os'. unfold start. rewrite (bind_ok _ _ w true w1 Hscan). cbn [negb].
    by rewrite (bind_ok _ _ w1 (wsys w1) w1) by by destruct w1. }
  split.
  - intros o os' Ho Hr. rewrite Hstart.
    destruct (plain_loop os (o :: os') (first_locals (mPrefix_ (junk_prefix (wsys w1)))) w1 Hos) as (l & E & Hd & _); [done..|].
    rewrite (bind_ok _ _ w1 (Exit EX_USAGE) w1); [done|]. rewrite E. cbn [option_loop].
    by rewrite (bind_ok _ _ w1 (Exit EX_USAGE) w1 (needs_dag_usage o l w1 Ho Hr Hd)).
  - rewrite Hstart.
    destruct (plain_loop os [] (first_locals (mPrefix_ (junk_prefix (wsys w1)))) w1 Hos) as (l & E & Hd & Hi); [done..|].
    rewrite app_nil_r in E. rewrite (bind_ok _ _ w1 (On l) w1) by by rewrite E.
    unfold start_dag. by rewrite Hi, Hd.
Qed.
End theorems.

(** A root on an Ethernet interface that the scan finds beside the loopback, with
    its link-local address; the certificate, the registrar and the PID directory
    are there. *)
Definition example_startup : Startup :=
  {| host_lookup := fun _ _ => None; net_lookup := fun _ => None; 
     addrinfo := fun _ => Some [(true, true)]; client_writes := true; kill_status := 1;
     daemon_ok := true; pid_dir_ok := true |}.
Definition example_boot : world :=
  mk_world [] [] (Example.sys <| ifaces := [] |> <| all_if := [] |> <| nd_socket_open := false |>
    <| junk_iface := Example.iface <| alive := false |> <| on_list := false |> |>) Example.dag.
Definition example_found : list nlmsg :=
  [NewLink (mk_link 1 Netlink.ARPHRD_LOOPBACK true true (Some "lo"%string) None);
   NewLink (mk_link 2 Netlink.ARPHRD_ETHER true true (Some "eth0"%string) (Some Example.eui))].
Definition example_addressed : list nlmsg :=
  [NewAddr (mk_addr 2 AF_INET6 253 None (Some Example.link_addr))].
Definition example_line : list cmd_option :=
  [OptDaemon; OptInstance (codes "42"); OptDagid (hex_text [116; 104; 101]); OptInterval (codes "2500");
   OptRegistrar (codes "registrar.example:8080"); OptPrefix (codes "2001:db8:0:1::/64"); OptLdevid (codes "ldevid.pem");
   OptInterface "ETH0"].

Section witnesses.
#[local] Existing Instance libstdcxx_map.
#[local] Existing Instance example_startup.
#[local] Existing Instance example_mbedtls.
#[local] Instance any_pattern' : Fnmatch := fun row name => true.
#[local] Instance no_pton : InetPton := fun s => None.

Definition example_scanned : world :=
  match scan_devices true (Some example_found) (Some example_addressed) example_boot with
  | Ok (_, w) => w | Fault _ => example_boot end.

Lemma example_booted : booted 0 example_boot.
Proof.
  split; [split; [|split; [done|split]]|split; [done|]; split; [done|]; split; [done|]; split; [by repeat constructor|];
    split; [done|]; split; [by exists Example.prefix64, 64|done]].
  - exists Example.timers. split; [apply (example_timers 1)|]. split; [by split_and!|]. split; [by intros k d Hk|done].
  - split; [apply example_timers|]. split; [constructor|]. split; [done|]. split; [done|]. split; [done|].
    split; [exact (bytes_ok_zeros 2048)|]. split; [by split_and!|]. by split.
  - by intros k d Hk.
Qed.
Lemma example_found_ok : dump_ok (Some example_found) /\ dump_ok (Some example_addressed).
Proof.
  split; intros l [= <-]; [|by repeat constructor]. apply Forall_cons. split; [done|]. apply Forall_cons.
  split; [|by constructor]. split; [done|]. by intros [|].
Qed.
Lemma example_spare : spare_of (interface_names example_line) (wsys example_scanned).
Proof. vm_compute. eexists 0%nat, _. split; [by right; left|]. split; [done|]. split; [done|]. by repeat constructor. Qed.
Lemma example_line_sound : sound_line false example_line.
Proof.
  split; [done|]. split; [done|]. split; [by split|]. split; [by split|]. split; [done|].
  split; [|split; [|by split]]; cycle 1.
  { split; [done|]. exists (subnet6 ([253; 0] ++ zeros 13 ++ [1]) 128). split; [by vm_compute|]. exists ([253; 0] ++ zeros 13 ++ [1]), 128. done. }
  split; [done|].
  exists (subnet6 ([32; 1; 13; 184; 0; 0; 0; 1] ++ zeros 8) 64), 0. split; [by eexists _, 64|].
  intros junk. by vm_compute.
Qed.

Lemma hex_text_sets_dagid_witness :
  set_dagid_text 7 (zeros 16) (hex_text [116; 171; 0]) Example.dag = set_dagid ([116; 171; 0] ++ zeros 13) Example.dag.
Proof. apply (hex_text_sets_dagid 7 (zeros 16) [116; 171; 0] Example.dag); [by repeat constructor|cbn; lia|done]. Defined.


Lemma no_instance_never_starts_witness :
  start true (Some example_found) (Some example_addressed) [OptDaemon; OptPrefix (codes "2001:db8::/32")] example_boot =
    Ok (Some EX_USAGE, example_scanned) /\
  start true (Some example_found) (Some example_addressed) [] example_boot = Fault NullDeref.
Proof.
  assert (scan_devices true (Some example_found) (Some example_addressed) example_boot = Ok (true, example_scanned)) as Hscan by by vm_compute.
  pose proof (no_instance_never_starts true (Some example_found) (Some example_addressed) [OptDaemon] example_boot _ Hscan eq_refl) as [H1 _].
  pose proof (no_instance_never_starts true (Some example_found) (Some example_addressed) [] example_boot _ Hscan eq_refl) as [_ H2].
  split; [exact (H1 (OptPrefix (codes "2001:db8::/32")) [] eq_refl eq_refl)|exact H2].
Defined.
End witnesses.
