(* ===== verification/Devices.v ===== *)
(** The kernel's announcements as bytes: how [lib/libndmgmt/netlink.cpp] takes the
    messages of links and addresses apart, asks for them, and asks for a new link;
    with theorems that tie the bytes of [Rtnl] to the messages of [Netlink]. *)

From Stdlib Require Import ZArith Lia String Ascii.
From stdpp Require Import base list gmap numbers strings.
From S2P Require Import Prelude Wire Event Prefix Text State Iface Build Dag Neighbour World Netlink Rtnl Worlds.
#[local] Open Scope Z_scope.

(** How many types of attributes the kernel's headers name. *)
Class KernelHeaders := {
  IFLA_MAX : Z; IFA_MAX : Z;
  IFLA_MAX_enough : 18 <= IFLA_MAX;
  IFA_MAX_enough : 2 <= IFA_MAX
}.
Definition RTM_NEWLINK : Z := 16.
Definition RTM_DELLINK : Z := 17.
Definition RTM_GETLINK : Z := 18.
Definition RTM_NEWADDR : Z := 20.
Definition RTM_DELADDR : Z := 21.
Definition RTM_GETADDR : Z := 22.
Definition IFLA_ADDRESS : Z := 1.
Definition IFLA_IFNAME : Z := 3.
Definition IFLA_LINK : Z := 5.
Definition IFLA_LINKINFO : Z := 18.
Definition IFLA_GROUP : Z := 27.
Definition IFLA_INFO_KIND : Z := 1.
Definition IFA_ADDRESS : Z := 1.
Definition IFA_LOCAL : Z := 2.
Definition IFF_UP : Z := 1.
Definition IFF_RUNNING : Z := 64.
Definition AF_PACKET : Z := 17.
Definition ifinfomsg_size : Z := 16.
Definition ifaddrmsg_size : Z := 8.
Definition ARPHRD_6LOWPAN : Z := 825.

(** A C string, as the model's strings. *)
Fixpoint until_nul (bs : list Z) : option (list Z) :=
  match bs with [] => None | b :: bs' => if b =? 0 then Some [] else cons b <$> until_nul bs' end.
Definition text (bs : list Z) : string := string_of_list_ascii ((fun b => ascii_of_nat (Z.to_nat b)) <$> bs).
Definition read_name (m : list Z) (off : Z) : outcome string :=
  match until_nul (drop (Z.to_nat off) m) with Some bs => Ok (text bs) | None => Fault OutOfBounds end.

Section decoding.
Context `{KernelHeaders}.

(** The head of [add_linkinfo] and of [del_linkinfo]; the name is read as a string
    when there is one, as the messages to the log do. *)
Definition decode_link (m : list Z) (h : Z) : outcome (option link_msg) :=
  raw ← nlmsg_len m h;
  let len := s32 (u32 (s32 raw - NLMSG_LENGTH ifinfomsg_size)) in
  if len <? 0 then Ok None
  else
    tb ← parse_rtattr m IFLA_MAX (h + NLMSG_LENGTH ifinfomsg_size) len;
    ty ← rd_le 2 m (h + 18);
    index ← rd_le 4 m (h + 20);
    flags ← rd_le 4 m (h + 24);
    name ← (match tb !! Z.to_nat IFLA_IFNAME with
            | Some (Some r) => s ← read_name m (r + 4); Ok (Some s)
            | _ => Ok None
            end);
    address ← rta_data m tb IFLA_ADDRESS;
    Ok (Some (mk_link (s32 index) ty (negb (Z.land flags IFF_UP =? 0)) (negb (Z.land flags IFF_RUNNING =? 0)) name address)).
(** The head of [adddel_ipinfo]. *)
Definition decode_addr (m : list Z) (h : Z) : outcome (option addr_msg) :=
  raw ← nlmsg_len m h;
  let len := s32 (u32 (s32 raw - NLMSG_LENGTH ifaddrmsg_size)) in
  if len <? 0 then Ok None
  else
    tb ← parse_rtattr m IFA_MAX (h + NLMSG_LENGTH ifaddrmsg_size) len;
    family ← rd m (h + 16);
    scope ← rd m (h + 19);
    index ← rd_le 4 m (h + 20);
    loc ← rta_data m tb IFA_LOCAL;
    address ← rta_data m tb IFA_ADDRESS;
    Ok (Some (mk_addr (s32 index) family scope loc address)).
Definition decode (m : list Z) (h : Z) : outcome nlmsg :=
  ty ← nlmsg_type m h;
  if ty =? RTM_NEWLINK then l ← decode_link m h; Ok (match l with Some l => NewLink l | None => TooShort end)
  else if ty =? RTM_DELLINK then l ← decode_link m h; Ok (match l with Some l => DelLink l | None => TooShort end)
  else if ty =? RTM_NEWADDR then a ← decode_addr m h; Ok (match a with Some a => NewAddr a | None => TooShort end)
  else if ty =? RTM_DELADDR then Ok DelAddr
  else Ok OtherMsg.

Context `{EventHeap, PrefixMapSem, Fnmatch}.

(** The callback of the netlink library; it answers 0. *)
Definition gather_message (m : list Z) (h : Z) : M world Z :=
  a ← lift (decode m h); gather_linkinfo a ;; mret 0.
(** [empty_socket] and [scan_devices] over the socket; [None] is a call that waits,
    or that does not come back. *)
Definition empty_rtnl_socket (buf : list Z) (rs : list recv) : M world ended := rtnl_listen gather_message buf rs.

Definition rtnl_dump (rth : rtnl_handle) (buf : list Z) (rs : list recv) : M world ended :=
  rtnl_dump_filter gather_message None rth buf rs.
Definition scan_rtnl (rth : option rtnl_handle) (sent_links : bool) (buf : list Z) (links addrs : list recv)
    : M world (option bool) :=
  match rth with
  | None => mret (Some true)
  | Some rth =>
      in_sys remove_marks ;;
      let rth := (rtnl_wilddump_request rth AF_PACKET RTM_GETLINK).1 in
      if negb sent_links then mret (Some false)
      else
        r ← rtnl_dump rth buf links;
        match r with
        | Returned r =>
            if r <? 0 then mret (Some false)
            else
              let rth := (rtnl_wilddump_request rth AF_INET6 RTM_GETADDR).1 in
              r ← rtnl_dump rth buf addrs;
              match r with Returned r => mret (Some (negb (r <? 0))) | _ => mret None end
        | _ => mret None
        end
  end.
End decoding.

(** * Asking for a link *)

(** [struct iplink_req], cleared, with the head of the request. *)
Definition iplink_req_size : Z := 1056.
Definition wpan_request : list Z :=
  header_bytes (NLMSG_LENGTH ifinfomsg_size) RTM_NEWLINK (Z.lor NLM_F_REQUEST (Z.lor 1024 512)) 0 0 ++
  [AF_PACKET; 0] ++ le 2 0 ++ le 4 0 ++ le 4 IFF_UP ++ le 4 IFF_UP ++ zeros (Z.to_nat 1024).

(** [configure_wpan]: the socket's handle after it, the request that is sent, and
    what the function returns. *)
Definition configure_wpan (fuel : nat) (rth : rtnl_handle) (n : network_interface) (sent : bool) (rs : list recv)
    : outcome (rtnl_handle * option (list Z) * ended) :=
  if negb (ifi_type n =? ARPHRD_6LOWPAN) then Ok (rth, None, Returned 1)
  else
    '(_, m) ← addattr_l wpan_request iplink_req_size IFLA_GROUP (le 4 0);
    '(_, m) ← addattr_l m iplink_req_size IFLA_LINK (le 4 (if_index n));
    '(_, m) ← addattr_l m iplink_req_size IFLA_IFNAME (codes (if_name n));
    '(nest, m) ← addattr_nest m iplink_req_size IFLA_LINKINFO;
    '(_, m) ← addattr_l m iplink_req_size IFLA_INFO_KIND (codes "lowpan");
    '(_, m) ← addattr_nest_end m nest;
    '(rth, request, (r, _)) ← rtnl_talk fuel rth m 0 false sent rs;
    Ok (rth, Some request, match r with Returned r => Returned (if r <? 0 then 0 else 1) | _ => r end).

(** * What the kernel sends *)
Record link_head := mk_link_head { lh_family : Z; lh_type : Z; lh_index : Z; lh_flags : Z; lh_change : Z }.
Record addr_head := mk_addr_head { ah_family : Z; ah_prefixlen : Z; ah_flags : Z; ah_scope : Z; ah_index : Z }.
Definition link_body (l : link_head) (attrs : list attr) : list Z :=
  [lh_family l; 0] ++ le 2 (lh_type l) ++ le 4 (lh_index l) ++ le 4 (lh_flags l) ++ le 4 (lh_change l) ++ attrs_enc attrs.
Definition addr_body (a : addr_head) (attrs : list attr) : list Z :=
  [ah_family a; ah_prefixlen a; ah_flags a; ah_scope a] ++ le 4 (ah_index a) ++ attrs_enc attrs.
(** The name has its end in its attribute. *)
Definition named_in (name : option string) (attrs : list attr) : Prop :=
  match name, find_attr IFLA_IFNAME attrs with
  | Some s, Some d => exists bs pad, d = bs ++ 0 :: pad /\ Forall (fun b => b <> 0) bs /\ s = text bs
  | None, None => True
  | _, _ => False
  end.
Inductive link_says : link_msg -> list Z -> Prop :=
| link_says_link l name attrs : word_ok 2 (lh_type l) -> 0 <= lh_index l < 2147483648 -> word_ok 4 (lh_flags l) ->
    Forall attr_ok attrs -> named_in name attrs ->
    link_says (mk_link (lh_index l) (lh_type l) (negb (Z.land (lh_flags l) IFF_UP =? 0))
                 (negb (Z.land (lh_flags l) IFF_RUNNING =? 0)) name (find_attr IFLA_ADDRESS attrs)) (link_body l attrs).
(** What a message says: the kinds the callback tells apart. *)
Inductive says (g : message) : nlmsg -> Prop :=
| says_new l : msg_type g = RTM_NEWLINK -> link_says l (msg_body g) -> says g (NewLink l)
| says_del l : msg_type g = RTM_DELLINK -> link_says l (msg_body g) -> says g (DelLink l)
| says_short_link : msg_type g = RTM_NEWLINK \/ msg_type g = RTM_DELLINK -> zlen (msg_body g) < ifinfomsg_size -> says g TooShort
| says_addr a attrs : msg_type g = RTM_NEWADDR -> msg_body g = addr_body a attrs -> 0 <= ah_index a < 2147483648 -> Forall attr_ok attrs ->
    says g (NewAddr (mk_addr (ah_index a) (ah_family a) (ah_scope a) (find_attr IFA_LOCAL attrs) (find_attr IFA_ADDRESS attrs)))
| says_short_addr : msg_type g = RTM_NEWADDR -> zlen (msg_body g) < ifaddrmsg_size -> says g TooShort
| says_deladdr : msg_type g = RTM_DELADDR -> says g DelAddr
| says_other : msg_type g <> RTM_NEWLINK -> msg_type g <> RTM_DELLINK -> msg_type g <> RTM_NEWADDR -> msg_type g <> RTM_DELADDR ->
    says g OtherMsg.

(** * From bytes to messages *)
Section decoding_facts.
Context `{KernelHeaders}.
Implicit Types (m : list Z) (g : message).

Lemma until_nul_cut bs pad : Forall (fun b => b <> 0) bs -> until_nul (bs ++ 0 :: pad) = Some bs.
Proof.
  induction 1 as [|b bs Hb _ IH]; [done|]. cbn [app until_nul]. rewrite (proj2 (Z.eqb_neq _ _) Hb). by rewrite IH.
Qed.
Lemma read_name_run m off bs pad : holds_at m off (bs ++ 0 :: pad) -> Forall (fun b => b <> 0) bs -> read_name m off = Ok (text bs).
Proof.
  intros (Ho & Hl & E) Hbs. unfold read_name. rewrite <-(take_drop (length (bs ++ 0 :: pad)) (drop (Z.to_nat off) m)), E.
  by rewrite <-app_assoc, <-app_comm_cons, until_nul_cut.
Qed.
Lemma link_body_at m h l attrs : holds_at m h (link_body l attrs) ->
  word_ok 2 (lh_type l) -> 0 <= lh_index l < 2147483648 -> word_ok 4 (lh_flags l) ->
  rd_le 2 m (h + 2) = Ok (lh_type l) /\ rd_le 4 m (h + 4) = Ok (lh_index l) /\ rd_le 4 m (h + 8) = Ok (lh_flags l) /\
  holds_at m (h + 16) (attrs_enc attrs).
Proof.
  intros Hm Ht Hi Hf. unfold link_body in Hm. apply at_split in Hm as [_ Hm]. apply at_split in Hm as [H2 Hm].
  apply at_split in Hm as [H3 Hm]. apply at_split in Hm as [H4 Hm]. apply at_split in Hm as [_ H5].
  change (zlen [lh_family l; 0]) with 2 in *. rewrite !zlen_le in *. rewrite <-!Z.add_assoc in *.
  split; [by apply at_le|]. split; [apply at_le; [unfold word_ok; cbn; lia|done]|]. split; [by apply at_le|done].
Qed.
Lemma decode_link_run m h g l : message_ok g -> zlen (message_enc g) < 2147483648 -> holds_at m h (message_enc g) ->
  link_says l (msg_body g) -> decode_link m h = Ok (Some l).
Proof.
  intros Hok Hs Hm Hl. destruct (message_at m h g Hok Hs Hm) as (El & _). rewrite message_enc_len in *.
  inversion Hl as [lh name attrs Ht Hi Hf Hattrs Hname El' Eb]. rewrite <-Eb in *. clear El'.
  unfold message_enc in Hm. apply at_split in Hm as [_ Hm]. unfold header_bytes in Hm. rewrite !zlen_app, !zlen_le in Hm.
  change (Z.of_nat 4 + _) with 16 in Hm. rewrite <-Eb in Hm.
  destruct (link_body_at m (h + 16) lh attrs Hm Ht Hi Hf) as (E1 & E2 & E3 & Hat). rewrite <-!Z.add_assoc in E1, E2, E3, Hat.
  assert (zlen (link_body lh attrs) = 16 + zlen (attrs_enc attrs)) as Hlen
    by (unfold link_body; rewrite !zlen_app, !zlen_le; change (zlen [_; _]) with 2; lia).
  pose proof (zlen_nonneg (attrs_enc attrs)). unfold decode_link. rewrite El. cbn [mbind outcome_bind].
  unfold NLMSG_LENGTH, ifinfomsg_size. rewrite (s32_small (16 + _)), s32_u32 by lia. rewrite Hlen in *.
  replace (16 + (16 + _) - _) with (zlen (attrs_enc attrs)) by lia. replace (_ <? 0) with false by lia.
  pose proof IFLA_MAX_enough. destruct (parse_rtattr_points m IFLA_MAX (h + (16 + 16)) attrs) as (tb & -> & Hp); [lia|done|done|lia|].
  cbn [mbind outcome_bind]. change (h + 18) with (h + (16 + 2)). change (h + 20) with (h + (16 + 4)).
  change (h + 24) with (h + (16 + 8)). rewrite E1, E2, E3. cbn [mbind outcome_bind].
  assert ((match tb !! Z.to_nat IFLA_IFNAME with
            | Some (Some r) => s ← read_name m (r + 4); Ok (Some s) | _ => Ok None end) = Ok name) as ->.
  { pose proof (Hp IFLA_IFNAME ltac:(unfold IFLA_IFNAME; lia)) as Hn. cbv beta in Hn. unfold named_in in Hname.
    destruct (tb !! Z.to_nat IFLA_IFNAME) as [[off|]|]; [|by destruct name; [|done]; rewrite Hn in Hname|done].
    destruct Hn as (d & Ed & Hd & Hoff). rewrite Ed in Hname. destruct name as [s|]; [|done].
    destruct Hname as (bs & pad & -> & Hbs & ->). destruct Hd as [Hd1 Hd2]. unfold attr_enc in Hoff. cbn [fst snd] in Hoff.
    apply at_split in Hoff as [_ Hoff]. apply at_split in Hoff as [_ Hoff]. apply at_split in Hoff as [Hoff _].
    rewrite !zlen_le, <-Z.add_assoc in Hoff. change (Z.of_nat 2 + Z.of_nat 2) with 4 in Hoff.
    by rewrite (read_name_run _ _ _ _ Hoff Hbs). }
  cbn [mbind outcome_bind]. rewrite (points_data m IFLA_MAX tb _ IFLA_ADDRESS) by (done || unfold IFLA_ADDRESS; lia).
  cbn [mbind outcome_bind]. by rewrite s32_small by lia.
Qed.

Lemma decode_addr_run m h g a attrs : message_ok g -> zlen (message_enc g) < 2147483648 -> holds_at m h (message_enc g) ->
  msg_body g = addr_body a attrs -> 0 <= ah_index a < 2147483648 -> Forall attr_ok attrs ->
  decode_addr m h = Ok (Some (mk_addr (ah_index a) (ah_family a) (ah_scope a) (find_attr IFA_LOCAL attrs) (find_attr IFA_ADDRESS attrs))).
Proof.
  intros Hok Hs Hm Eb Hi Hattrs. destruct (message_at m h g Hok Hs Hm) as (El & _). rewrite message_enc_len in *.
  unfold message_enc in Hm. apply at_split in Hm as [_ Hm]. unfold header_bytes in Hm. rewrite !zlen_app, !zlen_le in Hm.
  change (Z.of_nat 4 + _) with 16 in Hm. rewrite Eb in *. unfold addr_body in Hm. cbn [app] in Hm.
  apply rd_at in Hm as [Ef Hm]. apply rd_at in Hm as [_ Hm]. apply rd_at in Hm as [_ Hm]. apply rd_at in Hm as [Es Hm].
  apply at_split in Hm as [Hx Hat]. rewrite zlen_le in Hat. rewrite <-!Z.add_assoc in *.
  change (16 + (1 + (1 + 1))) with 19 in Es. change (16 + (1 + (1 + (1 + 1)))) with 20 in Hx.
  change (16 + (1 + (1 + (1 + (1 + Z.of_nat 4))))) with (16 + 8) in Hat.
  assert (zlen (addr_body a attrs) = 8 + zlen (attrs_enc attrs)) as Hlen
    by (unfold addr_body; rewrite !zlen_app, !zlen_le; change (zlen [_; _; _; _]) with 4; lia).
  pose proof (zlen_nonneg (attrs_enc attrs)). unfold decode_addr. rewrite El. cbn [mbind outcome_bind].
  unfold NLMSG_LENGTH, ifaddrmsg_size. rewrite (s32_small (16 + _)), s32_u32 by lia. rewrite Hlen in *.
  replace (16 + (8 + _) - _) with (zlen (attrs_enc attrs)) by lia. replace (_ <? 0) with false by lia.
  pose proof IFA_MAX_enough. change (8 + 16) with (16 + 8).
  destruct (parse_rtattr_points m IFA_MAX (h + (16 + 8)) attrs) as (tb & -> & Hp); [lia|done|done|lia|].
  cbn [mbind outcome_bind]. rewrite Ef, Es, (at_le 4 _ _ (ah_index a)) by (done || lia). cbn [mbind outcome_bind].
  rewrite (points_data m IFA_MAX tb _ IFA_LOCAL) by (done || unfold IFA_LOCAL; lia). cbn [mbind outcome_bind].
  rewrite (points_data m IFA_MAX tb _ IFA_ADDRESS) by (done || unfold IFA_ADDRESS; lia).
  cbn [mbind outcome_bind]. by rewrite s32_small by lia.
Qed.
(** A message without its fixed part. *)
Lemma decode_short m h g size : message_ok g -> zlen (message_enc g) < 2147483648 -> holds_at m h (message_enc g) ->
  zlen (msg_body g) < size <= 16 -> exists raw, nlmsg_len m h = Ok raw /\ (s32 (u32 (s32 raw - NLMSG_LENGTH size)) <? 0) = true.
Proof.
  intros Hok Hs Hm Hsz. destruct (message_at m h g Hok Hs Hm) as (El & _). pose proof (zlen_nonneg (msg_body g)).
  rewrite message_enc_len in *. eexists. split; [exact El|]. unfold NLMSG_LENGTH. rewrite (s32_small (16 + _)), s32_u32 by lia. lia.
Qed.

(** Wherever in a buffer a message lies, it is read for what it says. *)
Lemma decode_says m h g a : message_ok g -> zlen (message_enc g) < 2147483648 -> holds_at m h (message_enc g) ->
  says g a -> decode m h = Ok a.
Proof.
  intros Hok Hs Hm Hg. destruct (message_at m h g Hok Hs Hm) as (_ & Et & _). unfold decode. rewrite Et. cbn [mbind outcome_bind].
  destruct Hg as [l Ht Hl|l Ht Hl|Ht Hshort|a attrs Ht Eb Hi Hattrs|Ht Hshort|Ht|H1 H2 H3 H4].
  - rewrite Ht. cbn. by rewrite (decode_link_run m h g l).
  - rewrite Ht. cbn. by rewrite (decode_link_run m h g l).
  - destruct (decode_short m h g ifinfomsg_size Hok Hs Hm) as (raw & El & Hneg); [by unfold ifinfomsg_size|].
    assert (decode_link m h = Ok None) as E by (unfold decode_link; rewrite El; cbn [mbind outcome_bind]; by rewrite Hneg).
    destruct Ht as [-> | ->]; cbn; by rewrite E.
  - rewrite Ht. cbn. by rewrite (decode_addr_run m h g a attrs).
  - destruct (decode_short m h g ifaddrmsg_size Hok Hs Hm) as (raw & El & Hneg); [by unfold ifaddrmsg_size in *|].
    assert (decode_addr m h = Ok None) as E by (unfold decode_addr; rewrite El; cbn [mbind outcome_bind]; by rewrite Hneg).
    rewrite Ht. cbn. by rewrite E.
  - by rewrite Ht.
  - by rewrite !(proj2 (Z.eqb_neq _ _)) by done.
Qed.
End decoding_facts.

(** * What the daemon does with the bytes *)
Section bytes.
Context `{KernelHeaders, EventHeap, PrefixMapSem, Fnmatch}.

(** What a message of the kernel says, read from its own bytes. *)
Definition saying (g : message) : nlmsg := match decode (message_enc g) 0 with Ok a => a | Fault _ => OtherMsg end.
Definition legible (g : message) : Prop := exists a, says g a /\ zlen (message_enc g) < 2147483648 /\ message_ok g.
Lemma saying_says g a : message_ok g -> zlen (message_enc g) < 2147483648 -> says g a -> saying g = a.
Proof.
  intros Hok Hs Hg. pose proof (at_here [] (message_enc g) []) as Hm. rewrite app_nil_r in Hm. cbn [app] in Hm.
  unfold saying. by rewrite (decode_says _ 0 g a Hok Hs Hm Hg).
Qed.
Lemma gather_handles buf h g s : message_ok g -> legible g -> zlen (message_enc g) < 2147483648 ->
  holds_at buf h (message_enc g) -> gather_message buf h s = (gather_linkinfo (saying g) ;; mret 0) s.
Proof.
  intros Hok (a & Hg & _) Hs Hm. unfold gather_message. rewrite (saying_says g a Hok Hs Hg).
  by rewrite (bind_ok _ _ s a s) by (unfold lift; by rewrite (decode_says buf h g a Hok Hs Hm Hg)).
Qed.
Lemma sayings_run gs msgs : Forall2 says gs msgs -> Forall message_ok gs -> Forall (fun g => zlen (message_enc g) < 2147483648) gs ->
  for_each gs (fun g => gather_linkinfo (saying g)) = for_each msgs gather_linkinfo /\ Forall legible gs.
Proof.
  induction 1 as [|g a gs msgs Hg _ IH]; intros Hok Hs; [by split|]. apply Forall_cons in Hok as [Hok Hoks].
  apply Forall_cons in Hs as [Hs Hss]. destruct (IH Hoks Hss) as [E Hl]. split; [|constructor; [by exists a|done]].
  cbn [for_each]. by rewrite E, (saying_says g a Hok Hs Hg).
Qed.
Lemma arrived_ok size rs ds : arrived size rs ds -> Z.of_nat size < 1073741824 ->
  Forall message_ok (concat ds.*2) /\ Forall (fun g => zlen (message_enc g) < 2147483648) (concat ds.*2).
Proof.
  intros Ha Hsz. induction Ha as [|e rs ds He _ IH|from gs rs ds Hne Hok Hl _ [IH1 IH2]]; [by split|done|].
  cbn. split; (apply Forall_app; split; [|done]); [done|]. by apply messages_small with size.
Qed.
Lemma Forall_kept {A} (P : A -> Prop) (f : A -> bool) l : Forall P l -> Forall P (filter (fun x => f x = true) l).
Proof. induction 1 as [|x l Hx _ IH]; [done|]. rewrite filter_cons. case_decide; [by constructor|done]. Qed.
Lemma dumped_ok size rth rs gs : dumped size rth rs gs -> Z.of_nat size < 1073741824 ->
  Forall message_ok gs /\ Forall (fun g => zlen (message_enc g) < 2147483648) gs.
Proof.
  intros Ha Hsz. induction Ha as [|e rs gs He _ IH|from nok gs rs gs' Hne Hok Hpl Hl _ [IH1 IH2]|from nok trunc gs g after rs Hok Hg Hpl Ho Hd Hl];
    [by split|done|..].
  - pose proof (messages_small size gs Hl Hsz). split; (apply Forall_app; split; [by apply Forall_kept|done]).
  - assert (length (messages_enc gs) <= size)%nat as Hl' by (rewrite length_app in Hl; lia).
    pose proof (messages_small size gs Hl' Hsz). by split; apply Forall_kept.
Qed.

(** C12: The daemon takes in what the kernel sends: when the bytes on the netlink
    socket are messages that say [msgs], in any number of datagrams, with any other
    attributes in any order and errors between them, [empty_socket] over the bytes
    does what it does over [msgs], and returns 0. *)
Theorem empty_socket_bytes rs ds msgs buf w : arrived (Z.to_nat 8192) rs ds -> Forall2 says (concat ds.*2) msgs ->
  length buf = Z.to_nat 8192 -> empty_rtnl_socket buf rs w = (empty_socket msgs ;; mret (Returned 0)) w.
Proof.
  intros Ha Hsays Hb. set (size := Z.to_nat 8192) in *. assert (Z.of_nat size < 1073741824) as Hsz by (subst size; lia).
  destruct (arrived_ok size rs ds Ha Hsz) as [Hok Hs]. destruct (sayings_run _ _ Hsays Hok Hs) as [E Hl].
  unfold empty_rtnl_socket, empty_socket. rewrite <-E.
  apply (listen_run size gather_message legible (fun g => gather_linkinfo (saying g)) Hsz) with (rs := rs);
    [|exact Ha|exact Hl|exact Hb]. intros b h g s _ Hg Hleg Hlen Hm. by apply gather_handles.
Qed.

(** C13: The scan of the devices over the socket: when the two dumps bring messages
    that say [links] and [addrs], between messages of others, the scan does what
    it does over [links] and [addrs], and succeeds. *)
Theorem scan_bytes rth rs1 gs1 links rs2 gs2 addrs buf w :
  let rth1 := rth <| rth_seq := u32 (rth_seq rth + 1) |> <| rth_dump := u32 (rth_seq rth + 1) |> in
  let rth2 := rth1 <| rth_seq := u32 (rth_seq rth1 + 1) |> <| rth_dump := u32 (rth_seq rth1 + 1) |> in
  dumped (Z.to_nat 16384) rth1 rs1 gs1 -> Forall2 says gs1 links ->
  dumped (Z.to_nat 16384) rth2 rs2 gs2 -> Forall2 says gs2 addrs -> length buf = Z.to_nat 16384 ->
  scan_rtnl (Some rth) true buf rs1 rs2 w = (r ← scan_devices true (Some links) (Some addrs); mret (Some r)) w.
Proof.
  intros rth1 rth2 H1' Hs1 H2' Hs2 Hb. set (size := Z.to_nat 16384) in *. assert (Z.of_nat size < 1073741824) as Hsz by (subst size; lia).
  assert (forall rth rs gs msgs s, dumped size rth rs gs -> Forall2 says gs msgs ->
    rtnl_dump rth buf rs s = (for_each msgs gather_linkinfo ;; mret (Returned 0)) s) as Hdump.
  { intros r rs gs msgs s Hd Hsays. destruct (dumped_ok size r rs gs Hd Hsz) as [Hok Hs].
    destruct (sayings_run _ _ Hsays Hok Hs) as [E Hl]. rewrite <-E. unfold rtnl_dump.
    apply (dump_run size gather_message legible (fun g => gather_linkinfo (saying g)) Hsz) with (rth := r);
      [|exact Hd|exact Hl|exact Hb]. intros b h g s0 _ Hg Hleg Hlen Hm. by apply gather_handles. }
  unfold scan_rtnl, scan_devices. change (rtnl_wilddump_request rth AF_PACKET RTM_GETLINK).1 with rth1. cbn [negb].
  change (rtnl_wilddump_request rth1 AF_INET6 RTM_GETADDR).1 with rth2. rewrite chain_assoc. apply bind_cong. intros _ w1 _.
  rewrite (bind_out_cong _ _ _ _ (Hdump rth1 rs1 gs1 links w1 H1' Hs1)), then_assoc. change (0 <? 0) with false. cbv iota.
  rewrite chain_assoc. apply bind_cong. intros _ w2 _.
  rewrite (bind_out_cong _ _ _ _ (Hdump rth2 rs2 gs2 addrs w2 H2' Hs2)), then_assoc. by rewrite chain_assoc.
Qed.
End bytes.

(** * The link that is asked for *)
Section asking.
Implicit Types (n : network_interface).

(** The message the comment of [configure_wpan] spells as a command. *)
Definition wpan_attrs n : list attr :=
  [(IFLA_GROUP, le 4 0); (IFLA_LINK, le 4 (if_index n)); (IFLA_IFNAME, codes (if_name n));
   (IFLA_LINKINFO, attr_enc (IFLA_INFO_KIND, codes "lowpan"))].
Definition wpan_link n : message :=
  mk_message RTM_NEWLINK (Z.lor NLM_F_REQUEST (Z.lor 1024 512)) 0 0
    (link_body (mk_link_head AF_PACKET 0 0 IFF_UP IFF_UP) (wpan_attrs n)).
Definition wpan_head : list Z :=
  le 2 RTM_NEWLINK ++ le 2 (Z.lor NLM_F_REQUEST (Z.lor 1024 512)) ++ le 4 0 ++ le 4 0 ++
  [AF_PACKET; 0] ++ le 2 0 ++ le 4 0 ++ le 4 IFF_UP ++ le 4 IFF_UP.

Lemma wpan_request_built : wpan_request = built wpan_head (Z.to_nat 1024).
Proof. unfold wpan_request, built, header_bytes. change (4 + zlen wpan_head) with (NLMSG_LENGTH ifinfomsg_size). unfold wpan_head. by rewrite <-!app_assoc. Qed.

Lemma zlen_codes s : zlen (codes s) = Z.of_nat (String.length s).
Proof. unfold zlen, codes. rewrite length_fmap. by induction s as [|c s IH]; [|cbn in *; lia]. Qed.
Lemma name_attr n : (String.length (if_name n) <= 15)%nat ->
  attr_ok (IFLA_IFNAME, codes (if_name n)) /\ zlen (attr_enc (IFLA_IFNAME, codes (if_name n))) <= 20 /\
  zlen (attr_enc (IFLA_IFNAME, codes (if_name n))) mod 4 = 0.
Proof.
  intros Hn. assert (attr_ok (IFLA_IFNAME, codes (if_name n))) as Ha by (split; cbn [fst snd]; [done|rewrite zlen_codes; lia]).
  split; [exact Ha|]. destruct (attr_enc_len _ Ha) as (Hl & _ & _ & Hm). split; [|exact Hm]. cbn [snd] in Hl.
  rewrite Hl, zlen_codes. unfold RTA_ALIGN, RTA_LENGTH. rewrite align_spec by lia. Z.to_euclidean_division_equations; lia.
Qed.
(** One more attribute of the request, while there is room. *)
Lemma ask_attr b k type d : attr_ok (type, d) -> (4 + zlen b) mod 4 = 0 ->
  4 + zlen b + zlen (attr_enc (type, d)) <= 200 -> zlen (attr_enc (type, d)) <= Z.of_nat k ->
  addattr_l (built b k) iplink_req_size type d = Ok (0, built (b ++ attr_enc (type, d)) (k - length (attr_enc (type, d)))).
Proof. intros Ha Hm Hl Hk. apply (addattr_l_run b k iplink_req_size (type, d)); unfold iplink_req_size; try done; lia. Qed.
Definition kind_enc : list Z := attr_enc (IFLA_INFO_KIND, codes "lowpan").

Lemma wpan_request_attrs n : (String.length (if_name n) <= 15)%nat ->
  exists k, forall B (F : list Z -> outcome B),
   ('(_, m) ← addattr_l wpan_request iplink_req_size IFLA_GROUP (le 4 0);
    '(_, m) ← addattr_l m iplink_req_size IFLA_LINK (le 4 (if_index n));
    '(_, m) ← addattr_l m iplink_req_size IFLA_IFNAME (codes (if_name n));
    '(nest, m) ← addattr_nest m iplink_req_size IFLA_LINKINFO;
    '(_, m) ← addattr_l m iplink_req_size IFLA_INFO_KIND (codes "lowpan");
    '(_, m) ← addattr_nest_end m nest; F m) = F (built (wpan_head ++ attrs_enc (wpan_attrs n)) k).
Proof.
  intros Hn. destruct (name_attr n Hn) as (Ha & Hlen & Hmod). pose proof (zlen_nonneg (attr_enc (IFLA_IFNAME, codes (if_name n)))).
  set (ifname := attr_enc (IFLA_IFNAME, codes (if_name n))) in *.
  assert (zlen wpan_head = 28) as H28 by done. set (g := attr_enc (IFLA_GROUP, le 4 0)).
  set (lk := attr_enc (IFLA_LINK, le 4 (if_index n))). assert (zlen g = 8) as Hg by done. assert (zlen lk = 8) as Hlk by done.
  assert (zlen kind_enc = 12) as Hkind by done.
  eexists. intros B F. rewrite wpan_request_built. rewrite ask_attr; [|by split|by rewrite H28|fold g; lia|fold g; lia]. cbn [mbind outcome_bind]. fold g.
  rewrite ask_attr; [|by split|rewrite zlen_app, H28, Hg; done|rewrite zlen_app; fold lk; lia|].
  2:{ fold lk. unfold zlen in *. lia. }
  cbn [mbind outcome_bind]. fold lk.
  rewrite ask_attr; [|exact Ha|rewrite !zlen_app, H28, Hg, Hlk; done|rewrite !zlen_app; fold ifname; lia|].
  2:{ fold ifname. unfold zlen in *. lia. }
  cbn [mbind outcome_bind]. fold ifname.
  set (b3 := ((wpan_head ++ g) ++ lk) ++ ifname). set (k3 := (_ - _ - _ - _)%nat).
  assert (4 + zlen b3 = 48 + zlen ifname) as Hb3 by (subst b3; rewrite !zlen_app; lia).
  assert (200 <= k3)%nat as Hk3 by (subst k3; unfold zlen in *; lia).
  rewrite addattr_nest_run; [|done|rewrite Hb3; Z.to_euclidean_division_equations; lia|done|unfold iplink_req_size; lia|lia].
  cbn [mbind outcome_bind].
  rewrite ask_attr; [|by split| | |].
  4:{ fold kind_enc. unfold zlen in *. lia. }
  3:{ fold kind_enc. rewrite zlen_app. change (zlen (attr_enc (IFLA_LINKINFO, []))) with 4. lia. }
  2:{ rewrite zlen_app. change (zlen (attr_enc (IFLA_LINKINFO, []))) with 4. Z.to_euclidean_division_equations; lia. }
  cbn [mbind outcome_bind]. fold kind_enc.
  rewrite addattr_nest_end_run; [|done|rewrite Hb3; Z.to_euclidean_division_equations; lia|by rewrite Hkind|lia|lia].
  cbn [mbind outcome_bind]. subst b3. unfold wpan_attrs, attrs_enc. cbn [fmap list_fmap concat].
  fold g lk ifname kind_enc. rewrite app_nil_r, <-!app_assoc. reflexivity.
Qed.
Lemma wpan_link_size n : (String.length (if_name n) <= 15)%nat ->
  message_ok (wpan_link n) /\ zlen (msg_body (wpan_link n)) = 16 + zlen (attrs_enc (wpan_attrs n)) /\ zlen (msg_body (wpan_link n)) <= 72.
Proof.
  intros Hn. destruct (name_attr n Hn) as (_ & Hlen & Hmod). pose proof (zlen_nonneg (attr_enc (IFLA_IFNAME, codes (if_name n)))).
  assert (zlen (attrs_enc (wpan_attrs n)) = 32 + zlen (attr_enc (IFLA_IFNAME, codes (if_name n)))) as Hl.
  { unfold wpan_attrs. rewrite !attrs_enc_cons, !zlen_app. fold kind_enc. change (zlen (attr_enc (IFLA_GROUP, le 4 0))) with 8.
    change (zlen (attr_enc (IFLA_LINK, le 4 (if_index n)))) with 8. change (zlen (attr_enc (IFLA_LINKINFO, kind_enc))) with 16.
    change (zlen (attrs_enc [])) with 0. lia. }
  assert (zlen (msg_body (wpan_link n)) = 16 + zlen (attrs_enc (wpan_attrs n))) as Hb.
  { unfold wpan_link, link_body. cbn [msg_body]. rewrite !zlen_app, !zlen_le. change (zlen [_; _]) with 2. lia. }
  split; [|lia]. unfold message_ok, word_ok. cbn [msg_type msg_flags msg_seq msg_pid wpan_link]. rewrite Hb, Hl.
  do 4 (split; [done|]). Z.to_euclidean_division_equations; lia.
Qed.

Lemma wpan_talks fuel rth n rs : ifi_type n = ARPHRD_6LOWPAN -> (String.length (if_name n) <= 15)%nat ->
  message_ok (wpan_link n) /\ zlen (message_enc (wpan_link n)) < 2147483648 /\
  exists k, configure_wpan fuel rth n true rs =
    ('(rth, request, (r, _)) ← rtnl_talk fuel rth (message_enc (wpan_link n) ++ zeros k) 0 false true rs;
     Ok (rth, Some request, match r with Returned r => Returned (if r <? 0 then 0 else 1) | _ => r end)).
Proof.
  intros Ht Hn. destruct (wpan_link_size n Hn) as (Hok & Hb & Hmax). split; [exact Hok|].
  split; [rewrite message_enc_len; lia|]. unfold configure_wpan. rewrite Ht, Z.eqb_refl. cbn [negb].
  destruct (wpan_request_attrs n Hn) as (k & ->). exists k.
  assert (built (wpan_head ++ attrs_enc (wpan_attrs n)) k = message_enc (wpan_link n) ++ zeros k) as ->; [|done].
  unfold built, message_enc, header_bytes. cbn [msg_type msg_flags msg_seq msg_pid msg_body wpan_link].
  rewrite zlen_app. change (zlen wpan_head) with 28.
  cbn [msg_body wpan_link] in Hb. rewrite Hb. unfold NLMSG_LENGTH. replace (16 + _ + 16) with (4 + (28 + zlen (attrs_enc (wpan_attrs n)))) by lia.
  unfold wpan_head, link_body. rewrite <-!app_assoc. reflexivity.
Qed.

End asking.

Section witnesses.
#[local] Instance example_headers : KernelHeaders.
Proof. refine {| IFLA_MAX := 53; IFA_MAX := 8 |}; lia. Defined.
#[local] Existing Instance libstdcxx_map.
#[local] Instance any_wildcard : Fnmatch := fun row name => true.

Definition example_announced : message :=
  mk_message RTM_NEWLINK 0 1 0 (link_body (mk_link_head 0 ARPHRD_ETHER 7 65 0)
    [(IFLA_IFNAME, codes "wlan0" ++ [0]); (IFLA_ADDRESS, [2; 4; 6; 8; 10; 12])]).
Definition example_link_msg : link_msg := mk_link 7 ARPHRD_ETHER true true (Some "wlan0"%string) (Some [2; 4; 6; 8; 10; 12]).
Lemma example_announced_says : says example_announced (NewLink example_link_msg).
Proof.
  apply says_new; [done|].
  apply (link_says_link (mk_link_head 0 ARPHRD_ETHER 7 65 0) (Some "wlan0"%string)
    [(IFLA_IFNAME, codes "wlan0" ++ [0]); (IFLA_ADDRESS, [2; 4; 6; 8; 10; 12])]); [done|cbn; lia|done|by repeat constructor|].
  exists (codes "wlan0"), []. split; [done|]. split; [|done]. by repeat constructor.
Qed.
Definition example_located : message :=
  mk_message RTM_NEWADDR 0 2 0 (addr_body (mk_addr_head AF_INET6 64 0 RT_SCOPE_LINK 7)
    [(IFA_ADDRESS, [254; 128; 0; 0; 0; 0; 0; 0; 2; 4; 6; 255; 254; 8; 10; 12])]).
Definition example_addr_msg : addr_msg :=
  mk_addr 7 AF_INET6 RT_SCOPE_LINK None (Some [254; 128; 0; 0; 0; 0; 0; 0; 2; 4; 6; 255; 254; 8; 10; 12]).
Lemma example_located_says : says example_located (NewAddr example_addr_msg).
Proof.
  apply (says_addr _ (mk_addr_head AF_INET6 64 0 RT_SCOPE_LINK 7)
    [(IFA_ADDRESS, [254; 128; 0; 0; 0; 0; 0; 0; 2; 4; 6; 255; 254; 8; 10; 12])]); [done|done|cbn; lia|by repeat constructor].
Qed.
Definition example_stray : message := mk_message 99 0 3 0 (le 4 5).
Lemma example_stray_says : says example_stray OtherMsg.
Proof. by apply says_other. Qed.
Definition example_arrival : list recv :=
  [RErr EINTR; RMsg 0 true false (messages_enc [example_stray; example_announced]);
   RMsg 0 true false (messages_enc [example_located]); RErr EAGAIN].

Lemma empty_socket_bytes_witness :
  empty_rtnl_socket (zeros (Z.to_nat 8192)) example_arrival example_world =
    (empty_socket [OtherMsg; NewLink example_link_msg; NewAddr example_addr_msg] ;; mret (Returned 0)) example_world.
Proof.
  apply (empty_socket_bytes example_arrival [(0, [example_stray; example_announced]); (0, [example_located])]).
  - apply arrived_error; [done|].
    apply arrived_more; [done|by repeat constructor|apply Nat.leb_le; vm_compute; reflexivity|].
    apply arrived_more; [done|by repeat constructor|apply Nat.leb_le; vm_compute; reflexivity|]. apply arrived_again.
  - constructor; [apply example_stray_says|]. constructor; [apply example_announced_says|].
    constructor; [apply example_located_says|constructor].
  - apply length_zeros.
Defined.

(** A dump in two datagrams, with a message of another in the first, and its end. *)
Definition numbered (seq : Z) (g : message) : message := mk_message (msg_type g) (msg_flags g) seq (msg_pid g) (msg_body g).
Definition example_handle : rtnl_handle := mk_handle 0 100 0.
Definition example_done (seq : Z) : message := mk_message NLMSG_DONE 2 seq 0 (le 4 0).
Lemma scan_bytes_witness :
  scan_rtnl (Some example_handle) true (zeros (Z.to_nat 16384))
    [RMsg 0 true false (messages_enc [example_stray; numbered 101 example_announced]); RErr EINTR;
     RMsg 0 true false (messages_enc [] ++ message_enc (example_done 101) ++ [])]
    [RMsg 0 true false (messages_enc [numbered 102 example_located]); RErr EAGAIN] example_world =
  (r ← scan_devices true (Some [NewLink example_link_msg]) (Some [NewAddr example_addr_msg]); mret (Some r)) example_world.
Proof.
  eapply (scan_bytes example_handle _ [numbered 101 example_announced] [NewLink example_link_msg] _
    [numbered 102 example_located] [NewAddr example_addr_msg]).
  - apply (dumped_more (Z.to_nat 16384) (mk_handle 0 101 101) 0 true [example_stray; numbered 101 example_announced] _ []);
      [done|by repeat constructor|repeat constructor; intros; done|apply Nat.leb_le; vm_compute; reflexivity|].
    apply dumped_error; [done|].
    apply (dumped_done (Z.to_nat 16384) (mk_handle 0 101 101) 0 true false [] (example_done 101) []);
      [constructor|by repeat constructor|constructor|done|done|apply Nat.leb_le; vm_compute; reflexivity].
  - constructor; [|constructor]. destruct example_announced_says; by constructor.
  - apply (dumped_more (Z.to_nat 16384) (mk_handle 0 102 102) 0 true [numbered 102 example_located] [RErr EAGAIN] []);
      [done|by repeat constructor|repeat constructor; intros; done|apply Nat.leb_le; vm_compute; reflexivity|constructor].
  - constructor; [|constructor]. apply (says_addr _ (mk_addr_head AF_INET6 64 0 RT_SCOPE_LINK 7)
      [(IFA_ADDRESS, [254; 128; 0; 0; 0; 0; 0; 0; 2; 4; 6; 255; 254; 8; 10; 12])]); [done|done|cbn; lia|by repeat constructor].
  - apply length_zeros.
Defined.

Definition example_lowpan : network_interface :=
  Example.iface <| if_name := "wpan0"%string |> <| ifi_type := ARPHRD_6LOWPAN |> <| if_index := 5 |>.
(** The kernel refuses, with [EEXIST]. *)
Definition example_refusal : message := mk_message NLMSG_ERROR 0 101 0 (le 4 4294967279 ++ zeros 16).
End witnesses.
