(* ===== verification/Tools.v ===== *)
(** The tools that send one message: [programs/senddio], [programs/senddao],
    [programs/sendnd] and [programs/peck], from the options [getopt_long] finds to
    the message on an interface; and the reader of hexadecimal files that two of
    them have. *)

From Stdlib Require Import ZArith Lia String.
From stdpp Require Import base list gmap numbers strings.
From S2P Require Import Prelude Wire Subopt Event Prefix Text State Iface Build Dag Filters.
From S2P Require Import Safety Neighbour World Netlink MainLoop Csum Frames Sunshine Worlds Timers Rtnl Devices Devid.
#[local] Open Scope Z_scope.

(** * Files of hexadecimal numbers *)

(** [fscanf(in, "%2x", &data)]: what is stored, and what is left of the file.  A
    sign that no digit follows is gone. *)
Definition fscan_2x (s : list Z) : option Z * list Z :=
  match skip_space s with
  | [] => (None, [])
  | c :: s' =>
      if (c =? 43) || (c =? 45) then
        match s' with
        | d :: s'' =>
            match hex_value d with
            | Some v => (Some (u32 (if c =? 45 then - v else v)), s'')
            | None => (None, s')
            end
        | [] => (None, [])
        end
      else
        match hex_value c with
        | None => (None, c :: s')
        | Some v =>
            match s' with
            | d :: s'' =>
                match hex_value d with
                | Some v' => (Some (v * 16 + v'), s'')
                | None => if (c =? 48) && ((d =? 120) || (d =? 88)) then (Some 0, s'') else (Some v, s')
                end
            | [] => (Some v, [])
            end
        end
  end.
(** The inner loop of [read_hex_values]. *)
Fixpoint hex_run (fuel : nat) (s : list Z) (count : Z) (buffer : list Z) : outcome (list Z * Z * list Z) :=
  match fuel with
  | O => Fault OutOfFuel
  | S fuel' =>
      match fscan_2x s with
      | (Some data, s') => buffer ← wr_range buffer count [u8 data]; hex_run fuel' s' (count + 1) buffer
      | (None, s') => Ok (s', count, buffer)
      end
  end.
(** Behind a comment; [None] at the end of the file. *)
Fixpoint skip_comment (s : list Z) : option (list Z) :=
  match s with [] => None | c :: s' => if c =? 10 then Some s' else skip_comment s' end.
Fixpoint hex_loop (fuel : nat) (s : list Z) (count : Z) (buffer : list Z) : outcome (Z * list Z) :=
  match fuel with
  | O => Fault OutOfFuel
  | S fuel' =>
      match s with
      | [] => Ok (count, buffer)
      | c :: s' =>
          if c =? 35 then
            match skip_comment s' with
            | None => Ok (count, buffer)
            | Some s'' => hex_loop fuel' s'' count buffer
            end
          else
            '(s, count, buffer) ← hex_run (S (length s)) s count buffer;
            hex_loop fuel' s count buffer
      end
  end.
Definition read_hex_values (fuel : nat) (file buffer : list Z) : outcome (Z * list Z) := hex_loop fuel file 0 buffer.

(** * Numbers *)

(** [strtoul(s, NULL, 0)]: the base is in the text; it saturates, and a minus negates
    the [unsigned long]. *)
Fixpoint digits_of (base acc : Z) (s : list Z) : Z :=
  match s with
  | c :: s' => match hex_value c with
               | Some v => if v <? base then digits_of base (acc * base + v) s' else acc
               | None => acc
               end
  | [] => acc
  end.
Definition ULONG_MAX : Z := 18446744073709551615.
Definition strtoul0 (s : list Z) : Z :=
  let '(neg, s) :=
    match skip_space s with
    | 45 :: s' => (true, s')
    | 43 :: s' => (false, s')
    | s' => (false, s')
    end in
  let v := match s with
           | 48 :: x :: d :: s' =>
               if ((x =? 120) || (x =? 88)) && isxdigit d then digits_of 16 0 (d :: s') else digits_of 8 0 s
           | 48 :: _ => digits_of 8 0 s
           | _ => digits_of 10 0 s
           end in
  if v >? ULONG_MAX then ULONG_MAX else if neg then (- v) mod 2 ^ 64 else v.

(** * What a file of hexadecimal numbers is read as *)
Section hex_files.
Implicit Types (s t buf bs : list Z) (c : Z).

(** The text [s] says the bytes [bs], up to the text [t]. *)
Inductive hexfile t : list Z -> list Z -> Prop :=
| hexfile_end : hexfile t t []
| hexfile_space c s bs : is_space c = true -> hexfile t s bs -> hexfile t (c :: s) bs
| hexfile_comment text s bs : Forall (fun c => c <> 10) text -> hexfile t s bs -> hexfile t (35 :: text ++ 10 :: s) bs
| hexfile_byte h l x y s bs : hex_value h = Some x -> hex_value l = Some y -> hexfile t s bs ->
    hexfile t (h :: l :: s) (x * 16 + y :: bs).
(** Where the inner loop stops without taking anything. *)
Definition stops t : Prop := fscan_2x t = (None, t).

Fixpoint put (bs : list Z) (count : Z) (buf : list Z) : outcome (list Z) :=
  match bs with [] => Ok buf | b :: bs' => buf ← wr_range buf count [b]; put bs' (count + 1) buf end.
Lemma put_app bs bs' : forall count buf, put (bs ++ bs') count buf = (buf ← put bs count buf; put bs' (count + zlen bs) buf).
Proof.
  induction bs as [|b bs IH]; intros count buf; cbn [app put]; [cbn; by rewrite Z.add_0_r|].
  destruct (wr_range buf count [b]) as [buf'|]; [|done]. cbn [mbind outcome_bind]. rewrite IH, zlen_cons.
  by replace (count + 1 + zlen bs) with (count + (1 + zlen bs)) by lia.
Qed.
Lemma put_run bs : forall pre buf, put bs (zlen pre) (pre ++ buf) =
  if zlen bs <=? zlen buf then Ok (pre ++ bs ++ drop (length bs) buf) else Fault OutOfBounds.
Proof.
  induction bs as [|b bs IH]; intros pre buf; cbn [put].
  { change (zlen (@nil Z)) with 0. by rewrite (proj2 (Z.leb_le 0 _)) by apply zlen_nonneg. }
  rewrite zlen_cons. pose proof (zlen_nonneg bs). destruct buf as [|x buf].
  { unfold wr_range. change (zlen [b]) with 1. rewrite app_nil_r. replace (zlen pre + 1 <=? zlen pre) with false by lia.
    rewrite andb_false_r. change (zlen (@nil Z)) with 0. by replace (1 + zlen bs <=? 0) with false by lia. }
  pose proof (wr_mid pre [x] [b] buf eq_refl) as Hw. cbn [app] in Hw.
  rewrite Hw. cbn [mbind outcome_bind]. specialize (IH (pre ++ [b]) buf). rewrite zlen_app, <-!app_assoc in IH.
  change (zlen [b]) with 1 in IH. cbn [app] in IH. rewrite IH, zlen_cons.
  replace (1 + zlen bs <=? 1 + zlen buf) with (zlen bs <=? zlen buf) by lia. done.
Qed.

Lemma hex_value_range c v : hex_value c = Some v -> 0 <= v < 16 /\ is_space c = false /\ c <> 35 /\ c <> 43 /\ c <> 45.
Proof. unfold hex_value, is_space. intros H. repeat (case_match; simplify_eq); lia. Qed.
Lemma fscan_space c s : is_space c = true -> fscan_2x (c :: s) = fscan_2x s.
Proof. intros Hc. unfold fscan_2x. cbn [skip_space]. by rewrite Hc. Qed.
Lemma fscan_digits h l x y s : hex_value h = Some x -> hex_value l = Some y -> fscan_2x (h :: l :: s) = (Some (x * 16 + y), s).
Proof.
  intros Hh Hl. destruct (hex_value_range h x Hh) as (_ & Hs & _ & Hp & Hm). unfold fscan_2x. cbn [skip_space]. rewrite Hs.
  by rewrite (proj2 (Z.eqb_neq _ _) Hp), (proj2 (Z.eqb_neq _ _) Hm), Hh, Hl.
Qed.
Lemma fscan_stray c s : is_space c = false -> hex_value c = None -> c <> 43 -> c <> 45 -> stops (c :: s).
Proof.
  intros Hs Hh Hp Hm. unfold stops, fscan_2x. cbn [skip_space]. by rewrite Hs, (proj2 (Z.eqb_neq _ _) Hp), (proj2 (Z.eqb_neq _ _) Hm), Hh.
Qed.

(** The inner loop takes the bytes up to a comment or the end. *)
Lemma hex_run_reads t s bs : hexfile t s bs -> stops t ->
  exists pre s' bs', bs = pre ++ bs' /\ hexfile t s' bs' /\ (length s' <= length s)%nat /\
    (s = s' \/ (length s' < length s)%nat) /\
    (s' = t \/ exists text s'', s' = 35 :: text ++ 10 :: s'' /\ Forall (fun c => c <> 10) text /\ hexfile t s'' bs') /\
    forall fuel count buf, (length s < fuel)%nat ->
      hex_run fuel s count buf = (buf ← put pre count buf; Ok (s', count + zlen pre, buf)).
Proof.
  intros Hf Ht. induction Hf as [|c s bs Hc _ IH|text s bs Htext Hf _|h l x y s bs Hh Hl _ IH].
  - exists [], t, []. split; [done|]. split; [constructor|]. split; [done|]. split; [by left|]. split; [by left|].
    intros [|fuel] count buf Hfuel; [lia|]. cbn [hex_run]. rewrite Ht. cbn. by rewrite Z.add_0_r.
  - destruct IH as (pre & s' & bs' & -> & Hs' & Hlen & _ & Hend & Hrun). exists pre, s', bs'. cbn [length].
    split; [done|]. split; [done|]. split; [lia|]. split; [right; lia|]. split; [done|].
    intros [|fuel] count buf Hfuel; [lia|]. rewrite <-(Hrun (S fuel)) by lia. cbn [hex_run]. by rewrite fscan_space.
  - exists [], (35 :: text ++ 10 :: s), bs. split; [done|]. split; [by constructor|]. split; [done|]. split; [by left|].
    split; [right; by exists text, s|].
    intros [|fuel] count buf Hfuel; [lia|]. cbn [hex_run]. rewrite (fscan_stray 35) by done. cbn. by rewrite Z.add_0_r.
  - destruct IH as (pre & s' & bs' & -> & Hs' & Hlen & _ & Hend & Hrun). exists (x * 16 + y :: pre), s', bs'. cbn [length].
    split; [done|]. split; [done|]. split; [lia|]. split; [right; lia|]. split; [done|].
    intros [|fuel] count buf Hfuel; [lia|]. cbn [hex_run]. rewrite (fscan_digits h l x y) by done.
    destruct (hex_value_range h x Hh) as [Hx _]. destruct (hex_value_range l y Hl) as [Hy _]. rewrite u8_small by lia.
    cbn [put]. destruct (wr_range buf count [x * 16 + y]) as [buf'|]; [|done]. cbn [mbind outcome_bind].
    rewrite Hrun, zlen_cons by lia. by replace (count + 1 + zlen pre) with (count + (1 + zlen pre)) by lia.
Qed.
Lemma skip_comment_reads text s : Forall (fun c => c <> 10) text -> skip_comment (text ++ 10 :: s) = Some s.
Proof. induction 1 as [|c text Hc _ IH]; [done|]. cbn [app skip_comment]. by rewrite (proj2 (Z.eqb_neq _ _) Hc). Qed.

(** The outer loop, from any place in the file. *)
Lemma hex_loop_reads s bs : hexfile [] s bs -> forall fuel count buf, (length s < fuel)%nat ->
  hex_loop fuel s count buf = (buf ← put bs count buf; Ok (count + zlen bs, buf)).
Proof.
  intros Hf fuel. revert s bs Hf. induction fuel as [|fuel IH]; intros s bs Hf count buf Hfuel; [lia|].
  cbn [hex_loop]. destruct s as [|c s].
  { inversion Hf. cbn. by rewrite Z.add_0_r. }
  destruct (Z.eqb_spec c 35) as [->|Hc].
  { inversion Hf as [|c' s' bs' Hc| text s' bs' Htext Hf'|h l x y s' bs' Hh]; subst; [done| |by cbn in Hh].
    rewrite skip_comment_reads by done. eapply IH; [exact Hf'|]. cbn [length] in Hfuel. rewrite length_app in Hfuel. cbn [length] in Hfuel. lia. }
  destruct (hex_run_reads [] (c :: s) bs Hf eq_refl) as (pre & s' & bs' & -> & Hs' & Hle & Hlt & Hend & Hrun).
  rewrite Hrun, put_app by lia. destruct (put pre count buf) as [buf'|]; [|done]. cbn [mbind outcome_bind].
  assert (length s' < length (c :: s))%nat as Hlt'.
  { destruct Hlt as [<-|]; [|done]. destruct Hend as [|(text & s'' & E & _)]; [done|]. by injection E as ->. }
  rewrite (IH s' bs'); [|done|lia]. rewrite zlen_app. destruct (put bs' (count + zlen pre) buf') as [buf2|]; [|done].
  cbn [mbind outcome_bind]. by rewrite Z.add_assoc.
Qed.

(** C40: A file of pairs of hexadecimal digits, of either case, with blanks between
    the pairs and comments at any place, is read as the bytes it says, as long as
    they fit in the buffer; one byte more is written behind it. *)
Theorem read_hex_file s bs buf : hexfile [] s bs -> forall fuel, (length s < fuel)%nat ->
  read_hex_values fuel s buf =
    if zlen bs <=? zlen buf then Ok (zlen bs, bs ++ drop (length bs) buf) else Fault OutOfBounds.
Proof.
  intros Hf fuel Hfuel. unfold read_hex_values. rewrite (hex_loop_reads s bs) by done.
  pose proof (put_run bs [] buf) as Hput. cbn [app] in Hput. change (zlen (@nil Z)) with 0 in Hput. rewrite Hput.
  by destruct (zlen bs <=? zlen buf).
Qed.

(** A character that is neither a digit, a blank, a sign nor the start of a
    comment is never taken: the reader goes round for ever. *)
Lemma stray_character_hangs s bs c rest buf : hexfile (c :: rest) s bs -> zlen bs <= zlen buf ->
  is_space c = false -> hex_value c = None -> c <> 35 -> c <> 43 -> c <> 45 ->
  forall fuel, read_hex_values fuel s buf = Fault OutOfFuel.
Proof.
  intros Hf Hfit Hs Hh H35 H43 H45 fuel. unfold read_hex_values. pose proof (fscan_stray c rest Hs Hh H43 H45) as Hstop.
  assert (exists buf', put bs 0 buf = Ok buf') as Hput.
  { pose proof (put_run bs [] buf) as Hput. cbn [app] in Hput. change (zlen (@nil Z)) with 0 in Hput. rewrite Hput.
    rewrite (proj2 (Z.leb_le _ _)) by done. by eexists. }
  clear Hfit. revert Hput. generalize 0 at 1 2. intros count. revert s bs Hf count buf.
  induction fuel as [|fuel IH]; intros s bs Hf count buf [buf' Hput]; [done|]. cbn [hex_loop].
  destruct s as [|c' s]; [by inversion Hf|].
  destruct (Z.eqb_spec c' 35) as [->|Hc].
  { inversion Hf as [E|c'' s' bs' Hc''| text s' bs' Htext Hf'|h l x y s' bs' Hh']; subst; [done|done| |by cbn in Hh'].
    rewrite skip_comment_reads by done. eapply IH; [exact Hf'|by eexists]. }
  destruct (hex_run_reads (c :: rest) (c' :: s) bs Hf Hstop) as (pre & s' & bs' & -> & Hs' & Hle & _ & _ & Hrun).
  rewrite put_app in Hput. rewrite Hrun by lia. destruct (put pre count buf) as [buf1|]; [|done].
  cbn [mbind outcome_bind] in *. apply IH with bs'; [done|by eexists].
Qed.
End hex_files.

(** * What the tools share *)

(** A tool goes on with its variables, or exits. *)
Inductive tool_going (L : Type) := Go (l : L) | Stop (status : Z).
Arguments Go {L} l.
Arguments Stop {L} status.
Fixpoint tool_loop {O L} (step : O -> L -> M world (tool_going L)) (os : list O) (l : L) : M world (tool_going L) :=
  match os with
  | [] => mret (Go l)
  | o :: os' =>
      r ← step o l;
      match r with Go l' => tool_loop step os' l' | Stop status => mret (Stop status) end
  end.

(** What the system gives to a tool. *)
Class ToolSystem := {
  open_netlink : bool; dump_links : option (list nlmsg); dump_addrs : option (list nlmsg);   (** the scan of the devices *)
  wlan1_is_down : bool;                     (** the scan of faked devices *)
  pcap_opens : bool;                        (** [pcap_dump_open] *)
  dag_is_null : bool;                       (** what the variable [dag] of [senddio] happens to hold *)
  wpan_handle : rtnl_handle; wpan_sent : bool; wpan_answers : list recv   (** the socket [peck] asks for a link on *)
}.

Section tools.
Context `{EventHeap, PrefixMapSem, Fnmatch, InetPton, Startup, ToolSystem}.

Definition tool_scan (fakesend : bool) : M world unit :=
  if fakesend then pcap_scan_devices wlan1_is_down
  else scan_devices open_netlink dump_links dump_addrs ;; mret tt.

(** [send_raw_icmp], which is virtual: an interface that is faked writes a frame to
    its file.  The answer is the frames that are written. *)
Definition tool_send (faked out : bool) (i : nat) (dest src : option in6_addr) (icmp_body : list Z) (icmp_len : Z)
    : M world (list (list Z)) :=
  body ← lift (rd_range icmp_body 0 icmp_len);
  if faked then
    n ← in_sys (get_iface i);
    '(n, p) ← lift (pcap_send_raw_icmp n dest src body (mk_pcap DLT_EN10MB (if out then Some [] else None) 0));
    in_sys (upd_iface i (fun _ => n)) ;;
    mret (default [] (pcap_out p))
  else in_sys (send_raw_icmp i dest src body) ;; mret [].
(** How a tool ends: its status, and the frames it wrote. *)
Definition tool_exit (status : Z) : M world (Z * list (list Z)) := mret (status, []).

(** The option [-d]: a file that is read, if it can be opened. *)
Definition read_datafile (file : option (list Z)) (icmp_body : list Z) : outcome (option (list Z * Z)) :=
  match file with
  | None => Ok None
  | Some text => '(len, body) ← read_hex_values (S (length text)) text icmp_body; Ok (Some (body, len))
  end.
(** A subnet that is parsed into a variable on the stack. *)
Definition tool_subnet (arg : list Z) : M world (option ip_subnet) :=
  s ← in_sys get;
  match ttosubnet host_lookup net_lookup arg (zlen arg) AF_INET6 (sn_addr (mPrefix_ (junk_prefix s))) with
  | Oops _ => mret None
  | Good (p, _) => mret (Some p)
  end.
Definition junk_subnet : M world ip_subnet := s ← in_sys get; mret (mPrefix_ (junk_prefix s)).
Definition tool_dagid (k : nat) (arg : list Z) : M world unit :=
  s ← in_sys get;
  in_dag k (dag_upd (set_dagid_text (default 0 (junk_bytes s !! 0%nat)) (take 16 (junk_bytes s)) arg)).

(** * [senddio] *)
Inductive dio_option :=
| DioUsage | DioVerbose
| DioData (file : option (list Z)) | DioIface (name : string) | DioPcapout | DioFake
| DioGrounded | DioDagid (arg : list Z) | DioRank (arg : list Z) | DioSequence (arg : list Z)
| DioInstance (arg : list Z) | DioPrefix (arg : list Z) | DioLifetime (arg : list Z) | DioVersion (arg : list Z)
| DioStoring | DioNonStoring | DioMulticast | DioNonMulticast.
Record dio_vars := mk_dio_vars {
  dv_instance : Z; dv_prefix : option (list Z); dv_pcapout : bool; dv_body : list Z; dv_len : Z; dv_fake : bool;
  dv_iface : option nat; dv_dag : option nat; dv_initted : bool
}.
#[global] Instance eta_dio_vars : Eta dio_vars := fun r =>
  mk_dio_vars (dv_instance r) (dv_prefix r) (dv_pcapout r) (dv_body r) (dv_len r) (dv_fake r) (dv_iface r) (dv_dag r) (dv_initted r).
Definition dio_start : dio_vars := mk_dio_vars 0 None false (zeros 2048) 0 false None None false.

(** [check_dag], and what is done with the DAG.  The variable has no value before
    [--dagid]. *)
Definition dio_on_dag (l : dio_vars) (body : nat -> M world unit) : M world (tool_going dio_vars) :=
  match dv_dag l with
  | Some k => if dv_instance l =? 0 then mret (Stop 2) else body k ;; mret (Go l)
  | None => if dag_is_null || (dv_instance l =? 0) then mret (Stop 2) else fail OutOfBounds
  end.
Definition dio_set (l : dio_vars) (f : dag_network -> dag_network) : M world (tool_going dio_vars) :=
  dio_on_dag l (fun k => in_dag k (dag_upd f)).
Definition dio_step (o : dio_option) (l : dio_vars) : M world (tool_going dio_vars) :=
  match o with
  | DioUsage => mret (Stop 2)
  | DioVerbose => mret (Go l)
  | DioData file =>
      r ← lift (read_datafile file (dv_body l));
      match r with
      | None => mret (Stop 1)
      | Some (body, len) => mret (Go (l <| dv_body := body |> <| dv_len := len |>))
      end
  | DioIface name =>
      when (negb (dv_initted l)) (tool_scan (dv_fake l)) ;;
      found ← in_sys (find_by_name name);
      match found with
      | None => mret (Stop 10)
      | Some i => mret (Go (l <| dv_initted := true |> <| dv_iface := Some i |>))
      end
  | DioPcapout => if dv_initted l then mret (Stop 16) else mret (Go (l <| dv_pcapout := true |> <| dv_fake := true |>))
  | DioFake => if dv_initted l then mret (Stop 16) else mret (Go (l <| dv_fake := true |>))
  | DioGrounded => dio_on_dag l (fun k => in_dag k (set_grounded true))
  | DioDagid arg =>
      k ← new_dag_network (dv_instance l) None;
      tool_dagid k arg ;;
      mret (Go (l <| dv_dag := Some k |>))
  | DioRank arg => dio_set l (set_dagrank (u32 (strtoul0 arg)))
  | DioSequence arg => dio_set l (set_sequence (u32 (strtoul0 arg)))
  | DioInstance arg => mret (Go (l <| dv_instance := u16 (strtoul0 arg) |>))
  | DioPrefix arg => mret (Go (l <| dv_prefix := Some arg |>))
  | DioLifetime arg => dio_set l (set_prefixlifetime (strtoul0 arg))
  | DioVersion arg => dio_set l (set_version (strtoul0 arg))
  | DioStoring => dio_set l (set_mode RPL_DIO_STORING_MULTICAST)
  | DioNonStoring => dio_set l (set_mode RPL_DIO_NONSTORING)
  | DioMulticast => dio_set l set_nomulticast
  | DioNonMulticast => dio_set l set_multicast
  end.

(** The message, when there is a prefix; the error of [ttosubnet] is ignored. *)
Definition dio_message (l : dio_vars) : M world dio_vars :=
  match dv_prefix l with
  | None => mret l
  | Some arg =>
      junk ← junk_subnet;
      prefix ← tool_subnet arg;
      match dv_dag l with
      | None => fail (if dag_is_null then NullDeref else OutOfBounds)
      | Some k =>
          in_dag k (
            d ← dag_get id;
            '(d, body, len) ← lift (build_dio d 2048 (default junk prefix));
            dag_upd (fun _ => d) ;;
            mret (l <| dv_body := body |> <| dv_len := u32 len |>))
      end
  end.
Definition senddio (os : list dio_option) : M world (Z * list (list Z)) :=
  r ← tool_loop dio_step os dio_start;
  match r with
  | Stop status => tool_exit status
  | Go l =>
      match dv_iface l with
      | None => tool_exit 2
      | Some i =>
          if dv_pcapout l && negb pcap_opens then tool_exit 1
          else
            l ← dio_message l;
            if dv_len l =? 0 then tool_exit 2
            else if negb (dv_fake l) || dv_pcapout l then
              frames ← tool_send (dv_fake l) true i None None (dv_body l) (dv_len l); mret (0, frames)
            else tool_exit 0
      end
  end.

(** * [senddao] *)
Inductive dao_option :=
| DaoUsage | DaoVerbose | DaoAckRequest
| DaoData (file : option (list Z)) | DaoIface (name : string) | DaoFake | DaoOutpcap
| DaoDagid (arg : list Z)
| DaoAckOf (arg : option (list Z))       (** [--daoack number], or [-K], which takes no argument *)
| DaoRank (arg : list Z) | DaoSequence (arg : list Z) | DaoInstance (arg : list Z)
| DaoTarget (arg : list Z) | DaoPrefix (arg : list Z) | DaoDest (arg : list Z) | DaoMyid (arg : list Z).
Record dao_vars := mk_dao_vars {
  av_instance : Z; av_outfile : bool; av_prefix : bool; av_body : list Z; av_len : Z; av_fake : bool;
  av_iface : option nat; av_dn : option nat; av_dest : option (in6_addr * rpl_node); av_me : bool; av_initted : bool;
  av_daoack : bool
}.
#[global] Instance eta_dao_vars : Eta dao_vars := fun r =>
  mk_dao_vars (av_instance r) (av_outfile r) (av_prefix r) (av_body r) (av_len r) (av_fake r) (av_iface r) (av_dn r)
    (av_dest r) (av_me r) (av_initted r) (av_daoack r).
Definition dao_start : dao_vars := mk_dao_vars 0 false false (zeros 2048) 0 false None None None false false false.

(** [check_dag] *)
Definition dao_on_dag (l : dao_vars) (body : nat -> M world (tool_going dao_vars)) : M world (tool_going dao_vars) :=
  match av_dn l with
  | Some k => if av_instance l =? 0 then mret (Stop 2) else body k
  | None => mret (Stop 2)
  end.
Definition dao_set (l : dao_vars) (f : dag_network -> dag_network) : M world (tool_going dao_vars) :=
  dao_on_dag l (fun k => in_dag k (dag_upd f) ;; mret (Go l)).
(** The interface of [-i]: what is not there is no interface. *)
Definition dao_interface (l : dao_vars) (name : string) : M world (tool_going dao_vars) :=
  when (negb (av_initted l)) (tool_scan (av_fake l)) ;;
  let l := l <| av_initted := true |> in
  if negb (av_outfile l) then mret (Stop 2)
  else
    found ← in_sys (find_by_name name);
    match found with
    | Some i => if av_fake l && negb pcap_opens then mret (Stop 1) else mret (Go (l <| av_iface := Some i |>))
    | None => mret (Go (l <| av_iface := None |>))
    end.
(** A target: the error of [ttosubnet] is ignored. *)
Definition dao_target (l : dao_vars) (arg : list Z) : M world (tool_going dao_vars) :=
  junk ← junk_subnet;
  target ← tool_subnet arg;
  dao_on_dag l (fun k =>
    match av_dest l with
    | None => mret (Stop 2)
    | Some (_, destnode) =>
        if negb (av_me l) then mret (Stop 2)
        else
          match av_iface l with
          | None => fail NullDeref
          | Some i => in_dag k (add_childnode_of (Outside destnode) i (default junk target)) ;; mret (Go l)
          end
    end).
Definition dao_step (o : dao_option) (l : dao_vars) : M world (tool_going dao_vars) :=
  match o with
  | DaoUsage => mret (Stop 2)
  | DaoVerbose | DaoAckRequest => mret (Go l)
  | DaoData file =>
      r ← lift (read_datafile file (av_body l));
      match r with
      | None => mret (Stop 1)
      | Some (body, len) => mret (Go (l <| av_body := body |> <| av_len := len |>))
      end
  | DaoIface name => dao_interface l name
  | DaoFake => if av_initted l then mret (Stop 16) else mret (Go (l <| av_fake := true |>))
  | DaoOutpcap => mret (Go (l <| av_outfile := true |>))
  | DaoDagid arg =>
      match av_iface l with
      | None => mret (Stop 2)
      | Some _ => k ← find_or_make_by_string (av_instance l) arg false; mret (Go (l <| av_dn := Some k |>))
      end
  | DaoAckOf None => fail NullDeref
  | DaoAckOf (Some arg) => mret (Go (l <| av_daoack := negb (atoi arg =? 0) |>))
  | DaoRank arg => dao_set l (set_dagrank (u32 (atoi arg)))
  | DaoSequence arg => dao_set l (set_sequence (u32 (atoi arg)))
  | DaoInstance arg => mret (Go (l <| av_instance := u16 (atoi arg) |>))
  | DaoTarget arg => dao_target l arg
  | DaoPrefix arg =>
      prefix ← tool_subnet arg;
      match prefix with
      | None => mret (Stop 2)
      | Some p => dao_on_dag l (fun k =>
          in_dag k (dag_upd (dag_set_prefix p)) ;; mret (Go (l <| av_prefix := true |>)))
      end
  | DaoDest arg =>
      s ← in_sys get;
      match inet_pton6 arg with
      | None => mret (Stop 2)
      | Some a => mret (Go (l <| av_dest := Some (a, rpl_node_of_dag (junk_node s) a (av_dn l)) |>))
      end
  | DaoMyid arg =>
      s ← in_sys get;
      match inet_pton6 arg with
      | None => mret (Stop 2)
      | Some a => dao_on_dag l (fun k =>
          in_dag k (dag_upd (fun d => d <| dag_me := Some (External (set_prefix6 a 128 (junk_prefix s))) |>)) ;;
          mret (Go (l <| av_me := true |>)))
      end
  end.

(** The message: data that were read, an acknowledgement, or a DAO; [None] ends in
    [usage].  The number of the acknowledgement is the [bool] of the option. *)
Definition dao_message (l : dao_vars) : M world (option dao_vars) :=
  if av_len l >? 0 then mret (Some l)
  else if av_daoack l then
    match av_dn l with
    | None => fail NullDeref
    | Some k => in_dag k (
        d ← dag_get id;
        '(body, len) ← lift (build_daoack d 2048 (Z.b2z (av_daoack l)));
        mret (Some (l <| av_body := body |> <| av_len := u32 len |>)))
    end
  else if av_prefix l then
    match av_dn l with
    | None => fail NullDeref
    | Some k => in_dag k (
        d ← dag_get id;
        '(d, body, len) ← lift (build_dao d 2048);
        dag_upd (fun _ => d) ;;
        mret (Some (l <| av_body := body |> <| av_len := u32 len |>)))
    end
  else mret None.
Definition dao_finish (l : dao_vars) : M world (Z * list (list Z)) :=
  m ← dao_message l;
  match m with
  | None => tool_exit 2
  | Some l =>
      if av_len l =? 0 then tool_exit 2
      else
        match av_iface l with
        | None => tool_exit 0
        | Some i => frames ← tool_send (av_fake l) true i (fst <$> av_dest l) None (av_body l) (av_len l); mret (0, frames)
        end
  end.
Definition senddao (os : list dao_option) : M world (Z * list (list Z)) :=
  r ← tool_loop dao_step os dao_start;
  match r with Stop status => tool_exit status | Go l => dao_finish l end.

(** * [sendnd] *)
Inductive nd_option := NdUsage | NdVerbose | NdFake | NdOutpcap | NdAdvert (arg : list Z) | NdSolicit (arg : list Z) | NdIface (name : string).
Record nd_vars := mk_nd_vars {
  nv_advert : bool; nv_solicit : bool; nv_nodeip : list Z; nv_outfile : bool; nv_fake : bool; nv_initted : bool; nv_iface : option nat
}.
#[global] Instance eta_nd_vars : Eta nd_vars := fun r =>
  mk_nd_vars (nv_advert r) (nv_solicit r) (nv_nodeip r) (nv_outfile r) (nv_fake r) (nv_initted r) (nv_iface r).
Definition nd_step (o : nd_option) (l : nd_vars) : M world (tool_going nd_vars) :=
  match o with
  | NdUsage => mret (Stop 99)
  | NdVerbose => mret (Go l)
  | NdFake => if nv_initted l then mret (Stop 16) else mret (Go (l <| nv_fake := true |>))
  | NdOutpcap => mret (Go (l <| nv_outfile := true |>))
  | NdAdvert arg => mret (Go (l <| nv_advert := true |> <| nv_nodeip := arg |>))
  | NdSolicit arg => mret (Go (l <| nv_solicit := true |> <| nv_nodeip := arg |>))
  | NdIface name =>
      when (negb (nv_initted l)) (tool_scan (nv_fake l)) ;;
      let l := l <| nv_initted := true |> in
      found ← in_sys (find_by_name name);
      match found with
      | Some i => if nv_fake l && negb (nv_outfile l) then mret (Stop 2)
                  else if nv_fake l && negb pcap_opens then mret (Stop 1)
                  else mret (Go (l <| nv_iface := Some i |>))
      | None => mret (Go (l <| nv_iface := None |>))
      end
  end.
(** The address is only used for an advertisement: it is the destination. *)
Definition nd_finish (l : nd_vars) : M world (Z * list (list Z)) :=
  if negb (nv_initted l) || (nv_solicit l && nv_advert l) || (negb (nv_solicit l) && negb (nv_advert l)) then tool_exit 10
  else
    match nv_iface l with
    | None => fail NullDeref
    | Some i =>
        s ← in_sys get;
        let destip := if nv_advert l then default (ip_bytes (nodeip (junk_node s))) (inet_pton6 (nv_nodeip l)) else all_hosts_addr in
        body ← in_sys (if nv_advert l then build_basic_neighbour_advert i true else build_neighbour_solicit i);
        frames ← tool_send (nv_fake l) true i (Some destip) None body (zlen body);
        mret (0, frames)
    end.
Definition sendnd (os : list nd_option) : M world (Z * list (list Z)) :=
  r ← tool_loop nd_step os (mk_nd_vars false false [] false false false None);
  match r with Stop status => tool_exit status | Go l => nd_finish l end.

(** * [peck] *)
Inductive peck_option := PeckUsage | PeckFake | PeckVerbose | PeckMic (file : list Z) | PeckMicPriv | PeckCa (file : list Z).
Record peck_vars := mk_peck_vars { pv_fake : bool; pv_initted : bool; pv_mic : list Z; pv_ca : list Z }.
#[global] Instance eta_peck_vars : Eta peck_vars := fun r => mk_peck_vars (pv_fake r) (pv_initted r) (pv_mic r) (pv_ca r).
Definition peck_step (o : peck_option) (l : peck_vars) : M world (tool_going peck_vars) :=
  let l' := l <| pv_initted := true |> in
  match o with
  | PeckUsage => mret (Stop 2)
  | PeckFake => if pv_initted l then mret (Stop 16) else mret (Go (l' <| pv_fake := true |>))
  | PeckVerbose | PeckMicPriv => mret (Go l')
  | PeckMic file => mret (Go (l' <| pv_mic := file |>))
  | PeckCa file => mret (Go (l' <| pv_ca := file |>))
  end.

Context `{Mbedtls}.

(** [setup_lowpan], which is virtual.  The text of the EUI-64 goes to the log, from a
    buffer of 128 bytes; the length is an [unsigned], of which the text never takes
    more than 128.  The answer is the status when the program exits. *)
Definition setup_lowpan (faked : bool) (i : nat) (eui64 : list Z) (eui64len : Z) : M world (option Z) :=
  (if faked then mret tt else lift (fmt_n (Z.to_nat (Z.min (u32 eui64len) 128)) [] 128 eui64) ;; mret tt) ;;
  n ← in_sys (get_iface i);
  '(_, n) ← lift (set_link_layer64 eui64 (u32 eui64len) n);
  in_sys (upd_iface i (fun _ => n)) ;;
  if faked then mret None
  else
    '(_, _, r) ← lift (configure_wpan 1025 wpan_handle n wpan_sent wpan_answers);
    match r with
    | Returned _ => mret None
    | Exited status => mret (Some status)
    | Waiting => fail OutOfFuel
    end.
Fixpoint peck_ifaces (faked : bool) (eui64 : list Z) (eui64len : Z) (names : list string) (frames : list (list Z))
    : M world (Z * list (list Z)) :=
  match names with
  | [] => mret (0, frames)
  | name :: names' =>
      found ← in_sys (find_by_name name);
      match found with
      | None => mret (10, frames)
      | Some i =>
          r ← setup_lowpan faked i eui64 eui64len;
          match r with
          | Some status => mret (status, frames)
          | None =>
              body ← in_sys (build_neighbour_solicit i);
              more ← tool_send faked false i (Some all_hosts_addr) (Some in6addr_any) body (zlen body);
              peck_ifaces faked eui64 eui64len names' (more ++ frames)
          end
      end
  end.
(** [!eui64len == -1] does not hold of any number: a certificate without an EUI-64
    goes on, with what the arrays held. *)
Definition peck (os : list peck_option) (names : list string) : M world (Z * list (list Z)) :=
  r ← tool_loop peck_step os (mk_peck_vars false false (codes "/boot/mic.pem") (codes "/boot/manufacturer.pem"));
  match r with
  | Stop status => tool_exit status
  | Go l =>
      tool_scan (pv_fake l) ;;
      match load_identity_from_cert (Some (pv_ca l)) (pv_mic l) None with
      | (0, Some (c :: _)) =>
          s ← in_sys get;
          '(eui64len, eui64, _) ← lift (extract_eui64_from_cert c (take 8 (junk_bytes s)) (take 64 (junk_bytes s)) 64);
          if (if eui64len =? 0 then 1 else 0) =? -1 then tool_exit 11
          else peck_ifaces (pv_fake l) eui64 eui64len names []
      | _ => tool_exit 10
      end
  end.
End tools.

(** * What the tools send *)
Section sending.
Context `{EventHeap, PrefixMapSem, Fnmatch, InetPton, Startup, ToolSystem}.
Implicit Types (w : world) (d : dag_network).

Lemma tool_loop_go {O L} (step : O -> L -> M world (tool_going L)) o os l l' w w' :
  step o l w = Ok (Go l', w') -> tool_loop step (o :: os) l w = tool_loop step os l' w'.
Proof. intros E. cbn [tool_loop]. by rewrite (bind_ok _ _ w _ _ E). Qed.
Lemma tool_loop_app {O L} (step : O -> L -> M world (tool_going L)) os os' : forall l w,
  tool_loop step (os ++ os') l w =
    (r ← tool_loop step os l; match r with Go l' => tool_loop step os' l' | Stop status => mret (Stop status) end) w.
Proof.
  induction os as [|o os IH]; intros l w; [done|]. cbn [app tool_loop]. unfold mbind, M_bind.
  destruct (step o l w) as [[[l'|status] w']|]; [|done|done]. apply IH.
Qed.

(** The DAG [k] of the world. *)
Definition put_dag (k : nat) d w : world := w <| dags ::= <[k := d]> |>.
Lemma put_dag_there k d d' w : put_dag k d (put_dag k d' w) = put_dag k d w.
Proof.
  destruct w as [ds l s j]. change (mk_world (<[k := d]> (<[k := d']> ds)) l s j = mk_world (<[k := d]> ds) l s j).
  by rewrite list_insert_insert_eq.
Qed.
Lemma put_dag_lookup k d d' w : dags w !! k = Some d' -> dags (put_dag k d w) !! k = Some d.
Proof.
  intros Hk. destruct w as [ds l s j]. change (<[k := d]> ds !! k = Some d). apply list_lookup_insert_eq.
  by apply lookup_lt_Some in Hk.
Qed.
Lemma in_dag_upd k f d w : dags w !! k = Some d -> in_dag k (dag_upd f) w = Ok (tt, put_dag k (f d) w).
Proof. intros Hk. unfold in_dag. rewrite Hk. destruct w. done. Qed.

Lemma dio_set_run l f k d w : dv_dag l = Some k -> dv_instance l <> 0 -> dags w !! k = Some d ->
  dio_set l f w = Ok (Go l, put_dag k (f d) w).
Proof.
  intros Hk Hi Hd. unfold dio_set, dio_on_dag. rewrite Hk, (proj2 (Z.eqb_neq _ _) Hi).
  by rewrite (bind_ok _ _ w tt (put_dag k (f d) w)) by (by apply in_dag_upd).
Qed.

(** The DAG [senddio] makes: its id, then what the options set. *)
Definition made_dag w (num : Z) (id va ra sa la : list Z) : dag_network :=
  let d := fresh_dag (junk_dag w) (length (dags w)) num None in
  let d := set_dagid_text (default 0 (junk_bytes (wsys w) !! 0%nat)) (take 16 (junk_bytes (wsys w))) id d in
  set_prefixlifetime (strtoul0 la) (set_sequence (u32 (strtoul0 sa)) (set_dagrank (u32 (strtoul0 ra)) (set_version (strtoul0 va) d))).
Lemma options_keep_id a b c v d : mDagid (set_prefixlifetime a (set_sequence b (set_dagrank c (set_version v d)))) = mDagid d.
Proof. by destruct d. Qed.
Lemma fresh_dag_id junk k num : mDagid (fresh_dag junk k num None) = mDagid junk.
Proof. by destruct junk. Qed.
Lemma made_dag_id w num id va ra sa la : mDagid (made_dag w num id va ra sa la) =
  mDagid (set_dagid_text (default 0 (junk_bytes (wsys w) !! 0%nat)) (take 16 (junk_bytes (wsys w))) id
    (fresh_dag (junk_dag w) (length (dags w)) num None)).
Proof. unfold made_dag. cbv zeta. apply options_keep_id. Qed.
Definition dio_command (fake : bool) (name : string) (ia id va ra sa la pa : list Z) : list dio_option :=
  (if fake then [DioPcapout] else []) ++
  [DioIface name; DioInstance ia; DioDagid id; DioVersion va; DioRank ra; DioSequence sa; DioLifetime la; DioPrefix pa].
Definition with_new_dag d w : world := w <| dags ::= (fun l => l ++ [d]) |> <| all_dag ::= cons (length (dags w)) |>.

Lemma put_new d d' w : put_dag (length (dags w)) d (with_new_dag d' w) = with_new_dag d w.
Proof.
  destruct w as [ds l s j].
  change (mk_world (<[length ds := d]> (ds ++ [d'])) (length ds :: l) s j = mk_world (ds ++ [d]) (length ds :: l) s j).
  by rewrite insert_app_r_alt, Nat.sub_diag by lia.
Qed.
Lemma dio_command_run fake name ia id va ra sa la pa i w w1 : tool_scan fake w = Ok (tt, w1) ->
  in_sys (find_by_name name) w1 = Ok (Some i, w1) -> u16 (strtoul0 ia) <> 0 ->
  tool_loop dio_step (dio_command fake name ia id va ra sa la pa) dio_start w =
    Ok (Go (mk_dio_vars (u16 (strtoul0 ia)) (Some pa) fake (zeros 2048) 0 fake (Some i) (Some (length (dags w1))) true),
        with_new_dag (made_dag w1 (u16 (strtoul0 ia)) id va ra sa la) w1).
Proof.
  intros Hscan Hfind Hia. unfold dio_command. set (k := length (dags w1)). set (num := u16 (strtoul0 ia)) in *.
  set (l0 := mk_dio_vars 0 None fake (zeros 2048) 0 fake None None false).
  rewrite tool_loop_app. rewrite (bind_ok _ _ w (Go l0) w) by (by destruct fake).
  set (l1 := mk_dio_vars 0 None fake (zeros 2048) 0 fake (Some i) None true).
  rewrite (tool_loop_go dio_step _ _ _ l1 w w1); cycle 1.
  { cbn [dio_step]. change (dv_initted l0) with false. change (dv_fake l0) with fake. cbn [negb when].
    rewrite (bind_ok _ _ w tt w1) by done. by rewrite (bind_ok _ _ w1 (Some i) w1). }
  set (l2 := l1 <| dv_instance := num |>). rewrite (tool_loop_go dio_step _ _ _ l2 w1 w1) by done.
  set (d0 := fresh_dag (junk_dag w1) k num None).
  set (d1 := set_dagid_text (default 0 (junk_bytes (wsys w1) !! 0%nat)) (take 16 (junk_bytes (wsys w1))) id d0).
  set (l3 := l2 <| dv_dag := Some k |>). set (w2 := with_new_dag d0 w1).
  assert (dags w2 !! k = Some d0) as Hk by (subst w2; destruct w1; cbn; apply list_lookup_middle; done).
  rewrite (tool_loop_go dio_step _ _ _ l3 w1 (put_dag k d1 w2)); cycle 1.
  { cbn [dio_step]. rewrite (bind_ok _ _ w1 k w2) by (by destruct w1).
    rewrite (bind_ok _ _ w2 tt (put_dag k d1 w2)); [done|]. unfold tool_dagid.
    rewrite (bind_ok _ _ w2 (wsys w1) w2) by (subst w2; by destruct w1). by rewrite (in_dag_upd k _ d0). }
  assert (forall f d, dio_set l3 f (put_dag k d w2) = Ok (Go l3, put_dag k (f d) w2)) as Hset.
  { intros f d. rewrite (dio_set_run l3 f k d) by (done || (eapply put_dag_lookup; exact Hk)). by rewrite put_dag_there. }
  do 4 (erewrite tool_loop_go by apply Hset). erewrite tool_loop_go by done. cbn [tool_loop].
  unfold mret, M_ret. do 2 f_equal. subst w2 k. apply put_new.
Qed.

Lemma set_dagid_text_id v junk s d : exists id', set_dagid_text v junk s d = set_dagid id' d.
Proof.
  assert (forall f, exists id', d <| mDagid ::= f |> = set_dagid id' d) as Hhex by (intros f; by exists (f (mDagid d))).
  assert (forall id, exists id', set_dagid id d = set_dagid id' d) as Hid by (intros id; by exists id).
  unfold set_dagid_text. generalize (set_dagid (default junk (inet_pton6 s)) d), (Hid (default junk (inet_pton6 s))).
  intros x Hx. repeat case_match; first [exact Hx|apply Hhex].
Qed.
Lemma tool_send_part faked out i dest src msg rest w :
  tool_send faked out i dest src (msg ++ rest) (zlen msg) w = tool_send faked out i dest src msg (zlen msg) w.
Proof.
  unfold tool_send. pose proof (rd_range_app [] msg rest) as Hr. pose proof (rd_range_app [] msg []) as Hr'.
  rewrite app_nil_r in Hr'. cbn [app] in Hr, Hr'. change (zlen (@nil Z)) with 0 in Hr, Hr'. by rewrite Hr, Hr'.
Qed.
Lemma tool_subnet_good w arg p port :
  ttosubnet host_lookup net_lookup arg (zlen arg) AF_INET6 (sn_addr (mPrefix_ (junk_prefix (wsys w)))) = Good (p, port) ->
  tool_subnet arg w = Ok (Some p, w).
Proof. intros E. unfold tool_subnet. rewrite (bind_ok _ _ w (wsys w) w) by (by destruct w). by rewrite E. Qed.

(** The DIO of a DAG with a prefix: the base object, the option, and padding. *)
Definition dio_with_prefix d bs bits : list Z :=
  (header ND_RPL_DAG_IO ++ Dio.encode (dio_of d)) ++ enc (pio d bs bits :: pads 60).
Lemma dio_with_prefix_len d bs bits : dag_sized d -> length bs = 16%nat -> 0 <= bits <= 128 ->
  zlen (dio_with_prefix d bs bits) = 64.
Proof.
  intros Hd Hbs Hbits. destruct (build_prefix_dioopt_image d bs bits Hbs Hbits) as (data & _ & Hpio & Hdata & _).
  unfold dio_with_prefix. rewrite enc_cons, Hpio, !zlen_app, (Dio.encode_len _ (dio_of_wf d Hd)), tlv_enc_len. unfold pads. rewrite enc_pads.
  unfold zlen at 2. by rewrite Hdata.
Qed.
Lemma dio_with_prefix_bytes d bs bits : dag_sized d -> bytes_ok bs -> length bs = 16%nat -> 0 <= bits <= 128 ->
  bytes_ok (dio_with_prefix d bs bits).
Proof.
  intros Hd Hb Hbs Hbits. pose proof (dio_of_wf d Hd) as (?&?&?&?&?&?&?&?&_). unfold dio_with_prefix, Dio.encode, be16.
  rewrite enc_cons. unfold pads. rewrite enc_pads.
  destruct (build_prefix_dioopt_image d bs bits Hbs Hbits) as (data & _ & Hpio & Hdata & _).
  assert (bytes_ok data) as Hbytes.
  { injection Hpio as <-. repeat apply Forall_cons_2; try apply u8_ok; try done.
    apply bytes_app; [by apply Forall_take|apply bytes_ok_zeros]. }
  rewrite Hpio. cbn [tlv_enc]. replace (zlen data) with 30 by (unfold zlen; by rewrite Hdata).
  repeat (apply bytes_app); repeat apply Forall_cons_2; try apply Forall_nil_2;
    try apply u8_ok; try apply bytes_ok_zeros; done.
Qed.
(** The message of [senddio], and the send it ends in. *)
Lemma senddio_message fake name ia id va ra sa la pa bs bits port i w w1 :
  tool_scan fake w = Ok (tt, w1) -> in_sys (find_by_name name) w1 = Ok (Some i, w1) -> u16 (strtoul0 ia) <> 0 ->
  ttosubnet host_lookup net_lookup pa (zlen pa) AF_INET6 (sn_addr (mPrefix_ (junk_prefix (wsys w1)))) = Good (subnet6 bs bits, port) ->
  length bs = 16%nat -> 0 <= bits <= 128 -> (fake = true -> pcap_opens = true) ->
  let d := made_dag w1 (u16 (strtoul0 ia)) id va ra sa la in dag_sized d ->
  let msg := dio_with_prefix d bs bits in
  senddio (dio_command fake name ia id va ra sa la pa) w =
    (frames ← tool_send fake true i None None msg 64; mret (0, frames))
      (with_new_dag (d <| mDTSN ::= (fun n => u16 (n + 1)) |>) w1).
Proof.
  intros Hscan Hfind Hia Hsub Hbs Hbits Hopen d Hd msg.
  pose proof (dio_with_prefix_len d bs bits Hd Hbs Hbits) as Hmsg. fold msg in Hmsg.
  unfold senddio. rewrite (bind_ok _ _ w _ _ (dio_command_run fake name ia id va ra sa la pa i w w1 Hscan Hfind Hia)).
  fold d. clearbody d. set (w2 := with_new_dag d w1). cbn [dv_iface dv_pcapout].
  replace (fake && negb pcap_opens) with false by (destruct fake; [by rewrite Hopen|done]).
  rewrite (bind_ok _ _ w2 (mk_dio_vars (u16 (strtoul0 ia)) (Some pa) fake (msg ++ zeros (2048 - 64)) 64 fake (Some i)
    (Some (length (dags w1))) true) (with_new_dag (d <| mDTSN ::= (fun n => u16 (n + 1)) |>) w1)).
  - cbn [dv_len dv_fake dv_pcapout dv_body]. change (64 =? 0) with false. cbv iota.
    replace (negb fake || fake) with true by (by destruct fake). rewrite <-Hmsg. apply (bind_out_cong _ _ _ _ (tool_send_part _ _ _ _ _ _ _ _)).
  - unfold dio_message. cbn [dv_prefix dv_dag].
    rewrite (bind_ok _ _ w2 (mPrefix_ (junk_prefix (wsys w1))) w2) by (subst w2; by destruct w1).
    rewrite (bind_ok _ _ w2 (Some (subnet6 bs bits)) w2) by (apply (tool_subnet_good _ _ _ port); subst w2; by destruct w1).
    unfold in_dag at 1.
    assert (dags w2 !! length (dags w1) = Some d) as -> by (subst w2; destruct w1; by apply list_lookup_middle).
    rewrite (bind_ok _ _ _ d (mk_ctx d (wsys w2))) by done. change (default _ (Some (subnet6 bs bits))) with (subnet6 bs bits).
    rewrite build_dio_image by (done || lia). rewrite (app_assoc (header _ ++ _)).
    change ((header ND_RPL_DAG_IO ++ Dio.encode (dio_of d)) ++ enc (pio d bs bits :: pads 60)) with msg. subst w2. rewrite <-(put_new (d <| mDTSN ::= (fun n => u16 (n + 1)) |>) d w1). 
    rewrite (bind_ok (lift (Ok (_, _, _))) _ _ _ _ eq_refl). cbv beta iota. rewrite (bind_ok (dag_upd _) _ _ tt _ eq_refl).
    clearbody msg. by destruct w1.
Qed.

(** What is sent over the interface, and what is written to the file. *)
Lemma tool_send_real n t i msg w : (i < n)%nat -> env n t (wsys w) -> can_send i (wsys w) ->
  exists s' y, tool_send false true i None None msg (zlen msg) w = Ok ([], w <| wsys := s' |>) /\
    ifaces s' !! i = Some y /\ out s' = OIcmp i all_rpl_addr (if_addr y) msg :: out (wsys w).
Proof.
  intros Hi He Hs. destruct (send_raw_icmp_safe n t i None None msg Hi (wsys w) He) as ([] & s' & E & _).
  destruct (send_raw_icmp_sends _ _ _ _ _ _ E Hs) as (y & Hy & Hout & _). exists s', y. split; [|by split].
  unfold tool_send. pose proof (rd_range_app [] msg []) as Hr. rewrite app_nil_r in Hr. cbn [app] in Hr.
  change (zlen (@nil Z)) with 0 in Hr. rewrite Hr, (bind_ok (lift (Ok msg)) _ w msg w) by done.
  by rewrite (bind_ok _ _ w tt (w <| wsys := s' |>)) by (unfold in_sys, zoom; by rewrite E).
Qed.
Lemma tool_send_file i x msg w : ifaces (wsys w) !! i = Some x -> i ∉ freed_if (wsys w) ->
  let own := (link_local x).2 in bytes_ok own -> length own = 16%nat -> bytes_ok msg -> (4 <= length msg)%nat -> zlen msg <= 65535 ->
  (6 <= length (if_hwaddr x))%nat ->
  exists ck s', tool_send true true i None None msg (zlen msg) w =
      Ok ([ether_header (if_hwaddr x) ++ ip6_header own all_hosts_addr (zlen msg) ++ put_cksum msg ck], w <| wsys := s' |>) /\
    checksum_good own all_hosts_addr (put_cksum msg ck) /\ out s' = out (wsys w).
Proof.
  intros Hx Hf own Hown Hl16 Hmsg Hlen Hmax Hhw.
  destruct (with_checksum_spec own all_hosts_addr msg Hown ltac:(by apply (bool_decide_unpack _)) Hmsg Hl16 eq_refl Hlen Hmax)
    as (ck & Hck & Hlck & Hgood).
  exists ck, (wsys w <| ifaces ::= alter (fun _ => (link_local x).1) i |>). split; [|by split].
  unfold tool_send. pose proof (rd_range_app [] msg []) as Hr. rewrite app_nil_r in Hr. cbn [app] in Hr.
  change (zlen (@nil Z)) with 0 in Hr. rewrite Hr, (bind_ok (lift (Ok msg)) _ w msg w) by done.
  rewrite (bind_ok _ _ w x w).
  2:{ unfold in_sys, zoom, get_iface. rewrite decide_False by done. rewrite Hx. by destruct w. }
  unfold pcap_send_raw_icmp. pose proof (link_local_hwaddr x) as Hadr. subst own.
  destruct (link_local x) as [x' own]. cbn [fst snd] in *. change (default own None) with own. change (default all_hosts_addr None) with all_hosts_addr.
  rewrite Hck, Hadr. cbn [mbind outcome_bind].
  set (frame := ether_header (if_hwaddr x) ++ ip6_header own all_hosts_addr (zlen msg) ++ put_cksum msg ck).
  replace (take _ _) with frame; [done|]. symmetry.
  replace (ether_header _ ++ _ ++ _) with (frame ++ zeros 2) by (subst frame; by rewrite <-!app_assoc).
  apply take_app_length'. subst frame. rewrite app_assoc, length_app, headers_length by done.
  unfold zlen. lia.
Qed.

(** C15: [senddio] sends what its options say: given an interface, an instance, a DODAG
    id, a version, a rank, a sequence number and a prefix that [ttosubnet] reads, it
    ends with status 0 after sending one DIO of 64 bytes.  Without [--pcapout] it goes
    out over the interface to the RPL group, as the last thing sent and the only one,
    when the ND socket is open or opens with an interface that is not yet set up; with
    [--pcapout] nothing goes out and one frame is written, from the link-local address
    of the interface to all hosts, with a good checksum.  Instance, version, rank and
    DTSN are the low bits of the numbers of the options, and the option is the prefix.
    An id in hexadecimal is the id that is sent, filled up with what the memory of the
    new DAG held; one that is an IPv6 address is that address; any other text is
    ignored, and 16 bytes of the stack are sent.  Two fields no option sets: the
    grounded bit is the one the memory of the new DAG held, and so is the lifetime of
    the prefix, whatever [--prefixlifetime] said. *)
Theorem senddio_sends fake name ia id va ra sa la pa bs bits port i n t x w w1 :
  tool_scan fake w = Ok (tt, w1) -> in_sys (find_by_name name) w1 = Ok (Some i, w1) -> u16 (strtoul0 ia) <> 0 ->
  ttosubnet host_lookup net_lookup pa (zlen pa) AF_INET6 (sn_addr (mPrefix_ (junk_prefix (wsys w1)))) = Good (subnet6 bs bits, port) ->
  length bs = 16%nat -> bytes_ok bs -> 0 <= bits <= 128 ->
  let d := made_dag w1 (u16 (strtoul0 ia)) id va ra sa la in dag_sized d ->
  let msg := dio_with_prefix d bs bits in
  let run := senddio (dio_command fake name ia id va ra sa la pa) w in
  env n t (wsys w1) -> ifaces (wsys w1) !! i = Some x ->
  (fake = false -> can_send i (wsys w1) -> exists w' y, run = Ok ((0, []), w') /\
    ifaces (wsys w') !! i = Some y /\ out (wsys w') = OIcmp i all_rpl_addr (if_addr y) msg :: out (wsys w1)) /\
  (fake = true -> pcap_opens = true -> let own := (link_local x).2 in
    bytes_ok own -> length own = 16%nat -> (6 <= length (if_hwaddr x))%nat ->
    exists w' ck, run = Ok ((0, [ether_header (if_hwaddr x) ++ ip6_header own all_hosts_addr 64 ++ put_cksum msg ck]), w') /\
      checksum_good own all_hosts_addr (put_cksum msg ck) /\ out (wsys w') = out (wsys w1)) /\
  dio_of d = {| Dio.rpl_instanceid := u8 (u16 (strtoul0 ia)); Dio.rpl_version := u8 (u32 (strtoul0 va));
                Dio.rpl_dagrank := u16 (u32 (strtoul0 ra));
                Dio.rpl_mopprf := u8 (mopprf_of (mGrounded (junk_dag w1)) RPL_DIO_STORING_MULTICAST);
                Dio.rpl_dtsn := u8 (u16 (u32 (strtoul0 sa))); Dio.rpl_flags := 0; Dio.rpl_resv1 := 0; Dio.rpl_dagid := mDagid d |} /\
  mDio_lifetime d = mDio_lifetime (junk_dag w1) /\
  (forall bytes, id = hex_text bytes -> bytes_ok bytes -> (length bytes <= 16)%nat -> length (mDagid (junk_dag w1)) = 16%nat ->
    mDagid d = bytes ++ drop (length bytes) (mDagid (junk_dag w1))) /\
  (take 2 id <> codes "0x" -> mDagid d = default (take 16 (junk_bytes (wsys w1))) (inet_pton6 id)).
Proof.
  intros Hscan Hfind Hia Hsub Hbs Hb Hbits d Hd msg run He Hx.
  assert ((fake = true -> pcap_opens = true) -> run = (frames ← tool_send fake true i None None msg 64; mret (0, frames))
    (with_new_dag (d <| mDTSN ::= (fun n => u16 (n + 1)) |>) w1)) as Hrun by (intros Hopen; by eapply senddio_message).
  pose proof (dio_with_prefix_len d bs bits Hd Hbs Hbits) as Hlen. pose proof (dio_with_prefix_bytes d bs bits Hd Hb Hbs Hbits) as Hbytes.
  fold msg in Hlen, Hbytes. set (w2 := with_new_dag _ w1) in Hrun. assert (wsys w2 = wsys w1) as Hw2 by done.
  assert (i < n)%nat as Hi by (destruct He as (_ & _ & <- & _); by eapply lookup_lt_Some).
  split_and!.
  - intros -> Hs. destruct (tool_send_real n t i msg w2 Hi) as (s' & y & E & Hy & Hout); [by rewrite Hw2..|].
    exists (w2 <| wsys := s' |>), y. rewrite Hrun by done. rewrite Hlen in E. split; [|by rewrite Hw2 in Hout].
    by rewrite (bind_ok _ _ w2 _ _ E).
  - intros -> Hopen own Ho Hol Hhw. destruct He as (_ & _ & _ & _ & Hf).
    destruct (tool_send_file i x msg w2) as (ck & s' & E & Hgood & Hout); try done; [by rewrite Hw2, Hf; apply not_elem_of_nil|unfold zlen in Hlen; lia|lia|].
    exists (w2 <| wsys := s' |>), ck. rewrite Hrun by done. rewrite Hlen in E. split; [|split; [done|by rewrite Hw2 in Hout]].
    by rewrite (bind_ok _ _ w2 _ _ E).
  - unfold d, made_dag. destruct (set_dagid_text_id (default 0 (junk_bytes (wsys w1) !! 0%nat)) (take 16 (junk_bytes (wsys w1))) id
      (fresh_dag (junk_dag w1) (length (dags w1)) (u16 (strtoul0 ia)) None)) as [id' ->]. done.
  - unfold d, made_dag. by destruct (set_dagid_text_id (default 0 (junk_bytes (wsys w1) !! 0%nat)) (take 16 (junk_bytes (wsys w1))) id
      (fresh_dag (junk_dag w1) (length (dags w1)) (u16 (strtoul0 ia)) None)) as [id' ->].
  - intros bytes E Hbok Hl Hj. unfold d. rewrite made_dag_id, E, dagid_of_hex; by rewrite ?fresh_dag_id.
  - intros Ht. unfold d. rewrite made_dag_id. by apply dagid_of_text.
Qed.

(** The number [--daoack] is given does not reach the message: the variable it is
    put in is a [bool], so that any two numbers other than 0 give the same run, and
    the acknowledgement that is sent is always the one of DAO 1. *)
Lemma daoack_number_lost a b os os' w : atoi a <> 0 -> atoi b <> 0 ->
  senddao (os ++ DaoAckOf (Some a) :: os') w = senddao (os ++ DaoAckOf (Some b) :: os') w /\
  forall l k d, av_daoack l = true -> av_len l = 0 -> av_dn l = Some k -> dags w !! k = Some d -> dag_sized d ->
    exists body, dao_message l w = Ok (Some (l <| av_body := body |> <| av_len := 24 |>), w) /\
      DaoAck.overlay body icmp6_hdr_size =
        Ok {| DaoAck.rpl_instanceid := u8 (mInstanceid d); DaoAck.rpl_flags := 128; DaoAck.rpl_daoseq := 1; DaoAck.rpl_status := 0 |}.
Proof.
  intros Ha Hb. split.
  - unfold senddao. rewrite !(bind_out_cong _ _ _ _ (tool_loop_app _ _ _ _ _)), !chain_assoc. apply bind_cong.
    intros [l|status] w1 _; [|done]. cbn [tool_loop dao_step]. by rewrite (proj2 (Z.eqb_neq _ _) Ha), (proj2 (Z.eqb_neq _ _) Hb).
  - intros l k d Hack Hlen Hdn Hd Hsized. unfold dao_message. rewrite Hlen, Hack, Hdn. change (0 >? 0) with false. cbv iota.
    destruct (daoack_image d 2048 (Z.b2z true) Hsized) as (body & Hbuild & Hover & _); [lia|].
    exists body. split; [|exact Hover]. unfold in_dag. rewrite Hd.
    rewrite (bind_ok _ _ _ d (mk_ctx d (wsys w))) by done. rewrite Hbuild.
    rewrite (bind_ok (lift (Ok (_, _))) _ _ _ _ eq_refl). cbv beta iota.
    change (Ok (Some (l <| av_body := body |> <| av_len := 24 |>), put_dag k d w <| wsys := wsys w |>) =
      Ok (Some (l <| av_body := body |> <| av_len := 24 |>), w)).
    destruct w as [ds al sy j]. cbn in Hd.
    change (Ok (Some (l <| av_body := body |> <| av_len := 24 |>), mk_world (<[k := d]> ds) al sy j) =
      Ok (Some (l <| av_body := body |> <| av_len := 24 |>), mk_world ds al sy j)).
    by rewrite list_insert_id.
Qed.

(** [senddio] without [--dagid]: [--instance] and then any option for the DODAG goes
    through a variable that has no value; only when it happens to be null does the
    check in front of it end the program with its usage. *)
Lemma unset_dag_followed ia o os w : u16 (strtoul0 ia) <> 0 ->
  o = DioGrounded \/ o = DioStoring \/ o = DioMulticast \/ (exists arg, o = DioRank arg) \/ (exists arg, o = DioVersion arg) ->
  senddio (DioInstance ia :: o :: os) w = if dag_is_null then Ok ((2, []), w) else Fault OutOfBounds.
Proof.
  intros Hia Ho. unfold senddio, mbind at 1, M_bind.
  erewrite (tool_loop_go dio_step (DioInstance ia)) by done. set (l := dio_start <| dv_instance := u16 (strtoul0 ia) |>).
  assert (forall body, dio_on_dag l body w = if dag_is_null then Ok (Stop 2, w) else Fault OutOfBounds) as Hdag.
  { intros body. unfold dio_on_dag. change (dv_dag l) with (@None nat). change (dv_instance l) with (u16 (strtoul0 ia)).
    rewrite (proj2 (Z.eqb_neq _ _) Hia). by destruct dag_is_null. }
  cbn [tool_loop]. unfold mbind, M_bind.
  assert (dio_step o l w = if dag_is_null then Ok (Stop 2, w) else Fault OutOfBounds) as ->
    by (destruct Ho as [->|[->|[->|[[arg ->]|[arg ->]]]]]; apply Hdag).
  by destruct dag_is_null.
Qed.
(** [--multicast] takes multicast away from a DODAG that has it, and [--non-multicast]
    gives it to one that does not. *)
Lemma multicast_options_swapped l k d w : dv_dag l = Some k -> dv_instance l <> 0 -> dags w !! k = Some d ->
  (mMode d = RPL_DIO_STORING_MULTICAST ->
    dio_step DioMulticast l w = Ok (Go l, put_dag k (d <| mMode := RPL_DIO_STORING_NO_MULTICAST |>) w)) /\
  (mMode d = RPL_DIO_STORING_NO_MULTICAST ->
    dio_step DioNonMulticast l w = Ok (Go l, put_dag k (d <| mMode := RPL_DIO_STORING_MULTICAST |>) w)).
Proof.
  intros Hk Hi Hd. split; intros Hm; cbn [dio_step]; rewrite (dio_set_run l _ k d) by done;
    unfold set_nomulticast, set_multicast; by rewrite Hm.
Qed.
End sending.

Section witnesses.
#[local] Existing Instance libstdcxx_map.
#[local] Instance every_name : Fnmatch := fun row name => true.
#[local] Instance example_pton : InetPton := fun s => Some (Example.dagid).
#[local] Instance example_system : Startup := {
  host_lookup _ _ := None; net_lookup _ := None;  addrinfo _ := None; client_writes := true;
  kill_status := 0; daemon_ok := true; pid_dir_ok := true }.
#[local] Instance example_tools : ToolSystem := {
  open_netlink := false; dump_links := None; dump_addrs := None; wlan1_is_down := false; pcap_opens := true;
  dag_is_null := false; wpan_handle := mk_handle 0 0 0; wpan_sent := false; wpan_answers := [] }.

(** [0a 1B # a comment] and [ff] *)
Definition example_hex : list Z := codes "0a 1B #no" ++ [10] ++ codes " ff".
Lemma example_hexfile t : hexfile t (example_hex ++ t) [10; 27; 255].
Proof.
  apply (hexfile_byte t 48 97 0 10); [done|done|]. apply hexfile_space; [done|].
  apply (hexfile_byte t 49 66 1 11); [done|done|]. apply hexfile_space; [done|].
  apply (hexfile_comment t [110; 111]); [by repeat constructor|]. apply hexfile_space; [done|].
  apply (hexfile_byte t 102 102 15 15); [done|done|constructor].
Qed.
Lemma read_hex_file_witness :
  read_hex_values 20 example_hex (zeros 4) = Ok (3, [10; 27; 255; 0]) /\
  read_hex_values 20 example_hex (zeros 2) = Fault OutOfBounds.
Proof.
  pose proof (example_hexfile []) as Hf. rewrite app_nil_r in Hf. split.
  - apply (read_hex_file example_hex [10; 27; 255] (zeros 4) Hf 20). by apply Nat.ltb_lt.
  - apply (read_hex_file example_hex [10; 27; 255] (zeros 2) Hf 20). by apply Nat.ltb_lt.
Defined.
Lemma stray_character_hangs_witness : read_hex_values 1000 (example_hex ++ codes "z1") (zeros 2048) = Fault OutOfFuel.
Proof. by apply (stray_character_hangs (example_hex ++ codes "z1") [10; 27; 255] 122 (codes "1") (zeros 2048) (example_hexfile (codes "z1"))). Defined.

Lemma daoack_number_lost_witness :
  senddao ([] ++ DaoAckOf (Some (codes "7")) :: []) example_world = senddao ([] ++ DaoAckOf (Some (codes "200")) :: []) example_world.
Proof. by apply (daoack_number_lost (codes "7") (codes "200") [] [] example_world). Defined.
Lemma unset_dag_followed_witness : senddio [DioInstance (codes "0x2a"); DioGrounded] example_world = Fault OutOfBounds.
Proof. exact (unset_dag_followed (codes "0x2a") DioGrounded [] example_world ltac:(done) ltac:(by left)). Defined.

(** [senddio -i eth0 --instance 42 --dagid 0x1234 ...], and the same on a faked
    [wlan0] with [--pcapout]. *)
Definition example_made w : dag_network :=
  made_dag w (u16 (strtoul0 (codes "42"))) (hex_text [18; 52]) (codes "3") (codes "256") (codes "9") (codes "77").
Definition example_sent w : list Z := dio_with_prefix (example_made w) Example.prefix64 64.
Definition example_run (fake : bool) (name : string) : outcome (Z * list (list Z) * world) :=
  senddio (dio_command fake name (codes "42") (hex_text [18; 52]) (codes "3") (codes "256") (codes "9") (codes "77")
    (codes "fd01:203:405:607::/64")) example_world.
Definition example_scanned : world :=
  match tool_scan true example_world with Ok (_, w1) => w1 | Fault _ => example_world end.
Definition example_own : list Z := [254; 128; 0; 0; 0; 0; 0; 0; 2; 22; 62; 255; 254; 17; 52; 36].
Lemma example_scanned_env : exists t, env 2 t (wsys example_scanned).
Proof.
  eexists. split; [reflexivity|]. split_and!; try (vm_compute; reflexivity).
  by apply (bool_decide_unpack _); vm_compute.
Qed.
Lemma senddio_sends_witness :
  (exists w' y, example_run false "eth0" = Ok ((0, []), w') /\ ifaces (wsys w') !! 0%nat = Some y /\
    out (wsys w') = OIcmp 0 all_rpl_addr (if_addr y) (example_sent example_world) :: out (wsys example_world)) /\
  (exists w' ck, example_run true "wlan0" = Ok ((0, [ether_header [0; 22; 62; 17; 52; 36] ++
      ip6_header example_own all_hosts_addr 64 ++ put_cksum (example_sent example_scanned) ck]), w') /\
    checksum_good example_own all_hosts_addr (put_cksum (example_sent example_scanned) ck) /\
    out (wsys w') = out (wsys example_scanned)) /\
  mDagid (example_made example_world) = [18; 52] ++ drop 2 (mDagid (junk_dag example_world)).
Proof.
  assert (ttosubnet host_lookup net_lookup (codes "fd01:203:405:607::/64") (zlen (codes "fd01:203:405:607::/64")) AF_INET6
    (sn_addr (mPrefix_ (junk_prefix (wsys example_world)))) = Good (subnet6 Example.prefix64 64, 0)) as Hsub by (vm_compute; reflexivity).
  assert (ttosubnet host_lookup net_lookup (codes "fd01:203:405:607::/64") (zlen (codes "fd01:203:405:607::/64")) AF_INET6
    (sn_addr (mPrefix_ (junk_prefix (wsys example_scanned)))) = Good (subnet6 Example.prefix64 64, 0)) as Hsub2 by (vm_compute; reflexivity).
  assert (bytes_ok Example.prefix64) as Hb by by apply (bool_decide_unpack _).
  assert (u16 (strtoul0 (codes "42")) <> 0) as Hia by done.
  assert (dag_sized (example_made example_world)) as Hd1.
  { split; [vm_compute; reflexivity|]. split; [by apply (bool_decide_unpack _); vm_compute|]. split; vm_compute; intuition congruence. }
  assert (dag_sized (example_made example_scanned)) as Hd2.
  { split; [vm_compute; reflexivity|]. split; [by apply (bool_decide_unpack _); vm_compute|]. split; vm_compute; intuition congruence. }
  assert (env 1 (things_to_do (wsys example_world)) (wsys example_world)) as He1.
  { split; [reflexivity|]. split; [by apply (bool_decide_unpack _)|]. by split_and!. }
  assert (tool_scan false example_world = Ok (tt, example_world)) as Hscan1 by reflexivity.
  assert (in_sys (find_by_name "eth0") example_world = Ok (Some 0%nat, example_world)) as Hfind1 by reflexivity.
  assert (ifaces (wsys example_world) !! 0%nat = Some Example.iface) as Hx1 by reflexivity.
  destruct (senddio_sends false "eth0" (codes "42") (hex_text [18; 52]) (codes "3") (codes "256") (codes "9") (codes "77")
    (codes "fd01:203:405:607::/64") Example.prefix64 64 0 0 1 (things_to_do (wsys example_world)) Example.iface example_world example_world
    Hscan1 Hfind1 Hia Hsub eq_refl Hb ltac:(lia) Hd1 He1 Hx1) as (Hreal & _ & _ & _ & Hid & _).
  destruct example_scanned_env as [t2 He2].
  destruct (lookup_lt_is_Some_2 (ifaces (wsys example_scanned)) 1) as [x2 Hx2]; [by apply Nat.ltb_lt; vm_compute|].
  assert ((if_hwaddr x2, (link_local x2).2) = ([0; 22; 62; 17; 52; 36], example_own)) as [Hhw Hown]%pair_eq.
  { apply (inj Some). transitivity ((fun x => (if_hwaddr x, (link_local x).2)) <$> (ifaces (wsys example_scanned) !! 1%nat));
      [by rewrite Hx2|vm_compute; reflexivity]. }
  assert (tool_scan true example_world = Ok (tt, example_scanned)) as Hscan by (vm_compute; reflexivity).
  assert (in_sys (find_by_name "wlan0") example_scanned = Ok (Some 1%nat, example_scanned)) as Hfind by (vm_compute; reflexivity).
  destruct (senddio_sends true "wlan0" (codes "42") (hex_text [18; 52]) (codes "3") (codes "256") (codes "9") (codes "77")
    (codes "fd01:203:405:607::/64") Example.prefix64 64 0 1 2 t2 x2 example_world example_scanned
    Hscan Hfind Hia Hsub2 eq_refl Hb ltac:(lia) Hd2 He2 Hx2) as (_ & Hfile & _).
  split; [|split].
  - apply Hreal; [done|by left].
  - rewrite Hhw, Hown in Hfile. apply Hfile; [done|done|by apply (bool_decide_unpack _)|done|by apply Nat.leb_le].
  - apply (Hid [18; 52]); [done|by apply (bool_decide_unpack _)|by apply Nat.leb_le|done].
Defined.
End witnesses.
