(* ===== verification/Widths.v ===== *)
(** The types of the integers of a DAG: [dag_network] keeps ranks, counters and
    sequence numbers in fields of 32, 16 and 3 bits and the filters of its operator in
    arrays of eight; whatever the program does, they keep to that. *)

From Stdlib Require Import ZArith Lia String.
From stdpp Require Import base list gmap numbers strings.
From S2P Require Import Prelude Wire Subopt Event Prefix Text State Iface Build Dag Filters DagFacts.
From S2P Require Import Neighbour World Netlink MainLoop Devid Sunshine Loop Start.
#[local] Open Scope Z_scope.

(** * The types *)
Definition fits (bits x : Z) : Prop := 0 <= x < 2 ^ bits.
#[global] Instance fits_dec bits x : Decision (fits bits x).
Proof. unfold fits. apply _. Defined.
Definition int_fits (x : Z) : Prop := - 2 ^ 31 <= x < 2 ^ 31.
#[global] Instance int_fits_dec x : Decision (int_fits x).
Proof. unfold int_fits. apply _. Defined.
(** The integers of a DAG, each with the bits of its type; [mMode] is a field of
    three bits in every message. *)
Definition scalars (d : dag_network) : list (Z * Z) :=
  [(32, mLastSeq d); (32, mMyRank d); (32, mBestRank d); (32, mInstanceid d); (32, mLifetime d); (32, mVersion d);
   (32, mDio_lifetime d); (32, mInterval_msec d); (16, mDTSN d); (16, mDAOSequence d); (3, mMode d)].
Definition typed (d : dag_network) : Prop :=
  Forall (fun p => fits p.1 p.2) (scalars d) /\
  (length (mStats d) = PS_MAX /\ Forall (fits 32) (mStats d)) /\
  (int_fits (mIfFilter_max d) /\ zlen (mIfFilter d) = DAG_IFWILDCARD_MAX) /\
  (zlen (mIfWildcard d) <= DAG_IFWILDCARD_MAX /\ Forall (fun row => zlen row = DAG_IFWILDCARD_LEN) (mIfWildcard d)).
(** Every DAG, and the memory of one that is made. *)
Definition typed_world (w : world) : Prop := Forall typed (dags w) /\ typed (junk_dag w).

Definition typing (c c' : ctx) : Prop := typed (this c) -> typed (this c').
Definition typing_world (w w' : world) : Prop := typed_world w -> typed_world w'.
#[global] Instance typing_preorder : PreOrder typing.
Proof. split; [intros c H; exact H|]. intros a b c Hab Hbc H. by apply Hbc, Hab. Qed.
#[global] Instance typing_world_preorder : PreOrder typing_world.
Proof. split; [intros w H; exact H|]. intros a b c Hab Hbc H. by apply Hbc, Hab. Qed.

Lemma fits_u32 x : fits 32 (u32 x). Proof. exact (u32_range x). Qed.
Lemma fits_u16 x : fits 16 (u16 x). Proof. exact (u16_range x). Qed.
Lemma fits_more a b x : 0 <= a <= b -> fits a x -> fits b x.
Proof. intros Hab [H1 H2]. split; [done|]. pose proof (Z.pow_le_mono_r 2 a b). lia. Qed.
Lemma fits_byte b x : 8 <= b -> byte_ok x -> fits b x.
Proof. intros Hb Hx. apply (fits_more 8); [lia|exact Hx]. Qed.

(** * What the methods of a DAG do to the types *)
Definition shape (d : dag_network) := (scalars d, mStats d, mIfFilter_max d, mIfFilter d, mIfWildcard d).
Lemma shape_typed d d' : shape d' = shape d -> typed d -> typed d'.
Proof. intros [= ? ? ? ? ? ? ? ? ? ? ? ? ? ? ?]. unfold typed, scalars. intros H. by repeat match goal with E : _ = _ |- _ => rewrite E; clear E end. Qed.
Lemma ty_same {A} (m : M ctx A) : keeps (same shape) m -> keeps typing m.
Proof. intros Hm c a c' E. exact (shape_typed _ _ (Hm c a c' E)). Qed.
Lemma ty_upd g : (forall d, typed d -> typed (g d)) -> keeps typing (dag_upd g).
Proof. intros Hg. apply keeps_modify. intros c. exact (Hg (this c)). Qed.
Lemma ty_with_sys {A} (m : M sys A) : keeps typing (with_sys m).
Proof. apply ty_same, same_with_sys. Qed.
Lemma ty_dag_get {A} (g : dag_network -> A) : keeps typing (dag_get g).
Proof. apply ty_same, same_dag_get. Qed.
Lemma ty_deref a : keeps typing (deref_peer a).
Proof. apply ty_same, same_deref. Qed.
Lemma ty_with_member a g : keeps typing (with_member a g).
Proof. apply ty_same. intros c n c'. unfold with_member. by intros [= _ <-]. Qed.
Lemma ty_read_pm w h : keeps typing (read_pm w h).
Proof. intros c a c'. unfold read_pm. case_match; [|done]. by intros [= _ <-]. Qed.
Lemma ty_read_me : keeps typing read_me.
Proof. intros c a c'. unfold read_me. repeat case_match; try done; by intros [= _ <-]. Qed.
Lemma ty_upd_pm w h f : keeps typing (upd_pm w h f).
Proof. apply ty_upd. intros [] H. by destruct w. Qed.

(** A change of some of the integers. *)
Ltac typing :=
  intros; match goal with d : dag_network |- _ => destruct d end; unfold typed, scalars, mIfFilter_max, mIfFilter in *;
  cbn -[Z.pow u32 u16 zlen] in *; rewrite ?Forall_cons in *; cbn -[Z.pow u32 u16 zlen] in *;
  destruct_and?; split_and!; try done; auto using fits_u32, fits_u16.
Lemma ty_seq seq d : typed d -> typed (seq_update seq d).
Proof. unfold seq_update. repeat case_match; typing. Qed.
Lemma ty_stats i d : typed d -> typed (d <| mStats ::= bump i |>).
Proof. typing; [by rewrite bump_length|]. apply Forall_alter; [done|]. intros. apply fits_u32. Qed.
Lemma ty_filter i6 d d' : typed d -> set_interface_filter i6 d = Ok d' -> typed d'.
Proof.
  intros Hd. unfold set_interface_filter. destruct (Z.ltb_spec (mIfFilter_max d) DAG_IFWILDCARD_MAX) as [Hlt|]; [|by intros [= <-]].
  destruct (mIfFilter_max d <? 0); [done|]. intros [= <-]. revert Hd Hlt. unfold DAG_IFWILDCARD_MAX. typing.
  - unfold int_fits in *. lia.
  - unfold zlen in *. by rewrite length_insert.
Qed.
Lemma ty_wildcard wild d d' : typed d -> set_interface_wildcard wild d = Ok d' -> typed d'.
Proof.
  intros Hd. unfold set_interface_wildcard. destruct (Z.ltb_spec (zlen (mIfWildcard d)) DAG_IFWILDCARD_MAX) as [Hlt|]; [|by intros [= <-]].
  destruct (rd_range _ 0 _) as [src|]; [|done]. cbn [mbind outcome_bind].
  destruct (wr_range (zeros 32) 0 src) as [row|] eqn:E1; [|done]. cbn [mbind outcome_bind].
  destruct (wr_range row _ [0]) as [row'|] eqn:E2; [|done]. cbn [mbind outcome_bind]. intros [= <-].
  assert (zlen row' = DAG_IFWILDCARD_LEN) as Hrow.
  { apply wr_range_length in E1, E2. unfold zlen. by rewrite E2, E1. }
  revert Hd Hlt. unfold DAG_IFWILDCARD_MAX. typing.
  - unfold zlen, DAG_IFWILDCARD_MAX in *. rewrite length_app. cbn [length]. lia.
  - by apply Forall_app_2; [|constructor].
Qed.
#[local] Hint Resolve ty_with_sys ty_dag_get ty_deref ty_with_member ty_read_pm ty_read_me ty_upd_pm : keep.
#[local] Hint Extern 2 (keeps typing (dag_upd _)) =>
  (apply ty_upd; intros []; try exact (fun h => h); (repeat case_match); exact (fun h => h)) : keep.
#[local] Hint Extern 1 (keeps typing (dag_upd (seq_update _))) => (apply ty_upd, ty_seq) : keep.

Section dag.
Context `{EventHeap, PrefixMapSem}.

Lemma ty_count x : keeps typing (dag_count x).
Proof. apply ty_upd. intros d. apply ty_stats. Qed.
Hint Resolve ty_count : keep.
Lemma ty_schedule_dio ms : keeps typing (schedule_dio ms).
Proof. unfold schedule_dio, arm_dag_event. keep. Qed.
Lemma ty_schedule_dao : keeps typing schedule_dao.
Proof. unfold schedule_dao, arm_dag_event. keep. Qed.
Hint Resolve ty_schedule_dio ty_schedule_dao : keep.
Lemma ty_maybe_send_dao : keeps typing maybe_send_dao.
Proof. unfold maybe_send_dao. keep. Qed.
Lemma ty_maybe_schedule_dio : keeps typing maybe_schedule_dio.
Proof. unfold maybe_schedule_dio. keep. Qed.
Lemma ty_update_node i from now : keeps typing (update_node i from now).
Proof. unfold update_node. keep. Qed.
Lemma ty_announcer a : keeps typing (deref_announcer a).
Proof. unfold deref_announcer. keep. Qed.
Lemma ty_configureip w h i : keeps typing (configureip w h i).
Proof. unfold configureip. keep. Qed.
Lemma ty_add_address p : keeps typing (add_address p).
Proof. unfold add_address. keep. Qed.
Hint Resolve ty_maybe_send_dao ty_maybe_schedule_dio ty_update_node ty_announcer ty_configureip ty_add_address : keep.
Lemma ty_add_address_ip a : keeps typing (add_address_ip a).
Proof. unfold add_address_ip. keep. Qed.
Lemma ty_cfg_new_node w h i p : keeps typing (cfg_new_node w h i p).
Proof. unfold cfg_new_node. keep. Qed.
Hint Resolve ty_add_address_ip ty_cfg_new_node : keep.
Lemma ty_set_acp_identity sn : keeps typing (set_acp_identity sn).
Proof. unfold set_acp_identity. keep. Qed.
Lemma ty_add_prefix i p : keeps typing (add_prefix i p).
Proof. unfold add_prefix. keep. Qed.
Lemma ty_route_via_node h i : keeps typing (add_route_via_node h i).
Proof. unfold add_route_via_node. keep. Qed.
Lemma ty_addselfprefix i : keeps typing (addselfprefix i).
Proof. unfold addselfprefix. keep. Qed.
Hint Resolve ty_add_prefix ty_route_via_node ty_addselfprefix : keep.
Lemma ty_add_childnode peer i p : keeps typing (add_childnode_of peer i p).
Proof. unfold add_childnode_of. keep. Qed.
Hint Resolve ty_add_childnode : keep.
Lemma ty_add_all_interfaces : keeps typing add_all_interfaces.
Proof. unfold add_all_interfaces. keep. Qed.
Lemma ty_pio_loop fuel i m : keeps typing (pio_loop fuel i m).
Proof. revert m. induction fuel; intros m; cbn [pio_loop]; keep. Qed.
Lemma ty_target_loop fuel peer i m : keeps typing (target_loop fuel peer i m).
Proof. revert m. induction fuel; intros m; cbn [target_loop]; unfold add_childnode; keep. Qed.
Lemma ty_set_grounded g : keeps typing (set_grounded g).
Proof. unfold set_grounded. keep. Qed.
Lemma ty_commit_parent : keeps typing commit_parent.
Proof. unfold commit_parent. keep. Qed.
Hint Resolve ty_set_acp_identity ty_add_all_interfaces ty_pio_loop ty_target_loop ty_set_grounded ty_commit_parent : keep.

(** ** Messages that are built *)
Lemma ty_try f : (forall d d', typed d -> f d = Ok d' -> typed d') -> keeps typing (dag_try f).
Proof.
  intros Hf c b c' E Hd. unfold dag_try, mbind, M_bind, dag_get, gets, lift, id in E. destruct (f (this c)) as [d'|] eqn:Ef; [|done].
  injection E as _ <-. exact (Hf _ _ Hd Ef).
Qed.
Lemma ty_send_dio i : keeps typing (send_dio i).
Proof.
  apply (keeps_build typing (fun d => build_dio d icmp_body_size (mPrefix d)) (fun buff len => _)); [|intros b l; keep].
  intros c d' b l ->%build_dio_dag. unfold typing. destruct c as [d s]. cbn [this]. cbn. typing.
Qed.
Lemma ty_iface_send_dao i a : keeps typing (iface_send_dao i a).
Proof.
  apply (keeps_build typing (fun d => build_dao d icmp_body_size) (fun buff len => _)); [|intros b l; keep].
  intros c d' b l ->%build_dao_dag. unfold typing. destruct c as [d s]. cbn [this]. cbn. typing.
Qed.
Hint Resolve ty_send_dio ty_iface_send_dao : keep.
Lemma ty_send_dao : keeps typing send_dao.
Proof. unfold send_dao. keep. Qed.
Lemma ty_send_dis i : keeps typing (send_dis i).
Proof. unfold send_dis. keep. Qed.
Lemma ty_send_daoack i a s : keeps typing (send_daoack i a s).
Proof. unfold send_daoack. keep. Qed.
Hint Resolve ty_send_dao ty_send_dis ty_send_daoack : keep.

(** ** Messages that arrive

    What is read of a packet of bytes. *)
Definition dio_fits (dio : Dio.nd_rpl_dio) : Prop :=
  byte_ok (Dio.rpl_instanceid dio) /\ byte_ok (Dio.rpl_version dio) /\ fits 16 (Dio.rpl_dagrank dio) /\
  byte_ok (Dio.rpl_mopprf dio) /\ byte_ok (Dio.rpl_dtsn dio).
Lemma block_bytes n dat off len bs : rd_range dat 0 len = Ok bs -> bytes_ok (take (Z.to_nat n) dat) -> len <= n ->
  (off < Z.to_nat len)%nat -> byte_ok (bs !!! off).
Proof.
  intros (_ & Hlen & Hl & Hbs & ->)%rd_range_inv Hb Hn Ho. rewrite drop_0 in *. unfold zlen in *.
  assert (off < length (take (Z.to_nat len) dat))%nat as Hoff by lia.
  destruct (lookup_lt_is_Some_2 _ _ Hoff) as [x Hx]. rewrite (list_lookup_total_correct _ _ _ Hx).
  apply lookup_take_Some in Hx as [Hx _]. apply (Forall_lookup_1 _ _ off x Hb). rewrite lookup_take_lt; [done|lia].
Qed.
Lemma dio_read n dat dio : bytes_ok (take (Z.to_nat n) dat) -> Dio.size <= n -> Dio.overlay dat 0 = Ok dio -> dio_fits dio.
Proof.
  unfold Dio.size. intros Hb Hn E. apply out_bind_inv in E as (bs & E & [= <-]). unfold dio_fits. cbn.
  assert (forall off, (off < 24)%nat -> byte_ok (bs !!! off)) as Hbs by (intros off Ho; by apply (block_bytes n dat off 24)).
  pose proof (Hbs 2%nat ltac:(lia)) as H2. pose proof (Hbs 3%nat ltac:(lia)) as H3.
  split_and!; try (apply Hbs; lia). unfold fits, byte_ok, be16_val in *. lia.
Qed.

Lemma ty_potentially_lower_rank peer i dio m : dio_fits dio -> keeps typing (potentially_lower_rank peer i dio m).
Proof.
  intros (Hi & Hv & Hr & Hm & Hs). unfold potentially_lower_rank. keep. apply ty_upd.
  pose proof (RPL_DIO_MOP_range (Dio.rpl_mopprf dio) Hm) as Hmop. unfold byte_ok, fits in *.
  typing; unfold fits in *; lia.
Qed.
Lemma ty_receive_dio i from now n dat len : bytes_ok (take (Z.to_nat n) dat) -> Dio.size <= n ->
  keeps typing (dag_receive_dio i from now dat len).
Proof.
  intros Hb Hn. unfold dag_receive_dio. apply keeps_lift_bind. intros dio E.
  pose proof (dio_read n dat dio Hb Hn E) as Hd. keep. by apply ty_potentially_lower_rank.
Qed.
Lemma ty_receive_dis : keeps typing dag_receive_dis.
Proof. unfold dag_receive_dis. keep. Qed.
Lemma ty_receive_dao i from now dao dat off len : keeps typing (dag_receive_dao i from now dao dat off len).
Proof. unfold dag_receive_dao. keep. Qed.
Lemma ty_receive_daoack from ack : keeps typing (dag_receive_daoack from ack).
Proof. unfold dag_receive_daoack. keep. Qed.
End dag.
#[local] Hint Resolve ty_count ty_schedule_dio ty_maybe_send_dao ty_add_address_ip ty_set_acp_identity ty_addselfprefix
  ty_add_all_interfaces ty_set_grounded ty_send_dio ty_send_dao ty_send_dis ty_receive_dis ty_receive_dao ty_receive_daoack : keep.

(** * What the program does to the types *)
Lemma tw_in_sys {A} (m : M sys A) : keeps typing_world (in_sys m).
Proof. intros w a w'. unfold in_sys, zoom. destruct (m _) as [[]|]; [|done]. intros [= _ <-] Hw. exact Hw. Qed.
Lemma tw_in_dag {A} k (m : M ctx A) : keeps typing m -> keeps typing_world (in_dag k m).
Proof.
  intros Hm w a w'. unfold in_dag. destruct (dags w !! k) as [d|] eqn:Ed; [|done].
  destruct (m (mk_ctx d (wsys w))) as [[a' c]|] eqn:E; [|done]. intros [= _ <-] [Hds Hj]. split; [|exact Hj].
  apply Forall_insert; [exact Hds|]. apply (Hm _ _ _ E). by apply (Forall_lookup_1 _ _ k d Hds).
Qed.
#[local] Hint Resolve tw_in_sys : keep.
Ltac keep_world := repeat first [ progress (eauto 4 with keep) | keep_step | apply tw_in_dag ].

Lemma tw_all_dags body : (forall k, keeps typing_world (body k)) -> keeps typing_world (all_dags body).
Proof. intros Hb. unfold all_dags. keep_world. Qed.
Lemma ty_made junk k num : typed junk -> fits 32 num ->
  typed (junk <| dag_self := k |> <| mInstanceid := num |> <| dag_children := [] |> <| dag_prefixes := [] |>
           <| dag_announced := [] |> <| dag_members := ∅ |>).
Proof. intros Hj Hn. revert Hj. typing. Qed.
Lemma ty_init d : typed d -> typed (init_dag d).
Proof.
  destruct d. intros (Hs & _ & Hf & _). unfold scalars in Hs. cbn -[Z.pow] in Hs. rewrite !Forall_cons in Hs. destruct_and! Hs.
  split; [|split; [|split; [exact Hf|by split]]].
  - unfold scalars, init_dag. cbn -[Z.pow]. rewrite !Forall_cons. split_and!; try done; by apply (bool_decide_unpack _).
  - split; [done|]. by apply Forall_replicate.
Qed.
Lemma ty_dagid id d : typed d -> typed (set_dagid id d).
Proof. apply shape_typed. by destruct d. Qed.
Lemma tw_fresh junk k num dagid : typed junk -> fits 32 num -> typed (fresh_dag junk k num dagid).
Proof.
  intros Hj Hn. unfold fresh_dag. apply ty_init. pose proof (ty_made junk k num Hj Hn) as Hm.
  destruct dagid as [id|]; [by apply ty_dagid|exact Hm].
Qed.
Lemma tw_new_dag num dagid : fits 32 num -> keeps typing_world (new_dag_network num dagid).
Proof.
  intros Hn. unfold new_dag_network. keep_world. apply keeps_modify. intros w [Hds Hj]. split; [|exact Hj].
  apply Forall_app_2; [exact Hds|]. constructor; [by apply tw_fresh|constructor].
Qed.
Lemma tw_find_dag num l : keeps typing_world (find_dag num l).
Proof. induction l as [|k l IH]; cbn [find_dag]; keep_world. Qed.
Lemma tw_count x : keeps typing_world (world_count x).
Proof. apply tw_in_sys. Qed.
#[local] Hint Resolve tw_new_dag tw_find_dag tw_count : keep.
Lemma tw_find num : keeps typing_world (find_by_instanceid num).
Proof. unfold find_by_instanceid. keep_world. Qed.
Lemma tw_find_dagid num dagid : keeps typing_world (find_by_instanceid_dagid num dagid).
Proof. unfold find_by_instanceid_dagid. keep_world. Qed.
#[local] Hint Resolve tw_find tw_find_dagid : keep.
Lemma tw_find_or_make num id watching : fits 32 num -> keeps typing_world (find_or_make_by_instanceid num id watching).
Proof. intros Hn. unfold find_or_make_by_instanceid. keep_world. Qed.
#[local] Hint Resolve tw_find_or_make : keep.
Lemma tw_find_dag_for i num id : fits 32 num -> keeps typing_world (find_dag_for i num id).
Proof. intros Hn. unfold find_dag_for. keep_world. Qed.
#[local] Hint Resolve tw_find_dag_for : keep.

Section world.
Context `{EventHeap, PrefixMapSem, Fnmatch}.

Lemma tw_repair : keeps typing_world repair_dao_send.
Proof. apply tw_all_dags. intros k. keep_world. Qed.
Lemma tw_send_all i : keeps typing_world (send_all_dag i).
Proof. apply tw_all_dags. intros k. keep_world. Qed.
Lemma tw_send_dio_all dag : keeps typing_world (send_dio_all dag).
Proof. unfold send_dio_all. keep_world. Qed.
Hint Resolve tw_repair tw_send_all tw_send_dio_all : keep.
Lemma tw_clear_event e : keeps typing (clear_event e).
Proof. unfold clear_event. keep. Qed.
Hint Resolve tw_clear_event : keep.
Lemma tw_doit e : keeps typing_world (doit e).
Proof. unfold doit. keep_world. Qed.
Lemma tw_delete_event e : keeps typing_world (delete_event e).
Proof. unfold delete_event. keep_world. Qed.
Hint Resolve tw_doit tw_delete_event : keep.
Lemma tw_clear_events : keeps typing_world clear_events.
Proof.
  unfold clear_events. keep_world. generalize (S (length (queue (things_to_do a)))). intros fuel.
  induction fuel as [|fuel IH]; cbn [clear_events_loop]; keep_world.
Qed.
Hint Resolve tw_clear_events : keep.
Lemma tw_delete_iface i : keeps typing_world (delete_iface i).
Proof. unfold delete_iface. keep_world. Qed.
Hint Resolve tw_delete_iface : keep.

(** ** Packets *)
Lemma short_enough i a b w r w' : in_sys (packet_too_short i a b) w = Ok (r, w') -> r = (a <? b) /\ (b <= a -> w' = w).
Proof.
  unfold in_sys, zoom, packet_too_short. destruct (Z.ltb_spec a b) as [Hlt|].
  - intros [= <- <-]. split; [done|]. lia.
  - intros [= <- <-]. split; [done|]. by destruct w.
Qed.
Lemma tw_checked {B} i a b (k : bool -> M world B) :
  (b <= a -> keeps typing_world (k false)) -> keeps typing_world (k true) ->
  keeps typing_world (r ← in_sys (packet_too_short i a b); k r).
Proof.
  intros Hf Ht w x w' E. apply bind_inv in E as (r & w1 & E1 & E). pose proof (tw_in_sys _ _ _ _ E1) as Hsys.
  apply short_enough in E1 as [-> Hw]. destruct (Z.ltb_spec a b).
  - intros Hw1. exact (Ht _ _ _ E (Hsys Hw1)).
  - intros Hw1. exact (Hf ltac:(lia) _ _ _ E (Hsys Hw1)).
Qed.
Lemma tw_receive_dio i from now dat len : bytes_ok (take (Z.to_nat len) dat) -> keeps typing_world (receive_dio i from now dat len).
Proof.
  intros Hb. unfold receive_dio. apply tw_checked; [intros Hl|keep_world]. apply keeps_lift_bind. intros dio E.
  pose proof (dio_read len dat dio Hb Hl E) as (Hi & _). assert (fits 32 (Dio.rpl_instanceid dio)) by (by apply fits_byte).
  keep_world. by eapply ty_receive_dio.
Qed.
Lemma tw_read_dagid dat flag size : keeps typing_world (read_dagid dat flag size).
Proof. unfold read_dagid. keep_world. Qed.
Hint Resolve tw_read_dagid : keep.
Lemma tw_receive_dao i from now dat len : bytes_ok (take (Z.to_nat len) dat) -> keeps typing_world (receive_dao i from now dat len).
Proof.
  intros Hb. unfold receive_dao. apply tw_checked; [intros Hl|keep_world]. apply keeps_lift_bind. intros dao E.
  assert (fits 32 (Dao.rpl_instanceid dao)).
  { apply out_bind_inv in E as (bs & E & [= <-]). apply fits_byte; [lia|]. cbn. apply (block_bytes len dat 0 4); try done. lia. }
  keep_world.
Qed.
Lemma tw_receive_daoack i from now dat len : keeps typing_world (receive_daoack i from now dat len).
Proof. unfold receive_daoack. keep_world. Qed.
Lemma tw_receive_dis i dat len : keeps typing_world (receive_dis i dat len).
Proof.
  unfold receive_dis. keep_world. match goal with m : rpl_msg |- _ => revert m end. generalize scan_fuel. intros fuel.
  induction fuel as [|fuel IH]; intros m; cbn [solicited_loop]; keep_world.
Qed.
Lemma tw_nd_options fuel i bytes len : forall off, keeps typing_world (nd_options_loop fuel i bytes len off).
Proof. induction fuel as [|fuel IH]; intros off; cbn [nd_options_loop]; keep_world. Qed.
Hint Resolve tw_receive_dio tw_receive_dao tw_receive_daoack tw_receive_dis tw_nd_options : keep.
Lemma tw_receive_packet i src dst now bytes len : bytes_ok (take (Z.to_nat len) bytes) ->
  keeps typing_world (receive_packet i src dst now bytes len).
Proof.
  intros Hb. assert (bytes_ok (take (Z.to_nat (len - 4)) (drop 4 bytes))) as Hd.
  { replace (Z.to_nat (len - 4)) with (Z.to_nat len - 4)%nat by lia. rewrite <-skipn_firstn_comm. by apply Forall_drop. }
  unfold receive_packet, warn_solicitation. cbv zeta. keep_world.
Qed.
Hint Resolve tw_receive_packet : keep.
(** A datagram is bytes. *)
Definition datagram_bytes (g : datagram) : Prop := bytes_ok (rx_data g).
Lemma tw_receive now g : datagram_bytes g -> keeps typing_world (receive now g).
Proof.
  intros Hg. unfold receive. destruct (scan_control _ _) as [info|]; [|keep]. destruct (default _ info) as [dst ifindex].
  apply keeps_bind; [apply _|keep|intros [i|]; [|keep]]. apply keeps_bind; [apply _|keep|intros s]. cbv zeta.
  apply tw_receive_packet. unfold zlen. rewrite Nat2Z.id, take_app_length. by apply Forall_take.
Qed.

(** ** Announcements, and the loop *)
Lemma tw_notify i : keeps typing_world (notify_new_interface i).
Proof. apply tw_all_dags. intros k. keep_world. Qed.
Hint Resolve tw_receive tw_notify : keep.
Lemma tw_update_addr i : keeps typing_world (update_addr i).
Proof. unfold update_addr. keep_world. Qed.
Hint Resolve tw_update_addr : keep.
Lemma tw_ipinfo m : keeps typing_world (adddel_ipinfo m).
Proof. unfold adddel_ipinfo. keep_world. Qed.
Lemma tw_del_linkinfo m : keeps typing_world (del_linkinfo m).
Proof. unfold del_linkinfo. keep_world. Qed.
Hint Resolve tw_ipinfo tw_del_linkinfo : keep.
Lemma tw_gather m : keeps typing_world (gather_linkinfo m).
Proof. unfold gather_linkinfo. keep_world. Qed.
Hint Resolve tw_gather : keep.
Lemma tw_empty msgs : keeps typing_world (empty_socket msgs).
Proof. unfold empty_socket. keep_world. Qed.
Lemma tw_scan open links addrs : keeps typing_world (scan_devices open links addrs).
Proof. unfold scan_devices. keep_world. Qed.
Lemma tw_look : keeps typing_world look_for_new_interfaces.
Proof. unfold look_for_new_interfaces. keep_world. Qed.
Lemma tw_run_due fuel now : keeps typing_world (run_due fuel now).
Proof. induction fuel as [|fuel IH]; cbn [run_due]; keep_world. Qed.
Lemma tw_set_clock t : keeps typing_world (set_clock t).
Proof. apply tw_in_sys. Qed.
Hint Resolve tw_empty tw_scan tw_look tw_run_due tw_set_clock : keep.
Definition turn_bytes (t : turn) : Prop := forall g, packet_ready t = Some g -> datagram_bytes g.
Lemma tw_turn fuel t : turn_bytes t -> keeps typing_world (loop_turn fuel t).
Proof.
  intros Ht. unfold loop_turn, turn_bytes in *. destruct (packet_ready t) as [g|]; [pose proof (Ht g eq_refl)|]; cbv zeta; keep_world.
Qed.
Lemma tw_main_loop ts : Forall turn_bytes ts -> keeps typing_world (main_loop ts).
Proof.
  unfold main_loop. induction 1 as [|t ts Ht _ IH]; cbn [for_each]; [keep|].
  apply keeps_bind; [apply _| |intros _; exact IH]. pose proof tw_turn. keep_world.
Qed.
End world.

(** * The daemon *)
Section daemon.
Context `{EventHeap, PrefixMapSem, Fnmatch, InetPton, Startup, Mbedtls}.

Lemma tw_upd k f : (forall d, typed d -> typed (f d)) -> keeps typing_world (in_dag k (dag_upd f)).
Proof. intros Hf. by apply tw_in_dag, ty_upd. Qed.
Lemma tw_on_dag l body : (forall k, keeps typing_world (body k)) -> keeps typing_world (on_dag l body).
Proof. unfold on_dag. intros. keep. Qed.
Lemma tw_set_on_dag l f : (forall d, typed d -> typed (f d)) -> keeps typing_world (set_on_dag l f).
Proof. intros Hf. apply tw_on_dag. intros k. pose proof (tw_upd k f Hf). keep. Qed.
Lemma tw_with_address l arg body : (forall k sn, keeps typing (body k sn)) -> keeps typing_world (with_address l arg body).
Proof. intros Hb. apply tw_on_dag. intros k. cbv zeta. keep_world. Qed.
Lemma tw_interface l name : keeps typing_world (option_interface l name).
Proof. unfold option_interface. keep_world. Qed.
Lemma ty_rank rank d : fits 32 rank -> typed d -> typed (set_dagrank rank d).
Proof. unfold set_dagrank. typing. Qed.
Lemma tw_prefix l arg : keeps typing_world (option_prefix l arg).
Proof.
  unfold option_prefix. apply keeps_bind; [apply _|keep|intros s]. destruct (ttosubnet _ _ _ _ _ _) as [[p port]|]; [|keep].
  apply tw_on_dag. intros k. apply keeps_bind; [apply _| |intros _; keep]. apply tw_in_dag.
  apply keeps_bind; [apply _| |intros _; keep]; [keep|]. apply ty_upd. intros d. apply ty_rank. done.
Qed.
Hint Resolve tw_interface tw_prefix : keep.
Lemma ty_dagid_text v junk arg d : typed d -> typed (set_dagid_text v junk arg d).
Proof. apply shape_typed. unfold set_dagid_text. repeat case_match; by destruct d. Qed.
Lemma tw_option o l : keeps typing_world (option_step o l).
Proof.
  destruct o as [| | | | | |arg|arg|arg|arg|arg| |arg|arg|arg|arg|arg|arg|name|]; cbn [option_step]; try (by keep_world).
  - apply keeps_bind; [apply _|keep|intros [sn|]; [|keep]]. apply tw_on_dag. intros k. keep_world.
  - apply tw_with_address. intros k sn. by apply ty_upd; intros [].
  - apply tw_with_address. intros k sn. keep.
  - apply tw_set_on_dag. by intros [].
  - apply tw_on_dag. intros k. pose proof (ty_try (set_interface_wildcard arg) (ty_wildcard arg)). keep_world.
  - apply tw_on_dag. intros k. apply keeps_bind; [apply _|keep|intros s]. cbv zeta.
    apply keeps_bind; [apply _| |intros _; keep]. apply tw_in_dag, ty_try. intros d d' Hd. by apply ty_filter.
  - apply keeps_bind; [apply _| |intros k].
    + apply tw_new_dag, (fits_more 16), fits_u16. lia.
    + apply keeps_bind; [apply _| |intros _; keep]. apply tw_in_dag. keep. apply ty_upd. unfold set_interval. typing.
  - apply tw_set_on_dag. unfold set_interval. typing.
  - apply tw_set_on_dag. unfold set_sequence. intros d Hd. pose proof (ty_rank _ d (fits_u32 (atoi arg)) Hd) as Hr.
    revert Hr. generalize (set_dagrank (u32 (atoi arg)) d). clear. typing.
  - apply tw_on_dag. intros k. apply keeps_bind; [apply _|keep|intros s].
    apply keeps_bind; [apply _| |intros _; keep]. apply tw_upd. intros d. apply ty_dagid_text.
  - apply tw_set_on_dag. unfold set_nomulticast. intros d. case_match; [|done]. typing.
Qed.
Lemma tw_option_loop os : forall l, keeps typing_world (option_loop os l).
Proof.
  induction os as [|o os IH]; intros l; cbn [option_loop]; [keep|]. pose proof tw_option.
  apply keeps_bind; [apply _|done|intros [l'|status]; [apply IH|keep]].
Qed.
Lemma tw_start_dag l : keeps typing_world (start_dag l).
Proof. unfold start_dag. keep_world. Qed.
Lemma tw_start open links addrs os : keeps typing_world (start open links addrs os).
Proof. unfold start. pose proof tw_option_loop. pose proof tw_start_dag. pose proof tw_scan. keep. Qed.

(** C5: The integers of every DAG keep to the types they have: from a state in which
    they do (and memory that new DAGs are made in), whatever the command line says,
    whatever the kernel announces and whatever bytes arrive, the ranks, versions,
    lifetimes and counters stay in 32 bits, the sequence numbers in 16, the mode in
    the 3 of its enumeration, and the names and filters of the operator in their
    arrays of eight. *)
Theorem integers_keep_their_types open links addrs os ts w r w' : typed_world w -> Forall turn_bytes ts ->
  sunshine open links addrs os ts w = Ok (r, w') -> typed_world w'.
Proof.
  intros Hw Hts E. assert (keeps typing_world (sunshine open links addrs os ts)) as Hk; [|exact (Hk _ _ _ E Hw)].
  unfold sunshine. pose proof tw_start. pose proof (tw_main_loop ts Hts). keep.
Qed.
End daemon.

Section witnesses.
#[local] Existing Instance libstdcxx_map.
#[local] Existing Instance example_startup.
#[local] Existing Instance example_mbedtls.
#[local] Instance any_name : Fnmatch := fun row name => true.
#[local] Instance pton_nothing : InetPton := fun s => None.

Definition example_end : outcome (option Z * world) :=
  sunshine true (Some example_found) (Some example_addressed) example_line example_turns example_boot.
Definition example_ended : world := match example_end with Ok (_, w) => w | Fault _ => example_boot end.
Lemma integers_keep_their_types_witness : typed_world example_boot /\ typed_world example_ended.
Proof.
  assert (typed_world example_boot) as Hw.
  { split; [constructor|]. split_and!; by apply (bool_decide_unpack _). }
  split; [exact Hw|].
  apply (integers_keep_their_types true (Some example_found) (Some example_addressed) example_line example_turns example_boot None).
  - exact Hw.
  - repeat constructor; intros g [= <-]; by apply (bool_decide_unpack _).
  - vm_compute. reflexivity.
Defined.
End witnesses.
