(* ===== verification/Log.v ===== *)
(** The log of [lib/libndmgmt/debug.cpp] and [include/debug.h],
    which puts a line together in a buffer from the pieces of several calls.

    A call of the log comes with its format and with the text [vsnprintf] makes of
    it; the files are what has been written to them, the latest first. *)

From Stdlib Require Import ZArith Lia String.
From stdpp Require Import base list numbers strings.
From S2P Require Import Prelude Text Eui.
#[local] Open Scope Z_scope.

(** * The log *)
Definition LOG_ERR : Z := 3.
Definition LOG_WARNING : Z := 4.
Definition LOG_NOTICE : Z := 5.
Definition LOG_INFO : Z := 6.
Definition LOG_DEBUG : Z := 7.

(** [logspot]: null, in the buffer, or what the memory held. *)
Inductive spot := Nowhere | Spot (off : Z) | Wild.
Inductive sent :=
| ToFile (text : list Z)
| ToSyslog (level : Z) (text : list Z)
| Opened (progname : list Z).
#[global] Instance sent_eq_dec : EqDecision sent.
Proof. solve_decision. Defined.
Record rpl_debug := mk_debug {
  flag : bool;
  log_syslog : bool;
  log_file : bool;
  syslog_open : bool;
  logspot : spot;
  needslf : bool;
  syslogbuf : list Z;
  sysloglen : Z;
  debug_flags : Z;
  file : bool;                    (** [file != NULL] *)
  progname : list Z;
  want_time_log : bool;
  log_out : list sent
}.
#[global] Instance eta_debug : Eta rpl_debug := fun r =>
  mk_debug (flag r) (log_syslog r) (log_file r) (syslog_open r) (logspot r) (needslf r) (syslogbuf r) (sysloglen r)
    (debug_flags r) (file r) (progname r) (want_time_log r) (log_out r).
Definition buf_size : Z := 1024.

(** The constructor, on the memory of the object. *)
Definition new_debug (verbose out : bool) (junk : rpl_debug) : rpl_debug :=
  junk <| flag := verbose |> <| debug_flags := 0 |> <| file := out |> <| want_time_log := false |>
    <| log_file := true |> <| log_syslog := false |> <| progname ::= (fun p => [83; 0] ++ drop 2 p) |>.

(** [basename]: from the last slash on. *)
Fixpoint from_slash (slash p : list Z) : list Z :=
  match p with
  | [] => slash
  | c :: p' => from_slash (if c =? 47 then p else slash) p'
  end.
Definition basename (filename : list Z) : list Z := from_slash filename filename.
Definition set_progname (a_progname : list Z) (d : rpl_debug) : rpl_debug :=
  d <| progname ::= (fun p => let s := take 63 (basename a_progname) ++ [0] in s ++ drop (length s) p) |>
    <| syslog_open := false |>.
Definition set_verbose (f : bool) (d : rpl_debug) : rpl_debug := d <| file := f |> <| flag := true |>.
Definition verbose_test (d : rpl_debug) : bool := flag d && file d.
Definition set_debug_flags (flags : Z) (d : rpl_debug) : rpl_debug := d <| debug_flags := u32 flags |>.
Definition set_debug_flag (dl : Z) (d : rpl_debug) : rpl_debug := d <| debug_flags ::= (fun f => Z.lor f dl) |>.
Definition clear_debug_flag (dl : Z) (d : rpl_debug) : rpl_debug :=
  d <| debug_flags ::= (fun f => Z.land f (Z.lxor dl 268435455)) |>.
Definition flag_set (level : Z) (d : rpl_debug) : bool := negb (Z.land level (debug_flags d) =? 0).

(** A string in the buffer; there may be none. *)
Definition buffer_string (buf : list Z) : outcome (list Z) :=
  if bool_decide (0 ∈ buf) then Ok (c_string buf) else Fault OutOfBounds.
Definition send (s : sent) : M rpl_debug unit := modify (fun d => d <| log_out ::= cons s |>).
Definition open_syslog : M rpl_debug unit :=
  d ← get;
  if syslog_open d then mret tt
  else send (Opened (progname d)) ;; modify (fun d => d <| syslog_open := true |>).
Definition logv_file_flush : M rpl_debug unit :=
  d ← get;
  if negb (file d) then mret tt else text ← lift (buffer_string (syslogbuf d)); send (ToFile text).
Definition logv_syslog_flush (level : Z) : M rpl_debug unit :=
  open_syslog ;;
  d ← get;
  text ← lift (buffer_string (syslogbuf d));
  send (ToSyslog (if level =? 0 then LOG_INFO else level) text).
Definition logv_flush (level : Z) : M rpl_debug unit :=
  d ← get;
  when (log_file d) logv_file_flush ;;
  when (log_syslog d) (logv_syslog_flush level) ;;
  modify (fun d => d <| logspot := Nowhere |>).
Definition flush : M rpl_debug unit :=
  logv_flush 0 ;;
  d ← get;
  when (log_file d) (if file d then send (ToFile [10]) else fail NullDeref).
Definition close_log : M rpl_debug unit := logv_flush LOG_ERR.

(** [vsnprintf] at an offset of the buffer; the size is converted to a [size_t]. *)
Definition vsnprintf (buf : list Z) (off size : Z) (text : list Z) : outcome (list Z) :=
  let size := size mod 18446744073709551616 in
  if size =? 0 then Ok buf
  else wr_range buf off ((if zlen text <? size then text else take (Z.to_nat (size - 1)) text) ++ [0]).
Definition ends_line (fmt : list Z) : bool := (zlen fmt >? 1) && bool_decide (last fmt = Some 10).
Definition put_text (text : list Z) : M rpl_debug unit :=
  d ← get;
  (match logspot d with
   | Nowhere => modify (fun d => d <| logspot := Spot 0 |> <| sysloglen := buf_size |>)
   | _ => mret tt
   end) ;;
  d ← get;
  match logspot d with
  | Spot off =>
      buf ← lift (vsnprintf (syslogbuf d) off (sysloglen d) text);
      modify (fun d => d <| syslogbuf := buf |> <| sysloglen ::= (fun n => s32 (n - zlen text)) |>
                         <| logspot := Spot (off + zlen text) |>)
  | _ => fail OutOfBounds
  end.
Definition logv_append (level : Z) (fmt text : list Z) : M rpl_debug unit :=
  put_text text ;;
  if ends_line fmt then logv_flush level ;; modify (fun d => d <| needslf := false |>)
  else modify (fun d => d <| needslf := true |>).
Definition logv_more (level : Z) (fmt text : list Z) : M rpl_debug unit := logv_append level fmt text.
(** The time of the log is printed by the format [stamp_fmt]. *)
Definition stamp_fmt : list Z := codes "[%s.%u] ".
Definition logv (level : Z) (stamp fmt text : list Z) : M rpl_debug unit :=
  d ← get;
  when (needslf d) (logv_flush level) ;;
  when (want_time_log d) (logv_append level stamp_fmt stamp) ;;
  logv_append level fmt text.

(** The calls of the program. *)
Inductive logging := Log | Info | InfoMore | Warn | Error | VerboseMore | Verbose | Verbose2 | Debug (level : Z).
Record log_call := mk_call { call_kind : logging; call_stamp : list Z; call_fmt : list Z; call_text : list Z }.
Definition do_call (c : log_call) : M rpl_debug unit :=
  d ← get;
  let starts level := logv level (call_stamp c) (call_fmt c) (call_text c) in
  let goes_on level := logv_more level (call_fmt c) (call_text c) in
  match call_kind c with
  | Log => when (flag d) (starts LOG_INFO)
  | Info => starts LOG_INFO
  | InfoMore => goes_on LOG_INFO
  | Warn => starts LOG_WARNING
  | Error => starts LOG_ERR
  | VerboseMore => when (flag d) (goes_on LOG_DEBUG)
  | Verbose => when (flag d) (starts LOG_DEBUG)
  | Verbose2 => mret tt
  | Debug level => when (flag_set level d) (starts LOG_DEBUG)
  end.
Definition do_calls (cs : list log_call) : M rpl_debug unit := for_each cs do_call.

(** ** What the log promises

    The line that is put together, or the last one that was; whether it goes on;
    and what has been written.  An answer of [None]: the line has no room. *)
Record line_log := mk_lines { text_of : list Z; live : bool; sent_of : list sent; opened : bool }.
#[global] Instance eta_lines : Eta line_log := fun r => mk_lines (text_of r) (live r) (sent_of r) (opened r).

Section spec.
Variable config : rpl_debug.    (** the flags, and where the lines go *)

Definition spec_file (a : line_log) : line_log :=
  if log_file config && file config then a <| sent_of ::= cons (ToFile (text_of a)) |> else a.
Definition spec_syslog (level : Z) (a : line_log) : line_log :=
  if log_syslog config then
    let a := if opened a then a else a <| sent_of ::= cons (Opened (progname config)) |> <| opened := true |> in
    a <| sent_of ::= cons (ToSyslog (if level =? 0 then LOG_INFO else level) (text_of a)) |>
  else a.
Definition spec_flush (level : Z) (a : line_log) : line_log := spec_syslog level (spec_file a) <| live := false |>.
Definition spec_append (level : Z) (fmt text : list Z) (a : line_log) : option line_log :=
  let line := (if live a then text_of a else []) ++ text in
  if zlen line <? buf_size then
    let a := a <| text_of := line |> <| live := true |> in
    Some (if ends_line fmt then spec_flush level a else a)
  else None.
Definition spec_logv (level : Z) (stamp fmt text : list Z) (a : line_log) : option line_log :=
  let a := if live a then spec_flush level a else a in
  a ← (if want_time_log config then spec_append level stamp_fmt stamp a else Some a);
  spec_append level fmt text a.
Definition spec_call (c : log_call) (a : line_log) : option line_log :=
  let starts level := spec_logv level (call_stamp c) (call_fmt c) (call_text c) a in
  let goes_on level := spec_append level (call_fmt c) (call_text c) a in
  match call_kind c with
  | Log => if flag config then starts LOG_INFO else Some a
  | Info => starts LOG_INFO
  | InfoMore => goes_on LOG_INFO
  | Warn => starts LOG_WARNING
  | Error => starts LOG_ERR
  | VerboseMore => if flag config then goes_on LOG_DEBUG else Some a
  | Verbose => if flag config then starts LOG_DEBUG else Some a
  | Verbose2 => Some a
  | Debug level => if flag_set level config then starts LOG_DEBUG else Some a
  end.
Fixpoint spec_calls (cs : list log_call) (a : line_log) : option line_log :=
  match cs with
  | [] => Some a
  | c :: cs' => a ← spec_call c a; spec_calls cs' a
  end.

(** The flags of the log are those of [config]. *)
Definition configured (d : rpl_debug) : Prop :=
  (flag d, log_syslog d, log_file d, debug_flags d) = (flag config, log_syslog config, log_file config, debug_flags config) /\
  (file d, progname d, want_time_log d) = (file config, progname config, want_time_log config).
Definition holds_line (d : rpl_debug) (a : line_log) : Prop :=
  zlen (syslogbuf d) = buf_size /\ Forall (fun c => c <> 0) (text_of a) /\
  (exists rest, syslogbuf d = text_of a ++ 0 :: rest) /\
  (log_out d, syslog_open d) = (sent_of a, opened a) /\
  if live a then logspot d = Spot (zlen (text_of a)) /\ sysloglen d = buf_size - zlen (text_of a) else logspot d = Nowhere.
Definition represents (d : rpl_debug) (a : line_log) : Prop := configured d /\ holds_line d a /\ needslf d = live a.

Lemma buffer_holds d a : holds_line d a -> buffer_string (syslogbuf d) = Ok (text_of a).
Proof.
  intros (_ & Hne & (rest & ->) & _). unfold buffer_string. rewrite bool_decide_true by (apply elem_of_app; right; left).
  by rewrite c_string_cut.
Qed.
Lemma flush_spec level d a : configured d -> holds_line d a ->
  exists d', logv_flush level d = Ok (tt, d') /\ configured d' /\ holds_line d' (spec_flush level a) /\ needslf d' = needslf d.
Proof.
  intros Hc Hl. pose proof (buffer_holds d a Hl) as Hb. unfold logv_flush, logv_file_flush, logv_syslog_flush, open_syslog, send.
  destruct Hc as [[= Hflag Hsys Hfile Hflags] [= Hf Hp Hw]]. destruct Hl as (Hlen & Hne & Hbuf & [= Hout Hop] & _).
  destruct d, a. cbn in *. subst.
  unfold spec_flush, spec_file, spec_syslog, when, mbind, M_bind, get, modify, lift, mret, M_ret. cbn.
  destruct (log_file config) eqn:?, (file config) eqn:?, (log_syslog config) eqn:?, opened0; repeat (cbn; rewrite ?Hb);
    eexists; (split; [done|]); split_and!; try done; by split; cbn; congruence.
Qed.
Lemma wr_splice pre post bs : zlen bs <= zlen post -> wr_range (pre ++ post) (zlen pre) bs = Ok (pre ++ bs ++ drop (length bs) post).
Proof.
  intros Hl. unfold wr_range. rewrite zlen_app, !(proj2 (Z.leb_le _ _)) by (pose proof (zlen_nonneg pre); lia). cbn [andb].
  unfold zlen. rewrite Nat2Z.id, take_app_length, <-drop_drop. by rewrite drop_app_length.
Qed.
Lemma put_spec text d a : configured d -> holds_line d a -> Forall (fun c => c <> 0) text ->
  let line := (if live a then text_of a else []) ++ text in zlen line < buf_size ->
  exists d', put_text text d = Ok (tt, d') /\ configured d' /\ holds_line d' (a <| text_of := line |> <| live := true |>).
Proof.
  intros Hc (Hlen & Hne & (rest & Hbuf) & [= Hout Hop] & Hspot) Ht line Hroom.
  assert (exists pre post : list Z, syslogbuf d = pre ++ post /\ line = pre ++ text /\ Forall (fun c => c <> 0) pre /\
    put_text text d = put_text text (d <| logspot := Spot (zlen pre) |> <| sysloglen := buf_size - zlen pre |>))
    as (pre & post & Hb & Hline & Hpre & ->).
  { subst line. destruct (live a).
    - exists (text_of a), (0 :: rest). split_and!; try done. destruct Hspot as [Hs Hn]. unfold put_text. destruct d. cbn in *. by subst.
    - exists [], (syslogbuf d). split_and!; try done. unfold put_text, mbind, M_bind, get. destruct d. cbn in *. by subst. }
  rewrite Hline in *. rewrite zlen_app in Hroom. pose proof (zlen_nonneg pre). pose proof (zlen_nonneg text). unfold buf_size in *.
  assert (zlen post = 1024 - zlen pre) as Hpost by (rewrite Hb, zlen_app in Hlen; lia).
  assert (vsnprintf (pre ++ post) (zlen pre) (1024 - zlen pre) text = Ok (pre ++ (text ++ [0]) ++ drop (S (length text)) post)) as Hv.
  { unfold vsnprintf. rewrite Z.mod_small by lia. rewrite (proj2 (Z.eqb_neq _ _)), (proj2 (Z.ltb_lt _ _)) by lia.
    rewrite wr_splice by (rewrite zlen_app; change (zlen [0]) with 1; lia). rewrite length_app, Nat.add_comm. done. }
  unfold put_text, mbind, M_bind, get, lift, modify. destruct d. cbn [syslogbuf sysloglen logspot] in *. cbn. rewrite Hb, Hv. cbn.
  eexists. split; [done|]. split; [exact Hc|]. split_and!; cbn.
  - unfold zlen, buf_size in *. rewrite !length_app, length_drop. cbn [length]. lia.
  - by apply Forall_app_2.
  - exists (drop (S (length text)) post). by rewrite <-!app_assoc.
  - cbn in Hout, Hop. by subst.
  - unfold buf_size. rewrite zlen_app. split; [done|]. rewrite s32_small by lia. lia.
Qed.
Lemma append_spec level fmt text d a a' : configured d -> holds_line d a -> Forall (fun c => c <> 0) text ->
  spec_append level fmt text a = Some a' -> exists d', logv_append level fmt text d = Ok (tt, d') /\ represents d' a'.
Proof.
  intros Hc Hl Ht. unfold spec_append, logv_append. destruct (Z.ltb_spec (zlen ((if live a then text_of a else []) ++ text)) buf_size); [|done].
  destruct (put_spec text d a Hc Hl Ht) as (d1 & E1 & Hc1 & Hl1); [done|]. rewrite (bind_ok _ _ d tt d1 E1). intros [= <-].
  destruct (ends_line fmt).
  - destruct (flush_spec level d1 _ Hc1 Hl1) as (d2 & E2 & Hc2 & Hl2 & _). rewrite (bind_ok _ _ d1 tt d2 E2).
    eexists. split; [done|]. split; [exact Hc2|]. by split; [exact Hl2|].
  - eexists. split; [done|]. split; [exact Hc1|]. by split; [exact Hl1|].
Qed.
Lemma logv_spec level stamp fmt text d a a' : represents d a -> Forall (fun c => c <> 0) stamp -> Forall (fun c => c <> 0) text ->
  spec_logv level stamp fmt text a = Some a' -> exists d', logv level stamp fmt text d = Ok (tt, d') /\ represents d' a'.
Proof.
  intros (Hc & Hl & Hn) Hst Ht. unfold spec_logv, logv. rewrite (bind_ok _ _ d d d) by done.
  assert (want_time_log d = want_time_log config) as -> by (by destruct Hc as [_ [= _ _ ->]]).
  assert (exists d1, when (needslf d) (logv_flush level) d = Ok (tt, d1) /\ configured d1 /\
    holds_line d1 (if live a then spec_flush level a else a)) as (d1 & E1 & Hc1 & Hl1).
  { rewrite Hn. destruct (live a); [|by exists d]. destruct (flush_spec level d a Hc Hl) as (d1 & E & ? & ? & _). by exists d1. }
  rewrite (bind_ok _ _ d tt d1 E1). generalize (if live a then spec_flush level a else a) Hl1. clear Hl1. intros a1 Hl1.
  destruct (want_time_log config); cbn [when].
  - destruct (spec_append level stamp_fmt stamp a1) as [a2|] eqn:E2; [|done]. cbn [mbind option_bind]. intros Ha.
    destruct (append_spec level stamp_fmt stamp d1 a1 a2) as (d2 & E3 & Hc2 & Hl2 & _); try done.
    rewrite (bind_ok _ _ d1 tt d2 E3). by apply (append_spec level fmt text d2 a2).
  - cbn [mbind option_bind]. intros Ha. rewrite (bind_ok _ _ d1 tt d1) by done. by apply (append_spec level fmt text d1 a1).
Qed.
Definition call_ok (c : log_call) : Prop := Forall (fun c => c <> 0) (call_stamp c) /\ Forall (fun c => c <> 0) (call_text c).
Lemma call_spec c d a a' : represents d a -> call_ok c -> spec_call c a = Some a' ->
  exists d', do_call c d = Ok (tt, d') /\ represents d' a'.
Proof.
  intros Hr [Hst Ht]. unfold spec_call, do_call. rewrite (bind_ok _ _ d d d) by done. pose proof Hr as (Hc & Hl & _).
  assert (flag d = flag config /\ debug_flags d = debug_flags config) as [Ef Ed] by (by destruct Hc as [[= -> _ _ ->] _]).
  unfold flag_set. rewrite Ef, Ed. destruct (call_kind c); cbv zeta; repeat case_match; cbn [when];
    try (by apply logv_spec); try (by apply append_spec); intros [= <-]; by exists d.
Qed.

(** C27: The log is a buffer of one line.  As long as the lines that are put together
    have at most 1023 characters, every sequence of calls does what the
    specification says: a call that starts a line first sends off the line that was
    left open, and prefixes the time when the operator wants it; the pieces are put
    together in order; the piece whose format ends the line sends it, to the file
    and the system log as configured; calls below the level leave no trace. *)
Theorem log_refines cs : forall d a a', represents d a -> Forall call_ok cs -> spec_calls cs a = Some a' ->
  exists d', do_calls cs d = Ok (tt, d') /\ represents d' a'.
Proof.
  unfold do_calls. induction cs as [|c cs IH]; intros d a a' Hr Hok; cbn [spec_calls for_each].
  - intros [= <-]. by exists d.
  - apply Forall_cons in Hok as [Hc Hok]. destruct (spec_call c a) as [a1|] eqn:E; [|done]. cbn [mbind option_bind]. intros Hcs.
    destruct (call_spec c d a a1 Hr Hc E) as (d1 & E1 & Hr1). rewrite (bind_ok _ _ d tt d1 E1). by apply (IH d1 a1).
Qed.
End spec.

(** ** Lines that have no room *)
Section overrun.
Implicit Types (d : rpl_debug) (fmt text : list Z).

(** A line is begun. *)
Definition fresh_line d : Prop := logspot d = Nowhere /\ zlen (syslogbuf d) = buf_size.
Lemma put_long text d : fresh_line d -> buf_size <= zlen text < 2147483648 ->
  put_text text d = Ok (tt, d <| syslogbuf := take 1023 text ++ [0] |> <| sysloglen := buf_size - zlen text |>
                              <| logspot := Spot (zlen text) |>).
Proof.
  intros [Hs Hlen] Ht. unfold buf_size in *.
  assert (vsnprintf (syslogbuf d) 0 1024 text = Ok (take 1023 text ++ [0])) as Hv.
  { unfold vsnprintf. rewrite Z.mod_small by lia. cbn [Z.eqb]. rewrite (proj2 (Z.ltb_ge _ _)) by lia.
    change (Z.to_nat (1024 - 1)) with 1023%nat.
    assert (length (take 1023 text ++ [0]) = 1024%nat) as Hl by (rewrite length_app, length_take; cbn [length]; unfold zlen in Ht; lia).
    unfold wr_range. cbn [Z.leb Z.compare andb Z.to_nat take]. rewrite (proj2 (Z.leb_le _ _)) by (unfold zlen in *; lia).
    rewrite drop_ge by (unfold zlen in *; lia). by rewrite app_nil_r. }
  unfold put_text, mbind, M_bind, get, lift, modify. destruct d. cbn in Hs, Hlen, Hv. subst. cbn. unfold buf_size. rewrite Hv. cbn.
  by rewrite <-(s32_small (1024 - zlen text)) by lia.
Qed.
Lemma put_past text d off n : logspot d = Spot off -> sysloglen d = n -> - 2147483648 <= n < 0 -> zlen (syslogbuf d) = buf_size ->
  buf_size <= off -> zlen text < 2147483648 -> put_text text d = Fault OutOfBounds.
Proof.
  intros Hs Hn Hneg Hlen Hoff Ht. unfold buf_size in *. unfold put_text, mbind, M_bind, get, lift, modify. destruct d. cbn in Hs, Hlen, Hn. subst. cbn.
  unfold vsnprintf. replace (n mod 18446744073709551616) with (n + 18446744073709551616)
    by (rewrite <-(Z_mod_plus_full _ 1), Z.mod_small; lia).
  rewrite (proj2 (Z.eqb_neq _ _)), (proj2 (Z.ltb_lt _ _)) by lia. unfold wr_range. rewrite zlen_app. change (zlen [0]) with 1.
  pose proof (zlen_nonneg text). by rewrite (proj2 (Z.leb_gt (_ + _) _)), andb_false_r by lia.
Qed.

(** C31: A piece of more than 1024 characters is cut to the 1023 the buffer has room
    for, but the place where the line goes on and the room that is left are reckoned
    with its whole length.  When the format ends the line, what is cut off is only
    lost, with the end of the line; when it does not, the next piece of the line is
    written past the buffer. *)
Theorem long_piece_overruns level fmt text fmt' text' d : fresh_line d -> buf_size < zlen text < 2147483648 ->
  zlen text' < 2147483648 -> Forall (fun c => c <> 0) text ->
  (ends_line fmt = true -> log_file d = true -> file d = true -> log_syslog d = false ->
    exists d', logv_append level fmt text d = Ok (tt, d') /\ log_out d' = ToFile (take 1023 text) :: log_out d /\ logspot d' = Nowhere) /\
  (ends_line fmt = false -> (logv_append level fmt text ;; logv_more level fmt' text') d = Fault OutOfBounds).
Proof.
  intros Hd Ht Ht' Hne. pose proof (put_long text d Hd ltac:(lia)) as Hput. unfold logv_append. split.
  - intros -> Hlf Hf Hsys. rewrite (bind_ok _ _ d tt _ Hput).
    unfold logv_flush, logv_file_flush, send, mbind, M_bind, get, modify, when, lift, mret, M_ret. destruct d. cbn in Hlf, Hf, Hsys. subst. cbn.
    assert (buffer_string (take 1023 text ++ [0]) = Ok (take 1023 text)) as ->.
    { unfold buffer_string. rewrite bool_decide_true by (apply elem_of_app; right; left). by rewrite c_string_cut by by apply Forall_take. }
    cbn. by eexists.
  - intros ->. rewrite bind_then, (bind_ok _ _ d tt _ Hput). unfold modify. rewrite (bind_ok _ _ _ tt _ eq_refl).
    unfold logv_more, logv_append. unfold mbind, M_bind. rewrite (put_past text' _ (zlen text) (buf_size - zlen text)); try done; try lia.
    + unfold buf_size in *. lia.
    + cbn. unfold zlen, buf_size in *. rewrite length_app, length_take. cbn [length]. lia.
Qed.

(** [flush] sends the line off but leaves [needslf], so that the next line sends it
    once more. *)
Lemma flush_repeats_line config d a level fmt text : represents config d a -> live a = true ->
  want_time_log config = false -> log_file config = true -> file config = true -> log_syslog config = false ->
  Forall (fun c => c <> 0) text -> zlen text < buf_size -> ends_line fmt = true ->
  exists d', (flush ;; logv level [] fmt text) d = Ok (tt, d') /\
    log_out d' = ToFile text :: ToFile (text_of a) :: ToFile [10] :: ToFile (text_of a) :: sent_of a.
Proof.
  intros (Hc & Hl & Hn) Hlive Hw Hlf Hf Hs Ht Hroom Hend. unfold flush. rewrite bind_then.
  destruct (flush_spec config 0 d a Hc Hl) as (d1 & E1 & Hc1 & Hl1 & Hn1). rewrite (bind_ok _ _ d tt d1 E1).
  assert (log_file d1 = true /\ file d1 = true) as [El Ef] by (by destruct Hc1 as [[= _ _ -> _] [= -> _ _]]).
  unfold spec_flush, spec_file, spec_syslog in Hl1. rewrite Hlf, Hf, Hs in Hl1. cbn [andb] in Hl1.
  set (a1 := a <| sent_of ::= cons (ToFile (text_of a)) |> <| live := false |>) in Hl1.
  set (d2 := d1 <| log_out ::= cons (ToFile [10]) |>). set (a2 := a1 <| sent_of ::= cons (ToFile [10]) |>).
  assert (configured config d2 /\ holds_line d2 a2 /\ needslf d2 = true) as (Hc2 & Hl2 & Hn2).
  { split; [exact Hc1|]. split; [|by rewrite Hn, Hlive in Hn1]. destruct Hl1 as (H1 & H2 & H3 & [= H4 H5] & H6).
    split_and!; try done. by cbn; rewrite H4, H5. }
  rewrite chain_assoc, (bind_ok _ _ d1 d1 d1) by done. rewrite (bind_ok _ _ d1 tt d2) by (unfold when; by rewrite El, Ef).
  unfold logv. rewrite (bind_ok _ _ d2 d2 d2) by done. rewrite Hn2.
  assert (want_time_log d2 = false) as -> by (destruct Hc2 as [_ [= _ _ Ew]]; cbn; congruence). cbn [when].
  destruct (flush_spec config level d2 a2 Hc2 Hl2) as (d3 & E3 & Hc3 & Hl3 & _). rewrite (bind_ok _ _ d2 tt d3 E3).
  rewrite (bind_ok _ _ d3 tt d3) by done.
  unfold spec_flush, spec_file, spec_syslog in Hl3. rewrite Hlf, Hf, Hs in Hl3. cbn [andb] in Hl3.
  edestruct (append_spec config level fmt text) as (d4 & E4 & _ & (_ & _ & _ & [= Hout _] & _) & _); [exact Hc3|exact Hl3|exact Ht| |].
  { unfold spec_append. cbn -[zlen buf_size spec_flush ends_line]. rewrite (proj2 (Z.ltb_lt _ _) Hroom), Hend. done. }
  exists d4. split; [exact E4|]. rewrite Hout. unfold spec_flush, spec_file, spec_syslog. by rewrite Hlf, Hf, Hs.
Qed.
(** The constructor leaves [logspot] as the memory was: the first line is written
    wherever it points. *)
Lemma first_line_astray verbose out junk level stamp fmt text : logspot junk = Wild -> needslf junk = false ->
  logv level stamp fmt text (new_debug verbose out junk) = Fault OutOfBounds.
Proof. intros Hs Hn. destruct junk. cbn in Hs, Hn. by subst. Qed.

(** [basename] keeps the slash. *)
Lemma basename_keeps_slash dir name : Forall (fun c => c <> 47) name ->
  basename (dir ++ 47 :: name) = 47 :: name /\ basename name = name.
Proof.
  intros Hn. unfold basename.
  assert (forall s, from_slash s name = s) as H0.
  { induction Hn as [|c l Hc _ IH]; intros s; [done|]. cbn [from_slash]. by rewrite (proj2 (Z.eqb_neq _ _) Hc). }
  split; [|apply H0]. generalize (dir ++ 47 :: name) at 1. induction dir as [|c dir IH]; intros s; [|apply IH].
  cbn [app from_slash Z.eqb Pos.eqb]. apply H0.
Qed.
(** A flag that is set is set, and one of the three levels that is cleared is not. *)
Lemma flag_round d l : l = 2 \/ l = 4 \/ l = 8 ->
  flag_set l (set_debug_flag l d) = true /\ flag_set l (clear_debug_flag l d) = false.
Proof.
  intros Hl. unfold flag_set, set_debug_flag, clear_debug_flag. destruct d. cbn.
  rewrite Z.land_lor_distr_r, Z.land_diag. split; [|rewrite (Z.land_comm debug_flags0), Z.land_assoc; by destruct Hl as [->|[->| ->]]].
  rewrite (proj2 (Z.eqb_neq _ _)); [done|]. intros [_ ->]%Z.lor_eq_0_iff. by destruct Hl as [|[|]].
Qed.
End overrun.

Section witnesses.
Definition example_memory : rpl_debug :=
  mk_debug false false false false Nowhere false (zeros 1024) 0 0 false (zeros 64) false [].
Definition example_log : rpl_debug := new_debug false true example_memory <| log_syslog := true |> <| want_time_log := true |>.
Definition example_calls : list log_call :=
  [mk_call Info (codes "[now] ") (codes "rank %u") (codes "rank 256"); mk_call InfoMore [] (codes "%s" ++ [10]) (codes ", grounded" ++ [10]);
   mk_call Verbose (codes "[now] ") (codes "unheard" ++ [10]) (codes "unheard" ++ [10]);
   mk_call Warn (codes "[now] ") (codes "left open") (codes "left open"); mk_call Error (codes "[now] ") (codes "down" ++ [10]) (codes "down" ++ [10])].
Definition example_lines : line_log := mk_lines [] false [] false.
Lemma example_represents : represents example_log example_log example_lines.
Proof. split; [by split|]. split; [|done]. split_and!; try done. by exists (zeros 1023). Qed.
Definition example_said : line_log := default example_lines (spec_calls example_log example_calls example_lines).
Lemma log_refines_witness : exists d', do_calls example_calls example_log = Ok (tt, d') /\ represents example_log d' example_said /\
  last (sent_of example_said) = Some (ToFile (codes "[now] rank 256, grounded" ++ [10])).
Proof.
  destruct (log_refines example_log example_calls example_log example_lines example_said example_represents) as (d' & E & Hr).
  - repeat (constructor; [split; by apply (bool_decide_unpack _)|]). constructor.
  - by vm_compute.
  - exists d'. split; [exact E|]. split; [exact Hr|]. by vm_compute.
Defined.

Definition long_text : list Z := replicate 1500 97.
Lemma long_piece_overruns_witness :
  (exists d', logv_append 6 (codes "%s" ++ [10]) (long_text) (new_debug true true example_memory) = Ok (tt, d') /\
    log_out d' = [ToFile (take 1023 long_text)] /\ logspot d' = Nowhere) /\
  (logv_append 6 (codes "%s") long_text ;; logv_more 6 (codes "x") (codes "x")) (new_debug true true example_memory) = Fault OutOfBounds.
Proof.
  assert (fresh_line (new_debug true true example_memory)) as Hf by done.
  assert (Forall (fun c => c <> 0) long_text) as Hl by (by apply Forall_replicate).
  assert (buf_size < zlen long_text < 2147483648) as Hz by (by vm_compute).
  split.
  - by apply (proj1 (long_piece_overruns 6 (codes "%s" ++ [10]) long_text [] [] _ Hf Hz eq_refl Hl)).
  - by apply (proj2 (long_piece_overruns 6 (codes "%s") long_text (codes "x") (codes "x") _ Hf Hz eq_refl Hl)).
Defined.
End witnesses.
