(* ===== verification/Hexdump.v ===== *)
(** The dump of bytes in lines of sixteen, without the lines of zeroes
    ([include/hexdump.c]), which the senders and the interface over recorded
    packets print, and the list of lines it is meant to print. *)

From Stdlib Require Import ZArith Lia String.
From stdpp Require Import base list numbers strings.
From S2P Require Import Prelude Text Eui Log.
#[local] Open Scope Z_scope.

(** * The code *)
Record dump_state := mk_dump {
  line : list Z;             (** the 81 characters *)
  out_at : Z;                (** [out - line] *)
  left : Z;
  posonthisline : Z;
  first : bool;
  last_line : bool;
  elided : bool;
  printed : list (list Z)    (** the lines, the latest first *)
}.
#[global] Instance eta_dump : Eta dump_state := fun r =>
  mk_dump (line r) (out_at r) (left r) (posonthisline r) (first r) (last_line r) (elided r) (printed r).

Definition line_size : Z := 81.
Definition isprint (c : Z) : bool := (32 <=? c) && (c <=? 126).
Definition dot (c : Z) : Z := if isprint c then c else 46.
(** [" %02x %02x %02x %02x "] and ["%04x:"] *)
Definition group_text (bb : list Z) : list Z := concat ((fun c => 32 :: hex2 c) <$> bb) ++ [32].
Fixpoint hex_digits (k : nat) (n : Z) : list Z :=
  match k with 0%nat => [] | S k => hex_digits k (n / 16) ++ [hex_digit (n mod 16)] end.
Definition offset_text (n : Z) : list Z := hex_digits (Z.to_nat (Z.max 4 (Z.log2 n / 4 + 1))) n ++ [58].

Definition print (text : list Z) : M dump_state unit := modify (fun s => s <| printed ::= cons text |>).
Definition print_line : M dump_state unit :=
  s ← get;
  l ← lift (wr_range (line s) (out_at s) [32]);
  modify (fun s => s <| line := l |>) ;;
  text ← lift (buffer_string l);
  print text.
(** [snprintf(out, left, ...)], and [out] and [left] move on. *)
Definition put (text : list Z) : M dump_state unit :=
  s ← get;
  l ← lift (vsnprintf (line s) (out_at s) (left s) text);
  modify (fun s => s <| line := l |> <| left ::= (fun n => s32 (n - zlen text)) |> <| out_at ::= (fun o => o + zlen text) |>).
Definition clear_line (l : list Z) : outcome (list Z) :=
  l ← wr_range l 0 (replicate 79 32);
  wr_range l 80 [0].

(** Whether the [n] groups of four bytes from [at] on are zero; the first that is not ends
    the loop. *)
Fixpoint zero_groups (n : nat) (mem : list Z) (off : Z) : outcome bool :=
  match n with
  | 0%nat => Ok true
  | S n => bb ← rd_range mem off 4; if forallb (Z.eqb 0) bb then zero_groups n mem (off + 4) else Ok false
  end.
Definition start_line (off : Z) : M dump_state unit :=
  modify (fun s => s <| left := line_size |> <| out_at := 0 |>) ;;
  s ← get;
  l ← lift (clear_line (line s));
  modify (fun s => s <| line := l |>) ;;
  put (offset_text (u32 off)).
(** Four bytes go on the line. *)
Definition put_group (bb : list Z) : M dump_state unit :=
  s ← get;
  l ← lift (vsnprintf (line s) (out_at s) (left s) (group_text bb));
  l ← lift (wr_range l (posonthisline s + 60) ((dot <$> bb) ++ [0]));
  let n := zlen (group_text bb) in
  modify (fun s => s <| line := l |> <| left ::= (fun k => s32 (k - n)) |> <| out_at ::= (fun o => o + n) |>
                     <| posonthisline ::= (fun p => p + 4) |>).
(** The body of the loop that prints; [i] is its index. *)
Definition dump_group (mem : list Z) (offset i : Z) : M dump_state unit :=
  modify (fun s => s <| elided := false |>) ;;
  bb ← lift (rd_range mem (offset + i) 4);
  put_group bb ;;
  if (i + 4) mod 16 =? 0 then
    modify (fun s => s <| first := false |>) ;;
    print_line ;;
    modify (fun s => s <| posonthisline := 0 |>) ;;
    s ← get;
    l ← lift (clear_line (line s));
    modify (fun s => s <| line := l |>)
  else mret tt.
Definition dots : list Z := [46; 46; 46].
(** A turn of the loop, and the index after it. *)
Definition dump_turn (mem : list Z) (offset len i : Z) : M dump_state Z :=
  when (len - i <=? 16) (modify (fun s => s <| last_line := true |>)) ;;
  s ← get;
  zero ← (if (posonthisline s =? 0) && negb (first s) && negb (last_line s)
          then lift (zero_groups 4 mem (offset + i)) else mret false : M dump_state bool);
  if zero : bool then
    when (negb (elided s)) (print dots ;; modify (fun s => s <| elided := true |>)) ;;
    mret (i + 16)
  else
    when (posonthisline s =? 0) (start_line (offset + i)) ;;
    dump_group mem offset i ;;
    mret (i + 4).
Fixpoint dump_loop (fuel : nat) (mem : list Z) (offset len i : Z) : M dump_state Z :=
  match fuel with
  | 0%nat => fail OutOfFuel
  | S fuel => if i <? len then i ← dump_turn mem offset len i; dump_loop fuel mem offset len i else mret i
  end.
(** [junk] is what the line holds at first.  A turn advances by four at least. *)
Definition hexdump (mem : list Z) (offset len : Z) (junk : list Z) : outcome (list (list Z)) :=
  '(_, s) ← (i ← dump_loop (S (Z.to_nat len)) mem offset len 0;
             when (negb (i mod 16 =? 0)) print_line)
            (mk_dump junk 0 line_size 0 true false false []);
  Ok (reverse (printed s)).

(** * What it is meant to print *)
Fixpoint in_groups (bs : list Z) : list Z :=
  match bs with
  | a :: b :: c :: d :: bs => group_text [a; b; c; d] ++ in_groups bs
  | _ => []
  end.
Definition pad_to (n : nat) (text : list Z) : list Z := text ++ replicate (n - length text) 32.
Definition row (off : Z) (bs : list Z) : list Z := pad_to 60 (offset_text off ++ in_groups bs) ++ (dot <$> bs).
Definition all_zero (bs : list Z) : bool := forallb (Z.eqb 0) bs.
(** A row that is neither the first nor the last is left out when it is zero; dots stand
    for a run of them. *)
Fixpoint rows (fuel : nat) (off : Z) (first elided : bool) (bs : list Z) : list (list Z) :=
  match fuel, bs with
  | S fuel, _ :: _ =>
      if negb first && (16 <? zlen bs) && all_zero (take 16 bs)
      then (if elided then [] else [dots]) ++ rows fuel (off + 16) first true (drop 16 bs)
      else row off (take 16 bs) :: rows fuel (off + 16) false false (drop 16 bs)
  | _, _ => []
  end.
Definition dump_rows (off : Z) (bs : list Z) : list (list Z) := rows (length bs) off true false bs.

(** * The line while it is put together *)
Implicit Types (s : dump_state) (q asc bs : list Z).

(** The text so far, spaces, and the characters from column 60 on. *)
Definition holds s q asc : Prop :=
  exists post, line s = q ++ 0 :: replicate (59 - length q) 32 ++ asc ++ post /\
    length (line s) = 81%nat /\ (length q <= 59)%nat /\ out_at s = zlen q /\ left s = 81 - zlen q /\ posonthisline s = zlen asc /\
    (asc = [] \/ exists p, post = 0 :: p).
Definition frame s : bool * bool * list (list Z) := (first s, last_line s, printed s).

Lemma vsnprintf_at pre post off size text : off = zlen pre -> 0 <= zlen text < size -> size < 2147483648 -> zlen text < zlen post ->
  vsnprintf (pre ++ post) off size text = Ok (pre ++ (text ++ [0]) ++ drop (S (length text)) post).
Proof.
  intros -> Ht Hs Hp. unfold vsnprintf. rewrite Z.mod_small by lia.
  rewrite (proj2 (Z.eqb_neq _ _)), (proj2 (Z.ltb_lt _ _)) by lia.
  rewrite wr_splice by (rewrite zlen_app; change (zlen [0]) with 1; lia). by rewrite length_app, Nat.add_comm.
Qed.
Lemma wr_at pre post off bs : off = zlen pre -> zlen bs <= zlen post ->
  wr_range (pre ++ post) off bs = Ok (pre ++ bs ++ drop (length bs) post).
Proof. intros ->. apply wr_splice. Qed.

Lemma clear_spec l : length l = 81%nat -> exists c, clear_line l = Ok (replicate 79 32 ++ [c; 0]).
Proof.
  intros Hl. unfold clear_line.
  assert (wr_range l 0 (replicate 79 32) = Ok (replicate 79 32 ++ drop 79 l)) as ->.
  { apply (wr_splice [] l). unfold zlen. rewrite Hl, length_replicate. done. }
  cbn [mbind outcome_bind].
  assert (length (drop 79 l) = 2%nat) as Hd by (rewrite length_drop; lia).
  destruct (drop 79 l) as [|c [|c' [|]]]; try done. exists c. apply (wr_at (replicate 79 32 ++ [c]) [c'] 80 [0]); done.
Qed.

Lemma group_text_length bb : length bb = 4%nat -> length (group_text bb) = 13%nat.
Proof. intros Hb. destruct bb as [|? [|? [|? [|? [|]]]]]; done. Qed.

Lemma start_line_spec off s : length (line s) = 81%nat -> (length (offset_text (u32 off)) <= 59)%nat -> posonthisline s = 0 ->
  exists s', start_line off s = Ok (tt, s') /\ holds s' (offset_text (u32 off)) [] /\ frame s' = frame s /\ elided s' = elided s.
Proof.
  intros Hl Ho Hp. unfold start_line. rewrite (bind_ok _ _ s tt _ eq_refl). set (s1 := s <| left := _ |> <| out_at := _ |>).
  rewrite (bind_ok _ _ s1 s1 s1) by done. destruct (clear_spec (line s) Hl) as [c Hc].
  rewrite (bind_ok _ _ s1 (replicate 79 32 ++ [c; 0]) s1) by (unfold lift; change (line s1) with (line s); by rewrite Hc).
  rewrite (bind_ok _ _ s1 tt _ eq_refl). unfold put. set (t := offset_text (u32 off)) in *.
  set (s2 := s1 <| line := _ |>). rewrite (bind_ok _ _ s2 s2 s2) by done.
  assert (zlen t < 81) by (unfold zlen; lia).
  pose proof (vsnprintf_at [] (replicate 79 32 ++ [c; 0]) 0 81 t eq_refl) as Hv. cbn [app] in Hv.
  rewrite (bind_ok _ _ s2 ((t ++ [0]) ++ drop (S (length t)) (replicate 79 32 ++ [c; 0])) s2).
  2: { unfold lift. change (line s2) with (replicate 79 32 ++ [c; 0]). change (out_at s2) with 0. change (left s2) with 81.
       rewrite Hv; [done| | |]; pose proof (zlen_nonneg t); unfold zlen; rewrite ?length_app, ?length_replicate; cbn [length]; unfold zlen in *; lia. }
  assert (drop (S (length t)) (replicate 79 32 ++ [c; 0]) = replicate (59 - length t) 32 ++ replicate 19 32 ++ [c; 0]) as Hd.
  { rewrite drop_app_le by (rewrite length_replicate; lia). rewrite drop_replicate, app_assoc, <- replicate_add. do 3 f_equal. lia. }
  rewrite Hd. clear Hd Hv. eexists. split; [done|]. split; [|done]. exists (replicate 19 32 ++ [c; 0]).
  split_and!; try done.
  - cbn [line s2]. cbn -[replicate]. by rewrite <- app_assoc.
  - cbn -[replicate]. rewrite !length_app, !length_replicate. cbn [length]. lia.
  - cbn -[replicate]. unfold line_size. apply s32_small. pose proof (zlen_nonneg t). lia.
  - by left.
Qed.

(** The end of a line. *)
Lemma print_line_spec s q asc : holds s q asc -> asc <> [] -> Forall (fun c => c <> 0) (q ++ asc) ->
  exists l, print_line s = Ok (tt, s <| line := l |> <| printed ::= cons (pad_to 60 q ++ asc) |>) /\ length l = 81%nat.
Proof.
  intros (post & Hline & Hlen & Hq & Hout & _ & _ & Hp) Hasc Hne. destruct Hp as [|[p ->]]; [done|]. unfold print_line.
  rewrite (bind_ok _ _ s s s) by done.
  set (l := q ++ [32] ++ replicate (59 - length q) 32 ++ asc ++ 0 :: p).
  assert (wr_range (line s) (out_at s) [32] = Ok l) as Hw.
  { rewrite Hline. rewrite (wr_at q _ _ [32] Hout) by (change (zlen [32]) with 1; rewrite zlen_cons; pose proof (zlen_nonneg (replicate (59 - length q) 32 ++ asc ++ 0 :: p)); lia). done. }
  rewrite (bind_ok _ _ s l s) by (unfold lift; by rewrite Hw). rewrite (bind_ok _ _ s tt _ eq_refl).
  assert (l = (pad_to 60 q ++ asc) ++ 0 :: p) as Hl.
  { unfold l, pad_to. rewrite <- !app_assoc. f_equal. replace (60 - length q)%nat with (S (59 - length q)) by lia. done. }
  assert (buffer_string l = Ok (pad_to 60 q ++ asc)) as Hb.
  { unfold buffer_string. rewrite Hl, bool_decide_true by (apply elem_of_app; right; left).
    rewrite c_string_cut; [done|]. unfold pad_to. apply Forall_app in Hne as [Hn1 Hn2].
    apply Forall_app_2; [apply Forall_app_2; [done|by apply Forall_replicate]|done]. }
  rewrite (bind_ok _ _ _ (pad_to 60 q ++ asc) (s <| line := l |>)) by (unfold lift; by rewrite Hb).
  exists l. split; [done|]. rewrite <- Hlen, Hline. unfold l. rewrite !length_app. cbn [length]. rewrite !length_app. cbn [length]. lia.
Qed.

Lemma put_group_spec bb s q asc : holds s q asc -> length bb = 4%nat -> (length q <= 46)%nat -> (length asc <= 12)%nat ->
  exists s', put_group bb s = Ok (tt, s') /\ holds s' (q ++ group_text bb) (asc ++ (dot <$> bb)) /\
    frame s' = frame s /\ elided s' = elided s.
Proof.
  intros (post & Hline & Hlen & _ & Hout & Hleft & Hpos & _) Hbb Hq Hasc. pose proof (group_text_length bb Hbb) as Hg.
  set (g := group_text bb) in *. set (a := dot <$> bb). assert (length a = 4%nat) as Ha by (unfold a; by rewrite length_fmap).
  assert (length post = (21 - length asc)%nat) as Hpost.
  { rewrite Hline, !length_app in Hlen. cbn [length] in Hlen. rewrite !length_app, length_replicate in Hlen. lia. }
  assert (vsnprintf (line s) (out_at s) (left s) g = Ok ((q ++ g ++ 0 :: replicate (46 - length q) 32 ++ asc) ++ post)) as Hv.
  { rewrite Hline, Hleft, vsnprintf_at; [|done|unfold zlen; lia|pose proof (zlen_nonneg q); lia|unfold zlen; cbn [length]; rewrite !length_app, length_replicate; lia].
    rewrite Hg. cbn [drop]. rewrite drop_app_le by (rewrite length_replicate; lia). rewrite drop_replicate.
    replace (59 - length q - 13)%nat with (46 - length q)%nat by lia. apply f_equal. rewrite <- !app_assoc. cbn [app]. by rewrite <- ?app_assoc. }
  assert (wr_range ((q ++ g ++ 0 :: replicate (46 - length q) 32 ++ asc) ++ post) (posonthisline s + 60) (a ++ [0]) =
    Ok ((q ++ g ++ 0 :: replicate (46 - length q) 32 ++ asc) ++ (a ++ [0]) ++ drop 5 post)) as Hw.
  { rewrite wr_at; [by rewrite length_app, Ha| |unfold zlen; rewrite length_app; cbn [length]; lia].
    rewrite Hpos. unfold zlen. rewrite !length_app. cbn [length]. rewrite length_app, length_replicate. lia. }
  unfold put_group. fold g a. cbv zeta. rewrite (bind_ok _ _ s s s) by done.
  rewrite (bind_ok _ _ s _ s) by (unfold lift; by rewrite Hv). rewrite (bind_ok _ _ s _ s) by (unfold lift; by rewrite Hw).
  eexists. split; [done|]. split; [|done]. exists (0 :: drop 5 post). destruct s. cbn in Hout, Hleft, Hpos |- *. subst.
  split_and!.
  - rewrite length_app, Hg. replace (59 - (length q + 13))%nat with (46 - length q)%nat by lia. rewrite <- !app_assoc. cbn [app]. by rewrite <- ?app_assoc.
  - rewrite !length_app. cbn [length]. rewrite !length_app, length_replicate, length_drop. cbn [length]. lia.
  - rewrite length_app. lia.
  - by rewrite zlen_app.
  - rewrite zlen_app. rewrite s32_small; unfold zlen; lia.
  - rewrite zlen_app. unfold zlen. lia.
  - right. by eexists.
Qed.

(** * The loop *)
Lemma hex_digits_length k n : length (hex_digits k n) = k.
Proof. revert n. induction k as [|k IH]; intros n; [done|]. cbn. rewrite length_app, IH. cbn. lia. Qed.
Lemma hex_digit_pos d : 0 <= d -> hex_digit d <> 0.
Proof. unfold hex_digit. destruct (d <? 10); lia. Qed.
Lemma offset_text_length n : 0 <= n < 16777216 -> (length (offset_text n) <= 7)%nat.
Proof.
  intros Hn. unfold offset_text. rewrite length_app, hex_digits_length. cbn [length].
  assert (Z.log2 n <= 23) by (apply (Z.log2_le_mono n 16777215); lia).
  assert (Z.log2 n / 4 < 6) by (apply Z.div_lt_upper_bound; lia). lia.
Qed.
Lemma offset_text_chars n : Forall (fun c => c <> 0) (offset_text n).
Proof.
  apply Forall_app_2; [|by repeat constructor]. generalize (Z.to_nat (Z.max 4 (Z.log2 n / 4 + 1))). intros k.
  revert n. induction k as [|k IH]; intros n; [constructor|]. cbn. apply Forall_app_2; [apply IH|].
  constructor; [|constructor]. apply hex_digit_pos. pose proof (Z.mod_pos_bound n 16). lia.
Qed.
Lemma group_text_chars bb : bytes_ok bb -> Forall (fun c => c <> 0) (group_text bb).
Proof.
  intros Hb. apply Forall_app_2; [|by repeat constructor]. induction Hb as [|c bb Hc _ IH]; [constructor|]. cbn.
  pose proof (Z.mod_pos_bound c 16). unfold byte_ok in Hc.
  repeat (constructor; [try apply hex_digit_pos; try apply Z.div_pos; lia|]). exact IH.
Qed.
Lemma dot_chars bs : Forall (fun c => c <> 0) (dot <$> bs).
Proof.
  apply Forall_fmap, Forall_true. intros c. unfold compose, dot, isprint.
  destruct (Z.leb_spec 32 c), (Z.leb_spec c 126); cbn; lia.
Qed.
Lemma groups_step m r bb : length r = (4 * m)%nat -> length bb = 4%nat -> in_groups (r ++ bb) = in_groups r ++ group_text bb.
Proof.
  revert r. induction m as [|m IH]; intros r Hr Hb.
  - destruct r; [|done]. destruct bb as [|? [|? [|? [|? [|]]]]]; done.
  - destruct r as [|b0 [|b1 [|b2 [|b3 r]]]]; try (cbn in Hr; lia). cbn [app in_groups]. rewrite IH by (done || cbn in Hr; lia).
    by rewrite app_assoc.
Qed.
Lemma groups_length m r : length r = (4 * m)%nat -> length (in_groups r) = (13 * m)%nat.
Proof.
  revert r. induction m as [|m IH]; intros r Hr; [by destruct r|].
  destruct r as [|b0 [|b1 [|b2 [|b3 r]]]]; try (cbn in Hr; lia). cbn [in_groups]. rewrite length_app, (IH r) by (cbn in Hr; lia).
  rewrite group_text_length by done. lia.
Qed.
Lemma groups_chars m r : length r = (4 * m)%nat -> bytes_ok r -> Forall (fun c => c <> 0) (in_groups r).
Proof.
  revert r. induction m as [|m IH]; intros r Hr Hb; [by destruct r|].
  destruct r as [|b0 [|b1 [|b2 [|b3 r]]]]; try (cbn in Hr; lia). cbn [in_groups].
  apply (Forall_app _ [b0; b1; b2; b3] r) in Hb as [H1 H2]. apply Forall_app_2; [by apply group_text_chars|].
  apply IH; [cbn in Hr; lia|done].
Qed.

(** The line after the bytes [r] of the row at [off]. *)
Definition in_row (off : Z) (r : list Z) s : Prop :=
  match r with
  | [] => length (line s) = 81%nat /\ posonthisline s = 0
  | _ => holds s (offset_text off ++ in_groups r) (dot <$> r)
  end.

(** One group: the line is begun when it is the first. *)
Lemma group_spec mem offset i bb m r off s :
  rd_range mem (offset + i) 4 = Ok bb -> length bb = 4%nat -> bytes_ok bb -> bytes_ok r ->
  length r = (4 * m)%nat -> (m <= 3)%nat -> in_row off r s -> 0 <= off < 16777216 -> off = offset + i - zlen r ->
  (i + 4) mod 16 = (zlen r + 4) mod 16 ->
  exists s', (when (posonthisline s =? 0) (start_line (offset + i)) ;; dump_group mem offset i) s = Ok (tt, s') /\
    elided s' = false /\ last_line s' = last_line s /\
    if (m =? 3)%nat then in_row off [] s' /\ first s' = false /\ printed s' = row off (r ++ bb) :: printed s
    else in_row off (r ++ bb) s' /\ first s' = first s /\ printed s' = printed s.
Proof.
  intros Hrd Hbb Hok Hrok Hr Hm Hin Hoff Hio Hmod. pose proof (offset_text_length off Hoff) as Hot.
  assert (exists s1, when (posonthisline s =? 0) (start_line (offset + i)) s = Ok (tt, s1) /\
    holds s1 (offset_text off ++ in_groups r) (dot <$> r) /\ frame s1 = frame s) as (s1 & E1 & Hh & Hf).
  { destruct r as [|c r].
    - destruct Hin as [Hl Hp]. rewrite Hp. change (zlen []) with 0 in Hio. replace (offset + i) with off by lia.
      destruct (start_line_spec off s Hl) as (s1 & E1 & Hh & Hf & _); [rewrite u32_small by lia; lia|done|].
      rewrite u32_small in Hh by lia. exists s1. cbn [in_groups]. rewrite app_nil_r. done.
    - pose proof Hin as (_ & _ & _ & _ & _ & _ & Hp & _). exists s. rewrite Hp.
      rewrite (proj2 (Z.eqb_neq _ _)); [done|]. unfold zlen. rewrite length_fmap. cbn [length]. lia. }
  rewrite (bind_ok _ _ s tt s1 E1). unfold dump_group. rewrite (bind_ok _ _ s1 tt _ eq_refl).
  set (s2 := s1 <| elided := false |>). rewrite (bind_ok _ _ s2 bb s2) by (unfold lift; by rewrite Hrd).
  destruct (put_group_spec bb s2 (offset_text off ++ in_groups r) (dot <$> r) Hh Hbb) as (s3 & E3 & Hh3 & Hf3 & He3).
  { rewrite length_app, (groups_length m r Hr). lia. }
  { rewrite length_fmap. lia. }
  rewrite (bind_ok _ _ s2 tt s3 E3). rewrite <- app_assoc, <- (groups_step m r bb Hr Hbb), <- fmap_app in Hh3.
  injection Hf3 as Hf1 Hf2 Hf3. injection Hf as Hg1 Hg2 Hg3. cbn in Hf1, Hf2, Hf3, He3.
  rewrite Hmod. assert (zlen r = 4 * Z.of_nat m) as -> by (unfold zlen; lia).
  destruct (Nat.eqb_spec m 3) as [->|Hm3].
  - change ((4 * Z.of_nat 3 + 4) mod 16 =? 0) with true. cbv iota. rewrite (bind_ok _ _ s3 tt _ eq_refl).
    set (s4 := s3 <| first := false |>).
    destruct (print_line_spec s4 (offset_text off ++ in_groups (r ++ bb)) (dot <$> r ++ bb)) as (l & E4 & Hl); [exact Hh3| | |].
    { intros E%(f_equal length). rewrite length_fmap, length_app, Hr in E. done. }
    { apply Forall_app_2; [apply Forall_app_2; [apply offset_text_chars|]|apply dot_chars].
      apply (groups_chars 4); [rewrite length_app; lia|by apply Forall_app_2]. }
    rewrite (bind_ok _ _ s4 tt _ E4). rewrite (bind_ok _ _ _ tt _ eq_refl). set (s5 := _ <| posonthisline := 0 |>).
    rewrite (bind_ok _ _ s5 s5 s5) by done. destruct (clear_spec l Hl) as [c Hc].
    rewrite (bind_ok _ _ s5 (replicate 79 32 ++ [c; 0]) s5) by (unfold lift; change (line s5) with l; by rewrite Hc).
    eexists. split; [done|]. split_and!; cbn; try congruence; try done. by rewrite Hf3, Hg3.
  - rewrite (proj2 (Z.eqb_neq _ _)) by (rewrite Z.mod_small; lia). exists s3. split_and!; try congruence; try done.
    unfold in_row. destruct (r ++ bb) eqn:E; [|done]. apply (f_equal length) in E. rewrite length_app in E. cbn in E. lia.
Qed.

Section loop.
Variables (pre bs post : list Z) (len : Z).
Let mem : list Z := pre ++ bs ++ post.
Let offset : Z := zlen pre.
Hypothesis len_ok : 0 <= len /\ len <= zlen bs < len + 4.
Hypothesis by_groups : zlen bs mod 4 = 0.
Hypothesis bytes : bytes_ok bs.
Hypothesis room : offset + len <= 16777216.

(** What is left at index [i]. *)
Definition rest_at (i : Z) (cur : list Z) : Prop :=
  0 <= i /\ cur = drop (Z.to_nat i) bs /\ i mod 4 = 0 /\ i + zlen cur = zlen bs.
Lemma rest_step i cur k : rest_at i cur -> (k <= length cur)%nat -> Z.of_nat k mod 4 = 0 -> rest_at (i + Z.of_nat k) (drop k cur).
Proof.
  intros (Hi & Hd & Hm & Hl) Hk Hk4. unfold rest_at. split_and!; [lia| |by rewrite Z.add_mod, Hm, Hk4 by lia|].
  - rewrite Hd, drop_drop. f_equal. lia.
  - unfold zlen in *. rewrite length_drop. lia.
Qed.
Lemma rest_read i cur : rest_at i cur -> (4 <= length cur)%nat -> rd_range mem (offset + i) 4 = Ok (take 4 cur).
Proof.
  intros (Hi & -> & _ & Hl) Hc. assert (i + 4 <= zlen bs) by (unfold zlen at 1 in Hl; lia).
  unfold mem, offset. rewrite rd_range_mid by lia. done.
Qed.
Lemma rest_bytes i cur : rest_at i cur -> bytes_ok cur.
Proof. intros (_ & -> & _). by apply Forall_drop. Qed.
Lemma rest_four i cur : rest_at i cur -> cur <> [] -> (4 <= length cur)%nat.
Proof.
  intros (_ & _ & Hm & Hl) Hc. assert (zlen cur mod 4 = 0) as Hz.
  { replace (zlen cur) with (zlen bs - i) by lia. by rewrite Zminus_mod, Hm, by_groups. }
  destruct cur as [|c cur]; [done|]. rewrite zlen_cons in Hz. pose proof (zlen_nonneg cur). cbn [length].
  assert (3 <= zlen cur); [|unfold zlen in *; lia]. destruct (Z.le_gt_cases 3 (zlen cur)); [done|]. rewrite Z.mod_small in Hz by lia. lia.
Qed.

Lemma all_zero_app l k : all_zero (l ++ k) = all_zero l && all_zero k.
Proof. apply forallb_app. Qed.
Lemma zero_groups_spec n i cur : rest_at i cur -> (4 * n <= length cur)%nat ->
  zero_groups n mem (offset + i) = Ok (all_zero (take (4 * n) cur)).
Proof.
  revert i cur. induction n as [|n IH]; intros i cur Hr Hn; [done|]. cbn [zero_groups].
  rewrite (rest_read i cur Hr) by lia. cbn [mbind outcome_bind].
  replace (take (4 * S n) cur) with (take 4 cur ++ take (4 * n) (drop 4 cur))
    by (rewrite take_take_drop; f_equal; lia).
  rewrite all_zero_app. fold (all_zero (take 4 cur)). destruct (all_zero (take 4 cur)); [|done].
  replace (offset + i + 4) with (offset + (i + Z.of_nat 4)) by lia. apply IH; [apply rest_step; try done; lia|].
  rewrite length_drop. lia.
Qed.

(** The flag of the last line, on the way. *)
Definition late (i : Z) s : Prop := last_line s = true -> zlen bs - i <= 16.
(** Whether the row at [i] is left out. *)
Definition skipped s (cur : list Z) : bool := negb (first s) && (16 <? zlen cur) && all_zero (take 16 cur).

Lemma turn_group i cur m r s : rest_at i cur -> cur <> [] -> length r = (4 * m)%nat -> (m <= 3)%nat -> bytes_ok r ->
  in_row (offset + i - zlen r) r s -> i mod 16 = zlen r -> late i s -> (m = 0%nat -> skipped s cur = false) ->
  exists s', dump_turn mem offset len i s = Ok (i + 4, s') /\ elided s' = false /\ late (i + 4) s' /\
    if (m =? 3)%nat then in_row (offset + i - zlen r) [] s' /\ first s' = false /\ printed s' = row (offset + i - zlen r) (r ++ take 4 cur) :: printed s
    else in_row (offset + i - zlen r) (r ++ take 4 cur) s' /\ first s' = first s /\ printed s' = printed s.
Proof.
  intros Hrest Hcur Hr Hm Hrok Hin Hmod Hlate Hskip. pose proof (rest_four i cur Hrest Hcur) as Hc4.
  pose proof Hrest as (Hi & Hdrop & Hm4 & Hl). assert (0 <= offset) by apply zlen_nonneg.
  assert (zlen r = 4 * Z.of_nat m) as Hzr by (unfold zlen; lia). assert (4 <= zlen cur) by (unfold zlen; lia).
  unfold dump_turn.
  set (s1 := if len - i <=? 16 then s <| last_line := true |> else s).
  assert (when (len - i <=? 16) (modify (fun s => s <| last_line := true |>)) s = Ok (tt, s1)) as E1 by (unfold s1; by destruct (len - i <=? 16)).
  assert (late (i + 4) s1 /\ late i s1) as [Hlate1 Hlate1'].
  { unfold late, s1 in *. destruct (Z.leb_spec (len - i) 16); cbn; split; intros Hs; try (specialize (Hlate Hs)); Z.div_mod_to_equations; lia. }
  assert (first s1 = first s /\ printed s1 = printed s /\ posonthisline s1 = posonthisline s /\ in_row (offset + i - zlen r) r s1) as (Hf1 & Hp1 & Hpos1 & Hin1).
  { unfold s1. destruct (len - i <=? 16); done. }
  rewrite (bind_ok _ _ s tt s1 E1), (bind_ok _ _ s1 s1 s1) by done.
  rewrite (bind_ok _ _ s1 false s1).
  2: { destruct (Z.eqb_spec (posonthisline s1) 0) as [Hp0|]; [|done]. rewrite Hf1. destruct (first s) eqn:Ef; [done|]. cbn [negb andb].
       destruct (last_line s1) eqn:El; [done|]. cbn [negb]. unfold lift.
       assert (r = []) as ->.
       { destruct r as [|c r]; [done|]. destruct Hin1 as (_ & _ & _ & _ & _ & _ & Hp & _). rewrite Hp in Hp0. by unfold zlen in Hp0. }
       assert (m = 0%nat) as -> by (cbn in Hr; lia). specialize (Hskip eq_refl). unfold skipped in Hskip. rewrite Ef in Hskip. cbn [negb andb] in Hskip.
       assert (16 < zlen cur) as Hc16.
       { unfold s1 in El. destruct (Z.leb_spec (len - i) 16); [done|]. lia. }
       rewrite (zero_groups_spec 4 i cur Hrest) by (unfold zlen in Hc16; lia).
       rewrite (proj2 (Z.ltb_lt _ _) Hc16) in Hskip. cbn [andb] in Hskip. change (4 * 4)%nat with 16%nat. by rewrite Hskip. }
  cbv iota.
  destruct (group_spec mem offset i (take 4 cur) m r (offset + i - zlen r) s1) as (s2 & E2 & He2 & Hl2 & H2); try done.
  - by apply rest_read.
  - rewrite length_take. lia.
  - apply Forall_take. by apply (rest_bytes i).
  - split; [rewrite Hzr in *; Z.div_mod_to_equations; lia|].
    clear - room Hl H0 len_ok Hzr. clearbody offset. lia.
  - by rewrite <- Hmod, Z.add_mod_idemp_l by lia.
  - exists s2. rewrite <- bind_then, (bind_ok _ _ s1 tt s2 E2).
    split; [done|]. split; [done|]. split; [unfold late in *; by rewrite Hl2|]. by rewrite Hf1, Hp1 in H2.
Qed.

Lemma rest_turn i cur : rest_at i cur -> cur <> [] -> (i <? len) = true.
Proof.
  intros Hr Hc. pose proof (rest_four i cur Hr Hc) as H4. destruct Hr as (_ & _ & _ & Hl). apply Z.ltb_lt.
  assert (4 <= zlen cur) by (unfold zlen; lia). clear - Hl H len_ok. lia.
Qed.

(** The groups of a row, or of a part of it. *)
Lemma row_run fuel k : forall i cur m r s, rest_at i cur -> (4 * k <= length cur)%nat -> length r = (4 * m)%nat ->
  (m + k <= 4)%nat -> (m <= 3)%nat -> bytes_ok r -> in_row (offset + i - zlen r) r s -> i mod 16 = zlen r -> late i s ->
  (m = 0%nat -> skipped s cur = false) ->
  exists s', dump_loop (k + fuel) mem offset len i s = dump_loop fuel mem offset len (i + Z.of_nat (4 * k)) s' /\
    late (i + Z.of_nat (4 * k)) s' /\ elided s' = (if (k =? 0)%nat then elided s else false) /\
    if (m + k =? 4)%nat then in_row (offset + i - zlen r) [] s' /\ first s' = false /\
      printed s' = row (offset + i - zlen r) (r ++ take (4 * k) cur) :: printed s
    else in_row (offset + i - zlen r) (r ++ take (4 * k) cur) s' /\ first s' = first s /\ printed s' = printed s.
Proof.
  induction k as [|k IH]; intros i cur m r s Hrest Hk Hr Hmk Hm Hrok Hin Hmod Hlate Hskip.
  - exists s. change (Z.of_nat (4 * 0)) with 0. rewrite Z.add_0_r, (proj2 (Nat.eqb_neq (m + 0) 4)) by lia. cbn [take Nat.mul Nat.add]. by rewrite app_nil_r.
  - assert (cur <> []) as Hcur by (by intros ->; cbn in Hk; lia).
    destruct (turn_group i cur m r s Hrest Hcur Hr Hm Hrok Hin Hmod Hlate Hskip) as (s1 & E1 & He1 & Hl1 & H1).
    cbn [dump_loop Nat.add]. rewrite (rest_turn i cur Hrest Hcur), (bind_ok _ _ s (i + 4) s1 E1).
    replace (i + Z.of_nat (4 * S k)) with (i + 4 + Z.of_nat (4 * k)) by lia.
    destruct (Nat.eqb_spec m 3) as [->|Hm3].
    + assert (k = 0%nat) as -> by lia. exists s1. change (i + 4 + Z.of_nat (4 * 0)) with (i + 4 + 0). rewrite Z.add_0_r. done.
    + destruct H1 as (Hin1 & Hf1 & Hp1). set (r' := r ++ take 4 cur) in *.
      assert (length (take 4 cur) = 4%nat) as Ht by (rewrite length_take; lia).
      assert (zlen r' = zlen r + 4) as Hz by (unfold r'; rewrite zlen_app; unfold zlen at 2; by rewrite Ht).
      assert (offset + (i + 4) - zlen r' = offset + i - zlen r) as Ho by lia.
      destruct (IH (i + 4) (drop 4 cur) (S m) r' s1) as (s2 & E2 & Hl2 & He2 & H2); try lia.
      * by apply (rest_step i cur 4); [|lia|].
      * rewrite length_drop. lia.
      * unfold r'. rewrite length_app. lia.
      * apply Forall_app_2; [done|]. apply Forall_take. by apply (rest_bytes i).
      * by rewrite Ho.
      * rewrite Hz, <- Hmod. assert (i mod 16 <= 8) by (rewrite Hmod; unfold zlen; lia). clear - H. Z.div_mod_to_equations. lia.
      * done.
      * exists s2. rewrite E2. split; [done|]. split; [done|]. split; [by rewrite He2, He1; destruct k|].
        replace (m + S k)%nat with (S m + k)%nat by lia. rewrite Ho in H2. rewrite Hf1, Hp1 in H2.
        replace (r ++ take (4 * S k) cur) with (r' ++ take (4 * k) (drop 4 cur)); [done|].
        unfold r'. rewrite <- app_assoc, take_take_drop. do 2 f_equal. lia.
Qed.

(** A row that is left out. *)
Lemma turn_skip i cur s : rest_at i cur -> in_row (offset + i) [] s -> late i s -> skipped s cur = true ->
  exists s', dump_turn mem offset len i s = Ok (i + 16, s') /\ in_row (offset + (i + 16)) [] s' /\ late (i + 16) s' /\
    first s' = first s /\ elided s' = true /\ printed s' = (if elided s then [] else [dots]) ++ printed s.
Proof.
  intros Hrest [Hlen Hpos] Hlate Hskip. unfold skipped in Hskip. apply andb_true_iff in Hskip as [Hfl Hz].
  apply andb_true_iff in Hfl as [Hf Hc]. apply Z.ltb_lt in Hc. pose proof Hrest as (_ & _ & _ & Hl).
  assert (last_line s = false) as Hlast by (destruct (last_line s) eqn:E; [specialize (Hlate E); lia|done]).
  apply negb_true_iff in Hf. unfold dump_turn.
  assert ((len - i <=? 16) = false) as ->.
  { apply Z.leb_gt. assert (zlen cur mod 4 = 0) as H4.
    { destruct Hrest as (_ & _ & Hm & _). replace (zlen cur) with (zlen bs - i) by lia. by rewrite Zminus_mod, Hm, by_groups. }
    clear - Hl len_ok H4 Hc. Z.div_mod_to_equations. lia. }
  rewrite (bind_ok _ _ s tt s) by done. rewrite (bind_ok _ _ s s s) by done.
  rewrite (bind_ok _ _ s true s).
  2: { rewrite Hpos, Hf, Hlast. cbn [Z.eqb negb andb]. unfold lift.
       rewrite (zero_groups_spec 4 i cur Hrest) by (unfold zlen in Hc; lia). change (4 * 4)%nat with 16%nat. by rewrite Hz. }
  cbv iota. destruct (elided s) eqn:He; cbn [negb when].
  - rewrite (bind_ok _ _ s tt s) by done. exists s. split_and!; try done. intros E. by rewrite Hlast in E.
  - rewrite bind_then. unfold print. rewrite (bind_ok _ _ s tt _ eq_refl), (bind_ok _ _ _ tt _ eq_refl).
    eexists. split; [done|]. split_and!; try done. intros E. cbn in E. by rewrite Hlast in E.
Qed.

Lemma run_end fuel i s rs : rest_at i [] -> i mod 16 = 0 -> 0 < 4 * Z.of_nat fuel -> rs = [] ->
  exists s', (i ← dump_loop fuel mem offset len i; when (negb (i mod 16 =? 0)) print_line) s = Ok (tt, s') /\
    printed s' = reverse rs ++ printed s.
Proof.
  intros (_ & _ & _ & Hl) Hmod Hf ->. destruct fuel as [|fuel]; [lia|]. cbn [dump_loop]. change (zlen []) with 0 in Hl.
  rewrite (proj2 (Z.ltb_ge _ _)) by lia. rewrite (bind_ok _ _ s i s) by done. rewrite Hmod. by exists s.
Qed.

(** The loop from the start of a row on, and the last line. *)
Lemma rows_run n : forall fuel i cur s, (length cur <= n)%nat -> rest_at i cur -> i mod 16 = 0 -> in_row (offset + i) [] s ->
  late i s -> zlen cur < 4 * Z.of_nat fuel ->
  exists s', (i ← dump_loop fuel mem offset len i; when (negb (i mod 16 =? 0)) print_line) s = Ok (tt, s') /\
    printed s' = reverse (rows n (offset + i) (first s) (elided s) cur) ++ printed s.
Proof.
  induction n as [|n IH]; intros fuel i cur s Hn Hrest Hmod Hin Hlate Hfuel.
  { destruct cur; [|by cbn in Hn; lia]. by apply run_end. }
  destruct (decide (cur = [])) as [->|Hcur]; [by apply run_end|].
  assert (forall k, 16 = Z.of_nat k -> zlen (drop k cur) = zlen cur - 16 \/ zlen (drop k cur) = 0) as Hdrop.
  { intros k ->. unfold zlen. rewrite length_drop. lia. }
  cbn [rows]. destruct cur as [|c cur']; [done|]. set (cur := c :: cur') in *. fold (skipped s cur).
  destruct (skipped s cur) eqn:Hskip.
  - destruct (turn_skip i cur s Hrest Hin Hlate Hskip) as (s1 & E1 & Hin1 & Hl1 & Hf1 & He1 & Hp1).
    assert (16 < zlen cur) as H16 by (unfold skipped in Hskip; apply andb_true_iff in Hskip as [[_ Hc]%andb_true_iff _]; lia).
    destruct fuel as [|fuel]; [lia|]. cbn [dump_loop]. rewrite (rest_turn i cur Hrest Hcur), chain_assoc, (bind_ok _ _ s _ s1 E1).
    destruct (IH fuel (i + 16) (drop 16 cur) s1) as (s2 & E2 & Hp2); try done.
    + rewrite length_drop. unfold zlen in H16. lia.
    + apply (rest_step i cur 16); [done|unfold zlen in H16; lia|done].
    + clear - Hmod. Z.div_mod_to_equations. lia.
    + destruct (Hdrop 16%nat eq_refl); lia.
    + exists s2. split; [exact E2|]. rewrite Hp2, Hp1, Hf1, He1, reverse_app, Z.add_assoc, <- app_assoc. by destruct (elided s).
  - assert (@zlen Z [] = 0) as Hnil by done. destruct (Z.le_gt_cases 16 (zlen cur)) as [H16|H16].
    + assert (16 <= length cur)%nat by (unfold zlen in H16; lia).
      destruct fuel as [|[|[|[|fuel]]]]; try lia.
      destruct (row_run fuel 4 i cur 0 [] s Hrest) as (s1 & E1 & Hl1 & He1 & Hin1 & Hf1 & Hp1); try done; try lia.
      { constructor. }
      change (4 + fuel)%nat with (S (S (S (S fuel)))) in E1. unfold mbind, M_bind in E1 |- *. rewrite E1.
      change (4 * 4)%nat with 16%nat in *. change (Z.of_nat 16) with 16 in *.
      destruct (IH fuel (i + 16) (drop 16 cur) s1) as (s2 & E2 & Hp2); try done.
      * rewrite length_drop. lia.
      * by apply (rest_step i cur 16).
      * clear - Hmod. Z.div_mod_to_equations. lia.
      * destruct (Hdrop 16%nat eq_refl); lia.
      * exists s2. split; [exact E2|]. cbn in He1. rewrite Hp2, Hp1, Hf1, He1, Hnil, Z.sub_0_r, reverse_cons, Z.add_assoc, <- app_assoc. done.
    + rewrite (take_ge cur 16), (drop_ge cur 16) by (unfold zlen in H16; lia).
      replace (rows n (offset + i + 16) false false []) with (@nil (list Z)) by (by destruct n).
      assert (exists k, length cur = (4 * k)%nat) as [k Hk].
      { destruct Hrest as (_ & _ & Hm4 & Hl). assert (zlen cur mod 4 = 0) as H4.
        { replace (zlen cur) with (zlen bs - i) by lia. by rewrite Zminus_mod, Hm4, by_groups. }
        exists (Z.to_nat (zlen cur / 4)). unfold zlen in *. Z.div_mod_to_equations. lia. }
      assert (0 < k <= 3)%nat as Hk3 by (unfold zlen in H16; destruct k; [by destruct cur|lia]).
      assert (fuel = (k + S (fuel - k - 1))%nat) as -> by (unfold zlen in Hfuel; lia).
      destruct (row_run (S (fuel - k - 1)) k i cur 0 [] s Hrest) as (s1 & E1 & Hl1 & He1 & H1); try done; try lia.
      { constructor. }
      rewrite (proj2 (Nat.eqb_neq (0 + k) 4)) in H1 by lia. destruct H1 as (Hin1 & Hf1 & Hp1).
      unfold mbind, M_bind in E1 |- *. rewrite E1. rewrite <- Hk in *. rewrite take_ge in Hin1 by lia. cbn [app] in Hin1.
      rewrite Hnil, Z.sub_0_r in Hin1. change (Z.of_nat (length cur)) with (zlen cur). cbn [dump_loop].
      pose proof Hrest as (_ & _ & _ & Hl). rewrite Hl, (proj2 (Z.ltb_ge (zlen bs) len)) by lia. cbn.
      assert (zlen bs mod 16 = zlen cur) as ->.
      { rewrite <- Hl, <- Z.add_mod_idemp_l, Hmod by lia. apply Z.mod_small. pose proof (zlen_nonneg cur). cbn. lia. }
      rewrite (proj2 (Z.eqb_neq _ _)) by (unfold zlen; lia). cbn [negb when].
      unfold cur in Hin1 at 1. cbn [in_row] in Hin1.
      destruct (print_line_spec s1 _ _ Hin1) as (l & E2 & _).
      { done. }
      { apply Forall_app_2; [apply Forall_app_2; [apply offset_text_chars|]|apply dot_chars].
        apply (groups_chars k); [done|]. by apply (rest_bytes i). }
      rewrite E2. eexists. split; [done|]. rewrite <- Hp1. reflexivity.
Qed.
End loop.

(** C30: The dump of [len] bytes prints what it is meant to: a row for every sixteen
    bytes, with the offset in at least four hexadecimal digits, the bytes in groups of
    four, and the characters from column 60 on; a zero row that is neither the first nor
    the last is left out, with one line of dots for each run of them.  It reads the bytes
    in groups of four, up to three behind the last; the offset has six digits at most. *)
Theorem hexdump_prints_rows pre bs post len junk : 0 <= len /\ len <= zlen bs < len + 4 -> zlen bs mod 4 = 0 ->
  bytes_ok bs -> zlen pre + len <= 16777216 -> length junk = 81%nat ->
  hexdump (pre ++ bs ++ post) (zlen pre) len junk = Ok (dump_rows (zlen pre) bs).
Proof.
  intros Hlen H4 Hb Hroom Hj. unfold hexdump, dump_rows. set (s0 := mk_dump junk 0 line_size 0 true false false []).
  destruct (rows_run pre bs post len Hlen H4 Hb Hroom (length bs) (S (Z.to_nat len)) 0 bs s0) as (s & E & Hp); try done.
  - rewrite Nat2Z.inj_succ, Z2Nat.id by lia. lia.
  - cbn [mbind outcome_bind]. rewrite E. rewrite Z.add_0_r in Hp. cbn [mbind outcome_bind]. rewrite Hp.
    change (printed s0) with (@nil (list Z)). by rewrite app_nil_r, reverse_involutive.
Qed.

(** When the bytes end there, up to three bytes behind them are read. *)
Lemma dump_reads_behind : hexdump [1; 2; 3; 4; 5] 0 5 (zeros 81) = Fault OutOfBounds.
Proof. by vm_compute. Qed.

Definition example_bytes : list Z := codes "hello, unstrung!" ++ zeros 48 ++ [0; 0; 0; 7; 9; 65].
Lemma hexdump_prints_rows_witness :
  hexdump ([255; 255] ++ (example_bytes ++ [66; 67]) ++ []) 2 70 (zeros 81) = Ok (dump_rows 2 (example_bytes ++ [66; 67])) /\
  length (dump_rows 2 (example_bytes ++ [66; 67])) = 3%nat.
Proof.
  split; [|by vm_compute].
  apply (hexdump_prints_rows [255; 255] (example_bytes ++ [66; 67]) [] 70 (zeros 81)); [by vm_compute|done| |by vm_compute|done].
  by apply (bool_decide_unpack _).
Defined.
