(* ===== verification/Setup.v ===== *)
(** What goes to files and to the hardware when an interface is set up: the switch of
    the kernel that turns IPv6 off and the hardware address ([lib/libndmgmt/netlink.cpp]),
    and the recorded packets that are opened and closed
    ([lib/libfakeiface/pcap_iface.cpp]). *)

From Stdlib Require Import ZArith Lia String.
From stdpp Require Import base list gmap numbers strings.
From S2P Require Import Prelude Text State Iface Eui Tools Log.
#[local] Open Scope Z_scope.

(** * The switch for IPv6 *)

(** [system_get_sysctl]: [open] fails, or [read] does, or gives the text of the file. *)
Definition system_get_sysctl (opened : option (option (list Z))) (buf_sz : Z) (buf : list Z) : outcome (Z * list Z) :=
  match opened with
  | Some (Some text) => buf ← wr_range buf 0 (take (Z.to_nat (buf_sz - 1)) text ++ [0]); Ok (0, buf)
  | _ => Ok (-1, buf)
  end.
(** [strtoul(s, NULL, 10)] *)
Definition strtoul10 (s : list Z) : Z :=
  let '(neg, s) := match skip_space s with 45 :: s' => (true, s') | 43 :: s' => (false, s') | s' => (false, s') end in
  let v := digits_of 10 0 s in
  if v >? ULONG_MAX then ULONG_MAX else if neg then (- v) mod 2 ^ 64 else v.
(** [junk] is what [b1] holds; the answer of [system_get_dev_sysctl] is not looked at. *)
Definition system_get_disable_ipv6 (opened : option (option (list Z))) (junk : list Z) : outcome bool :=
  '(_, b1) ← system_get_sysctl opened 64 junk;
  if bool_decide (0 ∈ b1) then Ok (negb (strtoul10 (c_string b1) =? 0)) else Fault OutOfBounds.

(** * The hardware address *)
Inductive hw_call := HwClose (s : Z) | HwBind (s if_index : Z) | SetHwaddr (s : Z) (name : string) (family : Z) (sa_data : list Z).
(** What the calls answer: [socket], [bind], and the type [getsockname] finds. *)
Record hw_answers := mk_hw { hw_socket : Z; hw_bind : bool; hw_name : option Z }.

(** [get_hatype] keeps what it has found; its -1 is an [unsigned]. *)
Definition get_hatype (a : hw_answers) (if_index hatype : Z) : Z * Z * list hw_call :=
  if negb (hatype =? 0) then (hatype, hatype, [])
  else if hw_socket a <? 0 then (u32 (-1), hatype, [])
  else
    let calls := [HwBind (hw_socket a) if_index; HwClose (hw_socket a)] in
    match (if hw_bind a then hw_name a else None) with
    | None => (u32 (-1), hatype, calls)
    | Some ty => (ty, ty, calls)
    end.
(** [set_link_layer64_hw]: the second socket, and whether the request is granted. *)
Definition set_link_layer64_hw (a : hw_answers) (s : Z) (granted : bool) (n : network_interface) (hatype : Z)
    : outcome (bool * Z * list hw_call) :=
  let '(family, hatype, calls) := get_hatype a (if_index n) hatype in
  sa_data ← wr_range (zeros 14) 0 (if_hwaddr n);
  if s <? 0 then Ok (false, hatype, calls)
  else Ok (granted, hatype, calls ++ [SetHwaddr s (String.substring 0 16 (if_name n)) (u16 family) sa_data; HwClose s]).

(** * Recorded packets *)

(** A pointer to a file of libpcap: null, open, or what the memory held. *)
Inductive handle := Null | Open (h : nat) | Astray.
Inductive pcap_call := PcapDead (h : nat) (link : Z) | DumpOpen (h : nat) | OpenOffline (h : nat) | DumpClose (h : nat) | PcapClose (h : nat).
Record pcap_files := mk_files {
  link_of : Z;              (** [pcap_link] *)
  out_of : handle;          (** [pcap_out] *)
  pol : handle;
  fresh : nat;              (** the next handle *)
  calls_of : list pcap_call (** the latest first *)
}.
#[global] Instance eta_files : Eta pcap_files := fun r => mk_files (link_of r) (out_of r) (pol r) (fresh r) (calls_of r).
Definition pcap_did (c : pcap_call) : M pcap_files unit := modify (fun f => f <| calls_of ::= cons c |>).
Definition new_handle : M pcap_files nat :=
  h ← gets fresh; modify (fun f => f <| fresh := S h |>) ;; mret h.

(** [close_pcap_files], and [close], which the destructor calls. *)
Definition close_pcap_files : M pcap_files unit :=
  o ← gets out_of;
  (match o with Open h => pcap_did (DumpClose h) | Null => mret tt | Astray => fail OutOfBounds end) ;;
  modify (fun f => f <| out_of := Null |>).
(** The answers are whether [pcap_open_dead] and [pcap_dump_open] give a file; the
    program exits when they do not, and the result is [false]. *)
Definition set_pcap_out (dead dump : bool) (link : Z) : M pcap_files bool :=
  if negb dead then mret false
  else
    h ← new_handle;
    pcap_did (PcapDead h link) ;;
    close_pcap_files ;;
    if dump then o ← new_handle; pcap_did (DumpOpen o) ;; modify (fun f => f <| out_of := Open o |>) ;; mret true
    else mret false.
Definition setup_infile (opens : bool) : M pcap_files bool :=
  if negb opens then mret false
  else
    ppol ← new_handle;
    pcap_did (OpenOffline ppol) ;;
    old ← gets pol;
    (match old with Open h => pcap_did (PcapClose h) | Null => mret tt | Astray => fail OutOfBounds end) ;;
    modify (fun f => f <| pol := Open ppol |>) ;;
    mret true.
Definition setup_outfile (outfile dead dump : bool) (link : Z) : M pcap_files bool :=
  go ← (if outfile then
          if negb dead then mret None
          else
            h ← new_handle;
            pcap_did (PcapDead h link) ;;
            if dump then o ← new_handle; pcap_did (DumpOpen o) ;; mret (Some (Open o)) else mret None
        else mret (Some Null) : M pcap_files (option handle));
  match go : option handle with
  | None => mret false
  | Some out => modify (fun f => f <| link_of := link |> <| out_of := out |>) ;; mret true
  end.
Definition DLT_EN10MB : Z := 1.
(** [setup_infile_outfile] on the interface that was found; [infile] is the link type of
    the file that is read, when one is given. *)
Definition setup_infile_outfile (infile : option (bool * Z)) (outfile dead dump : bool) : M pcap_files bool :=
  modify (fun f => f <| link_of := DLT_EN10MB |>) ;;
  go ← (match infile with
        | None => mret true
        | Some (opens, link) =>
            ok ← setup_infile opens;
            (if ok : bool then modify (fun f => f <| link_of := link |>) ;; mret true else mret false)
        end : M pcap_files bool);
  if go : bool then link ← gets link_of; setup_outfile outfile dead dump link else mret false.
(** [process_infile] up to the packets: the interface may not be there. *)
Definition process_infile (found : bool) (infile : option (bool * Z)) (outfile dead dump : bool) : M pcap_files bool :=
  if found then setup_infile_outfile infile outfile dead dump else fail NullDeref.
(** The constructor sets none of the pointers. *)
Definition new_pcap_files (link : Z) : pcap_files := mk_files link Astray Astray 0 [].

(** * What is read and asked for *)

Lemma digits_zero ds rest acc : 0 <= acc -> Forall (fun c => 48 <= c <= 57) ds -> hex_value rest = None ->
  (digits_of 10 acc (ds ++ [rest]) = 0 <-> acc = 0 /\ forallb (Z.eqb 48) ds = true) /\ 0 <= digits_of 10 acc (ds ++ [rest]).
Proof.
  intros Hacc Hds Hr. revert acc Hacc. induction Hds as [|c ds Hc _ IH]; intros acc Hacc; cbn [app digits_of forallb].
  - rewrite Hr. split; [|done]. split; [|tauto]. intros ->. done.
  - assert (hex_value c = Some (c - 48)) as ->.
    { unfold hex_value. by rewrite !(proj2 (Z.leb_le _ _)) by lia. }
    rewrite (proj2 (Z.ltb_lt _ _)) by lia. destruct (IH (acc * 10 + (c - 48)) ltac:(lia)) as [Hz Hn]. split; [|done].
    rewrite Hz, andb_true_iff. split.
    + intros [He Hf]. split; [lia|]. split; [|done]. apply Z.eqb_eq. lia.
    + intros [-> [He%Z.eqb_eq Hf]]. split; [lia|done].
Qed.

Lemma strtoul10_digits ds : Forall (fun c => 48 <= c <= 57) ds -> ds <> [] ->
  strtoul10 (ds ++ [10]) = if digits_of 10 0 (ds ++ [10]) >? ULONG_MAX then ULONG_MAX else digits_of 10 0 (ds ++ [10]).
Proof.
  intros Hds Hne. destruct ds as [|c ds]; [done|]. apply Forall_cons in Hds as [Hc _].
  assert (c = 48 \/ c = 49 \/ c = 50 \/ c = 51 \/ c = 52 \/ c = 53 \/ c = 54 \/ c = 55 \/ c = 56 \/ c = 57) as Hd by lia.
  by repeat destruct Hd as [->|Hd]; subst.
Qed.

(** The switch of the kernel is read for what it says: a number and the end of the line. *)
Lemma disable_ipv6_read ds junk : Forall (fun c => 48 <= c <= 57) ds -> ds <> [] -> (length ds <= 62)%nat -> length junk = 64%nat ->
  system_get_disable_ipv6 (Some (Some (ds ++ [10]))) junk = Ok (negb (forallb (Z.eqb 48) ds)).
Proof.
  intros Hds Hne Hlen Hj. unfold system_get_disable_ipv6, system_get_sysctl.
  rewrite take_ge by (rewrite length_app; cbn; lia).
  assert (exists rest, wr_range junk 0 ((ds ++ [10]) ++ [0]) = Ok ((ds ++ [10]) ++ 0 :: rest)) as [rest ->].
  { exists (drop (length ((ds ++ [10]) ++ [0])) junk). pose proof (wr_splice [] junk ((ds ++ [10]) ++ [0])) as Hw. cbn [app] in Hw.
    change (zlen []) with 0 in Hw. rewrite Hw by (unfold zlen; rewrite !length_app; cbn [length]; lia). by rewrite <- (app_assoc (ds ++ [10])). }
  cbn [mbind outcome_bind]. rewrite bool_decide_true by (apply elem_of_app; right; left).
  assert (Forall (fun c => c <> 0) (ds ++ [10])) as Hnz.
  { apply Forall_app_2; [|by repeat constructor]. eapply Forall_impl; [exact Hds|]. cbn. lia. }
  rewrite (c_string_cut (ds ++ [10]) _ Hnz). do 2 f_equal. rewrite (strtoul10_digits ds Hds Hne).
  destruct (digits_zero ds 10 0 ltac:(lia) Hds eq_refl) as [Hz Hn].
  destruct (Z.gtb_spec (digits_of 10 0 (ds ++ [10])) ULONG_MAX) as [Hv|_].
  - destruct (forallb (Z.eqb 48) ds); [|done]. unfold ULONG_MAX in Hv. lia.
  - destruct (Z.eqb_spec (digits_of 10 0 (ds ++ [10])) 0) as [E|E]; destruct (forallb (Z.eqb 48) ds) eqn:Ef; try done.
    + by apply Hz in E as [_ ?].
    + exfalso. by apply E, Hz.
Qed.
(** When the switch cannot be opened, IPv6 is on or off as the memory of the buffer says. *)
Lemma missing_switch_reads_memory :
  system_get_disable_ipv6 None (49 :: zeros 63) = Ok true /\ system_get_disable_ipv6 None (zeros 64) = Ok false /\
  system_get_disable_ipv6 None (replicate 64 49) = Fault OutOfBounds.
Proof. by vm_compute. Qed.

(** An interface that is no 6LoWPAN interface is asked to have its EUI-48, whatever EUI-64
    it has been given. *)
Lemma hardware_gets_eui48 a s granted bytes n n' hatype ok hatype' calls : ifi_type n <> ARPHRD_6LOWPAN ->
  set_link_layer64 bytes 8 n = Ok (true, n') -> length (eui48 n) = 6%nat -> 0 <= s ->
  set_link_layer64_hw a s granted n' hatype = Ok (ok, hatype', calls) ->
  eui64 n' = take 8 bytes /\ exists pre family, calls = pre ++ [SetHwaddr s (String.substring 0 16 (if_name n)) family (eui48 n ++ zeros 8); HwClose s].
Proof.
  intros Hty Hset Hlen Hs Hhw. unfold set_link_layer64 in Hset. cbn [Z.eqb Pos.eqb] in Hset.
  destruct (rd_range bytes 0 8) as [src|] eqn:Er; [|done]. cbn [mbind outcome_bind] in Hset.
  rewrite (proj2 (Z.eqb_neq _ _)) in Hset by (destruct n; exact Hty). injection Hset as <-.
  unfold set_link_layer64_hw in Hhw. destruct (get_hatype _ _ _) as [[family h] pre].
  destruct n. cbn in Hlen, Hhw |- *. rewrite (take_ge eui48) in Hhw by lia.
  destruct eui48 as [|b0 [|b1 [|b2 [|b3 [|b4 [|b5 [|]]]]]]]; try done. cbn in Hhw. rewrite (proj2 (Z.ltb_ge _ _)) in Hhw by lia.
  injection Hhw as <- <- <-. split; [|by exists pre, (u16 family)].
  unfold rd_range in Er. destruct (_ && _) in Er; [|done]. by injection Er as <-.
Qed.

(** * Which files are open *)
Section files.
Implicit Types (f : pcap_files) (cs : list pcap_call).
Definition made cs : list nat := omap (fun c => match c with DumpOpen h | OpenOffline h => Some h | _ => None end) cs.
Definition ended cs : list nat := omap (fun c => match c with DumpClose h | PcapClose h => Some h | _ => None end) cs.
Definition holds_file (h : handle) : list nat := match h with Open h => [h] | _ => [] end.
(** Every file that was opened is closed or held, and none is held that was closed. *)
Definition files_kept f : Prop :=
  out_of f <> Astray /\ pol f <> Astray /\
  Permutation (made (calls_of f)) (ended (calls_of f) ++ holds_file (out_of f) ++ holds_file (pol f)).

(** What a program does with the files of an interface. *)
Inductive file_step := StepOut (dead dump : bool) (link : Z) | StepIn (opens : bool) | StepClose.
Definition do_step (st : file_step) : M pcap_files bool :=
  match st with
  | StepOut dead dump link => set_pcap_out dead dump link
  | StepIn opens => setup_infile opens
  | StepClose => close_pcap_files ;; mret true
  end.
(** The program exits at the first that fails. *)
Fixpoint do_steps (sts : list file_step) : M pcap_files bool :=
  match sts with
  | [] => mret true
  | st :: sts => go ← do_step st; if go : bool then do_steps sts else mret false
  end.

Ltac run_files := unfold set_pcap_out, setup_infile, close_pcap_files, new_handle, pcap_did, mbind, M_bind, gets, modify, mret, M_ret; cbn.
Lemma step_kept st f : files_kept f -> exists r f', do_step st f = Ok (r, f') /\ files_kept f'.
Proof.
  destruct f as [link o p n cs]. intros (Ho & Hp & Hperm). cbn in Ho, Hp, Hperm.
  destruct o as [|ho|]; [| |done]; (destruct p as [|hp|]; [| |done]); cbn in Hperm;
    destruct st as [[] [] ?|[]|]; cbn [do_step]; run_files; (eexists _, _; split; [reflexivity|]); split_and!; try done; cbn;
    try exact Hperm; rewrite Hperm; solve_Permutation.
Qed.

(** Setting up the files of an interface over recorded packets loses none of those
    that are read or written: along every sequence of opening an output, opening an
    input and closing the output, which does not fault, each file that has been opened
    is closed once or is the one the interface holds, also when a file cannot be opened
    and the program exits. *)
Lemma files_are_kept sts : forall f, files_kept f -> exists r f', do_steps sts f = Ok (r, f') /\ files_kept f'.
Proof.
  induction sts as [|st sts IH]; intros f Hf; cbn [do_steps]; [by exists true, f|].
  destruct (step_kept st f Hf) as (r & f1 & E & Hf1). rewrite (bind_ok _ _ f r f1 E).
  destruct r; [by apply IH|by exists false, f1].
Qed.

(** [setup_outfile] forgets the file that is open. *)
Lemma outfile_forgotten h link f : files_kept f -> out_of f = Open h ->
  h ∉ ended (calls_of f) -> pol f <> Open h -> (h < fresh f)%nat ->
  exists f', setup_outfile true true true link f = Ok (true, f') /\
    h ∈ made (calls_of f') /\ (h ∉ ended (calls_of f')) /\ out_of f' <> Open h /\ pol f' <> Open h.
Proof.
  intros (_ & _ & Hperm) Ho He Hp Hlt. destruct f as [l o p n cs]. cbn in *. subst o.
  eexists. split; [reflexivity|]. cbn. split_and!; [|done|intros [= E]; lia|done].
  right. rewrite Hperm. set_solver.
Qed.
(** The constructor leaves the pointers as the memory was: the first output and the first
    input of an interface follow them. *)
Lemma first_file_astray link dump l' : set_pcap_out true dump l' (new_pcap_files link) = Fault OutOfBounds /\
  setup_infile true (new_pcap_files link) = Fault OutOfBounds.
Proof. done. Qed.
Lemma files_are_kept_witness : exists f', do_steps [StepOut true true 1; StepIn true; StepOut true false 1; StepIn true] (mk_files 1 Null Null 0 []) = Ok (false, f') /\
  files_kept f' /\ out_of f' = Null.
Proof.
  destruct (files_are_kept [StepOut true true 1; StepIn true; StepOut true false 1; StepIn true] (mk_files 1 Null Null 0 [])) as (r & f' & E & Hk);
    [by split_and!|].
  exists f'. assert (E' := E). vm_compute in E'. injection E' as <- <-. split; [exact E|]. split; [exact Hk|done].
Defined.
End files.
