(* ===== verification/Grasp.v ===== *)
(** The connection to the registrar, in bytes: [lib/libgrasp/client.cpp] and
    [rnd_regress.cpp].  Descriptors and the system calls on them are explicit;
    [libcbor], which turns items into bytes and back, is a parameter. *)

From Stdlib Require Import ZArith Lia String Ascii.
From stdpp Require Import base list gmap numbers strings.
From S2P Require Import Prelude Text State Iface Neighbour.
#[local] Open Scope Z_scope.

(** * The connection *)
Record grasp_fds := mk_fds { infd : Z; outfd : Z }.
Inductive net_call := Close (fd : Z) | Connect (fd family port : Z).
Definition AF_INET : Z := 2.
Definition AF_INET6_ : Z := 10.
(** An address [getaddrinfo] gives: what [socket] answers for it, and whether
    [connect] succeeds. *)
Record addrinfo := mk_ai { ai_family : Z; ai_socket : Z; ai_connects : bool }.

(** [htons(port)] goes into the two families that are known. *)
Definition port_of (family port : Z) : Z :=
  if (family =? AF_INET) || (family =? AF_INET6_) then u16 port else 0.
(** The loop over the addresses: the socket that is connected, and the calls. *)
Fixpoint try_addresses (port : Z) (res : list addrinfo) : option Z * list net_call :=
  match res with
  | [] => (None, [])
  | rp :: res' =>
      if ai_socket rp =? -1 then try_addresses port res'
      else
        let call := Connect (ai_socket rp) (ai_family rp) (port_of (ai_family rp) port) in
        if ai_connects rp then (Some (ai_socket rp), [call])
        else let '(r, calls) := try_addresses port res' in (r, call :: Close (ai_socket rp) :: calls)
  end.
Definition close_old (g : grasp_fds) : list net_call :=
  (if negb (infd g =? outfd g) && negb (outfd g =? -1) then [Close (outfd g)] else []) ++
  (if negb (infd g =? -1) then [Close (infd g)] else []).
(** [lookup] is [None] when [getaddrinfo] fails. *)
Definition open_connection (lookup : option (list addrinfo)) (port : Z) (g : grasp_fds) : bool * grasp_fds * list net_call :=
  let old := close_old g in
  match lookup with
  | None => (false, mk_fds (-1) (-1), old)
  | Some res =>
      let '(r, calls) := try_addresses port res in
      match r with
      | None => (false, mk_fds (-1) (-1), old ++ calls)
      | Some sfd => (true, mk_fds sfd sfd, old ++ calls)
      end
  end.
(** [open_fake_connection]: the answers of the two [open]s. *)
Definition open_fake_connection (in_fd out_fd : Z) (g : grasp_fds) : bool * grasp_fds :=
  if in_fd =? -1 then (false, mk_fds (-1) (outfd g)) else (negb (out_fd =? -1), mk_fds in_fd out_fd).

(** * Items as bytes *)
Class Libcbor := {
  cbor_serialize : cbor -> list Z;
  (** [cbor_load(p, length)] on the memory from [p] on: [None] is null *)
  cbor_load : list Z -> Z -> outcome (option cbor)
}.
Section client.
Context `{Libcbor}.

(** [send_cbor]: [write] answers what it has taken, or -1. *)
Definition wrote_all (wrote : Z) (query : cbor) : bool :=
  wrote mod 18446744073709551616 =? zlen (cbor_serialize query).
(** [read_cbor]: [read] fails, or gives what has arrived, of which the buffer takes 256
    bytes.  The count is unsigned. *)
Definition read_cbor (received : option (list Z)) (buf : list Z) : outcome (option cbor) :=
  let got := take 256 (default [] received) in
  let cnt := u32 (match received with Some _ => zlen got | None => -1 end) in
  if cnt =? 0 then Ok None else cbor_load (got ++ drop (length got) buf) cnt.
(** [grasp_client::process_grasp_reply] *)
Definition process_reply (i : nat) (received : option (list Z)) : M sys bool :=
  s ← get;
  reply ← lift (read_cbor received (take 256 (junk_bytes s)));
  client_reply i reply.
End client.

(** * What the connection does with descriptors *)
Section descriptors.
Implicit Types (g : grasp_fds) (res : list addrinfo).

(** The sockets that are made, and the descriptors that are closed. *)
Definition opened (calls : list net_call) : list Z := omap (fun c => match c with Connect fd _ _ => Some fd | Close _ => None end) calls.
Definition closed (calls : list net_call) : list Z := omap (fun c => match c with Close fd => Some fd | Connect _ _ _ => None end) calls.
Definition held g : list Z := (if infd g =? -1 then [] else [infd g]) ++ (if (outfd g =? -1) || (outfd g =? infd g) then [] else [outfd g]).

Lemma opened_connect fd f p calls : opened (Connect fd f p :: calls) = fd :: opened calls.
Proof. done. Qed.
Lemma opened_close fd calls : opened (Close fd :: calls) = opened calls.
Proof. done. Qed.
Lemma closed_connect fd f p calls : closed (Connect fd f p :: calls) = closed calls.
Proof. done. Qed.
Lemma closed_close fd calls : closed (Close fd :: calls) = fd :: closed calls.
Proof. done. Qed.
Lemma opened_app l k : opened (l ++ k) = opened l ++ opened k.
Proof. apply omap_app. Qed.
Lemma closed_app l k : closed (l ++ k) = closed l ++ closed k.
Proof. apply omap_app. Qed.

Lemma try_addresses_spec port res r calls : try_addresses port res = (r, calls) ->
  match r with
  | Some sfd => exists pre rp post, res = pre ++ rp :: post /\ sfd = ai_socket rp /\ ai_connects rp = true /\ sfd <> -1 /\
      Forall (fun a => ai_socket a = -1 \/ ai_connects a = false) pre /\
      opened calls = closed calls ++ [sfd] /\ last calls = Some (Connect sfd (ai_family rp) (port_of (ai_family rp) port))
  | None => Forall (fun a => ai_socket a = -1 \/ ai_connects a = false) res /\ opened calls = closed calls
  end.
Proof.
  revert r calls. induction res as [|rp res IH]; intros r calls; cbn [try_addresses]; [by intros [= <- <-]|].
  destruct (Z.eqb_spec (ai_socket rp) (-1)) as [Hs|Hs].
  - intros E. specialize (IH _ _ E). destruct r as [sfd|].
    + destruct IH as (pre & rp' & post & -> & ? & ? & ? & ? & ? & ?). exists (rp :: pre), rp', post.
      split_and!; try done. constructor; [by left|done].
    + destruct IH as [? ?]. split; [|done]. constructor; [by left|done].
  - destruct (ai_connects rp) eqn:Hc.
    + intros [= <- <-]. by exists [], rp, res.
    + destruct (try_addresses port res) as [r' calls'] eqn:E. intros [= <- <-]. specialize (IH _ _ eq_refl). destruct r' as [sfd|].
      * destruct IH as (pre & rp' & post & -> & ? & ? & ? & ? & Ho & Hl). exists (rp :: pre), rp', post.
        rewrite opened_connect, opened_close, closed_connect, closed_close, Ho.
        split_and!; try done; [constructor; [by right|done]|]. destruct calls'; [done|exact Hl].
      * destruct IH as [? Ho]. rewrite opened_connect, opened_close, closed_connect, closed_close, Ho.
        split; [constructor; [by right|done]|done].
Qed.

Lemma close_old_spec g : opened (close_old g) = [] /\ Permutation (closed (close_old g)) (held g).
Proof.
  unfold close_old, held. destruct (Z.eqb_spec (infd g) (outfd g)) as [E|E]; cbn [negb andb].
  - rewrite E, Z.eqb_refl, orb_true_r. destruct (outfd g =? -1); done.
  - replace (outfd g =? infd g) with false by (symmetry; apply Z.eqb_neq; lia). rewrite orb_false_r.
    destruct (outfd g =? -1), (infd g =? -1); split; try done. constructor.
Qed.

Lemma held_one fd : fd <> -1 -> held (mk_fds fd fd) = [fd].
Proof. intros Hn%Z.eqb_neq. unfold held. cbn. by rewrite Hn, Z.eqb_refl, orb_true_r. Qed.

(** C29: Opening the connection to the registrar loses no descriptor and connects where it
    should: every descriptor the client held and every socket it makes is closed once or
    held by the client afterwards; it succeeds exactly when some address of the list
    gives a socket that connects, and then the client reads from and writes to the socket
    of the first such address; when it fails, or the name has no address, the client holds
    none. *)
Theorem open_connection_keeps_descriptors lookup port g ok g' calls :
  open_connection lookup port g = (ok, g', calls) ->
  Permutation (held g ++ opened calls) (closed calls ++ held g') /\
  (ok = true <-> exists a, a ∈ default [] lookup /\ ai_socket a <> -1 /\ ai_connects a = true) /\
  (ok = false -> held g' = []) /\
  (ok = true -> exists pre rp post, lookup = Some (pre ++ rp :: post) /\ g' = mk_fds (ai_socket rp) (ai_socket rp) /\
     last calls = Some (Connect (ai_socket rp) (ai_family rp) (port_of (ai_family rp) port)) /\
     Forall (fun a => ai_socket a = -1 \/ ai_connects a = false) pre).
Proof.
  unfold open_connection. destruct (close_old_spec g) as [Ho Hc].
  destruct lookup as [res|]; [destruct (try_addresses port res) as [r cs] eqn:E; pose proof (try_addresses_spec _ _ _ _ E) as Hs|].
  - destruct r as [sfd|]; intros [= <- <- <-].
    + destruct Hs as (pre & rp & post & -> & -> & Hr & Hn & Hpre & Hoc & Hl).
      rewrite opened_app, closed_app, Ho, Hoc. split_and!; [|split; [intros _|done]|done|intros _].
      * rewrite (held_one _ Hn), <- Hc. cbn [app]. by rewrite app_assoc.
      * exists rp. split; [|done]. cbn. set_solver.
      * exists pre, rp, post. split_and!; try done. rewrite last_app, Hl. done.
    + destruct Hs as [Hall Hoc]. rewrite opened_app, closed_app, Ho, Hoc.
      split_and!; [|split; [done|]|done|done]; [by rewrite app_nil_r, <- Hc|].
      intros (a & Ha & Hn & Hr). cbn in Ha. rewrite Forall_forall in Hall. destruct (Hall a Ha); congruence.
  - intros [= <- <- <-]. rewrite Ho. split_and!; [|split; [done|]|done|done]; [by rewrite !app_nil_r, <- Hc|].
    intros (a & Ha & _). cbn in Ha. set_solver.
Qed.
End descriptors.

(** * What the registrar's bytes do *)

(** What the client relies on: [cbor_load] gives the first item of what it is told has
    arrived, whatever lies behind it, and null when the item is not complete. *)
Class LibcborLaws `{Libcbor} := {
  encodable : cbor -> Prop;
  load_item q post cnt : encodable q ->
    zlen (cbor_serialize q) <= cnt <= zlen (cbor_serialize q ++ post) ->
    cbor_load (cbor_serialize q ++ post) cnt = Ok (Some q);
  load_cut q n post : encodable q -> (n < length (cbor_serialize q))%nat ->
    cbor_load (take n (cbor_serialize q) ++ post) (Z.of_nat n) = Ok None;
  serialize_pos q : encodable q -> 0 < zlen (cbor_serialize q)
}.

Section replies.
Context `{LibcborLaws}.

(** A buffer is overwritten from its start. *)
Lemma take_256_length (bs : list Z) : zlen (take 256 bs) <= 256.
Proof. unfold zlen. rewrite length_take. lia. Qed.

Lemma read_cbor_some q more buf : encodable q ->
  read_cbor (Some (cbor_serialize q ++ more)) buf =
    if zlen (cbor_serialize q) <=? 256 then Ok (Some q) else Ok None.
Proof.
  intros Hq. unfold read_cbor. pose proof (serialize_pos q Hq) as Hp. set (e := cbor_serialize q) in *.
  change (default [] (Some (e ++ more))) with (e ++ more). set (got := take 256 (e ++ more)). cbv zeta.
  pose proof (take_256_length (e ++ more)) as Hg. fold got in Hg. pose proof (zlen_nonneg got) as Hn.
  rewrite (u32_small (zlen got)) by lia. destruct (Z.leb_spec (zlen e) 256) as [Hle|Hlt].
  - assert (Hgot : got = e ++ take (256 - length e) more).
    { unfold got. rewrite take_app, take_ge; [done|]. unfold zlen in Hle. lia. }
    clearbody got. assert (zlen e <= zlen got) by (rewrite Hgot, zlen_app; pose proof (zlen_nonneg (take (256 - length e) more)); lia).
    replace (zlen got =? 0) with false by (symmetry; apply Z.eqb_neq; lia).
    replace (got ++ drop (length got) buf) with (e ++ (take (256 - length e) more ++ drop (length got) buf)) by (rewrite app_assoc; f_equal; by symmetry).
    apply load_item; [done|]. split; [done|]. rewrite app_assoc. fold e. rewrite <- Hgot, zlen_app.
    pose proof (zlen_nonneg (drop (length got) buf)). lia.
  - assert (Hl : (256 < length e)%nat) by (unfold zlen in Hlt; lia).
    assert (Hgot : got = take 256 e) by (unfold got; rewrite take_app_le by lia; done).
    assert (Hz : zlen got = Z.of_nat 256) by (rewrite Hgot; unfold zlen; rewrite length_take; lia).
    rewrite Hz. change (Z.of_nat 256 =? 0) with false. cbv iota. rewrite Hgot. by apply load_cut.
Qed.

(** C28: What arrives from the registrar acts as the first item of it, whatever the buffer
    held before and whatever has arrived behind that item, provided the item takes at most
    256 bytes; the bytes behind it are dropped.  A longer item, of which one [read] takes
    only the first 256 bytes, changes nothing at all: the query stays outstanding.  A
    connection that has ended changes nothing either. *)
Theorem reply_bytes_act_as_item i q more s : encodable q ->
  process_reply i (Some (cbor_serialize q ++ more)) s =
    (if zlen (cbor_serialize q) <=? 256 then client_reply i (Some q) s else Ok (false, s)) /\
  process_reply i (Some []) s = Ok (false, s).
Proof.
  intros Hq. split; [|done]. unfold process_reply, mbind, get. cbn. unfold lift.
  rewrite (read_cbor_some q more _ Hq). by destruct (zlen (cbor_serialize q) <=? 256).
Qed.

(** When [read] fails its -1 becomes a length: the whole address space behind the old
    contents of the buffer is given to [cbor_load]. *)
Lemma failed_read_decodes_old_bytes buf : read_cbor None buf = cbor_load buf 4294967295.
Proof. done. Qed.
End replies.

(** * A codec that keeps the laws: CBOR with every head of five bytes *)
Module Codec.
Definition head (major n : Z) : list Z := (major * 32 + 26) :: be32 n.
Definition chars (bs : list Z) : string := string_of_list_ascii ((fun b => ascii_of_nat (Z.to_nat b)) <$> bs).
Fixpoint enc (c : cbor) : list Z :=
  match c with
  | CUint n => head 0 n
  | CText s => head 3 (zlen (codes s)) ++ codes s
  | CBytes b => head 2 (zlen b) ++ b
  | CArray items => head 4 (zlen items) ++ concat (map enc items)
  end.
Fixpoint decs (d : list Z -> option (cbor * list Z)) (n : nat) (bs : list Z) : option (list cbor * list Z) :=
  match n with
  | 0%nat => Some ([], bs)
  | S n => '(c, bs) ← d bs; '(cs, bs) ← decs d n bs; Some (c :: cs, bs)
  end.
(** One item of the given depth at most, and what lies behind it. *)
Fixpoint dec (depth : nat) (bs : list Z) : option (cbor * list Z) :=
  match depth, bs with
  | S depth, h :: a :: b :: c :: d :: bs =>
      let n := be32_val a b c d in
      if h =? 26 then Some (CUint n, bs)
      else if h =? 154 then '(items, bs) ← decs (dec depth) (Z.to_nat n) bs; Some (CArray items, bs)
      else if negb (Z.of_nat (Z.to_nat n) <=? zlen bs) then None
      else if h =? 90 then Some (CBytes (take (Z.to_nat n) bs), drop (Z.to_nat n) bs)
      else if h =? 122 then Some (CText (chars (take (Z.to_nat n) bs)), drop (Z.to_nat n) bs)
      else None
  | _, _ => None
  end.
Fixpoint small (depth : nat) (c : cbor) : Prop :=
  match depth with
  | 0%nat => False
  | S depth => match c with
               | CUint n => 0 <= n < 4294967296
               | CText s => zlen (codes s) < 4294967296
               | CBytes b => zlen b < 4294967296
               | CArray items => zlen items < 4294967296 /\ Forall (small depth) items
               end
  end.

Lemma chars_codes s : chars (codes s) = s.
Proof.
  unfold chars, codes. rewrite <- list_fmap_compose.
  rewrite <- (string_of_list_ascii_of_string s) at 2. f_equal.
  rewrite <- (list_fmap_id (list_ascii_of_string s)) at 2. apply list_fmap_ext. intros _ a _. cbn.
  by rewrite Nat2Z.id, ascii_nat_embedding.
Qed.

Lemma dec_enc depth c post : small depth c -> dec depth (enc c ++ post) = Some (c, post).
Proof.
  revert c post. induction depth as [|depth IH]; intros c post Hs; [done|].
  destruct c as [n|s|b|items]; cbn [enc head be32 app dec]; cbn [small] in Hs.
  - by rewrite be32_val_be32 by lia.
  - pose proof (zlen_nonneg (codes s)). rewrite be32_val_be32 by lia. cbn.
    rewrite (proj2 (Z.leb_le _ _)) by (rewrite zlen_app; pose proof (zlen_nonneg post); lia). cbn.
    unfold zlen. rewrite Nat2Z.id, take_app_length, drop_app_length, chars_codes. done.
  - pose proof (zlen_nonneg b). rewrite be32_val_be32 by lia. cbn.
    rewrite (proj2 (Z.leb_le _ _)) by (rewrite zlen_app; pose proof (zlen_nonneg post); lia). cbn.
    unfold zlen. rewrite Nat2Z.id, take_app_length, drop_app_length. done.
  - destruct Hs as [Hn Hs]. pose proof (zlen_nonneg items). rewrite be32_val_be32 by lia. cbn [Z.eqb Pos.eqb Z.mul Z.add Pos.mul Pos.add].
    enough (decs (dec depth) (length items) (concat (map enc items) ++ post) = Some (items, post)) as E.
    { unfold zlen. rewrite Nat2Z.id. cbn. by rewrite E. }
    clear Hn. induction Hs as [|c items Hc Hs IHs]; [done|]. cbn.
    rewrite <- app_assoc, (IH c _ Hc). cbn. by rewrite IHs by apply zlen_nonneg.
Qed.

(** Bytes behind a complete item change nothing. *)
Lemma dec_extends depth bs c rest post :
  dec depth bs = Some (c, rest) -> dec depth (bs ++ post) = Some (c, rest ++ post).
Proof.
  revert bs c rest. induction depth as [|depth IH]; intros bs c rest; [done|].
  destruct bs as [|h [|a0 [|b0 [|c0 [|d0 bs]]]]]; try done. cbn [dec app].
  set (n := Z.to_nat (be32_val a0 b0 c0 d0)). destruct (h =? 26); [by intros [= <- <-]|]. destruct (h =? 154).
  - assert (forall m bs cs rest, decs (dec depth) m bs = Some (cs, rest) -> decs (dec depth) m (bs ++ post) = Some (cs, rest ++ post)) as E.
    { intros m. induction m as [|m IHm]; intros bs' cs rest'; cbn; [by intros [= <- <-]|].
      destruct (dec depth bs') as [[c1 r1]|] eqn:E1; [|done]. cbn. rewrite (IH _ _ _ E1). cbn.
      destruct (decs (dec depth) m r1) as [[cs1 r2]|] eqn:E2; [|done]. rewrite (IHm _ _ _ E2). cbn. by intros [= <- <-]. }
    destruct (decs (dec depth) n bs) as [[cs r]|] eqn:E1; [|done]. rewrite (E _ _ _ _ E1). by intros [= <- <-].
  - destruct (Z.leb_spec (Z.of_nat n) (zlen bs)) as [Hl|]; [|done]. rewrite (proj2 (Z.leb_le _ _)) by (rewrite zlen_app; pose proof (zlen_nonneg post); lia).
    cbn [negb]. unfold zlen in Hl. rewrite take_app_le, drop_app_le by lia.
    destruct (h =? 90); [by intros [= <- <-]|]. destruct (h =? 122); [by intros [= <- <-]|done].
Qed.

Lemma enc_head c : exists h a b c' d bs, enc c = h :: a :: b :: c' :: d :: bs.
Proof. destruct c; cbn; unfold head, be32; cbn; by repeat eexists. Qed.

#[export] Instance codec : Libcbor := {
  cbor_serialize := enc;
  cbor_load mem cnt := Ok (fst <$> dec 16 (take (Z.to_nat cnt) mem))
}.
#[export] Program Instance codec_laws : LibcborLaws := { encodable := small 16 }.
Next Obligation.
  intros q post cnt Hq [Hl Hu]. cbv [cbor_load cbor_serialize codec] in *. unfold zlen in Hl. rewrite take_app_ge, dec_enc by (done || lia). done.
Qed.
Next Obligation.
  intros q n post Hq Hn. cbv [cbor_load cbor_serialize codec] in *. rewrite Nat2Z.id. do 2 f_equal. rewrite take_app_le, take_take, Nat.min_id by (rewrite length_take; lia).
  destruct (dec 16 (take n (enc q))) as [[c rest]|] eqn:E; [|done].
  apply (dec_extends _ _ _ _ (drop n (enc q))) in E. rewrite take_drop in E.
  pose proof (dec_enc 16 q [] Hq) as E'. rewrite app_nil_r in E'. rewrite E in E'. injection E' as _ E'.
  apply (f_equal length) in E'. rewrite length_app, length_drop in E'. cbn in E'. lia.
Qed.
Next Obligation. intros q _. cbn. destruct (enc_head q) as (h & a & b & c & d & bs & ->). unfold zlen. cbn. lia. Qed.
End Codec.

(** * Witnesses *)
Section witnesses.
Import Codec.
(** Two addresses: the first gives a socket that does not connect. *)
Definition example_lookup : option (list addrinfo) := Some [mk_ai AF_INET6_ 7 false; mk_ai AF_INET 8 true].
Definition example_old : grasp_fds := mk_fds 5 6.
Definition example_calls : list net_call :=
  [Close 6; Close 5; Connect 7 AF_INET6_ 3788; Close 7; Connect 8 AF_INET 3788].
Definition example_sys : sys := Example.sys.
Definition example_reply : cbor := CArray [CUint M_END; CUint 123457; CArray [CUint O_ACCEPT]].
Definition example_long : cbor := CBytes (zeros 300).

Lemma open_connection_keeps_descriptors_witness :
  Permutation (held example_old ++ opened example_calls) (closed example_calls ++ held (mk_fds 8 8)).
Proof.
  destruct (open_connection_keeps_descriptors example_lookup 3788 example_old true (mk_fds 8 8) example_calls) as [Hp _];
    [vm_compute; reflexivity|exact Hp].
Defined.

Lemma example_reply_encodable : encodable example_reply.
Proof. cbn. unfold zlen, M_END, O_ACCEPT. repeat first [done|lia|constructor; cbn]. Qed.

Lemma reply_bytes_act_as_item_witness :
  process_reply 0 (Some (Codec.enc example_reply ++ [1; 2; 3])) example_sys = client_reply 0 (Some example_reply) example_sys.
Proof. exact (proj1 (reply_bytes_act_as_item 0 example_reply [1; 2; 3] example_sys example_reply_encodable)). Defined.

(** A long item is lost. *)
Example long_reply_lost : process_reply 0 (Some (Codec.enc example_long)) example_sys = Ok (false, example_sys).
Proof. vm_compute. reflexivity. Qed.
End witnesses.
